(* ===== verification/_CoqProject ===== *)
-Q . S2P
Prelude.v
GoStrings.v
Errors.v
OvhTypes.v
ApiTypes.v
Effects.v
Client.v
Names.v
StringFacts.v
NamesFacts.v
Logic.v
ClientFacts.v
NodeInit.v
Etcd.v
ClusterController.v
MachineController.v
ClusterFacts.v
ClusterDeleteFacts.v
ClusterStepFacts.v
FloatingIPFacts.v
ClusterReconcileFacts.v
MachineFacts.v
MachineStatusFacts.v
MachineReconcileFacts.v
MachineLifecycle.v
MachinePoolFacts.v
NodeFacts.v
V1Alpha1.v
Conversion.v
Webhooks.v
ApiFacts.v
ConversionFacts.v
Startup.v
Metrics.v
GoMemory.v
MemoryFacts.v
DeepCopyLibs.v
DeepCopyV1.v
DeepCopyV2.v
DeepCopyFacts.v
ClusterLimits.v
RequestFacts.v
SimServer.v
ClusterExamples.v
MachineExamples.v
Platform.v
PlatformLaws.v
ClusterInvariant.v
ClusterPass.v
ClusterConvergence.v
MachineConvergence.v
Faults.v
ClusterFaults.v
ClusterRecovery.v
Fleet.v
Removal.v
ClusterTeardown.v
MachineTeardown.v
CloudServer.v
ConvergenceExamples.v
RecoveryExamples.v
FleetExamples.v
TeardownExamples.v
