(* ===== verification/Prelude.v ===== *)
(** * cluster-api-provider-ovh: a verification library

    The program is a Cluster API infrastructure provider: two controllers bring
    the OVH resources behind an [OVHCluster] (network, load balancer, floating
    IP, security groups, DNS record) and an [OVHMachine] (one instance, its
    membership of the load balancer) to the state of the custom resource, and
    take them down again. They call the OVH API through [pkg/ovh], and the
    management and workload clusters through client-go. This library models the
    controllers, the API client, the helpers of [util], the API types with their
    conversions and webhooks, and proves what they promise.

    ** How effects are modelled

    A computation is a [prog] (Effects): a finite tree of calls ([event]) and of
    all their possible answers. Everything outside the repository answers
    freely: go-ovh, the Kubernetes API servers, controller-runtime, the clock,
    the order in which [range] visits a map. A run is a trace of observed calls
    with a result ([exec p t r]); every tree is finite, so every computation
    returns ([Effects.exec_total]). A controller method threads the object it
    mutates through the state of [M S] ([prog] with a state); the object the
    caller sees is the final state, and the patch is an event. A theorem on [exec]
    holds whatever the services answer and wherever the calls fail. [run]
    executes a program against a concrete service; the witnesses use it.

    Errors ([error] in Errors) keep what the code observes: the text, the API
    error a chain of %w wrappings ends in, a sentinel. Go's [int] is [Z]: the
    code compares and copies it; the only computed values are the pauses of the
    retries, which are small. Strings are byte strings with Go's UTF-8 decoding
    (GoStrings).

    ** Files and sources

    - Prelude: results, searches in slices, tactics, list lemmas.
    - GoStrings: the functions of [strings], [strconv] and [fmt] that are used;
      StringFacts: their lemmas.
    - Errors: [src/pkg/ovh/errors.go]; OvhTypes: [src/pkg/ovh/types.go];
      Client: [src/pkg/ovh/client.go]; ClientFacts: their theorems.
    - ApiTypes: [src/api/v1alpha2/*_types.go]; V1Alpha1: [src/api/v1alpha1/*_types.go];
      Conversion: [src/api/v1alpha1/conversion.go]; Webhooks: the validators of
      [src/api/*/*_webhook.go]; ApiFacts and ConversionFacts: their theorems.
    - GoMemory: Go's pointers, slices and maps in a heap, and the blocks generated
      code is put together from; DeepCopyV1 and DeepCopyV2:
      [src/api/*/zz_generated.deepcopy.go], method by method; DeepCopyLibs: what they
      import; MemoryFacts and DeepCopyFacts: their theorems.
    - Names: [src/util/util.go] and [src/util/cloudinit.go]; NamesFacts.
    - NodeInit: [src/util/node_init.go]; Etcd: [src/util/etcd.go]; NodeFacts.
    - ClusterController: [src/internal/controller/ovhcluster_controller.go];
      ClusterFacts (normal reconciliation), ClusterDeleteFacts (deletion),
      ClusterStepFacts (single steps), FloatingIPFacts (the address of the control
      plane, and the endpoint that is published), ClusterReconcileFacts (the entry point,
      the watches, and the borders of a cluster), ClusterLimits (what a cluster cannot
      do).
    - MachineController: [src/internal/controller/ovhmachine_controller.go];
      MachineFacts (creation), MachineStatusFacts (status and life of a machine),
      MachinePoolFacts (pools), MachineReconcileFacts (deletion, entry point),
      MachineLifecycle (an abstract life cycle that the controller refines).
    - Startup: [src/cmd/main.go], the [SetupWithManager] methods, the registration
      of the webhooks and of the types; Metrics: [src/internal/metrics/metrics.go].
      Both come with their theorems.
    - RequestFacts: the types of the requests of both controllers, and the access
      rules of [src/docs/ovh-credentials-guide.md].
    - Platform: the state of an OVH project and of the management cluster, and
      runs of programs on a platform; PlatformLaws and Removal: the documented
      behaviour of the calls, as classes, with a lemma per client method.
      ClusterInvariant (what the passes over a cluster keep), ClusterPass (what each step
      of a pass does), ClusterConvergence and MachineConvergence: the objects become
      ready, and stay so. Faults: passes over a machine that fail or are cut off.
      ClusterFaults: calls that fail, before or after they took effect, and what the
      client's methods answer then; ClusterRecovery: a cluster gets over such passes. Fleet: a cluster
      and its machines, in turns. ClusterTeardown and MachineTeardown: deletions end.
      CloudServer: an executable platform that obeys the laws.
    - Logic: the program logic: [only] (every call satisfies a predicate), [keeps]
      (the object changes along a preorder), [wp], the inversion of runs, and the
      hint database [prog] that proves such judgements on whole operations.
    - SimServer: a scripted service; ClusterExamples and MachineExamples: the
      theorems applied to concrete runs against it; ConvergenceExamples,
      RecoveryExamples, FleetExamples and TeardownExamples: those that need a platform,
      on [CloudServer].

    A definition has the name of the Go function it translates; a part of a
    long function that is a definition of its own has a lower-case name
    ([ensure_listener] in [reconcileLBPort], [recorded_instance] in
    [ReconcileNormal]). A Go closure over an object's field ([*string]) is a pair
    of a getter and a setter ([ptr]).

    ** What is proved

    - The client: the retry policy as an exact description of the runs
      ([retryWithBackoff_exact]), deletions that tolerate absence, the creation
      of a load balancer as at most one POST that always returns, the error
      classification through wrappings and its text fallback.
    - The cluster: what readiness means, that a live cluster deletes nothing and
      a deleted one creates nothing, that the finalizer comes first and goes last
      (only after the API acknowledged the deletions), which network may be
      deleted, that a published endpoint stays, that a pass always ends with its
      patch; idempotence of the listener, pool and monitor steps; when a floating IP is
      allocated, and where the published address comes from.
    - The machine: at most one instance and only when all lookups found none;
      a status that is a function of the instance found, over any number of
      passes; deletion that touches its own resources only; the finalizer; the
      membership of the pools; the one panic.
    - On a platform that obeys, when the provider has finished what a pass waits for: a
      cluster of the [admissible] specifications is complete after at most four passes
      in a row, or five with a floating IP, and its endpoint is the address of its
      control plane ([cluster_converges]), also when any number of passes before them
      failed at any call, died, or found the provider at work ([cluster_recovers]); a
      machine is after three that find no instance or an ACTIVE one, those that find
      another return and do not count ([machine_converges]); the two
      compose to a control plane that is reachable at the published endpoint
      ([control_plane_reachable]); a pass over what is complete changes nothing
      ([cluster_stable], [machine_stable]). A whole fleet comes up whatever the order
      of the passes over the cluster and its machines, also when some of them fail or
      die half-way ([fleet_converges]), and no two machines that adopt none share an
      instance. A deleted cluster is taken down after three passes that find its earlier
      deletions carried out and its network free of instances ([cluster_taken_down]),
      and a deleted machine after two that do not find its instance going
      ([machine_taken_down]).
    - As a refinement: every pass over a machine takes one step of an abstract life
      cycle, on the evidence it has of OVH ([machine_refines_lifecycle]).
    - The requests: every one has a type and stays within its project, but for the
      DNS zones ([requests_sound]); the rules of the guide grant less.
    - Nodes and etcd: convergence of the node initialisation against an API
      server that obeys, and which member can be removed.
    - Names and provider IDs: validity of every generated name, parsing as the
      inverse of building; the conversions of all kinds as one contract of exact round
      trips with their losses ([conversions_lossless]); what the webhooks admit, as a
      declarative specification ([admission_spec]).
    - Deep copies: a copy has the content of its original and shares no memory with
      it, for every type of both versions ([deep_copies_separate]).
    - The process: it starts only when everything is registered, in the order of a
      plan, and reports the first failure by its exit code ([main_spec]); what it
      registers is in its scheme, and no metric makes it panic.
    - Behaviours that look unintended, as theorems too: text that counts as
      NotFound, truncated names that collide, a health monitor shared by name,
      the deletion of other clusters' load balancers by prefix, the deletion of an
      adopted network, the loss of fields in a conversion, a cluster that never
      becomes ready, the port that a vanished load balancer leaves behind, the
      network that is made without a lookup, the adopted floating IP that is published
      and never attached.

    ** Bounds

    The loops of the code are bounded: [retry_loop] and [poll_lb] recurse on the
    attempts that are left (5 retries, 10 polls, the constants of the code), the
    others on the list they range over, the UTF-8 decoder and the string
    functions on the string. No fuel is added. The number of passes in a liveness
    theorem ([leads fine between n]: the first pass and at most [n] more; [paced fine
    due between k n]: of [k] passes, [k] being arbitrary, those that start [due]) is
    that of the stages of the object, and the examples reach it: a cluster waits after its
    finalizer, its network, its load balancer, and the floating IP it asks for
    ([stages]); a machine after its finalizer and its instance; a deletion for the
    floating IPs and for the gateway.

    ** Parameters

    [Unicode]: the case tables from 0x80 on. [CAPI]: conditions, finalizers,
    annotations and timestamps of the Cluster API library, with its documented
    laws in [CAPILaws] ([simple_capi] is an instance). [Prometheus]: the registry
    ([simple_prometheus]). [svc] in Startup: the answers of controller-runtime. [MemberJSON]: the decoding of
    the answer of etcdctl. [Platform]: a step relation for every call, with the
    documented laws [KubeLaws], [NetworkLaws], [ComputeLaws], [MachineLaws] and
    [RemovalLaws], and [Live] (every call is answered); [CloudServer] instantiates
    them all. [MachineFaults]: the little that a platform with faults still keeps
    ([flaky]); [faulty] adds the faults to any platform. [Ports]: the networks that
    instances are on, which the API does not tell. IDs, timing and statuses are the
    platform's choice: between two passes the provider works on what it accepted and may
    be done or not ([idles], [finishes] for deletions); [settles] has it finish the
    networks, load balancers and floating IPs, and [rests], in a fleet, also leaves an
    ACTIVE instance as it is. [Foreign]: the deep copies of the imported types, with their contract
    [ForeignLaws] ([simple_foreign]); [RangeOrder]: the order in which [range] visits
    a map.

    ** What is not modelled

    The parsing of the flags and the logger (libraries). Logs
    of the controllers and observations of the histograms: nothing reads them.
    OVHMachinePool has types but no
    controller. Concurrency between reconciles of one object does not exist:
    controller-runtime serialises them per object; the interference of others
    between two passes is arbitrary ([machine_life]). The controller of the clusters
    and that of the machines run at the same time; a run of the fleet takes their
    passes one after the other.

    The liveness theorems for deletions leave out the failures of calls (the theorems
    on [exec] have them), and [cluster_recovers] one kind of them: an answer 404, or an
    error that is none of the API's, to the request for a load balancer that exists.
    The controller takes the first for its removal, and the second too if the text has
    it so ([register_port_lost], [IsNotFound]). They do not hold for failures during a
    deletion: there any error of some lookups counts as an absence, and the finalizer
    goes while something is left ([ReconcileDelete_finalizer], [machine_delete_finalizer],
    [IsNotFound_unreachable]). The liveness theorems also leave out resources that
    vanish, adopted floating IPs that are not those of the adopted load balancer (the
    controller publishes the address of such a one and never attaches it:
    [reconcileFloatingIP_spec]), networks whose subnet only the load balancer's
    configuration names, instances that stop being ACTIVE (in a fleet), changes of the
    objects by others between two passes, and ports of foreign load balancers and
    gateways on the network that is deleted with its cluster. *)

From Stdlib Require Export ZArith Ascii String Lia.
From stdpp Require Export prelude list gmap strings.

Declare Scope go_scope.
Delimit Scope go_scope with go.

(* stdpp keeps [simpl] from unfolding it *)
#[global] Arguments String.append !s1 s2 / : simpl nomatch.

(** ** Go results

    A Go function that returns [(T, error)] returns a [result E T]: the two
    components are never both meaningful in this program. *)

Inductive result (E A : Type) : Type :=
| Ok (a : A)
| Err (e : E).

Arguments Ok {E A} a.
Arguments Err {E A} e.

Definition is_ok {E A} (r : result E A) : bool :=
  match r with Ok _ => true | Err _ => false end.

Definition map_err {E E' A} (f : E -> E') (r : result E A) : result E' A :=
  match r with Ok a => Ok a | Err e => Err (f e) end.

Definition map_ok {E A B} (f : A -> B) (r : result E A) : result E B :=
  match r with Ok a => Ok (f a) | Err e => Err e end.

(** The error component of a result, [None] for Go's [nil]. *)
Definition err_of {E A} (r : result E A) : option E :=
  match r with Ok _ => None | Err e => Some e end.

(** ** Searches in slices

    [for i := range xs { if p(xs[i]) { return &xs[i] } }] is the Standard
    Library's [List.find]: the first element that satisfies [p]. *)

Notation first_match := List.find.

(** ** Keys of a list *)

(** Where no key occurs twice, a key determines its element. *)
Lemma NoDup_fmap_inj_in {A B} (f : A -> B) xs x y :
  NoDup (f <$> xs) -> x ∈ xs -> y ∈ xs -> f x = f y -> x = y.
Proof.
  induction xs as [|z zs IH]; cbn; [by intros _ ?%elem_of_nil|].
  intros [Hz Hn]%NoDup_cons [->|Hx]%elem_of_cons [->|Hy]%elem_of_cons E; [done|..|by apply IH].
  - destruct Hz. rewrite E. by apply list_elem_of_fmap_2.
  - destruct Hz. rewrite <- E. by apply list_elem_of_fmap_2.
Qed.

(** ** The tactics of the development *)

(** Splits conjunctions and existentials of the context, and applies the
    injectivity of the constructors at hand. *)
Ltac destr_hyps :=
  repeat match goal with
  | H : exists _, _ |- _ => destruct H
  | H : _ /\ _ |- _ => destruct H
  | H : (_, _) = (_, _) |- _ => injection H as; subst
  end; simplify_eq/=.

(** Case analysis on the scrutinee of a [match] or [if] of the goal. *)
Ltac case_goal :=
  match goal with
  | |- context [ if decide ?P then _ else _ ] => destruct (decide P)
  | |- context [ match ?x with _ => _ end ] =>
      lazymatch x with
      | context [ match _ with _ => _ end ] => fail
      | _ => destruct x eqn:?
      end
  end.

(** ** Generic lemmas *)

Section lists.
Context {A : Type}.
Implicit Types (f : A -> bool) (l : list A).

(** The loop of the lookups: what it returns, and what precedes it. *)
Lemma first_match_Some f l x :
  first_match f l = Some x <->
  exists l1 l2, l = l1 ++ x :: l2 /\ f x = true /\ Forall (fun y => f y = false) l1.
Proof.
  split.
  - induction l as [|y l IH]; simpl; [done|].
    destruct (f y) eqn:Hy.
    + intros [= ->]. exists [], l. eauto.
    + intros (l1 & l2 & -> & Hx & Hl)%IH. exists (y :: l1), l2. eauto.
  - intros (l1 & l2 & -> & Hx & Hl). induction Hl as [|y l1 Hy Hl IH]; simpl.
    + by rewrite Hx.
    + by rewrite Hy.
Qed.

Lemma first_match_None f l :
  first_match f l = None <-> Forall (fun y => f y = false) l.
Proof.
  split.
  - induction l as [|y l IH]; simpl; [done|].
    destruct (f y) eqn:Hy; [done|]. auto.
  - induction 1 as [|y l Hy Hl IH]; simpl; [done|]. by rewrite Hy.
Qed.

Lemma first_match_sound f l x :
  first_match f l = Some x -> f x = true /\ x ∈ l.
Proof.
  intros (l1 & l2 & -> & Hx & _)%first_match_Some. split; [done|].
  apply elem_of_app. right. left.
Qed.
End lists.
