(* ===== verification/GoStrings.v ===== *)
(** * The string functions of Go's standard library the program uses

    A Go [string] is a sequence of bytes: a [string] of Rocq. The functions
    that read it as text decode UTF-8 (package [unicode/utf8]), so they are
    defined on the list of runes a string decodes to. The tables of package
    [unicode] for code points from 0x80 on are data, not code: they are the
    class [Unicode], and every theorem holds for all of them. *)

From S2P Require Import Prelude.
From Stdlib Require Import DecimalString HexadecimalString.

Local Open Scope Z_scope.

Class Unicode := {
  (** [unicode.ToLower] on a rune from 0x80 on. *)
  unicode_lower : Z -> Z;
  (** Whether two distinct runes, the larger one from 0x80 on, are in one
      orbit of [unicode.SimpleFold]. *)
  unicode_fold : Z -> Z -> bool;
  (** [strconv.IsPrint] on a rune from 0x80 on. *)
  unicode_print : Z -> bool;
}.

Definition byte (a : ascii) : Z := Z.of_N (N_of_ascii a).
Definition char (b : Z) : ascii := ascii_of_N (Z.to_N b).

(** ** UTF-8 *)

Definition rune_error : Z := 0xFFFD.

(** The range the second byte of a sequence with lead byte [b0] must be in
    ([acceptRanges] of unicode/utf8); later bytes are in 0x80..0xBF. *)
Definition second_ok (b0 b1 : Z) : bool :=
  ((if decide (b0 = 0xE0) then 0xA0 else if decide (b0 = 0xF0) then 0x90 else 0x80) <=? b1)
  && (b1 <=? (if decide (b0 = 0xED) then 0x9F else if decide (b0 = 0xF4) then 0x8F else 0xBF)).

Definition cont_ok (b : Z) : bool := (0x80 <=? b) && (b <=? 0xBF).

(** The runes of [for _, r := range s]: an invalid byte is [rune_error] and
    one byte wide. *)
Fixpoint runes (s : string) : list Z :=
  match s with
  | EmptyString => []
  | String c0 s1 =>
    let b0 := byte c0 in
    if b0 <? 0x80 then b0 :: runes s1 else
    match s1 with
    | String c1 s2 =>
      let b1 := byte c1 in
      if negb (second_ok b0 b1) then rune_error :: runes s1
      else if (0xC2 <=? b0) && (b0 <=? 0xDF) then
        ((b0 - 0xC0) * 64 + (b1 - 0x80)) :: runes s2
      else
      match s2 with
      | String c2 s3 =>
        let b2 := byte c2 in
        if negb (cont_ok b2) then rune_error :: runes s1
        else if (0xE0 <=? b0) && (b0 <=? 0xEF) then
          ((b0 - 0xE0) * 4096 + (b1 - 0x80) * 64 + (b2 - 0x80)) :: runes s3
        else
        match s3 with
        | String c3 s4 =>
          let b3 := byte c3 in
          if cont_ok b3 && (0xF0 <=? b0) && (b0 <=? 0xF4) then
            ((b0 - 0xF0) * 262144 + (b1 - 0x80) * 4096 + (b2 - 0x80) * 64
             + (b3 - 0x80)) :: runes s4
          else rune_error :: runes s1
        | EmptyString => rune_error :: runes s1
        end
      | EmptyString => rune_error :: runes s1
      end
    | EmptyString => rune_error :: runes s1
    end
  end.

(** [utf8.AppendRune]: a surrogate or a value out of range is [rune_error]. *)
Definition encode_rune (r : Z) : string :=
  let r := if (r <? 0) || (0x10FFFF <? r) || ((0xD800 <=? r) && (r <=? 0xDFFF))
           then rune_error else r in
  if r <? 0x80 then String (char r) ""
  else if r <? 0x800 then
    String (char (0xC0 + r / 64)) (String (char (0x80 + r mod 64)) "")
  else if r <? 0x10000 then
    String (char (0xE0 + r / 4096)) (String (char (0x80 + r / 64 mod 64))
      (String (char (0x80 + r mod 64)) ""))
  else
    String (char (0xF0 + r / 262144)) (String (char (0x80 + r / 4096 mod 64))
      (String (char (0x80 + r / 64 mod 64)) (String (char (0x80 + r mod 64)) ""))).

Definition encode (rs : list Z) : string := String.concat "" (map encode_rune rs).

(** ** Package strings *)

Definition HasPrefix (s p : string) : bool := String.prefix p s.

(** [s[:n]] and [s[n:]], for [n] within the bounds (the callers see to it). *)
Fixpoint str_take (n : nat) (s : string) : string :=
  match n, s with
  | S n', String b s' => String b (str_take n' s')
  | _, _ => EmptyString
  end.

Fixpoint str_drop (n : nat) (s : string) : string :=
  match n, s with
  | S n', String _ s' => str_drop n' s'
  | _, _ => s
  end.

Definition TrimPrefix (s p : string) : string :=
  if HasPrefix s p then str_drop (String.length p) s else s.

Fixpoint Contains (s sub : string) : bool :=
  String.prefix sub s ||
  match s with
  | EmptyString => false
  | String _ s' => Contains s' sub
  end.

Definition rune_lower `{Unicode} (r : Z) : Z :=
  if r <? 0x80 then (if (65 <=? r) && (r <=? 90) then r + 32 else r)
  else unicode_lower r.

Definition ToLower `{Unicode} (s : string) : string :=
  encode (map rune_lower (runes s)).

Definition rune_fold_eq `{Unicode} (r1 r2 : Z) : bool :=
  (r1 =? r2)
  || (if (r1 <? 0x80) && (r2 <? 0x80) then rune_lower r1 =? rune_lower r2
      else unicode_fold (Z.min r1 r2) (Z.max r1 r2)).

Fixpoint all2 {A} (f : A -> A -> bool) (l1 l2 : list A) : bool :=
  match l1, l2 with
  | [], [] => true
  | x :: l1, y :: l2 => f x y && all2 f l1 l2
  | _, _ => false
  end.

Definition EqualFold `{Unicode} (s t : string) : bool :=
  all2 rune_fold_eq (runes s) (runes t).

Fixpoint TrimLeft (a : ascii) (s : string) : string :=
  match s with
  | EmptyString => EmptyString
  | String b s' => if (b =? a)%char then TrimLeft a s' else s
  end.

Fixpoint TrimRight (a : ascii) (s : string) : string :=
  match s with
  | EmptyString => EmptyString
  | String b s' =>
    match TrimRight a s' with
    | EmptyString => if (b =? a)%char then EmptyString else String b EmptyString
    | t => String b t
    end
  end.

Definition Trim (a : ascii) (s : string) : string := TrimRight a (TrimLeft a s).

Definition Join (parts : list string) (sep : string) : string :=
  String.concat sep parts.

(** [strings.SplitN(s, sep, 2)] for a separator of one byte. *)
Fixpoint SplitN2 (s : string) (sep : ascii) : list string :=
  match s with
  | EmptyString => [EmptyString]
  | String b s' =>
    if (b =? sep)%char then [EmptyString; s']
    else match SplitN2 s' sep with
         | p :: ps => String b p :: ps
         | [] => [String b EmptyString]
         end
  end.

(** ** Package strconv *)

Definition Itoa (z : Z) : string := DecimalString.NilZero.string_of_int (Z.to_int z).

(** [strconv.FormatUint(n, 16)]. *)
Definition FormatHex (n : N) : string :=
  HexadecimalString.NilZero.string_of_uint (N.to_hex_uint n).

(** [strconv.FormatUint(n, 16)] padded with zeros to [w] digits. *)
Definition hex_pad (w : nat) (n : Z) : string :=
  let s := FormatHex (Z.to_N n) in
  String.concat "" (replicate (w - String.length s) "0" ++ [s]).

(** One rune of [strconv.Quote] ([appendEscapedRune]). *)
Definition quote_rune `{Unicode} (r : Z) : string :=
  if (r =? 34) || (r =? 92) then String (char 92) (String (char r) "")
  else if r <? 0x80 then
    if (32 <=? r) && (r <? 127) then String (char r) ""
    else if r =? 7 then "\a" else if r =? 8 then "\b" else if r =? 12 then "\f"
    else if r =? 10 then "\n" else if r =? 13 then "\r" else if r =? 9 then "\t"
    else if r =? 11 then "\v"
    else ("\x" ++ hex_pad 2 r)%string
  else if unicode_print r then encode_rune r
  else if r <? 0x10000 then ("\u" ++ hex_pad 4 r)%string
  else ("\U" ++ hex_pad 8 r)%string.

(** The runes of a string, an invalid byte as [inr b] ([Quote] prints it as
    [\x] and two digits): an invalid byte decodes to [rune_error], and so does
    the three-byte encoding of that rune. *)
Fixpoint quote_bytes (s : string) (rs : list Z) : list (Z + Z) :=
  match rs with
  | [] => []
  | r :: rs' =>
    match s with
    | EmptyString => []
    | String c s' =>
      if (r =? rune_error) && negb (HasPrefix s (encode_rune rune_error))
      then inr (byte c) :: quote_bytes s' rs'
      else inl r :: quote_bytes (TrimPrefix s (encode_rune r)) rs'
    end
  end.

(** [strconv.Quote], the verb [%q]. *)
Definition Quote `{Unicode} (s : string) : string :=
  let q := String (char 34) "" in
  (q ++ String.concat "" (map (fun x => match x with
        | inl r => quote_rune r
        | inr b => ("\x" ++ hex_pad 2 b)%string
        end) (quote_bytes s (runes s))) ++ q)%string.

(** A table for concrete runs: nothing beyond ASCII has another case. *)
Definition ascii_unicode : Unicode := {|
  unicode_lower := fun r => r;
  unicode_fold := fun _ _ => false;
  unicode_print := fun _ => true;
|}.
