(* ===== verification/Errors.v ===== *)
(** * Go errors, formatting, and the classification of pkg/ovh/errors.go

    An [error] value is modelled by what the code observes of it: its text
    ([Error()]), the go-ovh [APIError] its chain of [%w] wrappings ends in
    ([errors.As], which reads its [Code]), whether the Kubernetes API machinery
    calls it NotFound, and the identity of a sentinel ([errors.Is]). The
    text of an [APIError] or of a foreign error is arbitrary: go-ovh and the
    network make it. *)

From S2P Require Import Prelude GoStrings.

Local Open Scope Z_scope.

Inductive error : Type :=
| ENew (msg : string)                     (* errors.New, fmt.Errorf without %w, foreign errors *)
| EAPI (code : Z) (text : string)         (* goovh.APIError: Code and Error() *)
| EKube (not_found : bool) (text : string)   (* an error of the Kubernetes API machinery *)
| ESentinel (text : string)               (* a package variable compared with errors.Is *)
| EWrap (pre : string) (inner : error) (post : string).   (* fmt.Errorf with one %w *)

#[export] Instance error_eq_dec : EqDecision error.
Proof. solve_decision. Defined.

Notation res := (result error).

(** [err.Error()]. *)
Fixpoint error_text (e : error) : string :=
  match e with
  | ENew s | EAPI _ s | EKube _ s | ESentinel s => s
  | EWrap pre e post => (pre ++ error_text e ++ post)%string
  end.

(** [errors.As(err, &apiErr)]: the [Code] of the first [APIError] of the chain. *)
Fixpoint as_api (e : error) : option Z :=
  match e with
  | EAPI code _ => Some code
  | EWrap _ e _ => as_api e
  | _ => None
  end.

(** [errors.Is(err, sentinel)]. *)
Fixpoint error_is (e : error) (sentinel : string) : bool :=
  match e with
  | ESentinel s => (s =? sentinel)%string
  | EWrap _ e _ => error_is e sentinel
  | _ => false
  end.

(** [apierrors.IsNotFound(err)]. *)
Fixpoint kube_IsNotFound (e : error) : bool :=
  match e with
  | EKube b _ => b
  | EWrap _ e _ => kube_IsNotFound e
  | _ => false
  end.

(** ** Package fmt: the verbs the program uses ([%s], [%q], [%d], [%w], and [%T] on the
    name of a type) *)

Inductive arg : Type :=
| AS (s : string)
| AZ (z : Z)
| AE (e : error).

(** Reads a format up to its first [%w]: the text before it, and the error
    with the rest of the format and of the arguments. *)
Fixpoint format_to_w `{Unicode} (f : string) (args : list arg)
    : string * option (error * (string * list arg)) :=
  match f with
  | EmptyString => (EmptyString, None)
  | String c f' =>
    if (c =? "%")%char then
      match f', args with
      | String v f'', a :: args' =>
        match a with
        | AE e =>
          if (v =? "w")%char then (EmptyString, Some (e, (f'', args')))
          else let '(s, w) := format_to_w f'' args' in ((error_text e ++ s)%string, w)
        | AS x =>
          let '(s, w) := format_to_w f'' args' in
          (((if (v =? "q")%char then Quote x else x) ++ s)%string, w)
        | AZ z =>
          let '(s, w) := format_to_w f'' args' in ((Itoa z ++ s)%string, w)
        end
      | _, _ => (String c f', None)
      end
    else let '(s, w) := format_to_w f' args in (String c s, w)
  end.

Definition Sprintf `{Unicode} (f : string) (args : list arg) : string :=
  fst (format_to_w f args).

Definition Errorf `{Unicode} (f : string) (args : list arg) : error :=
  match format_to_w f args with
  | (s, None) => ENew s
  | (pre, Some (e, (f', args'))) => EWrap pre e (Sprintf f' args')
  end.

(** ** pkg/ovh/errors.go *)

Definition StatusUnauthorized : Z := 401.
Definition StatusForbidden : Z := 403.
Definition StatusNotFound : Z := 404.
Definition StatusConflict : Z := 409.
Definition StatusTooManyRequests : Z := 429.
Definition StatusInternalServerError : Z := 500.
Definition StatusBadGateway : Z := 502.
Definition StatusServiceUnavailable : Z := 503.
Definition StatusGatewayTimeout : Z := 504.

Definition IsNotFound (err : option error) : bool :=
  match err with
  | None => false
  | Some e =>
    match as_api e with
    | Some code => code =? StatusNotFound
    | None => Contains (error_text e) "404" || Contains (error_text e) "not found"
    end
  end.

Definition IsConflict (err : option error) : bool :=
  match err with
  | None => false
  | Some e =>
    match as_api e with Some code => code =? StatusConflict | None => false end
  end.

Definition IsAlreadyDeleting (err : option error) : bool :=
  if negb (IsConflict err) then false
  else match err with
       | None => false
       | Some e =>
         Contains (error_text e) "PENDING_DELETE" || Contains (error_text e) "PENDING_UPDATE"
       end.

Definition IsRetryable (err : option error) : bool :=
  match err with
  | None => false
  | Some e =>
    match as_api e with
    | Some code =>
      (code =? StatusTooManyRequests) || (code =? StatusInternalServerError)
      || (code =? StatusBadGateway) || (code =? StatusServiceUnavailable)
      || (code =? StatusGatewayTimeout)
    | None =>
      let msg := error_text e in
      Contains msg "connection refused" || Contains msg "connection reset"
      || Contains msg "timeout" || Contains msg "temporary failure"
    end
  end.

Definition IsForbidden (err : option error) : bool :=
  match err with
  | None => false
  | Some e =>
    match as_api e with Some code => code =? StatusForbidden | None => false end
  end.

Definition IsUnauthorized (err : option error) : bool :=
  match err with
  | None => false
  | Some e =>
    match as_api e with Some code => code =? StatusUnauthorized | None => false end
  end.
