(* ===== verification/OvhTypes.v ===== *)
(** * The wire types of the OVH API: pkg/ovh/types.go

    Each struct is a record with the source's fields; Go's [int], [int32] and
    [int64] are [Z] (the code only copies and compares them), a pointer is an
    [option], a slice a [list] ([nil] and the empty slice are one value, as the
    JSON codec and [range] treat them). [zero] is Go's zero value. *)

From S2P Require Import Prelude GoStrings.
From Stdlib Require Import SpecFloat.

Local Open Scope Z_scope.

(** ** Zero values *)

Class Zero (A : Type) := zero : A.

#[export] Instance zero_string : Zero string := EmptyString.
#[export] Instance zero_Z : Zero Z := 0.
#[export] Instance zero_bool : Zero bool := false.
#[export] Instance zero_spec_float : Zero spec_float := S754_zero false.
#[export] Instance zero_list A : Zero (list A) := [].
#[export] Instance zero_option A : Zero (option A) := None.
#[export] Instance zero_gmap A : Zero (gmap string A) := (∅ : gmap string A).

(** ** Records *)

(** IPAddress represents an IP address assigned to an instance. *)
Record IPAddress := mkIPAddress {
  IPAddress_IP : string;
  IPAddress_Type : string;
  IPAddress_Version : Z;
}.

(** AttachedVolume represents a volume attached to an instance. *)
Record AttachedVolume := mkAttachedVolume {
  AttachedVolume_ID : string;
}.

(** Instance represents an OVH Public Cloud compute instance. *)
Record Instance := mkInstance {
  Instance_ID : string;
  Instance_Name : string;
  Instance_Status : string;
  Instance_FlavorID : string;
  Instance_ImageID : string;
  Instance_Region : string;
  Instance_Created : string;
  Instance_IPAddresses : list IPAddress;
  Instance_AttachedVolumes : list AttachedVolume;
  Instance_SSHKeyID : string;
  Instance_MonthlyBilling : bool;
}.

(** InstanceNetwork describes a network to attach during instance creation. *)
Record InstanceNetwork := mkInstanceNetwork {
  InstanceNetwork_NetworkID : string;
}.

(** CreateInstanceOpts are the parameters for creating a new instance. *)
Record CreateInstanceOpts := mkCreateInstanceOpts {
  CreateInstanceOpts_Name : string;
  CreateInstanceOpts_FlavorID : string;
  CreateInstanceOpts_ImageID : string;
  CreateInstanceOpts_Region : string;
  CreateInstanceOpts_SSHKeyID : string;
  CreateInstanceOpts_UserData : string;
  CreateInstanceOpts_Networks : list InstanceNetwork;
  CreateInstanceOpts_MonthlyBilling : bool;
  CreateInstanceOpts_GroupID : string;
}.

(** Flavor represents an OVH instance flavor (size). *)
Record Flavor := mkFlavor {
  Flavor_ID : string;
  Flavor_Name : string;
  Flavor_VCPUs : Z;
  Flavor_RAM : Z;
  Flavor_Disk : Z;
  Flavor_Type : string;
  Flavor_Region : string;
  Flavor_Bandwidth : Z;
  Flavor_PlanCode : string;
}.

(** Image represents an OS image available for instances. *)
Record Image := mkImage {
  Image_ID : string;
  Image_Name : string;
  Image_Status : string;
  Image_Region : string;
  Image_CreationDate : string;
  Image_MinRAM : Z;
  Image_MinDisk : Z;
  Image_Size : spec_float;
  Image_Type : string;
  Image_User : string;
  Image_Visibility : string;
  Image_PlanCode : string;
}.

(** SSHKey represents an SSH key registered in OVH. *)
Record SSHKey := mkSSHKey {
  SSHKey_ID : string;
  SSHKey_Name : string;
  SSHKey_PublicKey : string;
  SSHKey_Fingerprint : string;
  SSHKey_Regions : list string;
}.

(** NetworkRegion describes the status of a network in a specific region, including the
    OpenStack-internal UUID used by region-scoped APIs (LB, etc.). *)
Record NetworkRegion := mkNetworkRegion {
  NetworkRegion_Region : string;
  NetworkRegion_Status : string;
  NetworkRegion_OpenStackID : string;
}.

(** PrivateNetwork represents a vRack private network. *)
Record PrivateNetwork := mkPrivateNetwork {
  PrivateNetwork_ID : string;
  PrivateNetwork_Name : string;
  PrivateNetwork_VlanID : Z;
  PrivateNetwork_Regions : list NetworkRegion;
  PrivateNetwork_Status : string;
  PrivateNetwork_Type : string;
}.

(** CreateNetworkOpts are the parameters for creating a private network. *)
Record CreateNetworkOpts := mkCreateNetworkOpts {
  CreateNetworkOpts_Name : string;
  CreateNetworkOpts_VlanID : Z;
  CreateNetworkOpts_Regions : list string;
}.

(** IPPool represents an IP allocation pool within a subnet. *)
Record IPPool := mkIPPool {
  IPPool_Start : string;
  IPPool_End : string;
  IPPool_Network : string;
  IPPool_Region : string;
  IPPool_DHCP : bool;
}.

(** Subnet represents a subnet within a private network. *)
Record Subnet := mkSubnet {
  Subnet_ID : string;
  Subnet_CIDR : string;
  Subnet_GatewayIP : string;
  Subnet_IPPools : list IPPool;
  Subnet_Region : string;
  Subnet_DHCP : bool;
  Subnet_NoGateway : bool;
}.

(** CreateSubnetOpts are the parameters for creating a subnet. *)
Record CreateSubnetOpts := mkCreateSubnetOpts {
  CreateSubnetOpts_Network : string;
  CreateSubnetOpts_Start : string;
  CreateSubnetOpts_End : string;
  CreateSubnetOpts_Region : string;
  CreateSubnetOpts_DHCP : bool;
  CreateSubnetOpts_NoGateway : bool;
}.

(** LBFlavor represents an Octavia load balancer flavor (size). *)
Record LBFlavor := mkLBFlavor {
  LBFlavor_ID : string;
  LBFlavor_Name : string;
  LBFlavor_Region : string;
}.

(** FloatingIPRef is a reference to a floating IP on a load balancer. *)
Record FloatingIPRef := mkFloatingIPRef {
  FloatingIPRef_ID : string;
  FloatingIPRef_IP : string;
}.

(** ListenerRef is a reference to a listener on a load balancer. *)
Record ListenerRef := mkListenerRef {
  ListenerRef_ID : string;
}.

(** LoadBalancer represents an OVH managed load balancer (Octavia). *)
Record LoadBalancer := mkLoadBalancer {
  LoadBalancer_ID : string;
  LoadBalancer_Name : string;
  LoadBalancer_CreatedAt : string;
  LoadBalancer_UpdatedAt : string;
  LoadBalancer_Region : string;
  LoadBalancer_FlavorID : string;
  LoadBalancer_OperatingStatus : string;
  LoadBalancer_ProvisioningStatus : string;
  LoadBalancer_VIPAddress : string;
  LoadBalancer_VIPNetworkID : string;
  LoadBalancer_VIPSubnetID : string;
  LoadBalancer_FloatingIP : option FloatingIPRef;
  LoadBalancer_Listeners : list ListenerRef;
}.

(** LBNetworkRef references a network by its OpenStack UUID with a subnet hint. *)
Record LBNetworkRef := mkLBNetworkRef {
  LBNetworkRef_ID : string;
  LBNetworkRef_SubnetID : string;
}.

(** LBPrivateNetwork references a private vRack network for the LB VIP. *)
Record LBPrivateNetwork := mkLBPrivateNetwork {
  LBPrivateNetwork_Network : LBNetworkRef;
}.

(** LBNetworkConfig describes the network configuration of a load balancer. *)
Record LBNetworkConfig := mkLBNetworkConfig {
  LBNetworkConfig_Private : LBPrivateNetwork;
}.

(** CreateLoadBalancerOpts are the parameters for creating a load balancer. *)
Record CreateLoadBalancerOpts := mkCreateLoadBalancerOpts {
  CreateLoadBalancerOpts_Name : string;
  CreateLoadBalancerOpts_FlavorID : string;
  CreateLoadBalancerOpts_Network : LBNetworkConfig;
}.

(** Listener represents a load balancer listener. *)
Record Listener := mkListener {
  Listener_ID : string;
  Listener_Name : string;
  Listener_Protocol : string;
  Listener_ProtocolPort : Z;
  Listener_Port : Z;
  Listener_DefaultPoolID : string;
  Listener_LoadBalancerID : string;
  Listener_LoadBalancerIDs : list string;
  Listener_ProvisioningStatus : string;
  Listener_OperatingStatus : string;
}.

(** CreateListenerOpts are the parameters for creating a listener. *)
Record CreateListenerOpts := mkCreateListenerOpts {
  CreateListenerOpts_Name : string;
  CreateListenerOpts_Protocol : string;
  CreateListenerOpts_Port : Z;
  CreateListenerOpts_LoadBalancerID : string;
  CreateListenerOpts_DefaultPoolID : string;
}.

(** Pool represents a load balancer backend pool. *)
Record Pool := mkPool {
  Pool_ID : string;
  Pool_Name : string;
  Pool_Protocol : string;
  Pool_LBAlgorithm : string;
  Pool_ListenerID : string;
  Pool_LoadBalancerID : string;
  Pool_ProvisioningStatus : string;
  Pool_OperatingStatus : string;
}.

(** CreatePoolOpts are the parameters for creating a backend pool. *)
Record CreatePoolOpts := mkCreatePoolOpts {
  CreatePoolOpts_Name : string;
  CreatePoolOpts_Protocol : string;
  CreatePoolOpts_Algorithm : string;
  CreatePoolOpts_ListenerID : string;
  CreatePoolOpts_LoadBalancerID : string;
}.

(** Member represents a backend pool member (instance). *)
Record Member := mkMember {
  Member_ID : string;
  Member_Name : string;
  Member_Address : string;
  Member_ProtocolPort : Z;
  Member_SubnetID : string;
  Member_OperatingStatus : string;
  Member_ProvisioningStatus : string;
  Member_Weight : Z;
}.

(** CreateMemberOpts are the parameters for adding a member to a pool. *)
Record CreateMemberOpts := mkCreateMemberOpts {
  CreateMemberOpts_Name : string;
  CreateMemberOpts_Address : string;
  CreateMemberOpts_ProtocolPort : Z;
  CreateMemberOpts_SubnetID : string;
  CreateMemberOpts_Weight : Z;
}.

(** addPoolMembersRequest wraps a list of members for the OVH batch-add endpoint. *)
Record addPoolMembersRequest := mkaddPoolMembersRequest {
  addPoolMembersRequest_Members : list CreateMemberOpts;
}.

(** HealthMonitor represents an Octavia health monitor attached to a pool. *)
Record HealthMonitor := mkHealthMonitor {
  HealthMonitor_ID : string;
  HealthMonitor_Name : string;
  HealthMonitor_MonitorType : string;
  HealthMonitor_Delay : Z;
  HealthMonitor_Timeout : Z;
  HealthMonitor_MaxRetries : Z;
  HealthMonitor_PoolID : string;
  HealthMonitor_URLPath : string;
  HealthMonitor_HTTPMethod : string;
  HealthMonitor_ExpectedCodes : string;
  HealthMonitor_ProvisioningStatus : string;
  HealthMonitor_OperatingStatus : string;
}.

(** CreateHealthMonitorOpts are the parameters for creating a health monitor. *)
Record CreateHealthMonitorOpts := mkCreateHealthMonitorOpts {
  CreateHealthMonitorOpts_Name : string;
  CreateHealthMonitorOpts_MonitorType : string;
  CreateHealthMonitorOpts_Delay : Z;
  CreateHealthMonitorOpts_Timeout : Z;
  CreateHealthMonitorOpts_MaxRetries : Z;
  CreateHealthMonitorOpts_PoolID : string;
}.

(** FloatingIPAssociation describes what a floating IP is currently attached to
    (instance / loadbalancer) and the underlying gateway. *)
Record FloatingIPAssociation := mkFloatingIPAssociation {
  FloatingIPAssociation_ID : string;
  FloatingIPAssociation_Type : string;
  FloatingIPAssociation_IP : string;
  FloatingIPAssociation_GatewayID : string;
}.

(** FloatingIP represents a floating IP resource. *)
Record FloatingIP := mkFloatingIP {
  FloatingIP_ID : string;
  FloatingIP_IP : string;
  FloatingIP_Status : string;
  FloatingIP_AssociatedEntity : option FloatingIPAssociation;
  FloatingIP_Region : string;
  FloatingIP_NetworkID : string;
}.

(** GatewayInterface is one of the network interfaces attached to a gateway (usually one
    private + one public after `expose`). *)
Record GatewayInterface := mkGatewayInterface {
  GatewayInterface_ID : string;
  GatewayInterface_IP : string;
  GatewayInterface_NetworkID : string;
  GatewayInterface_SubnetID : string;
}.

(** Gateway represents an OVH internet gateway attached to a private subnet. *)
Record Gateway := mkGateway {
  Gateway_ID : string;
  Gateway_Name : string;
  Gateway_Status : string;
  Gateway_Model : string;
  Gateway_Region : string;
  Gateway_Interfaces : list GatewayInterface;
}.

(** CreateFloatingIPOpts are the parameters for creating a floating IP. *)
Record CreateFloatingIPOpts := mkCreateFloatingIPOpts {
  CreateFloatingIPOpts_IP : string;
  CreateFloatingIPOpts_Description : string;
}.

(** Volume represents an OVH block storage volume. *)
Record Volume := mkVolume {
  Volume_ID : string;
  Volume_Name : string;
  Volume_Description : string;
  Volume_Size : Z;
  Volume_Type : string;
  Volume_Region : string;
  Volume_Status : string;
  Volume_AttachedTo : list string;
}.

(** CreateVolumeOpts are the parameters for creating a block storage volume. *)
Record CreateVolumeOpts := mkCreateVolumeOpts {
  CreateVolumeOpts_Name : string;
  CreateVolumeOpts_Description : string;
  CreateVolumeOpts_Size : Z;
  CreateVolumeOpts_Type : string;
  CreateVolumeOpts_Region : string;
}.

(** AttachVolumeOpts are the parameters for attaching a volume to an instance. *)
Record AttachVolumeOpts := mkAttachVolumeOpts {
  AttachVolumeOpts_InstanceID : string;
}.

(** Me represents the OVH account info (used for credential validation). *)
Record Me := mkMe {
  Me_Nichandle : string;
  Me_FirstName : string;
  Me_Name : string;
  Me_Email : string;
}.

(** RegionService describes a service available in a region. *)
Record RegionService := mkRegionService {
  RegionService_Name : string;
  RegionService_Status : string;
}.

(** RegionInfo describes an OVH region and its available services / AZs. *)
Record RegionInfo := mkRegionInfo {
  RegionInfo_Name : string;
  RegionInfo_Services : list RegionService;
}.

(** SecurityGroup represents an OVH/OpenStack security group. *)
Record SecurityGroup := mkSecurityGroup {
  SecurityGroup_ID : string;
  SecurityGroup_Name : string;
}.

(** SecurityGroupRule represents a rule in a security group. *)
Record SecurityGroupRule := mkSecurityGroupRule {
  SecurityGroupRule_ID : string;
  SecurityGroupRule_Direction : string;
  SecurityGroupRule_Protocol : string;
  SecurityGroupRule_PortRangeMin : option Z;
  SecurityGroupRule_PortRangeMax : option Z;
  SecurityGroupRule_RemoteIPPrefix : string;
  SecurityGroupRule_EtherType : string;
}.

(** CreateSecurityGroupOpts are the parameters for creating a security group. *)
Record CreateSecurityGroupOpts := mkCreateSecurityGroupOpts {
  CreateSecurityGroupOpts_Name : string;
  CreateSecurityGroupOpts_Description : string;
}.

(** CreateSecurityGroupRuleOpts are the parameters for creating a security group rule. *)
Record CreateSecurityGroupRuleOpts := mkCreateSecurityGroupRuleOpts {
  CreateSecurityGroupRuleOpts_Direction : string;
  CreateSecurityGroupRuleOpts_Protocol : string;
  CreateSecurityGroupRuleOpts_PortRangeMin : option Z;
  CreateSecurityGroupRuleOpts_PortRangeMax : option Z;
  CreateSecurityGroupRuleOpts_RemoteIPPrefix : string;
  CreateSecurityGroupRuleOpts_EtherType : string;
}.

(** DNSRecord represents an OVH DNS zone record. *)
Record DNSRecord := mkDNSRecord {
  DNSRecord_ID : Z;
  DNSRecord_FieldType : string;
  DNSRecord_SubDomain : string;
  DNSRecord_Target : string;
  DNSRecord_TTL : Z;
  DNSRecord_Zone : string;
}.

(** CreateDNSRecordOpts are the parameters for creating a DNS record. *)
Record CreateDNSRecordOpts := mkCreateDNSRecordOpts {
  CreateDNSRecordOpts_FieldType : string;
  CreateDNSRecordOpts_SubDomain : string;
  CreateDNSRecordOpts_Target : string;
  CreateDNSRecordOpts_TTL : Z;
}.

(** CreateSSHKeyOpts are the parameters for registering a new SSH public key. *)
Record CreateSSHKeyOpts := mkCreateSSHKeyOpts {
  CreateSSHKeyOpts_Name : string;
  CreateSSHKeyOpts_PublicKey : string;
  CreateSSHKeyOpts_Region : string;
}.

(** ** Zero values of the records *)

#[export] Instance zero_IPAddress : Zero IPAddress := mkIPAddress zero zero zero.
#[export] Instance zero_AttachedVolume : Zero AttachedVolume := mkAttachedVolume zero.
#[export] Instance zero_Instance : Zero Instance := mkInstance zero zero zero zero zero zero zero zero zero zero zero.
#[export] Instance zero_InstanceNetwork : Zero InstanceNetwork := mkInstanceNetwork zero.
#[export] Instance zero_CreateInstanceOpts : Zero CreateInstanceOpts := mkCreateInstanceOpts zero zero zero zero zero zero zero zero zero.
#[export] Instance zero_Flavor : Zero Flavor := mkFlavor zero zero zero zero zero zero zero zero zero.
#[export] Instance zero_Image : Zero Image := mkImage zero zero zero zero zero zero zero zero zero zero zero zero.
#[export] Instance zero_SSHKey : Zero SSHKey := mkSSHKey zero zero zero zero zero.
#[export] Instance zero_NetworkRegion : Zero NetworkRegion := mkNetworkRegion zero zero zero.
#[export] Instance zero_PrivateNetwork : Zero PrivateNetwork := mkPrivateNetwork zero zero zero zero zero zero.
#[export] Instance zero_CreateNetworkOpts : Zero CreateNetworkOpts := mkCreateNetworkOpts zero zero zero.
#[export] Instance zero_IPPool : Zero IPPool := mkIPPool zero zero zero zero zero.
#[export] Instance zero_Subnet : Zero Subnet := mkSubnet zero zero zero zero zero zero zero.
#[export] Instance zero_CreateSubnetOpts : Zero CreateSubnetOpts := mkCreateSubnetOpts zero zero zero zero zero zero.
#[export] Instance zero_LBFlavor : Zero LBFlavor := mkLBFlavor zero zero zero.
#[export] Instance zero_FloatingIPRef : Zero FloatingIPRef := mkFloatingIPRef zero zero.
#[export] Instance zero_ListenerRef : Zero ListenerRef := mkListenerRef zero.
#[export] Instance zero_LoadBalancer : Zero LoadBalancer := mkLoadBalancer zero zero zero zero zero zero zero zero zero zero zero zero zero.
#[export] Instance zero_LBNetworkRef : Zero LBNetworkRef := mkLBNetworkRef zero zero.
#[export] Instance zero_LBPrivateNetwork : Zero LBPrivateNetwork := mkLBPrivateNetwork zero.
#[export] Instance zero_LBNetworkConfig : Zero LBNetworkConfig := mkLBNetworkConfig zero.
#[export] Instance zero_CreateLoadBalancerOpts : Zero CreateLoadBalancerOpts := mkCreateLoadBalancerOpts zero zero zero.
#[export] Instance zero_Listener : Zero Listener := mkListener zero zero zero zero zero zero zero zero zero zero.
#[export] Instance zero_CreateListenerOpts : Zero CreateListenerOpts := mkCreateListenerOpts zero zero zero zero zero.
#[export] Instance zero_Pool : Zero Pool := mkPool zero zero zero zero zero zero zero zero.
#[export] Instance zero_CreatePoolOpts : Zero CreatePoolOpts := mkCreatePoolOpts zero zero zero zero zero.
#[export] Instance zero_Member : Zero Member := mkMember zero zero zero zero zero zero zero zero.
#[export] Instance zero_CreateMemberOpts : Zero CreateMemberOpts := mkCreateMemberOpts zero zero zero zero zero.
#[export] Instance zero_addPoolMembersRequest : Zero addPoolMembersRequest := mkaddPoolMembersRequest zero.
#[export] Instance zero_HealthMonitor : Zero HealthMonitor := mkHealthMonitor zero zero zero zero zero zero zero zero zero zero zero zero.
#[export] Instance zero_CreateHealthMonitorOpts : Zero CreateHealthMonitorOpts := mkCreateHealthMonitorOpts zero zero zero zero zero zero.
#[export] Instance zero_FloatingIPAssociation : Zero FloatingIPAssociation := mkFloatingIPAssociation zero zero zero zero.
#[export] Instance zero_FloatingIP : Zero FloatingIP := mkFloatingIP zero zero zero zero zero zero.
#[export] Instance zero_GatewayInterface : Zero GatewayInterface := mkGatewayInterface zero zero zero zero.
#[export] Instance zero_Gateway : Zero Gateway := mkGateway zero zero zero zero zero zero.
#[export] Instance zero_CreateFloatingIPOpts : Zero CreateFloatingIPOpts := mkCreateFloatingIPOpts zero zero.
#[export] Instance zero_Volume : Zero Volume := mkVolume zero zero zero zero zero zero zero zero.
#[export] Instance zero_CreateVolumeOpts : Zero CreateVolumeOpts := mkCreateVolumeOpts zero zero zero zero zero.
#[export] Instance zero_AttachVolumeOpts : Zero AttachVolumeOpts := mkAttachVolumeOpts zero.
#[export] Instance zero_Me : Zero Me := mkMe zero zero zero zero.
#[export] Instance zero_RegionService : Zero RegionService := mkRegionService zero zero.
#[export] Instance zero_RegionInfo : Zero RegionInfo := mkRegionInfo zero zero.
#[export] Instance zero_SecurityGroup : Zero SecurityGroup := mkSecurityGroup zero zero.
#[export] Instance zero_SecurityGroupRule : Zero SecurityGroupRule := mkSecurityGroupRule zero zero zero zero zero zero zero.
#[export] Instance zero_CreateSecurityGroupOpts : Zero CreateSecurityGroupOpts := mkCreateSecurityGroupOpts zero zero.
#[export] Instance zero_CreateSecurityGroupRuleOpts : Zero CreateSecurityGroupRuleOpts := mkCreateSecurityGroupRuleOpts zero zero zero zero zero zero.
#[export] Instance zero_DNSRecord : Zero DNSRecord := mkDNSRecord zero zero zero zero zero zero.
#[export] Instance zero_CreateDNSRecordOpts : Zero CreateDNSRecordOpts := mkCreateDNSRecordOpts zero zero zero zero.
#[export] Instance zero_CreateSSHKeyOpts : Zero CreateSSHKeyOpts := mkCreateSSHKeyOpts zero zero zero.

(** ** Decidable equality *)

#[export] Instance spec_float_eq_dec : EqDecision spec_float.
Proof. solve_decision. Defined.
#[export] Instance IPAddress_eq_dec : EqDecision IPAddress.
Proof. solve_decision. Defined.
#[export] Instance AttachedVolume_eq_dec : EqDecision AttachedVolume.
Proof. solve_decision. Defined.
#[export] Instance Instance_eq_dec : EqDecision Instance.
Proof. solve_decision. Defined.
#[export] Instance InstanceNetwork_eq_dec : EqDecision InstanceNetwork.
Proof. solve_decision. Defined.
#[export] Instance CreateInstanceOpts_eq_dec : EqDecision CreateInstanceOpts.
Proof. solve_decision. Defined.
#[export] Instance Flavor_eq_dec : EqDecision Flavor.
Proof. solve_decision. Defined.
#[export] Instance Image_eq_dec : EqDecision Image.
Proof. solve_decision. Defined.
#[export] Instance SSHKey_eq_dec : EqDecision SSHKey.
Proof. solve_decision. Defined.
#[export] Instance NetworkRegion_eq_dec : EqDecision NetworkRegion.
Proof. solve_decision. Defined.
#[export] Instance PrivateNetwork_eq_dec : EqDecision PrivateNetwork.
Proof. solve_decision. Defined.
#[export] Instance CreateNetworkOpts_eq_dec : EqDecision CreateNetworkOpts.
Proof. solve_decision. Defined.
#[export] Instance IPPool_eq_dec : EqDecision IPPool.
Proof. solve_decision. Defined.
#[export] Instance Subnet_eq_dec : EqDecision Subnet.
Proof. solve_decision. Defined.
#[export] Instance CreateSubnetOpts_eq_dec : EqDecision CreateSubnetOpts.
Proof. solve_decision. Defined.
#[export] Instance LBFlavor_eq_dec : EqDecision LBFlavor.
Proof. solve_decision. Defined.
#[export] Instance FloatingIPRef_eq_dec : EqDecision FloatingIPRef.
Proof. solve_decision. Defined.
#[export] Instance ListenerRef_eq_dec : EqDecision ListenerRef.
Proof. solve_decision. Defined.
#[export] Instance LoadBalancer_eq_dec : EqDecision LoadBalancer.
Proof. solve_decision. Defined.
#[export] Instance LBNetworkRef_eq_dec : EqDecision LBNetworkRef.
Proof. solve_decision. Defined.
#[export] Instance LBPrivateNetwork_eq_dec : EqDecision LBPrivateNetwork.
Proof. solve_decision. Defined.
#[export] Instance LBNetworkConfig_eq_dec : EqDecision LBNetworkConfig.
Proof. solve_decision. Defined.
#[export] Instance CreateLoadBalancerOpts_eq_dec : EqDecision CreateLoadBalancerOpts.
Proof. solve_decision. Defined.
#[export] Instance Listener_eq_dec : EqDecision Listener.
Proof. solve_decision. Defined.
#[export] Instance CreateListenerOpts_eq_dec : EqDecision CreateListenerOpts.
Proof. solve_decision. Defined.
#[export] Instance Pool_eq_dec : EqDecision Pool.
Proof. solve_decision. Defined.
#[export] Instance CreatePoolOpts_eq_dec : EqDecision CreatePoolOpts.
Proof. solve_decision. Defined.
#[export] Instance Member_eq_dec : EqDecision Member.
Proof. solve_decision. Defined.
#[export] Instance CreateMemberOpts_eq_dec : EqDecision CreateMemberOpts.
Proof. solve_decision. Defined.
#[export] Instance addPoolMembersRequest_eq_dec : EqDecision addPoolMembersRequest.
Proof. solve_decision. Defined.
#[export] Instance HealthMonitor_eq_dec : EqDecision HealthMonitor.
Proof. solve_decision. Defined.
#[export] Instance CreateHealthMonitorOpts_eq_dec : EqDecision CreateHealthMonitorOpts.
Proof. solve_decision. Defined.
#[export] Instance FloatingIPAssociation_eq_dec : EqDecision FloatingIPAssociation.
Proof. solve_decision. Defined.
#[export] Instance FloatingIP_eq_dec : EqDecision FloatingIP.
Proof. solve_decision. Defined.
#[export] Instance GatewayInterface_eq_dec : EqDecision GatewayInterface.
Proof. solve_decision. Defined.
#[export] Instance Gateway_eq_dec : EqDecision Gateway.
Proof. solve_decision. Defined.
#[export] Instance CreateFloatingIPOpts_eq_dec : EqDecision CreateFloatingIPOpts.
Proof. solve_decision. Defined.
#[export] Instance Volume_eq_dec : EqDecision Volume.
Proof. solve_decision. Defined.
#[export] Instance CreateVolumeOpts_eq_dec : EqDecision CreateVolumeOpts.
Proof. solve_decision. Defined.
#[export] Instance AttachVolumeOpts_eq_dec : EqDecision AttachVolumeOpts.
Proof. solve_decision. Defined.
#[export] Instance Me_eq_dec : EqDecision Me.
Proof. solve_decision. Defined.
#[export] Instance RegionService_eq_dec : EqDecision RegionService.
Proof. solve_decision. Defined.
#[export] Instance RegionInfo_eq_dec : EqDecision RegionInfo.
Proof. solve_decision. Defined.
#[export] Instance SecurityGroup_eq_dec : EqDecision SecurityGroup.
Proof. solve_decision. Defined.
#[export] Instance SecurityGroupRule_eq_dec : EqDecision SecurityGroupRule.
Proof. solve_decision. Defined.
#[export] Instance CreateSecurityGroupOpts_eq_dec : EqDecision CreateSecurityGroupOpts.
Proof. solve_decision. Defined.
#[export] Instance CreateSecurityGroupRuleOpts_eq_dec : EqDecision CreateSecurityGroupRuleOpts.
Proof. solve_decision. Defined.
#[export] Instance DNSRecord_eq_dec : EqDecision DNSRecord.
Proof. solve_decision. Defined.
#[export] Instance CreateDNSRecordOpts_eq_dec : EqDecision CreateDNSRecordOpts.
Proof. solve_decision. Defined.
#[export] Instance CreateSSHKeyOpts_eq_dec : EqDecision CreateSSHKeyOpts.
Proof. solve_decision. Defined.

(** ** Constants *)

Definition InstanceStatusActive : string := "ACTIVE".
Definition InstanceStatusBuild : string := "BUILD".
Definition InstanceStatusReboot : string := "REBOOT".
Definition InstanceStatusError : string := "ERROR".
Definition InstanceStatusDeleted : string := "DELETED".
Definition InstanceStatusStopped : string := "STOPPED".
Definition LBProvisioningStatusActive : string := "active".
Definition LBProvisioningStatusCreating : string := "creating".
Definition LBProvisioningStatusError : string := "error".
Definition LBOperatingStatusOnline : string := "online".
Definition LBOperatingStatusOffline : string := "offline".
Definition LBOperatingStatusError : string := "error".

(** ** Methods *)

(** The OpenStack UUID of a network in a region, empty when it has none. *)
Definition OpenStackIDForRegion (n : PrivateNetwork) (region : string) : string :=
  match first_match (fun r => bool_decide (NetworkRegion_Region r = region))
                    (PrivateNetwork_Regions n) with
  | Some r => NetworkRegion_OpenStackID r
  | None => ""
  end.
