(* ===== verification/ApiTypes.v ===== *)
(** * The custom resources: api/v1alpha2, and the Cluster API types they embed

    The records of [api/v1alpha2/*_types.go] have the source's fields; the
    embedded [TypeMeta] is left out (no code reads it). [ObjectMeta],
    [Cluster], [Machine], [Secret] and the other foreign types have the fields
    the code reads. What the code asks of the Cluster API and controller-runtime
    libraries on them (conditions, finalizers, annotations) is the class
    [CAPI], with the documented behaviour the proofs rely on in [CAPILaws]. *)

From S2P Require Import Prelude GoStrings OvhTypes.

Local Open Scope Z_scope.

(** ** Foreign types *)

Record ObjectMeta := mkObjectMeta {
  Meta_Namespace : string;
  Meta_Name : string;
  Meta_Labels : gmap string string;
  Meta_Annotations : gmap string string;
  Meta_Finalizers : list string;
  (* [None]: nil or the zero time, for which [IsZero] answers true *)
  Meta_DeletionTimestamp : option Z;
}.

Record TemplateMeta := mkTemplateMeta {
  TemplateMeta_Labels : gmap string string;
  TemplateMeta_Annotations : gmap string string;
}.

Record ListMeta := mkListMeta {
  ListMeta_ResourceVersion : string;
  ListMeta_Continue : string;
}.

Record Condition := mkCondition {
  Condition_Type : string;
  Condition_Status : bool;
  Condition_Severity : string;
  Condition_Reason : string;
  Condition_Message : string;
}.

Record APIEndpoint := mkAPIEndpoint {
  APIEndpoint_Host : string;
  APIEndpoint_Port : Z;
}.

Record MachineAddress := mkMachineAddress {
  MachineAddress_Type : string;
  MachineAddress_Address : string;
}.

Record FailureDomainSpec := mkFailureDomainSpec {
  FailureDomainSpec_ControlPlane : bool;
}.

Record ObjectReference := mkObjectReference {
  Ref_Kind : string;
  Ref_Namespace : string;
  Ref_Name : string;
}.

Record Cluster := mkCluster {
  Cluster_ObjectMeta : ObjectMeta;
  Cluster_Paused : bool;
  Cluster_InfrastructureRef : option ObjectReference;
  Cluster_InfrastructureReady : bool;
}.

Record Machine := mkMachine {
  Machine_ObjectMeta : ObjectMeta;
  Machine_DataSecretName : option string;
}.

Record Secret := mkSecret {
  Secret_Namespace : string;
  Secret_Name : string;
  Secret_Data : gmap string string;
}.

(** ** api/v1alpha2 *)

(** SecretKey is a reference to a Secret containing OVH API credentials. *)
Record SecretKey := mkSecretKey {
  SecretKey_Namespace : string;
  SecretKey_Name : string;
}.

(** OVHListener describes an additional listener on the load balancer. *)
Record OVHListener := mkOVHListener {
  OVHListener_Name : string;
  OVHListener_Port : Z;
  OVHListener_Protocol : string;
  OVHListener_BackendPort : Z;
}.

(** OVHLoadBalancerConfig describes the OVH managed load balancer configuration. *)
Record OVHLoadBalancerConfig := mkOVHLoadBalancerConfig {
  LBConfig_SubnetID : string;
  LBConfig_FlavorName : string;
  LBConfig_FloatingNetworkID : string;
  LBConfig_Listeners : list OVHListener;
  LBConfig_ExistingLoadBalancerID : string;
  LBConfig_ExistingFloatingIPID : string;
}.

(** OVHNetworkConfig describes the private network configuration for the cluster. *)
Record OVHNetworkConfig := mkOVHNetworkConfig {
  NetConfig_PrivateNetworkID : string;
  NetConfig_SubnetCIDR : string;
  NetConfig_VlanID : Z;
  NetConfig_Gateway : string;
  NetConfig_DNSServers : list string;
}.

(** OVHSecurityRule defines a single firewall rule in a security group. *)
Record OVHSecurityRule := mkOVHSecurityRule {
  OVHSecurityRule_Direction : string;
  OVHSecurityRule_Protocol : string;
  OVHSecurityRule_PortRangeMin : option Z;
  OVHSecurityRule_PortRangeMax : option Z;
  OVHSecurityRule_RemoteIPPrefix : string;
  OVHSecurityRule_EtherType : string;
}.

(** OVHSecurityGroup defines a security group to create and apply to cluster instances. *)
Record OVHSecurityGroup := mkOVHSecurityGroup {
  OVHSecurityGroup_Name : string;
  OVHSecurityGroup_Rules : list OVHSecurityRule;
}.

(** OVHDNSConfig configures automatic DNS record management. *)
Record OVHDNSConfig := mkOVHDNSConfig {
  OVHDNSConfig_ZoneName : string;
  OVHDNSConfig_RecordName : string;
  OVHDNSConfig_TTL : Z;
}.

(** OVHClusterSpec defines the desired state of OVHCluster. *)
Record OVHClusterSpec := mkOVHClusterSpec {
  CSpec_ServiceName : string;
  CSpec_Region : string;
  CSpec_IdentitySecret : SecretKey;
  CSpec_ControlPlaneEndpoint : APIEndpoint;
  CSpec_LoadBalancerConfig : OVHLoadBalancerConfig;
  CSpec_NetworkConfig : option OVHNetworkConfig;
  CSpec_SSHKeyName : string;
  CSpec_FailureDomains : list string;
  CSpec_SecurityGroups : list OVHSecurityGroup;
  CSpec_DefaultTags : gmap string string;
  CSpec_DNSConfig : option OVHDNSConfig;
}.

(** OVHClusterStatus defines the observed state of OVHCluster. *)
Record OVHClusterStatus := mkOVHClusterStatus {
  CStatus_Ready : bool;
  CStatus_FailureReason : string;
  CStatus_FailureMessage : string;
  CStatus_Conditions : list Condition;
  CStatus_NetworkID : string;
  CStatus_SubnetID : string;
  CStatus_LoadBalancerID : string;
  CStatus_ListenerID : string;
  CStatus_PoolID : string;
  CStatus_FloatingIPID : string;
  CStatus_GatewayID : string;
  CStatus_GatewayExposed : bool;
  CStatus_RegisterListenerID : string;
  CStatus_RegisterPoolID : string;
  CStatus_FailureDomains : gmap string FailureDomainSpec;
  CStatus_SecurityGroupIDs : gmap string string;
  CStatus_DNSRecordID : Z;
}.

(** OVHCluster is the Schema for the ovhclusters API. *)
Record OVHCluster := mkOVHCluster {
  OVHCluster_ObjectMeta : ObjectMeta;
  OVHCluster_Spec : OVHClusterSpec;
  OVHCluster_Status : OVHClusterStatus;
}.

(** OVHClusterList contains a list of OVHCluster. *)
Record OVHClusterList := mkOVHClusterList {
  OVHClusterList_ListMeta : ListMeta;
  OVHClusterList_Items : list OVHCluster;
}.

(** OVHVolume defines an additional block storage volume to attach to the instance. *)
Record OVHVolume := mkOVHVolume {
  OVHVolume_Name : string;
  OVHVolume_SizeGB : Z;
  OVHVolume_Type : string;
}.

(** Initialization tracks internal instance provisioning state. *)
Record Initialization := mkInitialization {
  Initialization_Provisioned : bool;
}.

(** OVHMachineSpec defines the desired state of OVHMachine. *)
Record OVHMachineSpec := mkOVHMachineSpec {
  MSpec_ProviderID : string;
  MSpec_FlavorName : string;
  MSpec_ImageName : string;
  MSpec_SSHKeyName : string;
  MSpec_RootDiskSize : Z;
  MSpec_AdditionalVolumes : list OVHVolume;
  MSpec_FailureDomain : string;
  MSpec_SecurityGroupNames : list string;
  MSpec_Tags : gmap string string;
  MSpec_BootstrapFormat : string;
  MSpec_ExistingInstanceID : string;
}.

(** OVHMachineStatus defines the observed state of OVHMachine. *)
Record OVHMachineStatus := mkOVHMachineStatus {
  MStatus_Ready : bool;
  MStatus_Conditions : list Condition;
  MStatus_FailureReason : string;
  MStatus_FailureMessage : string;
  MStatus_Addresses : list MachineAddress;
  MStatus_Initialization : Initialization;
  MStatus_InstanceID : string;
  MStatus_VolumeIDs : list string;
  MStatus_LBPoolMemberID : string;
  MStatus_RegisterPoolMemberID : string;
}.

(** OVHMachine is the Schema for the ovhmachines API. *)
Record OVHMachine := mkOVHMachine {
  OVHMachine_ObjectMeta : ObjectMeta;
  OVHMachine_Spec : OVHMachineSpec;
  OVHMachine_Status : OVHMachineStatus;
}.

(** OVHMachineList contains a list of OVHMachine. *)
Record OVHMachineList := mkOVHMachineList {
  OVHMachineList_ListMeta : ListMeta;
  OVHMachineList_Items : list OVHMachine;
}.

(** OVHClusterTemplateResource defines the template resource for OVHCluster. *)
Record OVHClusterTemplateResource := mkOVHClusterTemplateResource {
  OVHClusterTemplateResource_ObjectMeta : TemplateMeta;
  OVHClusterTemplateResource_Spec : OVHClusterSpec;
}.

(** OVHClusterTemplateSpec defines the desired state of OVHClusterTemplate. *)
Record OVHClusterTemplateSpec := mkOVHClusterTemplateSpec {
  OVHClusterTemplateSpec_Template : OVHClusterTemplateResource;
}.

(** OVHClusterTemplate is the Schema for the ovhclustertemplates API. *)
Record OVHClusterTemplate := mkOVHClusterTemplate {
  OVHClusterTemplate_ObjectMeta : ObjectMeta;
  OVHClusterTemplate_Spec : OVHClusterTemplateSpec;
}.

(** OVHClusterTemplateList contains a list of OVHClusterTemplate. *)
Record OVHClusterTemplateList := mkOVHClusterTemplateList {
  OVHClusterTemplateList_ListMeta : ListMeta;
  OVHClusterTemplateList_Items : list OVHClusterTemplate;
}.

(** OVHMachineTemplateResource describes the data needed to create an OVHMachine from a
    template. *)
Record OVHMachineTemplateResource := mkOVHMachineTemplateResource {
  OVHMachineTemplateResource_ObjectMeta : TemplateMeta;
  OVHMachineTemplateResource_Spec : OVHMachineSpec;
}.

(** OVHMachineTemplateSpec defines the desired state of OVHMachineTemplate. *)
Record OVHMachineTemplateSpec := mkOVHMachineTemplateSpec {
  OVHMachineTemplateSpec_Template : OVHMachineTemplateResource;
}.

(** OVHMachineTemplate is the Schema for the ovhmachinetemplates API. *)
Record OVHMachineTemplate := mkOVHMachineTemplate {
  OVHMachineTemplate_ObjectMeta : ObjectMeta;
  OVHMachineTemplate_Spec : OVHMachineTemplateSpec;
}.

(** OVHMachineTemplateList contains a list of OVHMachineTemplate. *)
Record OVHMachineTemplateList := mkOVHMachineTemplateList {
  OVHMachineTemplateList_ListMeta : ListMeta;
  OVHMachineTemplateList_Items : list OVHMachineTemplate;
}.

(** OVHMachinePoolSpec defines the desired state of OVHMachinePool. *)
Record OVHMachinePoolSpec := mkOVHMachinePoolSpec {
  OVHMachinePoolSpec_FlavorName : string;
  OVHMachinePoolSpec_ImageName : string;
  OVHMachinePoolSpec_SSHKeyName : string;
  OVHMachinePoolSpec_RootDiskSize : Z;
  OVHMachinePoolSpec_ProviderIDList : list string;
}.

(** OVHMachinePoolStatus defines the observed state of OVHMachinePool. *)
Record OVHMachinePoolStatus := mkOVHMachinePoolStatus {
  OVHMachinePoolStatus_Ready : bool;
  OVHMachinePoolStatus_Replicas : Z;
  OVHMachinePoolStatus_ReadyReplicas : Z;
  OVHMachinePoolStatus_Conditions : list Condition;
  OVHMachinePoolStatus_FailureReason : string;
  OVHMachinePoolStatus_FailureMessage : string;
  OVHMachinePoolStatus_InfrastructureReady : bool;
  OVHMachinePoolStatus_InstanceIDs : list string;
}.

(** OVHMachinePool is the Schema for the ovhmachinepools API. *)
Record OVHMachinePool := mkOVHMachinePool {
  OVHMachinePool_ObjectMeta : ObjectMeta;
  OVHMachinePool_Spec : OVHMachinePoolSpec;
  OVHMachinePool_Status : OVHMachinePoolStatus;
}.

(** OVHMachinePoolList contains a list of OVHMachinePool. *)
Record OVHMachinePoolList := mkOVHMachinePoolList {
  OVHMachinePoolList_ListMeta : ListMeta;
  OVHMachinePoolList_Items : list OVHMachinePool;
}.

(** ** Zero values *)

#[export] Instance zero_ObjectMeta : Zero ObjectMeta := mkObjectMeta zero zero zero zero zero zero.
#[export] Instance zero_TemplateMeta : Zero TemplateMeta := mkTemplateMeta zero zero.
#[export] Instance zero_ListMeta : Zero ListMeta := mkListMeta zero zero.
#[export] Instance zero_APIEndpoint : Zero APIEndpoint := mkAPIEndpoint zero zero.
#[export] Instance zero_MachineAddress : Zero MachineAddress := mkMachineAddress zero zero.
#[export] Instance zero_FailureDomainSpec : Zero FailureDomainSpec := mkFailureDomainSpec zero.
#[export] Instance zero_SecretKey : Zero SecretKey := mkSecretKey zero zero.
#[export] Instance zero_OVHListener : Zero OVHListener := mkOVHListener zero zero zero zero.
#[export] Instance zero_OVHLoadBalancerConfig : Zero OVHLoadBalancerConfig := mkOVHLoadBalancerConfig zero zero zero zero zero zero.
#[export] Instance zero_OVHNetworkConfig : Zero OVHNetworkConfig := mkOVHNetworkConfig zero zero zero zero zero.
#[export] Instance zero_OVHSecurityRule : Zero OVHSecurityRule := mkOVHSecurityRule zero zero zero zero zero zero.
#[export] Instance zero_OVHSecurityGroup : Zero OVHSecurityGroup := mkOVHSecurityGroup zero zero.
#[export] Instance zero_OVHDNSConfig : Zero OVHDNSConfig := mkOVHDNSConfig zero zero zero.
#[export] Instance zero_OVHClusterSpec : Zero OVHClusterSpec := mkOVHClusterSpec zero zero zero zero zero zero zero zero zero zero zero.
#[export] Instance zero_OVHClusterStatus : Zero OVHClusterStatus := mkOVHClusterStatus zero zero zero zero zero zero zero zero zero zero zero zero zero zero zero zero zero.
#[export] Instance zero_OVHCluster : Zero OVHCluster := mkOVHCluster zero zero zero.
#[export] Instance zero_OVHClusterList : Zero OVHClusterList := mkOVHClusterList zero zero.
#[export] Instance zero_OVHVolume : Zero OVHVolume := mkOVHVolume zero zero zero.
#[export] Instance zero_Initialization : Zero Initialization := mkInitialization zero.
#[export] Instance zero_OVHMachineSpec : Zero OVHMachineSpec := mkOVHMachineSpec zero zero zero zero zero zero zero zero zero zero zero.
#[export] Instance zero_OVHMachineStatus : Zero OVHMachineStatus := mkOVHMachineStatus zero zero zero zero zero zero zero zero zero zero.
#[export] Instance zero_OVHMachine : Zero OVHMachine := mkOVHMachine zero zero zero.
#[export] Instance zero_OVHMachineList : Zero OVHMachineList := mkOVHMachineList zero zero.
#[export] Instance zero_OVHClusterTemplateResource : Zero OVHClusterTemplateResource := mkOVHClusterTemplateResource zero zero.
#[export] Instance zero_OVHClusterTemplateSpec : Zero OVHClusterTemplateSpec := mkOVHClusterTemplateSpec zero.
#[export] Instance zero_OVHClusterTemplate : Zero OVHClusterTemplate := mkOVHClusterTemplate zero zero.
#[export] Instance zero_OVHClusterTemplateList : Zero OVHClusterTemplateList := mkOVHClusterTemplateList zero zero.
#[export] Instance zero_OVHMachineTemplateResource : Zero OVHMachineTemplateResource := mkOVHMachineTemplateResource zero zero.
#[export] Instance zero_OVHMachineTemplateSpec : Zero OVHMachineTemplateSpec := mkOVHMachineTemplateSpec zero.
#[export] Instance zero_OVHMachineTemplate : Zero OVHMachineTemplate := mkOVHMachineTemplate zero zero.
#[export] Instance zero_OVHMachineTemplateList : Zero OVHMachineTemplateList := mkOVHMachineTemplateList zero zero.
#[export] Instance zero_OVHMachinePoolSpec : Zero OVHMachinePoolSpec := mkOVHMachinePoolSpec zero zero zero zero zero.
#[export] Instance zero_OVHMachinePoolStatus : Zero OVHMachinePoolStatus := mkOVHMachinePoolStatus zero zero zero zero zero zero zero zero.
#[export] Instance zero_OVHMachinePool : Zero OVHMachinePool := mkOVHMachinePool zero zero zero.
#[export] Instance zero_OVHMachinePoolList : Zero OVHMachinePoolList := mkOVHMachinePoolList zero zero.

(** ** Decidable equality *)

#[export] Instance ObjectMeta_eq_dec : EqDecision ObjectMeta.
Proof. solve_decision. Defined.
#[export] Instance TemplateMeta_eq_dec : EqDecision TemplateMeta.
Proof. solve_decision. Defined.
#[export] Instance ListMeta_eq_dec : EqDecision ListMeta.
Proof. solve_decision. Defined.
#[export] Instance Condition_eq_dec : EqDecision Condition.
Proof. solve_decision. Defined.
#[export] Instance APIEndpoint_eq_dec : EqDecision APIEndpoint.
Proof. solve_decision. Defined.
#[export] Instance MachineAddress_eq_dec : EqDecision MachineAddress.
Proof. solve_decision. Defined.
#[export] Instance FailureDomainSpec_eq_dec : EqDecision FailureDomainSpec.
Proof. solve_decision. Defined.
#[export] Instance ObjectReference_eq_dec : EqDecision ObjectReference.
Proof. solve_decision. Defined.
#[export] Instance Cluster_eq_dec : EqDecision Cluster.
Proof. solve_decision. Defined.
#[export] Instance Machine_eq_dec : EqDecision Machine.
Proof. solve_decision. Defined.
#[export] Instance Secret_eq_dec : EqDecision Secret.
Proof. solve_decision. Defined.
#[export] Instance SecretKey_eq_dec : EqDecision SecretKey.
Proof. solve_decision. Defined.
#[export] Instance OVHListener_eq_dec : EqDecision OVHListener.
Proof. solve_decision. Defined.
#[export] Instance OVHLoadBalancerConfig_eq_dec : EqDecision OVHLoadBalancerConfig.
Proof. solve_decision. Defined.
#[export] Instance OVHNetworkConfig_eq_dec : EqDecision OVHNetworkConfig.
Proof. solve_decision. Defined.
#[export] Instance OVHSecurityRule_eq_dec : EqDecision OVHSecurityRule.
Proof. solve_decision. Defined.
#[export] Instance OVHSecurityGroup_eq_dec : EqDecision OVHSecurityGroup.
Proof. solve_decision. Defined.
#[export] Instance OVHDNSConfig_eq_dec : EqDecision OVHDNSConfig.
Proof. solve_decision. Defined.
#[export] Instance OVHClusterSpec_eq_dec : EqDecision OVHClusterSpec.
Proof. solve_decision. Defined.
#[export] Instance OVHClusterStatus_eq_dec : EqDecision OVHClusterStatus.
Proof. solve_decision. Defined.
#[export] Instance OVHCluster_eq_dec : EqDecision OVHCluster.
Proof. solve_decision. Defined.
#[export] Instance OVHClusterList_eq_dec : EqDecision OVHClusterList.
Proof. solve_decision. Defined.
#[export] Instance OVHVolume_eq_dec : EqDecision OVHVolume.
Proof. solve_decision. Defined.
#[export] Instance Initialization_eq_dec : EqDecision Initialization.
Proof. solve_decision. Defined.
#[export] Instance OVHMachineSpec_eq_dec : EqDecision OVHMachineSpec.
Proof. solve_decision. Defined.
#[export] Instance OVHMachineStatus_eq_dec : EqDecision OVHMachineStatus.
Proof. solve_decision. Defined.
#[export] Instance OVHMachine_eq_dec : EqDecision OVHMachine.
Proof. solve_decision. Defined.
#[export] Instance OVHMachineList_eq_dec : EqDecision OVHMachineList.
Proof. solve_decision. Defined.
#[export] Instance OVHClusterTemplateResource_eq_dec : EqDecision OVHClusterTemplateResource.
Proof. solve_decision. Defined.
#[export] Instance OVHClusterTemplateSpec_eq_dec : EqDecision OVHClusterTemplateSpec.
Proof. solve_decision. Defined.
#[export] Instance OVHClusterTemplate_eq_dec : EqDecision OVHClusterTemplate.
Proof. solve_decision. Defined.
#[export] Instance OVHClusterTemplateList_eq_dec : EqDecision OVHClusterTemplateList.
Proof. solve_decision. Defined.
#[export] Instance OVHMachineTemplateResource_eq_dec : EqDecision OVHMachineTemplateResource.
Proof. solve_decision. Defined.
#[export] Instance OVHMachineTemplateSpec_eq_dec : EqDecision OVHMachineTemplateSpec.
Proof. solve_decision. Defined.
#[export] Instance OVHMachineTemplate_eq_dec : EqDecision OVHMachineTemplate.
Proof. solve_decision. Defined.
#[export] Instance OVHMachineTemplateList_eq_dec : EqDecision OVHMachineTemplateList.
Proof. solve_decision. Defined.
#[export] Instance OVHMachinePoolSpec_eq_dec : EqDecision OVHMachinePoolSpec.
Proof. solve_decision. Defined.
#[export] Instance OVHMachinePoolStatus_eq_dec : EqDecision OVHMachinePoolStatus.
Proof. solve_decision. Defined.
#[export] Instance OVHMachinePool_eq_dec : EqDecision OVHMachinePool.
Proof. solve_decision. Defined.
#[export] Instance OVHMachinePoolList_eq_dec : EqDecision OVHMachinePoolList.
Proof. solve_decision. Defined.

(** ** Constants *)

Definition ClusterFinalizer : string := "ovhcluster.infrastructure.cluster.x-k8s.io/finalizer".
Definition OVHConnectionReadyCondition : string := "OVHConnectionReady".
Definition OVHConnectionFailedReason : string := "OVHConnectionFailed".
Definition OVHAuthenticationFailedReason : string := "OVHAuthenticationFailed".
Definition OVHConnectionReadyReason : string := "OVHConnectionReady".
Definition NetworkReadyCondition : string := "NetworkReady".
Definition NetworkCreationFailedReason : string := "NetworkCreationFailed".
Definition NetworkReadyReason : string := "NetworkReady".
Definition NetworkCreatedByControllerCondition : string := "NetworkCreatedByController".
Definition NetworkCreatedByControllerReason : string := "NetworkCreatedByController".
Definition LoadBalancerReadyCondition : string := "LoadBalancerReady".
Definition LoadBalancerNotReadyReason : string := "LoadBalancerNotReady".
Definition LoadBalancerCreationFailedReason : string := "LoadBalancerCreationFailed".
Definition LoadBalancerReadyReason : string := "LoadBalancerReady".
Definition InfrastructureReadyCondition : string := "InfrastructureReady".
Definition InfrastructureProvisioningInProgressReason : string := "InfrastructureProvisioningInProgress".
Definition InfrastructureProvisioningFailedReason : string := "InfrastructureProvisioningFailed".
Definition InfrastructureReadyReason : string := "InfrastructureReady".
Definition InitMachineCreatedCondition : string := "InitMachineCreated".
Definition InitMachineNotYetCreatedReason : string := "InitMachineNotYetCreated".
Definition MachineFinalizer : string := "ovhmachine.infrastructure.cluster.x-k8s.io/finalizer".
Definition InstanceCreatedCondition : string := "InstanceCreated".
Definition InstanceNotFoundReason : string := "InstanceNotFound".
Definition InstanceProvisioningReadyCondition : string := "InstanceProvisioningReady".
Definition InstanceProvisioningInProgressReason : string := "InstanceProvisioningInProgress".
Definition InstanceProvisioningFailedReason : string := "InstanceProvisioningFailed".
Definition InstanceProvisioningReadyReason : string := "InstanceProvisioningReady".
Definition InstanceRunningCondition : string := "InstanceRunning".
Definition InstanceRunningReason : string := "InstanceRunning".
Definition InstanceNotRunningReason : string := "InstanceNotRunning".
Definition ConditionSeverityError : string := "Error".
Definition ConditionSeverityInfo : string := "Info".
Definition MachineInternalIP : string := "InternalIP".
Definition MachineExternalIP : string := "ExternalIP".

(** ** Accessors and updates

    The reconcilers mutate one object through a pointer: an assignment to a
    field is a function on the object. *)

Definition set_c_Ready (v : bool) (o : OVHCluster) : OVHCluster :=
  let s := OVHCluster_Status o in
  mkOVHCluster (OVHCluster_ObjectMeta o) (OVHCluster_Spec o) (mkOVHClusterStatus v
    (CStatus_FailureReason s) (CStatus_FailureMessage s) (CStatus_Conditions s)
    (CStatus_NetworkID s) (CStatus_SubnetID s) (CStatus_LoadBalancerID s)
    (CStatus_ListenerID s) (CStatus_PoolID s) (CStatus_FloatingIPID s)
    (CStatus_GatewayID s) (CStatus_GatewayExposed s) (CStatus_RegisterListenerID s)
    (CStatus_RegisterPoolID s) (CStatus_FailureDomains s) (CStatus_SecurityGroupIDs s)
    (CStatus_DNSRecordID s)).
Definition set_c_FailureReason (v : string) (o : OVHCluster) : OVHCluster :=
  let s := OVHCluster_Status o in
  mkOVHCluster (OVHCluster_ObjectMeta o) (OVHCluster_Spec o) (mkOVHClusterStatus
    (CStatus_Ready s) v (CStatus_FailureMessage s) (CStatus_Conditions s)
    (CStatus_NetworkID s) (CStatus_SubnetID s) (CStatus_LoadBalancerID s)
    (CStatus_ListenerID s) (CStatus_PoolID s) (CStatus_FloatingIPID s)
    (CStatus_GatewayID s) (CStatus_GatewayExposed s) (CStatus_RegisterListenerID s)
    (CStatus_RegisterPoolID s) (CStatus_FailureDomains s) (CStatus_SecurityGroupIDs s)
    (CStatus_DNSRecordID s)).
Definition set_c_FailureMessage (v : string) (o : OVHCluster) : OVHCluster :=
  let s := OVHCluster_Status o in
  mkOVHCluster (OVHCluster_ObjectMeta o) (OVHCluster_Spec o) (mkOVHClusterStatus
    (CStatus_Ready s) (CStatus_FailureReason s) v (CStatus_Conditions s)
    (CStatus_NetworkID s) (CStatus_SubnetID s) (CStatus_LoadBalancerID s)
    (CStatus_ListenerID s) (CStatus_PoolID s) (CStatus_FloatingIPID s)
    (CStatus_GatewayID s) (CStatus_GatewayExposed s) (CStatus_RegisterListenerID s)
    (CStatus_RegisterPoolID s) (CStatus_FailureDomains s) (CStatus_SecurityGroupIDs s)
    (CStatus_DNSRecordID s)).
Definition set_c_Conditions (v : list Condition) (o : OVHCluster) : OVHCluster :=
  let s := OVHCluster_Status o in
  mkOVHCluster (OVHCluster_ObjectMeta o) (OVHCluster_Spec o) (mkOVHClusterStatus
    (CStatus_Ready s) (CStatus_FailureReason s) (CStatus_FailureMessage s) v
    (CStatus_NetworkID s) (CStatus_SubnetID s) (CStatus_LoadBalancerID s)
    (CStatus_ListenerID s) (CStatus_PoolID s) (CStatus_FloatingIPID s)
    (CStatus_GatewayID s) (CStatus_GatewayExposed s) (CStatus_RegisterListenerID s)
    (CStatus_RegisterPoolID s) (CStatus_FailureDomains s) (CStatus_SecurityGroupIDs s)
    (CStatus_DNSRecordID s)).
Definition set_c_NetworkID (v : string) (o : OVHCluster) : OVHCluster :=
  let s := OVHCluster_Status o in
  mkOVHCluster (OVHCluster_ObjectMeta o) (OVHCluster_Spec o) (mkOVHClusterStatus
    (CStatus_Ready s) (CStatus_FailureReason s) (CStatus_FailureMessage s)
    (CStatus_Conditions s) v (CStatus_SubnetID s) (CStatus_LoadBalancerID s)
    (CStatus_ListenerID s) (CStatus_PoolID s) (CStatus_FloatingIPID s)
    (CStatus_GatewayID s) (CStatus_GatewayExposed s) (CStatus_RegisterListenerID s)
    (CStatus_RegisterPoolID s) (CStatus_FailureDomains s) (CStatus_SecurityGroupIDs s)
    (CStatus_DNSRecordID s)).
Definition set_c_SubnetID (v : string) (o : OVHCluster) : OVHCluster :=
  let s := OVHCluster_Status o in
  mkOVHCluster (OVHCluster_ObjectMeta o) (OVHCluster_Spec o) (mkOVHClusterStatus
    (CStatus_Ready s) (CStatus_FailureReason s) (CStatus_FailureMessage s)
    (CStatus_Conditions s) (CStatus_NetworkID s) v (CStatus_LoadBalancerID s)
    (CStatus_ListenerID s) (CStatus_PoolID s) (CStatus_FloatingIPID s)
    (CStatus_GatewayID s) (CStatus_GatewayExposed s) (CStatus_RegisterListenerID s)
    (CStatus_RegisterPoolID s) (CStatus_FailureDomains s) (CStatus_SecurityGroupIDs s)
    (CStatus_DNSRecordID s)).
Definition set_c_LoadBalancerID (v : string) (o : OVHCluster) : OVHCluster :=
  let s := OVHCluster_Status o in
  mkOVHCluster (OVHCluster_ObjectMeta o) (OVHCluster_Spec o) (mkOVHClusterStatus
    (CStatus_Ready s) (CStatus_FailureReason s) (CStatus_FailureMessage s)
    (CStatus_Conditions s) (CStatus_NetworkID s) (CStatus_SubnetID s) v
    (CStatus_ListenerID s) (CStatus_PoolID s) (CStatus_FloatingIPID s)
    (CStatus_GatewayID s) (CStatus_GatewayExposed s) (CStatus_RegisterListenerID s)
    (CStatus_RegisterPoolID s) (CStatus_FailureDomains s) (CStatus_SecurityGroupIDs s)
    (CStatus_DNSRecordID s)).
Definition set_c_ListenerID (v : string) (o : OVHCluster) : OVHCluster :=
  let s := OVHCluster_Status o in
  mkOVHCluster (OVHCluster_ObjectMeta o) (OVHCluster_Spec o) (mkOVHClusterStatus
    (CStatus_Ready s) (CStatus_FailureReason s) (CStatus_FailureMessage s)
    (CStatus_Conditions s) (CStatus_NetworkID s) (CStatus_SubnetID s)
    (CStatus_LoadBalancerID s) v (CStatus_PoolID s) (CStatus_FloatingIPID s)
    (CStatus_GatewayID s) (CStatus_GatewayExposed s) (CStatus_RegisterListenerID s)
    (CStatus_RegisterPoolID s) (CStatus_FailureDomains s) (CStatus_SecurityGroupIDs s)
    (CStatus_DNSRecordID s)).
Definition set_c_PoolID (v : string) (o : OVHCluster) : OVHCluster :=
  let s := OVHCluster_Status o in
  mkOVHCluster (OVHCluster_ObjectMeta o) (OVHCluster_Spec o) (mkOVHClusterStatus
    (CStatus_Ready s) (CStatus_FailureReason s) (CStatus_FailureMessage s)
    (CStatus_Conditions s) (CStatus_NetworkID s) (CStatus_SubnetID s)
    (CStatus_LoadBalancerID s) (CStatus_ListenerID s) v (CStatus_FloatingIPID s)
    (CStatus_GatewayID s) (CStatus_GatewayExposed s) (CStatus_RegisterListenerID s)
    (CStatus_RegisterPoolID s) (CStatus_FailureDomains s) (CStatus_SecurityGroupIDs s)
    (CStatus_DNSRecordID s)).
Definition set_c_FloatingIPID (v : string) (o : OVHCluster) : OVHCluster :=
  let s := OVHCluster_Status o in
  mkOVHCluster (OVHCluster_ObjectMeta o) (OVHCluster_Spec o) (mkOVHClusterStatus
    (CStatus_Ready s) (CStatus_FailureReason s) (CStatus_FailureMessage s)
    (CStatus_Conditions s) (CStatus_NetworkID s) (CStatus_SubnetID s)
    (CStatus_LoadBalancerID s) (CStatus_ListenerID s) (CStatus_PoolID s) v
    (CStatus_GatewayID s) (CStatus_GatewayExposed s) (CStatus_RegisterListenerID s)
    (CStatus_RegisterPoolID s) (CStatus_FailureDomains s) (CStatus_SecurityGroupIDs s)
    (CStatus_DNSRecordID s)).
Definition set_c_GatewayID (v : string) (o : OVHCluster) : OVHCluster :=
  let s := OVHCluster_Status o in
  mkOVHCluster (OVHCluster_ObjectMeta o) (OVHCluster_Spec o) (mkOVHClusterStatus
    (CStatus_Ready s) (CStatus_FailureReason s) (CStatus_FailureMessage s)
    (CStatus_Conditions s) (CStatus_NetworkID s) (CStatus_SubnetID s)
    (CStatus_LoadBalancerID s) (CStatus_ListenerID s) (CStatus_PoolID s)
    (CStatus_FloatingIPID s) v (CStatus_GatewayExposed s) (CStatus_RegisterListenerID s)
    (CStatus_RegisterPoolID s) (CStatus_FailureDomains s) (CStatus_SecurityGroupIDs s)
    (CStatus_DNSRecordID s)).
Definition set_c_GatewayExposed (v : bool) (o : OVHCluster) : OVHCluster :=
  let s := OVHCluster_Status o in
  mkOVHCluster (OVHCluster_ObjectMeta o) (OVHCluster_Spec o) (mkOVHClusterStatus
    (CStatus_Ready s) (CStatus_FailureReason s) (CStatus_FailureMessage s)
    (CStatus_Conditions s) (CStatus_NetworkID s) (CStatus_SubnetID s)
    (CStatus_LoadBalancerID s) (CStatus_ListenerID s) (CStatus_PoolID s)
    (CStatus_FloatingIPID s) (CStatus_GatewayID s) v (CStatus_RegisterListenerID s)
    (CStatus_RegisterPoolID s) (CStatus_FailureDomains s) (CStatus_SecurityGroupIDs s)
    (CStatus_DNSRecordID s)).
Definition set_c_RegisterListenerID (v : string) (o : OVHCluster) : OVHCluster :=
  let s := OVHCluster_Status o in
  mkOVHCluster (OVHCluster_ObjectMeta o) (OVHCluster_Spec o) (mkOVHClusterStatus
    (CStatus_Ready s) (CStatus_FailureReason s) (CStatus_FailureMessage s)
    (CStatus_Conditions s) (CStatus_NetworkID s) (CStatus_SubnetID s)
    (CStatus_LoadBalancerID s) (CStatus_ListenerID s) (CStatus_PoolID s)
    (CStatus_FloatingIPID s) (CStatus_GatewayID s) (CStatus_GatewayExposed s) v
    (CStatus_RegisterPoolID s) (CStatus_FailureDomains s) (CStatus_SecurityGroupIDs s)
    (CStatus_DNSRecordID s)).
Definition set_c_RegisterPoolID (v : string) (o : OVHCluster) : OVHCluster :=
  let s := OVHCluster_Status o in
  mkOVHCluster (OVHCluster_ObjectMeta o) (OVHCluster_Spec o) (mkOVHClusterStatus
    (CStatus_Ready s) (CStatus_FailureReason s) (CStatus_FailureMessage s)
    (CStatus_Conditions s) (CStatus_NetworkID s) (CStatus_SubnetID s)
    (CStatus_LoadBalancerID s) (CStatus_ListenerID s) (CStatus_PoolID s)
    (CStatus_FloatingIPID s) (CStatus_GatewayID s) (CStatus_GatewayExposed s)
    (CStatus_RegisterListenerID s) v (CStatus_FailureDomains s)
    (CStatus_SecurityGroupIDs s) (CStatus_DNSRecordID s)).
Definition set_c_FailureDomains (v : gmap string FailureDomainSpec) (o : OVHCluster) : OVHCluster :=
  let s := OVHCluster_Status o in
  mkOVHCluster (OVHCluster_ObjectMeta o) (OVHCluster_Spec o) (mkOVHClusterStatus
    (CStatus_Ready s) (CStatus_FailureReason s) (CStatus_FailureMessage s)
    (CStatus_Conditions s) (CStatus_NetworkID s) (CStatus_SubnetID s)
    (CStatus_LoadBalancerID s) (CStatus_ListenerID s) (CStatus_PoolID s)
    (CStatus_FloatingIPID s) (CStatus_GatewayID s) (CStatus_GatewayExposed s)
    (CStatus_RegisterListenerID s) (CStatus_RegisterPoolID s) v
    (CStatus_SecurityGroupIDs s) (CStatus_DNSRecordID s)).
Definition set_c_SecurityGroupIDs (v : gmap string string) (o : OVHCluster) : OVHCluster :=
  let s := OVHCluster_Status o in
  mkOVHCluster (OVHCluster_ObjectMeta o) (OVHCluster_Spec o) (mkOVHClusterStatus
    (CStatus_Ready s) (CStatus_FailureReason s) (CStatus_FailureMessage s)
    (CStatus_Conditions s) (CStatus_NetworkID s) (CStatus_SubnetID s)
    (CStatus_LoadBalancerID s) (CStatus_ListenerID s) (CStatus_PoolID s)
    (CStatus_FloatingIPID s) (CStatus_GatewayID s) (CStatus_GatewayExposed s)
    (CStatus_RegisterListenerID s) (CStatus_RegisterPoolID s) (CStatus_FailureDomains s) v
    (CStatus_DNSRecordID s)).
Definition set_c_DNSRecordID (v : Z) (o : OVHCluster) : OVHCluster :=
  let s := OVHCluster_Status o in
  mkOVHCluster (OVHCluster_ObjectMeta o) (OVHCluster_Spec o) (mkOVHClusterStatus
    (CStatus_Ready s) (CStatus_FailureReason s) (CStatus_FailureMessage s)
    (CStatus_Conditions s) (CStatus_NetworkID s) (CStatus_SubnetID s)
    (CStatus_LoadBalancerID s) (CStatus_ListenerID s) (CStatus_PoolID s)
    (CStatus_FloatingIPID s) (CStatus_GatewayID s) (CStatus_GatewayExposed s)
    (CStatus_RegisterListenerID s) (CStatus_RegisterPoolID s) (CStatus_FailureDomains s)
    (CStatus_SecurityGroupIDs s) v).
Definition set_c_ControlPlaneEndpoint (v : APIEndpoint) (o : OVHCluster) : OVHCluster :=
  let s := OVHCluster_Spec o in
  mkOVHCluster (OVHCluster_ObjectMeta o) (mkOVHClusterSpec (CSpec_ServiceName s)
    (CSpec_Region s) (CSpec_IdentitySecret s) v (CSpec_LoadBalancerConfig s)
    (CSpec_NetworkConfig s) (CSpec_SSHKeyName s) (CSpec_FailureDomains s)
    (CSpec_SecurityGroups s) (CSpec_DefaultTags s) (CSpec_DNSConfig s))
    (OVHCluster_Status o).
Definition set_m_Ready (v : bool) (o : OVHMachine) : OVHMachine :=
  let s := OVHMachine_Status o in
  mkOVHMachine (OVHMachine_ObjectMeta o) (OVHMachine_Spec o) (mkOVHMachineStatus v
    (MStatus_Conditions s) (MStatus_FailureReason s) (MStatus_FailureMessage s)
    (MStatus_Addresses s) (MStatus_Initialization s) (MStatus_InstanceID s)
    (MStatus_VolumeIDs s) (MStatus_LBPoolMemberID s) (MStatus_RegisterPoolMemberID s)).
Definition set_m_Conditions (v : list Condition) (o : OVHMachine) : OVHMachine :=
  let s := OVHMachine_Status o in
  mkOVHMachine (OVHMachine_ObjectMeta o) (OVHMachine_Spec o) (mkOVHMachineStatus
    (MStatus_Ready s) v (MStatus_FailureReason s) (MStatus_FailureMessage s)
    (MStatus_Addresses s) (MStatus_Initialization s) (MStatus_InstanceID s)
    (MStatus_VolumeIDs s) (MStatus_LBPoolMemberID s) (MStatus_RegisterPoolMemberID s)).
Definition set_m_FailureReason (v : string) (o : OVHMachine) : OVHMachine :=
  let s := OVHMachine_Status o in
  mkOVHMachine (OVHMachine_ObjectMeta o) (OVHMachine_Spec o) (mkOVHMachineStatus
    (MStatus_Ready s) (MStatus_Conditions s) v (MStatus_FailureMessage s)
    (MStatus_Addresses s) (MStatus_Initialization s) (MStatus_InstanceID s)
    (MStatus_VolumeIDs s) (MStatus_LBPoolMemberID s) (MStatus_RegisterPoolMemberID s)).
Definition set_m_FailureMessage (v : string) (o : OVHMachine) : OVHMachine :=
  let s := OVHMachine_Status o in
  mkOVHMachine (OVHMachine_ObjectMeta o) (OVHMachine_Spec o) (mkOVHMachineStatus
    (MStatus_Ready s) (MStatus_Conditions s) (MStatus_FailureReason s) v
    (MStatus_Addresses s) (MStatus_Initialization s) (MStatus_InstanceID s)
    (MStatus_VolumeIDs s) (MStatus_LBPoolMemberID s) (MStatus_RegisterPoolMemberID s)).
Definition set_m_Addresses (v : list MachineAddress) (o : OVHMachine) : OVHMachine :=
  let s := OVHMachine_Status o in
  mkOVHMachine (OVHMachine_ObjectMeta o) (OVHMachine_Spec o) (mkOVHMachineStatus
    (MStatus_Ready s) (MStatus_Conditions s) (MStatus_FailureReason s)
    (MStatus_FailureMessage s) v (MStatus_Initialization s) (MStatus_InstanceID s)
    (MStatus_VolumeIDs s) (MStatus_LBPoolMemberID s) (MStatus_RegisterPoolMemberID s)).
Definition set_m_Initialization (v : Initialization) (o : OVHMachine) : OVHMachine :=
  let s := OVHMachine_Status o in
  mkOVHMachine (OVHMachine_ObjectMeta o) (OVHMachine_Spec o) (mkOVHMachineStatus
    (MStatus_Ready s) (MStatus_Conditions s) (MStatus_FailureReason s)
    (MStatus_FailureMessage s) (MStatus_Addresses s) v (MStatus_InstanceID s)
    (MStatus_VolumeIDs s) (MStatus_LBPoolMemberID s) (MStatus_RegisterPoolMemberID s)).
Definition set_m_InstanceID (v : string) (o : OVHMachine) : OVHMachine :=
  let s := OVHMachine_Status o in
  mkOVHMachine (OVHMachine_ObjectMeta o) (OVHMachine_Spec o) (mkOVHMachineStatus
    (MStatus_Ready s) (MStatus_Conditions s) (MStatus_FailureReason s)
    (MStatus_FailureMessage s) (MStatus_Addresses s) (MStatus_Initialization s) v
    (MStatus_VolumeIDs s) (MStatus_LBPoolMemberID s) (MStatus_RegisterPoolMemberID s)).
Definition set_m_VolumeIDs (v : list string) (o : OVHMachine) : OVHMachine :=
  let s := OVHMachine_Status o in
  mkOVHMachine (OVHMachine_ObjectMeta o) (OVHMachine_Spec o) (mkOVHMachineStatus
    (MStatus_Ready s) (MStatus_Conditions s) (MStatus_FailureReason s)
    (MStatus_FailureMessage s) (MStatus_Addresses s) (MStatus_Initialization s)
    (MStatus_InstanceID s) v (MStatus_LBPoolMemberID s) (MStatus_RegisterPoolMemberID s)).
Definition set_m_LBPoolMemberID (v : string) (o : OVHMachine) : OVHMachine :=
  let s := OVHMachine_Status o in
  mkOVHMachine (OVHMachine_ObjectMeta o) (OVHMachine_Spec o) (mkOVHMachineStatus
    (MStatus_Ready s) (MStatus_Conditions s) (MStatus_FailureReason s)
    (MStatus_FailureMessage s) (MStatus_Addresses s) (MStatus_Initialization s)
    (MStatus_InstanceID s) (MStatus_VolumeIDs s) v (MStatus_RegisterPoolMemberID s)).
Definition set_m_RegisterPoolMemberID (v : string) (o : OVHMachine) : OVHMachine :=
  let s := OVHMachine_Status o in
  mkOVHMachine (OVHMachine_ObjectMeta o) (OVHMachine_Spec o) (mkOVHMachineStatus
    (MStatus_Ready s) (MStatus_Conditions s) (MStatus_FailureReason s)
    (MStatus_FailureMessage s) (MStatus_Addresses s) (MStatus_Initialization s)
    (MStatus_InstanceID s) (MStatus_VolumeIDs s) (MStatus_LBPoolMemberID s) v).
Definition set_m_ProviderID (v : string) (o : OVHMachine) : OVHMachine :=
  let s := OVHMachine_Spec o in
  mkOVHMachine (OVHMachine_ObjectMeta o) (mkOVHMachineSpec v (MSpec_FlavorName s)
    (MSpec_ImageName s) (MSpec_SSHKeyName s) (MSpec_RootDiskSize s)
    (MSpec_AdditionalVolumes s) (MSpec_FailureDomain s) (MSpec_SecurityGroupNames s)
    (MSpec_Tags s) (MSpec_BootstrapFormat s) (MSpec_ExistingInstanceID s))
    (OVHMachine_Status o).

Definition set_Finalizers (fs : list string) (m : ObjectMeta) : ObjectMeta :=
  mkObjectMeta (Meta_Namespace m) (Meta_Name m) (Meta_Labels m) (Meta_Annotations m) fs
    (Meta_DeletionTimestamp m).
Definition set_c_Finalizers (fs : list string) (o : OVHCluster) : OVHCluster :=
  mkOVHCluster (set_Finalizers fs (OVHCluster_ObjectMeta o)) (OVHCluster_Spec o)
    (OVHCluster_Status o).
Definition set_m_Finalizers (fs : list string) (o : OVHMachine) : OVHMachine :=
  mkOVHMachine (set_Finalizers fs (OVHMachine_ObjectMeta o)) (OVHMachine_Spec o)
    (OVHMachine_Status o).

(** [obj.Annotations[key]]: the empty string when the key is absent. *)
Definition annotation (m : ObjectMeta) (key : string) : string :=
  default "" (Meta_Annotations m !! key).

Definition IsZero (t : option Z) : bool :=
  match t with None => true | Some _ => false end.

(** ** What the code asks of the Cluster API libraries *)

Class CAPI := {
  (* conditions.MarkTrue(obj, type) *)
  MarkTrue : string -> list Condition -> list Condition;
  (* conditions.MarkFalse(obj, type, reason, severity, message) *)
  MarkFalse : string -> string -> string -> string -> list Condition -> list Condition;
  (* conditions.IsTrue(obj, type) *)
  IsTrue : list Condition -> string -> bool;
  (* controllerutil.ContainsFinalizer, AddFinalizer and RemoveFinalizer *)
  ContainsFinalizer : list string -> string -> bool;
  AddFinalizer : list string -> string -> list string;
  RemoveFinalizer : list string -> string -> list string;
  (* annotations.IsPaused(cluster, obj) *)
  IsPaused : Cluster -> ObjectMeta -> bool;
  (* util.IsControlPlaneMachine(machine) *)
  IsControlPlaneMachine : Machine -> bool;
}.

(** The documented behaviour the theorems rely on, each stated where used. *)
Class CAPILaws (C : CAPI) := {
  IsTrue_MarkTrue ty cs : IsTrue (MarkTrue ty cs) ty = true;
  IsTrue_MarkFalse ty r sev msg cs : IsTrue (MarkFalse ty r sev msg cs) ty = false;
  IsTrue_MarkTrue_ne ty ty' cs :
    ty <> ty' -> IsTrue (MarkTrue ty cs) ty' = IsTrue cs ty';
  IsTrue_MarkFalse_ne ty ty' r sev msg cs :
    ty <> ty' -> IsTrue (MarkFalse ty r sev msg cs) ty' = IsTrue cs ty';
  Contains_Add fs f : ContainsFinalizer (AddFinalizer fs f) f = true;
  Contains_Remove fs f : ContainsFinalizer (RemoveFinalizer fs f) f = false;
}.

(** An implementation, for concrete runs: conditions newest first, with one
    entry per type; finalizers as the list they are. *)
Definition put_condition (c : Condition) (cs : list Condition) : list Condition :=
  c :: filter (fun d => Condition_Type d <> Condition_Type c) cs.

Definition simple_capi : CAPI := {|
  MarkTrue ty cs := put_condition (mkCondition ty true "" "" "") cs;
  MarkFalse ty r sev msg cs := put_condition (mkCondition ty false sev r msg) cs;
  IsTrue cs ty :=
    match first_match (fun c => bool_decide (Condition_Type c = ty)) cs with
    | Some c => Condition_Status c
    | None => false
    end;
  ContainsFinalizer fs f := bool_decide (f ∈ fs);
  AddFinalizer fs f := if decide (f ∈ fs) then fs else fs ++ [f];
  RemoveFinalizer fs f := filter (fun g => g <> f) fs;
  IsPaused c m := Cluster_Paused c || bool_decide (is_Some (Meta_Annotations m !! "cluster.x-k8s.io/paused"));
  IsControlPlaneMachine m :=
    bool_decide (is_Some (Meta_Labels (Machine_ObjectMeta m) !! "cluster.x-k8s.io/control-plane"));
|}.

Lemma first_match_put ty ty' (c : Condition) cs :
  Condition_Type c = ty -> ty <> ty' ->
  first_match (fun d => bool_decide (Condition_Type d = ty')) (put_condition c cs)
  = first_match (fun d => bool_decide (Condition_Type d = ty')) cs.
Proof.
  intros Hc Hne. unfold put_condition. simpl.
  rewrite bool_decide_false by congruence.
  induction cs as [|d cs IH]; simpl; [done|].
  rewrite filter_cons. case_decide as Hd; simpl.
  - by rewrite IH.
  - rewrite IH, bool_decide_false by congruence. done.
Qed.

#[export] Instance simple_capi_laws : CAPILaws simple_capi.
Proof.
  split; intros; cbn [IsTrue MarkTrue MarkFalse ContainsFinalizer AddFinalizer RemoveFinalizer simple_capi].
  - simpl. by rewrite bool_decide_true.
  - simpl. by rewrite bool_decide_true.
  - by rewrite (first_match_put ty).
  - by rewrite (first_match_put ty).
  - apply bool_decide_eq_true. case_decide; set_solver.
  - apply bool_decide_eq_false. rewrite list_elem_of_filter. tauto.
Qed.
