(* ===== verification/Effects.v ===== *)
(** * Effects: what a reconciler asks of the outside, and the programs it runs

    Everything outside [src/] answers freely: the OVH API behind go-ovh, the
    management cluster's API server, the workload cluster, the clock. A
    computation is a [prog]: a finite tree whose nodes are the calls it makes
    ([event]) and whose branches are all the answers it can get. A theorem
    about every run ([exec], [wp], [only]) holds whatever the services answer;
    [run] executes a program against a concrete service. *)

From S2P Require Import Prelude GoStrings Errors OvhTypes ApiTypes.
From Stdlib Require Import Eqdep_dec.

Local Open Scope Z_scope.

(** ** Calls of the OVH API *)

Inductive http_method := GET | POST | DELETE.

#[export] Instance http_method_dec : EqDecision http_method.
Proof. solve_decision. Defined.

(** The type go-ovh decodes an answer into (the [resType] argument). *)
Inductive ty :=
| TNone            (* nil: the body is dropped *)
| TAny             (* map[string]any *)
| TString
| TInstance | TFlavor | TImage | TSSHKey | TPrivateNetwork | TSubnet | TLBFlavor
| TLoadBalancer | TGateway | TListener | TPool | TMember | THealthMonitor | TVolume
| TFloatingIP | TRegionInfo | TSecurityGroup | TSecurityGroupRule | TDNSRecord
| TList (t : ty).

Fixpoint den (t : ty) : Type :=
  match t with
  | TNone | TAny => unit
  | TString => string
  | TInstance => Instance | TFlavor => Flavor | TImage => Image | TSSHKey => SSHKey
  | TPrivateNetwork => PrivateNetwork | TSubnet => Subnet | TLBFlavor => LBFlavor
  | TLoadBalancer => LoadBalancer | TGateway => Gateway | TListener => Listener
  | TPool => Pool | TMember => Member | THealthMonitor => HealthMonitor
  | TVolume => Volume | TFloatingIP => FloatingIP | TRegionInfo => RegionInfo
  | TSecurityGroup => SecurityGroup | TSecurityGroupRule => SecurityGroupRule
  | TDNSRecord => DNSRecord
  | TList t => list (den t)
  end.

(** The body of a request (the [reqBody] argument). *)
Inductive body :=
| NoBody
| BInstance (o : CreateInstanceOpts)
| BSSHKey (o : CreateSSHKeyOpts)
| BNetwork (o : CreateNetworkOpts)
| BSubnet (o : CreateSubnetOpts)
| BLoadBalancer (o : CreateLoadBalancerOpts)
| BAssociate (floatingIpId : string)
| BLBFloatingIP (ip gatewayModel gatewayName : string)
| BListener (o : CreateListenerOpts)
| BPool (o : CreatePoolOpts)
| BMembers (o : addPoolMembersRequest)
| BHealthMonitor (o : CreateHealthMonitorOpts)
| BVolume (o : CreateVolumeOpts)
| BAttach (o : AttachVolumeOpts)
| BFloatingIP (o : CreateFloatingIPOpts)
| BSecurityGroup (o : CreateSecurityGroupOpts)
| BSecurityGroupRule (o : CreateSecurityGroupRuleOpts)
| BDNSRecord (o : CreateDNSRecordOpts).

(** One call [c.api.Get/Post/Delete(path, body, &res)]. *)
Record request := mkRequest {
  req_method : http_method;
  req_path : string;
  req_body : body;
  req_out : ty;
}.

(** ** Calls of the Kubernetes APIs and of the libraries over them *)

Record Taint := mkTaint { Taint_Key : string; Taint_Value : string; Taint_Effect : string }.

Record Node := mkNode {
  Node_Name : string;
  Node_ProviderID : string;
  Node_Taints : list Taint;
}.

Record PodCondition := mkPodCondition { PodCondition_Type : string; PodCondition_Status : string }.

Record Pod := mkPod {
  Pod_Namespace : string;
  Pod_Name : string;
  Pod_NodeName : string;
  Pod_Phase : string;
  Pod_Conditions : list PodCondition;
}.

(** What a merge patch of a node sets ([json.Marshal] of the taints and the
    rendering of the patch are the encoder's). *)
Inductive node_patch :=
| PatchProviderID (id : string)
| PatchTaints (ts : list Taint).

(** The Prometheus counters and gauges of internal/metrics. *)
Inductive metric :=
| MachineCreateTotal
| MachineCreateErrorsTotal
| MachineDeleteTotal
| MachineDeleteErrorsTotal
| MachineStatus (cluster machine : string) (ready : bool)
| ClusterReady (cluster : string) (ready : bool).

Inductive event :=
| EApi (r : request)
| ESleep (nanoseconds : Z)
| EMetric (m : metric)
(* the order in which [range] visits a map: the runtime's choice *)
| ERange (entries : list (string * string))
(* goovh.NewClient *)
| ENewGoovh (endpoint appKey appSecret consumerKey : string)
(* the management cluster *)
| EGetOVHCluster (namespace name : string)
| EGetOVHMachine (namespace name : string)
| EGetSecret (namespace name : string)
| EListOVHClusters (identitySecretName : string)
| ENewClusterPatch (c : OVHCluster)
| EPatchCluster (c : OVHCluster)
| ENewMachinePatch (m : OVHMachine)
| EPatchMachine (m : OVHMachine)
| EGetOwnerCluster (m : ObjectMeta)
| EGetOwnerMachine (m : ObjectMeta)
| EGetClusterFromMetadata (m : ObjectMeta)
(* the workload cluster *)
| EKubeconfigFromSecret (namespace name : string)
| ERESTConfig (kubeconfig : string)
| ENewForConfig (config : string)
| EGetNode (config name : string)
| EPatchNode (config name : string) (p : node_patch)
| EListPods (config namespace selector : string)
| ENewExecutor (config namespace pod container : string) (cmd : list string)
| EExec (config namespace pod container : string) (cmd : list string).

Definition answer (e : event) : Type :=
  match e with
  | EApi r => res (den (req_out r))
  | ESleep _ | EMetric _ => unit
  | ERange _ => list (string * string)
  | ENewGoovh _ _ _ _ => res unit
  | EGetOVHCluster _ _ => res OVHCluster
  | EGetOVHMachine _ _ => res OVHMachine
  | EGetSecret _ _ => res Secret
  | EListOVHClusters _ => res (list OVHCluster)
  | ENewClusterPatch _ | EPatchCluster _ | ENewMachinePatch _ | EPatchMachine _ => res unit
  | EGetOwnerCluster _ => res (option Cluster)
  | EGetOwnerMachine _ => res (option Machine)
  | EGetClusterFromMetadata _ => res (option Cluster)
  | EKubeconfigFromSecret _ _ => res string
  | ERESTConfig _ => res string
  | ENewForConfig _ => res unit
  | EGetNode _ _ => res Node
  | EPatchNode _ _ _ => res unit
  | EListPods _ _ _ => res (list Pod)
  | ENewExecutor _ _ _ _ _ => res unit
  | EExec _ _ _ _ _ => (string * string) * option error
  end.

(** ** Decidable equality *)

#[export] Instance ty_eq_dec : EqDecision ty.
Proof. solve_decision. Defined.
#[export] Instance body_eq_dec : EqDecision body.
Proof. solve_decision. Defined.
#[export] Instance request_eq_dec : EqDecision request.
Proof. solve_decision. Defined.
#[export] Instance Taint_eq_dec : EqDecision Taint.
Proof. solve_decision. Defined.
#[export] Instance node_patch_eq_dec : EqDecision node_patch.
Proof. solve_decision. Defined.
#[export] Instance metric_eq_dec : EqDecision metric.
Proof. solve_decision. Defined.
#[export] Instance event_eq_dec : EqDecision event.
Proof. solve_decision. Defined.

(** ** Programs *)

Inductive prog (A : Type) : Type :=
| Ret (a : A)
| Vis (e : event) (k : answer e -> prog A).

Arguments Ret {A} a.
Arguments Vis {A} e k.

#[export] Instance prog_ret : MRet prog := @Ret.

#[export] Instance prog_bind : MBind prog :=
  fun A B f => fix go (p : prog A) : prog B :=
    match p with
    | Ret a => f a
    | Vis e k => Vis e (fun r => go (k r))
    end.

Definition call (e : event) : prog (answer e) := Vis e Ret.

(** ** Stateful programs: the object under reconciliation is threaded *)

Definition M (S A : Type) : Type := S -> prog (A * S).

#[export] Instance M_ret S : MRet (M S) := fun A a s => Ret (a, s).

#[export] Instance M_bind S : MBind (M S) :=
  fun A B f m s => m s ≫= fun '(a, s') => f a s'.

Definition lift {S A} (p : prog A) : M S A := fun s => p ≫= fun a => Ret (a, s).
Definition get {S} : M S S := fun s => Ret (s, s).
Definition gets {S A} (f : S -> A) : M S A := fun s => Ret (f s, s).
Definition modify {S} (f : S -> S) : M S unit := fun s => Ret (tt, f s).
Definition when {S} (b : bool) (m : M S unit) : M S unit := if b then m else mret tt.

(** The two shapes of [if err != nil]: the error is wrapped on its way out,
    and the caller returns on an error. *)
Definition wrap_err {M} `{MRet M, MBind M} {A} (f : error -> error) (m : M (res A))
    : M (res A) := r ← m; mret (map_err f r).

Definition try_bind {M} `{MRet M, MBind M} {A B} (m : M (res A)) (k : A -> M (res B))
    : M (res B) := r ← m; match r with Ok a => k a | Err e => mret (Err e) end.

Notation "x '←?' m ; k" := (try_bind m (fun x => k))
  (at level 20, m at level 100, k at level 200, only parsing) : stdpp_scope.

(** [for _, x := range xs { ... }]: a body that never leaves the loop, and one
    that returns from the function on an error. *)
Fixpoint for_each {M} `{MRet M, MBind M} {A} (f : A -> M unit) (xs : list A) : M unit :=
  match xs with
  | [] => mret tt
  | x :: xs' => f x ;; for_each f xs'
  end.

Fixpoint for_try {M} `{MRet M, MBind M} {A} (f : A -> M (res unit)) (xs : list A)
    : M (res unit) :=
  match xs with
  | [] => mret (Ok tt)
  | x :: xs' => _ ←? f x; for_try f xs'
  end.

(** A loop that updates the local variable [acc]. *)
Fixpoint for_acc {M} `{MRet M, MBind M} {A B} (f : B -> A -> M B) (acc : B) (xs : list A) : M B :=
  match xs with
  | [] => mret acc
  | x :: xs' => acc ← f acc x; for_acc f acc xs'
  end.

(** [for k, v := range m]: the entries in the order the runtime picks. *)
Definition range_map (m : gmap string string) : prog (list (string * string)) :=
  order ← call (ERange (map_to_list m));
  mret (if decide (order ≡ₚ map_to_list m) then order else map_to_list m).

(** ** Runs *)

Record obs := Obs { obs_event : event; obs_answer : answer obs_event }.

(** Two observations of a call are equal when their answers are. *)
Lemma Obs_inj e (r r' : answer e) : Obs e r = Obs e r' -> r = r'.
Proof. intros [= H]. by apply (Eqdep_dec.inj_pair2_eq_dec _ event_eq_dec) in H. Qed.

(** [exec p t a]: [p] can return [a] after the calls and answers [t]. *)
Fixpoint exec {A} (p : prog A) (t : list obs) (a : A) : Prop :=
  match p with
  | Ret x => t = [] /\ a = x
  | Vis e k => exists r t', t = Obs e r :: t' /\ exec (k r) t' a
  end.

(** Every run of [p] ends in a trace and a value that satisfy [Q]. *)
Fixpoint wp {A} (p : prog A) (Q : list obs -> A -> Prop) : Prop :=
  match p with
  | Ret a => Q [] a
  | Vis e k => forall r, wp (k r) (fun t a => Q (Obs e r :: t) a)
  end.

(** Every call [p] can make satisfies [P]. *)
Fixpoint only {A} (P : event -> Prop) (p : prog A) : Prop :=
  match p with
  | Ret _ => True
  | Vis e k => P e /\ forall r, only P (k r)
  end.

(** The run of [p] against a service with state [W]. *)
Fixpoint run {W A} (h : forall e, W -> answer e * W) (p : prog A) (w : W)
    : A * W * list obs :=
  match p with
  | Ret a => (a, w, [])
  | Vis e k =>
    let '(r, w') := h e w in
    let '(a, w'', t) := run h (k r) w' in (a, w'', Obs e r :: t)
  end.

(** ** What a trace holds *)

Definition event_request (e : event) : option request :=
  match e with EApi r => Some r | _ => None end.

(** The API calls of a trace, in order. *)
Definition requests (t : list obs) : list request :=
  omap (fun o => event_request (obs_event o)) t.

(** The error an API call was answered with. *)
Definition obs_error (o : obs) : option error :=
  let 'Obs e r := o in
  match e return answer e -> option error with
  | EApi _ => fun r => err_of r
  | _ => fun _ => None
  end r.

Definition sleep_of (e : event) : Z :=
  match e with ESleep d => d | _ => 0 end.

(** The time a trace spends asleep. *)
Definition slept (t : list obs) : Z := foldr Z.add 0 (map (fun o => sleep_of (obs_event o)) t).

Definition is_api (e : event) : bool := match e with EApi _ => true | _ => false end.

Definition is_method (m : http_method) (e : event) : bool :=
  match e with EApi r => bool_decide (req_method r = m) | _ => false end.

(** The calls that change nothing at OVH. *)
Definition read_only (e : event) : Prop := is_method POST e = false /\ is_method DELETE e = false.

(** ** Theory *)

Lemma only_ret {A} P (a : A) : only P (Ret a).
Proof. done. Qed.

Lemma only_call P e : only P (call e) <-> P e.
Proof. split; [intros [H _]; exact H | intros H; split; [exact H | intros r; exact I]]. Qed.

Lemma only_bind {A B} P (p : prog A) (f : A -> prog B) :
  only P p -> (forall a, only P (f a)) -> only P (p ≫= f).
Proof.
  intros Hp Hf. induction p as [a | e k IH]; simpl in *; [apply Hf|].
  destruct Hp as [He Hk]. split; [done|]. intros r. apply IH, Hk.
Qed.

Lemma only_mono {A} (P P' : event -> Prop) (p : prog A) :
  (forall e, P e -> P' e) -> only P p -> only P' p.
Proof.
  intros HP. induction p as [a | e k IH]; simpl; [done|].
  intros [He Hk]. split; [by apply HP|]. intros r. by apply IH.
Qed.

Lemma only_exec {A} P (p : prog A) t a :
  only P p -> exec p t a -> Forall (fun o => P (obs_event o)) t.
Proof.
  induction p as [x | e k IH] in t, a |- *; simpl.
  - intros _ [-> _]. constructor.
  - intros [He Hk] (r & t' & -> & H). constructor; [done|]. by eapply IH.
Qed.

Lemma wp_ret {A} (a : A) Q : Q [] a -> wp (Ret a) Q.
Proof. done. Qed.

Lemma wp_mono {A} (p : prog A) (Q Q' : list obs -> A -> Prop) :
  wp p Q -> (forall t a, Q t a -> Q' t a) -> wp p Q'.
Proof.
  induction p as [a | e k IH] in Q, Q' |- *; simpl; intros H HQ; [by apply HQ|].
  intros r. eapply IH; [apply H|]. intros t a. apply HQ.
Qed.

Lemma wp_bind {A B} (p : prog A) (f : A -> prog B) Q :
  wp p (fun t a => wp (f a) (fun t' b => Q (t ++ t') b)) -> wp (p ≫= f) Q.
Proof.
  induction p as [a | e k IH] in Q |- *; simpl; [done|].
  intros H r. apply IH. exact (H r).
Qed.

Lemma wp_exec {A} (p : prog A) Q :
  wp p Q <-> forall t a, exec p t a -> Q t a.
Proof.
  induction p as [x | e k IH] in Q |- *; simpl.
  - split; [intros H t a [-> ->]; exact H | intros H; by apply H].
  - split.
    + intros H t a (r & t' & -> & He). by apply (proj1 (IH r _) (H r)).
    + intros H r. apply IH. intros t a He. apply H. eauto.
Qed.

Lemma exec_ret {A} (x : A) t a : exec (Ret x) t a <-> t = [] /\ a = x.
Proof. done. Qed.

Lemma exec_bind {A B} (p : prog A) (f : A -> prog B) t b :
  exec (p ≫= f) t b <-> exists t1 a t2, t = t1 ++ t2 /\ exec p t1 a /\ exec (f a) t2 b.
Proof.
  induction p as [x | e k IH] in t |- *; simpl.
  - split.
    + intros H. exists [], x, t. auto.
    + intros (t1 & a & t2 & -> & [-> ->] & H). exact H.
  - split.
    + intros (r & t' & -> & (t1 & a & t2 & -> & Hk & Hf)%IH).
      exists (Obs e r :: t1), a, t2. eauto 10.
    + intros (t1 & a & t2 & -> & (r & t' & -> & Hk) & Hf).
      exists r, (t' ++ t2). split; [done|]. apply IH. eauto 10.
Qed.

Lemma run_exec {W A} (h : forall e, W -> answer e * W) (p : prog A) w :
  exec p (run h p w).2 (run h p w).1.1.
Proof.
  induction p as [x | e k IH] in w |- *; simpl; [done|].
  destruct (h e w) as [r w'] eqn:Hh. specialize (IH r w').
  destruct (run h (k r) w') as [[a w''] t]. simpl in *. eauto.
Qed.

Lemma exec_total {A} (p : prog A) : (forall e, inhabited (answer e)) -> exists t a, exec p t a.
Proof.
  intros Hi. induction p as [x | e k IH]; simpl; [eauto|].
  destruct (Hi e) as [r]. destruct (IH r) as (t & a & H). eauto 10.
Qed.

Lemma requests_app t1 t2 : requests (t1 ++ t2) = requests t1 ++ requests t2.
Proof. apply omap_app. Qed.

Lemma slept_app t1 t2 : slept (t1 ++ t2) = slept t1 + slept t2.
Proof.
  unfold slept. induction t1 as [|o t1 IH]; simpl; [done|]. rewrite IH. lia.
Qed.
