(* ===== verification/Client.v ===== *)
(** * The OVH API client: pkg/ovh/client.go

    [Client] is the go-ovh client scoped to a project and a region. Each
    method is a program: the calls it makes of the API, with the retries and
    the pauses between them, and the value or error it returns. The go-ovh
    client itself and the logger have no state the code reads. *)

From S2P Require Import Prelude GoStrings Errors OvhTypes ApiTypes Effects.

Local Open Scope Z_scope.

Record Client := mkClient {
  Client_serviceName : string;
  Client_region : string;
}.

(** ** Durations, in nanoseconds *)

Definition Second : Z := 1000000000.
Definition maxRetries : nat := 5.
Definition initialBackoff : Z := 2 * Second.
Definition maxBackoff : Z := 60 * Second.

(** The pause after attempt [attempt] ([math.Pow] and [math.Min] are exact on
    these values: integers below 2^53). *)
Definition backoff (attempt : nat) : Z :=
  Z.min (initialBackoff * 2 ^ Z.of_nat attempt) maxBackoff.

Section client.
Context `{U : Unicode}.

(** The loop of [retryWithBackoff], from attempt [attempt] on, with [left]
    attempts after it ([attempt + left = maxRetries]). *)
Fixpoint retry_loop {A} (operation : string) (fn : prog (res A)) (attempt left : nat)
    : prog (res A) :=
  r ← fn;
  match r with
  | Ok a => mret (Ok a)
  | Err lastErr =>
    if negb (IsRetryable (Some lastErr)) then mret (Err lastErr)
    else match left with
         | S left' =>
           call (ESleep (backoff attempt)) ;;
           retry_loop operation fn (S attempt) left'
         | O =>
           mret (Err (Errorf "%s failed after %d retries: %w"
             [AS operation; AZ (Z.of_nat maxRetries); AE lastErr]))
         end
  end.

Definition retryWithBackoff {A} (operation : string) (fn : prog (res A)) : prog (res A) :=
  retry_loop operation fn 0 maxRetries.

(** ** Paths and calls *)

Definition projectPath (c : Client) (format : string) (args : list arg) : string :=
  let prefix := ("/cloud/project/" ++ Client_serviceName c)%string in
  if decide (format <> "") then (prefix ++ Sprintf format args)%string else prefix.

Definition regionPath (c : Client) (format : string) (args : list arg) : string :=
  let prefix := Sprintf "/cloud/project/%s/region/%s"
                  [AS (Client_serviceName c); AS (Client_region c)] in
  if decide (format <> "") then (prefix ++ Sprintf format args)%string else prefix.

(** [path += ?region=...] when the client has a region. *)
Definition with_region (c : Client) (path : string) : string :=
  if decide (Client_region c <> "") then (path ++ "?region=" ++ Client_region c)%string
  else path.

Definition api_get (path : string) (t : ty) : prog (res (den t)) :=
  call (EApi (mkRequest GET path NoBody t)).
Definition api_post (path : string) (b : body) (t : ty) : prog (res (den t)) :=
  call (EApi (mkRequest POST path b t)).
Definition api_delete (path : string) : prog (res unit) :=
  call (EApi (mkRequest DELETE path NoBody TNone)).

(** [if err != nil { if ok(err) { return nil }; return wrap(err) }]. *)
Definition tolerate (ok : option error -> bool) (wrap : error -> error)
    (m : prog (res unit)) : prog (res unit) :=
  r ← m;
  mret match r with
       | Ok _ => Ok tt
       | Err err => if ok (Some err) then Ok tt else Err (wrap err)
       end.

(** ** Construction *)

Definition NewClient (endpoint appKey appSecret consumerKey serviceName region : string)
    : prog (res Client) :=
  wrap_err (fun err => Errorf "creating OVH client: %w" [AE err])
    (_ ←? call (ENewGoovh endpoint appKey appSecret consumerKey);
     mret (Ok (mkClient serviceName region))).

Definition NewClientFromSecret (secret : Secret) (serviceName region : string)
    : prog (res Client) :=
  let endpoint := default "" (Secret_Data secret !! "endpoint") in
  let appKey := default "" (Secret_Data secret !! "applicationKey") in
  let appSecret := default "" (Secret_Data secret !! "applicationSecret") in
  let consumerKey := default "" (Secret_Data secret !! "consumerKey") in
  if decide (endpoint = "" \/ appKey = "" \/ appSecret = "" \/ consumerKey = "") then
    mret (Err (Errorf "secret %s/%s missing required keys (endpoint, applicationKey, applicationSecret, consumerKey)"
      [AS (Secret_Namespace secret); AS (Secret_Name secret)]))
  else NewClient endpoint appKey appSecret consumerKey serviceName region.

Definition ValidateCredentials (c : Client) : prog (res unit) :=
  if decide (Client_serviceName c = "") then mret (Err (ENew "serviceName is empty"))
  else
    regions ←? wrap_err (fun err => Errorf "validating OVH credentials: %w" [AE err])
      (retryWithBackoff "ValidateCredentials"
         (api_get (projectPath c "/region" []) (TList TString)));
    if decide (length regions = 0%nat) then
      mret (Err (ENew "validating OVH credentials: no regions returned by project"))
    else mret (Ok tt).

(** ** Instances *)

Definition CreateInstance (c : Client) (opts : CreateInstanceOpts) : prog (res Instance) :=
  wrap_err (fun err => Errorf "creating instance %q: %w" [AS (CreateInstanceOpts_Name opts); AE err])
    (retryWithBackoff "CreateInstance" (api_post (projectPath c "/instance" []) (BInstance opts) TInstance)).

Definition GetInstance (c : Client) (instanceID : string) : prog (res Instance) :=
  wrap_err (fun err => Errorf "getting instance %s: %w" [AS instanceID; AE err])
    (retryWithBackoff "GetInstance" (api_get (projectPath c "/instance/%s" [AS instanceID]) TInstance)).

Definition DeleteInstance (c : Client) (instanceID : string) : prog (res unit) :=
  tolerate IsNotFound (fun err => Errorf "deleting instance %s: %w" [AS instanceID; AE err])
    (retryWithBackoff "DeleteInstance" (api_delete (projectPath c "/instance/%s" [AS instanceID]))).

Definition ListInstances (c : Client) : prog (res (list Instance)) :=
  wrap_err (fun err => Errorf "listing instances: %w" [AE err])
    (retryWithBackoff "ListInstances" (api_get (with_region c (projectPath c "/instance" [])) (TList TInstance))).

Definition FindInstanceByName (c : Client) (name : string) : prog (res (option Instance)) :=
  instances ←? ListInstances c;
  mret (Ok (first_match (fun i => bool_decide (Instance_Name i = name)) instances)).

(** ** Flavors and images *)

Definition ListFlavors (c : Client) : prog (res (list Flavor)) :=
  wrap_err (fun err => Errorf "listing flavors: %w" [AE err])
    (retryWithBackoff "ListFlavors" (api_get (with_region c (projectPath c "/flavor" [])) (TList TFlavor))).

Definition GetFlavorByName (c : Client) (name : string) : prog (res Flavor) :=
  flavors ←? ListFlavors c;
  match first_match (fun f => EqualFold (Flavor_Name f) name) flavors with
  | Some f => mret (Ok f)
  | None => mret (Err (Errorf "flavor %q not found in region %s" [AS name; AS (Client_region c)]))
  end.

Definition ListImages (c : Client) : prog (res (list Image)) :=
  wrap_err (fun err => Errorf "listing images: %w" [AE err])
    (retryWithBackoff "ListImages" (api_get (with_region c (projectPath c "/image" [])) (TList TImage))).

Definition ListSnapshots (c : Client) : prog (res (list Image)) :=
  wrap_err (fun err => Errorf "listing snapshots: %w" [AE err])
    (retryWithBackoff "ListSnapshots" (api_get (with_region c (projectPath c "/snapshot" [])) (TList TImage))).

Definition isHexDigit (c : Z) : bool :=
  ((48 <=? c) && (c <=? 57)) || ((97 <=? c) && (c <=? 102)) || ((65 <=? c) && (c <=? 70)).

(** The loop of [isUUID]. It ranges over runes with their byte offsets; a rune
    beyond ASCII fails both tests, so the first byte that differs decides. *)
Fixpoint isUUID_from (i : nat) (s : string) : bool :=
  match s with
  | EmptyString => true
  | String a s' =>
    let c := byte a in
    (if bool_decide (i = 8 \/ i = 13 \/ i = 18 \/ i = 23)%nat then c =? 45 else isHexDigit c)
    && isUUID_from (S i) s'
  end.

Definition isUUID (s : string) : bool :=
  if negb (String.length s =? 36)%nat then false else isUUID_from 0 s.

Definition findImageByName (images : list Image) (name : string) : option Image :=
  match first_match (fun i => EqualFold (Image_Name i) name) images with
  | Some i => Some i
  | None =>
    let nameLower := ToLower name in
    first_match (fun i => Contains (ToLower (Image_Name i)) nameLower) images
  end.

(** [&Image{ID: name, Name: name, Region: c.region}]. *)
Definition uuid_image (c : Client) (name : string) : Image :=
  mkImage name name zero (Client_region c) zero zero zero zero zero zero zero zero.

Definition GetImageByName (c : Client) (name : string) : prog (res Image) :=
  if decide (name = "") then mret (Err (ENew "image name is empty"))
  else if isUUID name then mret (Ok (uuid_image c name))
  else
    images ←? ListImages c;
    match findImageByName images name with
    | Some img => mret (Ok img)
    | None =>
      snapshots ←? wrap_err (fun err => Errorf
          "image %q not found in public images and snapshot lookup failed: %w" [AS name; AE err])
        (ListSnapshots c);
      match findImageByName snapshots name with
      | Some img => mret (Ok img)
      | None =>
        mret (Err (Errorf "image %q not found in region %s (searched public images and BYOI snapshots)"
          [AS name; AS (Client_region c)]))
      end
    end.

(** ** SSH keys *)

Definition ListSSHKeys (c : Client) : prog (res (list SSHKey)) :=
  wrap_err (fun err => Errorf "listing SSH keys: %w" [AE err])
    (retryWithBackoff "ListSSHKeys" (api_get (with_region c (projectPath c "/sshkey" [])) (TList TSSHKey))).

Definition GetSSHKeyByName (c : Client) (name : string) : prog (res SSHKey) :=
  keys ←? ListSSHKeys c;
  match first_match (fun k => bool_decide (SSHKey_Name k = name)) keys with
  | Some k => mret (Ok k)
  | None => mret (Err (Errorf "SSH key %q not found" [AS name]))
  end.

Definition CreateSSHKey (c : Client) (opts : CreateSSHKeyOpts) : prog (res SSHKey) :=
  wrap_err (fun err => Errorf "creating SSH key %q: %w" [AS (CreateSSHKeyOpts_Name opts); AE err])
    (retryWithBackoff "CreateSSHKey" (api_post (projectPath c "/sshkey" []) (BSSHKey opts) TSSHKey)).

Definition DeleteSSHKey (c : Client) (keyID : string) : prog (res unit) :=
  tolerate IsNotFound (fun err => Errorf "deleting SSH key %s: %w" [AS keyID; AE err])
    (retryWithBackoff "DeleteSSHKey" (api_delete (projectPath c "/sshkey/%s" [AS keyID]))).

(** ** Networks *)

Definition ListPrivateNetworks (c : Client) : prog (res (list PrivateNetwork)) :=
  wrap_err (fun err => Errorf "listing private networks: %w" [AE err])
    (retryWithBackoff "ListPrivateNetworks" (api_get (projectPath c "/network/private" []) (TList TPrivateNetwork))).

Definition GetPrivateNetwork (c : Client) (networkID : string) : prog (res PrivateNetwork) :=
  wrap_err (fun err => Errorf "getting private network %s: %w" [AS networkID; AE err])
    (retryWithBackoff "GetPrivateNetwork" (api_get (projectPath c "/network/private/%s" [AS networkID]) TPrivateNetwork)).

Definition CreatePrivateNetwork (c : Client) (opts : CreateNetworkOpts) : prog (res PrivateNetwork) :=
  wrap_err (fun err => Errorf "creating private network %q: %w" [AS (CreateNetworkOpts_Name opts); AE err])
    (retryWithBackoff "CreatePrivateNetwork" (api_post (projectPath c "/network/private" []) (BNetwork opts) TPrivateNetwork)).

Definition DeletePrivateNetwork (c : Client) (networkID : string) : prog (res unit) :=
  tolerate IsNotFound (fun err => Errorf "deleting private network %s: %w" [AS networkID; AE err])
    (retryWithBackoff "DeletePrivateNetwork" (api_delete (projectPath c "/network/private/%s" [AS networkID]))).

Definition ListSubnets (c : Client) (networkID : string) : prog (res (list Subnet)) :=
  wrap_err (fun err => Errorf "listing subnets for network %s: %w" [AS networkID; AE err])
    (retryWithBackoff "ListSubnets" (api_get (projectPath c "/network/private/%s/subnet" [AS networkID]) (TList TSubnet))).

Definition CreateSubnet (c : Client) (networkID : string) (opts : CreateSubnetOpts) : prog (res Subnet) :=
  wrap_err (fun err => Errorf "creating subnet in network %s: %w" [AS networkID; AE err])
    (retryWithBackoff "CreateSubnet" (api_post (projectPath c "/network/private/%s/subnet" [AS networkID]) (BSubnet opts) TSubnet)).

(** ** Load balancers *)

Definition ListLBFlavors (c : Client) : prog (res (list LBFlavor)) :=
  wrap_err (fun err => Errorf "listing LB flavors: %w" [AE err])
    (retryWithBackoff "ListLBFlavors" (api_get (regionPath c "/loadbalancing/flavor" []) (TList TLBFlavor))).

Definition GetLBFlavorByName (c : Client) (name : string) : prog (res LBFlavor) :=
  flavors ←? ListLBFlavors c;
  match first_match (fun f => EqualFold (LBFlavor_Name f) name) flavors with
  | Some f => mret (Ok f)
  | None => mret (Err (Errorf "LB flavor %q not found in region %s" [AS name; AS (Client_region c)]))
  end.

Definition findLoadBalancerByName (c : Client) (name : string)
    : prog (res (option LoadBalancer)) :=
  lbs ←? retryWithBackoff "ListLoadBalancers"
    (api_get (regionPath c "/loadbalancing/loadbalancer" []) (TList TLoadBalancer));
  mret (Ok (first_match (fun l => bool_decide (LoadBalancer_Name l = name)) lbs)).

Definition maxLookupAttempts : nat := 10.

(** The polling loop of [CreateLoadBalancer]: attempt [attempt], with [left]
    attempts from this one on ([attempt + left = maxLookupAttempts]). *)
Fixpoint poll_lb (c : Client) (name : string) (attempt left : nat) : prog (res LoadBalancer) :=
  match left with
  | O =>
    mret (Err (Errorf "LB %q was created but did not appear in list within %d attempts"
      [AS name; AZ (Z.of_nat maxLookupAttempts)]))
  | S left' =>
    lb ←? wrap_err (fun err => Errorf "LB %q created but lookup failed: %w" [AS name; AE err])
      (findLoadBalancerByName c name);
    match lb with
    | Some lb => mret (Ok lb)
    | None =>
      call (ESleep (2 * (Z.of_nat attempt + 1) * Second)) ;;
      poll_lb c name (S attempt) left'
    end
  end.

Definition CreateLoadBalancer (c : Client) (opts : CreateLoadBalancerOpts)
    : prog (res LoadBalancer) :=
  existing ← findLoadBalancerByName c (CreateLoadBalancerOpts_Name opts);
  match existing with
  | Ok (Some lb) => mret (Ok lb)
  | _ =>
    _ ←? wrap_err (fun err => Errorf "creating load balancer %q: %w"
        [AS (CreateLoadBalancerOpts_Name opts); AE err])
      (retryWithBackoff "CreateLoadBalancer"
        (api_post (regionPath c "/loadbalancing/loadbalancer" []) (BLoadBalancer opts) TAny));
    poll_lb c (CreateLoadBalancerOpts_Name opts) 0 maxLookupAttempts
  end.

Definition ListLoadBalancersByPrefix (c : Client) (prefix : string)
    : prog (res (list LoadBalancer)) :=
  lbs ←? retryWithBackoff "ListLoadBalancers"
    (api_get (regionPath c "/loadbalancing/loadbalancer" []) (TList TLoadBalancer));
  mret (Ok (filter (fun l => HasPrefix (LoadBalancer_Name l) prefix) lbs)).

Definition AssociateFloatingIPToLB (c : Client) (lbID : string) (floatingIPID : string) : prog (res unit) :=
  wrap_err (fun err => Errorf "associating floating IP %s to LB %s: %w" [AS floatingIPID; AS lbID; AE err])
    (retryWithBackoff "AssociateFloatingIPToLB" (api_post (regionPath c "/loadbalancing/loadbalancer/%s/associateFloatingIp" [AS lbID]) (BAssociate floatingIPID) TNone)).

Definition ListGateways (c : Client) : prog (res (list Gateway)) :=
  wrap_err (fun err => Errorf "listing gateways: %w" [AE err])
    (retryWithBackoff "ListGateways" (api_get (regionPath c "/gateway" []) (TList TGateway))).

Definition DeleteGateway (c : Client) (gatewayID : string) : prog (res unit) :=
  tolerate IsNotFound (fun err => Errorf "deleting gateway %s: %w" [AS gatewayID; AE err])
    (retryWithBackoff "DeleteGateway" (api_delete (regionPath c "/gateway/%s" [AS gatewayID]))).

Definition ExposeGateway (c : Client) (gatewayID : string) : prog (res unit) :=
  tolerate IsConflict (fun err => Errorf "exposing gateway %s: %w" [AS gatewayID; AE err])
    (retryWithBackoff "ExposeGateway"
       (api_post (regionPath c "/gateway/%s/expose" [AS gatewayID]) NoBody TNone)).

Definition CreateLoadBalancerFloatingIP (c : Client) (lbID : string) (privateIP : string) (gatewayName : string) : prog (res FloatingIP) :=
  wrap_err (fun err => Errorf "creating floating IP for LB %s: %w" [AS lbID; AE err])
    (retryWithBackoff "CreateLoadBalancerFloatingIP" (api_post (regionPath c "/loadbalancing/loadbalancer/%s/floatingIp" [AS lbID]) (BLBFloatingIP privateIP "s" gatewayName) TFloatingIP)).

Definition GetLoadBalancer (c : Client) (lbID : string) : prog (res LoadBalancer) :=
  wrap_err (fun err => Errorf "getting load balancer %s: %w" [AS lbID; AE err])
    (retryWithBackoff "GetLoadBalancer" (api_get (regionPath c "/loadbalancing/loadbalancer/%s" [AS lbID]) TLoadBalancer)).

Definition DeleteLoadBalancer (c : Client) (lbID : string) : prog (res unit) :=
  tolerate (fun err => IsNotFound err || IsAlreadyDeleting err) (fun err => Errorf "deleting load balancer %s: %w" [AS lbID; AE err])
    (retryWithBackoff "DeleteLoadBalancer" (api_delete (regionPath c "/loadbalancing/loadbalancer/%s" [AS lbID]))).

(** ** Listeners and pools *)

Definition ListListeners (c : Client) : prog (res (list Listener)) :=
  wrap_err (fun err => Errorf "listing listeners: %w" [AE err])
    (retryWithBackoff "ListListeners" (api_get (regionPath c "/loadbalancing/listener" []) (TList TListener))).

Definition FindListenerByName (c : Client) (lbID name : string) : prog (res (option Listener)) :=
  listeners ←? ListListeners c;
  mret (Ok (first_match (fun l => bool_decide
    (Listener_Name l = name /\ lbID ∈ Listener_LoadBalancerIDs l)) listeners)).

Definition FindPoolByName (c : Client) (lbID name : string) : prog (res (option Pool)) :=
  pools ←? wrap_err (fun err => Errorf "listing pools: %w" [AE err])
    (retryWithBackoff "ListPools" (api_get (regionPath c "/loadbalancing/pool" []) (TList TPool)));
  mret (Ok (first_match (fun p => bool_decide
    (Pool_Name p = name /\ Pool_LoadBalancerID p = lbID)) pools)).

Definition CreateListener (c : Client) (opts : CreateListenerOpts) : prog (res Listener) :=
  wrap_err (fun err => Errorf "creating listener %q: %w" [AS (CreateListenerOpts_Name opts); AE err])
    (retryWithBackoff "CreateListener" (api_post (regionPath c "/loadbalancing/listener" []) (BListener opts) TListener)).

Definition DeleteListener (c : Client) (listenerID : string) : prog (res unit) :=
  tolerate IsNotFound (fun err => Errorf "deleting listener %s: %w" [AS listenerID; AE err])
    (retryWithBackoff "DeleteListener" (api_delete (regionPath c "/loadbalancing/listener/%s" [AS listenerID]))).

Definition CreatePool (c : Client) (opts : CreatePoolOpts) : prog (res Pool) :=
  wrap_err (fun err => Errorf "creating pool %q: %w" [AS (CreatePoolOpts_Name opts); AE err])
    (retryWithBackoff "CreatePool" (api_post (regionPath c "/loadbalancing/pool" []) (BPool opts) TPool)).

Definition DeletePool (c : Client) (poolID : string) : prog (res unit) :=
  tolerate IsNotFound (fun err => Errorf "deleting pool %s: %w" [AS poolID; AE err])
    (retryWithBackoff "DeletePool" (api_delete (regionPath c "/loadbalancing/pool/%s" [AS poolID]))).

Definition AddPoolMembers (c : Client) (poolID : string) (opts : list CreateMemberOpts)
    : prog (res (list Member)) :=
  wrap_err (fun err => Errorf "adding members to pool %s: %w" [AS poolID; AE err])
    (retryWithBackoff "AddPoolMembers"
       (api_post (regionPath c "/loadbalancing/pool/%s/member" [AS poolID])
          (BMembers (mkaddPoolMembersRequest opts)) (TList TMember))).

Definition AddPoolMember (c : Client) (poolID : string) (opts : CreateMemberOpts)
    : prog (res Member) :=
  members ←? AddPoolMembers c poolID [opts];
  match members with
  | [] => mret (Err (Errorf "OVH returned no members after add to pool %s" [AS poolID]))
  | m :: _ => mret (Ok m)
  end.

Definition RemovePoolMember (c : Client) (poolID : string) (memberID : string) : prog (res unit) :=
  tolerate IsNotFound (fun err => Errorf "removing member %s from pool %s: %w" [AS memberID; AS poolID; AE err])
    (retryWithBackoff "RemovePoolMember" (api_delete (regionPath c "/loadbalancing/pool/%s/member/%s" [AS poolID; AS memberID]))).

Definition ListPoolMembers (c : Client) (poolID : string) : prog (res (list Member)) :=
  wrap_err (fun err => Errorf "listing members for pool %s: %w" [AS poolID; AE err])
    (retryWithBackoff "ListPoolMembers" (api_get (regionPath c "/loadbalancing/pool/%s/member" [AS poolID]) (TList TMember))).

(** ** Health monitors *)

Definition CreateHealthMonitor (c : Client) (opts : CreateHealthMonitorOpts) : prog (res HealthMonitor) :=
  wrap_err (fun err => Errorf "creating health monitor %q: %w" [AS (CreateHealthMonitorOpts_Name opts); AE err])
    (retryWithBackoff "CreateHealthMonitor" (api_post (regionPath c "/loadbalancing/healthMonitor" []) (BHealthMonitor opts) THealthMonitor)).

Definition GetHealthMonitor (c : Client) (hmID : string) : prog (res HealthMonitor) :=
  wrap_err (fun err => Errorf "getting health monitor %s: %w" [AS hmID; AE err])
    (retryWithBackoff "GetHealthMonitor" (api_get (regionPath c "/loadbalancing/healthMonitor/%s" [AS hmID]) THealthMonitor)).

Definition ListHealthMonitors (c : Client) : prog (res (list HealthMonitor)) :=
  wrap_err (fun err => Errorf "listing health monitors: %w" [AE err])
    (retryWithBackoff "ListHealthMonitors" (api_get (regionPath c "/loadbalancing/healthMonitor" []) (TList THealthMonitor))).

Definition FindHealthMonitorByName (c : Client) (name : string)
    : prog (res (option HealthMonitor)) :=
  hms ←? ListHealthMonitors c;
  mret (Ok (first_match (fun h => bool_decide (HealthMonitor_Name h = name)) hms)).

Definition DeleteHealthMonitor (c : Client) (hmID : string) : prog (res unit) :=
  tolerate (fun err => IsNotFound err || IsAlreadyDeleting err) (fun err => Errorf "deleting health monitor %s: %w" [AS hmID; AE err])
    (retryWithBackoff "DeleteHealthMonitor" (api_delete (regionPath c "/loadbalancing/healthMonitor/%s" [AS hmID]))).

(** ** Volumes *)

Definition CreateVolume (c : Client) (opts : CreateVolumeOpts) : prog (res Volume) :=
  wrap_err (fun err => Errorf "creating volume %q: %w" [AS (CreateVolumeOpts_Name opts); AE err])
    (retryWithBackoff "CreateVolume" (api_post (projectPath c "/volume" []) (BVolume opts) TVolume)).

Definition GetVolume (c : Client) (volumeID : string) : prog (res Volume) :=
  wrap_err (fun err => Errorf "getting volume %s: %w" [AS volumeID; AE err])
    (retryWithBackoff "GetVolume" (api_get (projectPath c "/volume/%s" [AS volumeID]) TVolume)).

Definition AttachVolume (c : Client) (volumeID : string) (instanceID : string) : prog (res unit) :=
  wrap_err (fun err => Errorf "attaching volume %s to instance %s: %w" [AS volumeID; AS instanceID; AE err])
    (retryWithBackoff "AttachVolume" (api_post (projectPath c "/volume/%s/attach" [AS volumeID]) (BAttach (mkAttachVolumeOpts instanceID)) TNone)).

Definition DetachVolume (c : Client) (volumeID instanceID : string) : prog (res unit) :=
  tolerate IsNotFound (fun err => Errorf "detaching volume %s from instance %s: %w"
      [AS volumeID; AS instanceID; AE err])
    (retryWithBackoff "DetachVolume"
       (api_post (projectPath c "/volume/%s/detach" [AS volumeID])
          (BAttach (mkAttachVolumeOpts instanceID)) TNone)).

Definition DeleteVolume (c : Client) (volumeID : string) : prog (res unit) :=
  tolerate IsNotFound (fun err => Errorf "deleting volume %s: %w" [AS volumeID; AE err])
    (retryWithBackoff "DeleteVolume" (api_delete (projectPath c "/volume/%s" [AS volumeID]))).

(** ** Floating IPs *)

Definition ListFloatingIPs (c : Client) : prog (res (list FloatingIP)) :=
  wrap_err (fun err => Errorf "listing floating IPs: %w" [AE err])
    (retryWithBackoff "ListFloatingIPs" (api_get (regionPath c "/floatingip" []) (TList TFloatingIP))).

Definition GetFloatingIP (c : Client) (fipID : string) : prog (res FloatingIP) :=
  wrap_err (fun err => Errorf "getting floating IP %s: %w" [AS fipID; AE err])
    (retryWithBackoff "GetFloatingIP" (api_get (regionPath c "/floatingip/%s" [AS fipID]) TFloatingIP)).

Definition CreateFloatingIP (c : Client) (opts : CreateFloatingIPOpts) : prog (res FloatingIP) :=
  wrap_err (fun err => Errorf "creating floating IP: %w" [AE err])
    (retryWithBackoff "CreateFloatingIP" (api_post (regionPath c "/floatingIp" []) (BFloatingIP opts) TFloatingIP)).

Definition DeleteFloatingIP (c : Client) (fipID : string) : prog (res unit) :=
  tolerate IsNotFound (fun err => Errorf "deleting floating IP %s: %w" [AS fipID; AE err])
    (retryWithBackoff "DeleteFloatingIP" (api_delete (regionPath c "/floatingIp/%s" [AS fipID]))).

(** ** Regions and security groups *)

Definition GetRegionInfo (c : Client) : prog (res RegionInfo) :=
  wrap_err (fun err => Errorf "getting region info for %s: %w" [AS (Client_region c); AE err])
    (retryWithBackoff "GetRegionInfo" (api_get (projectPath c "/region/%s" [AS (Client_region c)]) TRegionInfo)).

Definition ListSecurityGroups (c : Client) : prog (res (list SecurityGroup)) :=
  wrap_err (fun err => Errorf "listing security groups: %w" [AE err])
    (retryWithBackoff "ListSecurityGroups" (api_get (regionPath c "/network/security/group" []) (TList TSecurityGroup))).

Definition CreateSecurityGroup (c : Client) (opts : CreateSecurityGroupOpts) : prog (res SecurityGroup) :=
  wrap_err (fun err => Errorf "creating security group %q: %w" [AS (CreateSecurityGroupOpts_Name opts); AE err])
    (retryWithBackoff "CreateSecurityGroup" (api_post (regionPath c "/network/security/group" []) (BSecurityGroup opts) TSecurityGroup)).

Definition DeleteSecurityGroup (c : Client) (sgID : string) : prog (res unit) :=
  tolerate IsNotFound (fun err => Errorf "deleting security group %s: %w" [AS sgID; AE err])
    (retryWithBackoff "DeleteSecurityGroup" (api_delete (regionPath c "/network/security/group/%s" [AS sgID]))).

Definition CreateSecurityGroupRule (c : Client) (sgID : string) (opts : CreateSecurityGroupRuleOpts) : prog (res SecurityGroupRule) :=
  wrap_err (fun err => Errorf "creating security group rule in %s: %w" [AS sgID; AE err])
    (retryWithBackoff "CreateSecurityGroupRule" (api_post (regionPath c "/network/security/group/%s/rule" [AS sgID]) (BSecurityGroupRule opts) TSecurityGroupRule)).

Definition ListSecurityGroupRules (c : Client) (sgID : string) : prog (res (list SecurityGroupRule)) :=
  wrap_err (fun err => Errorf "listing security group rules for %s: %w" [AS sgID; AE err])
    (retryWithBackoff "ListSecurityGroupRules" (api_get (regionPath c "/network/security/group/%s/rule" [AS sgID]) (TList TSecurityGroupRule))).

(** ** DNS *)

Definition CreateDNSRecord (c : Client) (zone : string) (opts : CreateDNSRecordOpts) : prog (res DNSRecord) :=
  wrap_err (fun err => Errorf "creating DNS record %s.%s: %w" [AS (CreateDNSRecordOpts_SubDomain opts); AS zone; AE err])
    (retryWithBackoff "CreateDNSRecord" (api_post (Sprintf "/domain/zone/%s/record" [AS zone]) (BDNSRecord opts) TDNSRecord)).

Definition DeleteDNSRecord (c : Client) (zone : string) (recordID : Z) : prog (res unit) :=
  tolerate IsNotFound (fun err => Errorf "deleting DNS record %d in zone %s: %w" [AZ recordID; AS zone; AE err])
    (retryWithBackoff "DeleteDNSRecord" (api_delete (Sprintf "/domain/zone/%s/record/%d" [AS zone; AZ recordID]))).

Definition RefreshDNSZone (c : Client) (zone : string) : prog (res unit) :=
  wrap_err (fun err => Errorf "refreshing DNS zone %s: %w" [AS zone; AE err])
    (retryWithBackoff "RefreshDNSZone" (api_post (Sprintf "/domain/zone/%s/refresh" [AS zone]) NoBody TNone)).

End client.
