(* ===== verification/Names.v ===== *)
(** * Names, provider IDs and user data: util/util.go and util/cloudinit.go

    The pure helpers both controllers call, and the construction of the client
    from the cluster's secret. *)

From S2P Require Import Prelude GoStrings Errors OvhTypes ApiTypes Effects Client.

Local Open Scope Z_scope.

Section names.
Context `{U : Unicode}.

(** [rfc1035Regex] is [[^a-z0-9-]]: the runes it matches. *)
Definition rfc1035_bad (r : Z) : bool :=
  negb (((97 <=? r) && (r <=? 122)) || ((48 <=? r) && (r <=? 57)) || (r =? 45)).

(** [rfc1035Regex.ReplaceAllString(name, "-")]: one dash per matched rune. *)
Definition rfc1035_replace (s : string) : string :=
  encode (map (fun r => if rfc1035_bad r then 45 else r) (runes s)).

Definition GenerateRFC1035Name (parts : list string) : string :=
  let name := ToLower (Join parts "-") in
  let name := rfc1035_replace name in
  let name := Trim "-" name in
  if (63 <? String.length name)%nat then TrimRight "-" (str_take 63 name) else name.

Definition ProviderIDFromInstance (region instanceID : string) : string :=
  Sprintf "ovhcloud://%s/%s" [AS region; AS instanceID].

Definition ParseProviderID (providerID : string) : res (string * string) :=
  if negb (HasPrefix providerID "ovhcloud://") then
    Err (Errorf "invalid providerID format: %q (expected ovhcloud://<region>/<instanceID>)"
      [AS providerID])
  else
    match SplitN2 (TrimPrefix providerID "ovhcloud://") "/" with
    | [p0; p1] =>
      if decide (p0 = "" \/ p1 = "") then
        Err (Errorf "invalid providerID format: %q" [AS providerID])
      else Ok (p0, p1)
    | _ => Err (Errorf "invalid providerID format: %q" [AS providerID])
    end.

Definition GetSSHKeyName (machineSSHKey clusterSSHKey : string) : string :=
  if decide (machineSSHKey <> "") then machineSSHKey else clusterSSHKey.

Definition PrepareUserData (bootstrapData : string) : res string :=
  if decide (String.length bootstrapData = 0%nat) then
    Err (ENew "bootstrap data is empty")
  else Ok bootstrapData.

Definition GetOVHClientFromCluster (ovhCluster : OVHCluster) : prog (res Client) :=
  let spec := OVHCluster_Spec ovhCluster in
  let secretRef := CSpec_IdentitySecret spec in
  secret ←? wrap_err (fun err => Errorf "getting OVH identity secret %s/%s: %w"
      [AS (SecretKey_Namespace secretRef); AS (SecretKey_Name secretRef); AE err])
    (call (EGetSecret (SecretKey_Namespace secretRef) (SecretKey_Name secretRef)));
  NewClientFromSecret secret (CSpec_ServiceName spec) (CSpec_Region spec).

End names.
