(* ===== verification/StringFacts.v ===== *)
(** * Facts on strings: the library lemmas of GoStrings, and names

    The first part is about the functions of GoStrings; the second about the
    names and provider IDs of Names. *)

From S2P Require Import Prelude GoStrings Errors OvhTypes ApiTypes Effects Client Names.

Local Open Scope Z_scope.

(** ** Characters and appending *)

Fixpoint str_forall (P : ascii -> bool) (s : string) : bool :=
  match s with
  | EmptyString => true
  | String a s' => P a && str_forall P s'
  end.

Fixpoint str_last (s : string) : option ascii :=
  match s with
  | EmptyString => None
  | String a s' => match str_last s' with Some b => Some b | None => Some a end
  end.

Definition str_head (s : string) : option ascii :=
  match s with EmptyString => None | String a _ => Some a end.

Lemma byte_range a : 0 <= byte a < 256.
Proof. unfold byte. pose proof (N_ascii_bounded a). lia. Qed.

Lemma char_byte a : char (byte a) = a.
Proof. unfold char, byte. rewrite N2Z.id. apply ascii_N_embedding. Qed.

Lemma byte_char z : 0 <= z < 256 -> byte (char z) = z.
Proof. intros H. unfold byte, char. rewrite N_ascii_embedding; lia. Qed.

Lemma append_nil_r s : (s ++ "")%string = s.
Proof. induction s as [|a s IH]; simpl; [done | by rewrite IH]. Qed.

Lemma append_assoc s t u : ((s ++ t) ++ u)%string = (s ++ (t ++ u))%string.
Proof. induction s as [|a s IH]; simpl; [done | by rewrite IH]. Qed.

Lemma length_append s t :
  String.length (s ++ t)%string = (String.length s + String.length t)%nat.
Proof. induction s as [|a s IH]; simpl; [done | by rewrite IH]. Qed.

Lemma append_inj_l s t u : (s ++ t)%string = (s ++ u)%string -> t = u.
Proof. induction s as [|a s IH]; simpl; [done|]. intros [= H]. by apply IH. Qed.

Lemma str_forall_append P s t :
  str_forall P (s ++ t)%string = str_forall P s && str_forall P t.
Proof. induction s as [|a s IH]; simpl; [done|]. by rewrite IH, andb_assoc. Qed.

Lemma str_forall_mono (P Q : ascii -> bool) s :
  (forall a, P a = true -> Q a = true) -> str_forall P s = true -> str_forall Q s = true.
Proof.
  intros HPQ. induction s as [|a s IH]; simpl; [done|].
  rewrite !andb_true_iff. intros [Ha Hs]. auto.
Qed.

Lemma str_last_append s t :
  str_last (s ++ t)%string = match str_last t with Some b => Some b | None => str_last s end.
Proof.
  induction s as [|a s IH]; simpl; [by destruct (str_last t)|].
  rewrite IH. by destruct (str_last t).
Qed.

(** ** Prefixes *)

Lemma prefix_append p s : String.prefix p (p ++ s)%string = true.
Proof.
  induction p as [|a p IH]; simpl; [by destruct s|]. destruct (ascii_dec a a); done.
Qed.

Lemma HasPrefix_spec s p : HasPrefix s p = true <-> exists s', s = (p ++ s')%string.
Proof.
  unfold HasPrefix. split.
  - revert s. induction p as [|a p IH]; intros s; simpl; [eauto|].
    destruct s as [|b s]; cbn; [intros [=]|]. destruct (ascii_dec a b) as [->|]; [|intros [=]].
    intros (s' & ->)%IH. eauto.
  - intros [s' ->]. apply prefix_append.
Qed.

Lemma str_drop_append p s : str_drop (String.length p) (p ++ s)%string = s.
Proof. induction p as [|a p IH]; simpl; [by destruct s | done]. Qed.

Lemma str_take_append p s : str_take (String.length p) (p ++ s)%string = p.
Proof. induction p as [|a p IH]; simpl; [by destruct s | by rewrite IH]. Qed.

Lemma str_take_drop n s : (str_take n s ++ str_drop n s)%string = s.
Proof.
  revert s. induction n as [|n IH]; intros [|a s]; simpl; [done..|]. by rewrite IH.
Qed.

Lemma TrimPrefix_append p s : TrimPrefix (p ++ s)%string p = s.
Proof. unfold TrimPrefix, HasPrefix. by rewrite prefix_append, str_drop_append. Qed.

Lemma length_str_take n s : (String.length (str_take n s) <= n)%nat.
Proof. revert s. induction n as [|n IH]; intros [|a s]; simpl; try lia. specialize (IH s). lia. Qed.

Lemma str_forall_take P n s : str_forall P s = true -> str_forall P (str_take n s) = true.
Proof.
  rewrite <- (str_take_drop n s) at 1. rewrite str_forall_append, andb_true_iff. tauto.
Qed.

(** No part of [pre] is, or can be continued to, an occurrence of [sub]. *)
Fixpoint clear_of (pre sub : string) : bool :=
  match pre with
  | EmptyString => true
  | String _ pre' => negb (String.prefix sub pre || String.prefix pre sub) && clear_of pre' sub
  end.

Lemma prefix_app_cases sub pre x :
  String.prefix sub (pre ++ x) = true -> String.prefix sub pre = true \/ String.prefix pre sub = true.
Proof.
  induction sub as [|a sub IH] in pre |- *; destruct pre as [|b pre]; cbn; auto.
  destruct (ascii_dec a b) as [->|Hne]; [|done]. destruct (ascii_dec b b); [apply IH | done].
Qed.

Lemma Contains_clear pre sub x : clear_of pre sub = true -> Contains (pre ++ x) sub = Contains x sub.
Proof.
  induction pre as [|a pre IH]; [done|]. intros [Hn Hc]%andb_true_iff.
  change ((String a pre ++ x)%string) with (String a (pre ++ x)). cbn [Contains]. rewrite (IH Hc).
  destruct (String.prefix sub (String a (pre ++ x))) eqn:E; [|done].
  apply (prefix_app_cases sub (String a pre)) in E as [E|E]; rewrite E in Hn; by rewrite ?orb_true_r in Hn.
Qed.

Lemma Contains_prefix s sub : String.prefix sub s = true -> Contains s sub = true.
Proof. intros H. destruct s; cbn [Contains]; by rewrite H. Qed.

Lemma Contains_append s sub t : Contains (s ++ sub ++ t)%string sub = true.
Proof.
  induction s as [|a s IH]; simpl; [apply Contains_prefix, prefix_append|].
  by rewrite IH, orb_true_r.
Qed.

(** ** Runes of ASCII text *)

Definition ascii_only (a : ascii) : bool := byte a <? 128.

Lemma runes_ascii s :
  str_forall ascii_only s = true -> runes s = map byte (list_ascii_of_string s).
Proof.
  induction s as [|a s IH]; simpl; [done|].
  rewrite andb_true_iff. intros [Ha Hs]. unfold ascii_only in Ha. rewrite Ha.
  by rewrite IH.
Qed.

Lemma encode_rune_ascii r : 0 <= r < 128 -> encode_rune r = String (char r) "".
Proof.
  intros Hr. unfold encode_rune.
  assert ((r <? 0) || (0x10FFFF <? r) || ((0xD800 <=? r) && (r <=? 0xDFFF)) = false) as -> by lia.
  cbv zeta. by assert ((r <? 128) = true) as -> by lia.
Qed.

Lemma encode_cons r rs : encode (r :: rs) = (encode_rune r ++ encode rs)%string.
Proof.
  unfold encode. destruct rs; simpl; [by rewrite append_nil_r | done].
Qed.

Lemma encode_ascii rs :
  Forall (fun r => 0 <= r < 128) rs -> encode rs = string_of_list_ascii (map char rs).
Proof.
  induction 1 as [|r rs Hr Hrs IH]; [done|].
  rewrite encode_cons, encode_rune_ascii, IH by done. done.
Qed.

Lemma encode_runes_ascii s : str_forall ascii_only s = true -> encode (runes s) = s.
Proof.
  intros Hs. rewrite runes_ascii by done. rewrite encode_ascii.
  - rewrite map_map. erewrite map_ext; [|apply char_byte].
    rewrite map_id. apply string_of_list_ascii_of_string.
  - revert Hs. induction s as [|a s IH]; simpl; [done|].
    rewrite andb_true_iff. intros [Ha Hs]. unfold ascii_only in Ha.
    apply Z.ltb_lt in Ha. pose proof (byte_range a). auto with lia.
Qed.

(** ** Trimming *)

Lemma str_forall_TrimLeft P a s : str_forall P s = true -> str_forall P (TrimLeft a s) = true.
Proof.
  induction s as [|b s IH]; simpl; [done|]. intros H. destruct (b =? a)%char; [|done].
  apply andb_true_iff in H as [_ H]. auto.
Qed.

Lemma TrimRight_prefix a s : exists t, s = (TrimRight a s ++ t)%string.
Proof.
  induction s as [|b s [t IH]]; simpl; [by exists ""%string|].
  destruct (TrimRight a s) eqn:E.
  - destruct (b =? a)%char; eexists; simpl; done.
  - exists t. simpl. simpl in IH. by rewrite <- IH.
Qed.

Lemma str_forall_TrimRight P a s : str_forall P s = true -> str_forall P (TrimRight a s) = true.
Proof.
  destruct (TrimRight_prefix a s) as [t Ht]. rewrite Ht at 1.
  rewrite str_forall_append, andb_true_iff. tauto.
Qed.

Lemma length_TrimRight a s : (String.length (TrimRight a s) <= String.length s)%nat.
Proof.
  destruct (TrimRight_prefix a s) as [t Ht]. rewrite Ht at 2. rewrite length_append. lia.
Qed.

Lemma str_last_TrimRight a s : str_last (TrimRight a s) <> Some a.
Proof.
  induction s as [|b s IH]; simpl; [done|].
  destruct (TrimRight a s) as [|c t] eqn:E.
  - destruct (b =? a)%char eqn:Hb; simpl; [done|].
    intros [= ->]. by rewrite Ascii.eqb_refl in Hb.
  - change (str_last (String b (String c t))) with
      (match str_last (String c t) with Some d => Some d | None => Some b end).
    destruct (str_last (String c t)) eqn:E2; [done|].
    simpl in E2. by destruct (str_last t).
Qed.

Lemma str_head_TrimLeft a s : str_head (TrimLeft a s) <> Some a.
Proof.
  induction s as [|b s IH]; simpl; [done|]. destruct (b =? a)%char eqn:Hb; [done|].
  simpl. intros [= ->]. by rewrite Ascii.eqb_refl in Hb.
Qed.

Lemma str_head_prefix s t : (s ++ t)%string <> ""%string -> s <> ""%string ->
  str_head (s ++ t)%string = str_head s.
Proof. by destruct s. Qed.

Lemma str_head_TrimRight a b s : str_head s <> Some b -> str_head (TrimRight a s) <> Some b.
Proof.
  destruct (TrimRight_prefix a s) as [t Ht]. rewrite Ht at 1. by destruct (TrimRight a s).
Qed.

Lemma TrimRight_id a s : str_last s <> Some a -> TrimRight a s = s.
Proof.
  induction s as [|b s IH]; simpl; [done|]. intros H.
  destruct s as [|c s]; simpl in *.
  - destruct (b =? a)%char eqn:Hb; [|done]. apply Ascii.eqb_eq in Hb as ->. done.
  - rewrite IH; [done|]. by destruct (str_last s).
Qed.

Lemma TrimLeft_id a s : str_head s <> Some a -> TrimLeft a s = s.
Proof.
  destruct s as [|b s]; simpl; [done|]. intros H.
  destruct (b =? a)%char eqn:Hb; [|done]. apply Ascii.eqb_eq in Hb as ->. done.
Qed.

(** ** Splitting *)

Definition no_byte (b : ascii) : ascii -> bool := fun a => negb (a =? b)%char.

Lemma SplitN2_no_sep s sep : str_forall (no_byte sep) s = true -> SplitN2 s sep = [s].
Proof.
  induction s as [|b s IH]; simpl; [done|].
  unfold no_byte at 1. rewrite andb_true_iff, negb_true_iff. intros [-> Hs].
  by rewrite IH.
Qed.

Lemma SplitN2_sep s sep t :
  str_forall (no_byte sep) s = true -> SplitN2 (s ++ String sep t)%string sep = [s; t].
Proof.
  induction s as [|b s IH]; simpl.
  - by rewrite Ascii.eqb_refl.
  - unfold no_byte at 1. rewrite andb_true_iff, negb_true_iff. intros [-> Hs]. by rewrite IH.
Qed.

Lemma SplitN2_shape s sep :
  (str_forall (no_byte sep) s = true /\ SplitN2 s sep = [s]) \/
  (exists p q, str_forall (no_byte sep) p = true /\ s = (p ++ String sep q)%string
               /\ SplitN2 s sep = [p; q]).
Proof.
  induction s as [|b s IH]; [by left|]. simpl.
  destruct (b =? sep)%char eqn:Hb.
  - apply Ascii.eqb_eq in Hb as ->. right. exists ""%string, s. done.
  - unfold no_byte. rewrite Hb. simpl.
    destruct IH as [[Hs ->]|(p & q & Hp & -> & ->)].
    + left. done.
    + right. exists (String b p), q. simpl. rewrite Hb. done.
Qed.
