(* ===== verification/NamesFacts.v ===== *)
(** * Names and provider IDs: what Names.v promises

    [valid_name] is the abstract specification of a generated name: what OVH
    accepts. The first theorem is that every generated name is valid, the second
    that nothing is lost on parts that are valid already. *)

From S2P Require Import Prelude GoStrings Errors OvhTypes ApiTypes Effects Client Names StringFacts.

Local Open Scope Z_scope.

Definition name_char (a : ascii) : bool := negb (rfc1035_bad (byte a)).

(** At most 63 characters among a-z, 0-9 and the dash, and no dash at an end. *)
Definition valid_name (s : string) : Prop :=
  str_forall name_char s = true /\ (String.length s <= 63)%nat
  /\ str_head s <> Some "-"%char /\ str_last s <> Some "-"%char.

#[export] Instance valid_name_dec s : Decision (valid_name s).
Proof. unfold valid_name. apply _. Defined.

(** Kubernetes object names and region names have no slash. *)
Definition no_slash (s : string) : Prop := str_forall (no_byte "/") s = true.

Section facts.
Context `{U : Unicode}.

Lemma name_char_spec a :
  name_char a = true <-> 97 <= byte a <= 122 \/ 48 <= byte a <= 57 \/ byte a = 45.
Proof. unfold name_char, rfc1035_bad. lia. Qed.

Lemma name_char_ascii s : str_forall name_char s = true -> str_forall ascii_only s = true.
Proof. apply str_forall_mono. intros a Ha%name_char_spec. unfold ascii_only. lia. Qed.

Lemma rfc1035_replace_chars s : str_forall name_char (rfc1035_replace s) = true.
Proof.
  unfold rfc1035_replace. induction (runes s) as [|r rs IH]; [done|].
  cbn [map]. rewrite encode_cons, str_forall_append, IH, andb_true_r.
  assert (Hr : rfc1035_bad (if rfc1035_bad r then 45 else r) = false)
    by (destruct (rfc1035_bad r) eqn:E; [done | exact E]).
  revert Hr. generalize (if rfc1035_bad r then 45 else r). intros c Hc.
  assert (0 <= c < 128) by (revert Hc; unfold rfc1035_bad; lia).
  rewrite encode_rune_ascii by done. cbn [str_forall]. unfold name_char.
  rewrite byte_char by lia. by rewrite Hc.
Qed.

(** A per-rune map that fixes the runes of a name fixes the name. *)
Lemma map_runes_id (f : Z -> Z) s :
  (forall a, name_char a = true -> f (byte a) = byte a) ->
  str_forall name_char s = true -> encode (map f (runes s)) = s.
Proof.
  intros Hf Hs. rewrite <- (encode_runes_ascii s) at 2 by by apply name_char_ascii.
  f_equal. rewrite runes_ascii by by apply name_char_ascii.
  induction s as [|a s IH]; [done|]. cbn in *. apply andb_true_iff in Hs as [Ha Hs].
  by rewrite Hf, IH.
Qed.

Lemma ToLower_id s : str_forall name_char s = true -> ToLower s = s.
Proof.
  apply map_runes_id. intros a Ha%name_char_spec. unfold rune_lower.
  assert ((byte a <? 128) = true) as -> by lia.
  by assert ((65 <=? byte a) && (byte a <=? 90) = false) as -> by lia.
Qed.

Lemma rfc1035_replace_id s : str_forall name_char s = true -> rfc1035_replace s = s.
Proof.
  apply map_runes_id. intros a Ha. unfold name_char in Ha. apply negb_true_iff in Ha.
  by rewrite Ha.
Qed.

(** What is left of a string of name characters with clean ends. *)
Lemma GenerateRFC1035Name_trunc parts :
  str_forall name_char (Join parts "-") = true ->
  str_head (Join parts "-") <> Some "-"%char -> str_last (Join parts "-") <> Some "-"%char ->
  GenerateRFC1035Name parts =
  if (63 <? String.length (Join parts "-"))%nat then TrimRight "-" (str_take 63 (Join parts "-"))
  else Join parts "-".
Proof.
  intros Hc Hh Hl. unfold GenerateRFC1035Name. cbv zeta.
  rewrite ToLower_id, rfc1035_replace_id by done. unfold Trim.
  by rewrite TrimLeft_id, TrimRight_id by done.
Qed.

Lemma GenerateRFC1035Name_id parts :
  valid_name (Join parts "-") -> GenerateRFC1035Name parts = Join parts "-".
Proof.
  intros (Hc & Hl & Hh & Ht). rewrite GenerateRFC1035Name_trunc by done.
  case_match eqn:E; [|done]. apply Nat.ltb_lt in E. lia.
Qed.

(** C37: every generated name is one OVH accepts: at most 63 characters, all of
    them lower-case letters, digits or dashes, and no dash at either end,
    whatever the parts (also non-ASCII or invalid UTF-8). *)
Theorem GenerateRFC1035Name_valid parts : valid_name (GenerateRFC1035Name parts).
Proof.
  unfold GenerateRFC1035Name. cbv zeta.
  set (name := Trim "-" (rfc1035_replace (ToLower (Join parts "-")))).
  assert (Hc : str_forall name_char name = true).
  { apply str_forall_TrimRight, str_forall_TrimLeft, rfc1035_replace_chars. }
  assert (Hh : str_head name <> Some "-"%char) by apply str_head_TrimRight, str_head_TrimLeft.
  destruct (63 <? String.length name)%nat eqn:Hlen; split_and!.
  - by apply str_forall_TrimRight, str_forall_take.
  - etransitivity; [apply length_TrimRight | apply length_str_take].
  - apply str_head_TrimRight. by destruct name.
  - apply str_last_TrimRight.
  - done.
  - apply Nat.ltb_ge in Hlen. lia.
  - done.
  - apply str_last_TrimRight.
Qed.

(** Parts that join to a valid name are joined by dashes and nothing else
    is done; in particular generation is idempotent. *)
Theorem GenerateRFC1035Name_exact parts :
  valid_name (Join parts "-") ->
  GenerateRFC1035Name parts = Join parts "-"
  /\ GenerateRFC1035Name [GenerateRFC1035Name parts] = GenerateRFC1035Name parts.
Proof.
  intros Hv. rewrite (GenerateRFC1035Name_id parts Hv). split; [done|].
  by apply (GenerateRFC1035Name_id [Join parts "-"]).
Qed.

(** Names are not injective past the limit: two machines whose names share
    a prefix that, after the cluster's name, fills 63 characters get the same
    instance name, and so are backed by the same OVH instance. *)
Theorem GenerateRFC1035Name_collision c m x y :
  str_forall name_char (c ++ "-" ++ m ++ x) = true ->
  str_forall name_char (c ++ "-" ++ m ++ y) = true ->
  str_head c <> Some "-"%char -> c <> ""%string ->
  str_last x <> Some "-"%char -> str_last y <> Some "-"%char -> x <> ""%string -> y <> ""%string ->
  (63 <= String.length (c ++ "-" ++ m))%nat ->
  GenerateRFC1035Name [c; (m ++ x)%string] = GenerateRFC1035Name [c; (m ++ y)%string].
Proof.
  intros Hcx Hcy Hh Hne Hlx Hly Hx Hy Hlen.
  assert (Hgen : forall z, str_forall name_char (c ++ "-" ++ m ++ z) = true ->
            str_last z <> Some "-"%char -> z <> ""%string ->
            GenerateRFC1035Name [c; (m ++ z)%string] =
            TrimRight "-" (str_take 63 (c ++ "-" ++ m))).
  { intros z Hcz Hlz Hz. rewrite GenerateRFC1035Name_trunc; unfold Join; cbn [String.concat].
    - rewrite <- !append_assoc in *. rewrite length_append.
      assert (0 < String.length z)%nat by (destruct z; [done | cbn; lia]).
      assert ((63 <? _)%nat = true) as -> by (apply Nat.ltb_lt; lia).
      f_equal. clear -Hlen. revert Hlen. generalize ((c ++ "-") ++ m)%string 63%nat.
      intros s n. revert s. induction n as [|n IH]; intros [|a s] Hn; simpl in *; try lia;
        [done..|]. f_equal. apply IH. lia.
    - done.
    - by destruct c.
    - rewrite !str_last_append. destruct (str_last z) eqn:E; [congruence|].
      destruct z as [|b z]; [done|]. simpl in E. by destruct (str_last z). }
  by rewrite !Hgen.
Qed.

Lemma ParseProviderID_iff p region instanceID :
  ParseProviderID p = Ok (region, instanceID) <->
  p = ProviderIDFromInstance region instanceID
  /\ region <> ""%string /\ no_slash region /\ instanceID <> ""%string.
Proof.
  assert (Hp : ProviderIDFromInstance region instanceID =
               ("ovhcloud://" ++ (region ++ String "/" instanceID))%string).
  { unfold ProviderIDFromInstance, Sprintf. cbn. by rewrite append_nil_r. }
  rewrite Hp. unfold ParseProviderID. split.
  - destruct (HasPrefix p "ovhcloud://") eqn:Hpre; simpl; [|done].
    apply HasPrefix_spec in Hpre as [q ->]. rewrite TrimPrefix_append.
    destruct (SplitN2_shape q "/") as [[_ ->]|(r & i & Hr & -> & ->)]; [done|].
    case_decide as Hne; [done|]. intros [= -> ->]. split_and!; [done|tauto|done|tauto].
  - intros (-> & Hr & Hs & Hi).
    rewrite (proj2 (HasPrefix_spec _ _)) by eauto. simpl negb. cbv iota.
    rewrite TrimPrefix_append, SplitN2_sep by done. by rewrite decide_False by tauto.
Qed.

(** C36: a provider ID parses to a region and an instance ID exactly when it is
    the one built from them, with neither empty and no slash in the region:
    parsing and building are inverse to each other. *)
Theorem ParseProviderID_spec p region instanceID :
  ParseProviderID p = Ok (region, instanceID) <->
  p = ProviderIDFromInstance region instanceID
  /\ region <> ""%string /\ no_slash region /\ instanceID <> ""%string.
Proof. apply ParseProviderID_iff. Qed.

End facts.

(** ** Concrete inputs *)

Local Existing Instance ascii_unicode.

Lemma GenerateRFC1035Name_exact_witness :
  GenerateRFC1035Name ["capi"; "prod-1"; "lb"] = "capi-prod-1-lb"%string
  /\ GenerateRFC1035Name [GenerateRFC1035Name ["capi"; "prod-1"; "lb"]]
     = GenerateRFC1035Name ["capi"; "prod-1"; "lb"].
Proof. apply (GenerateRFC1035Name_exact ["capi"; "prod-1"; "lb"]). vm_compute. split_and!; [done | lia | done | done].
Defined.

Lemma GenerateRFC1035Name_collision_witness :
  let m := "my-machine-deployment-with-quite-a-long-name-in-region-gra11-md"%string in
  GenerateRFC1035Name ["prod"; (m ++ "-x7k2p")%string] =
  GenerateRFC1035Name ["prod"; (m ++ "-b94ht")%string].
Proof.
  cbv zeta. apply GenerateRFC1035Name_collision; try (vm_compute; done). vm_compute. lia.
Defined.
