(* ===== verification/Logic.v ===== *)
(** * The program logic of the development

    Three judgements on programs, each with a rule per combinator, so that a
    proof follows the text of the program:
    - [only P p] (Effects): every call [p] can make satisfies [P];
    - [keeps R m]: every run of [m] takes the object from [s] to an [s'] with
      [R s s'], for a preorder [R];
    - [wp p Q] (Effects): every run of [p] ends in a trace and a value in [Q]. *)

From S2P Require Import Prelude GoStrings Errors OvhTypes ApiTypes Effects Client.

(** ** only, on stateful programs *)

Definition only_m {S A} (P : event -> Prop) (m : M S A) : Prop := forall s, only P (m s).

Section only.
Context {S : Type} (P : event -> Prop).

Lemma only_m_ret {A} (a : A) : only_m (S:=S) P (mret a).
Proof. intros s. exact I. Qed.

Lemma only_m_bind {A B} (m : M S A) (f : A -> M S B) :
  only_m P m -> (forall a, only_m P (f a)) -> only_m P (m ≫= f).
Proof. intros Hm Hf s. apply only_bind; [apply Hm | intros [a s']; apply Hf]. Qed.

Lemma only_m_lift {A} (p : prog A) : only P p -> only_m (S:=S) P (lift p).
Proof. intros Hp s. apply only_bind; [exact Hp | intros a; exact I]. Qed.

Lemma only_m_get : only_m (S:=S) P get.
Proof. intros s. exact I. Qed.

Lemma only_m_gets {A} (f : S -> A) : only_m P (gets f).
Proof. intros s. exact I. Qed.

Lemma only_m_modify (f : S -> S) : only_m P (modify f).
Proof. intros s. exact I. Qed.

Lemma only_m_when b (m : M S unit) : only_m P m -> only_m P (when b m).
Proof. destruct b; [done|]. intros _. apply only_m_ret. Qed.

Lemma only_m_try {A B} (m : M S (res A)) (f : A -> M S (res B)) :
  only_m P m -> (forall a, only_m P (f a)) -> only_m P (try_bind m f).
Proof.
  intros Hm Hf. apply only_m_bind; [done|]. intros [a|e]; [apply Hf | apply only_m_ret].
Qed.

Lemma only_m_wrap {A} g (m : M S (res A)) : only_m P m -> only_m P (wrap_err g m).
Proof. intros Hm. apply only_m_bind; [done|]. intros r. apply only_m_ret. Qed.

Lemma only_m_each {A} (f : A -> M S unit) xs :
  (forall x, x ∈ xs -> only_m P (f x)) -> only_m P (for_each f xs).
Proof.
  induction xs as [|x xs IH]; intros Hf; simpl; [apply only_m_ret|].
  apply only_m_bind; [apply Hf; set_solver | intros _; apply IH; set_solver].
Qed.

Lemma only_m_for_try {A} (f : A -> M S (res unit)) xs :
  (forall x, x ∈ xs -> only_m P (f x)) -> only_m P (for_try f xs).
Proof.
  induction xs as [|x xs IH]; intros Hf; simpl; [apply only_m_ret|].
  apply only_m_try; [apply Hf; set_solver | intros _; apply IH; set_solver].
Qed.
End only.

Section only_prog.
Context (P : event -> Prop).

Lemma only_mret {A} (a : A) : only P (mret a).
Proof. exact I. Qed.

Lemma only_try {A B} (p : prog (res A)) (f : A -> prog (res B)) :
  only P p -> (forall a, only P (f a)) -> only P (try_bind p f).
Proof. intros Hp Hf. apply only_bind; [done|]. intros [a|e]; [apply Hf | exact I]. Qed.

Lemma only_wrap {A} g (p : prog (res A)) : only P p -> only P (wrap_err g p).
Proof. intros Hp. apply only_bind; [done|]. intros r. exact I. Qed.

Lemma only_tolerate g f (p : prog (res unit)) : only P p -> only P (tolerate g f p).
Proof. intros Hp. apply only_bind; [done|]. intros r. exact I. Qed.

Lemma only_retry `{Unicode} {A} op (fn : prog (res A)) :
  (forall d, P (ESleep d)) -> only P fn -> only P (retryWithBackoff op fn).
Proof.
  intros Hs Hfn. unfold retryWithBackoff. generalize 0%nat. generalize maxRetries.
  intros left. induction left as [|left IH]; intros attempt; simpl;
    apply only_bind; try done; intros [a|e]; try exact I;
    case_match; simpl; try exact I.
  split; [apply Hs|]. intros _. apply IH.
Qed.

Lemma only_acc {A B} (f : B -> A -> prog B) acc xs :
  (forall acc x, only P (f acc x)) -> only P (for_acc f acc xs).
Proof.
  intros Hf. revert acc. induction xs as [|x xs IH]; intros acc; simpl; [exact I|].
  apply only_bind; [apply Hf | intros a; apply IH].
Qed.

Lemma only_poll `{Unicode} c name attempt left :
  (forall d, P (ESleep d)) -> only P (findLoadBalancerByName c name) ->
  only P (poll_lb c name attempt left).
Proof.
  intros Hs Hf. revert attempt.
  induction left as [|left IH]; intros attempt; cbn [poll_lb]; [exact I|].
  apply only_try; [by apply only_wrap|]. intros [lb|]; [exact I|].
  apply only_bind; [by apply only_call|]. intros r. apply IH.
Qed.

Lemma only_range m : P (ERange (map_to_list m)) -> only P (range_map m).
Proof. intros HP. apply only_bind; [by apply only_call | intros r; exact I]. Qed.
End only_prog.

(** ** keeps: what a program does to the object, up to a preorder *)

Definition keeps {S A} (R : S -> S -> Prop) (m : M S A) : Prop :=
  forall s, wp (m s) (fun _ r => R s (snd r)).

Section keeps.
Context {S : Type} (R : S -> S -> Prop) `{!PreOrder R}.

Lemma keeps_ret {A} (a : A) : keeps R (mret a : M S A).
Proof. intros s. simpl. reflexivity. Qed.

Lemma keeps_bind {A B} (m : M S A) (f : A -> M S B) :
  keeps R m -> (forall a, keeps R (f a)) -> keeps R (m ≫= f).
Proof.
  intros Hm Hf s. apply wp_bind. eapply wp_mono; [apply Hm|].
  intros t [a s'] Hs. eapply wp_mono; [apply Hf|]. intros t' [b s''] Hs'.
  simpl in *. by transitivity s'.
Qed.

Lemma wp_true {A} (p : prog A) (Q : list obs -> A -> Prop) :
  (forall t a, Q t a) -> wp p Q.
Proof. intros HQ. apply wp_exec. auto. Qed.

Lemma keeps_lift {A} (p : prog A) : keeps R (lift p : M S A).
Proof. intros s. apply wp_bind, wp_true. intros t a. simpl. reflexivity. Qed.

Lemma keeps_get : keeps R (get : M S S).
Proof. intros s. simpl. reflexivity. Qed.

Lemma keeps_gets {A} (f : S -> A) : keeps R (gets f).
Proof. intros s. simpl. reflexivity. Qed.

Lemma keeps_modify (f : S -> S) : (forall s, R s (f s)) -> keeps R (modify f).
Proof. intros Hf s. apply Hf. Qed.

Lemma keeps_when b (m : M S unit) : keeps R m -> keeps R (when b m).
Proof. destruct b; [done|]. intros _. apply keeps_ret. Qed.

Lemma keeps_try {A B} (m : M S (res A)) (f : A -> M S (res B)) :
  keeps R m -> (forall a, keeps R (f a)) -> keeps R (try_bind m f).
Proof.
  intros Hm Hf. apply keeps_bind; [done|]. intros [a|e]; [apply Hf | apply keeps_ret].
Qed.

Lemma keeps_wrap {A} g (m : M S (res A)) : keeps R m -> keeps R (wrap_err g m).
Proof. intros Hm. apply keeps_bind; [done|]. intros r. apply keeps_ret. Qed.

Lemma keeps_each {A} (f : A -> M S unit) xs :
  (forall x, x ∈ xs -> keeps R (f x)) -> keeps R (for_each f xs).
Proof.
  induction xs as [|x xs IH]; intros Hf; simpl; [apply keeps_ret|].
  apply keeps_bind; [apply Hf; set_solver | intros _; apply IH; set_solver].
Qed.

Lemma keeps_for_try {A} (f : A -> M S (res unit)) xs :
  (forall x, x ∈ xs -> keeps R (f x)) -> keeps R (for_try f xs).
Proof.
  induction xs as [|x xs IH]; intros Hf; simpl; [apply keeps_ret|].
  apply keeps_try; [apply Hf; set_solver | intros _; apply IH; set_solver].
Qed.
End keeps.

(** ** The tactics: one rule per combinator, and the definitions in between *)

(** The head constant of an application. *)
Ltac head_of t :=
  lazymatch t with
  | ?f _ => head_of f
  | _ => t
  end.

(** Case analysis on the scrutinee of the program under consideration. *)
Ltac split_prog x := let E := fresh "E" in destruct x eqn:E.

Ltac only_rule :=
  lazymatch goal with
  | |- only_m _ (mret _) => apply only_m_ret
  | |- only_m _ (_ ≫= _) => apply only_m_bind; [|intros ?]
  | |- only_m _ (try_bind _ _) => apply only_m_try; [|intros ?]
  | |- only_m _ (wrap_err _ _) => apply only_m_wrap
  | |- only_m _ (lift _) => apply only_m_lift
  | |- only_m _ get => apply only_m_get
  | |- only_m _ (gets _) => apply only_m_gets
  | |- only_m _ (modify _) => apply only_m_modify
  | |- only_m _ (when _ _) => apply only_m_when
  | |- only_m _ (for_each _ _) => apply only_m_each; intros ? ?
  | |- only_m _ (for_try _ _) => apply only_m_for_try; intros ? ?
  | |- only _ (mret _) => apply only_mret
  | |- only _ (Ret _) => exact I
  | |- only _ (call _) => apply only_call
  | |- only _ (try_bind _ _) => apply only_try; [|intros ?]
  | |- only _ (wrap_err _ _) => apply only_wrap
  | |- only _ (tolerate _ _ _) => apply only_tolerate
  | |- only _ (retryWithBackoff _ _) => apply only_retry; [intros ?|]
  | |- only _ (poll_lb _ _ _ _) => apply only_poll; [intros ?|]
  | |- only _ (for_acc _ _ _) => apply only_acc; intros ? ?
  | |- only _ (range_map _) => apply only_range
  | |- only _ (_ ≫= _) => apply only_bind; [|intros ?]
  | |- only_m _ (match ?x with _ => _ end) => split_prog x
  | |- only _ (match ?x with _ => _ end) => split_prog x
  | |- only_m _ (let '_ := ?x in _) => split_prog x
  | |- only_m _ ?m => let h := head_of m in unfold h
  | |- only _ ?p => let h := head_of p in unfold h
  end.

Ltac keeps_rule :=
  lazymatch goal with
  | |- keeps ?R (mret _) => apply (keeps_ret R)
  | |- keeps ?R (_ ≫= _) => apply (keeps_bind R); [|intros ?]
  | |- keeps ?R (try_bind _ _) => apply (keeps_try R); [|intros ?]
  | |- keeps ?R (wrap_err _ _) => apply (keeps_wrap R)
  | |- keeps ?R (lift _) => apply (keeps_lift R)
  | |- keeps ?R get => apply (keeps_get R)
  | |- keeps ?R (gets _) => apply (keeps_gets R)
  | |- keeps ?R (modify _) => apply (keeps_modify R); intros ?
  | |- keeps ?R (when _ _) => apply (keeps_when R)
  | |- keeps ?R (for_each _ _) => apply (keeps_each R); intros ? ?
  | |- keeps ?R (for_try _ _) => apply (keeps_for_try R); intros ? ?
  | |- keeps _ (match ?x with _ => _ end) => split_prog x
  | |- keeps _ ?m => let h := head_of m in unfold h
  end.

(** ** Runs, taken apart *)

Lemma Obs_cons_inj e (r r' : answer e) t t' : Obs e r :: t = Obs e r' :: t' -> r = r' /\ t = t'.
Proof. intros H. split; [apply Obs_inj|]; congruence. Qed.

Section runs.
Context {S : Type}.

Lemma exec_call e t (r : answer e) : exec (call e) t r <-> t = [Obs e r].
Proof.
  unfold call. cbn. split.
  - intros (r' & t' & -> & -> & ->). done.
  - intros ->. eauto.
Qed.

(** A call whose answer is known, and one whose answer is not. *)
Lemma exec_call_bind {A} e (r : answer e) (k : answer e -> prog A) t a :
  exec (call e ≫= k) (Obs e r :: t) a <-> exec (k r) t a.
Proof.
  rewrite exec_bind. split.
  - intros (t1 & r' & t2 & Ht & ->%exec_call & H). by apply Obs_cons_inj in Ht as [-> ->].
  - intros H. exists [Obs e r], r, t. split_and!; [done | by apply exec_call | done].
Qed.

Lemma exec_call_inv {A} e (k : answer e -> prog A) t a :
  exec (call e ≫= k) t a -> exists r t', t = Obs e r :: t' /\ exec (k r) t' a.
Proof. intros (t1 & r & t2 & -> & ->%exec_call & H)%exec_bind. by exists r, t2. Qed.

Lemma exec_mret {A} (a : A) t b : exec (mret a) t b <-> t = [] /\ b = a.
Proof. done. Qed.

Lemma exec_try {A B} (p : prog (res A)) (f : A -> prog (res B)) t r :
  exec (try_bind p f) t r <->
  (exists e, exec p t (Err e) /\ r = Err e) \/
  (exists t1 a t2, t = t1 ++ t2 /\ exec p t1 (Ok a) /\ exec (f a) t2 r).
Proof.
  unfold try_bind. rewrite exec_bind. split.
  - intros (t1 & [a|e] & t2 & -> & H1 & H2); [right; eauto 10|].
    destruct H2 as [-> ->]. left. rewrite app_nil_r. eauto.
  - intros [(e & H & ->)|(t1 & a & t2 & -> & H1 & H2)]; [|eauto 10].
    exists t, (Err e), []. by rewrite app_nil_r.
Qed.

Lemma exec_wrap {A} g (p : prog (res A)) t r :
  exec (wrap_err g p) t r <-> exists r0, exec p t r0 /\ r = map_err g r0.
Proof.
  unfold wrap_err. rewrite exec_bind. split.
  - intros (t1 & r0 & t2 & -> & H & [-> ->]). rewrite app_nil_r. eauto.
  - intros (r0 & H & ->). exists t, r0, []. by rewrite app_nil_r.
Qed.

Lemma exec_tolerate ok g (p : prog (res unit)) t r :
  exec (tolerate ok g p) t r <->
  exists r0, exec p t r0 /\
    r = match r0 with
        | Ok _ => Ok tt
        | Err e => if ok (Some e) then Ok tt else Err (g e)
        end.
Proof.
  unfold tolerate. rewrite exec_bind. split.
  - intros (t1 & r0 & t2 & -> & H & [-> ->]). rewrite app_nil_r. eauto.
  - intros (r0 & H & ->). exists t, r0, []. by rewrite app_nil_r.
Qed.

Lemma exec_m_bind {A B} (m : M S A) (f : A -> M S B) s t r :
  exec ((m ≫= f) s) t r <->
  exists t1 a s1 t2, t = t1 ++ t2 /\ exec (m s) t1 (a, s1) /\ exec (f a s1) t2 r.
Proof.
  change ((m ≫= f) s) with (m s ≫= fun '(a, s') => f a s'). rewrite exec_bind.
  split; [intros (t1 & [a s1] & t2 & H); eauto 10|].
  intros (t1 & a & s1 & t2 & H). by exists t1, (a, s1), t2.
Qed.

Lemma exec_m_ret {A} (a : A) (s : S) t r :
  exec ((mret a : M S A) s) t r <-> t = [] /\ r = (a, s).
Proof. done. Qed.

Lemma exec_m_lift {A} (p : prog A) (s : S) t r :
  exec (lift p s) t r <-> exists a, exec p t a /\ r = (a, s).
Proof.
  unfold lift. rewrite exec_bind. split.
  - intros (t1 & a & t2 & -> & H & [-> ->]). rewrite app_nil_r. eauto.
  - intros (a & H & ->). exists t, a, []. by rewrite app_nil_r.
Qed.

Lemma exec_m_call_inv {B} e (k : answer e -> M S B) (s : S) t r :
  exec ((lift (call e) ≫= k) s) t r -> exists a t', t = Obs e a :: t' /\ exec (k a s) t' r.
Proof.
  intros (t1 & a & s1 & t2 & -> & (a' & ->%exec_call & [= -> ->])%exec_m_lift & H)%exec_m_bind.
  by exists a', t2.
Qed.

Lemma exec_m_get (s : S) t r : exec (get s) t r <-> t = [] /\ r = (s, s).
Proof. done. Qed.

Lemma exec_m_gets {A} (f : S -> A) (s : S) t r : exec (gets f s) t r <-> t = [] /\ r = (f s, s).
Proof. done. Qed.

Lemma exec_m_modify (f : S -> S) (s : S) t r :
  exec (modify f s) t r <-> t = [] /\ r = (tt, f s).
Proof. done. Qed.

Lemma exec_m_try {A B} (m : M S (res A)) (f : A -> M S (res B)) s t r :
  exec (try_bind m f s) t r <->
  (exists e s1, exec (m s) t (Err e, s1) /\ r = (Err e, s1)) \/
  (exists t1 a s1 t2, t = t1 ++ t2 /\ exec (m s) t1 (Ok a, s1) /\ exec (f a s1) t2 r).
Proof.
  unfold try_bind. rewrite exec_m_bind. split.
  - intros (t1 & [a|e] & s1 & t2 & -> & H1 & H2); [right; eauto 10|].
    destruct H2 as [-> ->]. left. rewrite app_nil_r. eauto.
  - intros [(e & s1 & H & ->)|(t1 & a & s1 & t2 & -> & H1 & H2)]; [|eauto 10].
    exists t, (Err e), s1, []. by rewrite app_nil_r.
Qed.

Lemma exec_m_wrap {A} g (m : M S (res A)) s t r :
  exec (wrap_err g m s) t r <->
  exists r0 s1, exec (m s) t (r0, s1) /\ r = (map_err g r0, s1).
Proof.
  unfold wrap_err. rewrite exec_m_bind. split.
  - intros (t1 & r0 & s1 & t2 & -> & H & [-> ->]). rewrite app_nil_r. eauto.
  - intros (r0 & s1 & H & ->). exists t, r0, s1, []. by rewrite app_nil_r.
Qed.

(** What [only] and [keeps] say of a run. *)
Lemma only_m_exec {A} P (m : M S A) s t r :
  only_m P m -> exec (m s) t r -> Forall (fun o => P (obs_event o)) t.
Proof. intros H. by apply only_exec. Qed.

Lemma keeps_exec {A} (R : S -> S -> Prop) (m : M S A) s t r :
  keeps R m -> exec (m s) t r -> R s r.2.
Proof. intros H He. specialize (H s). rewrite wp_exec in H. eauto. Qed.
End runs.

(** The requests of a run, from the calls its program can make. *)
Lemma requests_Forall (P : event -> Prop) t :
  Forall (fun o => P (obs_event o)) t -> Forall (fun rq => P (EApi rq)) (requests t).
Proof.
  induction 1 as [|[e a] t Ho Ht IH]; [constructor|]. destruct e; try exact IH.
  change (requests (Obs (EApi r) a :: t)) with (r :: requests t). by constructor.
Qed.

Lemma requests_nil t : Forall (fun o => is_api (obs_event o) = false) t -> requests t = [].
Proof.
  intros Ht. apply (requests_Forall (fun e => is_api e = false)) in Ht.
  destruct (requests t) as [|rq rqs]; [done | by inversion Ht].
Qed.

Lemma only_requests {A} P (p : prog A) t a :
  only P p -> exec p t a -> Forall (fun rq => P (EApi rq)) (requests t).
Proof. intros Hp H. by eapply requests_Forall, only_exec. Qed.

Lemma only_m_requests {S A} P (m : M S A) s t r :
  only_m P m -> exec (m s) t r -> Forall (fun rq => P (EApi rq)) (requests t).
Proof. intros Hm. by apply only_requests. Qed.

(** Reading the object, at the state it is read in. *)
Lemma gets_bind {S A B} (f : S -> A) (k : A -> M S B) s : (gets f ≫= k) s = k (f s) s.
Proof. done. Qed.

Lemma get_bind {S B} (k : S -> M S B) s : (get ≫= k) s = k s s.
Proof. done. Qed.

Lemma only_bind_at {S A B} P (m : M S A) (f : A -> M S B) s :
  only P (m s) -> (forall a, only_m P (f a)) -> only P ((m ≫= f) s).
Proof. intros Hm Hf. apply only_bind; [done|]. intros [a s']. apply Hf. Qed.

(** Inversion of a hypothesis [H : exec p t r], one combinator at a time: the
    trace is split along the program. *)
Ltac exec_inv H :=
  let t1 := fresh "t" in let t2 := fresh "t" in
  let a := fresh "a" in let s1 := fresh "s" in
  let H1 := fresh "H" in let H2 := fresh "H" in let E := fresh "E" in
  lazymatch type of H with
  | exec (Ret _) _ _ => destruct H as [E H]; try subst; simplify_eq
  | exec (mret _ _) _ _ => destruct H as [E H]; try subst; simplify_eq
  | exec (mret _) _ _ => destruct H as [E H]; try subst; simplify_eq
  | exec (call _) _ _ => apply exec_call in H; try subst
  | exec (lift _ _) _ _ => apply exec_m_lift in H as (a & H & E); simplify_eq
  | exec (get _) _ _ => destruct H as [E H]; try subst; simplify_eq
  | exec (gets _ _) _ _ => destruct H as [E H]; try subst; simplify_eq
  | exec (modify _ _) _ _ => destruct H as [E H]; try subst; simplify_eq
  | exec (wrap_err _ _) _ _ => apply exec_wrap in H as (a & H & E); simplify_eq
  | exec (wrap_err _ _ _) _ _ => apply exec_m_wrap in H as (a & s1 & H & E); simplify_eq
  | exec (tolerate _ _ _) _ _ => apply exec_tolerate in H as (a & H & E); simplify_eq
  | exec (try_bind _ _) _ _ =>
      apply exec_try in H as [(a & H & E)|(t1 & a & t2 & E & H1 & H2)];
      [simplify_eq | try subst; rename H2 into H]
  | exec (try_bind _ _ _) _ _ =>
      apply exec_m_try in H as [(a & s1 & H & E)|(t1 & a & s1 & t2 & E & H1 & H2)];
      [simplify_eq | try subst; rename H2 into H]
  | exec ((_ ≫= _) _) _ _ =>
      apply exec_m_bind in H as (t1 & a & s1 & t2 & E & H1 & H2); try subst; rename H2 into H
  | exec (_ ≫= _) _ _ =>
      apply exec_bind in H as (t1 & a & t2 & E & H1 & H2); try subst; rename H2 into H
  | exec (when ?b _ _) _ _ => unfold when in H
  | exec ((match ?x with _ => _ end) _) _ _ => destruct x eqn:E
  | exec (match ?x with _ => _ end) _ _ => destruct x eqn:E
  end.

(** All the hypotheses, until only named programs are left. *)
Ltac exec_all := repeat match goal with H : exec _ _ _ |- _ => exec_inv H end.

(** ** Automation

    [auto with prog] proves a judgement on a whole operation by the rules, where
    each call or change is right by itself. *)

Create HintDb prog discriminated.
#[export] Hint Constants Opaque : prog.
#[export] Hint Extern 0 (only _ _) => solve [repeat only_rule; done] : prog.
#[export] Hint Extern 0 (only_m _ _) => solve [repeat only_rule; done] : prog.
#[export] Hint Extern 0 (keeps _ _) => solve [repeat keeps_rule; first [done | by repeat split]] : prog.
