(* ===== verification/ClientFacts.v ===== *)
(** * The API client: what pkg/ovh promises its callers

    Errors and their classification, the retry policy as an exact description
    of every run, deletions that tolerate absence, and the lookups. *)

From S2P Require Import Prelude GoStrings Errors OvhTypes ApiTypes Effects Client StringFacts Logic.

Local Open Scope Z_scope.

Section facts.
Context `{U : Unicode}.

(** ** Errors *)

Definition wrapped (e e' : error) : Prop := exists pre post, e' = EWrap pre e post.

(** ** The retry policy *)

Definition retryable (e : error) : Prop := IsRetryable (Some e) = true.

(** The trace of the attempts that failed with [errs], from attempt [i] on: each
    is followed by its pause. *)
Fixpoint failed_attempts (rq : request) (errs : list error) (i : nat) : list obs :=
  match errs with
  | [] => []
  | e :: errs' =>
    Obs (EApi rq) (Err e) :: Obs (ESleep (backoff i)) tt :: failed_attempts rq errs' (S i)
  end.

(** The error of a loop whose last attempt failed with [e] too. *)
Definition exhausted (operation : string) (e : error) : error :=
  Errorf "%s failed after %d retries: %w" [AS operation; AZ (Z.of_nat maxRetries); AE e].

(** What is returned after [n] recoveries out of [left] when the last answer is
    [last]. *)
Definition retry_end {A} (operation : string) (n left : nat) (last r : res A) : Prop :=
  match last with
  | Ok a => r = Ok a
  | Err e => if IsRetryable (Some e) then n = left /\ r = Err (exhausted operation e) else r = Err e
  end.

(** The runs of the loop from attempt [i] on: [errs] are the retryable errors it
    recovered from, [last] the answer it stopped at. *)
Definition retried_from (operation : string) (rq : request) (i left : nat) (t : list obs)
    (r : res (den (req_out rq))) : Prop :=
  exists errs last,
    t = failed_attempts rq errs i ++ [Obs (EApi rq) last]
    /\ Forall retryable errs /\ (length errs <= left)%nat
    /\ retry_end operation (length errs) left last r.

(** The specification of [retryWithBackoff] on one request. *)
Definition retried (operation : string) (rq : request) : list obs -> res (den (req_out rq)) -> Prop :=
  retried_from operation rq 0 maxRetries.

Lemma retried_from_stop operation rq i left last t r :
  retry_end operation 0 left last r -> t = [Obs (EApi rq) last] ->
  retried_from operation rq i left t r.
Proof. intros H ->. exists [], last. split_and!; [done | constructor | cbn; lia | done]. Qed.

Lemma retried_from_step operation rq i left e t r :
  retryable e -> retried_from operation rq (S i) left t r ->
  retried_from operation rq i (S left) (Obs (EApi rq) (Err e) :: Obs (ESleep (backoff i)) tt :: t) r.
Proof.
  intros He (errs & last & -> & Hf & Hl & H). exists (e :: errs), last.
  split_and!; [done | by constructor | cbn; lia |].
  unfold retry_end in *. destruct last as [a|e']; [done|].
  destruct (IsRetryable (Some e')); [|done]. destruct H as [<- ->]. done.
Qed.

Lemma retry_loop_sound operation rq i left t r :
  exec (retry_loop operation (call (EApi rq)) i left) t r ->
  retried_from operation rq i left t r.
Proof.
  revert i t. induction left as [|left IH]; intros i t H; cbn [retry_loop] in H;
    apply exec_bind in H as (t1 & [a|e] & t2 & -> & ->%exec_call & H).
  - destruct H as [-> ->]. by apply retried_from_stop with (last := Ok a).
  - destruct (IsRetryable (Some e)) eqn:Hr; cbn [negb] in H; destruct H as [-> ->];
      apply retried_from_stop with (last := Err e); try done; unfold retry_end; by rewrite Hr.
  - destruct H as [-> ->]. by apply retried_from_stop with (last := Ok a).
  - destruct (IsRetryable (Some e)) eqn:Hr; cbn [negb] in H.
    + apply exec_bind in H as (t3 & [] & t4 & -> & ->%exec_call & H).
      apply retried_from_step; auto.
    + destruct H as [-> ->]. apply retried_from_stop with (last := Err e); [|done].
      unfold retry_end. by rewrite Hr.
Qed.

Lemma retry_loop_complete operation rq i left t r :
  retried_from operation rq i left t r ->
  exec (retry_loop operation (call (EApi rq)) i left) t r.
Proof.
  intros (errs & last & -> & Hf & Hl & H).
  induction Hf as [|e errs He Hf IH] in i, left, Hl, H |- *.
  - destruct left as [|left]; cbn [retry_loop]; apply exec_bind; exists [Obs (EApi rq) last], last, [];
      (split_and!; [done | by apply exec_call|]); unfold retry_end in H;
      destruct last as [a|e]; try (by subst); destruct (IsRetryable (Some e)); cbn [negb];
      try (by subst); by destruct H as [? ->].
  - destruct left as [|left]; cbn [length] in *; [lia|]. cbn [retry_loop]. apply exec_bind.
    exists [Obs (EApi rq) (Err e)], (Err e). eexists. split_and!; [reflexivity | by apply exec_call|].
    rewrite He. cbn [negb]. apply exec_bind.
    exists [Obs (ESleep (backoff i)) tt], tt. eexists.
    split_and!; [reflexivity | by apply exec_call|]. apply IH; [lia|].
    unfold retry_end in *. destruct last as [a|e']; [done|].
    destruct (IsRetryable (Some e')); [|done]. destruct H as [H ->]. by injection H.
Qed.

Lemma retry_sound operation rq t r :
  exec (retryWithBackoff operation (call (EApi rq))) t r -> retried operation rq t r.
Proof. apply retry_loop_sound. Qed.

(** What a client method returns comes from the last answer of its request. *)
Lemma retried_last operation rq t r :
  retried operation rq t r ->
  exists t' last, t = t' ++ [Obs (EApi rq) last]
    /\ match last with
       | Ok a => r = Ok a
       | Err e => r = Err e \/ r = Err (exhausted operation e)
       end.
Proof.
  intros (errs & last & -> & _ & _ & H). exists (failed_attempts rq errs 0), last.
  split; [done|]. unfold retry_end in H. destruct last as [a|e]; [done|].
  destruct (IsRetryable (Some e)); [|by left]. destruct H as [_ ->]. by right.
Qed.

Lemma requests_failed rq errs i : requests (failed_attempts rq errs i) = replicate (length errs) rq.
Proof. revert i. induction errs as [|e errs IH]; intros i; [done|]. cbn. f_equal. apply IH. Qed.

Lemma retried_requests operation rq t r :
  retried operation rq t r -> exists n, (n <= maxRetries)%nat /\ requests t = replicate (S n) rq.
Proof.
  intros (errs & last & -> & _ & Hl & _). exists (length errs). split; [done|].
  rewrite requests_app, requests_failed. rewrite replicate_S_end. done.
Qed.

Lemma backoff_small i : (i < 5)%nat -> backoff i = 2 ^ (Z.of_nat i + 1) * Second.
Proof. intros Hi. do 5 (destruct i as [|i]; [done|]). lia. Qed.

Lemma slept_failed rq errs i :
  (i + length errs <= 5)%nat ->
  slept (failed_attempts rq errs i) = (2 ^ (Z.of_nat (i + length errs) + 1) - 2 ^ (Z.of_nat i + 1)) * Second.
Proof.
  revert i. induction errs as [|e errs IH]; intros i Hi; cbn [length failed_attempts] in *.
  - by rewrite Nat.add_0_r, Z.sub_diag.
  - change (slept (_ :: _ :: ?t)) with (0 + (backoff i + slept t)).
    rewrite IH, backoff_small by lia.
    replace (S i + length errs)%nat with (i + S (length errs))%nat by lia.
    replace (Z.of_nat (S i) + 1) with (Z.succ (Z.of_nat i + 1)) by lia.
    rewrite (Z.pow_succ_r 2 (Z.of_nat i + 1)) by lia. unfold Second. lia.
Qed.

Lemma retried_slept operation rq t r : retried operation rq t r -> slept t <= 62 * Second.
Proof.
  intros (errs & last & -> & _ & Hl & _). rewrite slept_app, slept_failed by done.
  change (slept [_]) with 0. unfold maxRetries in Hl.
  do 6 (destruct errs as [|? errs]; [by vm_compute|]). cbn in Hl. lia.
Qed.

(** The pauses, in nanoseconds, and the attempts they follow. *)
Definition pauses : list Z := map (fun seconds => seconds * Second) [2; 4; 8; 16; 32].

Definition attempts (rq : request) (errs : list error) : list obs :=
  concat (zip_with (fun e pause => [Obs (EApi rq) (Err e); Obs (ESleep pause) tt]) errs pauses).

Lemma failed_attempts_pauses rq errs :
  (length errs <= 5)%nat -> failed_attempts rq errs 0 = attempts rq errs.
Proof. intros H. do 6 (destruct errs as [|? errs]; [reflexivity|]). cbn in H. lia. Qed.

(** C22: the retry policy, exactly: the runs of [retryWithBackoff] on a request
    are those that repeat it after each retryable error, at most five times and
    after pauses of 2, 4, 8, 16 and 32 seconds, and return at once on the first
    success or other error; a sixth retryable error is returned, wrapped. *)
Theorem retryWithBackoff_exact operation rq t r :
  exec (retryWithBackoff operation (call (EApi rq))) t r <->
  exists errs last,
    t = attempts rq errs ++ [Obs (EApi rq) last]
    /\ Forall retryable errs /\ (length errs <= 5)%nat
    /\ retry_end operation (length errs) 5 last r.
Proof.
  split.
  - intros (errs & last & -> & Hf & Hl & H)%retry_loop_sound. exists errs, last.
    by rewrite failed_attempts_pauses.
  - intros (errs & last & -> & Hf & Hl & H). apply retry_loop_complete. exists errs, last.
    by rewrite failed_attempts_pauses.
Qed.

(** So a method never makes more than six requests, all of them the same,
    nor sleeps more than 62 seconds; the cap of [maxBackoff] is never reached. *)
Theorem retryWithBackoff_bounds operation rq t r :
  exec (retryWithBackoff operation (call (EApi rq))) t r ->
  (exists n, (n <= 5)%nat /\ requests t = replicate (S n) rq)
  /\ slept t <= 62 * Second
  /\ Forall (fun o => sleep_of (obs_event o) < maxBackoff) t.
Proof.
  intros H%retry_sound. split_and!; [by eapply retried_requests | by eapply retried_slept|].
  destruct H as (errs & last & -> & _ & Hl & _). unfold maxRetries in Hl.
  apply Forall_app. split; [|by repeat constructor].
  do 6 (destruct errs as [|? errs]; [by repeat constructor|]). cbn in Hl. lia.
Qed.

(** ** Errors: classification *)

Lemma Contains_mono s sub t u : Contains s sub = true -> Contains (t ++ s ++ u)%string sub = true.
Proof.
  intros H. induction t as [|a t IH]; cbn; [|by rewrite IH, orb_true_r].
  induction s as [|a s IH]; cbn in *.
  - destruct u, sub; cbn in *; done.
  - apply orb_true_iff in H as [H|H]; [|by rewrite IH, orb_true_r].
    change (String.prefix sub (String a s) = true) in H.
    apply orb_true_iff. left. change (HasPrefix (String a s ++ u) sub = true).
    apply HasPrefix_spec in H as [v Hv]. apply HasPrefix_spec. exists (v ++ u)%string.
    by rewrite Hv, append_assoc.
Qed.

(** The helpers of errors.go look through every wrapping of the client and
    of its callers: an API error keeps its class, and an error that counts as
    NotFound by its text keeps counting as such. *)
Theorem classification_wrapped e pre post :
  let e' := EWrap pre e post in
  (is_Some (as_api e) ->
     IsNotFound (Some e') = IsNotFound (Some e) /\ IsConflict (Some e') = IsConflict (Some e)
     /\ IsRetryable (Some e') = IsRetryable (Some e)
     /\ IsForbidden (Some e') = IsForbidden (Some e)
     /\ IsUnauthorized (Some e') = IsUnauthorized (Some e))
  /\ (IsNotFound (Some e) = true -> IsNotFound (Some e') = true)
  /\ (IsAlreadyDeleting (Some e) = true -> IsAlreadyDeleting (Some e') = true).
Proof.
  cbv zeta. split_and!.
  - intros [code Hc]. unfold IsNotFound, IsConflict, IsRetryable, IsForbidden, IsUnauthorized.
    cbn [as_api]. rewrite !Hc. done.
  - unfold IsNotFound. cbn [as_api error_text]. destruct (as_api e); [done|].
    rewrite !orb_true_iff. intros [H|H]; [left|right]; by apply Contains_mono.
  - unfold IsAlreadyDeleting, IsConflict. cbn [as_api error_text].
    destruct (as_api e) as [code|]; [|done]. destruct (code =? StatusConflict); [|done].
    cbn [negb]. rewrite !orb_true_iff. intros [H|H]; [left|right]; by apply Contains_mono.
Qed.

(** Outside API errors NotFound is a matter of text: a failure to reach the
    service counts as NotFound when its text, the requested ID included, holds
    the digits 404. *)
Theorem IsNotFound_unreachable id e :
  as_api e = None -> Contains id "404" = true ->
  IsNotFound (Some (Errorf "getting instance %s: %w" [AS id; AE e])) = true.
Proof.
  intros He Hid. unfold IsNotFound. cbn -[Contains]. rewrite He.
  apply orb_true_iff. left.
  pose proof (Contains_mono id "404" "getting instance " (": " ++ error_text e ++ "") Hid) as H.
  revert H. cbn -[Contains]. by rewrite append_assoc.
Qed.

(** ** Deletions *)

(** The text that the retries put before an error. *)
Definition retry_text (operation : string) : string := (operation ++ " failed after 5 retries: ")%string.

(** It takes no part in the classification of the error. *)
Definition plain (operation : string) : bool :=
  forallb (clear_of (retry_text operation)) ["404"; "not found"; "PENDING_DELETE"; "PENDING_UPDATE"]%string.

Lemma exhausted_text operation e : error_text (exhausted operation e) = (retry_text operation ++ error_text e)%string.
Proof. unfold exhausted, retry_text. cbn. by rewrite append_nil_r. Qed.

Lemma plain_contains operation sub e :
  plain operation = true -> sub ∈ ["404"; "not found"; "PENDING_DELETE"; "PENDING_UPDATE"]%string ->
  Contains (error_text (exhausted operation e)) sub = Contains (error_text e) sub.
Proof.
  intros Hp Hin. rewrite exhausted_text. apply Contains_clear.
  unfold plain in Hp. rewrite forallb_forall in Hp. apply Hp. by apply list_elem_of_In.
Qed.

Definition gone_or_deleting (err : option error) : bool := IsNotFound err || IsAlreadyDeleting err.

(** What the code takes for success, whatever the retries added to it. *)
Definition steadfast (gone : option error -> bool) : Prop :=
  forall operation e, plain operation = true -> gone (Some (exhausted operation e)) = gone (Some e).

Lemma IsNotFound_steadfast : steadfast IsNotFound.
Proof.
  intros op e Hp. unfold IsNotFound. rewrite !(plain_contains op) by (done || set_solver).
  by destruct (as_api e) eqn:E; cbn; rewrite E.
Qed.

Lemma gone_or_deleting_steadfast : steadfast gone_or_deleting.
Proof.
  intros op e Hp. unfold gone_or_deleting. rewrite IsNotFound_steadfast by done. f_equal.
  unfold IsAlreadyDeleting, IsConflict. rewrite !(plain_contains op) by (done || set_solver).
  by cbn [as_api exhausted Errorf].
Qed.

(** A retried request whose outcome counts as success ends with an answer that does. *)
Lemma retried_gone gone operation rq t r :
  steadfast gone -> plain operation = true -> retried operation rq t r ->
  match r with Ok _ => True | Err e => gone (Some e) = true end ->
  exists t' last, t = t' ++ [Obs (EApi rq) last]
    /\ match last with Ok _ => True | Err e => gone (Some e) = true end.
Proof.
  intros Hs Hp (t' & last & -> & Hlast)%retried_last Ho. exists t', last. split; [done|].
  destruct last as [a|e]; [done|]. destruct Hlast as [->| ->]; [done|]. by rewrite Hs in Ho.
Qed.

(** The deletions by ID of the client, and the errors each takes for success. *)
Definition deletions : list ((Client -> string -> prog (res unit)) * (option error -> bool)) :=
  [(DeleteInstance, IsNotFound); (DeleteSSHKey, IsNotFound); (DeletePrivateNetwork, IsNotFound);
   (DeleteGateway, IsNotFound); (DeleteListener, IsNotFound); (DeletePool, IsNotFound);
   (DeleteVolume, IsNotFound); (DeleteFloatingIP, IsNotFound); (DeleteSecurityGroup, IsNotFound);
   (DeleteLoadBalancer, gone_or_deleting); (DeleteHealthMonitor, gone_or_deleting)].

(** The specification of a deletion: a retried DELETE whose error, if [gone]
    accepts it, is success. *)
Definition deletes (gone : option error -> bool) (p : prog (res unit)) : Prop :=
  exists rq wrap, req_method rq = DELETE /\ req_out rq = TNone /\ steadfast gone /\
    forall t r, exec p t r -> exists op (r0 : res (den (req_out rq))),
      retried op rq t r0 /\ plain op = true /\
      r = match r0 with
          | Ok _ => Ok tt
          | Err e => if gone (Some e) then Ok tt else Err (wrap e)
          end.

Lemma tolerate_deletes gone wrap op path :
  steadfast gone -> plain op = true ->
  deletes gone (tolerate gone wrap (retryWithBackoff op (api_delete path))).
Proof.
  intros Hs Hp. exists (mkRequest DELETE path NoBody TNone), wrap. split_and!; [done..|].
  intros t r (r0 & H & ->)%exec_tolerate. apply retry_sound in H. eauto.
Qed.

Lemma deletions_delete c id d gone : (d, gone) ∈ deletions -> deletes gone (d c id).
Proof.
  unfold deletions. rewrite !elem_of_cons, elem_of_nil.
  intros Hin. destruct_or! Hin; try done; injection Hin as -> ->;
    apply tolerate_deletes; first [apply IsNotFound_steadfast | apply gone_or_deleting_steadfast | done].
Qed.

(** Deletions are idempotent: each of the client's deletions reports
    success only after the API has acknowledged it or answered that the object
    is gone (or, where the code accepts it, being deleted), and such an answer
    to the first request ends it at once with success. *)
Theorem deletions_idempotent c id d gone :
  (d, gone) ∈ deletions ->
  exists rq, req_method rq = DELETE /\
    (forall t, exec (d c id) t (Ok tt) ->
       exists t' last, t = t' ++ [Obs (EApi rq) last]
         /\ match last with Ok _ => True | Err e => gone (Some e) = true end)
    /\ (forall e t r, gone (Some e) = true -> IsRetryable (Some e) = false ->
          exec (d c id) (Obs (EApi rq) (Err e) :: t) r -> t = [] /\ r = Ok tt).
Proof.
  intros Hd. destruct (deletions_delete c id d gone Hd) as (rq & wrap & Hm & _ & Hs & Hex).
  exists rq. split_and!; [done|..].
  - intros t H. destruct (Hex _ _ H) as (op & r0 & Hr & Hp & Ho).
    apply (retried_gone gone op _ _ r0); [done..|].
    destruct r0 as [a|e]; [done|]. by destruct (gone (Some e)).
  - intros e t r Hg Hnr H. destruct (Hex _ _ H) as (op & r0 & (errs & last & Ht & Hf & _ & He) & _ & ->).
    pose proof (f_equal (fun t => from_option obs_error None (head t)) Ht) as Hhd.
    pose proof (f_equal tail Ht) as Htl.
    destruct errs as [|e' errs]; cbn in Hhd, Htl.
    + split; [done|]. destruct last as [a|e0]; cbn in Hhd; [done|]. injection Hhd as <-.
      unfold retry_end in He. rewrite Hnr in He. subst. by rewrite Hg.
    + injection Hhd as <-. inversion Hf as [|? ? Hr]. unfold retryable in Hr. congruence.
Qed.

(** ** Lookups *)

(** A listing of the client: a retried GET, its error wrapped. *)
Definition lists {T} (path : string) (p : prog (res (list (den T)))) : Prop :=
  exists op wrap, forall t r, exec p t r ->
    exists r0 : res (list (den T)),
      retried op (mkRequest GET path NoBody (TList T)) t r0 /\ r = map_err wrap r0.

Lemma lists_retry T op wrap path :
  lists (T := T) path (wrap_err wrap (retryWithBackoff op (api_get path (TList T)))).
Proof.
  exists op, wrap. intros t r (r0 & H & ->)%exec_wrap. exists r0. split; [|done].
  by apply (retry_sound op (mkRequest GET path NoBody (TList T))).
Qed.

Lemma ListInstances_lists c :
  lists (T := TInstance) (with_region c (projectPath c "/instance" [])) (ListInstances c).
Proof. apply lists_retry. Qed.

Lemma ListImages_lists c :
  lists (T := TImage) (with_region c (projectPath c "/image" [])) (ListImages c).
Proof. apply lists_retry. Qed.

Lemma ListSnapshots_lists c :
  lists (T := TImage) (with_region c (projectPath c "/snapshot" [])) (ListSnapshots c).
Proof. apply lists_retry. Qed.

(** The successful answers of a retried request. *)
Lemma retried_Ok operation rq t a :
  retried operation rq t (Ok a) -> exists t', t = t' ++ [Obs (EApi rq) (Ok a)].
Proof.
  intros (errs & last & -> & _ & _ & H). exists (failed_attempts rq errs 0).
  unfold retry_end in H. destruct last as [b|e]; [by injection H as ->|].
  destruct (IsRetryable (Some e)); [by destruct H | done].
Qed.

(** [FindInstanceByName] only lists, and returns the first instance of the
    answer whose name is exactly the one asked for, or nothing if there is
    none; the errors of the listing are passed on. *)
Theorem FindInstanceByName_spec c name t r :
  exec (FindInstanceByName c name) t r ->
  Forall (fun o => read_only (obs_event o)) t /\
  match r with
  | Ok found => exists t' instances,
      t = t' ++ [Obs (EApi (mkRequest GET (with_region c (projectPath c "/instance" [])) NoBody
                              (TList TInstance))) (Ok instances)]
      /\ match found with
         | Some i => exists before after, instances = before ++ i :: after /\ Instance_Name i = name
                       /\ Forall (fun j => Instance_Name j <> name) before
         | None => Forall (fun j => Instance_Name j <> name) instances
         end
  | Err _ => True
  end.
Proof.
  intros H. split.
  { revert H. apply only_exec. auto with prog. }
  unfold FindInstanceByName in H. exec_inv H; [done|]. exec_inv H.
  destruct (ListInstances_lists c) as (op & wrap & Hl).
  destruct (Hl _ _ H0) as ([insts|e] & Hr & E); [|done].
  injection E as ->. apply retried_Ok in Hr as [t' ->]. exists t', insts. rewrite app_nil_r. split; [done|].
  case_match eqn:Hf.
  - apply first_match_Some in Hf as (before & after & -> & Hi%bool_decide_eq_true & Hb).
    eexists before, after. split_and!; [done..|]. eapply Forall_impl; [exact Hb|].
    intros j Hj. by apply bool_decide_eq_false in Hj.
  - apply first_match_None in Hf. eapply Forall_impl; [exact Hf|].
    intros j Hj. by apply bool_decide_eq_false in Hj.
Qed.

(** [findImageByName] prefers a case-insensitive match of the whole name,
    the first one, to a match of a part of it, and finds an image exactly when
    there is one of either kind. *)
Theorem findImageByName_spec images name :
  let whole i := EqualFold (Image_Name i) name in
  let part i := Contains (ToLower (Image_Name i)) (ToLower name) in
  match findImageByName images name with
  | Some img => exists before after, images = before ++ img :: after
      /\ ((whole img = true /\ Forall (fun i => whole i = false) before)
          \/ (part img = true /\ Forall (fun i => whole i = false) images
              /\ Forall (fun i => part i = false) before))
  | None => Forall (fun i => whole i = false /\ part i = false) images
  end.
Proof.
  cbv zeta. unfold findImageByName.
  destruct (first_match (fun i => EqualFold (Image_Name i) name) images) as [img|] eqn:E1.
  - apply first_match_Some in E1 as (before & after & -> & Hw & Hb). exists before, after. auto.
  - apply first_match_None in E1. cbv zeta.
    case_match eqn:E2.
    + apply first_match_Some in E2 as (before & after & -> & Hp & Hb). eexists before, after. auto.
    + apply first_match_None in E2. by apply Forall_and.
Qed.

(** [isUUID] accepts exactly the 36-byte strings with dashes at offsets 8,
    13, 18 and 23 and hexadecimal digits elsewhere. *)
Theorem isUUID_spec s :
  isUUID s = true <->
  String.length s = 36%nat /\
  forall i a, String.get i s = Some a ->
    if decide (i = 8 \/ i = 13 \/ i = 18 \/ i = 23)%nat then a = "-"%char
    else isHexDigit (byte a) = true.
Proof.
  assert (Hfrom : forall j, isUUID_from j s = true <->
            forall i a, String.get i s = Some a ->
              if decide (i + j = 8 \/ i + j = 13 \/ i + j = 18 \/ i + j = 23)%nat then a = "-"%char
              else isHexDigit (byte a) = true).
  { induction s as [|b s IH]; intros j; cbn [isUUID_from].
    - split; [intros _ i a | done]. by destruct i.
    - rewrite andb_true_iff, IH. split.
      + intros [Hb Hs] [|i] a Ha; cbn in Ha.
        * injection Ha as ->. rewrite Nat.add_0_l.
          destruct (decide (j = 8 \/ j = 13 \/ j = 18 \/ j = 23)%nat) as [Hd|Hd].
          -- rewrite bool_decide_true in Hb by done. apply Z.eqb_eq in Hb.
             rewrite <- (char_byte a), Hb. done.
          -- by rewrite bool_decide_false in Hb by done.
        * specialize (Hs i a Ha). replace (S i + j)%nat with (i + S j)%nat by lia. done.
      + intros H. split.
        * specialize (H 0%nat b eq_refl). rewrite Nat.add_0_l in H.
          destruct (decide (j = 8 \/ j = 13 \/ j = 18 \/ j = 23)%nat) as [Hd|Hd].
          -- rewrite bool_decide_true by done. by subst.
          -- by rewrite bool_decide_false by done.
        * intros i a Ha. specialize (H (S i) a Ha).
          replace (i + S j)%nat with (S i + j)%nat by lia. done. }
  unfold isUUID. specialize (Hfrom 0%nat).
  destruct (String.length s =? 36)%nat eqn:E; cbn [negb].
  - apply Nat.eqb_eq in E. rewrite Hfrom. split.
    + intros H. split; [done|]. intros i a Ha. specialize (H i a Ha). by rewrite Nat.add_0_r in H.
    + intros [_ H] i a Ha. rewrite Nat.add_0_r. by apply H.
  - apply Nat.eqb_neq in E. split; [done|]. by intros [? _].
Qed.

(** ** CreateLoadBalancer *)

(** A first answer that is no retryable error is the last. *)
Lemma retried_first operation rq (a : res (den (req_out rq))) t r :
  retried operation rq (Obs (EApi rq) a :: t) r ->
  match a with Ok _ => True | Err e => IsRetryable (Some e) = false end -> t = [] /\ r = a.
Proof.
  intros ([|e errs] & last & Ht & Hf & _ & He) Ha; cbn in Ht.
  - assert (t = []) as -> by congruence. split; [done|].
    assert (Obs (EApi rq) a = Obs (EApi rq) last) as <-%Obs_inj by congruence.
    unfold retry_end in He. destruct a; [done|]. by rewrite Ha in He.
  - assert (Obs (EApi rq) a = Obs (EApi rq) (Err e)) as ->%Obs_inj by congruence.
    inversion Hf as [|? ? Hr]. unfold retryable in Hr. congruence.
Qed.

Definition lb_list (c : Client) : request :=
  mkRequest GET (regionPath c "/loadbalancing/loadbalancer" []) NoBody (TList TLoadBalancer).

Definition lb_create (c : Client) (opts : CreateLoadBalancerOpts) : request :=
  mkRequest POST (regionPath c "/loadbalancing/loadbalancer" []) (BLoadBalancer opts) TAny.

Lemma findLoadBalancerByName_runs c name t r :
  exec (findLoadBalancerByName c name) t r ->
  exists r0 : res (list LoadBalancer),
    retried "ListLoadBalancers" (lb_list c) t r0
    /\ r = map_ok (first_match (fun l => bool_decide (LoadBalancer_Name l = name))) r0.
Proof.
  unfold findLoadBalancerByName. intros H. exec_inv H.
  - apply (retry_sound _ (lb_list c)) in H. eauto.
  - exec_inv H. apply (retry_sound _ (lb_list c)) in H0. rewrite app_nil_r. by exists (Ok a).
Qed.

Lemma retried_methods m operation rq t r :
  req_method rq <> m -> retried operation rq t r ->
  Forall (fun o => is_method m (obs_event o) = false) t.
Proof.
  intros Hm (errs & last & -> & _). apply Forall_app. split.
  - generalize 0%nat. induction errs as [|e errs IH]; intros i; cbn; constructor;
      [cbn; by rewrite bool_decide_false | constructor; [done | apply IH]].
  - repeat constructor. cbn. by rewrite bool_decide_false.
Qed.

Lemma findLoadBalancerByName_name c name t lb :
  exec (findLoadBalancerByName c name) t (Ok (Some lb)) -> LoadBalancer_Name lb = name.
Proof.
  intros ([lbs|e] & _ & E)%findLoadBalancerByName_runs; [|done].
  injection E as E. symmetry in E. apply first_match_sound in E as [E _].
  by apply bool_decide_eq_true in E.
Qed.

Lemma findLoadBalancerByName_slept c name t r :
  exec (findLoadBalancerByName c name) t r -> slept t <= 62 * Second.
Proof. intros (r0 & H & _)%findLoadBalancerByName_runs. by eapply retried_slept. Qed.

(** The pauses of the polling loop from attempt [attempt] on. *)
Lemma poll_lb_spec c name attempt left t r :
  exec (poll_lb c name attempt left) t r ->
  slept t <= Z.of_nat left * (63 + 2 * Z.of_nat attempt + Z.of_nat left) * Second
  /\ (forall lb, r = Ok lb -> LoadBalancer_Name lb = name).
Proof.
  revert attempt t. induction left as [|left IH]; intros attempt t H; cbn [poll_lb] in H.
  { by exec_inv H. }
  apply exec_try in H as [(e & (r0 & H & _)%exec_wrap & ->)|(t1 & lb & t2 & -> & H1 & H)].
  { apply findLoadBalancerByName_slept in H. split; [unfold Second in *; nia | done]. }
  apply exec_wrap in H1 as ([lb'|e] & H1 & E); [|done]. injection E as ->.
  pose proof (findLoadBalancerByName_slept _ _ _ _ H1) as Hs. rewrite slept_app.
  destruct lb' as [lb'|].
  { apply findLoadBalancerByName_name in H1. exec_inv H. change (slept []) with 0.
    split; [unfold Second in *; nia|]. by intros lb [= ->]. }
  apply exec_bind in H as (t3 & [] & t4 & -> & ->%exec_call & H).
  apply IH in H as [Hs' Hn]. split; [|done].
  rewrite slept_app. change (slept [Obs (ESleep ?d) tt]) with (d + 0).
  unfold Second in *. nia.
Qed.

(** Calls that are no request of the API other than a GET. *)
Definition at_most_get (e : event) : Prop :=
  match e with EApi rq => req_method rq = GET | _ => True end.

Lemma at_most_get_requests t :
  Forall (fun o => at_most_get (obs_event o)) t ->
  filter (fun rq => req_method rq <> GET) (requests t) = [].
Proof.
  induction 1 as [|[e a] t Ho Ht IH]; [done|]. destruct e; try exact IH.
  change (filter (fun rq => req_method rq <> GET) (r :: requests t) = []).
  rewrite filter_cons_False; [exact IH | cbn in Ho; tauto].
Qed.

Lemma retried_others operation rq t r :
  req_method rq <> GET -> retried operation rq t r ->
  exists n, (n <= 6)%nat /\ filter (fun rq => req_method rq <> GET) (requests t) = replicate n rq.
Proof.
  intros Hm (n & Hn & ->)%retried_requests. exists (S n). split; [unfold maxRetries in Hn; lia|].
  induction (S n) as [|k IH]; [done|]. cbn [replicate]. rewrite filter_cons_True by done. by rewrite IH.
Qed.

(** The part of [CreateLoadBalancer] after a lookup that found nothing. *)
Lemma create_and_poll c opts t r :
  exec (_ ←? wrap_err (fun err => Errorf "creating load balancer %q: %w"
        [AS (CreateLoadBalancerOpts_Name opts); AE err])
      (retryWithBackoff "CreateLoadBalancer"
        (api_post (regionPath c "/loadbalancing/loadbalancer" []) (BLoadBalancer opts) TAny));
      poll_lb c (CreateLoadBalancerOpts_Name opts) 0 maxLookupAttempts) t r ->
  (exists n, (n <= 6)%nat /\ filter (fun rq => req_method rq <> GET) (requests t)
                            = replicate n (lb_create c opts))
  /\ slept t <= 792 * Second
  /\ (forall lb, r = Ok lb -> LoadBalancer_Name lb = CreateLoadBalancerOpts_Name opts).
Proof.
  intros H.
  apply exec_try in H as [(e & (r0 & H & E)%exec_wrap & ->)|(t3 & u & t4 & -> & Hpost & H)].
  - apply (retry_sound _ (lb_create c opts)) in H.
    split_and!; [by eapply retried_others | apply retried_slept in H; unfold Second in *; lia | done].
  - apply exec_wrap in Hpost as (r0 & Hpost & _).
    apply (retry_sound _ (lb_create c opts)) in Hpost.
    pose proof (poll_lb_spec _ _ _ _ _ _ H) as [Hs Hn].
    apply only_exec with (P := at_most_get) in H; [|auto with prog].
    apply at_most_get_requests in H. rewrite requests_app, filter_app, H, app_nil_r, slept_app.
    split_and!; [by eapply retried_others | | done].
    apply retried_slept in Hpost. unfold maxLookupAttempts, Second in *. cbn in Hs. lia.
Qed.

(** C21: [CreateLoadBalancer] asks for at most one load balancer: none when one
    of the name is listed, otherwise the same creation, retried at most five
    times; what it returns has the name asked for; and it gives up after at most
    854 seconds of sleep (three retried calls and ten polls), so it always
    returns. *)
Theorem CreateLoadBalancer_spec c opts t r :
  exec (CreateLoadBalancer c opts) t r ->
  (exists n, (n <= 6)%nat /\ filter (fun rq => req_method rq <> GET) (requests t)
                            = replicate n (lb_create c opts))
  /\ (forall lb, r = Ok lb -> LoadBalancer_Name lb = CreateLoadBalancerOpts_Name opts)
  /\ slept t <= 854 * Second
  /\ (forall lbs lb t', t = Obs (EApi (lb_list c)) (Ok lbs) :: t' ->
        first_match (fun l => bool_decide (LoadBalancer_Name l = CreateLoadBalancerOpts_Name opts)) lbs
          = Some lb ->
        t' = [] /\ r = Ok lb).
Proof.
  unfold CreateLoadBalancer. intros H.
  apply exec_bind in H as (t1 & existing & t2 & -> & Hfind & H).
  assert (Hg1 : filter (fun rq => req_method rq <> GET) (requests t1) = []).
  { apply at_most_get_requests. revert Hfind. apply only_exec. auto with prog. }
  pose proof (findLoadBalancerByName_slept _ _ _ _ Hfind) as Hs1.
  rewrite requests_app, filter_app, Hg1, slept_app.
  assert (Hfirst : forall lbs lb t', t1 ++ t2 = Obs (EApi (lb_list c)) (Ok lbs) :: t' ->
    first_match (fun l => bool_decide (LoadBalancer_Name l = CreateLoadBalancerOpts_Name opts)) lbs
      = Some lb -> existing = Ok (Some lb) /\ t' = t2).
  { intros lbs lb t' Ht Hlb. apply findLoadBalancerByName_runs in Hfind as (r0 & Hr & ->).
    destruct t1 as [|o t1]; [destruct Hr as ([|] & ? & ? & _); done|].
    cbn in Ht. injection Ht as -> <-. apply retried_first in Hr as [-> ->]; [|done].
    cbn. by rewrite Hlb. }
  destruct existing as [[lb|]|e].
  - exec_inv H. cbn [requests omap]. split_and!.
    + exists 0%nat. split; [lia | done].
    + intros lb' [= ->]. by eapply findLoadBalancerByName_name.
    + change (slept []) with 0. unfold Second in *. lia.
    + intros lbs lb' t' Ht Hlb. destruct (Hfirst _ _ _ Ht Hlb) as [[= ->] ->]. done.
  - apply create_and_poll in H as (Hn & Hs & Hname). split_and!; [done | done | unfold Second in *; lia |].
    intros lbs lb' t' Ht Hlb. by destruct (Hfirst _ _ _ Ht Hlb).
  - apply create_and_poll in H as (Hn & Hs & Hname). split_and!; [done | done | unfold Second in *; lia |].
    intros lbs lb' t' Ht Hlb. by destruct (Hfirst _ _ _ Ht Hlb).
Qed.

End facts.
