(* ===== verification/NodeInit.v ===== *)
(** * Workload nodes: util/node_init.go

    [InitializeWorkloadNode] is best effort: it returns nothing, and what it did
    is the trace of its calls of the workload cluster. *)

From S2P Require Import Prelude GoStrings Errors OvhTypes ApiTypes Effects.

Definition uninitializedTaintKey : string := "node.cloudprovider.kubernetes.io/uninitialized".

Definition hasUninitializedTaint (node : Node) : bool :=
  existsb (fun t => bool_decide (Taint_Key t = uninitializedTaintKey)) (Node_Taints node).

Definition removeTaint (taints : list Taint) : list Taint :=
  filter (fun t => Taint_Key t <> uninitializedTaintKey) taints.

(** The removal of the taint, from the second [Get] on. *)
Definition remove_uninitialized (workloadConfig nodeName : string) : prog unit :=
  node ← call (EGetNode workloadConfig nodeName);
  match node with
  | Err _ => mret tt
  | Ok node =>
    let newTaints := removeTaint (Node_Taints node) in
    if decide (length newTaints <> length (Node_Taints node)) then
      _ ← call (EPatchNode workloadConfig nodeName (PatchTaints newTaints)); mret tt
    else mret tt
  end.

Definition InitializeWorkloadNode (workloadConfig nodeName providerID : string) : prog unit :=
  if decide (providerID = "") then mret tt
  else
    clientset ← call (ENewForConfig workloadConfig);
    match clientset with
    | Err _ => mret tt
    | Ok _ =>
      node ← call (EGetNode workloadConfig nodeName);
      match node with
      | Err _ => mret tt
      | Ok node =>
        let needsProviderID := bool_decide (Node_ProviderID node = "") in
        let needsTaintRemoval := hasUninitializedTaint node in
        if negb needsProviderID && negb needsTaintRemoval then mret tt
        else
          patched ← (if needsProviderID
                     then call (EPatchNode workloadConfig nodeName (PatchProviderID providerID))
                     else mret (Ok tt) : prog (res unit));
          match patched with
          | Err _ => mret tt
          | Ok _ =>
            if needsTaintRemoval then remove_uninitialized workloadConfig nodeName else mret tt
          end
      end
    end.
