(* ===== verification/Etcd.v ===== *)
(** * Etcd membership: util/etcd.go

    No code of the repository calls [RemoveEtcdMember]. [encoding/json] is the
    class [MemberJSON]: the theorems hold for every decoder of the answer of
    [etcdctl]. *)

From S2P Require Import Prelude GoStrings Errors OvhTypes ApiTypes Effects.

Definition etcdNamespace : string := "kube-system".
Definition etcdCACert : string := "/var/lib/rancher/rke2/server/tls/etcd/server-ca.crt".
Definition etcdClientCert : string := "/var/lib/rancher/rke2/server/tls/etcd/server-client.crt".
Definition etcdClientKey : string := "/var/lib/rancher/rke2/server/tls/etcd/server-client.key".
Definition etcdctlPath : string := "/usr/local/bin/etcdctl".
Definition etcdEndpoint : string := "https://127.0.0.1:2379".
Definition etcdContainerName : string := "etcd".

(** [ID] is a [uint64]. *)
Record EtcdMember := mkEtcdMember {
  EtcdMember_ID : N;
  EtcdMember_Name : string;
  EtcdMember_PeerURLs : list string;
  EtcdMember_ClientURLs : list string;
}.

Record EtcdMemberListResponse := mkEtcdMemberListResponse {
  EtcdMemberListResponse_Members : list EtcdMember;
}.

Class MemberJSON := unmarshal_members : string -> res EtcdMemberListResponse.

Definition PodRunning : string := "Running".
Definition PodReady : string := "Ready".
Definition ConditionTrue : string := "True".

Definition isPodReady (pod : Pod) : bool :=
  if decide (Pod_Phase pod <> PodRunning) then false
  else existsb (fun cond => bool_decide (PodCondition_Type cond = PodReady
                                         /\ PodCondition_Status cond = ConditionTrue))
         (Pod_Conditions pod).

Section etcd.
Context `{U : Unicode} `{J : MemberJSON}.

(** The pods to choose from: by label, and failing that by name. *)
Definition etcd_pods (config : string) : prog (res (list Pod)) :=
  pods ← call (EListPods config etcdNamespace "component=etcd,tier=control-plane");
  match pods with
  | Ok (pod :: items) => mret (Ok (pod :: items))
  | _ =>
    allPods ←? wrap_err (fun err2 => Errorf "failed to list pods in %s: %w" [AS etcdNamespace; AE err2])
      (call (EListPods config etcdNamespace ""));
    mret (Ok (filter (fun p => HasPrefix (Pod_Name p) "etcd-") allPods))
  end.

Definition findHealthyEtcdPod (config deletedNodeName : string) : prog (res Pod) :=
  pods ←? etcd_pods config;
  match first_match (fun pod => negb (bool_decide (Pod_NodeName pod = deletedNodeName))
                                && isPodReady pod) pods with
  | Some pod => mret (Ok pod)
  | None =>
    mret (Err (Errorf "no healthy etcd pod found (excluding node %s)" [AS deletedNodeName]))
  end.

Definition execInPod (config namespace podName containerName : string) (cmd : list string)
    : prog ((string * string) * option error) :=
  exec ← call (ENewExecutor config namespace podName containerName cmd);
  match exec with
  | Err err =>
    mret (("", ""), Some (Errorf "failed to create SPDY executor: %w" [AE err]))
  | Ok _ => call (EExec config namespace podName containerName cmd)
  end.

(** The arguments every call of [etcdctl] starts with. *)
Definition etcdctl (args : list string) : list string :=
  [etcdctlPath; "--cacert"; etcdCACert; "--cert"; etcdClientCert; "--key"; etcdClientKey;
   "--endpoints"; etcdEndpoint] ++ args.

Definition listEtcdMembers (config : string) (pod : Pod) : prog (res (list EtcdMember)) :=
  out ← execInPod config (Pod_Namespace pod) (Pod_Name pod) etcdContainerName
          (etcdctl ["member"; "list"; "-w"; "json"]);
  let '((stdout, stderr), err) := out in
  match err with
  | Some err =>
    mret (Err (Errorf "etcdctl member list failed: %w (stderr: %s)" [AE err; AS stderr]))
  | None =>
    match unmarshal_members stdout with
    | Err err =>
      mret (Err (Errorf "failed to parse etcdctl member list output: %w (raw: %s)"
                   [AE err; AS stdout]))
    | Ok resp => mret (Ok (EtcdMemberListResponse_Members resp))
    end
  end.

Definition removeEtcdMemberByID (config : string) (pod : Pod) (memberID : N) : prog (res unit) :=
  let hexID := FormatHex memberID in
  out ← execInPod config (Pod_Namespace pod) (Pod_Name pod) etcdContainerName
          (etcdctl ["member"; "remove"; hexID]);
  let '((_, stderr), err) := out in
  match err with
  | Some err =>
    mret (Err (Errorf "etcdctl member remove %s failed: %w (stderr: %s)"
                 [AS hexID; AE err; AS stderr]))
  | None => mret (Ok tt)
  end.

(** The member of the deleted node: the test of the loop. *)
Definition member_of_node (deletedNodeName : string) (m : EtcdMember) : bool :=
  HasPrefix (EtcdMember_Name m) (deletedNodeName ++ "-")%string
  || bool_decide (EtcdMember_Name m = deletedNodeName).

Definition RemoveEtcdMember (workloadConfig deletedNodeName : string) : prog unit :=
  clientset ← call (ENewForConfig workloadConfig);
  match clientset with
  | Err _ => mret tt
  | Ok _ =>
    pod ← findHealthyEtcdPod workloadConfig deletedNodeName;
    match pod with
    | Err _ => mret tt
    | Ok pod =>
      members ← listEtcdMembers workloadConfig pod;
      match members with
      | Err _ => mret tt
      | Ok members =>
        match first_match (member_of_node deletedNodeName) members with
        | None => mret tt
        | Some targetMember =>
          _ ← removeEtcdMemberByID workloadConfig pod (EtcdMember_ID targetMember); mret tt
        end
      end
    end
  end.

End etcd.
