(* ===== verification/ClusterController.v ===== *)
(** * The OVHCluster controller: internal/controller/ovhcluster_controller.go

    The reconciler mutates one [OVHCluster] through [scope.OVHCluster]: each of
    its methods is a program in [M OVHCluster]. The other fields of the
    [ClusterScope] are read only. Logs and duration histograms are left out. *)

From S2P Require Import Prelude GoStrings Errors OvhTypes ApiTypes Effects Client Names.

Local Open Scope Z_scope.

Definition requeueTimeShort : Z := 30 * Second.
Definition requeueTimeMedium : Z := 60 * Second.
Definition requeueTimeLong : Z := 3 * 60 * Second.

Definition apiServerListenerName : string := "api-server".
Definition apiServerLBPort : Z := 6443.
Definition apiServerBackendPort : Z := 6443.
Definition apiServerProtocol : string := "tcp".
Definition lbAlgorithm : string := "roundRobin".
Definition rke2RegisterListenerName : string := "rke2-register".
Definition rke2RegisterLBPort : Z := 9345.
Definition rke2RegisterBackendPort : Z := 9345.
Definition hmType : string := "tcp".
Definition hmDelay : Z := 5.
Definition hmTimeout : Z := 3.
Definition hmMaxRetries : Z := 2.

(** [reconcile.Result], and what a handler returns. *)
Record Result := mkResult { RequeueAfter : Z }.

#[export] Instance Result_eq_dec : EqDecision Result.
Proof. solve_decision. Defined.

Definition outcome : Type := Result * option error.

(** [return ctrl.Result{}, nil], [return ctrl.Result{RequeueAfter: d}, nil], and
    the same with an error. *)
Definition done_ : outcome := (mkResult 0, None).
Definition requeue (d : Z) : outcome := (mkResult d, None).
Definition failed (e : error) : outcome := (mkResult 0, Some e).
Definition failed_requeue (d : Z) (e : error) : outcome := (mkResult d, Some e).

(** The fields of a [ClusterScope] no method assigns. *)
Record ClusterScope := mkClusterScope {
  CScope_Cluster : Cluster;
  CScope_OVHClient : Client;
}.

(** A [*string] into the object: [*p] and [*p = v]. *)
Record ptr (S : Type) := mkPtr { load : S -> string; store : string -> S -> S }.
Arguments mkPtr {S}.
Arguments load {S}.
Arguments store {S}.

Definition ListenerIDPtr : ptr OVHCluster :=
  mkPtr (fun o => CStatus_ListenerID (OVHCluster_Status o)) set_c_ListenerID.
Definition PoolIDPtr : ptr OVHCluster :=
  mkPtr (fun o => CStatus_PoolID (OVHCluster_Status o)) set_c_PoolID.
Definition RegisterListenerIDPtr : ptr OVHCluster :=
  mkPtr (fun o => CStatus_RegisterListenerID (OVHCluster_Status o)) set_c_RegisterListenerID.
Definition RegisterPoolIDPtr : ptr OVHCluster :=
  mkPtr (fun o => CStatus_RegisterPoolID (OVHCluster_Status o)) set_c_RegisterPoolID.

(** ** subnetRange *)

(** The index of the first, and of the last, byte [b] of [s]. *)
Fixpoint index_byte (b : ascii) (s : string) : option nat :=
  match s with
  | EmptyString => None
  | String c s' => if (c =? b)%char then Some O else S <$> index_byte b s'
  end.

Fixpoint last_index_byte (b : ascii) (s : string) : option nat :=
  match s with
  | EmptyString => None
  | String c s' =>
    match last_index_byte b s' with
    | Some i => Some (S i)
    | None => if (c =? b)%char then Some O else None
    end
  end.

Definition subnetRange (cidr : string) : string * string :=
  match index_byte "/" cidr with
  | None => ("", "")
  | Some idx =>
    if negb (str_drop idx cidr =? "/24")%string then ("", "")
    else
      let prefix := str_take idx cidr in
      match last_index_byte "." prefix with
      | None => ("", "")
      | Some last =>
        let base := str_take (S last) prefix in
        ((base ++ "2")%string, (base ++ "254")%string)
      end
  end.

Definition errNetworkNotReady_text : string := "network not yet ACTIVE in region".
Definition errNetworkNotReady : error := ESentinel errNetworkNotReady_text.

Section controller.
Context `{U : Unicode} `{C : CAPI}.

(** The fields of the object a method reads, at the time it reads them. *)
Definition cspec : M OVHCluster OVHClusterSpec := gets OVHCluster_Spec.
Definition cstatus : M OVHCluster OVHClusterStatus := gets OVHCluster_Status.

Definition mark_true (ty : string) : M OVHCluster unit :=
  modify (fun o => set_c_Conditions (MarkTrue ty (CStatus_Conditions (OVHCluster_Status o))) o).

Definition mark_false (ty reason severity message : string) : M OVHCluster unit :=
  modify (fun o => set_c_Conditions
    (MarkFalse ty reason severity message (CStatus_Conditions (OVHCluster_Status o))) o).

(** ** Credentials *)

Definition reconcileCredentials (scope : ClusterScope) : M OVHCluster (res unit) :=
  err ← lift (ValidateCredentials (CScope_OVHClient scope));
  match err with
  | Err err =>
    mark_false OVHConnectionReadyCondition OVHAuthenticationFailedReason ConditionSeverityError
      (Sprintf "Failed to validate OVH credentials: %s" [AS (error_text err)]) ;;
    mret (Err (Errorf "validating OVH credentials: %w" [AE err]))
  | Ok _ => mark_true OVHConnectionReadyCondition ;; mret (Ok tt)
  end.

(** ** Failure domains and security groups *)

Definition cp_domain : FailureDomainSpec := mkFailureDomainSpec true.

(** The map [fds] built from the spec, or from the services of the region. *)
Definition failure_domains (spec : OVHClusterSpec) (info : RegionInfo)
    : gmap string FailureDomainSpec :=
  if decide (0 < length (CSpec_FailureDomains spec))%nat then
    foldl (fun fds fd => <[fd := cp_domain]> fds) ∅ (CSpec_FailureDomains spec)
  else
    foldl (fun fds svc =>
             if bool_decide (RegionService_Name svc = "instance" /\ RegionService_Status svc = "UP")
             then <[CSpec_Region spec := cp_domain]> fds else fds)
      ∅ (RegionInfo_Services info).

Definition reconcileFailureDomains (scope : ClusterScope) : M OVHCluster unit :=
  st ← cstatus;
  if decide (0 < size (CStatus_FailureDomains st))%nat then mret tt
  else
    info ← lift (GetRegionInfo (CScope_OVHClient scope));
    match info with
    | Err _ => mret tt
    | Ok info =>
      spec ← cspec;
      let fds := failure_domains spec info in
      when (bool_decide (0 < size fds)%nat) (modify (set_c_FailureDomains fds))
    end.

Definition set_sg_id (name id : string) : M OVHCluster unit :=
  modify (fun o => set_c_SecurityGroupIDs
    (<[name := id]> (CStatus_SecurityGroupIDs (OVHCluster_Status o))) o).

Definition sg_rule_opts (rule : OVHSecurityRule) : CreateSecurityGroupRuleOpts :=
  mkCreateSecurityGroupRuleOpts (OVHSecurityRule_Direction rule) (OVHSecurityRule_Protocol rule)
    (OVHSecurityRule_PortRangeMin rule) (OVHSecurityRule_PortRangeMax rule)
    (OVHSecurityRule_RemoteIPPrefix rule) (OVHSecurityRule_EtherType rule).

(** [existingByName]: a later group of the same name replaces an earlier one. *)
Definition sgs_by_name (existing : list SecurityGroup) : gmap string string :=
  foldl (fun m sg => <[SecurityGroup_Name sg := SecurityGroup_ID sg]> m) ∅ existing.

(** The body of the loop over [Spec.SecurityGroups]. *)
Definition reconcile_group (scope : ClusterScope) (existingByName : gmap string string)
    (sgSpec : OVHSecurityGroup) : M OVHCluster (res unit) :=
  let clusterName := Meta_Name (Cluster_ObjectMeta (CScope_Cluster scope)) in
  let sgName := ("capi-" ++ clusterName ++ "-" ++ OVHSecurityGroup_Name sgSpec)%string in
  st ← cstatus;
  if bool_decide (default "" (CStatus_SecurityGroupIDs st !! OVHSecurityGroup_Name sgSpec) <> "")
  then mret (Ok tt)
  else
    match existingByName !! sgName with
    | Some id => set_sg_id (OVHSecurityGroup_Name sgSpec) id ;; mret (Ok tt)
    | None =>
      sg ←? wrap_err (fun cerr => Errorf "creating security group %q: %w" [AS sgName; AE cerr])
        (lift (CreateSecurityGroup (CScope_OVHClient scope)
          (mkCreateSecurityGroupOpts sgName ("CAPIOVH managed for cluster " ++ clusterName))));
      set_sg_id (OVHSecurityGroup_Name sgSpec) (SecurityGroup_ID sg) ;;
      for_each (fun rule =>
          _ ← lift (CreateSecurityGroupRule (CScope_OVHClient scope) (SecurityGroup_ID sg)
                      (sg_rule_opts rule));
          mret tt)
        (OVHSecurityGroup_Rules sgSpec) ;;
      mret (Ok tt)
    end.

Definition reconcileSecurityGroups (scope : ClusterScope) : M OVHCluster (res unit) :=
  spec ← cspec;
  if decide (length (CSpec_SecurityGroups spec) = 0%nat) then mret (Ok tt)
  else
    existing ←? wrap_err (fun err => Errorf "listing security groups: %w" [AE err])
      (lift (ListSecurityGroups (CScope_OVHClient scope)));
    for_try (reconcile_group scope (sgs_by_name existing)) (CSpec_SecurityGroups spec).

(** ** DNS *)

Definition reconcileDNS (scope : ClusterScope) : M OVHCluster (res unit) :=
  spec ← cspec;
  st ← cstatus;
  match CSpec_DNSConfig spec with
  | None => mret (Ok tt)
  | Some dns =>
    if decide (CStatus_DNSRecordID st <> 0) then mret (Ok tt)
    else
      let host := APIEndpoint_Host (CSpec_ControlPlaneEndpoint spec) in
      if decide (host = "") then mret (Ok tt)
      else
        let recordName :=
          if decide (OVHDNSConfig_RecordName dns = "")
          then Meta_Name (Cluster_ObjectMeta (CScope_Cluster scope))
          else OVHDNSConfig_RecordName dns in
        let ttl := if decide (OVHDNSConfig_TTL dns = 0) then 300 else OVHDNSConfig_TTL dns in
        record ←? wrap_err (fun err => Errorf "creating DNS record: %w" [AE err])
          (lift (CreateDNSRecord (CScope_OVHClient scope) (OVHDNSConfig_ZoneName dns)
            (mkCreateDNSRecordOpts "A" recordName host ttl)));
        modify (set_c_DNSRecordID (DNSRecord_ID record)) ;;
        _ ← lift (RefreshDNSZone (CScope_OVHClient scope) (OVHDNSConfig_ZoneName dns));
        mret (Ok tt)
  end.

(** ** Network *)

(** 1. Ensure the network exists (use existing or create new). *)
Definition ensure_network (scope : ClusterScope) (netConfig : OVHNetworkConfig) (region : string)
    : M OVHCluster (res unit) :=
  st ← cstatus;
  if decide (CStatus_NetworkID st = "") then
    if decide (NetConfig_PrivateNetworkID netConfig <> "") then
      modify (set_c_NetworkID (NetConfig_PrivateNetworkID netConfig)) ;; mret (Ok tt)
    else
      let networkName := GenerateRFC1035Name
        ["capi"; Meta_Name (Cluster_ObjectMeta (CScope_Cluster scope)); "net"] in
      network ← lift (CreatePrivateNetwork (CScope_OVHClient scope)
        (mkCreateNetworkOpts networkName (NetConfig_VlanID netConfig) [region]));
      match network with
      | Err err =>
        mark_false NetworkReadyCondition NetworkCreationFailedReason ConditionSeverityError
          (Sprintf "Failed to create network: %s" [AS (error_text err)]) ;;
        mret (Err (Errorf "creating private network: %w" [AE err]))
      | Ok network =>
        modify (set_c_NetworkID (PrivateNetwork_ID network)) ;;
        mark_true NetworkCreatedByControllerCondition ;;
        mret (Ok tt)
      end
  else mret (Ok tt).

(** The loop that reads the status of the network in the region. *)
Definition region_status (net : PrivateNetwork) (region : string) : string :=
  match first_match (fun r => bool_decide (NetworkRegion_Region r = region))
                    (PrivateNetwork_Regions net) with
  | Some r => NetworkRegion_Status r
  | None => ""
  end.

(** 2. Verify network is ACTIVE in the target region. *)
Definition verify_network (scope : ClusterScope) (region : string) : M OVHCluster (res unit) :=
  st ← cstatus;
  net ← lift (GetPrivateNetwork (CScope_OVHClient scope) (CStatus_NetworkID st));
  match net with
  | Err err =>
    if IsNotFound (Some err) then
      modify (set_c_NetworkID "") ;;
      modify (set_c_SubnetID "") ;;
      st ← cstatus;
      mret (Err (Errorf "network %s vanished, will recreate" [AS (CStatus_NetworkID st)]))
    else mret (Err (Errorf "getting network %s: %w" [AS (CStatus_NetworkID st); AE err]))
  | Ok net =>
    let regionStatus := region_status net region in
    if decide (regionStatus <> "ACTIVE") then
      mark_false NetworkReadyCondition NetworkCreationFailedReason ConditionSeverityInfo
        (Sprintf "Network %s status in %s is %q, waiting for ACTIVE"
          [AS (PrivateNetwork_ID net); AS region; AS regionStatus]) ;;
      mret (Err errNetworkNotReady)
    else mret (Ok tt)
  end.

(** 3. Ensure a subnet exists. *)
Definition ensure_subnet (scope : ClusterScope) (netConfig : OVHNetworkConfig) (region : string)
    : M OVHCluster (res unit) :=
  st ← cstatus;
  if decide (CStatus_SubnetID st = "") then
    subnets ←? wrap_err (fun err => Errorf "listing subnets: %w" [AE err])
      (lift (ListSubnets (CScope_OVHClient scope) (CStatus_NetworkID st)));
    match subnets with
    | s :: _ => modify (set_c_SubnetID (Subnet_ID s)) ;; mret (Ok tt)
    | [] =>
      if decide (NetConfig_SubnetCIDR netConfig <> "") then
        let '(start, end_) := subnetRange (NetConfig_SubnetCIDR netConfig) in
        subnet ←? wrap_err (fun err => Errorf "creating subnet: %w" [AE err])
          (lift (CreateSubnet (CScope_OVHClient scope) (CStatus_NetworkID st)
            (mkCreateSubnetOpts (NetConfig_SubnetCIDR netConfig) start end_ region true false)));
        modify (set_c_SubnetID (Subnet_ID subnet)) ;; mret (Ok tt)
      else mret (Ok tt)
    end
  else mret (Ok tt).

Definition reconcileNetwork (scope : ClusterScope) : M OVHCluster (res unit) :=
  spec ← cspec;
  match CSpec_NetworkConfig spec with
  | None => mark_true NetworkReadyCondition ;; mret (Ok tt)
  | Some netConfig =>
    let region := CSpec_Region spec in
    _ ←? ensure_network scope netConfig region;
    _ ←? verify_network scope region;
    _ ←? ensure_subnet scope netConfig region;
    mark_true NetworkReadyCondition ;;
    mret (Ok tt)
  end.

(** ** Load balancer: gateway and floating IP *)

Definition gateway_name (scope : ClusterScope) : string :=
  ("capi-" ++ Meta_Name (Cluster_ObjectMeta (CScope_Cluster scope)) ++ "-gw")%string.

(** Discover the gateway if we haven't recorded it yet. *)
Definition discover_gateway (scope : ClusterScope) : M OVHCluster (res unit) :=
  st ← cstatus;
  if decide (CStatus_GatewayID st = "") then
    gws ←? wrap_err (fun err => Errorf "listing gateways: %w" [AE err])
      (lift (ListGateways (CScope_OVHClient scope)));
    match first_match (fun g => bool_decide (Gateway_Name g = gateway_name scope)) gws with
    | Some g => modify (set_c_GatewayID (Gateway_ID g))
    | None => mret tt
    end ;;
    st ← cstatus;
    if decide (CStatus_GatewayID st = "") then
      mret (Err (Errorf "no gateway named %s found in region" [AS (gateway_name scope)]))
    else mret (Ok tt)
  else mret (Ok tt).

Definition ensureGatewayExposed (scope : ClusterScope) : M OVHCluster (res unit) :=
  st ← cstatus;
  if CStatus_GatewayExposed st then mret (Ok tt)
  else
    _ ←? discover_gateway scope;
    st ← cstatus;
    _ ←? wrap_err (fun err => Errorf "exposing gateway: %w" [AE err])
      (lift (ExposeGateway (CScope_OVHClient scope) (CStatus_GatewayID st)));
    modify (set_c_GatewayExposed true) ;;
    mret (Ok tt).

(** [if err := r.ensureGatewayExposed(scope); err != nil { log }]. *)
Definition try_expose (scope : ClusterScope) : M OVHCluster unit :=
  _ ← ensureGatewayExposed scope; mret tt.

(** [fips[i].AssociatedEntity != nil && fips[i].AssociatedEntity.ID == lbID]. *)
Definition fip_of_lb (lbID : string) (fip : FloatingIP) : bool :=
  match FloatingIP_AssociatedEntity fip with
  | Some a => bool_decide (FloatingIPAssociation_ID a = lbID)
  | None => false
  end.

(** The lookup through the list of floating IPs: [None] when the caller goes
    on, [Some ip] when it returns [ip]. *)
Definition discover_fip (scope : ClusterScope) (lb : LoadBalancer)
    : M OVHCluster (option string) :=
  fips ← lift (ListFloatingIPs (CScope_OVHClient scope));
  match fips with
  | Err _ => mret None
  | Ok fips =>
    match first_match (fip_of_lb (LoadBalancer_ID lb)) fips with
    | None => mret None
    | Some fip =>
      modify (set_c_FloatingIPID (FloatingIP_ID fip)) ;;
      if decide (FloatingIP_IP fip <> "") then
        try_expose scope ;; mret (Some (FloatingIP_IP fip))
      else mret (Some "")
    end
  end.

(** The lookup after the allocation. *)
Definition find_allocated_fip (scope : ClusterScope) (lb : LoadBalancer)
    : M OVHCluster string :=
  refreshedLB ← lift (GetLoadBalancer (CScope_OVHClient scope) (LoadBalancer_ID lb));
  match refreshedLB with
  | Ok (mkLoadBalancer _ _ _ _ _ _ _ _ _ _ _ (Some fip) _) =>
    if decide (FloatingIPRef_ID fip <> "") then
      modify (set_c_FloatingIPID (FloatingIPRef_ID fip)) ;; mret (Some (FloatingIPRef_IP fip))
    else mret None
  | _ => mret None
  end ≫= fun found : option string =>
  match found with
  | Some ip => mret ip
  | None =>
    fips ← lift (ListFloatingIPs (CScope_OVHClient scope));
    match fips with
    | Err _ => mret ""
    | Ok fips =>
      match first_match (fip_of_lb (LoadBalancer_ID lb)) fips with
      | None => mret ""
      | Some fip => modify (set_c_FloatingIPID (FloatingIP_ID fip)) ;; mret (FloatingIP_IP fip)
      end
    end
  end.

(** From "No (or stale) FloatingIPID" on. *)
Definition allocate_fip (scope : ClusterScope) (lb : LoadBalancer)
    : M OVHCluster (res string) :=
  found ← discover_fip scope lb;
  match found with
  | Some ip => mret (Ok ip)
  | None =>
    if decide (LoadBalancer_VIPAddress lb = "") then mret (Ok "")
    else
      _ ←? wrap_err (fun err => Errorf "allocating floating IP for LB: %w" [AE err])
        (lift (CreateLoadBalancerFloatingIP (CScope_OVHClient scope) (LoadBalancer_ID lb)
          (LoadBalancer_VIPAddress lb) (gateway_name scope)));
      try_expose scope ;;
      ip ← find_allocated_fip scope lb;
      mret (Ok ip)
  end.

(** [gerr == nil && fip != nil && fip.IP != ""]: the address, if so. *)
Definition allocated_ip (fip : res FloatingIP) : option string :=
  match fip with
  | Ok f => if decide (FloatingIP_IP f <> "") then Some (FloatingIP_IP f) else None
  | Err _ => None
  end.

Definition reconcileFloatingIP (scope : ClusterScope) (lb : LoadBalancer)
    : M OVHCluster (res string) :=
  match LoadBalancer_FloatingIP lb with
  | Some fip =>
    if decide (FloatingIPRef_IP fip <> "") then
      modify (set_c_FloatingIPID (FloatingIPRef_ID fip)) ;;
      try_expose scope ;;
      mret (Some (FloatingIPRef_IP fip))
    else mret None
  | None => mret None
  end ≫= fun attached : option string =>
  match attached with
  | Some ip => mret (Ok ip)
  | None =>
    st ← cstatus;
    if decide (CStatus_FloatingIPID st <> "") then
      try_expose scope ;;
      fip ← lift (GetFloatingIP (CScope_OVHClient scope) (CStatus_FloatingIPID st));
      match allocated_ip fip with
      | Some ip => mret (Ok ip)
      | None =>
        if IsNotFound (err_of fip) then
          modify (set_c_FloatingIPID "") ;;
          allocate_fip scope lb
        else mret (Ok "")
      end
    else allocate_fip scope lb
  end.

(** ** Load balancer: listeners, pools and health monitors *)

Definition ensurePoolHealthMonitor (scope : ClusterScope) (poolID poolName : string)
    : M OVHCluster (res unit) :=
  let hmName := (poolName ++ "-hm")%string in
  existing ←? wrap_err (fun err => Errorf "looking up health monitor %q: %w" [AS hmName; AE err])
    (lift (FindHealthMonitorByName (CScope_OVHClient scope) hmName));
  match existing with
  | Some _ => mret (Ok tt)
  | None =>
    _ ←? wrap_err (fun err => Errorf "creating health monitor %q: %w" [AS hmName; AE err])
      (lift (CreateHealthMonitor (CScope_OVHClient scope)
        (mkCreateHealthMonitorOpts hmName hmType hmDelay hmTimeout hmMaxRetries poolID)));
    mret (Ok tt)
  end.

(** The listener half of [reconcileLBPort]. *)
Definition ensure_listener (scope : ClusterScope) (listenerName : string) (port : Z)
    (lbID : string) (listenerIDPtr : ptr OVHCluster) : M OVHCluster (res unit) :=
  listenerID ← gets (load listenerIDPtr);
  if decide (listenerID = "") then
    existing ←? wrap_err (fun err => Errorf "looking up %s listener: %w" [AS listenerName; AE err])
      (lift (FindListenerByName (CScope_OVHClient scope) lbID listenerName));
    match existing with
    | Some l => modify (store listenerIDPtr (Listener_ID l)) ;; mret (Ok tt)
    | None =>
      listener ←? wrap_err (fun err => Errorf "creating %s listener: %w" [AS listenerName; AE err])
        (lift (CreateListener (CScope_OVHClient scope)
          (mkCreateListenerOpts listenerName apiServerProtocol port lbID "")));
      modify (store listenerIDPtr (Listener_ID listener)) ;;
      mret (Ok tt)
    end
  else mret (Ok tt).

(** The pool half of [reconcileLBPort]. *)
Definition ensure_pool (scope : ClusterScope) (poolName : string) (lbID : string)
    (listenerIDPtr poolIDPtr : ptr OVHCluster) : M OVHCluster (res unit) :=
  poolID ← gets (load poolIDPtr);
  if decide (poolID = "") then
    existing ←? wrap_err (fun err => Errorf "looking up %s pool: %w" [AS poolName; AE err])
      (lift (FindPoolByName (CScope_OVHClient scope) lbID poolName));
    match existing with
    | Some p => modify (store poolIDPtr (Pool_ID p)) ;; mret (Ok tt)
    | None =>
      listenerID ← gets (load listenerIDPtr);
      pool ←? wrap_err (fun err => Errorf "creating %s pool: %w" [AS poolName; AE err])
        (lift (CreatePool (CScope_OVHClient scope)
          (mkCreatePoolOpts poolName apiServerProtocol lbAlgorithm listenerID lbID)));
      modify (store poolIDPtr (Pool_ID pool)) ;;
      mret (Ok tt)
    end
  else mret (Ok tt).

Definition reconcileLBPort (scope : ClusterScope) (listenerName : string) (port : Z)
    (listenerIDPtr poolIDPtr : ptr OVHCluster) : M OVHCluster (res unit) :=
  st ← cstatus;
  let lbID := CStatus_LoadBalancerID st in
  _ ←? ensure_listener scope listenerName port lbID listenerIDPtr;
  let poolName := (listenerName ++ "-pool")%string in
  _ ←? ensure_pool scope poolName lbID listenerIDPtr poolIDPtr;
  poolID ← gets (load poolIDPtr);
  _ ← ensurePoolHealthMonitor scope poolID poolName;
  mret (Ok tt).

(** ** Load balancer: the handlers *)

(** "Set control plane endpoint" and what follows it. *)
Definition publish_endpoint (endpointHost : string) : M OVHCluster outcome :=
  spec ← cspec;
  when (bool_decide (endpointHost <> ""
          /\ APIEndpoint_Host (CSpec_ControlPlaneEndpoint spec) = ""))
    (modify (set_c_ControlPlaneEndpoint (mkAPIEndpoint endpointHost apiServerLBPort))) ;;
  mark_true LoadBalancerReadyCondition ;;
  mret done_.

Definition handleExistingLB (scope : ClusterScope) (lb : LoadBalancer) : M OVHCluster outcome :=
  if decide (LoadBalancer_ProvisioningStatus lb <> LBProvisioningStatusActive) then
    mark_false LoadBalancerReadyCondition LoadBalancerNotReadyReason ConditionSeverityInfo
      (Sprintf "Load balancer provisioning: %s" [AS (LoadBalancer_ProvisioningStatus lb)]) ;;
    mret (requeue requeueTimeShort)
  else
    api ← reconcileLBPort scope apiServerListenerName apiServerLBPort ListenerIDPtr PoolIDPtr;
    match api with
    | Err err => mret (failed err)
    | Ok _ =>
      reg ← reconcileLBPort scope rke2RegisterListenerName rke2RegisterLBPort
              RegisterListenerIDPtr RegisterPoolIDPtr;
      match reg with
      | Err err => mret (failed err)
      | Ok _ =>
        spec ← cspec;
        if decide (LBConfig_FloatingNetworkID (CSpec_LoadBalancerConfig spec) <> "") then
          fipIP ← reconcileFloatingIP scope lb;
          match fipIP with
          | Err err => mret (failed_requeue requeueTimeShort err)
          | Ok fipIP =>
            if decide (fipIP = "") then mret (requeue requeueTimeShort)
            else publish_endpoint fipIP
          end
        else publish_endpoint (LoadBalancer_VIPAddress lb)
      end
    end.

(** The part of [reconcileLoadBalancer] that creates a load balancer. *)
Definition create_lb (scope : ClusterScope) : M OVHCluster outcome :=
  spec ← cspec;
  let client := CScope_OVHClient scope in
  let lbFlavorName :=
    if decide (LBConfig_FlavorName (CSpec_LoadBalancerConfig spec) = "") then "small"
    else LBConfig_FlavorName (CSpec_LoadBalancerConfig spec) in
  lbFlavor ← lift (GetLBFlavorByName client lbFlavorName);
  match lbFlavor with
  | Err err =>
    mark_false LoadBalancerReadyCondition LoadBalancerCreationFailedReason ConditionSeverityError
      (Sprintf "LB flavor %q not found: %s" [AS lbFlavorName; AS (error_text err)]) ;;
    mret (failed (Errorf "resolving LB flavor %q: %w" [AS lbFlavorName; AE err]))
  | Ok lbFlavor =>
    let lbName := GenerateRFC1035Name
      ["capi"; Meta_Name (Cluster_ObjectMeta (CScope_Cluster scope)); "lb"] in
    st ← cstatus;
    let subnetID :=
      if decide (LBConfig_SubnetID (CSpec_LoadBalancerConfig spec) = "") then CStatus_SubnetID st
      else LBConfig_SubnetID (CSpec_LoadBalancerConfig spec) in
    if decide (subnetID = "" \/ CStatus_NetworkID st = "") then
      mret (failed_requeue requeueTimeShort
        (Errorf "LB requires both networkID and subnetID, got network=%q subnet=%q"
          [AS (CStatus_NetworkID st); AS subnetID]))
    else
      net ← lift (GetPrivateNetwork client (CStatus_NetworkID st));
      match net with
      | Err err => mret (failed (Errorf "resolving network for LB: %w" [AE err]))
      | Ok net =>
        let osNetID := OpenStackIDForRegion net (CSpec_Region spec) in
        if decide (osNetID = "") then
          mret (failed (Errorf "no OpenStack ID for network %s in region %s"
            [AS (CStatus_NetworkID st); AS (CSpec_Region spec)]))
        else
          lb ← lift (CreateLoadBalancer client
            (mkCreateLoadBalancerOpts lbName (LBFlavor_ID lbFlavor)
              (mkLBNetworkConfig (mkLBPrivateNetwork (mkLBNetworkRef osNetID subnetID)))));
          match lb with
          | Err err =>
            mark_false LoadBalancerReadyCondition LoadBalancerCreationFailedReason
              ConditionSeverityError
              (Sprintf "Failed to create load balancer: %s" [AS (error_text err)]) ;;
            mret (failed (Errorf "creating load balancer: %w" [AE err]))
          | Ok lb =>
            modify (set_c_LoadBalancerID (LoadBalancer_ID lb)) ;;
            mret (requeue requeueTimeShort)
          end
      end
  end.

(** Adopt the load balancer and the floating IP the spec names. *)
Definition adopt_existing : M OVHCluster unit :=
  spec ← cspec;
  st ← cstatus;
  let cfg := CSpec_LoadBalancerConfig spec in
  when (bool_decide (LBConfig_ExistingLoadBalancerID cfg <> "" /\ CStatus_LoadBalancerID st = ""))
    (modify (set_c_LoadBalancerID (LBConfig_ExistingLoadBalancerID cfg))) ;;
  when (bool_decide (LBConfig_ExistingFloatingIPID cfg <> "" /\ CStatus_FloatingIPID st = ""))
    (modify (set_c_FloatingIPID (LBConfig_ExistingFloatingIPID cfg))).

Definition reconcileLoadBalancer (scope : ClusterScope) : M OVHCluster outcome :=
  adopt_existing ;;
  st ← cstatus;
  if decide (CStatus_LoadBalancerID st <> "") then
    lb ← lift (GetLoadBalancer (CScope_OVHClient scope) (CStatus_LoadBalancerID st));
    match lb with
    | Err err =>
      if IsNotFound (Some err) then
        modify (set_c_LoadBalancerID "") ;;
        modify (set_c_ListenerID "") ;;
        modify (set_c_PoolID "") ;;
        create_lb scope
      else mret (failed (Errorf "getting LB %s: %w" [AS (CStatus_LoadBalancerID st); AE err]))
    | Ok lb => handleExistingLB scope lb
    end
  else create_lb scope.

(** ** ReconcileNormal *)

(** The body of [ReconcileNormal], without the deferred gauge. *)
Definition reconcile_normal_body (scope : ClusterScope) : M OVHCluster outcome :=
  o ← get;
  if negb (ContainsFinalizer (Meta_Finalizers (OVHCluster_ObjectMeta o)) ClusterFinalizer)
     && IsZero (Meta_DeletionTimestamp (OVHCluster_ObjectMeta o)) then
    modify (set_c_Finalizers
      (AddFinalizer (Meta_Finalizers (OVHCluster_ObjectMeta o)) ClusterFinalizer)) ;;
    mret done_
  else
    creds ← reconcileCredentials scope;
    match creds with
    | Err err => mret (failed_requeue requeueTimeShort err)
    | Ok _ =>
      network ← reconcileNetwork scope;
      match network with
      | Err err =>
        if error_is err errNetworkNotReady_text then mret (requeue requeueTimeShort)
        else mret (failed_requeue requeueTimeShort err)
      | Ok _ =>
        reconcileFailureDomains scope ;;
        _ ← reconcileSecurityGroups scope;
        out ← reconcileLoadBalancer scope;
        let '(result, err) := out in
        if decide (is_Some err \/ 0 < RequeueAfter result) then mret (result, err)
        else
          _ ← reconcileDNS scope;
          modify (set_c_Ready true) ;;
          mark_true InfrastructureReadyCondition ;;
          mret (requeue requeueTimeLong)
      end
    end.

Definition namespaced (m : ObjectMeta) : string :=
  (Meta_Namespace m ++ "/" ++ Meta_Name m)%string.

Definition ReconcileNormal (scope : ClusterScope) : M OVHCluster outcome :=
  out ← reconcile_normal_body scope;
  o ← get;
  lift (call (EMetric (ClusterReady (namespaced (OVHCluster_ObjectMeta o))
                         (CStatus_Ready (OVHCluster_Status o))))) ;;
  mret out.

(** ** ReconcileDelete *)

(** One round of the loop over the captured floating IPs: whether it is still
    present. *)
Definition cleanup_fip (c : Client) (fipID : string) : prog bool :=
  _ ← DeleteFloatingIP c fipID;
  fip ← GetFloatingIP c fipID;
  mret match fip with
       | Err _ => false
       | Ok fip =>
         negb (bool_decide (FloatingIP_AssociatedEntity fip = None /\ FloatingIP_Status fip = "down"))
       end.

Definition cleanupFloatingIPs (scope : ClusterScope) (fipsToDelete : list string)
    : M OVHCluster bool :=
  lift (for_acc (fun requeue fipID =>
          present ← cleanup_fip (CScope_OVHClient scope) fipID; mret (requeue || present))
        false fipsToDelete).

(** Clean up DNS record. *)
Definition delete_dns (scope : ClusterScope) : M OVHCluster unit :=
  spec ← cspec;
  st ← cstatus;
  match CSpec_DNSConfig spec with
  | Some dns =>
    if decide (CStatus_DNSRecordID st <> 0) then
      err ← lift (DeleteDNSRecord (CScope_OVHClient scope) (OVHDNSConfig_ZoneName dns)
                    (CStatus_DNSRecordID st));
      match err with
      | Err _ => mret tt
      | Ok _ =>
        _ ← lift (RefreshDNSZone (CScope_OVHClient scope) (OVHDNSConfig_ZoneName dns));
        modify (set_c_DNSRecordID 0)
      end
    else mret tt
  | None => mret tt
  end.

(** Clean up security groups. *)
Definition delete_security_groups (scope : ClusterScope) : M OVHCluster unit :=
  st ← cstatus;
  entries ← lift (range_map (CStatus_SecurityGroupIDs st));
  for_each (fun '(name, id) =>
      err ← lift (DeleteSecurityGroup (CScope_OVHClient scope) id);
      match err with
      | Err _ => mret tt
      | Ok _ =>
        modify (fun o => set_c_SecurityGroupIDs
          (base.delete name (CStatus_SecurityGroupIDs (OVHCluster_Status o))) o)
      end)
    entries.

(** The loop that appends the floating IPs of the load balancer. *)
Definition append_fips (lbID : string) (fips : list FloatingIP) (fipsToDelete : list string)
    : list string :=
  foldl (fun acc fip =>
           if fip_of_lb lbID fip && negb (bool_decide (FloatingIP_ID fip ∈ acc))
           then acc ++ [FloatingIP_ID fip] else acc)
    fipsToDelete fips.

(** Capture all FIPs associated with our LB before we delete the LB. *)
Definition capture_fips (scope : ClusterScope) : M OVHCluster (list string) :=
  st ← cstatus;
  let fipsToDelete :=
    if decide (CStatus_FloatingIPID st <> "") then [CStatus_FloatingIPID st] else [] in
  if decide (CStatus_LoadBalancerID st <> "") then
    fips ← lift (ListFloatingIPs (CScope_OVHClient scope));
    match fips with
    | Err _ => mret fipsToDelete
    | Ok fips => mret (append_fips (CStatus_LoadBalancerID st) fips fipsToDelete)
    end
  else mret fipsToDelete.

(** Delete LB. *)
Definition delete_lb (scope : ClusterScope) : M OVHCluster (res unit) :=
  st ← cstatus;
  let client := CScope_OVHClient scope in
  if decide (CStatus_LoadBalancerID st <> "") then
    when (bool_decide (CStatus_PoolID st <> ""))
      (_ ← lift (DeletePool client (CStatus_PoolID st)); mret tt) ;;
    when (bool_decide (CStatus_ListenerID st <> ""))
      (_ ← lift (DeleteListener client (CStatus_ListenerID st)); mret tt) ;;
    wrap_err (fun err => Errorf "deleting LB: %w" [AE err])
      (lift (DeleteLoadBalancer client (CStatus_LoadBalancerID st)))
  else mret (Ok tt).

(** Cleanup orphan LBs that share our cluster's name prefix. *)
Definition delete_orphans (scope : ClusterScope) : M OVHCluster unit :=
  let lbPrefix := GenerateRFC1035Name
    ["capi"; Meta_Name (Cluster_ObjectMeta (CScope_Cluster scope)); "lb"] in
  orphans ← lift (ListLoadBalancersByPrefix (CScope_OVHClient scope) lbPrefix);
  match orphans with
  | Err _ => mret tt
  | Ok orphans =>
    for_each (fun orphan =>
        _ ← lift (DeleteLoadBalancer (CScope_OVHClient scope) (LoadBalancer_ID orphan));
        mret tt)
      orphans
  end.

(** Delete the internet gateway we created. *)
Definition delete_gateway (scope : ClusterScope) : M OVHCluster unit :=
  gws ← lift (ListGateways (CScope_OVHClient scope));
  match gws with
  | Err _ => mret tt
  | Ok gws =>
    match first_match (fun g => bool_decide (Gateway_Name g = gateway_name scope)) gws with
    | Some g => _ ← lift (DeleteGateway (CScope_OVHClient scope) (Gateway_ID g)); mret tt
    | None => mret tt
    end
  end.

(** Delete network only if created by the controller. *)
Definition delete_network (scope : ClusterScope) : M OVHCluster (res unit) :=
  st ← cstatus;
  if IsTrue (CStatus_Conditions st) NetworkCreatedByControllerCondition then
    if decide (CStatus_NetworkID st <> "") then
      lift (DeletePrivateNetwork (CScope_OVHClient scope) (CStatus_NetworkID st))
    else mret (Ok tt)
  else mret (Ok tt).

Definition remove_finalizer : M OVHCluster unit :=
  modify (fun o => set_c_Finalizers
    (RemoveFinalizer (Meta_Finalizers (OVHCluster_ObjectMeta o)) ClusterFinalizer) o).

Definition adoption_policy : string := "capiovh.cluster.x-k8s.io/adoption-policy".

Definition ReconcileDelete (scope : ClusterScope) : M OVHCluster outcome :=
  o ← get;
  if decide (annotation (OVHCluster_ObjectMeta o) adoption_policy = "keep") then
    remove_finalizer ;;
    mret done_
  else
    delete_dns scope ;;
    delete_security_groups scope ;;
    fipsToDelete ← capture_fips scope;
    lb ← delete_lb scope;
    match lb with
    | Err err => mret (failed err)
    | Ok _ =>
      delete_orphans scope ;;
      present ← cleanupFloatingIPs scope fipsToDelete;
      if present : bool then mret (requeue requeueTimeShort)
      else
        delete_gateway scope ;;
        network ← delete_network scope;
        match network with
        | Err _ => mret (requeue requeueTimeShort)
        | Ok _ => remove_finalizer ;; mret done_
        end
    end.

(** ** Reconcile *)

(** From the owner lookup on: what runs under the deferred patch. *)
Definition reconcile_body : M OVHCluster outcome :=
  o ← get;
  owner ← lift (call (EGetOwnerCluster (OVHCluster_ObjectMeta o)));
  match owner with
  | Err err => mret (failed err)
  | Ok None => mret (requeue requeueTimeShort)
  | Ok (Some ownerCluster) =>
    client ← lift (GetOVHClientFromCluster o);
    match client with
    | Err err =>
      mark_false OVHConnectionReadyCondition OVHConnectionFailedReason ConditionSeverityError
        (Sprintf "Failed to create OVH client: %s" [AS (error_text err)]) ;;
      mret (requeue requeueTimeShort)
    | Ok client =>
      let scope := mkClusterScope ownerCluster client in
      if negb (IsZero (Meta_DeletionTimestamp (OVHCluster_ObjectMeta o))) then
        ReconcileDelete scope
      else ReconcileNormal scope
    end
  end.

(** The deferred [Patch]: its error is returned if there is no other. *)
Definition with_patch_err (out : outcome) (patchErr : res unit) : outcome :=
  match out, patchErr with
  | (r, None), Err e => (r, Some e)
  | _, _ => out
  end.

Definition Reconcile (namespace name : string) : prog outcome :=
  obj ← call (EGetOVHCluster namespace name);
  match obj with
  | Err err => if kube_IsNotFound err then mret done_ else mret (failed err)
  | Ok ovhCluster =>
    helper ← call (ENewClusterPatch ovhCluster);
    match helper with
    | Err err => mret (failed err)
    | Ok _ =>
      '(out, ovhCluster) ← reconcile_body ovhCluster;
      patchErr ← call (EPatchCluster ovhCluster);
      mret (with_patch_err out patchErr)
    end
  end.

End controller.

(** ** The watches *)

(** A [types.NamespacedName]. *)
Definition key : Type := string * string.

Definition key_of (m : ObjectMeta) : key := (Meta_Namespace m, Meta_Name m).

(** The field index of [SetupWithManager]: an OVHCluster by the name of its
    identity secret. *)
Definition identity_index (c : OVHCluster) : list string :=
  let name := SecretKey_Name (CSpec_IdentitySecret (OVHCluster_Spec c)) in
  if decide (name = "") then [] else [name].

(** [None]: the object of the event is not a Secret. *)
Definition secretToOVHCluster (obj : option Secret) : prog (list key) :=
  match obj with
  | None => mret []
  | Some secret =>
    clusterList ← call (EListOVHClusters (Secret_Name secret));
    match clusterList with
    | Err _ => mret []
    | Ok items =>
      mret (key_of ∘ OVHCluster_ObjectMeta <$>
        filter (fun c => SecretKey_Namespace (CSpec_IdentitySecret (OVHCluster_Spec c))
                         = Secret_Namespace secret) items)
    end
  end.

Definition clusterToOVHCluster (obj : Cluster) : list key :=
  match Cluster_InfrastructureRef obj with
  | None => []
  | Some ref =>
    if decide (Ref_Kind ref <> "OVHCluster") then []
    else [(Ref_Namespace ref, Ref_Name ref)]
  end.
