(* ===== verification/MachineController.v ===== *)
(** * The OVHMachine controller: internal/controller/ovhmachine_controller.go

    As in ClusterController, the object under reconciliation is threaded:
    [M OVHMachine]. The cluster's object is only read here, so it is a field of
    the scope. Logs and duration histograms are left out, and with them the
    parsing of the instance's creation time, which only feeds one. *)

From S2P Require Import Prelude GoStrings Errors OvhTypes ApiTypes Effects Client Names NodeInit.
From S2P Require Import ClusterController.

Local Open Scope Z_scope.

Definition requeueDelay : Z := 10 * Second.
Definition requeueDelayLong : Z := 30 * Second.
Definition apiServerPort : Z := 6443.

Definition machineInitializationProvisioned : Initialization := mkInitialization true.
Definition machineInitializationNotProvisioned : Initialization := mkInitialization false.

(** The fields of a [MachineScope] no method assigns. *)
Record MachineScope := mkMachineScope {
  MScope_Cluster : Cluster;
  MScope_Machine : Machine;
  MScope_OVHCluster : OVHCluster;
  MScope_OVHClient : Client;
}.

(** How [Reconcile] ends: it returns, or it panics on the nil
    [InfrastructureRef] of the owner cluster. *)
Inductive ending :=
| Returned (out : outcome)
| NilDereference.

Section controller.
Context `{U : Unicode} `{C : CAPI}.

Definition mspec : M OVHMachine OVHMachineSpec := gets OVHMachine_Spec.
Definition mstatus : M OVHMachine OVHMachineStatus := gets OVHMachine_Status.

Definition mark_m_true (ty : string) : M OVHMachine unit :=
  modify (fun o => set_m_Conditions (MarkTrue ty (MStatus_Conditions (OVHMachine_Status o))) o).

Definition mark_m_false (ty reason severity message : string) : M OVHMachine unit :=
  modify (fun o => set_m_Conditions
    (MarkFalse ty reason severity message (MStatus_Conditions (OVHMachine_Status o))) o).

Definition count (m : metric) : M OVHMachine unit := lift (call (EMetric m)).

(** The name an instance is created under and looked up by. *)
Definition instance_name (scope : MachineScope) (o : OVHMachine) : string :=
  GenerateRFC1035Name
    [Meta_Name (Cluster_ObjectMeta (MScope_Cluster scope)); Meta_Name (OVHMachine_ObjectMeta o)].

(** ** Membership of the load balancer's pools *)

(** [members[i].Address == privateIP && members[i].ProtocolPort == port]. *)
Definition member_at (privateIP : string) (port : Z) (m : Member) : bool :=
  bool_decide (Member_Address m = privateIP /\ Member_ProtocolPort m = port).

Definition member_opts (scope : MachineScope) (privateIP : string) (port : Z) : CreateMemberOpts :=
  mkCreateMemberOpts (Meta_Name (Machine_ObjectMeta (MScope_Machine scope))) privateIP port "" 1.

Definition ensureRKE2RegisterPoolMember (scope : MachineScope) (privateIP : string)
    : M OVHMachine unit :=
  let client := MScope_OVHClient scope in
  let lbID := CStatus_LoadBalancerID (OVHCluster_Status (MScope_OVHCluster scope)) in
  if decide (lbID = "") then mret tt
  else
    pool ← lift (FindPoolByName client lbID "rke2-register-pool");
    match pool with
    | Err _ | Ok None => mret tt
    | Ok (Some pool) =>
      members ← lift (ListPoolMembers client (Pool_ID pool));
      match (match members with
             | Ok members => first_match (member_at privateIP 9345) members
             | Err _ => None
             end) with
      | Some m => modify (set_m_RegisterPoolMemberID (Member_ID m))
      | None =>
        regMember ← lift (AddPoolMember client (Pool_ID pool) (member_opts scope privateIP 9345));
        match regMember with
        | Err _ => mret tt
        | Ok m => modify (set_m_RegisterPoolMemberID (Member_ID m))
        end
      end
    end.

(** The loop that finds the primary IPv4 private address: [""] if none. *)
Definition private_ip (ips : list IPAddress) : string :=
  match first_match (fun ip => bool_decide (IPAddress_Version ip = 4 /\ IPAddress_Type ip = "private"))
                    ips with
  | Some ip => IPAddress_IP ip
  | None => ""
  end.

Definition ensureLBPoolMember (scope : MachineScope) (instance : Instance)
    : M OVHMachine (res unit) :=
  let client := MScope_OVHClient scope in
  if negb (IsControlPlaneMachine (MScope_Machine scope)) then mret (Ok tt)
  else
    let poolID := CStatus_PoolID (OVHCluster_Status (MScope_OVHCluster scope)) in
    if decide (poolID = "") then mret (Err (ENew "OVHCluster.Status.PoolID not set yet"))
    else
      let privateIP := private_ip (Instance_IPAddresses instance) in
      if decide (privateIP = "") then
        mret (Err (Errorf "no IPv4 private address on instance %s" [AS (Instance_ID instance)]))
      else
        members ← lift (ListPoolMembers client poolID);
        _ ←? match (match members with
                    | Ok members => first_match (member_at privateIP 6443) members
                    | Err _ => None
                    end) with
             | Some m => modify (set_m_LBPoolMemberID (Member_ID m)) ;; mret (Ok tt)
             | None =>
               member ←? wrap_err (fun err => Errorf "adding pool member: %w" [AE err])
                 (lift (AddPoolMember client poolID (member_opts scope privateIP 6443)));
               modify (set_m_LBPoolMemberID (Member_ID member)) ;; mret (Ok tt)
             end;
        ensureRKE2RegisterPoolMember scope privateIP ;;
        mret (Ok tt).

Definition removeLBPoolMember (scope : MachineScope) : M OVHMachine unit :=
  st ← mstatus;
  if decide (MStatus_LBPoolMemberID st = "") then mret tt
  else
    let poolID := CStatus_PoolID (OVHCluster_Status (MScope_OVHCluster scope)) in
    if decide (poolID = "") then mret tt
    else
      err ← lift (RemovePoolMember (MScope_OVHClient scope) poolID (MStatus_LBPoolMemberID st));
      match err with
      | Err _ => mret tt
      | Ok _ => modify (set_m_LBPoolMemberID "")
      end.

(** ** Bootstrap data and the workload cluster *)

Definition getBootstrapData (scope : MachineScope) : prog (res string) :=
  match Machine_DataSecretName (MScope_Machine scope) with
  | None => mret (Err (ENew "bootstrap data secret name is nil"))
  | Some name =>
    let ns := Meta_Namespace (Machine_ObjectMeta (MScope_Machine scope)) in
    let key := (ns ++ "/" ++ name)%string in
    secret ←? wrap_err (fun err => Errorf "getting bootstrap secret %s: %w" [AS key; AE err])
      (call (EGetSecret ns name));
    match Secret_Data secret !! "value" with
    | None => mret (Err (Errorf "bootstrap secret %s missing 'value' key" [AS key]))
    | Some data => mret (Ok data)
    end
  end.

(** [Ok None] is [(nil, nil)]: no kubeconfig yet. *)
Definition getWorkloadRESTConfig (scope : MachineScope) : prog (res (option string)) :=
  let m := Cluster_ObjectMeta (MScope_Cluster scope) in
  data ← call (EKubeconfigFromSecret (Meta_Namespace m) (Meta_Name m));
  match data with
  | Err err =>
    if kube_IsNotFound err then mret (Ok None)
    else mret (Err (Errorf "reading kubeconfig secret: %w" [AE err]))
  | Ok data =>
    cfg ←? wrap_err (fun err => Errorf "parsing kubeconfig: %w" [AE err])
      (call (ERESTConfig data));
    mret (Ok (Some cfg))
  end.

(** ** An instance that exists *)

(** The loop that builds [Status.Addresses]. *)
Definition addresses_of (ips : list IPAddress) : list MachineAddress :=
  omap (fun ip =>
          if decide (IPAddress_Version ip <> 4) then None
          else Some (mkMachineAddress
            (if decide (IPAddress_Type ip = "public") then MachineExternalIP else MachineInternalIP)
            (IPAddress_IP ip)))
    ips.

(** The [InstanceStatusActive] case. *)
Definition handle_active (scope : MachineScope) (instance : Instance) : M OVHMachine outcome :=
  modify (set_m_Addresses (addresses_of (Instance_IPAddresses instance))) ;;
  modify (set_m_ProviderID (ProviderIDFromInstance
    (CSpec_Region (OVHCluster_Spec (MScope_OVHCluster scope))) (Instance_ID instance))) ;;
  modify (set_m_Ready true) ;;
  modify (set_m_Initialization machineInitializationProvisioned) ;;
  mark_m_true InstanceProvisioningReadyCondition ;;
  mark_m_true InstanceRunningCondition ;;
  _ ← ensureLBPoolMember scope instance;
  cfg ← lift (getWorkloadRESTConfig scope);
  match cfg with
  | Ok (Some cfg) =>
    spec ← mspec;
    lift (InitializeWorkloadNode cfg (Instance_Name instance) (MSpec_ProviderID spec))
  | _ => mret tt
  end ;;
  mret done_.

(** The [InstanceStatusBuild] case. *)
Definition handle_build : M OVHMachine outcome :=
  mark_m_false InstanceProvisioningReadyCondition InstanceProvisioningInProgressReason
    ConditionSeverityInfo "Instance is being provisioned (BUILD state)" ;;
  mark_m_false InstanceRunningCondition InstanceNotRunningReason ConditionSeverityInfo
    "Instance is not yet running" ;;
  modify (set_m_Ready false) ;;
  mret (requeue requeueDelayLong).

(** The [InstanceStatusError] case. *)
Definition handle_error (instance : Instance) : M OVHMachine outcome :=
  mark_m_false InstanceProvisioningReadyCondition InstanceProvisioningFailedReason
    ConditionSeverityError "Instance provisioning failed (ERROR state)" ;;
  modify (set_m_Ready false) ;;
  modify (set_m_FailureReason "InstanceError") ;;
  modify (set_m_FailureMessage
    (Sprintf "OVH instance %s is in ERROR state" [AS (Instance_ID instance)])) ;;
  count MachineCreateErrorsTotal ;;
  mret done_.

Definition handleExistingInstance (scope : MachineScope) (instance : Instance)
    : M OVHMachine outcome :=
  modify (set_m_InstanceID (Instance_ID instance)) ;;
  mark_m_true InstanceCreatedCondition ;;
  if decide (Instance_Status instance = InstanceStatusActive) then handle_active scope instance
  else if decide (Instance_Status instance = InstanceStatusBuild) then handle_build
  else if decide (Instance_Status instance = InstanceStatusError) then handle_error instance
  else modify (set_m_Ready false) ;; mret (requeue requeueDelayLong).

(** ** Creation *)

(** Resolve SSH key (optional): the empty ID if none is named. *)
Definition resolve_ssh_key (scope : MachineScope) (spec : OVHMachineSpec) : prog (res string) :=
  let sshKeyName := GetSSHKeyName (MSpec_SSHKeyName spec)
    (CSpec_SSHKeyName (OVHCluster_Spec (MScope_OVHCluster scope))) in
  if decide (sshKeyName <> "") then
    sshKey ←? wrap_err (fun err => Errorf "resolving SSH key %q: %w" [AS sshKeyName; AE err])
      (GetSSHKeyByName (MScope_OVHClient scope) sshKeyName);
    mret (Ok (SSHKey_ID sshKey))
  else mret (Ok "").

(** What [createInstance] gathers before it creates anything. *)
Definition instance_opts (scope : MachineScope) (o : OVHMachine) : prog (res CreateInstanceOpts) :=
  let client := MScope_OVHClient scope in
  let spec := OVHMachine_Spec o in
  let cluster := MScope_OVHCluster scope in
  flavor ←? wrap_err (fun err => Errorf "resolving flavor %q: %w" [AS (MSpec_FlavorName spec); AE err])
    (GetFlavorByName client (MSpec_FlavorName spec));
  image ←? wrap_err (fun err => Errorf "resolving image %q: %w" [AS (MSpec_ImageName spec); AE err])
    (GetImageByName client (MSpec_ImageName spec));
  bootstrapData ←? wrap_err (fun err => Errorf "getting bootstrap data: %w" [AE err])
    (getBootstrapData scope);
  userData ←? wrap_err (fun err => Errorf "preparing user data: %w" [AE err])
    (mret (PrepareUserData bootstrapData));
  sshKeyID ←? resolve_ssh_key scope spec;
  let networkID := CStatus_NetworkID (OVHCluster_Status cluster) in
  let networks := if decide (networkID <> "") then [mkInstanceNetwork networkID] else [] in
  mret (Ok (mkCreateInstanceOpts (instance_name scope o) (Flavor_ID flavor) (Image_ID image)
    (CSpec_Region (OVHCluster_Spec cluster)) sshKeyID userData networks false "")).

Definition createInstance (scope : MachineScope) : M OVHMachine outcome :=
  o ← get;
  opts ← lift (instance_opts scope o);
  match opts with
  | Err err => mret (failed err)
  | Ok opts =>
    count MachineCreateTotal ;;
    instance ← lift (CreateInstance (MScope_OVHClient scope) opts);
    match instance with
    | Err err =>
      count MachineCreateErrorsTotal ;;
      mark_m_false InstanceCreatedCondition InstanceProvisioningFailedReason ConditionSeverityError
        (Sprintf "Failed to create instance: %s" [AS (error_text err)]) ;;
      mret (failed (Errorf "creating OVH instance: %w" [AE err]))
    | Ok instance =>
      modify (set_m_InstanceID (Instance_ID instance)) ;;
      mark_m_true InstanceCreatedCondition ;;
      mark_m_false InstanceProvisioningReadyCondition InstanceProvisioningInProgressReason
        ConditionSeverityInfo "Instance created, waiting for ACTIVE state" ;;
      mret (requeue requeueDelayLong)
    end
  end.

(** ** ReconcileNormal *)

(** The instance of the recorded ID. A recorded ID that is not found is
    cleared. *)
Definition recorded_instance (scope : MachineScope) : M OVHMachine (res (option Instance)) :=
  st ← mstatus;
  let id := MStatus_InstanceID st in
  if decide (id <> "") then
    inst ← lift (GetInstance (MScope_OVHClient scope) id);
    match inst with
    | Err err =>
      if IsNotFound (Some err) then modify (set_m_InstanceID "") ;; mret (Ok None)
      else mret (Err (Errorf "getting instance %s: %w" [AS id; AE err]))
    | Ok inst => mret (Ok (Some inst))
    end
  else mret (Ok None).

(** Adopt existing instance by explicit ID. *)
Definition adopted_instance (scope : MachineScope) : M OVHMachine (res (option Instance)) :=
  spec ← mspec;
  let id := MSpec_ExistingInstanceID spec in
  if decide (id <> "") then
    inst ←? wrap_err (fun err => Errorf "adopting instance %s: %w" [AS id; AE err])
      (lift (GetInstance (MScope_OVHClient scope) id));
    mret (Ok (Some inst))
  else mret (Ok None).

(** Try to find by name. *)
Definition named_instance (scope : MachineScope) : M OVHMachine (res (option Instance)) :=
  o ← get;
  let instanceName := instance_name scope o in
  wrap_err (fun err => Errorf "finding instance by name %s: %w" [AS instanceName; AE err])
    (lift (FindInstanceByName (MScope_OVHClient scope) instanceName)).

(** [if instance == nil { ... }]. *)
Definition or_else (found : option Instance) (m : M OVHMachine (res (option Instance)))
    : M OVHMachine (res (option Instance)) :=
  match found with Some _ => mret (Ok found) | None => m end.

Definition find_instance (scope : MachineScope) : M OVHMachine (res (option Instance)) :=
  found ←? recorded_instance scope;
  found ←? or_else found (adopted_instance scope);
  or_else found (named_instance scope).

(** The body of [ReconcileNormal], without the deferred gauge. *)
Definition reconcile_normal_body (scope : MachineScope) : M OVHMachine outcome :=
  o ← get;
  let meta := OVHMachine_ObjectMeta o in
  if IsPaused (MScope_Cluster scope) meta then
    modify (set_m_Ready false) ;;
    modify (set_m_Initialization machineInitializationNotProvisioned) ;;
    mret done_
  else if negb (ContainsFinalizer (Meta_Finalizers meta) MachineFinalizer)
          && IsZero (Meta_DeletionTimestamp meta) then
    modify (set_m_Finalizers (AddFinalizer (Meta_Finalizers meta) MachineFinalizer)) ;;
    modify (set_m_Ready false) ;;
    modify (set_m_Initialization machineInitializationNotProvisioned) ;;
    mret done_
  else if negb (Cluster_InfrastructureReady (MScope_Cluster scope)) then
    mark_m_false InstanceProvisioningReadyCondition InfrastructureProvisioningInProgressReason
      ConditionSeverityInfo "Waiting for cluster infrastructure" ;;
    mret (requeue requeueDelay)
  else
    match Machine_DataSecretName (MScope_Machine scope) with
    | None => mret (requeue requeueDelay)
    | Some _ =>
      found ← find_instance scope;
      match found with
      | Err err => mret (failed err)
      | Ok (Some instance) => handleExistingInstance scope instance
      | Ok None => createInstance scope
      end
    end.

Definition ReconcileNormal (scope : MachineScope) : M OVHMachine outcome :=
  out ← reconcile_normal_body scope;
  o ← get;
  count (MachineStatus (namespaced (Cluster_ObjectMeta (MScope_Cluster scope)))
           (namespaced (OVHMachine_ObjectMeta o)) (MStatus_Ready (OVHMachine_Status o))) ;;
  mret out.

(** ** ReconcileDelete *)

(** One round of the loop over [Status.VolumeIDs]. *)
Definition delete_volume (scope : MachineScope) (volID : string) : M OVHMachine unit :=
  st ← mstatus;
  when (bool_decide (MStatus_InstanceID st <> ""))
    (_ ← lift (DetachVolume (MScope_OVHClient scope) volID (MStatus_InstanceID st)); mret tt) ;;
  _ ← lift (DeleteVolume (MScope_OVHClient scope) volID);
  mret tt.

Definition remove_m_finalizer : M OVHMachine unit :=
  modify (fun o => set_m_Finalizers
    (RemoveFinalizer (Meta_Finalizers (OVHMachine_ObjectMeta o)) MachineFinalizer) o).

(** Delete instance: the outcome to return with, if any. *)
Definition delete_instance (scope : MachineScope) : M OVHMachine (option outcome) :=
  st ← mstatus;
  let id := MStatus_InstanceID st in
  if decide (id <> "") then
    err ← lift (DeleteInstance (MScope_OVHClient scope) id);
    match err with
    | Err err =>
      count MachineDeleteErrorsTotal ;;
      mret (Some (failed (Errorf "deleting instance %s: %w" [AS id; AE err])))
    | Ok _ =>
      inst ← lift (GetInstance (MScope_OVHClient scope) id);
      match inst with
      | Ok inst =>
        if decide (Instance_Status inst <> InstanceStatusDeleted)
        then mret (Some (requeue requeueDelay)) else mret None
      | Err _ => mret None
      end
    end
  else mret None.

Definition ReconcileDelete (scope : MachineScope) : M OVHMachine outcome :=
  o ← get;
  if decide (annotation (OVHMachine_ObjectMeta o) adoption_policy = "keep") then
    remove_m_finalizer ;;
    mret done_
  else
    count MachineDeleteTotal ;;
    for_each (delete_volume scope) (MStatus_VolumeIDs (OVHMachine_Status o)) ;;
    removeLBPoolMember scope ;;
    deleted ← delete_instance scope;
    match deleted with
    | Some out => mret out
    | None => remove_m_finalizer ;; mret done_
    end.

(** ** Reconcile *)

(** From the owner lookup on: what runs under the deferred patch. *)
Definition reconcile_body : M OVHMachine ending :=
  o ← get;
  owner ← lift (call (EGetOwnerMachine (OVHMachine_ObjectMeta o)));
  match owner with
  | Err err => mret (Returned (failed err))
  | Ok None => mret (Returned (requeue requeueDelay))
  | Ok (Some ownerMachine) =>
    ownerCluster ← lift (call (EGetClusterFromMetadata (Machine_ObjectMeta ownerMachine)));
    match ownerCluster with
    | Err err => mret (Returned (failed err))
    | Ok None => mret (Returned done_)
    | Ok (Some ownerCluster) =>
      match Cluster_InfrastructureRef ownerCluster with
      | None => mret NilDereference
      | Some ref =>
        ovhCluster ← lift (call (EGetOVHCluster (Ref_Namespace ref) (Ref_Name ref)));
        match ovhCluster with
        | Err err => mret (Returned (failed err))
        | Ok ovhCluster =>
          client ← lift (GetOVHClientFromCluster ovhCluster);
          match client with
          | Err _ => mret (Returned (requeue requeueDelay))
          | Ok client =>
            let scope := mkMachineScope ownerCluster ownerMachine ovhCluster client in
            out ← (if negb (IsZero (Meta_DeletionTimestamp (OVHMachine_ObjectMeta o)))
                   then ReconcileDelete scope else ReconcileNormal scope);
            mret (Returned out)
          end
        end
      end
    end
  end.

(** The deferred patch runs on a panic too, which then goes on. *)
Definition Reconcile (namespace name : string) : prog ending :=
  obj ← call (EGetOVHMachine namespace name);
  match obj with
  | Err err =>
    if kube_IsNotFound err then mret (Returned done_) else mret (Returned (failed err))
  | Ok ovhMachine =>
    helper ← call (ENewMachinePatch ovhMachine);
    match helper with
    | Err err => mret (Returned (failed err))
    | Ok _ =>
      '(out, ovhMachine) ← reconcile_body ovhMachine;
      patchErr ← call (EPatchMachine ovhMachine);
      mret match out with
           | Returned out => Returned (with_patch_err out patchErr)
           | NilDereference => NilDereference
           end
    end
  end.

End controller.
