(* ===== verification/ClusterFacts.v ===== *)
(** * The OVHCluster controller: what it promises

    Safety of both reconcile paths on every run, whatever the services answer;
    what readiness means; and the functional behaviour of [subnetRange]. *)

From S2P Require Import Prelude GoStrings Errors OvhTypes ApiTypes Effects Client Names StringFacts.
From S2P Require Import Logic ClientFacts ClusterController.

Local Open Scope Z_scope.

(** ** subnetRange *)

Lemma index_byte_None b s : index_byte b s = None <-> str_forall (no_byte b) s = true.
Proof.
  induction s as [|c s IH]; cbn; [done|]. unfold no_byte at 1.
  destruct (c =? b)%char; cbn; [done|]. rewrite <- IH. by destruct (index_byte b s).
Qed.

Lemma index_byte_Some b s i :
  index_byte b s = Some i <->
  exists p q, s = (p ++ String b q)%string /\ String.length p = i /\ str_forall (no_byte b) p = true.
Proof.
  revert i. induction s as [|c s IH]; intros i; cbn.
  - split; [done|]. intros ([|] & q & ? & _); done.
  - destruct (c =? b)%char eqn:E.
    + apply Ascii.eqb_eq in E as ->. split.
      * intros [= <-]. by exists ""%string, s.
      * intros ([|d p] & q & Heq & <- & Hp); [done|]. cbn in Heq. injection Heq as <- ->.
        cbn in Hp. unfold no_byte in Hp at 1. by rewrite Ascii.eqb_refl in Hp.
    + split.
      * destruct (index_byte b s) as [k|] eqn:Ek; cbn; [|done]. intros [= <-].
        destruct (proj1 (IH k) eq_refl) as (p & q & -> & <- & Hp). exists (String c p), q. cbn.
        unfold no_byte at 1. by rewrite E.
      * intros ([|d p] & q & Heq & <- & Hp); cbn in Heq; injection Heq as -> ->.
        { by rewrite Ascii.eqb_refl in E. }
        cbn in Hp. apply andb_true_iff in Hp as [_ Hp].
        rewrite (proj2 (IH (String.length p))); [done | by exists p, q].
Qed.

Lemma last_index_byte_None b s : last_index_byte b s = None <-> str_forall (no_byte b) s = true.
Proof.
  induction s as [|c s IH]; cbn; [done|]. unfold no_byte at 1.
  destruct (last_index_byte b s) as [k|].
  - split; [done|]. rewrite andb_true_iff. intros [_ H]. by apply IH in H.
  - rewrite (proj1 IH) by done. by destruct (c =? b)%char.
Qed.

Lemma last_index_byte_Some b s i :
  last_index_byte b s = Some i <->
  exists p q, s = (p ++ String b q)%string /\ String.length p = i /\ str_forall (no_byte b) q = true.
Proof.
  revert i. induction s as [|c s IH]; intros i; cbn.
  - split; [done|]. intros ([|] & q & ? & _); done.
  - destruct (last_index_byte b s) as [k|] eqn:Ek.
    + split.
      * intros [= <-]. destruct (proj1 (IH k) eq_refl) as (p & q & -> & <- & Hq).
        by exists (String c p), q.
      * intros ([|d p] & q & Heq & <- & Hq); cbn in Heq; injection Heq as -> ->.
        { apply last_index_byte_None in Hq. congruence. }
        cbn. f_equal. cut (Some k = Some (String.length p)); [by intros [= ->]|].
        apply IH. by exists p, q.
    + apply last_index_byte_None in Ek. destruct (c =? b)%char eqn:E.
      * apply Ascii.eqb_eq in E as ->. split.
        { intros [= <-]. by exists ""%string, s. }
        intros ([|d p] & q & Heq & <- & Hq); [done|]. cbn in Heq. injection Heq as <- ->.
        rewrite str_forall_append in Ek. apply andb_true_iff in Ek as [_ Ek]. cbn in Ek.
        unfold no_byte in Ek at 1. by rewrite Ascii.eqb_refl in Ek.
      * split; [done|]. intros ([|d p] & q & Heq & _ & _); cbn in Heq; injection Heq as -> ->.
        { by rewrite Ascii.eqb_refl in E. }
        rewrite str_forall_append in Ek. apply andb_true_iff in Ek as [_ Ek]. cbn in Ek.
        unfold no_byte in Ek at 1. by rewrite Ascii.eqb_refl in Ek.
Qed.

(** The strings [subnetRange] handles. *)
Definition slash24 (cidr p l : string) : Prop :=
  cidr = (p ++ "." ++ l ++ "/24")%string
  /\ str_forall (no_byte "/") (p ++ "." ++ l) = true /\ str_forall (no_byte ".") l = true.

Lemma subnetRange_slash24 cidr p l :
  slash24 cidr p l -> subnetRange cidr = ((p ++ ".2")%string, (p ++ ".254")%string).
Proof.
  intros (-> & Hs & Hd). unfold subnetRange.
  replace (p ++ "." ++ l ++ "/24")%string with ((p ++ "." ++ l) ++ "/24")%string
    by (by rewrite !append_assoc).
  assert (index_byte "/" ((p ++ "." ++ l) ++ "/24") = Some (String.length (p ++ "." ++ l))) as ->.
  { apply index_byte_Some. by exists (p ++ "." ++ l)%string, "24"%string. }
  rewrite str_drop_append, str_take_append.
  assert (last_index_byte "." (p ++ "." ++ l) = Some (String.length p)) as ->.
  { apply last_index_byte_Some. by exists p, l. }
  replace (S (String.length p)) with (String.length (p ++ "."))
    by (rewrite length_append; cbn; lia).
  replace (p ++ "." ++ l)%string with ((p ++ ".") ++ l)%string by apply append_assoc.
  change (negb ("/24" =? "/24")%string) with false. cbv iota zeta.
  rewrite str_take_append. by rewrite !append_assoc.
Qed.

Lemma subnetRange_cases cidr :
  (exists p l, slash24 cidr p l) \/ subnetRange cidr = (""%string, ""%string).
Proof.
  unfold subnetRange. destruct (index_byte "/" cidr) as [idx|] eqn:E; [|by right].
  apply index_byte_Some in E as (pre & rest & -> & <- & Hpre).
  rewrite str_drop_append, str_take_append.
  destruct (String "/" rest =? "/24")%string eqn:E24; [|by right].
  apply String.eqb_eq in E24. rewrite E24.
  destruct (last_index_byte "." pre) as [last|] eqn:El; [|by right].
  apply last_index_byte_Some in El as (p & l & -> & <- & Hl). left. exists p, l.
  split_and!; [by rewrite !append_assoc | done..].
Qed.

(** [subnetRange] gives a range exactly on the strings [<p>.<l>/24] with no
    other slash and no dot in [l]: from [<p>.2] to [<p>.254]; on every other
    string, other prefix lengths included, it gives two empty strings. *)
Theorem subnetRange_spec cidr start end_ :
  subnetRange cidr = (start, end_) <->
  (exists p l, slash24 cidr p l /\ start = (p ++ ".2")%string /\ end_ = (p ++ ".254")%string)
  \/ (start = ""%string /\ end_ = ""%string /\ forall p l, slash24 cidr p l -> False).
Proof.
  split.
  - intros H. destruct (subnetRange_cases cidr) as [(p & l & Hf)|E].
    + left. rewrite (subnetRange_slash24 _ _ _ Hf) in H. injection H as <- <-. eauto.
    + right. rewrite E in H. injection H as <- <-. split_and!; [done..|].
      intros p l Hf. rewrite (subnetRange_slash24 _ _ _ Hf) in E. by destruct p.
  - intros [(p & l & Hf & -> & ->)|(-> & -> & Hno)]; [by eapply subnetRange_slash24|].
    destruct (subnetRange_cases cidr) as [(p & l & Hf)|E]; [by destruct (Hno p l) | done].
Qed.

(** ** Calls: what each path can and cannot ask for *)

Section facts.
Context `{U : Unicode} `{C : CAPI}.

(** The calls that delete nothing at OVH. *)
Definition no_delete (e : event) : Prop :=
  match e with EApi rq => req_method rq <> DELETE | _ => True end.

(** C23: reconciling a cluster that is not being deleted never deletes anything
    at OVH, whatever the API answers. *)
Theorem ReconcileNormal_no_delete scope s t out s' :
  exec (ReconcileNormal scope s) t (out, s') ->
  Forall (fun rq => req_method rq <> DELETE) (requests t).
Proof.
  intros H. refine (only_m_requests no_delete _ _ _ _ _ H). auto with prog.
Qed.

(** The refresh of the zone the spec names. *)
Definition zone_refresh (spec : OVHClusterSpec) (rq : request) : Prop :=
  exists dns, CSpec_DNSConfig spec = Some dns
    /\ rq = mkRequest POST (Sprintf "/domain/zone/%s/refresh" [AS (OVHDNSConfig_ZoneName dns)])
              NoBody TNone.

Definition no_post_but (P : request -> Prop) (e : event) : Prop :=
  match e with EApi rq => req_method rq = POST -> P rq | _ => True end.

Lemma delete_dns_posts scope s :
  only (no_post_but (zone_refresh (OVHCluster_Spec s))) (delete_dns scope s).
Proof.
  unfold delete_dns, cspec, cstatus. rewrite !gets_bind.
  destruct (CSpec_DNSConfig (OVHCluster_Spec s)) as [dns|] eqn:E; [|exact I].
  case_decide; [|exact I].
  match goal with |- only ?P (?m s) => cut (only_m P m); [intros Hm; apply Hm|] end.
  repeat only_rule; try done. intros _. by exists dns.
Qed.

(** C24: deleting a cluster creates nothing at OVH: the only POST it can make is
    the refresh of the DNS zone of its spec. *)
Theorem ReconcileDelete_no_create scope s t out s' :
  exec (ReconcileDelete scope s) t (out, s') ->
  Forall (fun rq => req_method rq = POST -> zone_refresh (OVHCluster_Spec s) rq) (requests t).
Proof.
  intros H. refine (only_requests (no_post_but (zone_refresh (OVHCluster_Spec s))) _ _ _ _ H).
  unfold ReconcileDelete. rewrite get_bind. case_decide.
  { match goal with |- only ?P (?m s) => cut (only_m P m); [intros Hm; apply Hm|] end.
    auto with prog. }
  apply only_bind_at; [apply delete_dns_posts|]. intros _. auto with prog.
Qed.

(** ** What reconciling changes in the object *)

(** Metadata up to the finalizers. *)
Definition same_meta (m m' : ObjectMeta) : Prop :=
  set_Finalizers [] m = set_Finalizers [] m'.

(** One pass of normal reconciliation, whatever the calls answer. *)
Definition pass (scope : ClusterScope) (o o' : OVHCluster) : Prop :=
  exists t out, exec (ReconcileNormal scope o) t (out, o').

(** ** Readiness *)

Definition ready (s : OVHCluster) : bool := CStatus_Ready (OVHCluster_Status s).
Definition cond (s : OVHCluster) (ty : string) : Prop :=
  IsTrue (CStatus_Conditions (OVHCluster_Status s)) ty = true.

Section readiness.
Context {L : CAPILaws C}.

(** [Ready] is not assigned, and the condition [ty] stays true once it is. *)
Definition holds_on (ty : string) (s s' : OVHCluster) : Prop :=
  ready s' = ready s /\ (cond s ty -> cond s' ty).

#[local] Instance holds_on_preorder ty : PreOrder (holds_on ty).
Proof. split; [done|]. intros s1 s2 s3 [? ?] [? ?]. split; [congruence | auto]. Qed.

Lemma holds_on_true ty ty' s :
  holds_on ty s (set_c_Conditions (MarkTrue ty' (CStatus_Conditions (OVHCluster_Status s))) s).
Proof.
  split; [done|]. unfold cond. cbn. destruct (decide (ty' = ty)) as [->|Hne].
  - by rewrite IsTrue_MarkTrue.
  - by rewrite IsTrue_MarkTrue_ne.
Qed.

Lemma holds_on_false ty ty' r sev msg s :
  ty' <> ty ->
  holds_on ty s (set_c_Conditions (MarkFalse ty' r sev msg (CStatus_Conditions (OVHCluster_Status s))) s).
Proof. intros Hne. split; [done|]. unfold cond. cbn. by rewrite IsTrue_MarkFalse_ne. Qed.

Ltac solve_holds :=
  repeat keeps_rule;
  first [apply holds_on_true | by apply holds_on_false | split; [done | exact id]].

Lemma credentials_holds scope :
  keeps (holds_on InfrastructureReadyCondition) (reconcileCredentials scope).
Proof. solve_holds. Qed.

Lemma network_holds_infra scope :
  keeps (holds_on InfrastructureReadyCondition) (reconcileNetwork scope).
Proof. solve_holds. Qed.

Lemma network_holds scope : keeps (holds_on OVHConnectionReadyCondition) (reconcileNetwork scope).
Proof. solve_holds. Qed.

Lemma domains_holds ty scope : keeps (holds_on ty) (reconcileFailureDomains scope).
Proof. solve_holds. Qed.

Lemma groups_holds ty scope : keeps (holds_on ty) (reconcileSecurityGroups scope).
Proof. solve_holds. Qed.

Lemma lb_holds ty scope :
  LoadBalancerReadyCondition <> ty -> keeps (holds_on ty) (reconcileLoadBalancer scope).
Proof. intros Hne. solve_holds. Qed.

Lemma dns_holds ty scope : keeps (holds_on ty) (reconcileDNS scope).
Proof. solve_holds. Qed.

Lemma credentials_ok scope s t s' :
  exec (reconcileCredentials scope s) t (Ok tt, s') -> cond s' OVHConnectionReadyCondition.
Proof.
  unfold reconcileCredentials, mark_true, mark_false. intros H. exec_all.
  apply IsTrue_MarkTrue.
Qed.

Lemma network_ok scope s t s' :
  exec (reconcileNetwork scope s) t (Ok tt, s') -> cond s' NetworkReadyCondition.
Proof.
  unfold reconcileNetwork, cspec, mark_true. intros H. exec_all; apply IsTrue_MarkTrue.
Qed.

(** The outcome of [reconcileLoadBalancer] on which [ReconcileNormal] goes on. *)
Definition goes_on (out : outcome) : Prop := ~ (is_Some out.2 \/ 0 < RequeueAfter out.1).

Lemma publish_endpoint_ok host s t out s' :
  exec (publish_endpoint host s) t (out, s') ->
  cond s' LoadBalancerReadyCondition
  /\ CStatus_LoadBalancerID (OVHCluster_Status s') = CStatus_LoadBalancerID (OVHCluster_Status s).
Proof.
  unfold publish_endpoint, cspec, mark_true. intros H. exec_all;
    (split; [apply IsTrue_MarkTrue | done]).
Qed.

(** The steps of [handleExistingLB] leave the recorded load balancer alone. *)
Definition same_lb (s s' : OVHCluster) : Prop :=
  CStatus_LoadBalancerID (OVHCluster_Status s') = CStatus_LoadBalancerID (OVHCluster_Status s).

#[local] Instance same_lb_preorder : PreOrder same_lb.
Proof. split; [done|]. intros s1 s2 s3 ? ?. unfold same_lb in *. congruence. Qed.

Lemma handleExistingLB_ok scope lb s t out s' :
  exec (handleExistingLB scope lb s) t (out, s') -> goes_on out ->
  LoadBalancer_ProvisioningStatus lb = LBProvisioningStatusActive
  /\ cond s' LoadBalancerReadyCondition
  /\ CStatus_LoadBalancerID (OVHCluster_Status s') = CStatus_LoadBalancerID (OVHCluster_Status s).
Proof.
  intros H Hgo.
  assert (Hsame : same_lb s s').
  { refine (keeps_exec same_lb _ _ _ _ _ H). auto with prog. }
  unfold handleExistingLB, cspec, mark_false in H.
  exec_all; try (exfalso; apply Hgo; first [left; by eexists | by right]).
  all: repeat match goal with H : exec (publish_endpoint _ _) _ _ |- _ =>
         apply publish_endpoint_ok in H as [? _] end.
  all: split_and!; try done; by apply dec_stable.
Qed.

Lemma create_lb_stops scope s t out s' :
  exec (create_lb scope s) t (out, s') -> ~ goes_on out.
Proof.
  unfold create_lb, cspec, cstatus, mark_false. intros H Hgo.
  exec_all; apply Hgo; first [left; by eexists | by right].
Qed.

Lemma GetLoadBalancer_Ok c lbID t lb :
  exec (GetLoadBalancer c lbID) t (Ok lb) ->
  Obs (EApi (mkRequest GET (regionPath c "/loadbalancing/loadbalancer/%s" [AS lbID]) NoBody
               TLoadBalancer)) (Ok lb) ∈ t.
Proof.
  intros ([lb'|e] & H & E)%exec_wrap; [|done]. injection E as ->.
  apply (retry_sound _ (mkRequest GET _ NoBody TLoadBalancer)), retried_Ok in H as [t' ->].
  apply elem_of_app. right. by apply list_elem_of_singleton.
Qed.

(** The load balancer recorded in [s] was seen active in [t]. *)
Definition lb_seen_active (scope : ClusterScope) (t : list obs) (s : OVHCluster) : Prop :=
  CStatus_LoadBalancerID (OVHCluster_Status s) <> ""%string
  /\ exists lb, LoadBalancer_ProvisioningStatus lb = LBProvisioningStatusActive
     /\ Obs (EApi (mkRequest GET (regionPath (CScope_OVHClient scope) "/loadbalancing/loadbalancer/%s"
              [AS (CStatus_LoadBalancerID (OVHCluster_Status s))]) NoBody TLoadBalancer)) (Ok lb) ∈ t.

Lemma reconcileLoadBalancer_ok scope s t out s' :
  exec (reconcileLoadBalancer scope s) t (out, s') -> goes_on out ->
  cond s' LoadBalancerReadyCondition /\ lb_seen_active scope t s'.
Proof.
  unfold reconcileLoadBalancer, cstatus. intros H Hgo.
  apply exec_m_bind in H as (t1 & [] & s1 & t2 & -> & _ & H).
  exec_all;
    try (exfalso; match goal with H : exec (create_lb _ _) _ _ |- _ =>
           by apply create_lb_stops in H end);
    try (exfalso; apply Hgo; left; by eexists).
  match goal with Hh : exec (handleExistingLB _ _ _) _ _ |- _ =>
    apply handleExistingLB_ok in Hh as (Hact & Hcond & Hid); [|done] end.
  match goal with Hg : exec (GetLoadBalancer _ _) _ _ |- _ => apply GetLoadBalancer_Ok in Hg end.
  split; [done|]. unfold lb_seen_active. rewrite Hid. split; [done|].
  eexists. split; [done|]. rewrite !elem_of_app. tauto.
Qed.

(** The load balancer's part never asks for the long pause. *)
Lemma reconcileLoadBalancer_pause scope s t out s' :
  exec (reconcileLoadBalancer scope s) t (out, s') -> out <> requeue requeueTimeLong.
Proof.
  assert (Hpub : forall host s t out s', exec (publish_endpoint host s) t (out, s') ->
            out <> requeue requeueTimeLong).
  { clear. unfold publish_endpoint, cspec, mark_true. intros host s t out s' H. by exec_all. }
  unfold reconcileLoadBalancer, create_lb, handleExistingLB, cspec, cstatus, mark_false.
  intros H. apply exec_m_bind in H as (t1 & [] & s1 & t2 & -> & _ & H).
  exec_all; try done; by eapply Hpub.
Qed.

(** The conditions after the steps of a pass that goes on to the end. *)
Lemma steps_conditions scope s1 s2 s3 s4 s5 s6 s7 t1 t2 t3 t4 t5 t6 u r3 r4 out r6 :
  exec (reconcileCredentials scope s1) t1 (Ok tt, s2) ->
  exec (reconcileNetwork scope s2) t2 (Ok u, s3) ->
  exec (reconcileFailureDomains scope s3) t3 (r3, s4) ->
  exec (reconcileSecurityGroups scope s4) t4 (r4, s5) ->
  exec (reconcileLoadBalancer scope s5) t5 (out, s6) -> goes_on out ->
  exec (reconcileDNS scope s6) t6 (r6, s7) ->
  cond s7 OVHConnectionReadyCondition /\ cond s7 NetworkReadyCondition
  /\ cond s7 LoadBalancerReadyCondition /\ lb_seen_active scope t5 s7.
Proof.
  intros H1 H2 H3 H4 H5 Hgo H6. destruct u.
  pose proof (reconcileLoadBalancer_ok _ _ _ _ _ H5 Hgo) as [Hlb Hseen].
  pose proof (fun ty => proj2 (keeps_exec _ _ _ _ _ (domains_holds ty scope) H3)) as K3.
  pose proof (fun ty => proj2 (keeps_exec _ _ _ _ _ (groups_holds ty scope) H4)) as K4.
  pose proof (fun ty Hne => proj2 (keeps_exec _ _ _ _ _ (lb_holds ty scope Hne) H5)) as K5.
  pose proof (fun ty => proj2 (keeps_exec _ _ _ _ _ (dns_holds ty scope) H6)) as K6.
  split_and!.
  - apply K6, K5, K4, K3, (keeps_exec _ _ _ _ _ (network_holds scope) H2); [done|].
    by eapply credentials_ok.
  - apply K6, K5, K4, K3; [done|]. by eapply network_ok.
  - by apply K6.
  - assert (Hsame : same_lb s6 s7).
    { refine (keeps_exec same_lb _ _ _ _ _ H6). auto with prog. }
    unfold lb_seen_active. unfold same_lb in Hsame. cbn [snd] in Hsame. by rewrite Hsame.
Qed.

(** [ready] along the steps of a run. *)
Ltac ready_along scope :=
  repeat match goal with
  | H : exec (reconcileCredentials _ _) _ _ |- _ =>
      apply (keeps_exec _ _ _ _ _ (credentials_holds scope)) in H as [H _]
  | H : exec (reconcileNetwork _ _) _ _ |- _ =>
      apply (keeps_exec _ _ _ _ _ (network_holds_infra scope)) in H as [H _]
  | H : exec (reconcileFailureDomains _ _) _ _ |- _ =>
      apply (keeps_exec _ _ _ _ _ (domains_holds InfrastructureReadyCondition scope)) in H as [H _]
  | H : exec (reconcileSecurityGroups _ _) _ _ |- _ =>
      apply (keeps_exec _ _ _ _ _ (groups_holds InfrastructureReadyCondition scope)) in H as [H _]
  | H : exec (reconcileLoadBalancer _ _) _ _ |- _ =>
      apply (keeps_exec _ _ _ _ _ (lb_holds InfrastructureReadyCondition scope ltac:(done)))
        in H as [H _]
  end; cbn [snd] in *; congruence.

(** C7: [Ready] is only ever set by a pass that went through all the steps: it
    asks to be run again in three minutes, without error, and leaves all the
    conditions true; the recorded load balancer answered as active in it. Every
    other pass leaves [Ready] as it was. *)
Theorem ReconcileNormal_ready scope s t out s' :
  exec (ReconcileNormal scope s) t (out, s') ->
  if decide (out = requeue requeueTimeLong)
  then ready s' = true /\ cond s' OVHConnectionReadyCondition /\ cond s' NetworkReadyCondition
       /\ cond s' LoadBalancerReadyCondition /\ cond s' InfrastructureReadyCondition
       /\ lb_seen_active scope t s'
  else ready s' = ready s.
Proof.
  unfold ReconcileNormal, reconcile_normal_body, mark_true. intros H. exec_all.
  - by rewrite decide_False.
  - rewrite decide_False; [ready_along scope|]. by eapply reconcileLoadBalancer_pause.
  - rewrite decide_True by done. destruct a3.
    edestruct steps_conditions as (Hc & Hn & Hl & Hid & lb & Hact & Hin); [eassumption..|].
    set (s8 := set_c_Ready true s7).
    assert (Hk : forall ty, cond s8 ty -> cond (set_c_Conditions (MarkTrue InfrastructureReadyCondition
      (CStatus_Conditions (OVHCluster_Status s8))) s8) ty) by (intros ty; apply holds_on_true).
    split_and!; [done | by apply Hk.. | apply IsTrue_MarkTrue |].
    split; [exact Hid|]. exists lb. split; [done|]. rewrite !elem_of_app. tauto.
  - rewrite decide_False by done. ready_along scope.
  - rewrite decide_False by done. ready_along scope.
  - rewrite decide_False by done. ready_along scope.
Qed.

End readiness.

End facts.
