(* ===== verification/ClusterDeleteFacts.v ===== *)
(** * Deletion of a cluster

    When the finalizer goes, in which order the resources go, and which network
    is never touched. *)

From S2P Require Import Prelude GoStrings Errors OvhTypes ApiTypes Effects Client Names StringFacts.
From S2P Require Import NamesFacts Logic ClientFacts ClusterController ClusterFacts.

Local Open Scope Z_scope.

(** ** Acknowledged deletions *)

(** In [t] the deletion [rq] was answered with success, or with an error that
    [gone] takes for it. *)
Definition acked (gone : option error -> bool) (rq : request) (t : list obs) : Prop :=
  exists last, Obs (EApi rq) last ∈ t
    /\ match last with Ok _ => True | Err e => gone (Some e) = true end.

Lemma acked_mono gone rq t t' : (forall o, o ∈ t -> o ∈ t') -> acked gone rq t -> acked gone rq t'.
Proof. intros Hsub (last & Hin & H). exists last. auto. Qed.

Definition delete_request (path : string) : request := mkRequest DELETE path NoBody TNone.

Section facts.
Context `{U : Unicode} `{C : CAPI}.

Definition lb_delete (c : Client) (id : string) : request :=
  delete_request (regionPath c "/loadbalancing/loadbalancer/%s" [AS id]).
Definition network_delete (c : Client) (id : string) : request :=
  delete_request (projectPath c "/network/private/%s" [AS id]).

Lemma tolerate_acked gone wrap op path t :
  steadfast gone -> plain op = true ->
  exec (tolerate gone wrap (retryWithBackoff op (api_delete path))) t (Ok tt) ->
  acked gone (delete_request path) t.
Proof.
  intros Hs Hp (r0 & H & E)%exec_tolerate.
  apply (retry_sound op (delete_request path)), (retried_gone gone) in H as (t' & last & -> & Hlast); [|done..|].
  - exists last. split; [apply elem_of_app; right; by apply list_elem_of_singleton | exact Hlast].
  - destruct r0 as [a|e]; [done|]. by destruct (gone (Some e)).
Qed.

Lemma DeleteLoadBalancer_acked c id t :
  exec (DeleteLoadBalancer c id) t (Ok tt) -> acked gone_or_deleting (lb_delete c id) t.
Proof. by apply tolerate_acked; [apply gone_or_deleting_steadfast|]. Qed.

Lemma DeletePrivateNetwork_acked c id t :
  exec (DeletePrivateNetwork c id) t (Ok tt) -> acked IsNotFound (network_delete c id) t.
Proof. by apply tolerate_acked; [apply IsNotFound_steadfast|]. Qed.

(** ** What deletion changes in the object *)

(** Everything but the record of the DNS zone, the security groups and the
    finalizers. *)
Definition same_infra (s s' : OVHCluster) : Prop :=
  OVHCluster_Spec s' = OVHCluster_Spec s
  /\ CStatus_LoadBalancerID (OVHCluster_Status s') = CStatus_LoadBalancerID (OVHCluster_Status s)
  /\ CStatus_NetworkID (OVHCluster_Status s') = CStatus_NetworkID (OVHCluster_Status s)
  /\ CStatus_FloatingIPID (OVHCluster_Status s') = CStatus_FloatingIPID (OVHCluster_Status s)
  /\ CStatus_Conditions (OVHCluster_Status s') = CStatus_Conditions (OVHCluster_Status s)
  /\ OVHCluster_ObjectMeta s' = OVHCluster_ObjectMeta s.

#[local] Instance same_infra_preorder : PreOrder same_infra.
Proof.
  split; [by repeat split|]. intros s1 s2 s3 (?&?&?&?&?&?) (?&?&?&?&?&?).
  repeat split; congruence.
Qed.

Lemma dns_same scope : keeps same_infra (delete_dns scope).
Proof. auto with prog. Qed.

Lemma groups_same scope : keeps same_infra (delete_security_groups scope).
Proof. auto with prog. Qed.

Lemma capture_same scope : keeps same_infra (capture_fips scope).
Proof. auto with prog. Qed.

Lemma lb_same scope : keeps same_infra (delete_lb scope).
Proof. auto with prog. Qed.

Lemma orphans_same scope : keeps same_infra (delete_orphans scope).
Proof. auto with prog. Qed.

Lemma cleanup_same scope ids : keeps same_infra (cleanupFloatingIPs scope ids).
Proof. auto with prog. Qed.

Lemma gateway_same scope : keeps same_infra (delete_gateway scope).
Proof. auto with prog. Qed.

Lemma network_same scope : keeps same_infra (delete_network scope).
Proof. auto with prog. Qed.

(** ** The steps *)

Lemma delete_lb_ok scope s t s' :
  exec (delete_lb scope s) t (Ok tt, s') ->
  CStatus_LoadBalancerID (OVHCluster_Status s) <> ""%string ->
  acked gone_or_deleting
    (lb_delete (CScope_OVHClient scope) (CStatus_LoadBalancerID (OVHCluster_Status s))) t.
Proof.
  unfold delete_lb, cstatus. intros H Hid. rewrite gets_bind in H.
  rewrite decide_True in H by done.
  apply exec_m_bind in H as (t1 & [] & s1 & t2 & -> & _ & H).
  apply exec_m_bind in H as (t3 & [] & s2 & t4 & -> & _ & H).
  apply exec_m_wrap in H as ([[]|e] & s3 & H & E); [|done].
  apply exec_m_lift in H as ([] & H & E'); simplify_eq.
  eapply acked_mono; [|by apply DeleteLoadBalancer_acked].
  intros o Ho. rewrite !elem_of_app. tauto.
Qed.

Lemma delete_network_ok scope s t s' :
  exec (delete_network scope s) t (Ok tt, s') ->
  cond s NetworkCreatedByControllerCondition ->
  CStatus_NetworkID (OVHCluster_Status s) <> ""%string ->
  acked IsNotFound
    (network_delete (CScope_OVHClient scope) (CStatus_NetworkID (OVHCluster_Status s))) t.
Proof.
  unfold delete_network, cstatus, cond. intros H Hc Hid. rewrite gets_bind in H.
  rewrite Hc in H. rewrite decide_True in H by done.
  apply exec_m_lift in H as ([] & H & E'); simplify_eq.
  by apply DeletePrivateNetwork_acked.
Qed.

Definition fip_delete (c : Client) (id : string) : request :=
  delete_request (regionPath c "/floatingIp/%s" [AS id]).

(** [t] asked for the deletion of the floating IP, and a look after that did not find
    it in use: the look failed, or showed it detached and down. *)
Definition fip_let_go (c : Client) (id : string) (t : list obs) : Prop :=
  exists ta tl tb r, t = ta ++ tl ++ tb /\ fip_delete c id ∈ requests ta
    /\ exec (GetFloatingIP c id) tl r
    /\ forall fip, r = Ok fip ->
         FloatingIP_AssociatedEntity fip = None /\ FloatingIP_Status fip = "down"%string.

Lemma fip_let_go_app c id ta t tb : fip_let_go c id t -> fip_let_go c id (ta ++ t ++ tb).
Proof.
  intros (t1 & tl & t2 & r & -> & Hd & H). exists (ta ++ t1), tl, (t2 ++ tb), r.
  split; [by rewrite <- !app_assoc | split; [|done]]. rewrite requests_app, elem_of_app. by right.
Qed.

Lemma DeleteFloatingIP_asks c id t r : exec (DeleteFloatingIP c id) t r -> fip_delete c id ∈ requests t.
Proof.
  intros (r0 & H & _)%exec_tolerate.
  apply (retry_sound _ (fip_delete c id)), retried_requests in H as (n & _ & ->).
  apply elem_of_replicate. split; [done | lia].
Qed.

Lemma cleanup_fip_false c id t : exec (cleanup_fip c id) t false -> fip_let_go c id t.
Proof.
  unfold cleanup_fip. intros H.
  apply exec_bind in H as (t1 & r1 & t2 & -> & Hd & H).
  apply exec_bind in H as (t3 & fip & t4 & -> & H & [-> E]).
  exists t1, t3, [], fip. split; [done|]. split; [by eapply DeleteFloatingIP_asks|]. split; [done|].
  intros f ->. symmetry in E. by apply negb_false_iff, bool_decide_eq_true in E.
Qed.

Lemma cleanup_fips_false c ids acc t :
  exec (for_acc (fun requeue fipID => present ← cleanup_fip c fipID; mret (requeue || present))
          acc ids) t false ->
  acc = false /\ forall id, id ∈ ids -> fip_let_go c id t.
Proof.
  revert acc t. induction ids as [|id ids IH]; intros acc t H; cbn [for_acc] in H.
  - exec_inv H. split; [done|]. intros id Hid. by apply elem_of_nil in Hid.
  - apply exec_bind in H as (t1 & acc' & t2 & -> & H1 & H).
    apply exec_bind in H1 as (t3 & present & t4 & -> & H1 & [-> ->]).
    apply IH in H as [[-> ->]%orb_false_iff Hids]. split; [done|].
    rewrite app_nil_r. intros id' [->|Hid]%elem_of_cons.
    + apply (fip_let_go_app _ _ [] _ t2). by apply cleanup_fip_false.
    + rewrite <- (app_nil_r t2). by apply fip_let_go_app, Hids.
Qed.

Lemma capture_fips_recorded scope s t ids s' :
  exec (capture_fips scope s) t (ids, s') ->
  CStatus_FloatingIPID (OVHCluster_Status s) <> ""%string ->
  CStatus_FloatingIPID (OVHCluster_Status s) ∈ ids.
Proof.
  unfold capture_fips, cstatus. intros H Hid. rewrite gets_bind in H.
  destruct (decide (CStatus_FloatingIPID (OVHCluster_Status s) <> "")) as [_|]; [|done].
  assert (Happ : forall lbID fips acc, CStatus_FloatingIPID (OVHCluster_Status s) ∈ acc ->
            CStatus_FloatingIPID (OVHCluster_Status s) ∈ append_fips lbID fips acc).
  { intros lbID fips. induction fips as [|f fips IH]; intros acc Hacc; [done|]. cbn.
    apply IH. destruct (_ && _); [apply elem_of_app; by left | done]. }
  exec_all; try (by apply list_elem_of_singleton). by apply Happ, list_elem_of_singleton.
Qed.

(** What [ReconcileDelete] has seen when it lets the object go. *)
Definition released (scope : ClusterScope) (s : OVHCluster) (t : list obs) : Prop :=
  let c := CScope_OVHClient scope in
  let st := OVHCluster_Status s in
  (CStatus_LoadBalancerID st <> ""%string ->
     acked gone_or_deleting (lb_delete c (CStatus_LoadBalancerID st)) t)
  /\ (CStatus_FloatingIPID st <> ""%string -> fip_let_go c (CStatus_FloatingIPID st) t)
  /\ (cond s NetworkCreatedByControllerCondition -> CStatus_NetworkID st <> ""%string ->
        acked IsNotFound (network_delete c (CStatus_NetworkID st)) t).

(** The part of [ReconcileDelete] that runs once the load balancer is gone. *)
Lemma delete_after_lb scope ids s t out s' :
  exec ((delete_orphans scope ;;
         present ← cleanupFloatingIPs scope ids;
         if present : bool then mret (requeue requeueTimeShort)
         else
           delete_gateway scope ;;
           network ← delete_network scope;
           match network with
           | Err _ => mret (requeue requeueTimeShort)
           | Ok _ => remove_finalizer ;; mret done_
           end) s) t (out, s') ->
  let m := OVHCluster_ObjectMeta s in
  if decide (out = done_)
  then OVHCluster_ObjectMeta s' = set_Finalizers (RemoveFinalizer (Meta_Finalizers m) ClusterFinalizer) m
       /\ (forall id, id ∈ ids -> fip_let_go (CScope_OVHClient scope) id t)
       /\ (cond s NetworkCreatedByControllerCondition ->
           CStatus_NetworkID (OVHCluster_Status s) <> ""%string ->
           acked IsNotFound
             (network_delete (CScope_OVHClient scope) (CStatus_NetworkID (OVHCluster_Status s))) t)
  else OVHCluster_ObjectMeta s' = m /\ out = requeue requeueTimeShort.
Proof.
  intros H. cbv zeta.
  apply exec_m_bind in H as (t1 & [] & s1 & t2 & -> & H1 & H).
  apply (keeps_exec same_infra _ _ _ _ (orphans_same scope)) in H1.
  apply exec_m_bind in H as (t3 & present & s2 & t4 & -> & H2 & H).
  pose proof (keeps_exec same_infra _ _ _ _ (cleanup_same scope ids) H2) as K2.
  destruct H1 as (_&_&E1&_&E2&E3), K2 as (_&_&E4&_&E5&E6). cbn [snd] in *.
  destruct present.
  { exec_inv H. rewrite decide_False by done. split; [congruence | done]. }
  apply exec_m_lift in H2 as (b & H2 & E). injection E as <- ->.
  apply cleanup_fips_false in H2 as [_ Hids].
  apply exec_m_bind in H as (t5 & [] & s3 & t6 & -> & H3 & H).
  apply (keeps_exec same_infra _ _ _ _ (gateway_same scope)) in H3 as (_&_&E7&_&E8&E9).
  apply exec_m_bind in H as (t7 & network & s4 & t8 & -> & H4 & H).
  pose proof (keeps_exec same_infra _ _ _ _ (network_same scope) H4) as (_&_&_&_&_&E10).
  cbn [snd] in *. destruct network as [[]|e].
  - pose proof (delete_network_ok _ _ _ _ H4) as Hn.
    unfold remove_finalizer in H. exec_all. rewrite decide_True by done. split_and!.
    + cbn. congruence.
    + intros id Hid. by apply fip_let_go_app, Hids.
    + intros Hc Hid. replace (CStatus_NetworkID (OVHCluster_Status s)) with (CStatus_NetworkID (OVHCluster_Status s3)) in * by congruence.
      eapply acked_mono; [|apply Hn; [unfold cond in *; congruence | done]].
      intros o. rewrite !elem_of_app. tauto.
  - exec_inv H. rewrite decide_False by done. split; [congruence | done].
Qed.

(** The runs of [ReconcileDelete], by how they end. *)
Lemma ReconcileDelete_runs scope s t out s' :
  exec (ReconcileDelete scope s) t (out, s') ->
  let m := OVHCluster_ObjectMeta s in
  if decide (out = done_)
  then OVHCluster_ObjectMeta s' = set_Finalizers (RemoveFinalizer (Meta_Finalizers m) ClusterFinalizer) m
       /\ (annotation m adoption_policy = "keep"%string /\ t = []
           \/ annotation m adoption_policy <> "keep"%string /\ released scope s t)
  else OVHCluster_ObjectMeta s' = m /\ (is_Some out.2 \/ out = requeue requeueTimeShort).
Proof.
  intros H. cbv zeta. unfold ReconcileDelete in H. rewrite get_bind in H. case_decide as Hkeep.
  { unfold remove_finalizer in H. exec_all. rewrite decide_True by done. split; [done|]. by left. }
  apply exec_m_bind in H as (t1 & [] & s1 & t2 & -> & H1 & H).
  apply (keeps_exec same_infra _ _ _ _ (dns_same scope)) in H1.
  apply exec_m_bind in H as (t3 & [] & s2 & t4 & -> & H2 & H).
  apply (keeps_exec same_infra _ _ _ _ (groups_same scope)) in H2.
  apply exec_m_bind in H as (t5 & ids & s3 & t6 & -> & H3 & H).
  pose proof (keeps_exec same_infra _ _ _ _ (capture_same scope) H3) as K3.
  apply exec_m_bind in H as (t7 & lb & s4 & t8 & -> & H4 & H).
  pose proof (keeps_exec same_infra _ _ _ _ (lb_same scope) H4) as K4.
  assert (K : same_infra s s3) by (do 2 (etransitivity; [eassumption|]); done).
  assert (Hfip : CStatus_FloatingIPID (OVHCluster_Status s) <> ""%string ->
            CStatus_FloatingIPID (OVHCluster_Status s) ∈ ids).
  { destruct H1 as (_&_&_&E1&_), H2 as (_&_&_&E2&_). cbn [snd] in *. rewrite <- E1, <- E2.
    by eapply capture_fips_recorded. }
  destruct lb as [[]|err].
  - pose proof (delete_after_lb _ _ _ _ _ _ H) as Hafter.
    pose proof (delete_lb_ok _ _ _ _ H4) as Hlb.
    destruct K as (_&E1&E2&E3&E4&E5), K4 as (_&E6&E7&E8&E9&E10). cbn [snd] in *.
    case_decide as Hout.
    + destruct Hafter as (Hm & Hf & Hn). split; [congruence|]. right. split; [done|].
      assert (Hsub : forall o, o ∈ t8 -> o ∈ t1 ++ t3 ++ t5 ++ t7 ++ t8)
        by (intros o; rewrite !elem_of_app; tauto).
      split_and!.
      * intros Hid. rewrite <- E1 in Hid |- *. eapply acked_mono; [|by apply Hlb].
        intros o. rewrite !elem_of_app. tauto.
      * intros Hid. replace (t1 ++ t3 ++ t5 ++ t7 ++ t8) with ((t1 ++ t3 ++ t5 ++ t7) ++ t8 ++ [])
          by by rewrite <- !app_assoc, app_nil_r.
        by apply fip_let_go_app, Hf, Hfip.
      * intros Hc Hid. rewrite <- E2, <- E7 in Hid |- *. eapply acked_mono; [exact Hsub|].
        apply Hn; [unfold cond in *; congruence | done].
    + destruct Hafter as [Hm Hr]. split; [congruence | by right].
  - exec_inv H. rewrite decide_False by done. split; [|left; by eexists].
    destruct K as (_&_&_&_&_&E), K4 as (_&_&_&_&_&E'). cbn [snd] in *. congruence.
Qed.

(** C8: the finalizer of a cluster goes only when the policy is to keep its
    resources, and then nothing is called; or when three things have happened in this
    pass. The deletion of the recorded load balancer was answered with success, or with
    an error that the classification takes for its absence or its deletion under way
    ([IsNotFound], [IsAlreadyDeleting]: a 404, a 409 with a pending state, or, from
    elsewhere than the API, a text with "404" or "not found"). So was that of the
    recorded network, if the controller is on record as its creator (there a pending
    state does not count). And the deletion of the recorded floating IP was asked for,
    and a look after that failed or showed it detached and down: any failure of this
    look passes for the absence of the address, and the answer to its deletion is not
    read. In every other case the finalizers stay and the pass is retried (it fails or
    asks to be run again). *)
Theorem ReconcileDelete_finalizer scope s t out s' :
  exec (ReconcileDelete scope s) t (out, s') ->
  let m := OVHCluster_ObjectMeta s in
  if decide (out = done_)
  then OVHCluster_ObjectMeta s' = set_Finalizers (RemoveFinalizer (Meta_Finalizers m) ClusterFinalizer) m
       /\ (annotation m adoption_policy = "keep"%string /\ t = []
           \/ annotation m adoption_policy <> "keep"%string /\ released scope s t)
  else OVHCluster_ObjectMeta s' = m /\ (is_Some out.2 \/ out = requeue requeueTimeShort).
Proof. apply ReconcileDelete_runs. Qed.

(** ** The network *)

(** The deletion of a private network of the project, of any ID. *)
Definition network_deletion (c : Client) (e : event) : Prop :=
  match e with
  | EApi rq => req_method rq = DELETE
               /\ exists id, req_path rq = projectPath c "/network/private/%s" [AS id]
  | _ => False
  end.

(** The other paths of the API cannot be taken for a network's. *)
Lemma regionPath_not_network c format args id :
  regionPath c format args <> projectPath c "/network/private/%s" [AS id].
Proof.
  unfold regionPath, projectPath, Sprintf.
  destruct (decide (format <> "")) as [_|_]; cbn; rewrite ?append_assoc; intros H;
    injection H as H; by apply append_inj_l in H.
Qed.

Lemma no_network_deletion_region c format args :
  ~ network_deletion c (EApi (delete_request (regionPath c format args))).
Proof. intros (_ & id & H). by apply regionPath_not_network in H. Qed.

Ltac no_network := repeat only_rule;
  first [by apply no_network_deletion_region | by intros [] | by intros (_ & id & ?)].

Lemma before_network_no_deletion scope :
  only_m (fun e => ~ network_deletion (CScope_OVHClient scope) e) (delete_dns scope)
  /\ only_m (fun e => ~ network_deletion (CScope_OVHClient scope) e) (delete_security_groups scope)
  /\ only_m (fun e => ~ network_deletion (CScope_OVHClient scope) e) (capture_fips scope)
  /\ only_m (fun e => ~ network_deletion (CScope_OVHClient scope) e) (delete_lb scope)
  /\ only_m (fun e => ~ network_deletion (CScope_OVHClient scope) e) (delete_orphans scope)
  /\ (forall ids, only_m (fun e => ~ network_deletion (CScope_OVHClient scope) e)
                   (cleanupFloatingIPs scope ids))
  /\ only_m (fun e => ~ network_deletion (CScope_OVHClient scope) e) (delete_gateway scope).
Proof. split_and!; [..|intros ids|]; no_network. Qed.

(** Every run of the deletion is one without network deletions, followed, when
    the load balancer is gone, by [delete_network]. *)
Lemma ReconcileDelete_split scope s t out s' :
  exec (ReconcileDelete scope s) t (out, s') ->
  exists ta tn, t = ta ++ tn
    /\ Forall (fun o => ~ network_deletion (CScope_OVHClient scope) (obs_event o)) ta
    /\ (tn = [] \/ exists sa r sb, exec (delete_network scope sa) tn (r, sb) /\ same_infra s sa
         /\ (CStatus_LoadBalancerID (OVHCluster_Status s) <> ""%string ->
             acked gone_or_deleting (lb_delete (CScope_OVHClient scope)
               (CStatus_LoadBalancerID (OVHCluster_Status s))) ta)).
Proof.
  destruct (before_network_no_deletion scope) as (N1 & N2 & N3 & N4 & N5 & N6 & N7).
  intros H. unfold ReconcileDelete in H. rewrite get_bind in H. case_decide as Hkeep.
  { unfold remove_finalizer in H. exec_all. exists [], []. split_and!; [done | constructor | by left]. }
  apply exec_m_bind in H as (t1 & [] & s1 & t2 & -> & H1 & H).
  apply exec_m_bind in H as (t3 & [] & s2 & t4 & -> & H2 & H).
  apply exec_m_bind in H as (t5 & ids & s3 & t6 & -> & H3 & H).
  apply exec_m_bind in H as (t7 & lb & s4 & t8 & -> & H4 & H).
  assert (K : same_infra s s3).
  { etransitivity; [exact (keeps_exec same_infra _ _ _ _ (dns_same scope) H1)|].
    etransitivity; [exact (keeps_exec same_infra _ _ _ _ (groups_same scope) H2)|].
    exact (keeps_exec same_infra _ _ _ _ (capture_same scope) H3). }
  pose proof (keeps_exec same_infra _ _ _ _ (lb_same scope) H4) as K4. cbn [snd] in K4.
  assert (Hlb : lb = Ok tt -> CStatus_LoadBalancerID (OVHCluster_Status s) <> ""%string ->
    acked gone_or_deleting (lb_delete (CScope_OVHClient scope)
      (CStatus_LoadBalancerID (OVHCluster_Status s))) t7).
  { intros -> Hid. destruct K as (_ & E & _). rewrite <- E in Hid |- *.
    by eapply delete_lb_ok. }
  apply (only_m_exec _ _ _ _ _ N1) in H1. apply (only_m_exec _ _ _ _ _ N2) in H2.
  apply (only_m_exec _ _ _ _ _ N3) in H3. apply (only_m_exec _ _ _ _ _ N4) in H4.
  assert (Hpre : forall tb, Forall (fun o => ~ network_deletion (CScope_OVHClient scope) (obs_event o)) tb ->
    Forall (fun o => ~ network_deletion (CScope_OVHClient scope) (obs_event o)) (t1 ++ t3 ++ t5 ++ t7 ++ tb))
    by (intros tb Htb; rewrite !Forall_app; auto).
  destruct lb as [[]|e].
  2:{ exec_inv H. exists (t1 ++ t3 ++ t5 ++ t7 ++ []), [].
      rewrite !app_nil_r. split_and!; [done | rewrite <- (app_nil_r t7); by apply Hpre | by left]. }
  apply exec_m_bind in H as (t9 & [] & s5 & t10 & -> & H5 & H).
  pose proof (keeps_exec same_infra _ _ _ _ (orphans_same scope) H5) as K5.
  apply (only_m_exec _ _ _ _ _ N5) in H5.
  apply exec_m_bind in H as (t11 & present & s6 & t12 & -> & H6 & H).
  pose proof (keeps_exec same_infra _ _ _ _ (cleanup_same scope ids) H6) as K6.
  apply (only_m_exec _ _ _ _ _ (N6 ids)) in H6. destruct present.
  { exec_inv H. exists (t1 ++ t3 ++ t5 ++ t7 ++ t9 ++ t11 ++ []), [].
    rewrite !app_nil_r. split_and!; [done | by apply Hpre, Forall_app | by left]. }
  apply exec_m_bind in H as (t13 & [] & s7 & t14 & -> & H7 & H).
  pose proof (keeps_exec same_infra _ _ _ _ (gateway_same scope) H7) as K7.
  apply (only_m_exec _ _ _ _ _ N7) in H7.
  apply exec_m_bind in H as (t15 & network & s8 & t16 & -> & H8 & H).
  assert (t16 = []) as -> by (unfold remove_finalizer in H; by exec_all).
  exists (t1 ++ t3 ++ t5 ++ t7 ++ t9 ++ t11 ++ t13), t15. rewrite app_nil_r.
  split_and!; [by rewrite <- !app_assoc | by apply Hpre; rewrite !Forall_app|].
  right. exists s7, network, s8. split_and!; [done | by repeat (etransitivity; [eassumption|])|].
  intros Hid. eapply acked_mono; [|by apply Hlb]. intros o. rewrite !elem_of_app. tauto.
Qed.

Lemma split_at_first {A} (P : A -> Prop) t1 o t2 ta tn :
  t1 ++ o :: t2 = ta ++ tn -> Forall (fun x => ~ P x) ta -> P o ->
  exists tc, t1 = ta ++ tc /\ o ∈ tn.
Proof.
  intros H Hta Ho. apply app_eq_inv in H as [(k & -> & ->)|(k & -> & H)].
  - exists k. split; [done|]. apply elem_of_app. right. by left.
  - destruct k as [|x k]; cbn in H.
    + subst. exists []. rewrite !app_nil_r. split; [done | by left].
    + injection H as <- _. apply Forall_app in Hta as [_ Hk]. inversion Hk. done.
Qed.

Lemma delete_network_only scope s :
  only (fun e => network_deletion (CScope_OVHClient scope) e ->
          cond s NetworkCreatedByControllerCondition
          /\ e = EApi (network_delete (CScope_OVHClient scope) (CStatus_NetworkID (OVHCluster_Status s))))
    (delete_network scope s).
Proof.
  unfold delete_network, cstatus. rewrite gets_bind.
  destruct (IsTrue _ _) eqn:E; [|exact I]. case_decide; [|exact I].
  match goal with |- only ?P (?m s) => cut (only_m P m); [intros Hm; apply Hm|] end.
  auto with prog.
Qed.

(** C9: a private network is deleted only if it is the recorded one and the
    controller is on record as its creator, and only after the deletion of the recorded
    load balancer, if there is one, was answered with success or with an error that
    [IsNotFound] or [IsAlreadyDeleting] accept. *)
Theorem ReconcileDelete_network scope s t out s' t1 o t2 :
  exec (ReconcileDelete scope s) t (out, s') -> t = t1 ++ o :: t2 ->
  network_deletion (CScope_OVHClient scope) (obs_event o) ->
  let st := OVHCluster_Status s in
  cond s NetworkCreatedByControllerCondition
  /\ obs_event o = EApi (network_delete (CScope_OVHClient scope) (CStatus_NetworkID st))
  /\ (CStatus_LoadBalancerID st <> ""%string ->
      acked gone_or_deleting (lb_delete (CScope_OVHClient scope) (CStatus_LoadBalancerID st)) t1).
Proof.
  intros H -> Ho. cbv zeta.
  apply ReconcileDelete_split in H as (ta & tn & Ht & Hna & Hn).
  apply (split_at_first (fun o => network_deletion (CScope_OVHClient scope) (obs_event o))) in Ht
    as (tc & -> & Hin); [|done..].
  destruct Hn as [->|(sa & r & sb & H & (_&_&E1&_&E2&_) & Hlb)]; [by apply elem_of_nil in Hin|].
  apply (only_exec _ _ _ _ (delete_network_only scope sa)) in H.
  rewrite Forall_forall in H. destruct (H o Hin Ho) as [Hc Hreq].
  split_and!; [unfold cond in *; congruence | congruence |].
  intros Hid. eapply acked_mono; [|by apply Hlb]. intros x Hx. apply elem_of_app. by left.
Qed.

End facts.
