(* ===== verification/ClusterStepFacts.v ===== *)
(** * Single steps of the OVHCluster controller

    What a step finds, adopts and creates: the listeners and pools of the load
    balancer, and the health monitor of a pool, whose name is not the cluster's. *)

From S2P Require Import Prelude GoStrings Errors OvhTypes ApiTypes Effects Client Names StringFacts.
From S2P Require Import NamesFacts Logic ClientFacts ClusterController ClusterFacts.
From S2P Require Import ClusterDeleteFacts.

Local Open Scope Z_scope.

Section facts.
Context `{U : Unicode} `{C : CAPI}.

(** ** The runs of the client's other lookups *)

Lemma ListListeners_lists c :
  lists (T := TListener) (regionPath c "/loadbalancing/listener" []) (ListListeners c).
Proof. apply lists_retry. Qed.

Lemma ListHealthMonitors_lists c :
  lists (T := THealthMonitor) (regionPath c "/loadbalancing/healthMonitor" []) (ListHealthMonitors c).
Proof. apply lists_retry. Qed.

(** The listing [rq] was answered with [xs] in [t]. *)
Definition listed {T} (path : string) (xs : list (den T)) (t : list obs) : Prop :=
  Obs (EApi (mkRequest GET path NoBody (TList T))) (Ok xs) ∈ t.

Lemma lists_Ok {T} path (p : prog (res (list (den T)))) t xs :
  lists (T := T) path p -> exec p t (Ok xs) -> listed path xs t.
Proof.
  intros (op & wrap & Hl) H. destruct (Hl _ _ H) as ([ys|e] & Hr & E); [|done].
  injection E as ->. apply retried_Ok in Hr as [t' ->]. unfold listed.
  apply elem_of_app. right. by apply list_elem_of_singleton.
Qed.

Lemma retried_listed op rq t r a :
  retried op rq t r -> Obs (EApi rq) (Ok a) ∈ t -> r = Ok a.
Proof.
  intros (errs & last & -> & _ & _ & H) [Hin|Hin]%elem_of_app.
  - exfalso. revert Hin. generalize 0%nat. clear. induction errs as [|e errs IH]; intros i; cbn.
    + intros Hin. by apply elem_of_nil in Hin.
    + rewrite !elem_of_cons. intros [E|[E|Hin]]; [by apply Obs_inj in E | done | by eapply IH].
  - apply list_elem_of_singleton, Obs_inj in Hin as <-. exact H.
Qed.

(** A lookup of the client: a listing, then a search in the answer. *)
Definition looks_up {T} (path : string) (f : den T -> bool) (p : prog (res (option (den T)))) : Prop :=
  exists op wrap, forall t r, exec p t r ->
    exists r0 : res (list (den T)),
      retried op (mkRequest GET path NoBody (TList T)) t r0
      /\ r = map_err wrap (map_ok (first_match f) r0).

Lemma lists_looks_up {T} path f (p : prog (res (list (den T)))) :
  lists (T := T) path p ->
  looks_up path f (try_bind p (fun xs => mret (Ok (first_match f xs)))).
Proof.
  intros (op & wrap & Hl). exists op, wrap. intros t r H.
  apply exec_try in H as [(e & H & ->)|(t1 & xs & t2 & -> & H & [-> ->])].
  - destruct (Hl _ _ H) as ([ys|e'] & Hr & E); [done|]. injection E as ->. by exists (Err e').
  - destruct (Hl _ _ H) as ([ys|e'] & Hr & E); [|done]. injection E as ->.
    rewrite app_nil_r. by exists (Ok ys).
Qed.

Lemma FindHealthMonitorByName_looks c name :
  looks_up (T := THealthMonitor) (regionPath c "/loadbalancing/healthMonitor" [])
    (fun h => bool_decide (HealthMonitor_Name h = name)) (FindHealthMonitorByName c name).
Proof. apply (lists_looks_up (T := THealthMonitor)), ListHealthMonitors_lists. Qed.

Lemma FindListenerByName_looks c lbID name :
  looks_up (T := TListener) (regionPath c "/loadbalancing/listener" [])
    (fun l => bool_decide (Listener_Name l = name /\ lbID ∈ Listener_LoadBalancerIDs l))
    (FindListenerByName c lbID name).
Proof. apply (lists_looks_up (T := TListener)), ListListeners_lists. Qed.

Lemma FindPoolByName_looks c lbID name :
  looks_up (T := TPool) (regionPath c "/loadbalancing/pool" [])
    (fun p => bool_decide (Pool_Name p = name /\ Pool_LoadBalancerID p = lbID))
    (FindPoolByName c lbID name).
Proof. apply (lists_looks_up (T := TPool)), lists_retry. Qed.

Lemma looks_up_gets {T} path f (p : prog (res (option (den T)))) t r :
  looks_up path f p -> exec p t r ->
  filter (fun rq => req_method rq <> GET) (requests t) = [].
Proof.
  intros (op & wrap & Hl) H. destruct (Hl _ _ H) as (r0 & Hr & _).
  apply retried_requests in Hr as (n & _ & ->). induction (S n) as [|k IH]; [done|]. exact IH.
Qed.

(** A step that looks something up and goes on with what it found. *)
Lemma exec_lookup {S T A} path f (p : prog (res (option (den T)))) g
    (k : option (den T) -> M S (res A)) s t r s' :
  looks_up path f p -> exec (try_bind (wrap_err g (lift p)) k s) t (r, s') ->
  (filter (fun rq => req_method rq <> GET) (requests t) = [] /\ s' = s /\ (exists e, r = Err e)
   /\ forall ys, ~ listed (T := T) path ys t)
  \/ exists t1 xs t2, t = t1 ++ t2 /\ filter (fun rq => req_method rq <> GET) (requests t1) = []
       /\ (forall ys, listed (T := T) path ys t1 <-> ys = xs)
       /\ exec (k (first_match f xs) s) t2 (r, s').
Proof.
  intros Hp H.
  apply exec_m_try in H as [(e & s1 & H & [= -> ->])|(t1 & x & s1 & t2 & -> & H1 & H)].
  - left. apply exec_m_wrap in H as (r0 & s2 & H & [= E ->]).
    apply exec_m_lift in H as (r1 & H & [= -> ->]).
    split_and!; [by eapply looks_up_gets | done | eauto |].
    intros ys Hl. destruct Hp as (op & wrap & Hlook). destruct (Hlook _ _ H) as (r0 & Hr & ->).
    by rewrite (retried_listed _ _ _ _ _ Hr Hl) in E.
  - right. apply exec_m_wrap in H1 as (r0 & s2 & H1 & [= E ->]).
    apply exec_m_lift in H1 as (r1 & H1 & [= -> ->]). destruct r1 as [x'|e]; [|done].
    injection E as <-. pose proof (looks_up_gets _ _ _ _ _ Hp H1) as Hg.
    destruct Hp as (op & wrap & Hlook). destruct (Hlook _ _ H1) as ([xs|e] & Hr & E); [|done].
    injection E as ->. exists t1, xs, t2. split_and!; [done | done | | done].
    intros ys. split.
    + intros Hl. pose proof (retried_listed _ _ _ _ _ Hr Hl). congruence.
    + intros ->. apply retried_Ok in Hr as [t' ->]. apply elem_of_app. right.
      by apply list_elem_of_singleton.
Qed.

(** A step that creates something and goes on with the answer. *)
Lemma exec_create {S A} op rq wrap g (k : den (req_out rq) -> M S (res A)) s t r s' :
  exec (try_bind (wrap_err g (lift (wrap_err wrap (retryWithBackoff op (call (EApi rq)))))) k s)
    t (r, s') ->
  exists t1 t2 rh, t = t1 ++ t2 /\ retried op rq t1 rh
    /\ ((t2 = [] /\ s' = s /\ exists e, r = Err e)
        \/ exists x, rh = Ok x /\ exec (k x s) t2 (r, s')).
Proof.
  intros [(e & s1 & H & [= -> ->])|(t1 & x & s1 & t2 & -> & H & H')]%exec_m_try;
    apply exec_m_wrap in H as (r0 & s2 & H & [= E ->]);
    apply exec_m_lift in H as (r1 & H & [= -> ->]);
    apply exec_wrap in H as (r2 & H & ->); apply retry_sound in H.
  - exists t, [], r2. rewrite app_nil_r. eauto 10.
  - exists t1, t2, r2. destruct r2 as [x'|e]; [|done]. injection E as <-. eauto 10.
Qed.

(** What follows a lookup that makes no GET does not list again. *)
Lemma listed_app {T} path (ys : list (den T)) t1 t2 :
  Forall (fun o => is_method GET (obs_event o) = false) t2 ->
  listed (T := T) path ys (t1 ++ t2) -> listed (T := T) path ys t1.
Proof.
  intros Hno [Hin|Hin]%elem_of_app; [done|]. rewrite Forall_forall in Hno.
  apply Hno in Hin. cbn in Hin. by rewrite bool_decide_true in Hin.
Qed.

Lemma first_match_no {A} (P : A -> Prop) `{!forall x, Decision (P x)} xs :
  first_match (fun x => bool_decide (P x)) xs = None -> forall x, x ∈ xs -> ~ P x.
Proof.
  intros Hn%first_match_None x Hx. rewrite Forall_forall in Hn.
  by apply Hn, bool_decide_eq_false in Hx.
Qed.

Lemma gets_Forall rqs :
  filter (fun rq => req_method rq <> GET) rqs = [] -> Forall (fun rq => req_method rq = GET) rqs.
Proof.
  induction rqs as [|rq rqs IH]; [constructor|]. rewrite filter_cons. case_decide as Hd; [done|].
  intros Hf. constructor; [done | auto].
Qed.

(** ** Health monitors *)

Definition hm_create (c : Client) (name poolID : string) : request :=
  mkRequest POST (regionPath c "/loadbalancing/healthMonitor" [])
    (BHealthMonitor (mkCreateHealthMonitorOpts name hmType hmDelay hmTimeout hmMaxRetries poolID))
    THealthMonitor.

(** Requests that are all GET apart from [n] times [rq]. *)
Lemma only_creates n rq rqs :
  filter (fun rq => req_method rq <> GET) rqs = replicate n rq ->
  Forall (fun rq' => req_method rq' = GET \/ (rq' = rq /\ (0 < n)%nat)) rqs.
Proof.
  intros Hf. apply Forall_forall. intros rq' Hin.
  destruct (decide (req_method rq' = GET)) as [Hg|Hg]; [by left|]. right.
  assert (Hin' : rq' ∈ filter (fun rq => req_method rq <> GET) rqs) by by apply list_elem_of_filter.
  rewrite Hf in Hin'. apply elem_of_replicate in Hin' as [-> ?]. split; [done | lia].
Qed.

(** The runs of [ensurePoolHealthMonitor]: a failed lookup, a monitor found, or
    a creation after a listing without one. *)
Lemma hm_runs scope poolID poolName s t r s' :
  exec (ensurePoolHealthMonitor scope poolID poolName s) t (r, s') ->
  let c := CScope_OVHClient scope in
  let path := regionPath c "/loadbalancing/healthMonitor" [] in
  let named hms := exists hm, hm ∈ hms /\ HealthMonitor_Name hm = (poolName ++ "-hm")%string in
  s' = s
  /\ ((filter (fun rq => req_method rq <> GET) (requests t) = []
        /\ forall hms, listed (T := THealthMonitor) path hms t -> r = Ok tt)
      \/ exists n hms, filter (fun rq => req_method rq <> GET) (requests t)
                        = replicate n (hm_create c (poolName ++ "-hm") poolID)
           /\ ~ named hms
           /\ forall ys, listed (T := THealthMonitor) path ys t <-> ys = hms).
Proof.
  intros H. cbv zeta. unfold ensurePoolHealthMonitor in H.
  apply (exec_lookup (T := THealthMonitor) _ _ _ _ _ _ _ _ _ (FindHealthMonitorByName_looks _ _)) in H
    as [(Hg & -> & _ & Hno)|(t1 & hms & t2 & -> & Hg & Hl & H)].
  { split; [done|]. left. split; [done|]. intros hms Hl. by destruct (Hno hms). }
  rewrite requests_app, filter_app, Hg.
  destruct (first_match _ hms) as [hm|] eqn:Hfm.
  { exec_inv H. by eauto. }
  pose proof (first_match_no _ _ Hfm) as Hno.
  apply (exec_create _ (hm_create (CScope_OVHClient scope) (poolName ++ "-hm") poolID)) in H
    as (t3 & t4 & rh & -> & Hr & Hk).
  assert (t4 = [] /\ s' = s) as [-> ->].
  { destruct Hk as [(-> & -> & _)|(x & _ & Hk)]; [done | by exec_inv Hk]. }
  rewrite app_nil_r. split; [done|]. right.
  assert (Hm : Forall (fun o => is_method GET (obs_event o) = false) t3)
    by by eapply retried_methods; [|exact Hr].
  apply retried_others in Hr as (n & _ & Hn); [|done]. exists n, hms. split_and!; [done|..].
  - intros (hm & Hin & Hname). by apply (Hno hm).
  - intros ys. rewrite <- Hl. split; [by apply listed_app|].
    intros Hys. by apply elem_of_app; left.
Qed.

Lemma hm_requests scope poolID poolName s t r s' :
  exec (ensurePoolHealthMonitor scope poolID poolName s) t (r, s') ->
  s' = s /\ Forall (fun rq => req_method rq = GET
                     \/ rq = hm_create (CScope_OVHClient scope) (poolName ++ "-hm") poolID) (requests t).
Proof.
  intros (-> & [[Hg _]|(n & hms & Hg & _)])%hm_runs; (split; [done|]).
  - eapply Forall_impl; [by apply gets_Forall|]. by left.
  - eapply Forall_impl; [by eapply only_creates|]. intros rq [?|[? _]]; auto.
Qed.

(** [ensurePoolHealthMonitor] creates a monitor for the pool, with the
    tuning of the constants, exactly when the project's monitors were listed and
    none has the name [<pool name>-hm]; it makes no other change. The name does
    not depend on the cluster, so the monitor of another cluster's pool of that
    name leaves this pool without one. *)
Theorem ensurePoolHealthMonitor_spec scope poolID poolName s t r s' :
  exec (ensurePoolHealthMonitor scope poolID poolName s) t (r, s') ->
  let c := CScope_OVHClient scope in
  let path := regionPath c "/loadbalancing/healthMonitor" [] in
  let named hms := exists hm, hm ∈ hms /\ HealthMonitor_Name hm = (poolName ++ "-hm")%string in
  s' = s
  /\ (exists n, filter (fun rq => req_method rq <> GET) (requests t)
                = replicate n (hm_create c (poolName ++ "-hm") poolID)
       /\ (0 < n -> exists hms, listed (T := THealthMonitor) path hms t /\ ~ named hms)%nat)
  /\ (forall hms, listed (T := THealthMonitor) path hms t -> named hms ->
       r = Ok tt /\ Forall (fun rq => req_method rq = GET) (requests t)).
Proof.
  intros (-> & [[Hg Hl]|(n & hms & Hg & Hno & Hl)])%hm_runs; cbv zeta; rewrite ?Hg.
  - split; [done|]. split; [exists 0%nat; split; [done | lia]|].
    intros hms Hhms _. split; [by eapply Hl | by apply gets_Forall].
  - split; [done|]. split.
    + exists n. split; [done|]. intros _. exists hms. by rewrite Hl.
    + intros ys ->%Hl Hnamed. by destruct Hno.
Qed.

(** ** Listeners and pools *)

(** The pair of fields [reconcileLBPort] is called with: two distinct ones. *)
Class PtrPair (lp pp : ptr OVHCluster) : Prop := {
  load_listener v s : load lp (store lp v s) = v;
  load_pool v s : load pp (store pp v s) = v;
  pool_of_listener v s : load pp (store lp v s) = load pp s;
  listener_of_pool v s : load lp (store pp v s) = load lp s;
}.

#[export] Instance api_ptrs : PtrPair ListenerIDPtr PoolIDPtr.
Proof. by split. Qed.
#[export] Instance register_ptrs : PtrPair RegisterListenerIDPtr RegisterPoolIDPtr.
Proof. by split. Qed.

Definition listener_create (c : Client) (name : string) (port : Z) (lbID : string) : request :=
  mkRequest POST (regionPath c "/loadbalancing/listener" [])
    (BListener (mkCreateListenerOpts name apiServerProtocol port lbID "")) TListener.

Definition pool_create (c : Client) (name listenerID lbID : string) : request :=
  mkRequest POST (regionPath c "/loadbalancing/pool" [])
    (BPool (mkCreatePoolOpts name apiServerProtocol lbAlgorithm listenerID lbID)) TPool.

(** The listing at [path] was answered in [t], and nothing in the answer
    satisfies [P]. *)
Definition listed_without {T} (path : string) (P : den T -> Prop) (t : list obs) : Prop :=
  exists xs, listed (T := T) path xs t /\ forall x, x ∈ xs -> ~ P x.

Lemma listed_without_mono {T} path (P : den T -> Prop) t t' :
  (forall o, o ∈ t -> o ∈ t') -> listed_without (T := T) path P t -> listed_without (T := T) path P t'.
Proof. intros Hsub (xs & Hl & Hno). exists xs. split; [by apply Hsub | done]. Qed.

(** A step "find it or create it" for the field [p]: it does nothing when the
    field is set, and creates with [rq] only when the listing has nothing that
    satisfies [P]. *)
Definition find_or_create {T} (path : string) (P : den T -> Prop) (rq : request)
    (p : ptr OVHCluster) (s : OVHCluster) (t : list obs) (s' : OVHCluster) : Prop :=
  (load p s <> ""%string -> t = [] /\ s' = s)
  /\ (s' = s \/ exists v, s' = store p v s)
  /\ exists n, filter (fun rq => req_method rq <> GET) (requests t) = replicate n rq
       /\ (0 < n -> listed_without (T := T) path P t)%nat.

Lemma ensure_listener_spec scope name port lbID lp s t r s' :
  exec (ensure_listener scope name port lbID lp s) t (r, s') ->
  find_or_create (T := TListener) (regionPath (CScope_OVHClient scope) "/loadbalancing/listener" [])
    (fun l => Listener_Name l = name /\ lbID ∈ Listener_LoadBalancerIDs l)
    (listener_create (CScope_OVHClient scope) name port lbID) lp s t s'.
Proof.
  unfold ensure_listener. intros H. rewrite gets_bind in H. case_decide as Hid.
  2:{ exec_inv H. split_and!; [done | by left|]. exists 0%nat. split; [done | lia]. }
  split; [done|].
  apply (exec_lookup (T := TListener) _ _ _ _ _ _ _ _ _ (FindListenerByName_looks _ _ _)) in H
    as [(Hg & -> & _ & _)|(t1 & ls & t2 & -> & Hg & Hl & H)].
  { split; [by left|]. exists 0%nat. split; [done | lia]. }
  rewrite requests_app, filter_app, Hg. destruct (first_match _ ls) as [l|] eqn:Hfm.
  { exec_all. split; [by right; eexists|]. exists 0%nat. split; [done | lia]. }
  pose proof (first_match_no _ _ Hfm) as Hno.
  apply (exec_create _ (listener_create (CScope_OVHClient scope) name port lbID)) in H
    as (t3 & t4 & rh & -> & (n & _ & Hn)%retried_others & Hk); [|done].
  assert (Hs : t4 = [] /\ (s' = s \/ exists v, s' = store lp v s)).
  { destruct Hk as [(-> & -> & _)|(x & _ & Hk)]; [auto|]. exec_all. eauto. }
  destruct Hs as [-> Hs]. rewrite app_nil_r, Hn. split; [done|]. exists n. split; [done|].
  intros _. exists ls. split; [apply elem_of_app; left; by apply Hl | done].
Qed.

Lemma ensure_pool_spec scope name lbID lp pp s t r s' :
  exec (ensure_pool scope name lbID lp pp s) t (r, s') ->
  find_or_create (T := TPool) (regionPath (CScope_OVHClient scope) "/loadbalancing/pool" [])
    (fun p => Pool_Name p = name /\ Pool_LoadBalancerID p = lbID)
    (pool_create (CScope_OVHClient scope) name (load lp s) lbID) pp s t s'.
Proof.
  unfold ensure_pool. intros H. rewrite gets_bind in H. case_decide as Hid.
  2:{ exec_inv H. split_and!; [done | by left|]. exists 0%nat. split; [done | lia]. }
  split; [done|].
  apply (exec_lookup (T := TPool) _ _ _ _ _ _ _ _ _ (FindPoolByName_looks _ _ _)) in H
    as [(Hg & -> & _ & _)|(t1 & ps & t2 & -> & Hg & Hl & H)].
  { split; [by left|]. exists 0%nat. split; [done | lia]. }
  rewrite requests_app, filter_app, Hg. destruct (first_match _ ps) as [p|] eqn:Hfm.
  { exec_all. split; [by right; eexists|]. exists 0%nat. split; [done | lia]. }
  pose proof (first_match_no _ _ Hfm) as Hno. rewrite gets_bind in H.
  apply (exec_create _ (pool_create (CScope_OVHClient scope) name (load lp s) lbID)) in H
    as (t3 & t4 & rh & -> & (n & _ & Hn)%retried_others & Hk); [|done].
  assert (Hs : t4 = [] /\ (s' = s \/ exists v, s' = store pp v s)).
  { destruct Hk as [(-> & -> & _)|(x & _ & Hk)]; [auto|]. exec_all. eauto. }
  destruct Hs as [-> Hs]. rewrite app_nil_r, Hn. split; [done|]. exists n. split; [done|].
  intros _. exists ps. split; [apply elem_of_app; left; by apply Hl | done].
Qed.

(** The requests of such a step. *)
Lemma find_or_create_requests {T} path (P : den T -> Prop) rq p s t s' :
  find_or_create (T := T) path P rq p s t s' ->
  Forall (fun rq' => req_method rq' = GET
            \/ (rq' = rq /\ load p s = ""%string /\ listed_without (T := T) path P t)) (requests t).
Proof.
  intros (Hset & _ & n & Hn & Hw). destruct (decide (load p s = ""%string)) as [He|He].
  - apply only_creates in Hn. eapply Forall_impl; [exact Hn|].
    intros rq' [?|[-> ?]]; [by left | right; auto].
  - destruct (Hset He) as [-> _]. constructor.
Qed.

(** What [reconcileLBPort] may ask for, in a run with trace [t]: reads; a
    listener or a pool, if none was recorded ([l0], [p0]) and the listing had
    none of the name on this load balancer, the pool for the listener [l]; and a
    health monitor for the pool [p]. *)
Definition port_request (c : Client) (name : string) (port : Z) (lbID l0 p0 l p : string)
    (t : list obs) (rq : request) : Prop :=
  req_method rq = GET
  \/ (rq = listener_create c name port lbID /\ l0 = ""%string
      /\ listed_without (T := TListener) (regionPath c "/loadbalancing/listener" [])
           (fun l => Listener_Name l = name /\ lbID ∈ Listener_LoadBalancerIDs l) t)
  \/ (rq = pool_create c (name ++ "-pool") l lbID /\ p0 = ""%string
      /\ listed_without (T := TPool) (regionPath c "/loadbalancing/pool" [])
           (fun p => Pool_Name p = (name ++ "-pool")%string /\ Pool_LoadBalancerID p = lbID) t)
  \/ rq = hm_create c (name ++ "-pool-hm") p.

Lemma port_requests_app c name port lbID l0 p0 l p t1 t2 :
  Forall (port_request c name port lbID l0 p0 l p t1) (requests t1) ->
  Forall (port_request c name port lbID l0 p0 l p t2) (requests t2) ->
  Forall (port_request c name port lbID l0 p0 l p (t1 ++ t2)) (requests (t1 ++ t2)).
Proof.
  intros H1 H2. rewrite requests_app, Forall_app.
  split; (eapply Forall_impl; [eassumption|]); intros rq [H|[(? & ? & H)|[(? & ? & H)|H]]];
    unfold port_request; auto; [right; left|right; right; left|right; left|right; right; left];
    (split_and!; [done | done | eapply listed_without_mono; [|exact H]]; intros o Ho;
     apply elem_of_app; auto).
Qed.

(** C18: [reconcileLBPort] is idempotent: it never overwrites a recorded ID; it
    creates a listener (a pool) only when none is recorded and the project's
    listing had none of that name on this load balancer; apart from these and
    the pool's health monitor it creates nothing, and the pool it creates is for
    the listener then recorded. *)
Theorem reconcileLBPort_idempotent scope name port lp pp `{!PtrPair lp pp} s t r s' :
  exec (reconcileLBPort scope name port lp pp s) t (r, s') ->
  let lbID := CStatus_LoadBalancerID (OVHCluster_Status s) in
  (load lp s <> ""%string -> load lp s' = load lp s)
  /\ (load pp s <> ""%string -> load pp s' = load pp s)
  /\ Forall (port_request (CScope_OVHClient scope) name port lbID (load lp s) (load pp s)
               (load lp s') (load pp s') t) (requests t).
Proof.
  intros H. cbv zeta. unfold reconcileLBPort in H.
  change (cstatus ≫= ?k) with (gets OVHCluster_Status ≫= k) in H. rewrite gets_bind in H.
  set (lbID := CStatus_LoadBalancerID (OVHCluster_Status s)) in *.
  apply exec_m_try in H as [(e & s1 & Hl & [= -> ->])|(t1 & [] & s1 & t2 & -> & Hl & H)];
    apply ensure_listener_spec in Hl; pose proof (find_or_create_requests _ _ _ _ _ _ _ Hl) as Hlr;
    destruct Hl as (Hlset & Hlst & _);
    (assert (Hp1 : load pp s1 = load pp s)
      by by destruct Hlst as [->|[v ->]]; rewrite ?pool_of_listener).
  { rewrite Hp1. split_and!; [intros Hne; by destruct (Hlset Hne) as [_ ->] | done |].
    eapply Forall_impl; [exact Hlr|]. unfold port_request. tauto. }
  apply exec_m_try in H as [(e & s2 & Hp & [= -> ->])|(t3 & [] & s2 & t4 & -> & Hp & H)];
    apply ensure_pool_spec in Hp; pose proof (find_or_create_requests _ _ _ _ _ _ _ Hp) as Hpr;
    destruct Hp as (Hpset & Hpst & _);
    (assert (Hl2 : load lp s2 = load lp s1)
      by by destruct Hpst as [->|[v ->]]; rewrite ?listener_of_pool).
  2:{ rewrite gets_bind in H. exec_all. apply hm_requests in H0 as [-> Hh]. rewrite app_nil_r, Hl2. split_and!.
      - intros Hne. by destruct (Hlset Hne) as [_ ->].
      - intros Hne. rewrite <- Hp1 in Hne. by destruct (Hpset Hne) as [_ ->].
      - repeat apply port_requests_app;
          [eapply Forall_impl; [exact Hlr|] | eapply Forall_impl; [exact Hpr|]
          |eapply Forall_impl; [exact Hh|]];
          rewrite ?Hp1; unfold port_request; rewrite ?append_assoc; tauto. }
  rewrite Hl2. split_and!.
  - intros Hne. by destruct (Hlset Hne) as [_ ->].
  - intros Hne. rewrite <- Hp1 in Hne. by destruct (Hpset Hne) as [_ ->].
  - repeat apply port_requests_app;
      [eapply Forall_impl; [exact Hlr|] | eapply Forall_impl; [exact Hpr|]];
      rewrite ?Hp1; unfold port_request; tauto.
Qed.

End facts.
