(* ===== verification/FloatingIPFacts.v ===== *)
(** * The floating IP of a cluster

    Which requests the step makes, when it allocates an address, where the address
    comes from, and what a normal pass makes of the published endpoint. *)

From S2P Require Import Prelude GoStrings Errors OvhTypes ApiTypes Effects Client Names StringFacts.
From S2P Require Import NamesFacts Logic ClientFacts ClusterController ClusterFacts.
From S2P Require Import ClusterDeleteFacts ClusterStepFacts.

Local Open Scope Z_scope.

Section facts.
Context `{U : Unicode} `{C : CAPI} (scope : ClusterScope) (lb : LoadBalancer).

#[local] Notation client := (CScope_OVHClient scope).

(** ** The requests of the step *)

(** The call that allocates an address and attaches it to the load balancer, and the
    one that opens the gateway. *)
Definition allocation : request :=
  mkRequest POST (regionPath client "/loadbalancing/loadbalancer/%s/floatingIp" [AS (LoadBalancer_ID lb)])
    (BLBFloatingIP (LoadBalancer_VIPAddress lb) "s" (gateway_name scope)) TFloatingIP.

Definition exposure (gateway : string) : request :=
  mkRequest POST (regionPath client "/gateway/%s/expose" [AS gateway]) NoBody TNone.

Definition fip_request (rq : request) : Prop :=
  req_method rq = GET \/ rq = allocation \/ exists g, rq = exposure g.

Definition fip_event (e : event) : Prop :=
  match e with EApi rq => fip_request rq | _ => True end.

Lemma fip_requests : only_m fip_event (reconcileFloatingIP scope lb).
Proof.
  repeat only_rule; try done; try (by left); right; first [by left | right; by eexists].
Qed.

(** What the step may record. *)
Definition unrecorded (o : OVHCluster) : OVHCluster :=
  set_c_FloatingIPID "" (set_c_GatewayID "" (set_c_GatewayExposed false o)).

Definition records_address (o o' : OVHCluster) : Prop := unrecorded o' = unrecorded o.

#[local] Instance records_preorder : PreOrder records_address.
Proof. split; unfold records_address; [done | congruence]. Qed.

Lemma fip_records : keeps records_address (reconcileFloatingIP scope lb).
Proof. auto with prog. Qed.

(** The step without the record of the address. *)
Definition same_address (o o' : OVHCluster) : Prop :=
  CStatus_FloatingIPID (OVHCluster_Status o') = CStatus_FloatingIPID (OVHCluster_Status o).

#[local] Instance same_address_preorder : PreOrder same_address.
Proof. split; unfold same_address; [done | congruence]. Qed.

Lemma expose_same : keeps same_address (try_expose scope).
Proof. auto with prog. Qed.

(** ** Allocations *)

Definition allocates (rq : request) : Prop :=
  match req_body rq with BLBFloatingIP _ _ _ => True | _ => False end.

#[export] Instance allocates_dec rq : Decision (allocates rq).
Proof. unfold allocates. destruct (req_body rq); apply _. Defined.

Definition allocations (t : list obs) : list request := filter allocates (requests t).

Definition no_allocation (e : event) : Prop :=
  match e with EApi rq => ~ allocates rq | _ => True end.

Lemma allocations_app t1 t2 : allocations (t1 ++ t2) = allocations t1 ++ allocations t2.
Proof. unfold allocations. by rewrite requests_app, filter_app. Qed.

Lemma no_allocation_nil t : Forall (fun o => no_allocation (obs_event o)) t -> allocations t = [].
Proof.
  intros H%(requests_Forall no_allocation). unfold allocations.
  induction H as [|rq rqs Hrq H IH]; [done|]. by rewrite filter_cons_False.
Qed.

Lemma none_allocated {A} (m : M OVHCluster A) o t r :
  only_m no_allocation m -> exec (m o) t r -> allocations t = [].
Proof. intros Hm H. eapply no_allocation_nil, only_m_exec; [exact Hm | exact H]. Qed.

(** ** Where an address comes from *)

Definition answered (rq : request) (a : den (req_out rq)) (t : list obs) : Prop :=
  Obs (EApi rq) (Ok a) ∈ t.

Definition fip_listing : string := regionPath client "/floatingip" [].
Definition fip_reading (id : string) : request :=
  mkRequest GET (regionPath client "/floatingip/%s" [AS id]) NoBody TFloatingIP.
Definition lb_reading : request :=
  mkRequest GET (regionPath client "/loadbalancing/loadbalancer/%s" [AS (LoadBalancer_ID lb)])
    NoBody TLoadBalancer.

(** [t] shows the address [ip] under the ID [id], if [recorded] is the recorded ID. *)
Inductive shown (recorded : string) (t : list obs) : string -> string -> Prop :=
| shown_lb f : LoadBalancer_FloatingIP lb = Some f ->
    shown recorded t (FloatingIPRef_ID f) (FloatingIPRef_IP f)
| shown_record f : recorded <> ""%string -> answered (fip_reading recorded) f t ->
    shown recorded t recorded (FloatingIP_IP f)
| shown_list fs f : listed (T := TFloatingIP) fip_listing fs t -> f ∈ fs ->
    fip_of_lb (LoadBalancer_ID lb) f = true -> shown recorded t (FloatingIP_ID f) (FloatingIP_IP f)
| shown_reread lb' f : answered lb_reading lb' t -> LoadBalancer_FloatingIP lb' = Some f ->
    shown recorded t (FloatingIPRef_ID f) (FloatingIPRef_IP f).

(** The address [ip], if there is one yet, is recorded in [o]. *)
Definition found_address (recorded : string) (t : list obs) (ip : string) (o : OVHCluster) : Prop :=
  ip = ""%string \/ shown recorded t (CStatus_FloatingIPID (OVHCluster_Status o)) ip.

Lemma shown_mono recorded t t' id ip :
  (forall x, x ∈ t -> x ∈ t') -> shown recorded t id ip -> shown recorded t' id ip.
Proof.
  intros Hi [f Hf|f Hr Ha|fs f Hl Hf Hb|lb' f Ha Hf].
  - by apply shown_lb.
  - apply shown_record; [done|]. by apply Hi.
  - eapply shown_list; [by apply Hi | done..].
  - eapply shown_reread; [by apply Hi | done].
Qed.

Lemma found_mono recorded t t' ip o :
  (forall x, x ∈ t -> x ∈ t') -> found_address recorded t ip o -> found_address recorded t' ip o.
Proof. intros Hi [->|H]; [by left|]. right. by eapply shown_mono. Qed.

(** The floating IPs were listed in [t]: the listing failed, or has none of the load
    balancer. *)
Definition none_listed (t : list obs) : Prop :=
  exists r ta tb tc, t = ta ++ tb ++ tc /\ exec (ListFloatingIPs client) tb r
    /\ forall fs, r = Ok fs -> Forall (fun f => fip_of_lb (LoadBalancer_ID lb) f = false) fs.

(** The recorded address was read in [t], and is gone. *)
Definition address_gone (o : OVHCluster) (t : list obs) : Prop :=
  exists e ta tb tc, t = ta ++ tb ++ tc
    /\ exec (GetFloatingIP client (CStatus_FloatingIPID (OVHCluster_Status o))) tb (Err e)
    /\ IsNotFound (Some e) = true.

(** The load balancer shows no address. *)
Definition bare_lb : Prop := forall f, LoadBalancer_FloatingIP lb = Some f -> FloatingIPRef_IP f = ""%string.

(** [t] allocates nothing, or one address: the same request, repeated, after all
    that [before] says of what precedes it. *)
Definition allocates_once (before : list obs -> Prop) (t : list obs) : Prop :=
  allocations t = []
  \/ exists n ta tb, (1 <= n <= 6)%nat /\ t = ta ++ tb /\ allocations ta = [] /\ before ta
       /\ allocations tb = replicate n allocation /\ LoadBalancer_VIPAddress lb <> ""%string.

(** [t] ends with the allocation, which fails, and [e] is its error. *)
Definition allocation_failed (t : list obs) (e : error) : Prop :=
  exists e0 ta tb, t = ta ++ tb
    /\ exec (CreateLoadBalancerFloatingIP client (LoadBalancer_ID lb) (LoadBalancer_VIPAddress lb)
              (gateway_name scope)) tb (Err e0)
    /\ e = Errorf "allocating floating IP for LB: %w" [AE e0].

Lemma allocation_failed_app t0 t e : allocation_failed t e -> allocation_failed (t0 ++ t) e.
Proof. intros (e0 & ta & tb & -> & H). exists e0, (t0 ++ ta), tb. by rewrite app_assoc. Qed.

(** ** The parts *)

Lemma ListFloatingIPs_listed t fs :
  exec (ListFloatingIPs client) t (Ok fs) -> listed (T := TFloatingIP) fip_listing fs t.
Proof. apply (lists_Ok (T := TFloatingIP)), lists_retry. Qed.

Lemma GetFloatingIP_answered id t f :
  exec (GetFloatingIP client id) t (Ok f) -> answered (fip_reading id) f t.
Proof.
  intros ([a|e] & H & E)%exec_wrap; [|done]. injection E as ->.
  apply retry_sound, retried_Ok in H as [t' ->]. apply elem_of_app. right. by apply list_elem_of_singleton.
Qed.

Lemma GetLoadBalancer_answered t x :
  exec (GetLoadBalancer client (LoadBalancer_ID lb)) t (Ok x) -> answered lb_reading x t.
Proof.
  intros ([a|e] & H & E)%exec_wrap; [|done]. injection E as ->.
  apply retry_sound, retried_Ok in H as [t' ->]. apply elem_of_app. right. by apply list_elem_of_singleton.
Qed.

Lemma discover_runs recorded o t found o' :
  exec (discover_fip scope lb o) t (found, o') ->
  match found with
  | None => o' = o /\ none_listed t
  | Some ip => found_address recorded t ip o'
  end.
Proof.
  unfold discover_fip. intros H. apply exec_m_bind in H as (t1 & r & s1 & t2 & -> & H1 & H).
  apply exec_m_lift in H1 as (r' & H1 & [= -> ->]). destruct r' as [fs|e].
  - destruct (first_match _ fs) as [f|] eqn:Ef.
    + apply first_match_sound in Ef as [Hb Hf].
      apply exec_m_bind in H as (t3 & [] & s2 & t4 & -> & H2 & H). exec_inv H2. case_decide as Hip.
      * apply exec_m_bind in H as (t5 & [] & s3 & t6 & -> & H3 & H).
        pose proof (keeps_exec same_address _ _ _ _ expose_same H3) as Es. exec_inv H.
        right. unfold same_address in Es. cbn [snd] in Es. rewrite Es. cbn.
        eapply shown_list; [|exact Hf|exact Hb]. apply elem_of_app. left. by apply ListFloatingIPs_listed.
      * exec_inv H. by left.
    + exec_inv H. split; [done|]. exists (Ok fs), [], t1, []. split; [done|]. split; [done|].
      intros fs' [= <-]. by apply first_match_None.
  - exec_inv H. split; [done|]. by exists (Err e), [], t1, [].
Qed.

Lemma find_allocated_runs recorded o t ip o' :
  exec (find_allocated_fip scope lb o) t (ip, o') -> found_address recorded t ip o'.
Proof.
  unfold find_allocated_fip. intros H. apply exec_m_bind in H as (t1 & r & s1 & t2 & -> & H1 & H).
  apply exec_m_lift in H1 as (r' & H1 & [= -> ->]).
  apply exec_m_bind in H as (t3 & found & s2 & t4 & -> & H2 & H).
  assert (Hfound : match found with
                   | Some ip => shown recorded (t1 ++ t3) (CStatus_FloatingIPID (OVHCluster_Status s2)) ip
                   | None => s2 = o
                   end).
  { destruct r' as [[? ? ? ? ? ? ? ? ? ? ? [f|] ?]|e]; [case_decide| |]; exec_all; try done.
    eapply shown_reread; [apply elem_of_app; left; by apply GetLoadBalancer_answered | done]. }
  clear H2. destruct found as [ip'|].
  - exec_inv H. rewrite app_nil_r. by right.
  - subst s2. apply exec_m_bind in H as (t5 & r & s3 & t6 & -> & H3 & H).
    apply exec_m_lift in H3 as (r3 & H3 & [= -> ->]). destruct r3 as [fs|e]; [|exec_inv H; by left].
    destruct (first_match _ fs) as [f|] eqn:Ef; [|exec_inv H; by left].
    apply first_match_sound in Ef as [Hb Hf]. exec_all. right. cbn.
    apply ListFloatingIPs_listed in H3. eapply shown_list; [|exact Hf|exact Hb].
    unfold listed in *. rewrite !elem_of_app. auto.
Qed.

(** The allocation and what follows it. *)
Lemma CreateLoadBalancerFloatingIP_allocates t r :
  exec (CreateLoadBalancerFloatingIP client (LoadBalancer_ID lb) (LoadBalancer_VIPAddress lb)
          (gateway_name scope)) t r ->
  exists n, (1 <= n <= 6)%nat /\ allocations t = replicate n allocation.
Proof.
  intros (r0 & H & _)%exec_wrap.
  apply (retry_sound _ allocation), retried_requests in H as (n & Hn & H).
  exists (S n). split; [unfold maxRetries in Hn; lia|]. unfold allocations. rewrite H. clear.
  induction (S n) as [|k IH]; [done|]. cbn [replicate]. rewrite filter_cons_True by done. by rewrite IH.
Qed.

Lemma discover_allocates : only_m no_allocation (discover_fip scope lb).
Proof. repeat only_rule; try done; cbn; tauto. Qed.

Lemma expose_allocates : only_m no_allocation (try_expose scope).
Proof. repeat only_rule; try done; cbn; tauto. Qed.

Lemma find_allocates : only_m no_allocation (find_allocated_fip scope lb).
Proof. repeat only_rule; try done; cbn; tauto. Qed.

Lemma allocate_runs recorded o t r o' :
  exec (allocate_fip scope lb o) t (r, o') ->
  allocates_once none_listed t
  /\ match r with
     | Ok ip => found_address recorded t ip o'
     | Err e => allocation_failed t e
     end.
Proof.
  unfold allocate_fip. intros H. apply exec_m_bind in H as (t1 & found & s1 & t2 & -> & H1 & H).
  pose proof (none_allocated _ _ _ _ discover_allocates H1) as N1.
  apply (discover_runs recorded) in H1. destruct found as [ip|].
  { exec_inv H. rewrite app_nil_r. split; [by left | exact H1]. }
  destruct H1 as [-> Hnone]. case_decide as Hvip.
  { exec_inv H. rewrite app_nil_r. split; [by left | by left]. }
  apply exec_m_try in H as [(e & s2 & H & [= -> ->])|(t3 & f & s2 & t4 & -> & H2 & H)].
  - apply exec_m_wrap in H as (r0 & s3 & H & [= E ->]). apply exec_m_lift in H as (r1 & H & [= -> ->]).
    pose proof H as (n & Hn & Ha)%CreateLoadBalancerFloatingIP_allocates. split.
    + right. by exists n, t1, t2.
    + destruct r1 as [f|e0]; [done|]. injection E as ->. by exists e0, t1, t2.
  - apply exec_m_wrap in H2 as (r0 & s3 & H2 & [= E ->]). apply exec_m_lift in H2 as (r1 & H2 & [= -> ->]).
    apply CreateLoadBalancerFloatingIP_allocates in H2 as (n & Hn & Ha).
    apply exec_m_bind in H as (t5 & [] & s4 & t6 & -> & H3 & H).
    pose proof (none_allocated _ _ _ _ expose_allocates H3) as N3.
    apply exec_m_bind in H as (t7 & ip & s5 & t8 & -> & H4 & H).
    pose proof (none_allocated _ _ _ _ find_allocates H4) as N4.
    apply (find_allocated_runs recorded) in H4. exec_inv H. rewrite app_nil_r. split.
    + right. exists n, t1, (t3 ++ t5 ++ t7). split_and!; try done; try lia.
      by rewrite !allocations_app, N3, N4, Ha, !app_nil_r.
    + eapply found_mono; [|exact H4]. intros x Hx. rewrite !elem_of_app. auto.
Qed.

(** ** The step *)

(** The address the load balancer shows. *)
Definition attached : M OVHCluster (option string) :=
  match LoadBalancer_FloatingIP lb with
  | Some fip =>
    if decide (FloatingIPRef_IP fip <> "") then
      modify (set_c_FloatingIPID (FloatingIPRef_ID fip)) ;;
      try_expose scope ;;
      mret (Some (FloatingIPRef_IP fip))
    else mret None
  | None => mret None
  end.

Lemma attached_runs recorded o t found o' :
  exec (attached o) t (found, o') ->
  allocations t = []
  /\ match found with Some ip => found_address recorded t ip o' | None => o' = o /\ bare_lb end.
Proof.
  unfold attached. intros H. destruct (LoadBalancer_FloatingIP lb) as [f|] eqn:Ef; [case_decide as Hip|].
  - apply exec_m_bind in H as (t1 & [] & s1 & t2 & -> & H1 & H). exec_inv H1.
    apply exec_m_bind in H as (t3 & [] & s3 & t4 & -> & H3 & H).
    pose proof (none_allocated _ _ _ _ expose_allocates H3) as N3.
    pose proof (keeps_exec same_address _ _ _ _ expose_same H3) as Es. exec_inv H. rewrite app_nil_r.
    split; [exact N3|]. right. unfold same_address in Es. cbn [snd] in Es. rewrite Es. by apply shown_lb.
  - exec_inv H. split_and!; [done..|]. intros f' Hf'. rewrite Ef in Hf'. by injection Hf' as <-.
  - exec_inv H. split_and!; [done..|]. intros f' Hf'. by rewrite Ef in Hf'.
Qed.

Lemma allocates_mono (before before' : list obs -> Prop) t0 t :
  allocations t0 = [] -> (forall ta, before ta -> before' (t0 ++ ta)) ->
  allocates_once before t -> allocates_once before' (t0 ++ t).
Proof.
  intros N0 Hb [H|(n & ta & tb & Hn & -> & Ha & H & Hr)]; [left; by rewrite allocations_app, N0|].
  right. exists n, (t0 ++ ta), tb. split_and!; try apply Hr; try done; try apply Hn; auto.
  - by rewrite <- app_assoc.
  - by rewrite allocations_app, N0.
Qed.

Lemma none_listed_app t0 t : none_listed t -> none_listed (t0 ++ t).
Proof. intros (r & ta & tb & tc & -> & H). exists r, (t0 ++ ta), tb, tc. by rewrite <- !app_assoc. Qed.

(** What follows when the load balancer shows none. *)
Definition resumed : M OVHCluster (res string) :=
  st ← cstatus;
  if decide (CStatus_FloatingIPID st <> "") then
    try_expose scope ;;
    fip ← lift (GetFloatingIP client (CStatus_FloatingIPID st));
    match allocated_ip fip with
    | Some ip => mret (Ok ip)
    | None =>
      if IsNotFound (err_of fip) then
        modify (set_c_FloatingIPID "") ;;
        allocate_fip scope lb
      else mret (Ok "")
    end
  else allocate_fip scope lb.

Definition why (o : OVHCluster) (ta : list obs) : Prop :=
  none_listed ta /\ (CStatus_FloatingIPID (OVHCluster_Status o) = ""%string \/ address_gone o ta).

Lemma resumed_runs o t r o' :
  exec (resumed o) t (r, o') ->
  allocates_once (why o) t
  /\ match r with
     | Ok ip => found_address (CStatus_FloatingIPID (OVHCluster_Status o)) t ip o'
     | Err e => allocation_failed t e
     end.
Proof.
  unfold resumed, cstatus, why. intros H. rewrite gets_bind in H.
  set (recorded := CStatus_FloatingIPID (OVHCluster_Status o)) in *. case_decide as Hrec.
  2:{ apply (allocate_runs recorded) in H as [Ha Hr]. split; [|exact Hr].
      eapply (allocates_mono none_listed _ []); [done | | exact Ha]. intros ta Hl. split; [done | by left]. }
  apply exec_m_bind in H as (t3 & [] & s3 & t4 & -> & H3 & H).
  pose proof (none_allocated _ _ _ _ expose_allocates H3) as N3.
  pose proof (keeps_exec same_address _ _ _ _ expose_same H3) as Es.
  apply exec_m_bind in H as (t5 & f & s5 & t6 & -> & H5 & H).
  apply exec_m_lift in H5 as (f' & H5 & [= -> ->]).
  assert (N5 : allocations t5 = []).
  { eapply no_allocation_nil, only_exec; [|exact H5]. repeat only_rule; try done; cbn; tauto. }
  destruct (allocated_ip f') as [ip|] eqn:Ei; [|case_match eqn:En].
  - exec_inv H. split; [left; by rewrite !allocations_app, N3, N5|]. right.
    unfold same_address in Es. cbn [snd] in Es. rewrite Es. fold recorded.
    destruct f' as [f'|]; [|done]. cbn in Ei. case_decide; [|done]. injection Ei as <-.
    apply shown_record; [done|]. apply GetFloatingIP_answered in H5. unfold answered in *.
    rewrite !elem_of_app. auto.
  - apply exec_m_bind in H as (t7 & [] & s7 & t8 & -> & H7 & H). exec_inv H7.
    apply (allocate_runs recorded) in H as [Ha Hr]. rewrite (app_assoc t3). split.
    + eapply allocates_mono; [by rewrite allocations_app, N3, N5 | | exact Ha]. intros ta Hl.
      split; [by apply none_listed_app|]. right.
      destruct f' as [f'|e]; [done|]. exists e, t3, t5, ta. by rewrite <- app_assoc.
    + destruct r as [ip|e]; [|by apply allocation_failed_app].
      eapply found_mono; [|exact Hr]. intros x Hx. apply elem_of_app. by right.
  - exec_inv H. split; [left; by rewrite !allocations_app, N3, N5 | by left].
Qed.

Lemma why_app o t0 ta : why o ta -> why o (t0 ++ ta).
Proof.
  intros [Hn Hr]. split; [by apply none_listed_app|].
  destruct Hr as [?|(e & tx & ty & tz & -> & H)]; [by left|]. right.
  exists e, (t0 ++ tx), ty, tz. by rewrite <- app_assoc.
Qed.

Lemma reconcileFloatingIP_runs o t r o' :
  exec (reconcileFloatingIP scope lb o) t (r, o') ->
  Forall fip_request (requests t) /\ records_address o o'
  /\ allocates_once (fun ta => bare_lb /\ why o ta) t
  /\ match r with
     | Ok ip => found_address (CStatus_FloatingIPID (OVHCluster_Status o)) t ip o'
     | Err e => allocation_failed t e
     end.
Proof.
  intros H. split; [exact (only_m_requests fip_event _ _ _ _ fip_requests H)|].
  split; [exact (keeps_exec records_address _ _ _ _ fip_records H)|].
  unfold reconcileFloatingIP in H. fold attached in H.
  apply exec_m_bind in H as (t1 & found & s1 & t2 & -> & H1 & H).
  apply (attached_runs (CStatus_FloatingIPID (OVHCluster_Status o))) in H1 as [N1 H1].
  destruct found as [ip|].
  { exec_inv H. rewrite app_nil_r. split; [by left | exact H1]. }
  destruct H1 as [-> Hbare]. apply resumed_runs in H as [Ha Hr]. split.
  - eapply allocates_mono; [exact N1 | | exact Ha]. intros ta Hw. split; [done | by apply why_app].
  - destruct r as [ip|e]; [|by apply allocation_failed_app].
    eapply found_mono; [|exact Hr]. intros x Hx. apply elem_of_app. by right.
Qed.

(** C20: the floating IP of a cluster. The step makes no request but reads, the
    allocation of an address for the load balancer, and the exposure of the gateway;
    it never attaches an address that exists. It allocates at most once (one request,
    repeated at most five times), and only when the load balancer has a VIP and shows
    no address, none is recorded or the recorded one is gone, and a listing right
    before failed or has none of the load balancer. What it returns is what the load
    balancer shows, what the recorded ID has, attached or not, or what a listing has
    for the load balancer; it is recorded, and nothing else of the object changes but
    the gateway. It fails only when the allocation does: the allocation is then the
    last thing it did, and its error is the one returned, wrapped. *)
Theorem reconcileFloatingIP_spec o t r o' :
  exec (reconcileFloatingIP scope lb o) t (r, o') ->
  Forall fip_request (requests t) /\ records_address o o'
  /\ allocates_once (fun ta => bare_lb /\ why o ta) t
  /\ match r with
     | Ok ip => found_address (CStatus_FloatingIPID (OVHCluster_Status o)) t ip o'
     | Err e => allocation_failed t e
     end.
Proof. apply reconcileFloatingIP_runs. Qed.
End facts.

(** ** The endpoint of the cluster *)

Section endpoint.
Context `{U : Unicode} `{C : CAPI}.

(** The request that reads the load balancer of ID [id]. *)
Definition lb_get (c : Client) (id : string) : request :=
  mkRequest GET (regionPath c "/loadbalancing/loadbalancer/%s" [AS id]) NoBody TLoadBalancer.

(** The floating IP a pass starts from: the recorded one, else the one to adopt. *)
Definition known_fip (o : OVHCluster) : string :=
  if decide (CStatus_FloatingIPID (OVHCluster_Status o) = "") then
    LBConfig_ExistingFloatingIPID (CSpec_LoadBalancerConfig (OVHCluster_Spec o))
  else CStatus_FloatingIPID (OVHCluster_Status o).

(** [host] is the address of [lb]: its VIP, or, if the spec asks for a floating IP,
    one that [t] shows for it, and that [o'] records. *)
Definition address_of (scope : ClusterScope) (lb : LoadBalancer) (o : OVHCluster) (t : list obs)
    (o' : OVHCluster) (host : string) : Prop :=
  if decide (LBConfig_FloatingNetworkID (CSpec_LoadBalancerConfig (OVHCluster_Spec o)) = "")
  then host = LoadBalancer_VIPAddress lb
  else shown scope lb (known_fip o) t (CStatus_FloatingIPID (OVHCluster_Status o')) host.

(** [host] was published: it is the address of the recorded load balancer, which
    was read, and active, in [t]. *)
Definition published (scope : ClusterScope) (o : OVHCluster) (t : list obs) (o' : OVHCluster)
    (host : string) : Prop :=
  exists lb, Obs (EApi (lb_get (CScope_OVHClient scope)
                          (CStatus_LoadBalancerID (OVHCluster_Status o')))) (Ok lb) ∈ t
    /\ LoadBalancer_ProvisioningStatus lb = LBProvisioningStatusActive
    /\ address_of scope lb o t o' host.

(** The spec is the user's, but for a published endpoint. *)
Definition spec_step (P : string -> Prop) (o o' : OVHCluster) : Prop :=
  OVHCluster_Spec o' = OVHCluster_Spec o
  \/ APIEndpoint_Host (CSpec_ControlPlaneEndpoint (OVHCluster_Spec o)) = ""%string
     /\ exists host, host <> ""%string /\ P host
          /\ OVHCluster_Spec o' = OVHCluster_Spec
               (set_c_ControlPlaneEndpoint (mkAPIEndpoint host apiServerLBPort) o).

(** What the other steps keep. *)
Definition kept (o o' : OVHCluster) : Prop :=
  OVHCluster_Spec o' = OVHCluster_Spec o
  /\ CStatus_FloatingIPID (OVHCluster_Status o') = CStatus_FloatingIPID (OVHCluster_Status o)
  /\ CStatus_LoadBalancerID (OVHCluster_Status o') = CStatus_LoadBalancerID (OVHCluster_Status o).

#[local] Instance kept_preorder : PreOrder kept.
Proof.
  split; [done|]. intros o1 o2 o3 (? & ? & ?) (? & ? & ?). unfold kept. split_and!; congruence.
Qed.

Definition same_spec (o o' : OVHCluster) : Prop := OVHCluster_Spec o' = OVHCluster_Spec o.

#[local] Instance same_spec_preorder : PreOrder same_spec.
Proof. split; [done|]. intros o1 o2 o3 ? ?. unfold same_spec in *. congruence. Qed.

Lemma publish_endpoint_runs host o t out o' :
  exec (publish_endpoint host o) t (out, o') ->
  CStatus_FloatingIPID (OVHCluster_Status o') = CStatus_FloatingIPID (OVHCluster_Status o)
  /\ CStatus_LoadBalancerID (OVHCluster_Status o') = CStatus_LoadBalancerID (OVHCluster_Status o)
  /\ spec_step (eq host) o o'.
Proof.
  unfold publish_endpoint, cspec, mark_true, spec_step. intros H. rewrite gets_bind in H.
  case_bool_decide as Hb; exec_all; (split_and!; [done..|]); [right | by left].
  destruct Hb as [? ?]. split; [done|]. by exists host.
Qed.

Lemma handleExistingLB_runs scope lb o t out o' :
  exec (handleExistingLB scope lb o) t (out, o') -> known_fip o = CStatus_FloatingIPID (OVHCluster_Status o) ->
  spec_step (fun host => LoadBalancer_ProvisioningStatus lb = LBProvisioningStatusActive
    /\ CStatus_LoadBalancerID (OVHCluster_Status o') = CStatus_LoadBalancerID (OVHCluster_Status o)
    /\ address_of scope lb o t o' host) o o'.
Proof.
  unfold handleExistingLB, mark_false, address_of. intros H Hk.
  destruct (decide _) as [Ha|Ha%dec_stable] in H; [exec_all; by left|].
  apply exec_m_bind in H as (t1 & r1 & o1 & t2 & -> & H1 & H).
  assert (kept o o1) as K1 by (refine (keeps_exec kept _ _ _ _ _ H1); auto with prog).
  destruct r1 as [[]|e]; [|exec_inv H; left; apply K1].
  apply exec_m_bind in H as (t3 & r2 & o2 & t4 & -> & H2 & H).
  assert (kept o1 o2) as K2 by (refine (keeps_exec kept _ _ _ _ _ H2); auto with prog).
  assert (kept o o2) as (Ks & Kf & Kl) by by transitivity o1.
  destruct r2 as [[]|e]; [|exec_inv H; by left].
  unfold cspec in H. rewrite gets_bind, Ks in H.
  destruct (decide (LBConfig_FloatingNetworkID (CSpec_LoadBalancerConfig (OVHCluster_Spec o)) = ""%string)) as [Hf|Hf].
  - rewrite decide_False in H by tauto.
    apply publish_endpoint_runs in H as (_ & El & [E|(He & host & Hne & <- & E)]); [left; congruence|].
    right. rewrite <- Ks. split; [done|]. exists (LoadBalancer_VIPAddress lb).
    split_and!; [done | done | congruence | done | rewrite E; cbn; by rewrite Ks].
  - rewrite decide_True in H by done.
    apply exec_m_bind in H as (t5 & r3 & o3 & t6 & -> & H3 & H).
    apply reconcileFloatingIP_runs in H3 as (_ & Hrec & _ & H3).
    assert (OVHCluster_Spec o3 = OVHCluster_Spec o2) as Es3
      by exact (f_equal OVHCluster_Spec Hrec).
    assert (CStatus_LoadBalancerID (OVHCluster_Status o3) = CStatus_LoadBalancerID (OVHCluster_Status o2)) as El3
      by exact (f_equal (fun o => CStatus_LoadBalancerID (OVHCluster_Status o)) Hrec).
    destruct r3 as [ip|e]; [|exec_inv H; left; congruence].
    destruct (decide (ip = ""%string)) as [Hip|Hip] in H; [exec_inv H; left; congruence|].
    destruct H3 as [?|H3]; [done|].
    apply publish_endpoint_runs in H as (Ef & El & [E|(He & host & Hne & <- & E)]); [left; congruence|].
    right. rewrite <- Ks, <- Es3. split; [done|]. exists ip.
    split_and!; [done | done | congruence | | rewrite E; cbn; by rewrite Es3, Ks].
    rewrite Hk, Ef, <- Kf. eapply shown_mono; [|exact H3]. intros x. rewrite !elem_of_app. auto.
Qed.

(** Adoption makes the known floating IP the recorded one. *)
Lemma adopt_existing_runs o t o' :
  exec (adopt_existing o) t (tt, o') ->
  OVHCluster_Spec o' = OVHCluster_Spec o
  /\ CStatus_FloatingIPID (OVHCluster_Status o') = known_fip o /\ known_fip o' = known_fip o.
Proof.
  unfold adopt_existing, cspec, cstatus. intros H. rewrite !gets_bind in H. cbv zeta in H.
  apply exec_m_bind in H as (t1 & [] & o1 & t2 & -> & H1 & H).
  assert (kept_fip : OVHCluster_Spec o1 = OVHCluster_Spec o
    /\ CStatus_FloatingIPID (OVHCluster_Status o1) = CStatus_FloatingIPID (OVHCluster_Status o)).
  { case_bool_decide; by exec_all. }
  destruct kept_fip as [Es Ef]. unfold known_fip.
  case_bool_decide as Hb; cbn [when] in H; exec_inv H; cbn; rewrite ?Es, ?Ef; (split; [done|]).
  - destruct Hb as [Hne He]. rewrite (decide_True (P := CStatus_FloatingIPID _ = _)) by done.
    split; [done|]. by destruct (decide (LBConfig_ExistingFloatingIPID _ = _)).
  - destruct (decide (CStatus_FloatingIPID (OVHCluster_Status o) = ""%string)) as [He|He]; [|done].
    destruct (decide (LBConfig_ExistingFloatingIPID
      (CSpec_LoadBalancerConfig (OVHCluster_Spec o)) = ""%string)) as [E|E]; [by rewrite He, E|].
    by destruct Hb.
Qed.

Lemma create_lb_spec scope : keeps same_spec (create_lb scope).
Proof. auto with prog. Qed.

Lemma reconcileLoadBalancer_runs scope o t out o' :
  exec (reconcileLoadBalancer scope o) t (out, o') -> spec_step (published scope o t o') o o'.
Proof.
  unfold reconcileLoadBalancer, cstatus. intros H.
  apply exec_m_bind in H as (t1 & [] & o1 & t2 & -> & (Es & Ef & Ek)%adopt_existing_runs & H).
  rewrite gets_bind in H.
  assert (Hcreate : forall o2 t, OVHCluster_Spec o2 = OVHCluster_Spec o1 ->
            exec (create_lb scope o2) t (out, o') -> OVHCluster_Spec o' = OVHCluster_Spec o).
  { intros o2 t' E2 Hc. apply (keeps_exec same_spec _ _ _ _ (create_lb_spec scope)) in Hc.
    unfold same_spec in Hc. cbn [snd] in Hc. congruence. }
  destruct (decide _) as [Hid|Hid] in H; [|left; eapply Hcreate; [reflexivity | exact H]].
  apply exec_m_bind in H as (t3 & r & o2 & t4 & -> & H1 & H).
  apply exec_m_lift in H1 as (r' & H1 & [= -> ->]). destruct r' as [lb|e].
  - apply GetLoadBalancer_Ok in H1. apply handleExistingLB_runs in H; [|congruence].
    unfold spec_step in *. rewrite Es in H.
    destruct H as [H|(He & host & Hne & (Ha & El & Hh) & H)]; [by left|]. right. split; [done|].
    exists host. split; [done|]. split; [|by cbn in *; rewrite H, Es]. exists lb. split_and!; [|done|].
    + rewrite El. rewrite !elem_of_app. auto.
    + unfold address_of in *. rewrite Es, Ek in Hh. case_decide; [done|].
      eapply shown_mono; [|exact Hh]. intros x. rewrite !elem_of_app. auto.
  - left. destruct (IsNotFound (Some e)); [|exec_inv H; congruence].
    apply exec_m_bind in H as (t5 & [] & o3 & t6 & -> & H2 & H). exec_inv H2.
    apply exec_m_bind in H as (t5 & [] & o3 & t7 & -> & H2 & H). exec_inv H2.
    apply exec_m_bind in H as (t5 & [] & o3 & t8 & -> & H2 & H). exec_inv H2.
    by eapply Hcreate; [|exact H].
Qed.

Lemma published_kept scope o o1 o1' o' t t' host :
  kept o o1 -> kept o1' o' -> (forall x, x ∈ t -> x ∈ t') ->
  published scope o1 t o1' host -> published scope o t' o' host.
Proof.
  intros (Es & Ef & _) (_ & Ef' & El') Ht (lb & Hin & Ha & Hh). exists lb.
  rewrite El'. split_and!; [by apply Ht | done |].
  unfold address_of, known_fip in *. rewrite Es, Ef in Hh. rewrite Ef'.
  destruct (decide (LBConfig_FloatingNetworkID _ = _)); [done | by eapply shown_mono].
Qed.

Lemma spec_step_kept (P Q : string -> Prop) o o1 o1' o' :
  kept o o1 -> kept o1' o' -> (forall host, P host -> Q host) ->
  spec_step P o1 o1' -> spec_step Q o o'.
Proof.
  intros (Es & _) (Es' & _) HPQ. unfold spec_step. rewrite Es, Es'.
  intros [H|(He & host & Hne & HP & H)]; [by left|]. right. split; [done|].
  exists host. split_and!; [done | by apply HPQ | by rewrite H; cbn; rewrite Es].
Qed.

(** A step that neither publishes nor records. *)
Lemma spec_step_none (P : string -> Prop) o o' : kept o o' -> spec_step P o o'.
Proof. intros (E & _). by left. Qed.

Lemma reconcile_normal_spec scope o t out o' :
  exec (reconcile_normal_body scope o) t (out, o') -> spec_step (published scope o t o') o o'.
Proof.
  unfold reconcile_normal_body. intros H. rewrite get_bind in H.
  destruct (_ && _) in H; [exec_all; by left|].
  apply exec_m_bind in H as (t1 & r1 & o1 & t2 & -> & H1 & H).
  assert (kept o o1) as K1 by (refine (keeps_exec kept _ _ _ _ _ H1); auto with prog).
  destruct r1 as [[]|e]; [|exec_inv H; by apply spec_step_none].
  apply exec_m_bind in H as (t3 & r2 & o2 & t4 & -> & H2 & H).
  assert (kept o1 o2) as K2 by (refine (keeps_exec kept _ _ _ _ _ H2); auto with prog).
  destruct r2 as [[]|e]; [|case_match; exec_inv H; apply spec_step_none; by transitivity o1].
  apply exec_m_bind in H as (t5 & [] & o3 & t6 & -> & H3 & H).
  assert (kept o2 o3) as K3 by (refine (keeps_exec kept _ _ _ _ _ H3); auto with prog).
  apply exec_m_bind in H as (t7 & r4 & o4 & t8 & -> & H4 & H).
  assert (kept o3 o4) as K4 by (refine (keeps_exec kept _ _ _ _ _ H4); auto with prog).
  apply exec_m_bind in H as (t9 & [result err] & o5 & t10 & -> & H5 & H).
  assert (kept o o4) as K by (transitivity o1; [done|]; transitivity o2; [done|]; by transitivity o3).
  assert (kept o5 o') as K5.
  { destruct (decide _) in H; [by exec_inv H|].
    apply exec_m_bind in H as (t11 & r6 & o6 & t12 & -> & H6 & H).
    transitivity o6; [refine (keeps_exec kept _ _ _ _ _ H6); auto with prog|].
    unfold mark_true in H. by exec_all. }
  apply reconcileLoadBalancer_runs in H5.
  eapply spec_step_kept; [exact K | exact K5 | | exact H5]. intros host.
  apply published_kept; [exact K | exact K5|]. intros x. rewrite !elem_of_app. auto 10.
Qed.

#[local] Instance meta_preorder : PreOrder (fun o o' => same_meta (OVHCluster_ObjectMeta o) (OVHCluster_ObjectMeta o')).
Proof. split; [done|]. intros o1 o2 o3 ? ?. unfold same_meta in *. congruence. Qed.

(** C25: reconciling a cluster leaves its name, annotations, deletion timestamp
    and spec as they are, with one exception: a control plane endpoint without a
    host gets port 6443 and the address of the load balancer that the status
    records, which the pass read and found ACTIVE: its VIP, or, if the spec asks
    for a floating IP, the one the pass records and was shown for it (by the
    load balancer, by a listing, or under the ID recorded or adopted before). An
    endpoint with a host, the user's or a published one, never changes again. *)
Theorem ReconcileNormal_endpoint scope o t out o' :
  exec (ReconcileNormal scope o) t (out, o') ->
  same_meta (OVHCluster_ObjectMeta o) (OVHCluster_ObjectMeta o')
  /\ (OVHCluster_Spec o' = OVHCluster_Spec o
      \/ APIEndpoint_Host (CSpec_ControlPlaneEndpoint (OVHCluster_Spec o)) = ""%string
         /\ exists host, host <> ""%string /\ published scope o t o' host
              /\ OVHCluster_Spec o' = OVHCluster_Spec
                   (set_c_ControlPlaneEndpoint (mkAPIEndpoint host apiServerLBPort) o)).
Proof.
  intros H. split.
  { refine (keeps_exec (fun o o' => same_meta (OVHCluster_ObjectMeta o) (OVHCluster_ObjectMeta o'))
      _ _ _ _ _ H). auto with prog. }
  unfold ReconcileNormal in H. apply exec_m_bind in H as (t1 & out1 & o1 & t2 & -> & H1 & H).
  assert (o' = o1) as -> by by exec_all.
  apply reconcile_normal_spec in H1. destruct H1 as [H1|(He & host & Hne & Hp & H1)]; [by left|].
  right. split; [done|]. exists host. split_and!; [done | | done].
  eapply published_kept; [reflexivity | reflexivity | | exact Hp]. intros x. rewrite elem_of_app. auto.
Qed.
End endpoint.
