(* ===== verification/ClusterReconcileFacts.v ===== *)
(** * The OVHCluster controller as a whole

    The entry point [Reconcile] (nothing is asked of OVH before the finalizer is
    in place, and every pass ends with the patch of the object), and two
    behaviours at the border between a cluster and what others own: the clean-up
    of load balancers by name prefix, and the memory of who made the network. *)

From S2P Require Import Prelude GoStrings Errors OvhTypes ApiTypes Effects Client Names StringFacts.
From S2P Require Import NamesFacts Logic ClientFacts ClusterController ClusterFacts.
From S2P Require Import ClusterDeleteFacts ClusterStepFacts.

Local Open Scope Z_scope.

Section facts.
Context `{U : Unicode} `{C : CAPI}.

(** ** The deferred patch *)

Definition no_cluster_patch (e : event) : Prop :=
  match e with EPatchCluster _ => False | _ => True end.

Lemma reconcile_body_no_patch : only_m no_cluster_patch reconcile_body.
Proof. auto with prog. Qed.

Lemma no_patch_exec {A} (p : prog A) t a :
  only no_cluster_patch p -> exec p t a -> Forall (fun o => no_cluster_patch (obs_event o)) t.
Proof. apply only_exec. Qed.

(** The object under reconciliation, once [Reconcile] has read it and made the
    patch helper: the rest of the run. *)
Lemma Reconcile_runs ns name t out o :
  exec (Reconcile ns name) (Obs (EGetOVHCluster ns name) (Ok o) :: t) out ->
  (exists e, t = [Obs (ENewClusterPatch o) (Err e)] /\ out = failed e)
  \/ exists t' out' s' patchErr,
       t = Obs (ENewClusterPatch o) (Ok tt) :: t' ++ [Obs (EPatchCluster s') patchErr]
       /\ exec (reconcile_body o) t' (out', s') /\ out = with_patch_err out' patchErr.
Proof.
  unfold Reconcile. intros H%exec_call_bind.
  apply exec_call_inv in H as ([[]|e] & t2 & -> & H).
  - right. apply exec_bind in H as (t' & [out' s'] & t3 & -> & Hb & H).
    apply exec_call_inv in H as (patchErr & t4 & -> & [-> ->]). eauto 10.
  - left. destruct H as [-> ->]. eauto.
Qed.

(** Every pass over an object that exists ends with one patch, that of the
    object as the pass left it, whatever the pass ran into; and the error of the
    patch is returned when the pass has none of its own. *)
Theorem Reconcile_patches ns name t out o :
  exec (Reconcile ns name)
    (Obs (EGetOVHCluster ns name) (Ok o) :: Obs (ENewClusterPatch o) (Ok tt) :: t) out ->
  exists t' out' s' patchErr,
    t = t' ++ [Obs (EPatchCluster s') patchErr]
    /\ Forall (fun x => no_cluster_patch (obs_event x)) t'
    /\ exec (reconcile_body o) t' (out', s')
    /\ out.1 = out'.1
    /\ out.2 = match out'.2, patchErr with Some e, _ => Some e | None, Err e => Some e | None, Ok _ => None end.
Proof.
  intros [(e & [H _]%Obs_cons_inj & _)|(t' & out' & s' & patchErr & [_ ->]%Obs_cons_inj & Hb & ->)]%Reconcile_runs;
    [done|].
  exists t', out', s', patchErr. split_and!; try done.
  - revert Hb. by apply no_patch_exec, reconcile_body_no_patch.
  - by destruct out' as [r [e|]], patchErr.
  - by destruct out' as [r [e|]], patchErr.
Qed.

(** ** The finalizer comes first *)

Lemma client_no_request c t r : exec (GetOVHClientFromCluster c) t r -> requests t = [].
Proof.
  intros H. apply requests_nil. revert H. apply (only_exec (fun e => is_api e = false)).
  auto with prog.
Qed.

(** The part of [ReconcileNormal] that runs on an object without finalizer. *)
Lemma ReconcileNormal_adds scope s t out s' :
  ContainsFinalizer (Meta_Finalizers (OVHCluster_ObjectMeta s)) ClusterFinalizer = false ->
  IsZero (Meta_DeletionTimestamp (OVHCluster_ObjectMeta s)) = true ->
  exec (ReconcileNormal scope s) t (out, s') ->
  requests t = []
  /\ s' = set_c_Finalizers
            (AddFinalizer (Meta_Finalizers (OVHCluster_ObjectMeta s)) ClusterFinalizer) s.
Proof.
  intros Hf Hz H. unfold ReconcileNormal, reconcile_normal_body in H.
  apply exec_m_bind in H as (t1 & out' & s1 & t2 & -> & H1 & H).
  rewrite get_bind, Hf, Hz in H1. cbn [negb andb] in H1. by exec_all.
Qed.

(** C26: nothing is asked of OVH before the finalizer is in place: a pass over a
    cluster without it, and not being deleted, makes no request of the API, and
    the object it saves differs from the one it read at most by the added
    finalizer and by the condition of a failed connection. *)
Theorem Reconcile_finalizer_first ns name t out o :
  exec (Reconcile ns name) (Obs (EGetOVHCluster ns name) (Ok o) :: t) out ->
  let fs := Meta_Finalizers (OVHCluster_ObjectMeta o) in
  ContainsFinalizer fs ClusterFinalizer = false ->
  IsZero (Meta_DeletionTimestamp (OVHCluster_ObjectMeta o)) = true ->
  requests t = []
  /\ forall s' r, Obs (EPatchCluster s') r ∈ t ->
       s' = o \/ s' = set_c_Finalizers (AddFinalizer fs ClusterFinalizer) o
       \/ exists msg, s' = set_c_Conditions
            (MarkFalse OVHConnectionReadyCondition OVHConnectionFailedReason ConditionSeverityError msg
              (CStatus_Conditions (OVHCluster_Status o))) o.
Proof.
  intros H%Reconcile_runs fs Hf Hz.
  destruct H as [(e & -> & _)|(t' & out' & s' & patchErr & -> & Hb & _)].
  { split; [done|]. intros s' r Hin. by apply list_elem_of_singleton in Hin. }
  pose proof (only_m_exec _ _ _ _ _ reconcile_body_no_patch Hb) as Hno.
  cut (requests t' = [] /\ (s' = o \/ s' = set_c_Finalizers (AddFinalizer fs ClusterFinalizer) o
       \/ exists msg, s' = set_c_Conditions
            (MarkFalse OVHConnectionReadyCondition OVHConnectionFailedReason ConditionSeverityError msg
              (CStatus_Conditions (OVHCluster_Status o))) o)).
  { intros [Hr Hs]. split; [cbn; rewrite requests_app, Hr; done|]. intros s2 r Hin.
    apply elem_of_cons in Hin as [Hin|Hin]; [discriminate|].
    apply elem_of_app in Hin as [Hin|Hin].
    - rewrite Forall_forall in Hno. by apply Hno in Hin.
    - apply list_elem_of_singleton in Hin. by injection Hin as ->. }
  clear Hno. unfold reconcile_body in Hb. rewrite get_bind in Hb.
  apply exec_m_bind in Hb as (t1 & owner & s1 & t2 & -> & H1 & Hb).
  apply exec_m_lift in H1 as (a & ->%exec_call & [= -> ->]).
  destruct a as [[owner|]|e]; [|by exec_inv Hb; auto..].
  apply exec_m_bind in Hb as (t3 & client & s2 & t4 & -> & H2 & Hb).
  apply exec_m_lift in H2 as (a & Hc%client_no_request & [= -> ->]).
  destruct a as [client|e].
  - rewrite Hz in Hb. cbn [negb] in Hb.
    apply ReconcileNormal_adds in Hb as [Hb ->]; [|done..].
    cbn. rewrite requests_app, Hc, Hb. auto.
  - unfold mark_false in Hb. exec_all. cbn. rewrite requests_app, Hc. cbn. eauto.
Qed.

(** ** The clean-up of load balancers by prefix *)

Definition lb_prefix (cluster : string) : string := GenerateRFC1035Name ["capi"; cluster; "lb"].

Lemma DeleteLoadBalancer_requests c id t r :
  exec (DeleteLoadBalancer c id) t r -> exists n, requests t = replicate (S n) (lb_delete c id).
Proof.
  intros (r0 & H & _)%exec_tolerate.
  apply (retry_sound _ (lb_delete c id)), retried_requests in H as (n & _ & H). eauto.
Qed.

Lemma delete_each_requests c (lbs : list LoadBalancer) (s : OVHCluster) t s' :
  exec (for_each (fun lb => _ ← lift (DeleteLoadBalancer c (LoadBalancer_ID lb)); mret tt) lbs s)
    t (tt, s') ->
  s' = s /\ forall rq, rq ∈ requests t <-> exists lb, lb ∈ lbs /\ rq = lb_delete c (LoadBalancer_ID lb).
Proof.
  revert t. induction lbs as [|lb lbs IH]; intros t H; cbn [for_each] in H.
  { exec_inv H. split; [done|]. intros rq. split; [by intros ?%elem_of_nil|].
    intros (lb & Hin & _). by apply elem_of_nil in Hin. }
  apply exec_m_bind in H as (t1 & [] & s1 & t2 & -> & H1 & H).
  exec_inv H1. exec_inv H1. exec_inv H0.
  apply DeleteLoadBalancer_requests in H0 as [n Hn].
  apply IH in H as [-> H]. split; [done|]. intros rq.
  rewrite !requests_app, Hn, app_nil_r, elem_of_app, H, elem_of_replicate. split.
  - intros [[-> _]|(lb' & Hin & ->)]; [exists lb | exists lb']; rewrite elem_of_cons; auto.
  - intros (lb' & [->|Hin]%elem_of_cons & ->); [left; split; [done | lia] | right; eauto].
Qed.

(** The runs of the clean-up: a failed listing, or a listing and the deletion of
    everything in it with the prefix. *)
Lemma delete_orphans_runs scope s t s' :
  exec (delete_orphans scope s) t (tt, s') ->
  let c := CScope_OVHClient scope in
  let prefix := lb_prefix (Meta_Name (Cluster_ObjectMeta (CScope_Cluster scope))) in
  exists t1 r t2, t = t1 ++ t2 /\ retried "ListLoadBalancers" (lb_list c) t1 r
    /\ match r with
       | Err _ => t2 = []
       | Ok lbs => forall rq, rq ∈ requests t2 <->
           exists lb, lb ∈ lbs /\ HasPrefix (LoadBalancer_Name lb) prefix = true
                      /\ rq = lb_delete c (LoadBalancer_ID lb)
       end.
Proof.
  intros H. cbv zeta. unfold delete_orphans in H.
  apply exec_m_bind in H as (t1 & r & s1 & t2 & -> & H1 & H).
  apply exec_m_lift in H1 as (r' & H1 & [= -> ->]).
  unfold ListLoadBalancersByPrefix in H1.
  apply exec_try in H1 as [(e & H1 & ->)|(t3 & lbs & t4 & -> & H1 & [-> ->])];
    apply (retry_sound _ (lb_list _)) in H1.
  - exec_inv H. exists t1, (Err e), []. done.
  - apply delete_each_requests in H as [_ H].
    exists t3, (Ok lbs), t2. rewrite app_nil_r. split_and!; [done..|].
    intros rq. rewrite H. split.
    + intros (lb & [Hp Hin]%list_elem_of_filter & ->). exists lb. split_and!; [done | | done].
      by apply Is_true_true.
    + intros (lb & Hin & Hp & ->). exists lb. split; [|done].
      apply list_elem_of_filter. split; [by apply Is_true_true | done].
Qed.

(** The requests of a retried call are all that call. *)
Lemma retried_only op rq t r : retried op rq t r -> Forall (fun rq' => rq' = rq) (requests t).
Proof.
  intros (n & _ & ->)%retried_requests. apply Forall_forall. by intros rq' [-> _]%elem_of_replicate.
Qed.

Lemma elem_of_requests rq (r : res (den (req_out rq))) t : Obs (EApi rq) r ∈ t -> rq ∈ requests t.
Proof. intros Hin. unfold requests. apply list_elem_of_omap. by eexists. Qed.

Lemma delete_orphans_iff scope s t s' lbs :
  exec (delete_orphans scope s) t (tt, s') ->
  let c := CScope_OVHClient scope in
  let prefix := lb_prefix (Meta_Name (Cluster_ObjectMeta (CScope_Cluster scope))) in
  listed (T := TLoadBalancer) (regionPath c "/loadbalancing/loadbalancer" []) lbs t ->
  forall rq, req_method rq = DELETE ->
    rq ∈ requests t <-> exists lb, lb ∈ lbs /\ HasPrefix (LoadBalancer_Name lb) prefix = true
                                /\ rq = lb_delete c (LoadBalancer_ID lb).
Proof.
  intros (t1 & r & t2 & -> & Hr & H2)%delete_orphans_runs; cbv zeta in *; intros Hl rq Hrq.
  apply retried_only in Hr as Hr1. rewrite requests_app, elem_of_app. destruct r as [xs|e].
  - assert (xs = lbs) as ->.
    { apply elem_of_app in Hl as [Hl|Hl].
      - apply (retried_listed _ _ _ _ _ Hr) in Hl. by injection Hl as ->.
      - apply elem_of_requests, H2 in Hl as (lb & _ & _ & ?). done. }
    rewrite H2. split; [intros [Hin|?]; [|done] | auto].
    rewrite Forall_forall in Hr1. apply Hr1 in Hin as ->. done.
  - subst t2. rewrite app_nil_r in Hl. by apply (retried_listed _ _ _ _ _ Hr) in Hl.
Qed.

Lemma delete_orphans_deletes scope s t s' lbs lb :
  exec (delete_orphans scope s) t (tt, s') ->
  listed (T := TLoadBalancer)
    (regionPath (CScope_OVHClient scope) "/loadbalancing/loadbalancer" []) lbs t ->
  lb ∈ lbs ->
  HasPrefix (LoadBalancer_Name lb)
    (lb_prefix (Meta_Name (Cluster_ObjectMeta (CScope_Cluster scope)))) = true ->
  lb_delete (CScope_OVHClient scope) (LoadBalancer_ID lb) ∈ requests t.
Proof. intros H Hl Hin Hp. by eapply (delete_orphans_iff _ _ _ _ _ H Hl); eauto. Qed.

(** On a listing of the load balancers the clean-up deletes every one whose
    name starts with [capi-<cluster>-lb], and nothing else. *)
Theorem delete_orphans_spec scope s t s' lbs :
  exec (delete_orphans scope s) t (tt, s') ->
  let c := CScope_OVHClient scope in
  let prefix := lb_prefix (Meta_Name (Cluster_ObjectMeta (CScope_Cluster scope))) in
  listed (T := TLoadBalancer) (regionPath c "/loadbalancing/loadbalancer" []) lbs t ->
  forall rq, req_method rq = DELETE ->
    rq ∈ requests t <-> exists lb, lb ∈ lbs /\ HasPrefix (LoadBalancer_Name lb) prefix = true
                                /\ rq = lb_delete c (LoadBalancer_ID lb).
Proof. apply delete_orphans_iff. Qed.

(** The load balancer of a cluster named [<n>-lb<x>], of the same project, has
    the prefix of the cluster [n]. *)
Lemma lb_prefix_other n x :
  valid_name ("capi-" ++ n ++ "-lb") -> valid_name ("capi-" ++ (n ++ "-lb" ++ x) ++ "-lb") ->
  HasPrefix (lb_prefix (n ++ "-lb" ++ x)) (lb_prefix n) = true.
Proof.
  intros Hn Hx. unfold lb_prefix.
  rewrite !GenerateRFC1035Name_id by done. apply HasPrefix_spec.
  exists (x ++ "-lb")%string. unfold Join. cbn. by rewrite ?append_assoc.
Qed.

(** C30: but a prefix is not a name: deleting a cluster also deletes the load
    balancer of every other cluster of the project whose name continues its own
    with [-lb]. *)
Theorem delete_orphans_foreign scope s t s' lbs lb n x :
  exec (delete_orphans scope s) t (tt, s') ->
  Meta_Name (Cluster_ObjectMeta (CScope_Cluster scope)) = n ->
  valid_name ("capi-" ++ n ++ "-lb") -> valid_name ("capi-" ++ (n ++ "-lb" ++ x) ++ "-lb") ->
  listed (T := TLoadBalancer)
    (regionPath (CScope_OVHClient scope) "/loadbalancing/loadbalancer" []) lbs t ->
  lb ∈ lbs -> LoadBalancer_Name lb = GenerateRFC1035Name ["capi"; (n ++ "-lb" ++ x)%string; "lb"] ->
  lb_delete (CScope_OVHClient scope) (LoadBalancer_ID lb) ∈ requests t.
Proof.
  intros H <- Hn Hx Hl Hin Hname. eapply delete_orphans_deletes; [done..|].
  rewrite Hname. by apply lb_prefix_other.
Qed.

(** ** Who made the network *)

Section network.
#[local] Existing Instance holds_on_preorder.
Context {L : CAPILaws C}.

(** The condition that the controller made the network is never cleared. *)
Definition created_stays (s s' : OVHCluster) : Prop :=
  cond s NetworkCreatedByControllerCondition -> cond s' NetworkCreatedByControllerCondition.

#[local] Instance created_stays_preorder : PreOrder created_stays.
Proof. split; [intros s H; exact H|]. intros s1 s2 s3 H1 H2 H. apply H2, H1, H. Qed.

Lemma ReconcileNormal_created scope : keeps created_stays (ReconcileNormal scope).
Proof.
  repeat keeps_rule;
    intros Hc;
    first [ exact Hc
          | exact (proj2 (holds_on_true _ _ _) Hc)
          | refine (proj2 (holds_on_false _ _ _ _ _ _ _) Hc); discriminate ].
Qed.

(** The spec names the network [id] to use. *)
Definition names_network (id : string) (s : OVHCluster) : Prop :=
  exists nc, CSpec_NetworkConfig (OVHCluster_Spec s) = Some nc /\ NetConfig_PrivateNetworkID nc = id.

(** A pass records no network but the named one. *)
Definition adopts (id : string) (s s' : OVHCluster) : Prop :=
  names_network id s ->
  CStatus_NetworkID (OVHCluster_Status s) = ""%string \/ CStatus_NetworkID (OVHCluster_Status s) = id ->
  names_network id s'
  /\ (CStatus_NetworkID (OVHCluster_Status s') = ""%string \/ CStatus_NetworkID (OVHCluster_Status s') = id).

#[local] Instance adopts_preorder id : PreOrder (adopts id).
Proof.
  split; [intros s Hn Hid; by split|]. intros s1 s2 s3 H1 H2 Hn Hid.
  destruct (H1 Hn Hid) as [Hn2 Hid2]. by apply H2.
Qed.

Lemma reconcileNetwork_adopts scope id : id <> ""%string -> keeps (adopts id) (reconcileNetwork scope).
Proof.
  intros Hid s. unfold reconcileNetwork, cspec. rewrite gets_bind.
  destruct (CSpec_NetworkConfig (OVHCluster_Spec s)) as [nc|] eqn:E.
  2:{ apply wp_true. intros t r (nc & E' & _). congruence. }
  destruct (decide (NetConfig_PrivateNetworkID nc = id)) as [Hnc|Hnc].
  2:{ apply wp_true. intros t r (nc' & E' & ?). congruence. }
  match goal with |- wp (?m s) _ => cut (keeps (adopts id) m); [intros Hm; apply Hm|] end.
  repeat keeps_rule; intros Hn Ho; first
    [ split; [exact Hn | first [exact Ho | by left | by right]]
    | exfalso; match goal with H : ~ (NetConfig_PrivateNetworkID _ <> _) |- _ => apply H; congruence end ].
Qed.

Lemma ReconcileNormal_adopts scope id : id <> ""%string -> keeps (adopts id) (ReconcileNormal scope).
Proof.
  intros Hid.
  repeat lazymatch goal with
         | |- keeps _ (reconcileNetwork _) => by apply reconcileNetwork_adopts
         | _ => keeps_rule
         end; intros Hn Ho; (split; [exact Hn | exact Ho]).
Qed.

Lemma acked_requested gone rq t : acked gone rq t -> rq ∈ requests t.
Proof. intros (last & Hin & _). apply list_elem_of_omap. by eexists. Qed.

(** C31: the record that the controller made the network outlives the network.
    Take a cluster whose network the controller made. If passes later leave it
    without a network (it vanished: the API answered 404), if the user then names
    a network of their own in the spec and passes record that one, and if the
    cluster is then deleted and its policy is not to keep its resources, then the
    user's network is deleted with the cluster, before the finalizer goes. *)
Theorem adopted_network_deleted scope s s1 s2 s3 s4 id t out s5 :
  cond s NetworkCreatedByControllerCondition ->
  rtc (pass scope) s s1 -> CStatus_NetworkID (OVHCluster_Status s1) = ""%string ->
  OVHCluster_Status s2 = OVHCluster_Status s1 -> names_network id s2 -> id <> ""%string ->
  rtc (pass scope) s2 s3 -> CStatus_NetworkID (OVHCluster_Status s3) <> ""%string ->
  OVHCluster_Status s4 = OVHCluster_Status s3 ->
  annotation (OVHCluster_ObjectMeta s4) adoption_policy <> "keep"%string ->
  exec (ReconcileDelete scope s4) t (out, s5) -> out = done_ ->
  network_delete (CScope_OVHClient scope) id ∈ requests t
  /\ acked IsNotFound (network_delete (CScope_OVHClient scope) id) t.
Proof.
  intros Hc H1 Hid1 E2 Hn Hid H2 Hid3 E4 Hkeep H ->.
  assert (Hcreated : forall a b, rtc (pass scope) a b -> created_stays a b).
  { intros a b. induction 1 as [|a a1 b (t' & o' & Ha) _ IH]; [by intros ?|].
    transitivity a1; [exact (keeps_exec created_stays _ _ _ _ (ReconcileNormal_created scope) Ha) | done]. }
  assert (Hadopts : forall a b, rtc (pass scope) a b -> adopts id a b).
  { intros a b. induction 1 as [|a a1 b (t' & o' & Ha) _ IH]; [reflexivity|].
    transitivity a1; [exact (keeps_exec (adopts id) _ _ _ _ (ReconcileNormal_adopts scope id Hid) Ha) | done]. }
  assert (Hc4 : cond s4 NetworkCreatedByControllerCondition).
  { unfold cond. rewrite E4. apply (Hcreated _ _ H2). unfold cond. rewrite E2. by apply (Hcreated _ _ H1). }
  destruct (Hadopts _ _ H2 Hn) as [_ [?|Hid3']]; [left; congruence | done |].
  apply ReconcileDelete_runs in H. cbv zeta in H. rewrite decide_True in H by done.
  destruct H as [_ [[? _]|[_ (_ & _ & Hnet)]]]; [done|].
  rewrite E4, Hid3' in Hnet. specialize (Hnet Hc4 Hid). split; [by eapply acked_requested | exact Hnet].
Qed.
End network.

(** ** The watches *)

(** An API server that lists by the index: it holds [all]. *)
Definition indexed (all : list OVHCluster) (t : list obs) : Prop :=
  forall name items, Obs (EListOVHClusters name) (Ok items) ∈ t ->
    items = filter (fun c => name ∈ identity_index c) all.

(** The event of a secret reaches exactly the clusters it identifies, unless the
    listing fails; then it reaches none. *)
Theorem secretToOVHCluster_spec secret all t keys :
  exec (secretToOVHCluster (Some secret)) t keys -> indexed all t ->
  (exists e, Obs (EListOVHClusters (Secret_Name secret)) (Err e) ∈ t /\ keys = [])
  \/ forall k, k ∈ keys <-> exists c, c ∈ all /\ key_of (OVHCluster_ObjectMeta c) = k
       /\ Secret_Name secret <> ""%string
       /\ CSpec_IdentitySecret (OVHCluster_Spec c)
          = mkSecretKey (Secret_Namespace secret) (Secret_Name secret).
Proof.
  unfold secretToOVHCluster. intros (items & t' & -> & H)%exec_call_inv Hall.
  destruct items as [items|e]; destruct H as [-> ->]; [|left; exists e; split; [left | done]]. right.
  rewrite (Hall (Secret_Name secret) items) by left. clear Hall. intros k.
  rewrite list_elem_of_fmap. setoid_rewrite list_elem_of_filter. setoid_rewrite list_elem_of_filter.
  unfold identity_index. split.
  - intros (c & -> & Hns & Hn & Hin). exists c. split; [done|]. split; [done|].
    case_decide as He; [by apply not_elem_of_nil in Hn|]. apply list_elem_of_singleton in Hn.
    rewrite Hn. split; [done|]. rewrite <- Hns. by destruct (CSpec_IdentitySecret _).
  - intros (c & Hin & <- & Hne & Hs). exists c. rewrite Hs. cbn.
    rewrite decide_False by done. split_and!; [done..| by apply list_elem_of_singleton | done].
Qed.

End facts.
