(* ===== verification/MachineFacts.v ===== *)
(** * The OVHMachine controller: what it asks of OVH and what it reports

    Which calls a pass can make, and that it creates at most one instance and
    only when there is none. *)

From S2P Require Import Prelude GoStrings Errors OvhTypes ApiTypes Effects Client Names StringFacts.
From S2P Require Import NamesFacts Logic ClientFacts NodeInit ClusterController ClusterStepFacts.
From S2P Require Import MachineController.

Local Open Scope Z_scope.

Section facts.
Context `{U : Unicode} `{C : CAPI}.

(** ** Calls *)

Definition instance_create (c : Client) (opts : CreateInstanceOpts) : request :=
  mkRequest POST (projectPath c "/instance" []) (BInstance opts) TInstance.

Definition member_create (c : Client) (poolID : string) (opts : CreateMemberOpts) : request :=
  mkRequest POST (regionPath c "/loadbalancing/pool/%s/member" [AS poolID])
    (BMembers (mkaddPoolMembersRequest [opts])) (TList TMember).

(** What a pass over a live machine may ask for. *)
Definition machine_request (scope : MachineScope) (rq : request) : Prop :=
  let c := MScope_OVHClient scope in
  req_method rq = GET
  \/ (exists opts, rq = instance_create c opts)
  \/ (IsControlPlaneMachine (MScope_Machine scope) = true
      /\ exists poolID ip port, rq = member_create c poolID (member_opts scope ip port)).

Definition machine_event (scope : MachineScope) (e : event) : Prop :=
  match e with EApi rq => machine_request scope rq | _ => True end.

Lemma handleExistingInstance_calls scope inst :
  only_m (fun e => match e with
                   | EApi rq => req_method rq = GET
                       \/ (IsControlPlaneMachine (MScope_Machine scope) = true
                           /\ exists poolID ip port,
                                rq = member_create (MScope_OVHClient scope) poolID (member_opts scope ip port))
                   | _ => True
                   end) (handleExistingInstance scope inst).
Proof.
  repeat only_rule; try done; try (by left); right;
    (split; [by apply negb_false_iff|]); unfold member_create; eauto.
Qed.

(** Reconciling a machine that is not being deleted deletes nothing at OVH;
    it reads, creates instances, and adds the machine to pools, the latter only
    for control plane machines. *)
Theorem machine_normal_calls scope s t out s' :
  exec (ReconcileNormal scope s) t (out, s') -> Forall (machine_request scope) (requests t).
Proof.
  intros H. refine (only_m_requests (machine_event scope) _ _ _ _ _ H).
  repeat lazymatch goal with
         | |- only_m _ (handleExistingInstance _ _) =>
             intros ?; eapply only_mono; [|apply handleExistingInstance_calls];
             intros [] ?; unfold machine_event, machine_request in *; try done; tauto
         | _ => only_rule
         end; try done; try (by left).
  right; left. eexists. reflexivity.
Qed.

(** ** Creation *)

(** The requests that create an instance. *)
Definition creates (rq : request) : Prop :=
  match req_body rq with BInstance _ => True | _ => False end.

#[global] Instance creates_dec rq : Decision (creates rq).
Proof. unfold creates. destruct (req_body rq); apply _. Defined.

Definition creations (t : list obs) : list request := filter creates (requests t).

Definition no_creation (e : event) : Prop :=
  match e with EApi rq => ~ creates rq | _ => True end.

Lemma creations_app t1 t2 : creations (t1 ++ t2) = creations t1 ++ creations t2.
Proof. unfold creations. by rewrite requests_app, filter_app. Qed.

Lemma no_creation_nil t : Forall (fun o => no_creation (obs_event o)) t -> creations t = [].
Proof.
  intros H%(requests_Forall no_creation). unfold creations.
  induction H as [|rq rqs Hrq H IH]; [done|]. by rewrite filter_cons_False.
Qed.

Lemma find_instance_no_creation scope : only_m no_creation (find_instance scope).
Proof. repeat only_rule; try done; cbn; tauto. Qed.

Lemma existing_no_creation scope inst : only_m no_creation (handleExistingInstance scope inst).
Proof. repeat only_rule; try done; cbn; tauto. Qed.

Lemma instance_opts_no_creation scope o : only no_creation (instance_opts scope o).
Proof. repeat only_rule; try done; cbn; tauto. Qed.

(** What [createInstance] puts in the request. *)
Definition opts_of (scope : MachineScope) (s : OVHMachine) (opts : CreateInstanceOpts) : Prop :=
  CreateInstanceOpts_Name opts = instance_name scope s
  /\ CreateInstanceOpts_Region opts = CSpec_Region (OVHCluster_Spec (MScope_OVHCluster scope)).

Lemma instance_opts_Ok scope s t opts :
  exec (instance_opts scope s) t (Ok opts) -> opts_of scope s opts.
Proof. unfold instance_opts. intros H. by exec_all. Qed.

Lemma CreateInstance_creations c opts t r :
  exec (CreateInstance c opts) t r ->
  exists n, (n <= 6)%nat /\ creations t = replicate n (instance_create c opts).
Proof.
  intros (r0 & H & _)%exec_wrap.
  apply (retry_sound _ (instance_create c opts)), retried_requests in H as (n & Hn & H).
  exists (S n). split; [unfold maxRetries in Hn; lia|]. unfold creations. rewrite H. clear.
  induction (S n) as [|k IH]; [done|]. cbn [replicate]. rewrite filter_cons_True by done. by rewrite IH.
Qed.

Lemma createInstance_creations scope s t out s' :
  exec (createInstance scope s) t (out, s') ->
  creations t = []
  \/ exists n opts, (n <= 6)%nat /\ opts_of scope s opts
       /\ creations t = replicate n (instance_create (MScope_OVHClient scope) opts).
Proof.
  unfold createInstance. intros H. rewrite get_bind in H.
  apply exec_m_bind in H as (t1 & r & s1 & t2 & -> & H1 & H).
  apply exec_m_lift in H1 as (r' & H1 & [= -> ->]).
  pose proof (only_exec _ _ _ _ (instance_opts_no_creation scope s) H1) as Hno%no_creation_nil.
  rewrite creations_app, Hno. destruct r' as [opts|e]; [|exec_inv H; by left].
  apply instance_opts_Ok in H1. right.
  apply exec_m_bind in H as (t3 & [] & s2 & t4 & -> & H2 & H).
  unfold count in H2. exec_inv H2. exec_inv H2.
  apply exec_m_bind in H as (t5 & r & s3 & t6 & -> & H3 & H).
  apply exec_m_lift in H3 as (r' & H3 & [= -> ->]).
  apply CreateInstance_creations in H3 as (n & Hn & H3). exists n, opts.
  split_and!; [done..|]. rewrite !creations_app, H3. cbn [creations requests omap].
  assert (creations t6 = []) as ->.
  { apply no_creation_nil. revert H. apply only_m_exec. auto with prog. }
  by rewrite app_nil_r.
Qed.

(** The instances were listed in [t], and none has the name. *)
Definition no_namesake (scope : MachineScope) (s : OVHMachine) (t : list obs) : Prop :=
  listed_without (T := TInstance)
    (with_region (MScope_OVHClient scope) (projectPath (MScope_OVHClient scope) "/instance" []))
    (fun i => Instance_Name i = instance_name scope s) t.

(** The recorded instance was looked up in [t], and was not found. *)
Definition recorded_gone (scope : MachineScope) (s : OVHMachine) (t : list obs) : Prop :=
  exists e ta tb tc, t = ta ++ tb ++ tc
    /\ exec (GetInstance (MScope_OVHClient scope) (MStatus_InstanceID (OVHMachine_Status s))) tb (Err e)
    /\ IsNotFound (Some e) = true.

Lemma FindInstanceByName_looks c name :
  looks_up (T := TInstance) (with_region c (projectPath c "/instance" []))
    (fun i => bool_decide (Instance_Name i = name)) (FindInstanceByName c name).
Proof. apply (lists_looks_up (T := TInstance)), ListInstances_lists. Qed.

Lemma named_instance_None scope s t s' :
  exec (named_instance scope s) t (Ok None, s') -> no_namesake scope s t /\ s' = s.
Proof.
  unfold named_instance. intros H. rewrite get_bind in H. cbv zeta in H.
  apply exec_m_wrap in H as ([x|e] & s1 & H & E); [|done]. injection E as <- ->.
  apply exec_m_lift in H as (r & H & [= <- ->]). split; [|done].
  destruct (FindInstanceByName_looks (MScope_OVHClient scope) (instance_name scope s)) as (op & wrap & Hl).
  destruct (Hl _ _ H) as ([xs|e] & Hr & E); [|done]. injection E as E. symmetry in E.
  exists xs. split; [|by apply (first_match_no (fun i => Instance_Name i = instance_name scope s))].
  apply retried_Ok in Hr as [t' ->]. unfold listed. apply elem_of_app. right.
  by apply list_elem_of_singleton.
Qed.

(** The lookups change nothing in the object but the recorded ID. *)
Definition same_but_id (s s' : OVHMachine) : Prop :=
  set_m_InstanceID "" s' = set_m_InstanceID "" s.

#[local] Instance same_but_id_preorder : PreOrder same_but_id.
Proof. split; [done|]. intros s1 s2 s3 H1 H2. unfold same_but_id in *. congruence. Qed.

Lemma find_same scope : keeps same_but_id (find_instance scope).
Proof. auto with prog. Qed.

Lemma recorded_instance_None scope s t s' :
  exec (recorded_instance scope s) t (Ok None, s') ->
  MStatus_InstanceID (OVHMachine_Status s) = ""%string \/ recorded_gone scope s t.
Proof.
  unfold recorded_instance, mstatus. intros H. rewrite gets_bind in H. cbv zeta in H.
  destruct (decide _) as [Hid|Hid] in H; [|left; by destruct (decide (MStatus_InstanceID (OVHMachine_Status s) = "")); [|destruct Hid]].
  right. apply exec_m_bind in H as (t1 & r & s1 & t2 & -> & H1 & H).
  apply exec_m_lift in H1 as (r' & H1 & [= -> ->]). destruct r' as [inst|e]; [by exec_inv H|].
  destruct (IsNotFound (Some e)) eqn:En; [|by exec_inv H].
  exists e, [], t1, t2. done.
Qed.

Lemma adopted_instance_None scope s t s' :
  exec (adopted_instance scope s) t (Ok None, s') ->
  MSpec_ExistingInstanceID (OVHMachine_Spec s) = ""%string /\ s' = s.
Proof.
  unfold adopted_instance, mspec. intros H. rewrite gets_bind in H. cbv zeta in H.
  destruct (decide (MSpec_ExistingInstanceID (OVHMachine_Spec s) = ""%string)) as [Hid|Hid].
  - rewrite decide_False in H by (intros ?; tauto). by exec_inv H.
  - rewrite decide_True in H by done. by exec_all.
Qed.

Lemma or_else_None found m s t s' :
  exec (or_else found m s) t (Ok None, s') -> found = None /\ exec (m s) t (Ok None, s').
Proof. destruct found as [inst|]; cbn [or_else]; intros H; [by exec_inv H | done]. Qed.

Lemma find_instance_None scope s t s' :
  exec (find_instance scope s) t (Ok None, s') ->
  no_namesake scope s t /\ MSpec_ExistingInstanceID (OVHMachine_Spec s) = ""%string
  /\ (MStatus_InstanceID (OVHMachine_Status s) = ""%string \/ recorded_gone scope s t).
Proof.
  unfold find_instance. intros H.
  apply exec_m_try in H as [(e & s1 & _ & E)|(t1 & found & s1 & t2 & -> & H1 & H)]; [done|].
  apply exec_m_try in H as [(e & s2 & _ & E)|(t3 & found2 & s2 & t4 & -> & H2 & H)]; [done|].
  apply or_else_None in H as [-> H]. apply or_else_None in H2 as [-> H2].
  assert (Hs : same_but_id s s1)
    by (refine (keeps_exec same_but_id _ _ _ _ _ H1); auto with prog).
  apply adopted_instance_None in H2 as [He ->]. apply named_instance_None in H as [H _].
  apply recorded_instance_None in H1.
  assert (Hm : OVHMachine_ObjectMeta s1 = OVHMachine_ObjectMeta s /\ OVHMachine_Spec s1 = OVHMachine_Spec s)
    by (split; [apply (f_equal OVHMachine_ObjectMeta Hs) | apply (f_equal OVHMachine_Spec Hs)]).
  destruct Hm as [Hm Hsp]. split_and!; [| congruence |].
  - unfold no_namesake, instance_name in *. rewrite Hm in H.
    eapply listed_without_mono; [|exact H]. intros o. rewrite !elem_of_app. tauto.
  - destruct H1 as [?|(e & ta & tb & tc & -> & H1)]; [by left|]. right.
    exists e, ta, tb, (tc ++ t3 ++ t4). by rewrite <- !app_assoc.
Qed.

(** C1: one instance per machine: a pass asks for at most one instance (the
    same request, retried at most five times), under the machine's name and in
    the cluster's region, and only after all three lookups: the recorded
    instance was not found (or none is recorded), the spec names none to adopt,
    and the listing of the region's instances has none of that name. *)
Theorem machine_creates_once scope s t out s' :
  exec (ReconcileNormal scope s) t (out, s') ->
  creations t = []
  \/ exists n opts ta tb, (n <= 6)%nat /\ t = ta ++ tb
       /\ creations ta = [] /\ creations tb = replicate n (instance_create (MScope_OVHClient scope) opts)
       /\ opts_of scope s opts
       /\ no_namesake scope s ta /\ MSpec_ExistingInstanceID (OVHMachine_Spec s) = ""%string
       /\ (MStatus_InstanceID (OVHMachine_Status s) = ""%string \/ recorded_gone scope s ta).
Proof.
  intros H. unfold ReconcileNormal in H.
  apply exec_m_bind in H as (t1 & out' & s1 & t2 & -> & H & Hrest).
  assert (creations t2 = []) as Ht2.
  { apply no_creation_nil. revert Hrest. apply only_m_exec. auto with prog. }
  unfold reconcile_normal_body in H. rewrite get_bind in H. cbv zeta in H.
  assert (Hother : forall (m : M OVHMachine outcome), only_m no_creation m ->
            exec (m s) t1 (out', s1) -> creations t1 = []).
  { intros m Hm He. apply no_creation_nil. revert He. by apply only_m_exec. }
  rewrite creations_app, Ht2, app_nil_r.
  destruct (IsPaused _ _); [left; revert H; apply Hother; auto with prog|].
  destruct (_ && _); [left; revert H; apply Hother; auto with prog|].
  destruct (negb _); [left; revert H; apply Hother; auto with prog|].
  destruct (Machine_DataSecretName _) as [name|]; [|left; revert H; apply Hother; auto with prog].
  apply exec_m_bind in H as (t3 & found & s2 & t4 & -> & H1 & H).
  pose proof (only_m_exec _ _ _ _ _ (find_instance_no_creation scope) H1) as Hno%no_creation_nil.
  rewrite creations_app, Hno. destruct found as [[inst|]|e].
  - left. apply no_creation_nil. revert H. apply only_m_exec, existing_no_creation.
  - apply createInstance_creations in H as [H|(n & opts & Hn & Hopts & H)]; [by left|]. right.
    pose proof (keeps_exec same_but_id _ _ _ _ (find_same scope) H1) as Hs.
    apply find_instance_None in H1 as (Hname & Hex & Hrec).
    exists n, opts, t3, (t4 ++ t2). split_and!; try done.
    + by rewrite <- app_assoc.
    + by rewrite creations_app, H, Ht2, app_nil_r.
    + unfold opts_of, instance_name in *. by rewrite <- (f_equal OVHMachine_ObjectMeta Hs : OVHMachine_ObjectMeta s2 = OVHMachine_ObjectMeta s).
  - exec_inv H. by left.
Qed.

End facts.
