(* ===== verification/MachineStatusFacts.v ===== *)
(** * What the status of an OVHMachine says of its instance

    The status after a pass as a function of the instance the pass found, the
    origin of that instance, and the life of a machine over any number of
    passes. *)

From S2P Require Import Prelude GoStrings Errors OvhTypes ApiTypes Effects Client Names StringFacts.
From S2P Require Import NamesFacts Logic ClientFacts NodeInit ClusterController ClusterStepFacts.
From S2P Require Import MachineController MachineFacts.

Local Open Scope Z_scope.

Section facts.
Context `{U : Unicode} `{C : CAPI}.

Definition m_ready (s : OVHMachine) : bool := MStatus_Ready (OVHMachine_Status s).
Definition m_cond (s : OVHMachine) (ty : string) : Prop :=
  IsTrue (MStatus_Conditions (OVHMachine_Status s)) ty = true.
Definition m_id (s : OVHMachine) : string := MStatus_InstanceID (OVHMachine_Status s).
Definition m_provider (s : OVHMachine) : string := MSpec_ProviderID (OVHMachine_Spec s).
Definition m_region (scope : MachineScope) : string :=
  CSpec_Region (OVHCluster_Spec (MScope_OVHCluster scope)).

(** Equality up to the pool members' IDs. *)
Definition same_but_members (s s' : OVHMachine) : Prop :=
  set_m_LBPoolMemberID "" (set_m_RegisterPoolMemberID "" s')
  = set_m_LBPoolMemberID "" (set_m_RegisterPoolMemberID "" s).

#[local] Instance same_but_members_preorder : PreOrder same_but_members.
Proof. split; [done|]. intros s1 s2 s3 H1 H2. unfold same_but_members in *. congruence. Qed.

Lemma members_same scope inst : keeps same_but_members (ensureLBPoolMember scope inst).
Proof. auto with prog. Qed.

Section status.
Context {L : CAPILaws C}.

(** The IPv4 addresses of an instance, in their order. *)
Definition ipv4_addresses (inst : Instance) : list MachineAddress :=
  map (fun ip => mkMachineAddress
         (if decide (IPAddress_Type ip = "public"%string) then "ExternalIP"%string else "InternalIP"%string)
         (IPAddress_IP ip))
    (filter (fun ip => IPAddress_Version ip = 4) (Instance_IPAddresses inst)).

Lemma addresses_of_spec inst : addresses_of (Instance_IPAddresses inst) = ipv4_addresses inst.
Proof.
  unfold ipv4_addresses, addresses_of. induction (Instance_IPAddresses inst) as [|ip ips IH]; [done|].
  destruct (decide (IPAddress_Version ip = 4)) as [H|H];
    [rewrite filter_cons_True by done | rewrite filter_cons_False by done];
    cbn [map omap list_omap]; rewrite <- IH.
  - rewrite decide_False by auto. by destruct (decide _).
  - by rewrite decide_True.
Qed.

(** The status that reports [inst]. *)
Definition reports (scope : MachineScope) (inst : Instance) (s : OVHMachine) (out : outcome) : Prop :=
  m_id s = Instance_ID inst /\ m_cond s InstanceCreatedCondition
  /\ if decide (Instance_Status inst = InstanceStatusActive) then
       out = done_ /\ m_ready s = true
       /\ m_provider s = ProviderIDFromInstance (m_region scope) (Instance_ID inst)
       /\ MStatus_Addresses (OVHMachine_Status s) = ipv4_addresses inst
       /\ MStatus_Initialization (OVHMachine_Status s) = machineInitializationProvisioned
       /\ m_cond s InstanceProvisioningReadyCondition /\ m_cond s InstanceRunningCondition
     else m_ready s = false
       /\ if decide (Instance_Status inst = InstanceStatusError) then
            out = done_ /\ ~ m_cond s InstanceProvisioningReadyCondition
            /\ MStatus_FailureReason (OVHMachine_Status s) = "InstanceError"%string
          else out = requeue requeueDelayLong.

(** Conditions marked in a row. *)
Ltac conditions :=
  unfold m_cond; cbn;
  rewrite ?IsTrue_MarkTrue, ?IsTrue_MarkFalse, ?IsTrue_MarkTrue_ne, ?IsTrue_MarkFalse_ne by done;
  first [done | by rewrite ?IsTrue_MarkTrue, ?IsTrue_MarkFalse].

Lemma handle_active_reports scope inst s t out s' :
  exec (handle_active scope inst s) t (out, s') ->
  Instance_Status inst = InstanceStatusActive -> m_id s = Instance_ID inst ->
  m_cond s InstanceCreatedCondition -> reports scope inst s' out.
Proof.
  unfold handle_active, mark_m_true, mspec. intros H Ha Hid Hc. unfold reports.
  rewrite decide_True by done.
  set (s5 := set_m_Conditions (MarkTrue InstanceRunningCondition
    (MarkTrue InstanceProvisioningReadyCondition (MStatus_Conditions (OVHMachine_Status s))))
    (set_m_Initialization machineInitializationProvisioned (set_m_Ready true
      (set_m_ProviderID (ProviderIDFromInstance (m_region scope) (Instance_ID inst))
        (set_m_Addresses (addresses_of (Instance_IPAddresses inst)) s))))).
  assert (out = done_ /\ same_but_members s5 s') as [-> Hs].
  { exec_all; (split; [done|]);
      match goal with H : exec (ensureLBPoolMember _ _ ?x) _ _ |- _ =>
        exact (keeps_exec same_but_members _ x _ _ (members_same scope inst) H) end. }
  assert (Hm : forall A (f : OVHMachine -> A),
    f (set_m_LBPoolMemberID "" (set_m_RegisterPoolMemberID "" s'))
    = f (set_m_LBPoolMemberID "" (set_m_RegisterPoolMemberID "" s5)))
    by (intros A f; by apply f_equal).
  assert (Hconds : MStatus_Conditions (OVHMachine_Status s') = MStatus_Conditions (OVHMachine_Status s5))
    by exact (Hm _ (fun s => MStatus_Conditions (OVHMachine_Status s))).
  split_and!.
  - by rewrite <- Hid; exact (Hm _ m_id).
  - revert Hc. unfold m_cond. rewrite Hconds. conditions.
  - done.
  - exact (Hm _ m_ready).
  - exact (Hm _ m_provider).
  - rewrite <- addresses_of_spec. exact (Hm _ (fun s => MStatus_Addresses (OVHMachine_Status s))).
  - exact (Hm _ (fun s => MStatus_Initialization (OVHMachine_Status s))).
  - unfold m_cond. rewrite Hconds. conditions.
  - unfold m_cond. rewrite Hconds. conditions.
Qed.

Lemma handleExistingInstance_reports scope inst s t out s' :
  exec (handleExistingInstance scope inst s) t (out, s') -> reports scope inst s' out.
Proof.
  unfold handleExistingInstance, mark_m_true. intros H.
  apply exec_m_bind in H as (t1 & [] & s1 & t2 & -> & H1 & H). exec_inv H1.
  apply exec_m_bind in H as (t1 & [] & s2 & t3 & -> & H1 & H). exec_inv H1.
  destruct (decide (Instance_Status inst = InstanceStatusActive)) as [Ha|Ha].
  { eapply handle_active_reports; [exact H | done | done | conditions]. }
  unfold reports. rewrite decide_False by done.
  destruct (decide (Instance_Status inst = InstanceStatusBuild)) as [Hb|Hb];
    [|destruct (decide (Instance_Status inst = InstanceStatusError)) as [He|He]].
  - unfold handle_build, mark_m_false in H. exec_all.
    rewrite decide_False by (rewrite Hb; done). split_and!; try done; conditions.
  - unfold handle_error, mark_m_false, count in H. exec_all.
    split_and!; try done; unfold m_cond; cbn; rewrite ?IsTrue_MarkFalse; try done; conditions.
  - exec_all. split_and!; try done. conditions.
Qed.

(** ** Where the instance comes from *)

#[local] Existing Instance same_but_id_preorder.

Definition instance_get (c : Client) (id : string) : request :=
  mkRequest GET (projectPath c "/instance/%s" [AS id]) NoBody TInstance.

(** The instance was answered in [t]: for the recorded ID or the one the spec
    adopts, or in the listing, as the first of the machine's name. *)
Definition found_instance (scope : MachineScope) (s : OVHMachine) (t : list obs) (inst : Instance)
    : Prop :=
  let c := MScope_OVHClient scope in
  (exists id, (id = m_id s \/ id = MSpec_ExistingInstanceID (OVHMachine_Spec s))
     /\ Obs (EApi (instance_get c id)) (Ok inst) ∈ t)
  \/ (exists insts, listed (T := TInstance) (with_region c (projectPath c "/instance" [])) insts t
        /\ first_match (fun i => bool_decide (Instance_Name i = instance_name scope s)) insts
           = Some inst).

Lemma found_instance_mono scope s t t' inst :
  (forall o, o ∈ t -> o ∈ t') -> found_instance scope s t inst -> found_instance scope s t' inst.
Proof.
  intros Hsub [(id & Hid & Hin)|(insts & Hl & H)]; [left | right].
  - exists id. auto.
  - exists insts. split; [by apply Hsub | done].
Qed.

Lemma GetInstance_Ok c id t inst :
  exec (GetInstance c id) t (Ok inst) -> Obs (EApi (instance_get c id)) (Ok inst) ∈ t.
Proof.
  intros ([x|e] & H & E)%exec_wrap; [|done]. injection E as ->.
  apply (retry_sound _ (instance_get c id)), retried_Ok in H as [t' ->].
  apply elem_of_app. right. by apply list_elem_of_singleton.
Qed.

Lemma recorded_instance_Some scope s t inst s' :
  exec (recorded_instance scope s) t (Ok (Some inst), s') -> found_instance scope s t inst.
Proof.
  unfold recorded_instance, mstatus. intros H. rewrite gets_bind in H. cbv zeta in H. exec_all.
  left. exists (m_id s). split; [by left|]. rewrite app_nil_r. by apply GetInstance_Ok.
Qed.

(** The other lookups do not read the recorded ID, which the first may have
    cleared. *)
Lemma adopted_instance_Some scope s0 s t inst s' :
  same_but_id s0 s ->
  exec (adopted_instance scope s) t (Ok (Some inst), s') -> found_instance scope s0 t inst.
Proof.
  intros Hs. assert (Hsp : OVHMachine_Spec s = OVHMachine_Spec s0)
    by exact (f_equal OVHMachine_Spec Hs).
  unfold adopted_instance, mspec. intros H. rewrite gets_bind in H. cbv zeta in H. rewrite Hsp in H. exec_all.
  left. eexists. split; [by right|]. rewrite app_nil_r.
  match goal with H : Ok _ = map_err _ ?r |- _ => destruct r; [|done]; injection H as -> end.
  by apply GetInstance_Ok.
Qed.

Lemma named_instance_Some scope s0 s t inst s' :
  same_but_id s0 s ->
  exec (named_instance scope s) t (Ok (Some inst), s') -> found_instance scope s0 t inst.
Proof.
  intros Hs. assert (Hn : instance_name scope s = instance_name scope s0)
    by (unfold instance_name; by rewrite <- (f_equal OVHMachine_ObjectMeta Hs
          : OVHMachine_ObjectMeta s = OVHMachine_ObjectMeta s0)).
  unfold named_instance. intros H. rewrite get_bind in H. cbv zeta in H.
  apply exec_m_wrap in H as ([x|e] & s1 & H & E); [|done]. injection E as <- ->.
  apply exec_m_lift in H as (r & H & [= <- ->]). right.
  destruct (FindInstanceByName_looks (MScope_OVHClient scope) (instance_name scope s)) as (op & wrap & Hl).
  destruct (Hl _ _ H) as ([xs|e] & Hr & E); [|done]. injection E as E. symmetry in E.
  exists xs. rewrite <- Hn. split; [|done].
  apply retried_Ok in Hr as [t' ->]. unfold listed. apply elem_of_app. right.
  by apply list_elem_of_singleton.
Qed.

Lemma or_else_Some found m s t inst s' :
  exec (or_else found m s) t (Ok (Some inst), s') ->
  found = Some inst \/ (found = None /\ exec (m s) t (Ok (Some inst), s')).
Proof. destruct found as [i|]; cbn [or_else]; intros H; [exec_inv H; by left | by right]. Qed.

Lemma find_instance_Some scope s t inst s' :
  exec (find_instance scope s) t (Ok (Some inst), s') -> found_instance scope s t inst.
Proof.
  unfold find_instance. intros H.
  apply exec_m_try in H as [(e & s1 & _ & E)|(t1 & found & s1 & t2 & -> & H1 & H)]; [done|].
  assert (Hs1 : same_but_id s s1)
    by (refine (keeps_exec same_but_id _ _ _ _ _ H1); auto with prog).
  apply exec_m_try in H as [(e & s2 & _ & E)|(t3 & found2 & s2 & t4 & -> & H2 & H)]; [done|].
  assert (Hs2 : same_but_id s1 s2).
  { refine (keeps_exec same_but_id _ _ _ _ _ H2). auto with prog. }
  assert (Hs : same_but_id s s2) by by transitivity s1.
  apply or_else_Some in H as [->|[-> H]].
  - apply or_else_Some in H2 as [->|[-> H2]].
    + apply recorded_instance_Some in H1. eapply found_instance_mono; [|exact H1].
      intros o. rewrite !elem_of_app. tauto.
    + eapply adopted_instance_Some in H2; [|exact Hs1]. eapply found_instance_mono; [|exact H2].
      intros o. rewrite !elem_of_app. tauto.
  - eapply named_instance_Some in H; [|exact Hs]. eapply found_instance_mono; [|exact H].
    intros o. rewrite !elem_of_app. tauto.
Qed.

(** ** What a pass is shown *)

(** The instances [t] shows at all: the answer to any look at one, and the first
    of the name in a listing. *)
Definition shows (c : Client) (name : string) (t : list obs) (inst : Instance) : Prop :=
  (exists id, Obs (EApi (instance_get c id)) (Ok inst) ∈ t)
  \/ (exists insts, listed (T := TInstance) (with_region c (projectPath c "/instance" [])) insts t
        /\ first_match (fun i => bool_decide (Instance_Name i = name)) insts = Some inst).

Lemma found_shows scope s t inst :
  found_instance scope s t inst -> shows (MScope_OVHClient scope) (instance_name scope s) t inst.
Proof. intros [(id & _ & H)|H]; [left; eauto | by right]. Qed.

Lemma shows_app c name t1 t2 i : shows c name (t1 ++ t2) i <-> shows c name t1 i \/ shows c name t2 i.
Proof. unfold shows, listed. setoid_rewrite elem_of_app. naive_solver. Qed.

(** The calls that read instances. *)
Definition looks (e : event) : bool :=
  match e with
  | EApi rq => bool_decide (req_method rq = GET
                 /\ (req_out rq = TInstance \/ req_out rq = TList TInstance))
  | _ => false
  end.

Lemma unseen c name t i : Forall (fun o => looks (obs_event o) = false) t -> ~ shows c name t i.
Proof.
  rewrite Forall_forall. intros Ht [(id & H)|(insts & H & _)]; by apply Ht in H.
Qed.

Lemma unseen_m {A} (m : M OVHMachine A) c name s t r i :
  only_m (fun e => looks e = false) m -> exec (m s) t r -> ~ shows c name t i.
Proof. intros Hm H. apply unseen. exact (only_m_exec (fun e => looks e = false) m s t r Hm H). Qed.

Lemma shows_nil c name i : ~ shows c name [] i.
Proof. apply unseen. constructor. Qed.

(** A call that only asks [rq]. *)
Definition asks (rq : request) (e : event) : Prop :=
  match e with EApi rq' => rq' = rq | _ => True end.

Lemma GetInstance_shows c id name t r i :
  exec (GetInstance c id) t r -> shows c name t i <-> r = Ok i.
Proof.
  intros H. assert (Ht : Forall (fun o => asks (instance_get c id) (obs_event o)) t)
    by (revert H; apply only_exec; auto with prog).
  rewrite Forall_forall in Ht. split.
  - apply exec_wrap in H as (r0 & H & ->). apply (retry_sound _ (instance_get c id)) in H.
    intros [(id' & Hin)|(insts & Hin & _)]; pose proof (Ht _ Hin) as E; [|done].
    assert (Hp : projectPath c "/instance/%s" [AS id'] = projectPath c "/instance/%s" [AS id])
      by exact (f_equal req_path E).
    unfold instance_get in *. rewrite Hp in Hin.
    by rewrite (retried_listed _ _ _ _ _ H Hin).
  - intros ->. left. exists id. by apply GetInstance_Ok.
Qed.

Lemma FindInstanceByName_shows c name t r i :
  exec (FindInstanceByName c name) t r -> shows c name t i <-> r = Ok (Some i).
Proof.
  intros H. set (rq := mkRequest GET (with_region c (projectPath c "/instance" [])) NoBody (TList TInstance)).
  assert (Ht : Forall (fun o => asks rq (obs_event o)) t)
    by (revert H; apply only_exec; auto with prog).
  rewrite Forall_forall in Ht.
  destruct (FindInstanceByName_looks c name) as (op & wrap & Hl).
  destruct (Hl _ _ H) as (r0 & Hr & ->). split.
  - intros [(id' & Hin)|(insts & Hin & E)]; [by apply Ht in Hin|].
    rewrite (retried_listed _ _ _ _ _ Hr Hin). cbn. by rewrite E.
  - destruct r0 as [xs|e]; [|done]. cbn. intros [= E]. right. exists xs. split; [|done].
    apply retried_Ok in Hr as [t' ->]. unfold listed. apply elem_of_app. right.
    by apply list_elem_of_singleton.
Qed.

(** A lookup tells what it is shown, and what was found before it. *)
Definition tells (scope : MachineScope) (name : string) (found : option Instance)
    (m : M OVHMachine (res (option Instance))) : Prop :=
  keeps same_but_id m /\
  forall s t r s' i, instance_name scope s = name -> exec (m s) t (r, s') ->
    found = Some i \/ shows (MScope_OVHClient scope) name t i <-> r = Ok (Some i).

Lemma same_name scope s s' : same_but_id s s' -> instance_name scope s' = instance_name scope s.
Proof.
  intros Hs. unfold instance_name.
  by rewrite (f_equal OVHMachine_ObjectMeta Hs : OVHMachine_ObjectMeta s' = OVHMachine_ObjectMeta s).
Qed.

Lemma tells_try scope name found m k :
  tells scope name found m -> (forall found', tells scope name found' (k found')) ->
  tells scope name found (try_bind m k).
Proof.
  intros [Hmk Hm] Hk. split.
  { apply (keeps_try same_but_id); [done|]. intros found'. apply Hk. }
  intros s t r s' i Hn H.
  apply exec_m_try in H as [(e & s1 & H & [= -> ->])|(t1 & found' & s1 & t2 & -> & H1 & H)].
  - rewrite (Hm _ _ _ _ i Hn H). done.
  - pose proof (keeps_exec same_but_id _ _ _ _ Hmk H1) as Hs%(same_name scope). cbn [snd] in Hs.
    rewrite shows_app, <- (proj2 (Hk found') s1 t2 r s' i) by (done || congruence).
    pose proof (Hm _ _ _ _ i Hn H1). naive_solver.
Qed.

Lemma tells_or_else scope name found m :
  tells scope name None m -> tells scope name found (or_else found m).
Proof.
  intros Hm. destruct found as [j|]; [|exact Hm]. split; [apply (keeps_ret same_but_id)|].
  intros s t r s' i _ H. cbn [or_else] in H. exec_inv H. pose proof (shows_nil (MScope_OVHClient scope) name i). naive_solver.
Qed.

Lemma recorded_tells scope name : tells scope name None (recorded_instance scope).
Proof.
  split; [auto with prog|]. intros s t r s' i _ H.
  unfold recorded_instance, mstatus in H. rewrite gets_bind in H. cbv zeta in H.
  case_decide; [|exec_inv H; pose proof (shows_nil (MScope_OVHClient scope) name i); naive_solver].
  apply exec_m_bind in H as (t1 & r1 & s1 & t2 & -> & H1 & H).
  apply exec_m_lift in H1 as (r' & H1 & [= -> ->]).
  apply (GetInstance_shows _ _ name _ _ i) in H1.
  assert (t2 = [] /\ (r = Ok (Some i) <-> r' = Ok i)) as [-> Hr].
  { destruct r' as [j|e]; [|destruct (IsNotFound (Some e))]; exec_all; naive_solver. }
  rewrite app_nil_r. naive_solver.
Qed.

Lemma adopted_tells scope name : tells scope name None (adopted_instance scope).
Proof.
  split; [auto with prog|]. intros s t r s' i _ H.
  unfold adopted_instance, mspec in H. rewrite gets_bind in H. cbv zeta in H.
  case_decide; [|exec_inv H; pose proof (shows_nil (MScope_OVHClient scope) name i); naive_solver].
  apply exec_m_try in H as [(e & s1 & H & [= -> ->])|(t1 & j & s1 & t2 & -> & H & [-> [= -> ->]])];
    apply exec_m_wrap in H as (r1 & s2 & H & [= E ->]);
    apply exec_m_lift in H as (r' & H & [= -> ->]);
    apply (GetInstance_shows _ _ name _ _ i) in H; rewrite ?app_nil_r, H;
    destruct r'; naive_solver.
Qed.

Lemma named_tells scope name : tells scope name None (named_instance scope).
Proof.
  split; [auto with prog|]. intros s t r s' i Hn H.
  unfold named_instance in H. rewrite get_bind in H. cbv zeta in H. rewrite Hn in H.
  apply exec_m_wrap in H as (r1 & s1 & H & [= -> ->]).
  apply exec_m_lift in H as (r' & H & [= -> ->]).
  apply (FindInstanceByName_shows _ name _ _ i) in H. rewrite H. destruct r'; naive_solver.
Qed.

(** The lookups return exactly what they are shown. *)
Lemma find_instance_shows scope s t r s' i :
  exec (find_instance scope s) t (r, s') ->
  shows (MScope_OVHClient scope) (instance_name scope s) t i <-> r = Ok (Some i).
Proof.
  intros H. assert (Hf : tells scope (instance_name scope s) None (find_instance scope)).
  { apply tells_try; [apply recorded_tells|]. intros found.
    apply tells_try; [apply tells_or_else, adopted_tells|]. intros found2.
    apply tells_or_else, named_tells. }
  rewrite <- (proj2 Hf _ _ _ _ i eq_refl H). naive_solver.
Qed.

(** The other steps are shown none. *)
Lemma existing_looks scope inst : only_m (fun e => looks e = false) (handleExistingInstance scope inst).
Proof. auto with prog. Qed.

Lemma create_looks scope : only_m (fun e => looks e = false) (createInstance scope).
Proof. auto with prog. Qed.

(** ** Readiness *)

(** Nothing becomes ready, and the provider ID stays. *)
Definition not_readier (s s' : OVHMachine) : Prop :=
  (m_ready s' = true -> m_ready s = true) /\ m_provider s' = m_provider s.

#[local] Instance not_readier_preorder : PreOrder not_readier.
Proof. split; [by split|]. intros s1 s2 s3 [? ?] [? ?]. split; [tauto | congruence]. Qed.

(** No instance of the machine was answered in [t]. *)
Definition none_found (scope : MachineScope) (s : OVHMachine) (t : list obs) : Prop :=
  forall inst, ~ found_instance scope s t inst.

Lemma unseen_none scope s t :
  (forall i, ~ shows (MScope_OVHClient scope) (instance_name scope s) t i) -> none_found scope s t.
Proof. intros H i Hi%found_shows. by eapply H. Qed.

(** What follows a part of a pass shows nothing. *)
Definition unseen_after (t : list obs) : Prop := forall c name i, ~ shows c name t i.

Lemma found_app scope s t1 t2 i :
  unseen_after t2 -> found_instance scope s (t1 ++ t2) i <-> found_instance scope s t1 i.
Proof.
  intros Ht2. split.
  - intros [(id & Hid & Hin)|(insts & Hl & Hi)]; [left | right].
    + exists id. split; [done|]. apply elem_of_app in Hin as [|Hin]; [done|].
      edestruct (Ht2 (MScope_OVHClient scope) ""%string i); left; eauto.
    + exists insts. split; [|done]. apply elem_of_app in Hl as [|Hl]; [done|].
      edestruct (Ht2 (MScope_OVHClient scope) (instance_name scope s) i); right; eauto.
  - apply found_instance_mono. intros o Ho. apply elem_of_app. by left.
Qed.

(** The gauge that closes a pass. *)
Lemma ReconcileNormal_body scope s t out s' :
  exec (ReconcileNormal scope s) t (out, s') ->
  exists t1 t2, t = t1 ++ t2 /\ exec (reconcile_normal_body scope s) t1 (out, s') /\ unseen_after t2.
Proof.
  unfold ReconcileNormal. intros H.
  apply exec_m_bind in H as (t1 & out' & s1 & t2 & -> & H & Hrest). exists t1, t2.
  assert (unseen_after t2) as Ht2.
  { intros c name i. revert Hrest. apply unseen_m. auto with prog. }
  assert (out = out' /\ s' = s1) as [-> ->] by (unfold count in Hrest; by exec_all). done.
Qed.

(** A pass finds an instance, the only one it is shown, and reports it; or it is
    shown none. *)
Definition status_case (scope : MachineScope) (s : OVHMachine) (t : list obs) (out : outcome)
    (s' : OVHMachine) : Prop :=
  (exists inst, found_instance scope s t inst
     /\ (forall i, found_instance scope s t i -> i = inst) /\ reports scope inst s' out)
  \/ none_found scope s t /\ not_readier s s'.

Lemma status_case_app scope s t1 t2 out s' :
  unseen_after t2 -> status_case scope s t1 out s' -> status_case scope s (t1 ++ t2) out s'.
Proof.
  intros Ht2 H. unfold status_case, none_found in *.
  by setoid_rewrite (fun i => found_app scope s t1 t2 i Ht2).
Qed.

(** A step without lookups. *)
Lemma unseen_case (m : M OVHMachine outcome) scope s t out s' :
  keeps not_readier m -> only_m (fun e => looks e = false) m -> exec (m s) t (out, s') ->
  status_case scope s t out s'.
Proof.
  intros Hk Hl H. right. split; [|exact (keeps_exec not_readier _ _ _ _ Hk H)].
  apply unseen_none. intros i. by eapply unseen_m.
Qed.

(** The part of a pass that follows the guards. *)
Definition look_and_act (scope : MachineScope) : M OVHMachine outcome :=
  found ← find_instance scope;
  match found with
  | Err err => mret (failed err)
  | Ok (Some instance) => handleExistingInstance scope instance
  | Ok None => createInstance scope
  end.

Lemma look_and_act_case scope s t out s' :
  exec (look_and_act scope s) t (out, s') -> status_case scope s t out s'.
Proof.
  unfold look_and_act. intros H. apply exec_m_bind in H as (t1 & found & s1 & t2 & -> & H1 & H).
  assert (Hf : not_readier s s1)
    by (refine (keeps_exec not_readier _ _ _ _ _ H1); auto with prog).
  pose proof (fun i => find_instance_shows _ _ _ _ _ i H1) as Hshow.
  assert (Ht2 : unseen_after t2).
  { intros c nm i. destruct found as [[inst|]|e]; revert H; apply unseen_m;
      [apply existing_looks | apply create_looks | auto with prog]. }
  apply status_case_app; [done|]. destruct found as [[inst|]|e].
  - left. exists inst. split_and!.
    + by apply find_instance_Some in H1.
    + intros i Hi%found_shows%Hshow. congruence.
    + by apply handleExistingInstance_reports in H.
  - right. split; [apply unseen_none; intros i; by rewrite Hshow|]. transitivity s1; [done|].
    refine (keeps_exec not_readier _ _ _ _ _ H). auto with prog.
  - right. split; [apply unseen_none; intros i; by rewrite Hshow|]. by exec_inv H.
Qed.

Lemma reconcile_normal_cases scope s t out s' :
  exec (ReconcileNormal scope s) t (out, s') -> status_case scope s t out s'.
Proof.
  intros (t1 & t2 & -> & H & Ht2)%ReconcileNormal_body. apply status_case_app; [done|].
  unfold reconcile_normal_body in H. rewrite get_bind in H. cbv zeta in H.
  destruct (IsPaused _ _); [eapply unseen_case; [..|exact H]; auto with prog|].
  destruct (_ && _); [eapply unseen_case; [..|exact H]; auto with prog|].
  destruct (negb _); [eapply unseen_case; [..|exact H]; auto with prog|].
  destruct (Machine_DataSecretName _) as [name|]; [|eapply unseen_case; [..|exact H]; auto with prog].
  by apply look_and_act_case in H.
Qed.

(** C14: what a pass reports is decided by the instance it is shown (answered for
    the recorded ID or the adopted one, or the first of the machine's name in
    the listing). Shown one, which is then the only one, it reports it: ready,
    with the provider ID of the region and the instance and its IPv4 addresses,
    when it is ACTIVE; not ready otherwise. Shown none, it sets neither [Ready]
    nor the provider ID. *)
Theorem machine_status_sound scope s t out s' :
  exec (ReconcileNormal scope s) t (out, s') ->
  (exists inst, found_instance scope s t inst
     /\ (forall i, found_instance scope s t i -> i = inst)
     /\ reports scope inst s' out)
  \/ (forall i, ~ found_instance scope s t i)
     /\ (m_ready s' = true -> m_ready s = true) /\ m_provider s' = m_provider s.
Proof. apply reconcile_normal_cases. Qed.

(** ** The life of a machine *)

Lemma reconcile_delete_same scope : keeps not_readier (ReconcileDelete scope).
Proof. auto with prog. Qed.

(** One event in the life of a machine of [region]: a pass of the controller,
    or a change by others that leaves the status and the provider ID alone. *)
Inductive life_step (region : string) : OVHMachine -> OVHMachine -> Prop :=
| step_normal scope s t out s' :
    m_region scope = region -> exec (ReconcileNormal scope s) t (out, s') -> life_step region s s'
| step_delete scope s t out s' :
    exec (ReconcileDelete scope s) t (out, s') -> life_step region s s'
| step_edit s s' :
    OVHMachine_Status s' = OVHMachine_Status s -> m_provider s' = m_provider s ->
    life_step region s s'.

(** A pass over [s1] to [s2] that was shown the ACTIVE instance [inst] and
    recorded it. *)
Definition served (region : string) (s1 s2 : OVHMachine) (inst : Instance) : Prop :=
  exists scope t, m_region scope = region /\ exec (ReconcileNormal scope s1) t (done_, s2)
    /\ found_instance scope s1 t inst /\ Instance_Status inst = InstanceStatusActive
    /\ m_id s2 = Instance_ID inst
    /\ m_provider s2 = ProviderIDFromInstance region (Instance_ID inst).

(** C15: over any number of passes and of edits by others, a machine that
    started out not ready and is ready owes it to one of the passes: that pass
    was shown an ACTIVE instance, recorded it, and set the provider ID the machine
    still has, which names that instance in the region and parses back to
    both. *)
Theorem machine_life region s0 s :
  rtc (life_step region) s0 s -> m_ready s0 = false -> m_ready s = true ->
  exists s1 s2 inst, rtc (life_step region) s0 s1 /\ rtc (life_step region) s2 s
    /\ served region s1 s2 inst
    /\ m_provider s = m_provider s2
    /\ (region <> ""%string -> no_slash region -> Instance_ID inst <> ""%string ->
        ParseProviderID (m_provider s) = Ok (region, Instance_ID inst)).
Proof.
  intros Hlife H0. revert s Hlife.
  cut (forall s, rtc (life_step region) s0 s -> m_ready s = true ->
         exists s1 s2 inst, rtc (life_step region) s0 s1 /\ rtc (life_step region) s2 s
           /\ served region s1 s2 inst /\ m_provider s = m_provider s2).
  { intros H s Hs Hr. destruct (H s Hs Hr) as (s1 & s2 & inst & H1 & H2 & Hserved & Hp).
    exists s1, s2, inst. split_and!; [done..|]. intros Hne Hns Hidne. rewrite Hp.
    destruct Hserved as (scope & t & _ & _ & _ & _ & _ & ->). by apply ParseProviderID_iff. }
  apply (rtc_ind_r (fun s => m_ready s = true ->
    exists s1 s2 inst, rtc (life_step region) s0 s1 /\ rtc (life_step region) s2 s
      /\ served region s1 s2 inst /\ m_provider s = m_provider s2)); [congruence|].
  intros s1 s2 Hs1 Hstep IH Hr.
  assert (Hold : not_readier s1 s2 -> exists s3 s4 inst, rtc (life_step region) s0 s3
      /\ rtc (life_step region) s4 s2 /\ served region s3 s4 inst /\ m_provider s2 = m_provider s4).
  { intros [H1 H2]. destruct (IH (H1 Hr)) as (s3 & s4 & inst & ? & ? & ? & ?).
    exists s3, s4, inst. split_and!; [done | by eapply rtc_r | done | congruence]. }
  destruct Hstep as [scope s1 t out s2 Hreg H|scope s1 t out s2 H|s1 s2 Hst Hp].
  - pose proof H as [(inst & Hf & _ & Hid & _ & Hrep)|[_ Hn]]%reconcile_normal_cases; [|by apply Hold].
    case_decide as Ha; [|by destruct Hrep as [Hrep _]; congruence].
    destruct Hrep as (-> & _ & Hprov & _). exists s1, s2, inst. split_and!; [done.. | | done].
    exists scope, t. rewrite <- Hreg. done.
  - apply Hold. exact (keeps_exec not_readier _ _ _ _ (reconcile_delete_same scope) H).
  - apply Hold. split; [|done]. unfold m_ready. by rewrite Hst.
Qed.

End status.
End facts.
