(* ===== verification/MachineReconcileFacts.v ===== *)
(** * The OVHMachine controller as a whole

    Deletion (what may be deleted, and when the finalizer goes) and the entry
    point [Reconcile]: the finalizer comes first, every pass ends with the patch
    of the object, and the one panic. *)

From S2P Require Import Prelude GoStrings Errors OvhTypes ApiTypes Effects Client Names StringFacts.
From S2P Require Import NamesFacts Logic ClientFacts NodeInit ClusterController ClusterDeleteFacts.
From S2P Require Import ClusterStepFacts ClusterReconcileFacts MachineController MachineFacts.
From S2P Require Import MachineStatusFacts.

Local Open Scope Z_scope.

Section facts.
Context `{U : Unicode} `{C : CAPI}.

(** ** What a deletion may ask for *)

Definition volume_delete (c : Client) (id : string) : request :=
  delete_request (projectPath c "/volume/%s" [AS id]).
Definition volume_detach (c : Client) (id instanceID : string) : request :=
  mkRequest POST (projectPath c "/volume/%s/detach" [AS id]) (BAttach (mkAttachVolumeOpts instanceID))
    TNone.
Definition member_delete (c : Client) (poolID memberID : string) : request :=
  delete_request (regionPath c "/loadbalancing/pool/%s/member/%s" [AS poolID; AS memberID]).
Definition instance_delete (c : Client) (id : string) : request :=
  delete_request (projectPath c "/instance/%s" [AS id]).

(** The volumes, the pool member and the instance the status records. *)
Definition own_resource (scope : MachineScope) (s : OVHMachine) (rq : request) : Prop :=
  let c := MScope_OVHClient scope in
  let poolID := CStatus_PoolID (OVHCluster_Status (MScope_OVHCluster scope)) in
  let st := OVHMachine_Status s in
  (exists v, v ∈ MStatus_VolumeIDs st /\ (rq = volume_delete c v \/ rq = volume_detach c v (m_id s)))
  \/ rq = member_delete c poolID (MStatus_LBPoolMemberID st)
  \/ rq = instance_delete c (m_id s)
  \/ rq = instance_get c (m_id s).

Definition own_event (scope : MachineScope) (s : OVHMachine) (e : event) : Prop :=
  match e with EApi rq => own_resource scope s rq | _ => True end.

Definition instance_event (scope : MachineScope) (id : string) (e : event) : Prop :=
  match e with
  | EApi rq => rq = instance_delete (MScope_OVHClient scope) id
               \/ rq = instance_get (MScope_OVHClient scope) id
  | _ => True
  end.

(** What the steps of a deletion keep. *)
Definition same_ids (s s' : OVHMachine) : Prop :=
  m_id s' = m_id s /\ OVHMachine_ObjectMeta s' = OVHMachine_ObjectMeta s.

#[local] Instance same_ids_preorder : PreOrder same_ids.
Proof. split; [by split|]. intros s1 s2 s3 [? ?] [? ?]. split; congruence. Qed.

Definition unchanged (s s' : OVHMachine) : Prop := s' = s.

#[local] Instance unchanged_preorder : PreOrder unchanged.
Proof. split; [done|]. intros s1 s2 s3 -> ->. done. Qed.

Lemma delete_volume_runs scope v s t s' :
  v ∈ MStatus_VolumeIDs (OVHMachine_Status s) ->
  exec (delete_volume scope v s) t (tt, s') ->
  s' = s /\ Forall (fun o => own_event scope s (obs_event o)) t.
Proof.
  intros Hv H. assert (s' = s) as ->.
  { refine (keeps_exec unchanged _ _ _ _ _ H). auto with prog. }
  split; [done|]. revert H. apply only_exec. unfold delete_volume, mstatus. rewrite gets_bind.
  match goal with |- only ?P (?m s) => cut (only_m P m); [intros Hm; apply Hm|] end.
  repeat only_rule; try done; cbn; left; exists v; auto.
Qed.

Lemma delete_volumes_runs scope vs s t s' :
  (forall v, v ∈ vs -> v ∈ MStatus_VolumeIDs (OVHMachine_Status s)) ->
  exec (for_each (delete_volume scope) vs s) t (tt, s') ->
  s' = s /\ Forall (fun o => own_event scope s (obs_event o)) t.
Proof.
  revert t. induction vs as [|v vs IH]; intros t Hvs H; cbn [for_each] in H.
  { exec_inv H. by split. }
  apply exec_m_bind in H as (t1 & [] & s1 & t2 & -> & H1 & H).
  apply delete_volume_runs in H1 as [-> H1]; [|apply Hvs; by left].
  apply IH in H as [-> H]; [|intros v' Hv'; apply Hvs; by right].
  split; [done|]. by apply Forall_app.
Qed.

Lemma removeLBPoolMember_runs scope s t s' :
  exec (removeLBPoolMember scope s) t (tt, s') ->
  same_ids s s' /\ Forall (fun o => own_event scope s (obs_event o)) t.
Proof.
  intros H. split.
  { refine (keeps_exec same_ids _ _ _ _ _ H). auto with prog. }
  revert H. apply only_exec. unfold removeLBPoolMember, mstatus. rewrite gets_bind.
  case_decide; [exact I|]. cbv zeta. case_decide; [exact I|].
  match goal with |- only ?P (?m s) => cut (only_m P m); [intros Hm; apply Hm|] end.
  repeat only_rule; try done. right; left. reflexivity.
Qed.

Lemma DeleteInstance_acked c id t :
  exec (DeleteInstance c id) t (Ok tt) -> acked IsNotFound (instance_delete c id) t.
Proof. by apply tolerate_acked; [apply IsNotFound_steadfast|]. Qed.

(** The deletion of the instance was acknowledged in [t] (with success, or with
    an error that is NotFound), and a look at the instance after that found it
    gone: the look failed, with whatever error, or showed status DELETED. *)
Definition deleted_in (c : Client) (id : string) (t : list obs) : Prop :=
  exists ta tl tb r, t = ta ++ tl ++ tb
    /\ acked IsNotFound (instance_delete c id) ta
    /\ exec (GetInstance c id) tl r
    /\ match r with Err _ => True | Ok inst => Instance_Status inst = InstanceStatusDeleted end.

Lemma deleted_in_mid c id ta t tb : deleted_in c id t -> deleted_in c id (ta ++ t ++ tb).
Proof.
  intros (t1 & tl & t2 & r & -> & Ha & H). exists (ta ++ t1), tl, (t2 ++ tb), r.
  split; [by rewrite <- !app_assoc|]. split; [|done].
  eapply acked_mono; [|exact Ha]. intros o. rewrite elem_of_app. tauto.
Qed.

Lemma delete_instance_runs scope s t r s' :
  exec (delete_instance scope s) t (r, s') ->
  s' = s /\ Forall (fun o => instance_event scope (m_id s) (obs_event o)) t
  /\ match r with
     | Some out => is_Some out.2 \/ out = requeue requeueDelay
     | None => m_id s <> ""%string -> deleted_in (MScope_OVHClient scope) (m_id s) t
     end.
Proof.
  intros H. split_and!.
  - refine (keeps_exec unchanged _ _ _ _ _ H). auto with prog.
  - revert H. apply only_exec. unfold delete_instance, mstatus. rewrite gets_bind.
    cbv zeta. case_decide; [|exact I].
    match goal with |- only ?P (?m s) => cut (only_m P m); [intros Hm; apply Hm|] end.
    repeat only_rule; try done; [left | right]; reflexivity.
  - unfold delete_instance, mstatus in H. rewrite gets_bind in H. cbv zeta in H.
    fold (m_id s) in H.
    destruct (decide (m_id s = ""%string)) as [Hid|Hid].
    { rewrite decide_False in H by tauto. exec_inv H. tauto. }
    rewrite decide_True in H by done.
    apply exec_m_bind in H as (t1 & err & s1 & t2 & -> & H1 & H).
    apply exec_m_lift in H1 as (r1 & H1 & [= -> ->]).
    destruct r1 as [[]|e]; [|unfold count in H; exec_all; left; by eexists].
    apply exec_m_bind in H as (t3 & inst & s2 & t4 & -> & H2 & H).
    apply exec_m_lift in H2 as (r2 & H2 & [= -> ->]).
    assert (Hdone : (exists out, r = Some out /\ out = requeue requeueDelay)
      \/ r = None /\ match r2 with Err _ => True | Ok inst => Instance_Status inst = InstanceStatusDeleted end).
    { destruct r2 as [inst|e]; [|exec_inv H; by right].
      destruct (decide (Instance_Status inst = InstanceStatusDeleted)) as [Hd|Hd].
      - rewrite decide_False in H by tauto. exec_inv H. by right.
      - rewrite decide_True in H by done. exec_inv H. left. eauto. }
    destruct Hdone as [(out & -> & ->)|[-> Hr]]; [by right|]. intros _.
    exists t1, t3, t4, r2. split_and!; [done | by apply DeleteInstance_acked | done..].
Qed.

(** The runs of [ReconcileDelete] past the adoption policy. *)
Lemma delete_runs scope s t out s' :
  exec (ReconcileDelete scope s) t (out, s') ->
  let m := OVHMachine_ObjectMeta s in
  annotation m adoption_policy <> "keep"%string ->
  Forall (fun o => own_event scope s (obs_event o)) t
  /\ if decide (out = done_)
     then OVHMachine_ObjectMeta s' = set_Finalizers (RemoveFinalizer (Meta_Finalizers m) MachineFinalizer) m
          /\ (m_id s <> ""%string -> deleted_in (MScope_OVHClient scope) (m_id s) t)
     else OVHMachine_ObjectMeta s' = m /\ (is_Some out.2 \/ out = requeue requeueDelay).
Proof.
  cbv zeta. intros H Hkeep. unfold ReconcileDelete in H. rewrite get_bind in H.
  rewrite decide_False in H by done.
  apply exec_m_bind in H as (t1 & [] & s1 & t2 & -> & H1 & H).
  unfold count in H1. exec_inv H1. exec_inv H1.
  apply exec_m_bind in H as (t3 & [] & s2 & t4 & -> & H2 & H).
  apply delete_volumes_runs in H2 as [-> P2]; [|done].
  apply exec_m_bind in H as (t5 & [] & s3 & t6 & -> & H3 & H).
  apply removeLBPoolMember_runs in H3 as [[Hid Hm] P3].
  apply exec_m_bind in H as (t7 & r & s4 & t8 & -> & H4 & H).
  apply delete_instance_runs in H4 as (-> & P4 & Hr).
  assert (t8 = []) as -> by (unfold remove_m_finalizer in H; destruct r; by exec_all).
  assert (P4' : Forall (fun o => own_event scope s (obs_event o)) t7).
  { eapply Forall_impl; [exact P4|]. intros o. unfold own_event, own_resource, instance_event.
    rewrite Hid. destruct (obs_event o); tauto. }
  split; [rewrite !Forall_app; split_and!; try done; by repeat constructor|].
  destruct r as [out'|].
  - exec_inv H. rewrite decide_False; [auto|].
    destruct Hr as [Hr| ->]; [|done]. intros ->. by destruct Hr.
  - unfold remove_m_finalizer in H. exec_all. rewrite decide_True by done. split; [cbn; by rewrite Hm|].
    rewrite Hid in Hr. intros Hg%Hr.
    rewrite !app_assoc, <- app_assoc. by apply deleted_in_mid.
Qed.

Lemma delete_keep scope s t out s' :
  exec (ReconcileDelete scope s) t (out, s') ->
  annotation (OVHMachine_ObjectMeta s) adoption_policy = "keep"%string ->
  t = [] /\ out = done_
  /\ s' = set_m_Finalizers
            (RemoveFinalizer (Meta_Finalizers (OVHMachine_ObjectMeta s)) MachineFinalizer) s.
Proof.
  unfold ReconcileDelete, remove_m_finalizer. intros H Hk. rewrite get_bind in H.
  rewrite decide_True in H by done. by exec_all.
Qed.

(** C17: deleting a machine touches nothing but its own: it deletes (and
    detaches) the volumes its status records, removes the recorded member of the
    API server's pool, and deletes the recorded instance. In particular the
    member of the register pool is left behind. *)
Theorem machine_delete_own scope s t out s' :
  exec (ReconcileDelete scope s) t (out, s') -> Forall (own_resource scope s) (requests t).
Proof.
  intros H. destruct (decide (annotation (OVHMachine_ObjectMeta s) adoption_policy = "keep"%string)).
  - apply delete_keep in H as [-> _]; [constructor | done].
  - apply delete_runs in H as [H _]; [|done]. exact (requests_Forall (own_event scope s) _ H).
Qed.

(** C16: the finalizer of a machine goes only when the policy is to keep its
    instance, and then nothing is called; or when no instance is recorded; or
    when the pass had the deletion of the recorded instance acknowledged
    (answered with success, or with an error that [IsNotFound] accepts) and then
    looked at the instance, and the look showed it DELETED or failed, with
    whatever error. Otherwise the finalizers stay and the pass is retried. *)
Theorem machine_delete_finalizer scope s t out s' :
  exec (ReconcileDelete scope s) t (out, s') ->
  let m := OVHMachine_ObjectMeta s in
  if decide (out = done_)
  then OVHMachine_ObjectMeta s' = set_Finalizers (RemoveFinalizer (Meta_Finalizers m) MachineFinalizer) m
       /\ (annotation m adoption_policy = "keep"%string /\ t = []
           \/ m_id s = ""%string
           \/ deleted_in (MScope_OVHClient scope) (m_id s) t)
  else OVHMachine_ObjectMeta s' = m /\ (is_Some out.2 \/ out = requeue requeueDelay).
Proof.
  intros H. cbv zeta.
  destruct (decide (annotation (OVHMachine_ObjectMeta s) adoption_policy = "keep"%string)) as [Hk|Hk].
  - apply delete_keep in H as (-> & -> & ->); [|done]. rewrite decide_True by done.
    split; [done | by left].
  - apply delete_runs in H as [_ H]; [|done]. case_decide; [|exact H].
    destruct H as [Hm H]. split; [done|]. right.
    destruct (decide (m_id s = ""%string)); [by left | right; by apply H].
Qed.

(** ** The entry point *)

Definition no_machine_patch (e : event) : Prop :=
  match e with EPatchMachine _ => False | _ => True end.

Lemma reconcile_body_no_patch_m : only_m no_machine_patch reconcile_body.
Proof. auto with prog. Qed.

Lemma machine_Reconcile_runs ns name t out o :
  exec (Reconcile ns name)
    (Obs (EGetOVHMachine ns name) (Ok o) :: Obs (ENewMachinePatch o) (Ok tt) :: t) out ->
  exists t' out' s' patchErr,
    t = t' ++ [Obs (EPatchMachine s') patchErr] /\ exec (reconcile_body o) t' (out', s')
    /\ out = match out' with
             | Returned out' => Returned (with_patch_err out' patchErr)
             | NilDereference => NilDereference
             end.
Proof.
  unfold Reconcile. intros H%exec_call_bind. apply exec_call_bind in H.
  apply exec_bind in H as (t' & [out' s'] & t3 & -> & Hb & H).
  apply exec_call_inv in H as (patchErr & t4 & -> & [-> ->]).
  exists t', out', s', patchErr. split_and!; [done..|]. by destruct out'.
Qed.

(** The trace of the panic: the owner cluster was answered without a reference
    to its infrastructure. *)
Definition no_infrastructure (o : OVHMachine) (t : list obs) : Prop :=
  exists owner cl t', t = Obs (EGetOwnerMachine (OVHMachine_ObjectMeta o)) (Ok (Some owner))
    :: Obs (EGetClusterFromMetadata (Machine_ObjectMeta owner)) (Ok (Some cl)) :: t'
    /\ Cluster_InfrastructureRef cl = None.

Lemma no_infrastructure_cons o owner cl t :
  Cluster_InfrastructureRef cl <> None ->
  ~ no_infrastructure o (Obs (EGetOwnerMachine (OVHMachine_ObjectMeta o)) (Ok (Some owner))
      :: Obs (EGetClusterFromMetadata (Machine_ObjectMeta owner)) (Ok (Some cl)) :: t).
Proof.
  intros Hcl (ow & c & t'' & [[= <-] E]%Obs_cons_inj & Hc).
  apply Obs_cons_inj in E as [[= <-] _]. congruence.
Qed.

(** The runs of [reconcile_body]: what comes before the handler makes no request
    of OVH. *)
Lemma reconcile_body_runs o t out s' :
  exec (reconcile_body o) t (out, s') ->
  (out = NilDereference <-> no_infrastructure o t)
  /\ (requests t = [] /\ s' = o
      \/ exists ta tb scope out', t = ta ++ tb /\ requests ta = []
           /\ exec ((if negb (IsZero (Meta_DeletionTimestamp (OVHMachine_ObjectMeta o)))
                     then ReconcileDelete scope else ReconcileNormal scope) o) tb (out', s')).
Proof.
  intros H. unfold reconcile_body in H. rewrite get_bind in H.
  apply exec_m_call_inv in H as ([[owner|]|e] & t1 & -> & H).
  2,3: exec_inv H; split; [|by left]; (split; [done|]);
    intros (ow & c & t'' & [? _]%Obs_cons_inj & _); congruence.
  apply exec_m_call_inv in H as ([[cl|]|e] & t2 & -> & H).
  2,3: exec_inv H; split; [|by left]; (split; [done|]);
    intros (ow & c & t'' & [[= <-] E]%Obs_cons_inj & _); apply Obs_cons_inj in E as [? _]; congruence.
  destruct (Cluster_InfrastructureRef cl) as [ref|] eqn:Href.
  2:{ exec_inv H. split; [|by left]. split; [|done]. intros _. by exists owner, cl, []. }
  assert (Hno : forall t, ~ no_infrastructure o (Obs (EGetOwnerMachine (OVHMachine_ObjectMeta o)) (Ok (Some owner))
      :: Obs (EGetClusterFromMetadata (Machine_ObjectMeta owner)) (Ok (Some cl)) :: t))
    by (intros t; apply no_infrastructure_cons; congruence).
  apply exec_m_call_inv in H as ([ovhCluster|e] & t3 & -> & H).
  2:{ exec_inv H. split; [|by left]. split; [done | intros ?; by edestruct Hno]. }
  apply exec_m_bind in H as (t4 & client & s1 & t5 & -> & H1 & H).
  apply exec_m_lift in H1 as (r & Hc%client_no_request & [= -> ->]).
  destruct r as [client|e].
  - apply exec_m_bind in H as (t6 & out1 & s2 & t7 & -> & H & [-> [= -> ->]]).
    split; [split; [done | intros ?; by edestruct Hno]|]. right.
    eexists (_ :: _ :: _ :: t4), t6, _, out1. rewrite app_nil_r.
    split_and!; [done | exact Hc |].
    by destruct (negb (IsZero (Meta_DeletionTimestamp (OVHMachine_ObjectMeta o)))).
  - exec_inv H. split; [split; [done | intros ?; by edestruct Hno]|]. left. by rewrite app_nil_r.
Qed.

Lemma no_infrastructure_snoc o t x :
  no_machine_patch (obs_event x) = False ->
  no_infrastructure o (t ++ [x]) <-> no_infrastructure o t.
Proof.
  intros Hx. split.
  - intros (owner & cl & t' & Ht & Hcl).
    destruct t as [|y [|z t]]; cbn in Ht.
    + congruence.
    + injection Ht as -> -> _. cbn in Hx. exfalso. by rewrite <- Hx.
    + exists owner, cl. injection Ht as -> -> Ht. eauto.
  - intros (owner & cl & t' & -> & Hcl). exists owner, cl, (t' ++ [x]). done.
Qed.

(** C27: every pass over a machine that exists ends with the patch of the object
    as the pass left it, also when it panics; and it panics exactly when the
    owner cluster has no infrastructure reference yet. *)
Theorem machine_Reconcile_patches ns name t out o :
  exec (Reconcile ns name)
    (Obs (EGetOVHMachine ns name) (Ok o) :: Obs (ENewMachinePatch o) (Ok tt) :: t) out ->
  (exists t' out' s' patchErr, t = t' ++ [Obs (EPatchMachine s') patchErr]
     /\ exec (reconcile_body o) t' (out', s')
     /\ Forall (fun x => no_machine_patch (obs_event x)) t')
  /\ (out = NilDereference <-> no_infrastructure o t).
Proof.
  intros (t' & out' & s' & patchErr & -> & Hb & Hout)%machine_Reconcile_runs. split.
  { exists t', out', s', patchErr. split_and!; [done..|].
    revert Hb. apply only_m_exec, reconcile_body_no_patch_m. }
  rewrite no_infrastructure_snoc by done.
  apply reconcile_body_runs in Hb as [<- _]. subst. by destruct out'.
Qed.

(** ** The finalizer comes first *)

(** The passes that ask nothing of OVH: a paused object, and one without the
    finalizer. *)
Lemma ReconcileNormal_waits scope s t out s' :
  exec (ReconcileNormal scope s) t (out, s') ->
  let m := OVHMachine_ObjectMeta s in
  IsPaused (MScope_Cluster scope) m = true
  \/ ContainsFinalizer (Meta_Finalizers m) MachineFinalizer = false
     /\ IsZero (Meta_DeletionTimestamp m) = true ->
  requests t = [] /\ m_ready s' = false /\ OVHMachine_Spec s' = OVHMachine_Spec s
  /\ m_id s' = m_id s.
Proof.
  intros H m Hm. unfold ReconcileNormal, reconcile_normal_body in H.
  apply exec_m_bind in H as (t1 & out1 & s1 & t2 & -> & H1 & H). rewrite get_bind in H1.
  cbv zeta in H1. fold m in H1. unfold count in H.
  destruct (IsPaused (MScope_Cluster scope) m); [by exec_all|].
  destruct Hm as [|[Hf Hz]]; [done|]. rewrite Hf, Hz in H1. cbn [negb andb] in H1. by exec_all.
Qed.

(** Nothing is asked of OVH before the finalizer is in place: a pass over a
    machine without it, and not being deleted, makes no request of the API and
    leaves the recorded instance as it was; whatever it saves, it is either the
    object it read or one that is not ready. *)
Theorem machine_finalizer_first ns name t out o :
  exec (Reconcile ns name)
    (Obs (EGetOVHMachine ns name) (Ok o) :: Obs (ENewMachinePatch o) (Ok tt) :: t) out ->
  let m := OVHMachine_ObjectMeta o in
  ContainsFinalizer (Meta_Finalizers m) MachineFinalizer = false ->
  IsZero (Meta_DeletionTimestamp m) = true ->
  requests t = []
  /\ forall s' r, Obs (EPatchMachine s') r ∈ t ->
       s' = o \/ m_ready s' = false /\ OVHMachine_Spec s' = OVHMachine_Spec o /\ m_id s' = m_id o.
Proof.
  intros (t' & out' & s' & patchErr & -> & Hb & _)%machine_Reconcile_runs m Hf Hz.
  pose proof (only_m_exec _ _ _ _ _ reconcile_body_no_patch_m Hb) as Hno.
  assert (Hpatch : forall s2 r, Obs (EPatchMachine s2) r ∈ t' ++ [Obs (EPatchMachine s') patchErr] -> s2 = s').
  { intros s2 r [Hin|Hin]%elem_of_app.
    - rewrite Forall_forall in Hno. by apply Hno in Hin.
    - apply list_elem_of_singleton in Hin. by injection Hin. }
  apply reconcile_body_runs in Hb as [_ [[Hr ->]|(ta & tb & scope & out1 & -> & Ha & Hb)]].
  - split; [by rewrite requests_app, Hr|]. intros s2 r Hin. left. by eapply Hpatch.
  - fold m in Hb. rewrite Hz in Hb. cbn [negb] in Hb.
    apply ReconcileNormal_waits in Hb as (Hb & H); [|by right].
    split; [by rewrite !requests_app, Ha, Hb|]. intros s2 r Hin%Hpatch. subst. by right.
Qed.

End facts.
