(* ===== verification/MachineLifecycle.v ===== *)
(** * The life cycle of a machine, as an abstract machine

    What others see of an OVHMachine is small: whether the controller holds it
    (its finalizer), the recorded instance, whether it is ready, and its provider
    ID. This file specifies how these may change, as a step relation on a [view]
    that refers to what a pass has seen of OVH, and shows that the controller
    refines it, whatever the services answer. *)

From S2P Require Import Prelude GoStrings Errors OvhTypes ApiTypes Effects Client Names Logic.
From S2P Require Import ClientFacts ClusterController ClusterDeleteFacts MachineController MachineFacts.
From S2P Require Import MachineStatusFacts MachineReconcileFacts.

Local Open Scope Z_scope.

(** ** The specification *)

Record view := mkView {
  held : bool;
  inst : string;
  up : bool;
  provider : string;
}.

(** What a pass has seen: that the machine is paused or being deleted, the
    instances it was shown and those it was given, that the recorded one is
    missing, and that the machine may be let go. *)
Record evidence := mkEvidence {
  paused : Prop;
  deleting : Prop;
  saw : Instance -> Prop;
  given : Instance -> Prop;
  missing : Prop;
  let_go : Prop;
}.

Section lifecycle.
Context `{U : Unicode}.
Context (region : string) (e : evidence) (v : view).

(** The machine is in the controller's hands, and the pass may act. *)
Definition in_hand : Prop := held v = true /\ ~ paused e /\ ~ deleting e.

(** No instance was shown. *)
Definition saw_none : Prop := forall i, ~ saw e i.

Inductive lifecycle : view -> Prop :=
(* a paused machine is down, and nothing else is done for it *)
| step_pause : paused e -> ~ deleting e -> lifecycle (mkView (held v) (inst v) false (provider v))
(* a machine is held before anything else is done for it *)
| step_hold : held v = false -> ~ paused e -> ~ deleting e ->
    lifecycle (mkView true (inst v) false (provider v))
(* an instance that is shown is recorded; the machine is up if it is ACTIVE,
   down otherwise *)
| step_wait i : in_hand -> saw e i -> Instance_Status i <> InstanceStatusActive ->
    lifecycle (mkView true (Instance_ID i) false (provider v))
| step_serve i : in_hand -> saw e i -> Instance_Status i = InstanceStatusActive ->
    lifecycle (mkView true (Instance_ID i) true (ProviderIDFromInstance region (Instance_ID i)))
(* none is shown: nothing changes, or a missing instance is forgotten, or a new
   one takes its place *)
| step_stay : in_hand -> saw_none -> lifecycle v
| step_lose : in_hand -> saw_none -> missing e -> lifecycle (mkView true "" (up v) (provider v))
| step_replace i : in_hand -> saw_none -> inst v = ""%string \/ missing e -> given e i ->
    lifecycle (mkView true (Instance_ID i) (up v) (provider v))
(* a machine that is being deleted is kept as it is until it may be let go *)
| step_linger : deleting e -> lifecycle v
| step_release : deleting e -> let_go e -> lifecycle (mkView false (inst v) (up v) (provider v)).
End lifecycle.

(** ** The refinement *)

Section refinement.
Context `{U : Unicode} `{C : CAPI} {L : CAPILaws C}.

Definition view_of (s : OVHMachine) : view :=
  mkView (ContainsFinalizer (Meta_Finalizers (OVHMachine_ObjectMeta s)) MachineFinalizer)
    (m_id s) (m_ready s) (m_provider s).

(** A pass [t] over [s] was given [i]: the answer to a creation under the
    machine's name. *)
Definition given_instance (scope : MachineScope) (s : OVHMachine) (t : list obs) (i : Instance) : Prop :=
  exists opts, CreateInstanceOpts_Name opts = instance_name scope s
    /\ Obs (EApi (instance_create (MScope_OVHClient scope) opts)) (Ok i) ∈ t.

Definition evidence_of (scope : MachineScope) (s : OVHMachine) (t : list obs) : evidence :=
  let m := OVHMachine_ObjectMeta s in
  mkEvidence (IsPaused (MScope_Cluster scope) m = true)
    (IsZero (Meta_DeletionTimestamp m) = false)
    (found_instance scope s t) (given_instance scope s t)
    (m_id s <> ""%string /\ recorded_gone scope s t)
    (annotation m adoption_policy = "keep"%string \/ m_id s = ""%string
     \/ deleted_in (MScope_OVHClient scope) (m_id s) t).

Definition refines (scope : MachineScope) (s : OVHMachine) (t : list obs) (s' : OVHMachine) : Prop :=
  lifecycle (m_region scope) (evidence_of scope s t) (view_of s) (view_of s').

Definition same_view (s s' : OVHMachine) : Prop := view_of s' = view_of s.

#[local] Instance same_view_preorder : PreOrder same_view.
Proof. split; [done|]. intros s1 s2 s3 H1 H2. unfold same_view in *. congruence. Qed.



Lemma refines_by v scope s t s' :
  lifecycle (m_region scope) (evidence_of scope s t) (view_of s) v -> view_of s' = v ->
  refines scope s t s'.
Proof. unfold refines. by intros ? ->. Qed.

(** The lookups forget the recorded ID when it is missing, and change nothing
    else. *)
Lemma recorded_instance_cases scope s t r s' :
  exec (recorded_instance scope s) t (r, s') ->
  s' = s \/ (s' = set_m_InstanceID "" s /\ m_id s <> ""%string /\ recorded_gone scope s t).
Proof.
  unfold recorded_instance, mstatus. intros H. rewrite gets_bind in H. cbv zeta in H. fold (m_id s) in H.
  destruct (decide (m_id s <> ""%string)) as [Hid|Hid]; [|exec_inv H; by left].
  apply exec_m_bind in H as (t1 & r1 & s1 & t2 & -> & H1 & H).
  apply exec_m_lift in H1 as (r' & H1 & [= -> ->]). destruct r' as [i|e]; [exec_inv H; by left|].
  destruct (IsNotFound (Some e)) eqn:En; [|exec_inv H; by left].
  exec_all. right. split; [done|]. split; [done|]. exists e, [], t1, []. cbn [app]. rewrite ?app_nil_r. done.
Qed.

Lemma lookups_keep scope :
  keeps eq (adopted_instance scope) /\ keeps eq (named_instance scope).
Proof. split; repeat keeps_rule; done. Qed.

Lemma find_instance_cases scope s t r s' :
  exec (find_instance scope s) t (r, s') ->
  s' = s \/ (s' = set_m_InstanceID "" s /\ m_id s <> ""%string /\ recorded_gone scope s t).
Proof.
  assert (Hk : forall found, keeps eq (found ←? or_else found (adopted_instance scope);
                                       or_else found (named_instance scope))).
  { intros found. destruct (lookups_keep scope) as [H1 H2].
    apply (keeps_try eq); [|intros found2]; unfold or_else; case_match; auto; apply (keeps_ret eq). }
  unfold find_instance. intros H.
  apply exec_m_try in H as [(e & s1 & H & [= -> ->])|(t1 & found & s1 & t2 & -> & H1 & H)].
  - by apply recorded_instance_cases in H.
  - assert (s' = s1) as -> by (symmetry; exact (keeps_exec eq _ _ _ _ (Hk found) H)).
    apply recorded_instance_cases in H1 as [->|(-> & Hne & e & ta & tb & tc & -> & H1)]; [by left|].
    right. split; [done|]. split; [done|]. exists e, ta, tb, (tc ++ t2). by rewrite <- !app_assoc.
Qed.

(** What is found is reported. *)
Definition same_held (s s' : OVHMachine) : Prop := held (view_of s') = held (view_of s).
Definition same_provider (s s' : OVHMachine) : Prop := m_provider s' = m_provider s.

#[local] Instance same_held_preorder : PreOrder same_held.
Proof. split; [done|]. intros s1 s2 s3 H1 H2. unfold same_held in *. congruence. Qed.
#[local] Instance same_provider_preorder : PreOrder same_provider.
Proof. split; [done|]. intros s1 s2 s3 H1 H2. unfold same_provider in *. congruence. Qed.

Lemma handleExistingInstance_provider scope i s t out s' :
  exec (handleExistingInstance scope i s) t (out, s') ->
  Instance_Status i <> InstanceStatusActive -> m_provider s' = m_provider s.
Proof.
  intros H Hna. unfold handleExistingInstance in H. rewrite decide_False in H by done.
  refine (keeps_exec same_provider _ _ _ _ _ H). auto with prog.
Qed.

Lemma handleExistingInstance_refines scope i s0 s t t' out s' :
  exec (handleExistingInstance scope i s) t (out, s') ->
  in_hand (evidence_of scope s0 t') (view_of s0) -> held (view_of s) = true ->
  m_provider s = m_provider s0 ->
  found_instance scope s0 t' i -> refines scope s0 t' s'.
Proof.
  intros H Hh0 Hh Hp Hi. pose proof (handleExistingInstance_reports _ _ _ _ _ _ H) as (Hid & _ & Hr).
  assert (Hh' : held (view_of s') = true).
  { rewrite <- Hh. refine (keeps_exec same_held _ _ _ _ _ H). auto with prog. }
  unfold refines. replace (view_of s') with (mkView true (Instance_ID i) (m_ready s') (m_provider s'))
    by (rewrite <- Hid, <- Hh'; done).
  case_decide as Ha.
  - destruct Hr as (_ & -> & -> & _). by apply step_serve.
  - destruct Hr as [-> _]. rewrite (handleExistingInstance_provider _ _ _ _ _ _ H Ha), Hp.
    by apply (step_wait _ _ (view_of s0)).
Qed.

(** A creation records the instance it is given. *)
Lemma CreateInstance_Ok c opts t i :
  exec (CreateInstance c opts) t (Ok i) -> Obs (EApi (instance_create c opts)) (Ok i) ∈ t.
Proof.
  intros ([x|e] & H & E)%exec_wrap; [|done]. injection E as ->.
  apply (retry_sound _ (instance_create c opts)), retried_Ok in H as [t' ->].
  apply elem_of_app. right. by apply list_elem_of_singleton.
Qed.

Lemma createInstance_cases scope s t out s' :
  exec (createInstance scope s) t (out, s') ->
  same_view s s' \/ exists i, given_instance scope s t i
    /\ view_of s' = mkView (held (view_of s)) (Instance_ID i) (m_ready s) (m_provider s).
Proof.
  unfold createInstance, count, mark_m_true, mark_m_false. intros H. rewrite get_bind in H.
  apply exec_m_bind in H as (t1 & opts & s1 & t2 & -> & H1 & H).
  apply exec_m_lift in H1 as (opts' & H1 & [= -> ->]).
  destruct opts' as [opts|e]; [|exec_inv H; by left].
  apply exec_m_bind in H as (t3 & [] & s2 & t4 & -> & H2 & H). exec_inv H2. exec_inv H2.
  apply exec_m_bind in H as (t5 & r & s3 & t6 & -> & H3 & H).
  apply exec_m_lift in H3 as (r' & H3 & [= -> ->]).
  destruct r' as [i|e]; [|exec_all; by left]. right. exists i. apply CreateInstance_Ok in H3. split; [|by exec_all].
  exists opts. split; [by apply instance_opts_Ok in H1 as [? _]|]. rewrite !elem_of_app. auto.
Qed.

Lemma given_mono scope s s0 t t' i :
  OVHMachine_ObjectMeta s = OVHMachine_ObjectMeta s0 -> (forall o, o ∈ t -> o ∈ t') ->
  given_instance scope s t i -> given_instance scope s0 t' i.
Proof.
  intros Hm Ht (opts & Hn & Hin). exists opts. split; [|by apply Ht].
  unfold instance_name in *. by rewrite <- Hm.
Qed.

Lemma recorded_gone_mono scope s t1 t2 : recorded_gone scope s t1 -> recorded_gone scope s (t1 ++ t2).
Proof. intros (e & ta & tb & tc & -> & H). exists e, ta, tb, (tc ++ t2). by rewrite <- !app_assoc. Qed.

(** The part of a normal pass that follows the guards. *)
Lemma look_and_act_refines scope s t t' out s' :
  exec (look_and_act scope s) t (out, s') -> unseen_after t' ->
  in_hand (evidence_of scope s (t ++ t')) (view_of s) -> refines scope s (t ++ t') s'.
Proof.
  unfold look_and_act. intros H Ht' Hh. apply exec_m_bind in H as (t1 & found & s1 & t2 & -> & H1 & H).
  pose proof (find_instance_cases _ _ _ _ _ H1) as Hs1.
  assert (held (view_of s1) = true /\ m_provider s1 = m_provider s /\ m_ready s1 = m_ready s
          /\ OVHMachine_ObjectMeta s1 = OVHMachine_ObjectMeta s) as (Hh1 & Hp1 & Hr1 & Hm1).
  { destruct Hs1 as [->|(-> & _)]; by destruct Hh. }
  assert (Hgone : s1 = s \/ (m_id s1 = ""%string /\ missing (evidence_of scope s ((t1 ++ t2) ++ t')))).
  { destruct Hs1 as [->|(-> & Hne & Hg)]; [by left | right]. split; [done|]. split; [done|].
    by apply recorded_gone_mono, recorded_gone_mono. }
  assert (Hnone : (forall i, found <> Ok (Some i)) -> unseen_after t2 ->
            saw_none (evidence_of scope s ((t1 ++ t2) ++ t'))).
  { intros Hf Ht2 i Hi. apply found_app in Hi; [|done]. apply found_app, found_shows in Hi; [|done].
    apply (find_instance_shows _ _ _ _ _ i H1) in Hi. by apply Hf in Hi. }
  assert (Hlost : saw_none (evidence_of scope s ((t1 ++ t2) ++ t')) ->
            refines scope s ((t1 ++ t2) ++ t') s1).
  { intros Hn. destruct Hgone as [->|[Hid Hmiss]]; [by apply step_stay|].
    apply (refines_by (mkView true "" (m_ready s) (m_provider s))); [by apply (step_lose _ _ (view_of s))|].
    unfold view_of. cbn in Hh1. by rewrite Hid, Hp1, Hr1, Hh1. }
  destruct found as [[i|]|e].
  - eapply handleExistingInstance_refines; [exact H | done..|].
    eapply found_instance_mono; [|by eapply find_instance_Some]. intros o. rewrite !elem_of_app. auto.
  - assert (Hn : saw_none (evidence_of scope s ((t1 ++ t2) ++ t'))).
    { apply Hnone; [done|]. intros c n i. revert H. apply unseen_m, create_looks. }
    apply createInstance_cases in H as [Hv|(i & Hi & Hv)]; unfold refines; rewrite Hv.
    + by apply Hlost.
    + rewrite Hh1, Hr1, Hp1. apply (step_replace _ _ (view_of s)); [done.. | |].
      * destruct Hgone as [->|[_ Hmiss]]; [|by right].
        apply find_instance_None in H1 as (_ & _ & [?|?]); [by left|].
        destruct (decide (m_id s = ""%string)); [by left | right]. split; [done|].
        by apply recorded_gone_mono, recorded_gone_mono.
      * eapply given_mono; [exact Hm1| |exact Hi]. intros o. rewrite !elem_of_app. auto.
  - exec_inv H. apply Hlost, Hnone; [done|]. intros c n i. apply shows_nil.
Qed.



Lemma normal_refines scope s t out s' :
  exec (ReconcileNormal scope s) t (out, s') ->
  IsZero (Meta_DeletionTimestamp (OVHMachine_ObjectMeta s)) = true -> refines scope s t s'.
Proof.
  intros (t1 & t2 & -> & H & Ht2)%ReconcileNormal_body Hz.
  unfold reconcile_normal_body, mark_m_false in H. rewrite get_bind in H. cbv zeta in H. rewrite Hz, andb_true_r in H.
  assert (Hnd : ~ deleting (evidence_of scope s (t1 ++ t2))) by (cbn; congruence).
  destruct (IsPaused _ _) eqn:Hpaused.
  { exec_all. by apply (step_pause _ _ (view_of s)). }
  assert (Hnp : ~ paused (evidence_of scope s (t1 ++ t2))) by (cbn; congruence).
  destruct (ContainsFinalizer _ _) eqn:Hf; cbn [negb] in H.
  2:{ exec_all. apply (refines_by (mkView true (m_id s) false (m_provider s))).
      - by apply (step_hold _ _ (view_of s)).
      - unfold view_of. cbn. by rewrite Contains_Add. }
  destruct (negb _); [|destruct (Machine_DataSecretName _)].
  - exec_all. unfold refines. apply step_stay; [done|]. intros i Hi%found_shows. by apply Ht2 in Hi.
  - by eapply look_and_act_refines.
  - exec_all. unfold refines. apply step_stay; [done|]. intros i Hi%found_shows. by apply Ht2 in Hi.
Qed.

(** A deletion changes the finalizers only. *)
Definition same_rest (s s' : OVHMachine) : Prop :=
  m_id s' = m_id s /\ m_ready s' = m_ready s /\ m_provider s' = m_provider s.

#[local] Instance same_rest_preorder : PreOrder same_rest.
Proof. split; [done|]. unfold same_rest. intros s1 s2 s3 ? ?. destr_hyps. split_and!; congruence. Qed.

Lemma delete_refines scope s t out s' :
  exec (ReconcileDelete scope s) t (out, s') ->
  IsZero (Meta_DeletionTimestamp (OVHMachine_ObjectMeta s)) = false -> refines scope s t s'.
Proof.
  intros H Hz. assert (Hrest : same_rest s s').
  { refine (keeps_exec same_rest _ _ _ _ _ H). auto with prog. }
  destruct Hrest as (Hid & Hr & Hp).
  assert (Hlet : forall fs, OVHMachine_ObjectMeta s' = set_Finalizers (RemoveFinalizer fs MachineFinalizer) (OVHMachine_ObjectMeta s) ->
    let_go (evidence_of scope s t) -> refines scope s t s').
  { intros fs Hm Hgo.
    apply (refines_by (mkView false (m_id s) (m_ready s) (m_provider s))); [by apply (step_release _ _ (view_of s))|].
    unfold view_of. rewrite Hid, Hr, Hp, Hm. cbn. by rewrite Contains_Remove. }
  destruct (decide (annotation (OVHMachine_ObjectMeta s) adoption_policy = "keep"%string)) as [Hk|Hk].
  - apply delete_keep in H as (-> & -> & ->); [|done]. eapply Hlet; [done | by left].
  - apply delete_runs in H as [_ H]; [|done]. case_decide.
    + destruct H as [Hm Hg]. eapply Hlet; [exact Hm|]. right.
      destruct (decide (m_id s = ""%string)); [by left | right; by apply Hg].
    + destruct H as [Hm _]. apply (refines_by (view_of s)); [by apply step_linger|].
      unfold view_of. by rewrite Hm, Hid, Hr, Hp.
Qed.

(** ** Runs of passes *)

(** A pass of the controller over the machine of [scope], by what it saw. *)
Inductive machine_pass (scope : MachineScope) (s : OVHMachine) (t : list obs) : OVHMachine -> Prop :=
| pass_normal out s' : IsZero (Meta_DeletionTimestamp (OVHMachine_ObjectMeta s)) = true ->
    exec (ReconcileNormal scope s) t (out, s') -> machine_pass scope s t s'
| pass_delete out s' : IsZero (Meta_DeletionTimestamp (OVHMachine_ObjectMeta s)) = false ->
    exec (ReconcileDelete scope s) t (out, s') -> machine_pass scope s t s'.

(** C13: the controller refines the life cycle: whatever the services answer, a
    pass takes the view of the object one step, on the evidence the pass has. A
    machine is held before anything else. A pass that may act and is shown an
    instance records it, and leaves the machine up when it is ACTIVE and down
    when it is not; a pass that is shown none leaves [up] as it was, records only
    an instance it was given for a missing or unrecorded one, and forgets only
    one that is missing. A paused machine is down. A machine is let go only while
    it is being deleted: under the policy to keep its instance, with none
    recorded, or after its deletion was acknowledged and a later look found it
    gone. *)
Theorem machine_refines_lifecycle scope s t s' :
  machine_pass scope s t s' ->
  lifecycle (m_region scope) (evidence_of scope s t) (view_of s) (view_of s').
Proof.
  intros [out s1 Hz H|out s1 Hz H].
  - by eapply normal_refines.
  - by eapply delete_refines.
Qed.
End refinement.
