(* ===== verification/MachinePoolFacts.v ===== *)
(** * Membership of the load balancer's pools

    When [ensureLBPoolMember] adds a machine to a pool, and what its success
    means. *)

From S2P Require Import Prelude GoStrings Errors OvhTypes ApiTypes Effects Client Names StringFacts.
From S2P Require Import NamesFacts Logic ClientFacts NodeInit Etcd ClusterController.
From S2P Require Import ClusterStepFacts MachineController MachineFacts.

Local Open Scope Z_scope.

Section facts.
Context `{U : Unicode} `{C : CAPI}.

Definition members_path (c : Client) (poolID : string) : string :=
  regionPath c "/loadbalancing/pool/%s/member" [AS poolID].

Lemma ListPoolMembers_runs c poolID t r :
  exec (ListPoolMembers c poolID) t r ->
  Forall (fun rq => req_method rq = GET) (requests t)
  /\ forall ms, listed (T := TMember) (members_path c poolID) ms t -> r = Ok ms.
Proof.
  intros (r0 & H & ->)%exec_wrap.
  apply (retry_sound _ (mkRequest GET (members_path c poolID) NoBody (TList TMember))) in H.
  split.
  - apply retried_requests in H as (n & _ & ->). by apply Forall_replicate.
  - intros ms Hl. by rewrite (retried_listed _ _ _ _ _ H Hl).
Qed.

Lemma AddPoolMember_runs c poolID opts t r :
  exec (AddPoolMember c poolID opts) t r ->
  Forall (fun rq => rq = member_create c poolID opts) (requests t)
  /\ Forall (fun o => is_method GET (obs_event o) = false) t.
Proof.
  unfold AddPoolMember, AddPoolMembers. intros H.
  assert (exists t' r' , t = t' /\ exec (retryWithBackoff "AddPoolMembers"
     (call (EApi (member_create c poolID opts)))) t' r') as (t' & r' & <- & H').
  { apply exec_try in H as [(e & (r0 & H & _)%exec_wrap & _)|(t1 & ms & t2 & -> & (r0 & H1 & _)%exec_wrap & H)].
    - by exists t, r0.
    - exists t1, r0. destruct ms; exec_inv H; by rewrite app_nil_r. }
  apply retry_sound in H'. split.
  - apply retried_requests in H' as (n & _ & ->). by apply Forall_replicate.
  - by eapply retried_methods; [|exact H'].
Qed.

(** In [t] no listing of the pool's members has one at [ip] and [port]. *)
Definition not_a_member (c : Client) (poolID ip : string) (port : Z) (t : list obs) : Prop :=
  forall ms, listed (T := TMember) (members_path c poolID) ms t -> forall m, m ∈ ms ->
    ~ (Member_Address m = ip /\ Member_ProtocolPort m = port).

(** Reads, and the addition of one member that was not listed. *)
Definition member_request (scope : MachineScope) (poolID ip : string) (port : Z) (t : list obs)
    (rq : request) : Prop :=
  req_method rq = GET
  \/ (rq = member_create (MScope_OVHClient scope) poolID (member_opts scope ip port)
      /\ not_a_member (MScope_OVHClient scope) poolID ip port t).

(** [m] is a member of the pool at [ip] and [port] by what [t] shows: a listing
    has it, or the API answered the addition with it. *)
Definition joined (scope : MachineScope) (poolID ip : string) (port : Z) (t : list obs)
    (m : Member) : Prop :=
  let c := MScope_OVHClient scope in
  (exists ms, listed (T := TMember) (members_path c poolID) ms t /\ m ∈ ms
     /\ Member_Address m = ip /\ Member_ProtocolPort m = port)
  \/ exists ms, Obs (EApi (member_create c poolID (member_opts scope ip port))) (Ok (m :: ms)) ∈ t.

Lemma joined_mono scope poolID ip port t t' m :
  (forall o, o ∈ t -> o ∈ t') -> joined scope poolID ip port t m -> joined scope poolID ip port t' m.
Proof.
  intros Hsub [(ms & Hl & H)|(ms & H)]; [left | right]; exists ms; [split; [by apply Hsub | done] | by apply Hsub].
Qed.

Lemma AddPoolMember_joined scope poolID ip port t m :
  exec (AddPoolMember (MScope_OVHClient scope) poolID (member_opts scope ip port)) t (Ok m) ->
  joined scope poolID ip port t m.
Proof.
  intros [(e & _ & H)|(t1 & ms & t2 & -> & (r0 & H1 & E)%exec_wrap & H)]%exec_try; [done|].
  destruct r0 as [ms'|e]; cbn in E; simplify_eq.
  apply (retry_sound _ (member_create (MScope_OVHClient scope) poolID (member_opts scope ip port))),
    retried_Ok in H1 as [t' ->].
  destruct ms' as [|m' ms]; destruct H as [-> [= ->]]. right. exists ms.
  rewrite app_nil_r. apply elem_of_app. right. by apply list_elem_of_singleton.
Qed.

(** What the controller looks for in the answer. *)
Definition member_in (ip : string) (port : Z) (members : res (list Member)) : option Member :=
  match members with Ok members => first_match (member_at ip port) members | Err _ => None end.

Lemma member_in_joined scope poolID ip port t members m :
  exec (ListPoolMembers (MScope_OVHClient scope) poolID) t members ->
  member_in ip port members = Some m -> joined scope poolID ip port t m.
Proof.
  intros H E. destruct members as [ms|e]; [|done]. left. exists ms.
  apply first_match_sound in E as [Hm Hin]. apply bool_decide_eq_true in Hm. split; [|done].
  by eapply lists_Ok; [apply lists_retry | exact H].
Qed.

(** A listing, and an addition if there is no match in it. *)
Lemma list_then_add scope poolID ip port t1 members t2 :
  let c := MScope_OVHClient scope in
  exec (ListPoolMembers c poolID) t1 members ->
  match member_in ip port members with
  | Some _ => t2 = []
  | None => exists r, exec (AddPoolMember c poolID (member_opts scope ip port)) t2 r
  end ->
  Forall (member_request scope poolID ip port (t1 ++ t2)) (requests (t1 ++ t2)).
Proof.
  intros c [Hg Hl]%ListPoolMembers_runs H2. rewrite requests_app, Forall_app.
  split; [eapply Forall_impl; [exact Hg|]; by left|].
  destruct (member_in ip port members) as [m|] eqn:E; [by subst; constructor|].
  destruct H2 as (r' & [Hp Hnog]%AddPoolMember_runs).
  eapply Forall_impl; [exact Hp|]. intros rq ->. right. split; [done|].
  intros ms Hms m Hm. apply listed_app in Hms; [|done]. apply Hl in Hms as ->.
  by apply (first_match_no (fun m => Member_Address m = ip /\ Member_ProtocolPort m = port) ms).
Qed.

(** The register pool of the load balancer in a listing. *)
Definition register_pool (scope : MachineScope) (pools : list Pool) : option Pool :=
  first_match (fun p => bool_decide (Pool_Name p = "rke2-register-pool"%string
    /\ Pool_LoadBalancerID p = CStatus_LoadBalancerID (OVHCluster_Status (MScope_OVHCluster scope)))) pools.

Definition register_listing (scope : MachineScope) (pools : list Pool) (t : list obs) : Prop :=
  listed (T := TPool) (regionPath (MScope_OVHClient scope) "/loadbalancing/pool" []) pools t.

(** The part that follows: the pools are listed in [tc], and if the register pool
    is among them, the rest [td] makes [ip] a member of it at port 9345: either
    the addition is asked for, or the recorded member is one it lists. *)
Definition registers (scope : MachineScope) (ip : string) (tc td : list obs) (s' : OVHMachine) : Prop :=
  Forall (fun rq => req_method rq = GET) (requests tc)
  /\ (td = [] /\ (forall pools, register_listing scope pools tc -> register_pool scope pools = None)
      \/ exists pools pool, register_listing scope pools tc /\ register_pool scope pools = Some pool
           /\ Forall (member_request scope (Pool_ID pool) ip 9345 td) (requests td)
           /\ (member_create (MScope_OVHClient scope) (Pool_ID pool) (member_opts scope ip 9345) ∈ requests td
               \/ exists m, MStatus_RegisterPoolMemberID (OVHMachine_Status s') = Member_ID m
                    /\ joined scope (Pool_ID pool) ip 9345 td m)).

Lemma AddPoolMember_asks c poolID opts t r :
  exec (AddPoolMember c poolID opts) t r -> member_create c poolID opts ∈ requests t.
Proof.
  unfold AddPoolMember, AddPoolMembers. intros H.
  assert (exists t1 t2 r', t = t1 ++ t2 /\ exec (retryWithBackoff "AddPoolMembers"
     (call (EApi (member_create c poolID opts)))) t1 r') as (t1 & t2 & r' & -> & H').
  { apply exec_try in H as [(e & (r0 & H & _)%exec_wrap & _)|(t1 & ms & t2 & -> & (r0 & H1 & _)%exec_wrap & H)].
    - exists t, [], r0. by rewrite app_nil_r.
    - by exists t1, t2, r0. }
  apply retry_sound, retried_requests in H' as (n & _ & H').
  rewrite requests_app, H'. apply elem_of_app. left. by left.
Qed.

Lemma FindPoolByName_found scope t r :
  exec (FindPoolByName (MScope_OVHClient scope)
          (CStatus_LoadBalancerID (OVHCluster_Status (MScope_OVHCluster scope))) "rke2-register-pool") t r ->
  Forall (fun rq => req_method rq = GET) (requests t)
  /\ match r with
     | Ok (Some pool) => exists pools, register_listing scope pools t /\ register_pool scope pools = Some pool
     | _ => forall pools, register_listing scope pools t -> register_pool scope pools = None
     end.
Proof.
  intros H. split.
  { by eapply gets_Forall, (looks_up_gets (T := TPool)); [apply FindPoolByName_looks | exact H]. }
  destruct (FindPoolByName_looks (MScope_OVHClient scope)
    (CStatus_LoadBalancerID (OVHCluster_Status (MScope_OVHCluster scope))) "rke2-register-pool")
    as (op & wrap & Hl).
  destruct (Hl _ _ H) as (r0 & Hr & Er). destruct r0 as [pools|e].
  - change (r = Ok (register_pool scope pools)) in Er. subst r.
    destruct (register_pool scope pools) as [pool|] eqn:E.
    + exists pools. split; [|exact E]. apply retried_Ok in Hr as [t' ->]. apply elem_of_app. right.
      by apply list_elem_of_singleton.
    + intros pools' Hp. apply (retried_listed _ _ _ _ _ Hr) in Hp. by injection Hp as <-.
  - change (r = Err (wrap e)) in Er. subst r. intros pools' Hp.
    by apply (retried_listed _ _ _ _ _ Hr) in Hp.
Qed.

Lemma register_member scope ip s t s' :
  exec (ensureRKE2RegisterPoolMember scope ip s) t (tt, s') ->
  t = [] /\ CStatus_LoadBalancerID (OVHCluster_Status (MScope_OVHCluster scope)) = ""%string
  \/ exists tc td, t = tc ++ td /\ registers scope ip tc td s'.
Proof.
  unfold ensureRKE2RegisterPoolMember. cbv zeta. intros H.
  destruct (decide _) as [Hid|_] in H; [exec_inv H; by left|]. right.
  apply exec_m_bind in H as (t1 & pool & s1 & t2 & -> & H1 & H).
  apply exec_m_lift in H1 as (r & H1 & [= -> ->]).
  apply FindPoolByName_found in H1 as [Hg H1]. exists t1.
  destruct r as [[pool|]|e].
  2,3: exec_inv H; exists []; split; [done|]; split; [done | by left].
  destruct H1 as (pools & Hl & Hp).
  apply exec_m_bind in H as (t3 & members & s2 & t4 & -> & H2 & H).
  apply exec_m_lift in H2 as (r & H2 & [= -> ->]).
  exists (t3 ++ t4). split; [done|]. split; [done|]. right. exists pools, pool.
  change (match r with Ok members => first_match (member_at ip 9345) members | Err _ => None end)
    with (member_in ip 9345 r) in H. split_and!; [done..| |].
  - eapply list_then_add; [exact H2|]. destruct (member_in ip 9345 r) as [m|]; [by exec_inv H|].
    apply exec_m_bind in H as (t5 & x & s3 & t6 & -> & H3 & H).
    apply exec_m_lift in H3 as (r' & H3 & [= -> ->]).
    exists r'. destruct r'; exec_inv H; by rewrite app_nil_r.
  - destruct (member_in ip 9345 r) as [m|] eqn:E.
    + exec_inv H. right. exists m. split; [done|]. rewrite app_nil_r. by eapply member_in_joined.
    + left. apply exec_m_bind in H as (t5 & x & s3 & t6 & -> & H3 & H).
      apply exec_m_lift in H3 as (r' & H3 & [= -> ->]). apply AddPoolMember_asks in H3.
      rewrite !requests_app, !elem_of_app. auto.
Qed.

Definition same_member (s s' : OVHMachine) : Prop :=
  MStatus_LBPoolMemberID (OVHMachine_Status s') = MStatus_LBPoolMemberID (OVHMachine_Status s).

#[local] Instance same_member_preorder : PreOrder same_member.
Proof. split; [done|]. intros s1 s2 s3 H1 H2. unfold same_member in *. congruence. Qed.

Lemma register_same scope ip : keeps same_member (ensureRKE2RegisterPoolMember scope ip).
Proof. auto with prog. Qed.

(** The runs past the guards: the API server's pool, and then the register pool. *)
Lemma ensure_member_runs scope inst s t r s' :
  let poolID := CStatus_PoolID (OVHCluster_Status (MScope_OVHCluster scope)) in
  let ip := private_ip (Instance_IPAddresses inst) in
  IsControlPlaneMachine (MScope_Machine scope) = true -> poolID <> ""%string -> ip <> ""%string ->
  exec (ensureLBPoolMember scope inst s) t (r, s') ->
  exists ta tb, t = ta ++ tb
    /\ Forall (member_request scope poolID ip 6443 ta) (requests ta)
    /\ (r = Ok tt -> exists m, MStatus_LBPoolMemberID (OVHMachine_Status s') = Member_ID m
                             /\ joined scope poolID ip 6443 ta m)
    /\ (tb = [] /\ (r <> Ok tt
          \/ CStatus_LoadBalancerID (OVHCluster_Status (MScope_OVHCluster scope)) = ""%string)
        \/ exists tc td, tb = tc ++ td /\ registers scope ip tc td s').
Proof.
  cbv zeta. intros Hcp Hpool Hip H. unfold ensureLBPoolMember in H. cbv zeta in H.
  rewrite Hcp, !decide_False in H by done. cbn [negb] in H.
  apply exec_m_bind in H as (t1 & members & s1 & t2 & -> & H1 & H).
  apply exec_m_lift in H1 as (ms & H1 & [= -> ->]).
  change (match ms with Ok members => first_match (member_at ?ip 6443) members | Err _ => None end)
    with (member_in ip 6443 ms) in H.
  apply exec_m_try in H as [(e & s2 & H2 & [= -> ->])|(t3 & [] & s2 & t4 & -> & H2 & H)].
  - exists (t1 ++ t2), []. rewrite app_nil_r. split_and!; [done | | done | left; split; [done | by left]].
    eapply list_then_add; [exact H1|].
    destruct (member_in _ _ _) as [m|]; [by exec_all|]. exec_all. by eexists.
  - apply exec_m_bind in H as (t5 & [] & s3 & t6 & -> & H & [-> [= -> ->]]).
    exists (t1 ++ t3), t5. rewrite app_nil_r, app_assoc. split_and!; [done | | |].
    + eapply list_then_add; [exact H1|].
      destruct (member_in _ _ _) as [m|]; [by exec_all|]. exec_all. rewrite app_nil_r. by eexists.
    + intros _. pose proof (keeps_exec same_member _ _ _ _ (register_same scope _) H) as Hs.
      unfold same_member in Hs. cbn in Hs. rewrite Hs. clear Hs H.
      destruct (member_in _ _ _) as [m|] eqn:E; exec_all.
      * exists m. split; [done|]. rewrite !app_nil_r. by eapply member_in_joined.
      * match goal with E : Ok ?a = map_err _ ?r |- _ => exists a; destruct r; cbn in E; simplify_eq end.
        split; [done|]. rewrite !app_nil_r. eapply joined_mono; [|by eapply AddPoolMember_joined].
        intros o. rewrite elem_of_app. auto.
    + apply register_member in H as [[-> Hid]|H]; [left | right]; auto.
Qed.

(** C19: a control plane machine becomes a member of the API server's pool at port
    6443, under its private IPv4 address: success means that the recorded
    member is one the pool lists at that address and port, or the answer to its
    addition. After that success, if the cluster has a load balancer, its register
    pool is looked up by name, and if it is listed, the machine is added to that
    pool at port 9345 or the recorded register member is one it lists. A member
    is added to a pool only if no listing of the pool's members has one at that
    address and port; nothing else is asked for, and nothing at all for another
    machine. *)
Theorem ensureLBPoolMember_idempotent scope inst s t r s' :
  exec (ensureLBPoolMember scope inst s) t (r, s') ->
  let poolID := CStatus_PoolID (OVHCluster_Status (MScope_OVHCluster scope)) in
  let ip := private_ip (Instance_IPAddresses inst) in
  (IsControlPlaneMachine (MScope_Machine scope) = false -> t = [] /\ r = Ok tt)
  /\ exists ta tb, t = ta ++ tb
       /\ Forall (member_request scope poolID ip 6443 ta) (requests ta)
       /\ (r = Ok tt -> IsControlPlaneMachine (MScope_Machine scope) = true ->
            poolID <> ""%string /\ ip <> ""%string
            /\ exists m, MStatus_LBPoolMemberID (OVHMachine_Status s') = Member_ID m
                 /\ joined scope poolID ip 6443 ta m)
       /\ (tb = [] /\ (IsControlPlaneMachine (MScope_Machine scope) = false \/ r <> Ok tt
             \/ CStatus_LoadBalancerID (OVHCluster_Status (MScope_OVHCluster scope)) = ""%string)
           \/ exists tc td, tb = tc ++ td /\ registers scope ip tc td s').
Proof.
  intros H. cbv zeta. pose proof H as H0. unfold ensureLBPoolMember in H0. cbv zeta in H0.
  destruct (IsControlPlaneMachine (MScope_Machine scope)) eqn:Hcp; cbn [negb] in H0.
  2:{ exec_inv H0. split; [done|]. exists [], []. split_and!; [done | constructor | done | left; auto]. }
  split; [done|].
  destruct (decide _) as [Hpool|Hpool] in H0.
  { exec_inv H0. exists [], []. split_and!; [done | constructor | done | left; auto]. }
  destruct (decide _) as [Hip|Hip] in H0.
  { exec_inv H0. exists [], []. split_and!; [done | constructor | done | left; auto]. }
  destruct (ensure_member_runs _ _ _ _ _ _ Hcp Hpool Hip H) as (ta & tb & Ht & Ha & Hj & Hb).
  exists ta, tb. split_and!; [done | done | by auto |].
  destruct Hb as [[-> Hb]|Hb]; [left; tauto | by right].
Qed.

End facts.
