(* ===== verification/NodeFacts.v ===== *)
(** * The workload cluster: node initialisation and etcd membership

    What [InitializeWorkloadNode] patches, that it brings a node into shape and
    leaves it alone afterwards, and which etcd member can be removed. *)

From S2P Require Import Prelude GoStrings Errors OvhTypes ApiTypes Effects Client StringFacts Logic NodeInit.
From S2P Require Import Etcd.

(** ** The taint *)

Lemma removeTaint_length ts :
  length (removeTaint ts) = length ts <-> forall t, t ∈ ts -> Taint_Key t <> uninitializedTaintKey.
Proof.
  unfold removeTaint. induction ts as [|t ts IH].
  { split; [intros _ t Ht; by apply elem_of_nil in Ht | done]. }
  rewrite filter_cons. case_decide as Ht; cbn.
  - split.
    + intros [= H] t' [->|Hin]%elem_of_cons; [done|]. by apply IH.
    + intros H. f_equal. apply IH. intros t' Hin. apply H. by right.
  - pose proof (length_filter (fun t => Taint_Key t <> uninitializedTaintKey) ts). split; [lia|].
    intros H'. by destruct (H' t); [left|].
Qed.

Lemma hasUninitializedTaint_spec n :
  hasUninitializedTaint n = true <-> exists t, t ∈ Node_Taints n /\ Taint_Key t = uninitializedTaintKey.
Proof.
  unfold hasUninitializedTaint. rewrite existsb_exists. split.
  - intros (t & Hin & Ht%bool_decide_eq_true). exists t. by rewrite list_elem_of_In.
  - intros (t & Hin & Ht). exists t. rewrite <- list_elem_of_In. by rewrite bool_decide_true.
Qed.

(** A filter that drops nothing. *)
Lemma filter_length_eq {A} (P : A -> Prop) `{!forall x, Decision (P x)} (xs : list A) :
  length (filter P xs) = length xs -> filter P xs = xs.
Proof.
  induction xs as [|x xs IH]; [done|]. rewrite filter_cons.
  pose proof (length_filter P xs). destruct (decide (P x)); cbn; intros Hl; [|lia].
  f_equal. apply IH. lia.
Qed.

Lemma removeTaint_changes n :
  hasUninitializedTaint n = true <-> length (removeTaint (Node_Taints n)) <> length (Node_Taints n).
Proof.
  rewrite hasUninitializedTaint_spec, removeTaint_length. split.
  - intros (t & Hin & Ht) H. by apply (H t).
  - intros H. destruct (hasUninitializedTaint n) eqn:E; [by apply hasUninitializedTaint_spec|].
    destruct H. intros t Hin Ht. enough (hasUninitializedTaint n = true) by congruence.
    apply hasUninitializedTaint_spec. eauto.
Qed.

Lemma removeTaint_clean n : hasUninitializedTaint (mkNode n.(Node_Name) n.(Node_ProviderID)
  (removeTaint n.(Node_Taints))) = false.
Proof.
  apply not_true_is_false. intros (t & Hin & Ht)%hasUninitializedTaint_spec. cbn in Hin.
  by apply list_elem_of_filter in Hin as [? _].
Qed.

(** ** Patches *)

Definition patch_of (o : obs) : option node_patch :=
  match obs_event o with EPatchNode _ _ p => Some p | _ => None end.

Definition patches (t : list obs) : list node_patch := omap patch_of t.

(** The node was read as [n] in [t]. *)
Definition node_read (config name : string) (n : Node) (t : list obs) : Prop :=
  Obs (EGetNode config name) (Ok n) ∈ t.

(** The node needs its taint removed, and the taints that stay. *)
Definition tainted (n : Node) : Prop :=
  exists tn, tn ∈ Node_Taints n
    /\ Taint_Key tn = "node.cloudprovider.kubernetes.io/uninitialized"%string.

Definition other_taints (n : Node) : list Taint :=
  filter (fun tn => Taint_Key tn <> "node.cloudprovider.kubernetes.io/uninitialized"%string)
    (Node_Taints n).

(** The taint part of a run. *)
Definition taints_patched (config name : string) (ps : list node_patch) (t : list obs) : Prop :=
  ps = [] \/ exists n, node_read config name n t /\ tainted n
                /\ ps = [PatchTaints (other_taints n)].

Lemma remove_uninitialized_runs config name t :
  exec (remove_uninitialized config name) t tt -> taints_patched config name (patches t) t.
Proof.
  unfold remove_uninitialized. intros H.
  apply exec_call_inv in H as ([n|e] & t1 & -> & H); [|exec_inv H; by left]. cbv zeta in H.
  destruct (decide (length (removeTaint (Node_Taints n)) = length (Node_Taints n))) as [Hl|Hl].
  { rewrite decide_False in H by (intros Hn; by apply Hn). exec_inv H. by left. }
  rewrite decide_True in H by done.
  apply exec_call_inv in H as (r & t2 & -> & [-> _]). right. exists n.
  split_and!; [by left | by apply hasUninitializedTaint_spec, removeTaint_changes | done].
Qed.

(** [InitializeWorkloadNode] makes at most two patches, in this order: the
    provider ID, if the node was read without one, and the list of taints
    without the uninitialized taint, if the node it was computed from has it. *)
Theorem InitializeWorkloadNode_patches config name id t :
  exec (InitializeWorkloadNode config name id) t tt ->
  exists ps1 ps2, patches t = ps1 ++ ps2
    /\ (ps1 = [] \/ ps1 = [PatchProviderID id] /\ id <> ""%string
                    /\ exists n, node_read config name n t /\ Node_ProviderID n = ""%string)
    /\ (ps2 = [] \/ exists n, node_read config name n t /\ tainted n
                    /\ ps2 = [PatchTaints (other_taints n)]).
Proof.
  intros H. unfold InitializeWorkloadNode in H.
  destruct (decide (id = "")) as [|Hid]; [exec_inv H; exists [], []; auto|].
  apply exec_call_inv in H as ([[]|e] & t1 & -> & H); [|exec_inv H; exists [], []; auto].
  apply exec_call_inv in H as ([n|e] & t2 & -> & H); [|exec_inv H; exists [], []; auto].
  cbv zeta in H. destruct (_ && _); [exec_inv H; exists [], []; auto|].
  set (pre := [Obs (ENewForConfig config) (Ok tt); Obs (EGetNode config name) (Ok n)]).
  change (_ :: _ :: t2) with (pre ++ t2).
  apply exec_bind in H as (t3 & patched & t4 & -> & H1 & H).
  assert (H4 : taints_patched config name (patches t4) t4).
  { destruct patched as [[]|e]; [|exec_inv H; by left].
    destruct (hasUninitializedTaint n); [by apply remove_uninitialized_runs | exec_inv H; by left]. }
  exists (patches t3), (patches t4). split; [unfold patches; by rewrite !omap_app|]. split.
  - destruct (bool_decide _) eqn:Hp.
    + apply exec_call in H1 as ->. right. split_and!; [done..|]. exists n.
      split; [|by apply bool_decide_eq_true in Hp]. right. by left.
    + exec_inv H1. by left.
  - destruct H4 as [?|(n' & Hr & Hn')]; [by left|]. right. exists n'. split; [|done].
    unfold node_read in *. rewrite !elem_of_app. tauto.
Qed.

(** ** A node server *)

(** What a merge patch does to the node. *)
Definition patched (p : node_patch) (n : Node) : Node :=
  match p with
  | PatchProviderID id => mkNode (Node_Name n) id (Node_Taints n)
  | PatchTaints ts => mkNode (Node_Name n) (Node_ProviderID n) ts
  end.

(** What the initialisation is for. *)
Definition initialized (id : string) (n : Node) : Node :=
  mkNode (Node_Name n) (if decide (Node_ProviderID n = ""%string) then id else Node_ProviderID n)
    (other_taints n).

Section server.
Context (config name : string) (h : forall e : event, Node -> answer e * Node).
Context (h_client : forall n, h (ENewForConfig config) n = (Ok tt, n)).
Context (h_get : forall n, h (EGetNode config name) n = (Ok n, n)).
Context (h_patch : forall p n, h (EPatchNode config name p) n = (Ok tt, patched p n)).

Lemma removeTaint_id n : hasUninitializedTaint n = false -> removeTaint (Node_Taints n) = Node_Taints n.
Proof.
  intros H. assert (Hno : ~ hasUninitializedTaint n = true) by congruence. clear H.
  rewrite removeTaint_changes in Hno. apply dec_stable in Hno. revert Hno. unfold removeTaint.
  generalize (Node_Taints n). intros ts. apply filter_length_eq.
Qed.

Lemma run_idle id n :
  Node_ProviderID n <> ""%string -> hasUninitializedTaint n = false -> id <> ""%string ->
  run h (InitializeWorkloadNode config name id) n
  = (tt, n, [Obs (ENewForConfig config) (Ok tt); Obs (EGetNode config name) (Ok n)]).
Proof.
  intros Hp Ht Hid. unfold InitializeWorkloadNode. rewrite decide_False by done.
  simpl. rewrite h_client; simpl. rewrite h_get; simpl. rewrite Ht, bool_decide_false by done. done.
Qed.

Lemma run_initializes id n :
  id <> ""%string -> (run h (InitializeWorkloadNode config name id) n).1.2 = initialized id n.
Proof.
  intros Hid. unfold InitializeWorkloadNode, remove_uninitialized. rewrite decide_False by done.
  simpl. rewrite h_client; simpl. rewrite h_get; simpl.
  destruct (hasUninitializedTaint n) eqn:Ht.
  - rewrite andb_false_r. unfold initialized.
    destruct (decide (Node_ProviderID n = ""%string)) as [Hp|Hp];
      [rewrite bool_decide_true by done | rewrite bool_decide_false by done]; simpl;
      rewrite ?h_patch; simpl; rewrite h_get; cbn [patched Node_Taints];
      (destruct (decide (length _ <> _)) as [Hl|Hl];
       [simpl; by rewrite h_patch | by destruct Hl; apply removeTaint_changes]).
  - unfold initialized. change (other_taints n) with (removeTaint (Node_Taints n)).
    rewrite removeTaint_id, andb_true_r by done.
    destruct (decide (Node_ProviderID n = ""%string)) as [Hp|Hp];
      [rewrite bool_decide_true by done | rewrite bool_decide_false by done]; simpl;
      rewrite ?h_patch; by destruct n.
Qed.

(** C34: against an API server that does what it is asked, the node ends up with
    a provider ID, the one it had or else the given one, and without the taint;
    a second run then changes nothing and makes no patch. *)
Theorem InitializeWorkloadNode_converges id n :
  id <> ""%string ->
  let '(_, n', _) := run h (InitializeWorkloadNode config name id) n in
  n' = initialized id n
  /\ let '(_, n'', t) := run h (InitializeWorkloadNode config name id) n' in
     n'' = n' /\ patches t = [].
Proof.
  intros Hid. pose proof (run_initializes id n Hid) as Hn.
  destruct (run h (InitializeWorkloadNode config name id) n) as [[[] n'] t']. cbn in Hn. subst n'.
  split; [done|]. rewrite run_idle; [done | | apply removeTaint_clean | done].
  cbn. by case_decide.
Qed.
End server.

(** ** Etcd membership *)

Section etcd.
Context `{U : Unicode} `{J : MemberJSON}.

Definition list_cmd : list string := etcdctl ["member"; "list"; "-w"; "json"].
Definition remove_cmd (id : N) : list string := etcdctl ["member"; "remove"; FormatHex id].

(** The commands run in pods: the cluster, the pod and its container, and the
    command. *)
Definition commands (t : list obs) : list (string * string * string * string * list string) :=
  omap (fun o => match obs_event o with
                 | EExec config ns pod container cmd => Some (config, ns, pod, container, cmd)
                 | _ => None
                 end) t.

(** A command in the etcd container of the pod. *)
Definition in_pod (config : string) (pod : Pod) (cmd : list string)
    : string * string * string * string * list string :=
  (config, Pod_Namespace pod, Pod_Name pod, etcdContainerName, cmd).

(** The pod was in an answer in [t]. *)
Definition pod_listed (config : string) (pod : Pod) (t : list obs) : Prop :=
  exists selector pods, Obs (EListPods config etcdNamespace selector) (Ok pods) ∈ t /\ pod ∈ pods.

Lemma commands_app t1 t2 : commands (t1 ++ t2) = commands t1 ++ commands t2.
Proof. apply omap_app. Qed.

Definition no_exec (e : event) : Prop := match e with EExec _ _ _ _ _ => False | _ => True end.

Lemma no_exec_commands t : Forall (fun o => no_exec (obs_event o)) t -> commands t = [].
Proof. induction 1 as [|[e a] t He Ht IH]; [done|]. by destruct e. Qed.

(** A ready pod that is not on the node. *)
Definition healthy (node : string) (pod : Pod) : Prop :=
  Pod_NodeName pod <> node /\ Pod_Phase pod = "Running"%string
  /\ exists cond, cond ∈ Pod_Conditions pod /\ PodCondition_Type cond = "Ready"%string
       /\ PodCondition_Status cond = "True"%string.

Lemma isPodReady_healthy node pod :
  Pod_NodeName pod <> node -> isPodReady pod = true -> healthy node pod.
Proof.
  unfold isPodReady. intros Hn H. split; [done|]. case_decide as Hp; [done|].
  split; [by destruct (decide (Pod_Phase pod = PodRunning))|].
  apply existsb_exists in H as (cond & Hin%list_elem_of_In & [Ht Hs]%bool_decide_eq_true).
  by exists cond.
Qed.

(** The member's name is the node's, or continues it after a dash. *)
Definition belongs (node : string) (m : EtcdMember) : Prop :=
  EtcdMember_Name m = node \/ exists hash, EtcdMember_Name m = (node ++ "-" ++ hash)%string.

Lemma member_of_node_spec node m : member_of_node node m = true <-> belongs node m.
Proof.
  unfold member_of_node, belongs. rewrite orb_true_iff, HasPrefix_spec, bool_decide_eq_true.
  setoid_rewrite append_assoc. tauto.
Qed.

Lemma etcd_pods_listed config t pods pod :
  exec (etcd_pods config) t (Ok pods) -> pod ∈ pods -> pod_listed config pod t.
Proof.
  unfold etcd_pods. intros H Hin.
  apply exec_call_inv in H as (r & t1 & -> & H).
  assert (Hall : forall pods, exec (allPods ←? wrap_err (fun err2 => Errorf "failed to list pods in %s: %w"
      [AS etcdNamespace; AE err2]) (call (EListPods config etcdNamespace ""));
      mret (Ok (filter (fun p => HasPrefix (Pod_Name p) "etcd-") allPods))) t1 (Ok pods) ->
      pod ∈ pods -> pod_listed config pod t1).
  { intros ps H' Hp.
    apply exec_try in H' as [(e & _ & E)|(t2 & all & t3 & -> & (r0 & ->%exec_call & E)%exec_wrap & [-> [= ->]])];
      [done|].
    apply list_elem_of_filter in Hp as [_ Hp].
    destruct r0 as [all'|e]; [|done]. injection E as ->. exists ""%string, all'. split; [by left | done]. }
  destruct r as [[|p items]|e].
  - destruct (Hall _ H Hin) as (sel & ps & Hl & Hp). exists sel, ps. split; [by right | done].
  - exec_inv H. eexists _, _. split; [by left | done].
  - destruct (Hall _ H Hin) as (sel & ps & Hl & Hp). exists sel, ps. split; [by right | done].
Qed.

Lemma findHealthyEtcdPod_spec config node t r :
  exec (findHealthyEtcdPod config node) t r ->
  commands t = []
  /\ match r with Ok pod => healthy node pod /\ pod_listed config pod t | Err _ => True end.
Proof.
  intros H. split.
  { apply no_exec_commands. revert H. apply only_exec. auto with prog. }
  unfold findHealthyEtcdPod in H. destruct r as [pod|e]; [|done].
  apply exec_try in H as [(e & _ & E)|(t1 & pods & t2 & -> & Hpods & H)]; [done|].
  destruct (first_match _ pods) as [p|] eqn:E; exec_inv H.
  apply first_match_sound in E as [[Hn Hr]%andb_true_iff Hin]. rewrite app_nil_r.
  split; [|by eapply etcd_pods_listed]. apply isPodReady_healthy; [|done].
  apply negb_true_iff in Hn. by apply bool_decide_eq_false in Hn.
Qed.

(** A command was run in the pod, and answered without error. *)
Definition ran (config : string) (pod : Pod) (cmd : list string) (stdout : string) (t : list obs)
    : Prop :=
  exists stderr, Obs (EExec config (Pod_Namespace pod) (Pod_Name pod) etcdContainerName cmd)
    ((stdout, stderr), None) ∈ t.

Lemma execInPod_runs config ns pod cont cmd t r :
  exec (execInPod config ns pod cont cmd) t r ->
  commands t = [] /\ is_Some r.2
  \/ commands t = [(config, ns, pod, cont, cmd)] /\ Obs (EExec config ns pod cont cmd) r ∈ t.
Proof.
  unfold execInPod. intros H. apply exec_call_inv in H as ([[]|e] & t1 & -> & H).
  - apply exec_call in H as ->. right. split; [done|]. right. by left.
  - exec_inv H. left. by split.
Qed.

Lemma listEtcdMembers_runs config pod t r :
  exec (listEtcdMembers config pod) t r ->
  (commands t = [] \/ commands t = [in_pod config pod list_cmd])
  /\ forall ms, r = Ok ms -> exists stdout, ran config pod list_cmd stdout t
       /\ unmarshal_members stdout = Ok (mkEtcdMemberListResponse ms).
Proof.
  unfold listEtcdMembers. intros H.
  apply exec_bind in H as (t1 & [[stdout stderr] err] & t2 & -> & H1 & H).
  assert (t2 = []) as -> by (repeat case_match; by exec_inv H).
  rewrite app_nil_r. apply execInPod_runs in H1 as [[Hc [e He]]|[Hc Hin]].
  { split; [by left|]. intros ms ->. cbn in He. subst err. by exec_inv H. }
  split; [by right|]. intros ms ->. destruct err as [e|]; [by exec_inv H|].
  destruct (unmarshal_members stdout) as [[ms']|e] eqn:E; exec_inv H.
  exists stdout. split; [|by rewrite E]. by exists stderr.
Qed.

(** C35: [RemoveEtcdMember] runs at most two commands, a listing and then one
    removal, both in the etcd container of the same pod: one that the API server
    listed in the cluster, ready and not on the node. The removal is only of the
    first member of the listing whose name is the node's or continues it after a
    dash. *)
Theorem RemoveEtcdMember_safe config node t :
  exec (RemoveEtcdMember config node) t tt ->
  commands t = []
  \/ exists pod, healthy node pod /\ pod_listed config pod t
     /\ (commands t = [in_pod config pod list_cmd]
         \/ exists stdout before m after,
              commands t = [in_pod config pod list_cmd;
                            in_pod config pod (remove_cmd (EtcdMember_ID m))]
              /\ ran config pod list_cmd stdout t
              /\ unmarshal_members stdout = Ok (mkEtcdMemberListResponse (before ++ m :: after))
              /\ belongs node m /\ Forall (fun m' => ~ belongs node m') before).
Proof.
  unfold RemoveEtcdMember. intros H.
  apply exec_call_inv in H as ([[]|e] & t1 & -> & H); [|exec_inv H; by left].
  apply exec_bind in H as (t2 & pod & t3 & -> & [Hc2 Hpod]%findHealthyEtcdPod_spec & H).
  change (commands (?o :: t2 ++ t3)) with (commands (t2 ++ t3)). rewrite commands_app, Hc2.
  destruct pod as [pod|e]; [|exec_inv H; by left]. destruct Hpod as [Hpod (sel & pods & Hl & Hin)].
  assert (Hlisted : forall o t3, pod_listed config pod (o :: t2 ++ t3)).
  { intros o t3'. exists sel, pods. split; [right; apply elem_of_app; by left | done]. }
  apply exec_bind in H as (t4 & ms & t5 & -> & [Hc4 Hms]%listEtcdMembers_runs & H).
  rewrite commands_app. cbn [app].
  destruct ms as [ms|e].
  2:{ exec_inv H. rewrite app_nil_r. destruct Hc4 as [->| ->]; [by left | right; exists pod; auto]. }
  destruct (first_match _ ms) as [m|] eqn:E.
  2:{ exec_inv H. rewrite app_nil_r. destruct Hc4 as [->| ->]; [by left | right; exists pod; auto]. }
  apply first_match_Some in E as (before & after & -> & Hm & Hb).
  destruct (Hms _ eq_refl) as (stdout & Hran & Hun). right. exists pod. split; [done|]. split; [done|].
  assert (Hc : commands t4 = [in_pod config pod list_cmd]).
  { destruct Hc4 as [Hc4|]; [|done]. destruct Hran as [stderr Hin']. exfalso.
    assert (in_pod config pod list_cmd ∈ commands t4) as Hl'
      by (apply list_elem_of_omap; eexists; split; [exact Hin' | done]).
    rewrite Hc4 in Hl'. by apply elem_of_nil in Hl'. }
  apply exec_bind in H as (t6 & r & t7 & -> & H & [-> _]). rewrite app_nil_r.
  unfold removeEtcdMemberByID in H. cbv zeta in H.
  apply exec_bind in H as (t8 & [[so se] err] & t9 & -> & H & H9).
  assert (t9 = []) as -> by (case_match; by exec_inv H9). rewrite app_nil_r.
  apply execInPod_runs in H as [[Hc8 _]|[Hc8 _]]; rewrite Hc, Hc8; [by left|].
  right. exists stdout, before, m, after. split_and!; try done.
  - destruct Hran as [stderr Hin']. exists stderr. right. rewrite !elem_of_app. tauto.
  - by apply member_of_node_spec.
  - eapply Forall_impl; [exact Hb|]. intros m' H'. by rewrite <- member_of_node_spec, H'.
Qed.
End etcd.
