(* ===== verification/V1Alpha1.v ===== *)
(** * The older custom resources: api/v1alpha1

    The records of [api/v1alpha1/*_types.go], in a module of the package's
    name: most types have the names of their [v1alpha2] versions. *)

From S2P Require Import Prelude GoStrings OvhTypes ApiTypes.

Local Open Scope Z_scope.

Module v1alpha1.

(** SecretKey is a reference to a Secret containing OVH API credentials. *)
Record SecretKey := mkSecretKey {
  SecretKey_Namespace : string;
  SecretKey_Name : string;
}.

(** OVHListener describes an additional listener on the load balancer. *)
Record OVHListener := mkOVHListener {
  OVHListener_Name : string;
  OVHListener_Port : Z;
  OVHListener_Protocol : string;
  OVHListener_BackendPort : Z;
}.

(** OVHLoadBalancerConfig describes the OVH managed load balancer configuration. *)
Record OVHLoadBalancerConfig := mkOVHLoadBalancerConfig {
  LBConfig_SubnetID : string;
  LBConfig_FlavorName : string;
  LBConfig_FloatingNetworkID : string;
  LBConfig_Listeners : list OVHListener;
}.

(** OVHNetworkConfig describes the private network configuration for the cluster. *)
Record OVHNetworkConfig := mkOVHNetworkConfig {
  NetConfig_PrivateNetworkID : string;
  NetConfig_SubnetCIDR : string;
  NetConfig_VlanID : Z;
  NetConfig_Gateway : string;
  NetConfig_DNSServers : list string;
}.

(** OVHClusterSpec defines the desired state of OVHCluster. *)
Record OVHClusterSpec := mkOVHClusterSpec {
  CSpec_ServiceName : string;
  CSpec_Region : string;
  CSpec_IdentitySecret : SecretKey;
  CSpec_ControlPlaneEndpoint : APIEndpoint;
  CSpec_LoadBalancerConfig : OVHLoadBalancerConfig;
  CSpec_NetworkConfig : option OVHNetworkConfig;
  CSpec_SSHKeyName : string;
}.

(** OVHClusterStatus defines the observed state of OVHCluster. *)
Record OVHClusterStatus := mkOVHClusterStatus {
  CStatus_Ready : bool;
  CStatus_FailureReason : string;
  CStatus_FailureMessage : string;
  CStatus_Conditions : list Condition;
  CStatus_NetworkID : string;
  CStatus_SubnetID : string;
  CStatus_LoadBalancerID : string;
  CStatus_ListenerID : string;
  CStatus_PoolID : string;
  CStatus_FloatingIPID : string;
  CStatus_GatewayID : string;
  CStatus_GatewayExposed : bool;
  CStatus_RegisterListenerID : string;
  CStatus_RegisterPoolID : string;
}.

(** OVHCluster is the Schema for the ovhclusters API. *)
Record OVHCluster := mkOVHCluster {
  OVHCluster_ObjectMeta : ObjectMeta;
  OVHCluster_Spec : OVHClusterSpec;
  OVHCluster_Status : OVHClusterStatus;
}.

(** OVHClusterList contains a list of OVHCluster. *)
Record OVHClusterList := mkOVHClusterList {
  OVHClusterList_ListMeta : ListMeta;
  OVHClusterList_Items : list OVHCluster;
}.

(** OVHVolume defines an additional block storage volume to attach to the instance. *)
Record OVHVolume := mkOVHVolume {
  OVHVolume_Name : string;
  OVHVolume_SizeGB : Z;
  OVHVolume_Type : string;
}.

(** Initialization tracks internal instance provisioning state. *)
Record Initialization := mkInitialization {
  Initialization_Provisioned : bool;
}.

(** OVHMachineSpec defines the desired state of OVHMachine. *)
Record OVHMachineSpec := mkOVHMachineSpec {
  MSpec_ProviderID : string;
  MSpec_FlavorName : string;
  MSpec_ImageName : string;
  MSpec_SSHKeyName : string;
  MSpec_RootDiskSize : Z;
  MSpec_AdditionalVolumes : list OVHVolume;
  MSpec_FailureDomain : string;
}.

(** OVHMachineStatus defines the observed state of OVHMachine. *)
Record OVHMachineStatus := mkOVHMachineStatus {
  MStatus_Ready : bool;
  MStatus_Conditions : list Condition;
  MStatus_FailureReason : string;
  MStatus_FailureMessage : string;
  MStatus_Addresses : list MachineAddress;
  MStatus_Initialization : Initialization;
  MStatus_InstanceID : string;
  MStatus_VolumeIDs : list string;
  MStatus_LBPoolMemberID : string;
  MStatus_RegisterPoolMemberID : string;
}.

(** OVHMachine is the Schema for the ovhmachines API. *)
Record OVHMachine := mkOVHMachine {
  OVHMachine_ObjectMeta : ObjectMeta;
  OVHMachine_Spec : OVHMachineSpec;
  OVHMachine_Status : OVHMachineStatus;
}.

(** OVHMachineList contains a list of OVHMachine. *)
Record OVHMachineList := mkOVHMachineList {
  OVHMachineList_ListMeta : ListMeta;
  OVHMachineList_Items : list OVHMachine;
}.

(** OVHClusterTemplateResource defines the template resource for OVHCluster. *)
Record OVHClusterTemplateResource := mkOVHClusterTemplateResource {
  OVHClusterTemplateResource_ObjectMeta : TemplateMeta;
  OVHClusterTemplateResource_Spec : OVHClusterSpec;
}.

(** OVHClusterTemplateSpec defines the desired state of OVHClusterTemplate. *)
Record OVHClusterTemplateSpec := mkOVHClusterTemplateSpec {
  OVHClusterTemplateSpec_Template : OVHClusterTemplateResource;
}.

(** OVHClusterTemplate is the Schema for the ovhclustertemplates API. *)
Record OVHClusterTemplate := mkOVHClusterTemplate {
  OVHClusterTemplate_ObjectMeta : ObjectMeta;
  OVHClusterTemplate_Spec : OVHClusterTemplateSpec;
}.

(** OVHClusterTemplateList contains a list of OVHClusterTemplate. *)
Record OVHClusterTemplateList := mkOVHClusterTemplateList {
  OVHClusterTemplateList_ListMeta : ListMeta;
  OVHClusterTemplateList_Items : list OVHClusterTemplate;
}.

(** OVHMachineTemplateResource describes the data needed to create an OVHMachine from a
    template. *)
Record OVHMachineTemplateResource := mkOVHMachineTemplateResource {
  OVHMachineTemplateResource_ObjectMeta : TemplateMeta;
  OVHMachineTemplateResource_Spec : OVHMachineSpec;
}.

(** OVHMachineTemplateSpec defines the desired state of OVHMachineTemplate. *)
Record OVHMachineTemplateSpec := mkOVHMachineTemplateSpec {
  OVHMachineTemplateSpec_Template : OVHMachineTemplateResource;
}.

(** OVHMachineTemplate is the Schema for the ovhmachinetemplates API. *)
Record OVHMachineTemplate := mkOVHMachineTemplate {
  OVHMachineTemplate_ObjectMeta : ObjectMeta;
  OVHMachineTemplate_Spec : OVHMachineTemplateSpec;
}.

(** OVHMachineTemplateList contains a list of OVHMachineTemplate. *)
Record OVHMachineTemplateList := mkOVHMachineTemplateList {
  OVHMachineTemplateList_ListMeta : ListMeta;
  OVHMachineTemplateList_Items : list OVHMachineTemplate;
}.

#[global] Instance zero_SecretKey : Zero SecretKey := mkSecretKey zero zero.
#[global] Instance zero_OVHListener : Zero OVHListener := mkOVHListener zero zero zero zero.
#[global] Instance zero_OVHLoadBalancerConfig : Zero OVHLoadBalancerConfig := mkOVHLoadBalancerConfig zero zero zero zero.
#[global] Instance zero_OVHNetworkConfig : Zero OVHNetworkConfig := mkOVHNetworkConfig zero zero zero zero zero.
#[global] Instance zero_OVHClusterSpec : Zero OVHClusterSpec := mkOVHClusterSpec zero zero zero zero zero zero zero.
#[global] Instance zero_OVHClusterStatus : Zero OVHClusterStatus := mkOVHClusterStatus zero zero zero zero zero zero zero zero zero zero zero zero zero zero.
#[global] Instance zero_OVHCluster : Zero OVHCluster := mkOVHCluster zero zero zero.
#[global] Instance zero_OVHClusterList : Zero OVHClusterList := mkOVHClusterList zero zero.
#[global] Instance zero_OVHVolume : Zero OVHVolume := mkOVHVolume zero zero zero.
#[global] Instance zero_Initialization : Zero Initialization := mkInitialization zero.
#[global] Instance zero_OVHMachineSpec : Zero OVHMachineSpec := mkOVHMachineSpec zero zero zero zero zero zero zero.
#[global] Instance zero_OVHMachineStatus : Zero OVHMachineStatus := mkOVHMachineStatus zero zero zero zero zero zero zero zero zero zero.
#[global] Instance zero_OVHMachine : Zero OVHMachine := mkOVHMachine zero zero zero.
#[global] Instance zero_OVHMachineList : Zero OVHMachineList := mkOVHMachineList zero zero.
#[global] Instance zero_OVHClusterTemplateResource : Zero OVHClusterTemplateResource := mkOVHClusterTemplateResource zero zero.
#[global] Instance zero_OVHClusterTemplateSpec : Zero OVHClusterTemplateSpec := mkOVHClusterTemplateSpec zero.
#[global] Instance zero_OVHClusterTemplate : Zero OVHClusterTemplate := mkOVHClusterTemplate zero zero.
#[global] Instance zero_OVHClusterTemplateList : Zero OVHClusterTemplateList := mkOVHClusterTemplateList zero zero.
#[global] Instance zero_OVHMachineTemplateResource : Zero OVHMachineTemplateResource := mkOVHMachineTemplateResource zero zero.
#[global] Instance zero_OVHMachineTemplateSpec : Zero OVHMachineTemplateSpec := mkOVHMachineTemplateSpec zero.
#[global] Instance zero_OVHMachineTemplate : Zero OVHMachineTemplate := mkOVHMachineTemplate zero zero.
#[global] Instance zero_OVHMachineTemplateList : Zero OVHMachineTemplateList := mkOVHMachineTemplateList zero zero.

End v1alpha1.
