(* ===== verification/Conversion.v ===== *)
(** * Conversion between the API versions: api/v1alpha1/conversion.go

    [x.ConvertTo(dst)] and [dst.ConvertFrom(x)] assign the fields of [dst] and
    return an error: here they take the object [dst] points to and return its
    value after the call with the error. The functions with a lower-case name are
    the methods after the type assertion on the [conversion.Hub]; the methods are
    at the end. *)

From S2P Require Import Prelude GoStrings Errors OvhTypes ApiTypes V1Alpha1.

Local Open Scope Z_scope.

(** What a conversion leaves in [dst], and the error it returns. *)
Definition converted (B : Type) : Type := B * option error.

(** The loops over [Items]: [dst.Items] is a slice of zero values, converted
    in place until the first error. *)
Fixpoint convert_items {A B} `{Zero B} (f : A -> B -> converted B) (items : list A)
    : converted (list B) :=
  match items with
  | [] => ([], None)
  | x :: items' =>
    match f x zero with
    | (y, Some err) => (y :: map (fun _ => zero) items', Some err)
    | (y, None) => let '(ys, e) := convert_items f items' in (y :: ys, e)
    end
  end.

Section conversion.
Context `{U : Unicode}.

Definition ProtocolTCP : string := "TCP".
Definition ProtocolUDP : string := "UDP".
Definition ProtocolSCTP : string := "SCTP".

Definition convertProtocolToV1Alpha2 (p : string) : res string :=
  if decide (p = "TCP") then Ok ProtocolTCP
  else if decide (p = "UDP") then Ok ProtocolUDP
  else if decide (p = "SCTP") then Ok ProtocolSCTP
  else if decide (p = "HTTP") then
    Err (ENew "protocol HTTP is deprecated in v1alpha2; use TCP with an HTTP health check instead")
  else Err (Errorf "unknown protocol %q" [AS p]).

(** The loop over [Listeners], on a slice of zero values. *)
Fixpoint convert_listeners (ls : list v1alpha1.OVHListener) : converted (list OVHListener) :=
  match ls with
  | [] => ([], None)
  | l :: ls' =>
    match convertProtocolToV1Alpha2 (v1alpha1.OVHListener_Protocol l) with
    | Err err =>
      (map (fun _ => zero) ls, Some (Errorf "listener %q: %w"
        [AS (v1alpha1.OVHListener_Name l); AE err]))
    | Ok proto =>
      let '(ds, e) := convert_listeners ls' in
      (mkOVHListener (v1alpha1.OVHListener_Name l) (v1alpha1.OVHListener_Port l) proto
         (v1alpha1.OVHListener_BackendPort l) :: ds, e)
    end
  end.

Definition convert_network_to (nc : v1alpha1.OVHNetworkConfig) : OVHNetworkConfig :=
  mkOVHNetworkConfig (v1alpha1.NetConfig_PrivateNetworkID nc) (v1alpha1.NetConfig_SubnetCIDR nc)
    (v1alpha1.NetConfig_VlanID nc) (v1alpha1.NetConfig_Gateway nc) (v1alpha1.NetConfig_DNSServers nc).

(** [dst.Spec] when the listeners have been converted: [nc] is its network
    configuration, which is assigned after them. *)
Definition cluster_spec_to (s : v1alpha1.OVHClusterSpec) (d : OVHClusterSpec)
    (listeners : list OVHListener) (nc : option OVHNetworkConfig) : OVHClusterSpec :=
  let lb := v1alpha1.CSpec_LoadBalancerConfig s in
  let dlb := CSpec_LoadBalancerConfig d in
  mkOVHClusterSpec (v1alpha1.CSpec_ServiceName s) (v1alpha1.CSpec_Region s)
    (mkSecretKey (v1alpha1.SecretKey_Namespace (v1alpha1.CSpec_IdentitySecret s))
       (v1alpha1.SecretKey_Name (v1alpha1.CSpec_IdentitySecret s)))
    (v1alpha1.CSpec_ControlPlaneEndpoint s)
    (mkOVHLoadBalancerConfig (v1alpha1.LBConfig_SubnetID lb) (v1alpha1.LBConfig_FlavorName lb)
       (v1alpha1.LBConfig_FloatingNetworkID lb) listeners
       (LBConfig_ExistingLoadBalancerID dlb) (LBConfig_ExistingFloatingIPID dlb))
    nc (v1alpha1.CSpec_SSHKeyName s) (CSpec_FailureDomains d) (CSpec_SecurityGroups d)
    (CSpec_DefaultTags d) (CSpec_DNSConfig d).

Definition cluster_status_to (s : v1alpha1.OVHClusterStatus) (d : OVHClusterStatus)
    : OVHClusterStatus :=
  mkOVHClusterStatus (v1alpha1.CStatus_Ready s) (v1alpha1.CStatus_FailureReason s)
    (v1alpha1.CStatus_FailureMessage s) (v1alpha1.CStatus_Conditions s)
    (v1alpha1.CStatus_NetworkID s) (v1alpha1.CStatus_SubnetID s) (v1alpha1.CStatus_LoadBalancerID s)
    (v1alpha1.CStatus_ListenerID s) (v1alpha1.CStatus_PoolID s) (v1alpha1.CStatus_FloatingIPID s)
    (v1alpha1.CStatus_GatewayID s) (v1alpha1.CStatus_GatewayExposed s)
    (v1alpha1.CStatus_RegisterListenerID s) (v1alpha1.CStatus_RegisterPoolID s)
    (CStatus_FailureDomains d) (CStatus_SecurityGroupIDs d) (CStatus_DNSRecordID d).

(** [OVHCluster.ConvertTo]. *)
Definition cluster_ConvertTo (src : v1alpha1.OVHCluster) (dst : OVHCluster)
    : converted OVHCluster :=
  let s := v1alpha1.OVHCluster_Spec src in
  let d := OVHCluster_Spec dst in
  let ls := v1alpha1.LBConfig_Listeners (v1alpha1.CSpec_LoadBalancerConfig s) in
  let '(listeners, err) :=
    if decide (0 < length ls)%nat then convert_listeners ls
    else (LBConfig_Listeners (CSpec_LoadBalancerConfig d), None) in
  match err with
  | Some err =>
    (mkOVHCluster (v1alpha1.OVHCluster_ObjectMeta src)
       (cluster_spec_to s d listeners (CSpec_NetworkConfig d)) (OVHCluster_Status dst), Some err)
  | None =>
    let nc := match v1alpha1.CSpec_NetworkConfig s with
              | Some nc => Some (convert_network_to nc)
              | None => CSpec_NetworkConfig d
              end in
    (mkOVHCluster (v1alpha1.OVHCluster_ObjectMeta src) (cluster_spec_to s d listeners nc)
       (cluster_status_to (v1alpha1.OVHCluster_Status src) (OVHCluster_Status dst)), None)
  end.

Definition convert_listener_from (l : OVHListener) : v1alpha1.OVHListener :=
  v1alpha1.mkOVHListener (OVHListener_Name l) (OVHListener_Port l) (OVHListener_Protocol l)
    (OVHListener_BackendPort l).

Definition convert_network_from (nc : OVHNetworkConfig) : v1alpha1.OVHNetworkConfig :=
  v1alpha1.mkOVHNetworkConfig (NetConfig_PrivateNetworkID nc) (NetConfig_SubnetCIDR nc)
    (NetConfig_VlanID nc) (NetConfig_Gateway nc) (NetConfig_DNSServers nc).

(** [OVHCluster.ConvertFrom], which returns no error. *)
Definition cluster_ConvertFrom (src : OVHCluster) (dst : v1alpha1.OVHCluster)
    : converted v1alpha1.OVHCluster :=
  let s := OVHCluster_Spec src in
  let d := v1alpha1.OVHCluster_Spec dst in
  let lb := CSpec_LoadBalancerConfig s in
  let t := OVHCluster_Status src in
  let listeners :=
    if decide (0 < length (LBConfig_Listeners lb))%nat
    then map convert_listener_from (LBConfig_Listeners lb)
    else v1alpha1.LBConfig_Listeners (v1alpha1.CSpec_LoadBalancerConfig d) in
  let nc := match CSpec_NetworkConfig s with
            | Some nc => Some (convert_network_from nc)
            | None => v1alpha1.CSpec_NetworkConfig d
            end in
  (v1alpha1.mkOVHCluster (OVHCluster_ObjectMeta src)
     (v1alpha1.mkOVHClusterSpec (CSpec_ServiceName s) (CSpec_Region s)
        (v1alpha1.mkSecretKey (SecretKey_Namespace (CSpec_IdentitySecret s))
           (SecretKey_Name (CSpec_IdentitySecret s)))
        (CSpec_ControlPlaneEndpoint s)
        (v1alpha1.mkOVHLoadBalancerConfig (LBConfig_SubnetID lb) (LBConfig_FlavorName lb)
           (LBConfig_FloatingNetworkID lb) listeners)
        nc (CSpec_SSHKeyName s))
     (v1alpha1.mkOVHClusterStatus (CStatus_Ready t) (CStatus_FailureReason t)
        (CStatus_FailureMessage t) (CStatus_Conditions t) (CStatus_NetworkID t)
        (CStatus_SubnetID t) (CStatus_LoadBalancerID t) (CStatus_ListenerID t) (CStatus_PoolID t)
        (CStatus_FloatingIPID t) (CStatus_GatewayID t) (CStatus_GatewayExposed t)
        (CStatus_RegisterListenerID t) (CStatus_RegisterPoolID t)), None).

Definition cluster_list_ConvertTo (src : v1alpha1.OVHClusterList) (dst : OVHClusterList)
    : converted OVHClusterList :=
  let '(items, err) := convert_items cluster_ConvertTo (v1alpha1.OVHClusterList_Items src) in
  (mkOVHClusterList (v1alpha1.OVHClusterList_ListMeta src) items, err).

Definition cluster_list_ConvertFrom (src : OVHClusterList) (dst : v1alpha1.OVHClusterList)
    : converted v1alpha1.OVHClusterList :=
  let '(items, err) := convert_items cluster_ConvertFrom (OVHClusterList_Items src) in
  (v1alpha1.mkOVHClusterList (OVHClusterList_ListMeta src) items, err).

(** ** Machines *)

Definition convertMachineSpecTo (src : v1alpha1.OVHMachineSpec) (dst : OVHMachineSpec)
    : OVHMachineSpec :=
  let vols := v1alpha1.MSpec_AdditionalVolumes src in
  mkOVHMachineSpec (v1alpha1.MSpec_ProviderID src) (v1alpha1.MSpec_FlavorName src)
    (v1alpha1.MSpec_ImageName src) (v1alpha1.MSpec_SSHKeyName src) (v1alpha1.MSpec_RootDiskSize src)
    (if decide (0 < length vols)%nat then
       map (fun v => mkOVHVolume (v1alpha1.OVHVolume_Name v) (v1alpha1.OVHVolume_SizeGB v)
                       (v1alpha1.OVHVolume_Type v)) vols
     else MSpec_AdditionalVolumes dst)
    (v1alpha1.MSpec_FailureDomain src) (MSpec_SecurityGroupNames dst) (MSpec_Tags dst)
    (MSpec_BootstrapFormat dst) (MSpec_ExistingInstanceID dst).

Definition convertMachineSpecFrom (src : OVHMachineSpec) (dst : v1alpha1.OVHMachineSpec)
    : v1alpha1.OVHMachineSpec :=
  let vols := MSpec_AdditionalVolumes src in
  v1alpha1.mkOVHMachineSpec (MSpec_ProviderID src) (MSpec_FlavorName src) (MSpec_ImageName src)
    (MSpec_SSHKeyName src) (MSpec_RootDiskSize src)
    (if decide (0 < length vols)%nat then
       map (fun v => v1alpha1.mkOVHVolume (OVHVolume_Name v) (OVHVolume_SizeGB v) (OVHVolume_Type v))
         vols
     else v1alpha1.MSpec_AdditionalVolumes dst)
    (MSpec_FailureDomain src).

Definition convertMachineStatusTo (src : v1alpha1.OVHMachineStatus) (dst : OVHMachineStatus)
    : OVHMachineStatus :=
  mkOVHMachineStatus (v1alpha1.MStatus_Ready src) (v1alpha1.MStatus_Conditions src)
    (v1alpha1.MStatus_FailureReason src) (v1alpha1.MStatus_FailureMessage src)
    (v1alpha1.MStatus_Addresses src)
    (mkInitialization (v1alpha1.Initialization_Provisioned (v1alpha1.MStatus_Initialization src)))
    (v1alpha1.MStatus_InstanceID src) (v1alpha1.MStatus_VolumeIDs src)
    (v1alpha1.MStatus_LBPoolMemberID src) (v1alpha1.MStatus_RegisterPoolMemberID src).

Definition convertMachineStatusFrom (src : OVHMachineStatus) (dst : v1alpha1.OVHMachineStatus)
    : v1alpha1.OVHMachineStatus :=
  v1alpha1.mkOVHMachineStatus (MStatus_Ready src) (MStatus_Conditions src)
    (MStatus_FailureReason src) (MStatus_FailureMessage src) (MStatus_Addresses src)
    (v1alpha1.mkInitialization (Initialization_Provisioned (MStatus_Initialization src)))
    (MStatus_InstanceID src) (MStatus_VolumeIDs src) (MStatus_LBPoolMemberID src)
    (MStatus_RegisterPoolMemberID src).

Definition machine_ConvertTo (src : v1alpha1.OVHMachine) (dst : OVHMachine)
    : converted OVHMachine :=
  (mkOVHMachine (v1alpha1.OVHMachine_ObjectMeta src)
     (convertMachineSpecTo (v1alpha1.OVHMachine_Spec src) (OVHMachine_Spec dst))
     (convertMachineStatusTo (v1alpha1.OVHMachine_Status src) (OVHMachine_Status dst)), None).

Definition machine_ConvertFrom (src : OVHMachine) (dst : v1alpha1.OVHMachine)
    : converted v1alpha1.OVHMachine :=
  (v1alpha1.mkOVHMachine (OVHMachine_ObjectMeta src)
     (convertMachineSpecFrom (OVHMachine_Spec src) (v1alpha1.OVHMachine_Spec dst))
     (convertMachineStatusFrom (OVHMachine_Status src) (v1alpha1.OVHMachine_Status dst)), None).

Definition machine_list_ConvertTo (src : v1alpha1.OVHMachineList) (dst : OVHMachineList)
    : converted OVHMachineList :=
  let '(items, err) := convert_items machine_ConvertTo (v1alpha1.OVHMachineList_Items src) in
  (mkOVHMachineList (v1alpha1.OVHMachineList_ListMeta src) items, err).

Definition machine_list_ConvertFrom (src : OVHMachineList) (dst : v1alpha1.OVHMachineList)
    : converted v1alpha1.OVHMachineList :=
  let '(items, err) := convert_items machine_ConvertFrom (OVHMachineList_Items src) in
  (v1alpha1.mkOVHMachineList (OVHMachineList_ListMeta src) items, err).

(** ** Templates *)

Definition cluster_template_ConvertTo (src : v1alpha1.OVHClusterTemplate) (dst : OVHClusterTemplate)
    : converted OVHClusterTemplate :=
  let meta := v1alpha1.OVHClusterTemplate_ObjectMeta src in
  let tpl := v1alpha1.OVHClusterTemplateSpec_Template (v1alpha1.OVHClusterTemplate_Spec src) in
  let tmpSrc := v1alpha1.mkOVHCluster zero
    (v1alpha1.OVHClusterTemplateResource_Spec tpl) zero in
  match cluster_ConvertTo tmpSrc zero with
  | (_, Some err) => (mkOVHClusterTemplate meta (OVHClusterTemplate_Spec dst), Some err)
  | (tmpDst, None) =>
    (mkOVHClusterTemplate meta (mkOVHClusterTemplateSpec
       (mkOVHClusterTemplateResource (v1alpha1.OVHClusterTemplateResource_ObjectMeta tpl)
          (OVHCluster_Spec tmpDst))), None)
  end.

Definition cluster_template_ConvertFrom (src : OVHClusterTemplate)
    (dst : v1alpha1.OVHClusterTemplate) : converted v1alpha1.OVHClusterTemplate :=
  let meta := OVHClusterTemplate_ObjectMeta src in
  let tpl := OVHClusterTemplateSpec_Template (OVHClusterTemplate_Spec src) in
  let tmpSrc := mkOVHCluster zero (OVHClusterTemplateResource_Spec tpl) zero in
  match cluster_ConvertFrom tmpSrc zero with
  | (_, Some err) =>
    (v1alpha1.mkOVHClusterTemplate meta (v1alpha1.OVHClusterTemplate_Spec dst), Some err)
  | (tmpDst, None) =>
    (v1alpha1.mkOVHClusterTemplate meta (v1alpha1.mkOVHClusterTemplateSpec
       (v1alpha1.mkOVHClusterTemplateResource (OVHClusterTemplateResource_ObjectMeta tpl)
          (v1alpha1.OVHCluster_Spec tmpDst))), None)
  end.

Definition cluster_template_list_ConvertTo (src : v1alpha1.OVHClusterTemplateList)
    (dst : OVHClusterTemplateList) : converted OVHClusterTemplateList :=
  let '(items, err) :=
    convert_items cluster_template_ConvertTo (v1alpha1.OVHClusterTemplateList_Items src) in
  (mkOVHClusterTemplateList (v1alpha1.OVHClusterTemplateList_ListMeta src) items, err).

Definition cluster_template_list_ConvertFrom (src : OVHClusterTemplateList)
    (dst : v1alpha1.OVHClusterTemplateList) : converted v1alpha1.OVHClusterTemplateList :=
  let '(items, err) :=
    convert_items cluster_template_ConvertFrom (OVHClusterTemplateList_Items src) in
  (v1alpha1.mkOVHClusterTemplateList (OVHClusterTemplateList_ListMeta src) items, err).

Definition machine_template_ConvertTo (src : v1alpha1.OVHMachineTemplate) (dst : OVHMachineTemplate)
    : converted OVHMachineTemplate :=
  let tpl := v1alpha1.OVHMachineTemplateSpec_Template (v1alpha1.OVHMachineTemplate_Spec src) in
  let dtpl := OVHMachineTemplateSpec_Template (OVHMachineTemplate_Spec dst) in
  (mkOVHMachineTemplate (v1alpha1.OVHMachineTemplate_ObjectMeta src) (mkOVHMachineTemplateSpec
     (mkOVHMachineTemplateResource (v1alpha1.OVHMachineTemplateResource_ObjectMeta tpl)
        (convertMachineSpecTo (v1alpha1.OVHMachineTemplateResource_Spec tpl)
           (OVHMachineTemplateResource_Spec dtpl)))), None).

Definition machine_template_ConvertFrom (src : OVHMachineTemplate)
    (dst : v1alpha1.OVHMachineTemplate) : converted v1alpha1.OVHMachineTemplate :=
  let tpl := OVHMachineTemplateSpec_Template (OVHMachineTemplate_Spec src) in
  let dtpl := v1alpha1.OVHMachineTemplateSpec_Template (v1alpha1.OVHMachineTemplate_Spec dst) in
  (v1alpha1.mkOVHMachineTemplate (OVHMachineTemplate_ObjectMeta src)
     (v1alpha1.mkOVHMachineTemplateSpec
        (v1alpha1.mkOVHMachineTemplateResource (OVHMachineTemplateResource_ObjectMeta tpl)
           (convertMachineSpecFrom (OVHMachineTemplateResource_Spec tpl)
              (v1alpha1.OVHMachineTemplateResource_Spec dtpl)))), None).

Definition machine_template_list_ConvertTo (src : v1alpha1.OVHMachineTemplateList)
    (dst : OVHMachineTemplateList) : converted OVHMachineTemplateList :=
  let '(items, err) :=
    convert_items machine_template_ConvertTo (v1alpha1.OVHMachineTemplateList_Items src) in
  (mkOVHMachineTemplateList (v1alpha1.OVHMachineTemplateList_ListMeta src) items, err).

Definition machine_template_list_ConvertFrom (src : OVHMachineTemplateList)
    (dst : v1alpha1.OVHMachineTemplateList) : converted v1alpha1.OVHMachineTemplateList :=
  let '(items, err) :=
    convert_items machine_template_ConvertFrom (OVHMachineTemplateList_Items src) in
  (v1alpha1.mkOVHMachineTemplateList (OVHMachineTemplateList_ListMeta src) items, err).

(** ** The methods

    Their argument is a [conversion.Hub]: nil, or a pointer to an object of one of
    the types of v1alpha2 with a [Hub] method. *)

Inductive hub :=
| NilHub
| HubOVHCluster (x : OVHCluster)
| HubOVHClusterList (x : OVHClusterList)
| HubOVHMachine (x : OVHMachine)
| HubOVHMachineList (x : OVHMachineList)
| HubOVHClusterTemplate (x : OVHClusterTemplate)
| HubOVHClusterTemplateList (x : OVHClusterTemplateList)
| HubOVHMachineTemplate (x : OVHMachineTemplate)
| HubOVHMachineTemplateList (x : OVHMachineTemplateList).

(** The verb [%T]. *)
Definition hub_type (h : hub) : string :=
  match h with
  | NilHub => "<nil>"
  | HubOVHCluster _ => "*v1alpha2.OVHCluster"
  | HubOVHClusterList _ => "*v1alpha2.OVHClusterList"
  | HubOVHMachine _ => "*v1alpha2.OVHMachine"
  | HubOVHMachineList _ => "*v1alpha2.OVHMachineList"
  | HubOVHClusterTemplate _ => "*v1alpha2.OVHClusterTemplate"
  | HubOVHClusterTemplateList _ => "*v1alpha2.OVHClusterTemplateList"
  | HubOVHMachineTemplate _ => "*v1alpha2.OVHMachineTemplate"
  | HubOVHMachineTemplateList _ => "*v1alpha2.OVHMachineTemplateList"
  end.

Definition unexpected (T : string) (h : hub) : error :=
  Errorf ("expected *v1alpha2." ++ T ++ ", got %T") [AS (hub_type h)].

(** A method with its type assertion: what it does to a hub of its type. *)
Definition asserting_to {A B} (T : string) (as_hub : B -> hub) (assert : hub -> option B)
    (convert : A -> B -> converted B) (src : A) (dstRaw : hub) : converted hub :=
  match assert dstRaw with
  | Some dst => let '(dst', err) := convert src dst in (as_hub dst', err)
  | None => (dstRaw, Some (unexpected T dstRaw))
  end.

Definition asserting_from {A B} (T : string) (assert : hub -> option B)
    (convert : B -> A -> converted A) (dst : A) (srcRaw : hub) : converted A :=
  match assert srcRaw with
  | Some src => convert src dst
  | None => (dst, Some (unexpected T srcRaw))
  end.

Definition as_OVHCluster (h : hub) : option OVHCluster :=
  match h with HubOVHCluster x => Some x | _ => None end.
Definition OVHCluster_ConvertTo : v1alpha1.OVHCluster -> hub -> converted hub :=
  asserting_to "OVHCluster" HubOVHCluster as_OVHCluster cluster_ConvertTo.
Definition OVHCluster_ConvertFrom : v1alpha1.OVHCluster -> hub -> converted v1alpha1.OVHCluster :=
  asserting_from "OVHCluster" as_OVHCluster cluster_ConvertFrom.

Definition as_OVHClusterList (h : hub) : option OVHClusterList :=
  match h with HubOVHClusterList x => Some x | _ => None end.
Definition OVHClusterList_ConvertTo : v1alpha1.OVHClusterList -> hub -> converted hub :=
  asserting_to "OVHClusterList" HubOVHClusterList as_OVHClusterList cluster_list_ConvertTo.
Definition OVHClusterList_ConvertFrom : v1alpha1.OVHClusterList -> hub -> converted v1alpha1.OVHClusterList :=
  asserting_from "OVHClusterList" as_OVHClusterList cluster_list_ConvertFrom.

Definition as_OVHMachine (h : hub) : option OVHMachine :=
  match h with HubOVHMachine x => Some x | _ => None end.
Definition OVHMachine_ConvertTo : v1alpha1.OVHMachine -> hub -> converted hub :=
  asserting_to "OVHMachine" HubOVHMachine as_OVHMachine machine_ConvertTo.
Definition OVHMachine_ConvertFrom : v1alpha1.OVHMachine -> hub -> converted v1alpha1.OVHMachine :=
  asserting_from "OVHMachine" as_OVHMachine machine_ConvertFrom.

Definition as_OVHMachineList (h : hub) : option OVHMachineList :=
  match h with HubOVHMachineList x => Some x | _ => None end.
Definition OVHMachineList_ConvertTo : v1alpha1.OVHMachineList -> hub -> converted hub :=
  asserting_to "OVHMachineList" HubOVHMachineList as_OVHMachineList machine_list_ConvertTo.
Definition OVHMachineList_ConvertFrom : v1alpha1.OVHMachineList -> hub -> converted v1alpha1.OVHMachineList :=
  asserting_from "OVHMachineList" as_OVHMachineList machine_list_ConvertFrom.

Definition as_OVHClusterTemplate (h : hub) : option OVHClusterTemplate :=
  match h with HubOVHClusterTemplate x => Some x | _ => None end.
Definition OVHClusterTemplate_ConvertTo : v1alpha1.OVHClusterTemplate -> hub -> converted hub :=
  asserting_to "OVHClusterTemplate" HubOVHClusterTemplate as_OVHClusterTemplate cluster_template_ConvertTo.
Definition OVHClusterTemplate_ConvertFrom : v1alpha1.OVHClusterTemplate -> hub -> converted v1alpha1.OVHClusterTemplate :=
  asserting_from "OVHClusterTemplate" as_OVHClusterTemplate cluster_template_ConvertFrom.

Definition as_OVHClusterTemplateList (h : hub) : option OVHClusterTemplateList :=
  match h with HubOVHClusterTemplateList x => Some x | _ => None end.
Definition OVHClusterTemplateList_ConvertTo : v1alpha1.OVHClusterTemplateList -> hub -> converted hub :=
  asserting_to "OVHClusterTemplateList" HubOVHClusterTemplateList as_OVHClusterTemplateList cluster_template_list_ConvertTo.
Definition OVHClusterTemplateList_ConvertFrom : v1alpha1.OVHClusterTemplateList -> hub -> converted v1alpha1.OVHClusterTemplateList :=
  asserting_from "OVHClusterTemplateList" as_OVHClusterTemplateList cluster_template_list_ConvertFrom.

Definition as_OVHMachineTemplate (h : hub) : option OVHMachineTemplate :=
  match h with HubOVHMachineTemplate x => Some x | _ => None end.
Definition OVHMachineTemplate_ConvertTo : v1alpha1.OVHMachineTemplate -> hub -> converted hub :=
  asserting_to "OVHMachineTemplate" HubOVHMachineTemplate as_OVHMachineTemplate machine_template_ConvertTo.
Definition OVHMachineTemplate_ConvertFrom : v1alpha1.OVHMachineTemplate -> hub -> converted v1alpha1.OVHMachineTemplate :=
  asserting_from "OVHMachineTemplate" as_OVHMachineTemplate machine_template_ConvertFrom.

Definition as_OVHMachineTemplateList (h : hub) : option OVHMachineTemplateList :=
  match h with HubOVHMachineTemplateList x => Some x | _ => None end.
Definition OVHMachineTemplateList_ConvertTo : v1alpha1.OVHMachineTemplateList -> hub -> converted hub :=
  asserting_to "OVHMachineTemplateList" HubOVHMachineTemplateList as_OVHMachineTemplateList machine_template_list_ConvertTo.
Definition OVHMachineTemplateList_ConvertFrom : v1alpha1.OVHMachineTemplateList -> hub -> converted v1alpha1.OVHMachineTemplateList :=
  asserting_from "OVHMachineTemplateList" as_OVHMachineTemplateList machine_template_list_ConvertFrom.

End conversion.
