(* ===== verification/Webhooks.v ===== *)
(** * Admission: the validating webhooks of api/v1alpha1 and api/v1alpha2

    The two packages hold the same code for their own types. A validator
    returns no warnings, so its result is its error. [net.ParseIP] is modelled
    as the test whether it returns an address (the webhook asks no more of it):
    the parsers of net/netip, which reject an address with a zone for it. *)

From S2P Require Import Prelude GoStrings Errors OvhTypes ApiTypes V1Alpha1.

Local Open Scope Z_scope.

(** ** net.ParseIP *)

Definition is_digit (a : ascii) : bool := (48 <=? byte a) && (byte a <=? 57).

Definition hex_value (a : ascii) : option Z :=
  let c := byte a in
  if (48 <=? c) && (c <=? 57) then Some (c - 48)
  else if (97 <=? c) && (c <=? 102) then Some (c - 97 + 10)
  else if (65 <=? c) && (c <=? 70) then Some (c - 65 + 10)
  else None.

(** The loop of [parseIPv4Fields]: the value and the number of digits of the
    field being read, the fields before it, and whether the last byte was a dot
    (or there was none yet). *)
Fixpoint ipv4_fields (s : string) (val : Z) (digLen : nat) (pos : nat) : bool :=
  match s with
  | EmptyString => bool_decide (pos = 3%nat)
  | String c s' =>
    if is_digit c then
      if bool_decide (digLen = 1%nat /\ val = 0) then false
      else
        let val := val * 10 + (byte c - 48) in
        if 255 <? val then false else ipv4_fields s' val (S digLen) pos
    else if (c =? ".")%char then
      (* i == 0 || i == len(s)-1 || s[i-1] == '.' *)
      if bool_decide (digLen = 0%nat \/ s' = EmptyString) then false
      else if bool_decide (pos = 3%nat) then false
      else ipv4_fields s' 0 0 (S pos)
    else false
  end.

Definition parse_ipv4 (s : string) : bool := ipv4_fields s 0 0 0.

(** The inner loop of [parseIPv6]: the digits read, and the rest; [None] on
    more than four digits. *)
Fixpoint hex_group (s : string) (off : nat) : option (nat * string) :=
  match s with
  | EmptyString => Some (off, s)
  | String c s' =>
    match hex_value c with
    | Some _ => if (3 <? off)%nat then None else hex_group s' (S off)
    | None => Some (off, s)
    end
  end.

(** The loop of [parseIPv6] with [left] groups of two bytes to fill. *)
Fixpoint ipv6_groups (s : string) (left : nat) (ellipsis : bool) : bool :=
  match left with
  | O =>
    (* the whole string is used, and there is no ellipsis *)
    bool_decide (s = EmptyString) && negb ellipsis
  | S left' =>
    match hex_group s 0 with
    | None | Some (O, _) => false
    | Some (_, EmptyString) => bool_decide (left' = 0%nat) && negb ellipsis
                               || negb (bool_decide (left' = 0%nat)) && ellipsis
    | Some (_, String c s') =>
      if (c =? ".")%char then
        (* an IPv4 address in the last two groups *)
        if negb ellipsis && negb (bool_decide (left = 2%nat)) then false
        else if bool_decide (left' = 0%nat) then false
        else parse_ipv4 s && (if bool_decide (left = 2%nat) then negb ellipsis else ellipsis)
      else if negb (c =? ":")%char then false
      else
        match s' with
        | EmptyString => false
        | String c' s'' =>
          if (c' =? ":")%char then
            if ellipsis then false
            else match s'' with
                 | EmptyString => negb (bool_decide (left' = 0%nat))
                 | _ => ipv6_groups s'' left' true
                 end
          else ipv6_groups s' left' ellipsis
        end
    end
  end.

Definition parse_ipv6 (s : string) : bool :=
  if Contains s "%" then false
  else
    match s with
    | String c0 (String c1 s') =>
      if (c0 =? ":")%char && (c1 =? ":")%char then
        match s' with EmptyString => true | _ => ipv6_groups s' 8 true end
      else ipv6_groups s 8 false
    | _ => ipv6_groups s 8 false
    end.

(** [net.ParseIP(s) != nil]: the first of [.], [:] and [%] picks the parser. *)
Fixpoint parse_ip_from (whole s : string) : bool :=
  match s with
  | EmptyString => false
  | String c s' =>
    if (c =? ".")%char then parse_ipv4 whole
    else if (c =? ":")%char then parse_ipv6 whole
    else if (c =? "%")%char then false
    else parse_ip_from whole s'
  end.

Definition ParseIP (s : string) : bool := parse_ip_from s s.

Section webhooks.
Context `{U : Unicode}.

(** [if cond { errs = append(errs, msg) }]. *)
Definition check (cond : bool) (msg : string) : list string := if cond then [msg] else [].

(** [validation failed for ...] when there are messages. *)
Definition validation_result (kind : string) (m : ObjectMeta) (errs : list string)
    : option error :=
  if decide (0 < length errs)%nat then
    Some (Errorf "validation failed for %s %s/%s: %s"
      [AS kind; AS (Meta_Namespace m); AS (Meta_Name m); AS (Join errs "; ")])
  else None.

Definition gateway_message (gateway : string) : string :=
  Sprintf "spec.networkConfig.gateway %q is not a valid IP address" [AS gateway].

Definition cluster_errs (c : OVHCluster) : list string :=
  let spec := OVHCluster_Spec c in
  check (bool_decide (CSpec_ServiceName spec = "")) "spec.serviceName is required" ++
  check (bool_decide (CSpec_Region spec = "")) "spec.region is required" ++
  check (bool_decide (SecretKey_Name (CSpec_IdentitySecret spec) = ""))
    "spec.identitySecret.name is required" ++
  check (bool_decide (SecretKey_Namespace (CSpec_IdentitySecret spec) = ""))
    "spec.identitySecret.namespace is required" ++
  check (bool_decide (LBConfig_SubnetID (CSpec_LoadBalancerConfig spec) = ""
                      /\ CSpec_NetworkConfig spec = None))
    "either spec.loadBalancerConfig.subnetID or spec.networkConfig must be provided" ++
  match CSpec_NetworkConfig spec with
  | None => []
  | Some nc =>
    check (bool_decide (NetConfig_PrivateNetworkID nc = "" /\ NetConfig_SubnetCIDR nc = ""))
      "spec.networkConfig requires either privateNetworkID or subnetCIDR" ++
    (if decide (NetConfig_Gateway nc <> "") then
       check (negb (ParseIP (NetConfig_Gateway nc))) (gateway_message (NetConfig_Gateway nc))
     else [])
  end.

Definition validateOVHCluster (c : OVHCluster) : option error :=
  validation_result "OVHCluster" (OVHCluster_ObjectMeta c) (cluster_errs c).

Definition volume_errs (i : nat) (vol : OVHVolume) : list string :=
  check (bool_decide (OVHVolume_Name vol = ""))
    (Sprintf "spec.additionalVolumes[%d].name is required" [AZ (Z.of_nat i)]) ++
  check (OVHVolume_SizeGB vol <? 1)
    (Sprintf "spec.additionalVolumes[%d].sizeGB must be >= 1" [AZ (Z.of_nat i)]).

Definition machine_errs (m : OVHMachine) : list string :=
  let spec := OVHMachine_Spec m in
  check (bool_decide (MSpec_FlavorName spec = "")) "spec.flavorName is required" ++
  check (bool_decide (MSpec_ImageName spec = "")) "spec.imageName is required" ++
  check (MSpec_RootDiskSize spec <? 0) "spec.rootDiskSize must be >= 0" ++
  concat (imap volume_errs (MSpec_AdditionalVolumes spec)).

Definition validateOVHMachine (m : OVHMachine) : option error :=
  validation_result "OVHMachine" (OVHMachine_ObjectMeta m) (machine_errs m).

(** ** The objects of a request

    The server decodes a request into a [runtime.Object], an interface: nil, or a
    pointer to an object of one of the types of the scheme. *)

Inductive Object :=
| NilObject
| AnOVHCluster (c : OVHCluster)
| AnOVHMachine (m : OVHMachine)
| AnOVHCluster_v1alpha1 (c : v1alpha1.OVHCluster)
| AnOVHMachine_v1alpha1 (m : v1alpha1.OVHMachine)
| AnotherObject (T : string).

(** The verb [%T]. *)
Definition type_of (obj : Object) : string :=
  match obj with
  | NilObject => "<nil>"
  | AnOVHCluster _ => "*v1alpha2.OVHCluster"
  | AnOVHMachine _ => "*v1alpha2.OVHMachine"
  | AnOVHCluster_v1alpha1 _ => "*v1alpha1.OVHCluster"
  | AnOVHMachine_v1alpha1 _ => "*v1alpha1.OVHMachine"
  | AnotherObject T => T
  end.

Definition cluster_ValidateCreate (obj : Object) : option error :=
  match obj with
  | AnOVHCluster c => validateOVHCluster c
  | _ => Some (Errorf "expected OVHCluster, got %T" [AS (type_of obj)])
  end.

Definition cluster_ValidateUpdate (oldObj newObj : Object) : option error :=
  match newObj with
  | AnOVHCluster c => validateOVHCluster c
  | _ => Some (Errorf "expected OVHCluster, got %T" [AS (type_of newObj)])
  end.

Definition cluster_ValidateDelete (obj : Object) : option error := None.

Definition machine_ValidateCreate (obj : Object) : option error :=
  match obj with
  | AnOVHMachine m => validateOVHMachine m
  | _ => Some (Errorf "expected OVHMachine, got %T" [AS (type_of obj)])
  end.

Definition machine_ValidateUpdate (oldObj newObj : Object) : option error :=
  match newObj with
  | AnOVHMachine m => validateOVHMachine m
  | _ => Some (Errorf "expected OVHMachine, got %T" [AS (type_of newObj)])
  end.

Definition machine_ValidateDelete (obj : Object) : option error := None.

(** ** The webhooks of api/v1alpha1 *)

Definition cluster_errs_v1alpha1 (c : v1alpha1.OVHCluster) : list string :=
  let spec := v1alpha1.OVHCluster_Spec c in
  check (bool_decide (v1alpha1.CSpec_ServiceName spec = "")) "spec.serviceName is required" ++
  check (bool_decide (v1alpha1.CSpec_Region spec = "")) "spec.region is required" ++
  check (bool_decide (v1alpha1.SecretKey_Name (v1alpha1.CSpec_IdentitySecret spec) = ""))
    "spec.identitySecret.name is required" ++
  check (bool_decide (v1alpha1.SecretKey_Namespace (v1alpha1.CSpec_IdentitySecret spec) = ""))
    "spec.identitySecret.namespace is required" ++
  check (bool_decide (v1alpha1.LBConfig_SubnetID (v1alpha1.CSpec_LoadBalancerConfig spec) = ""
                      /\ v1alpha1.CSpec_NetworkConfig spec = None))
    "either spec.loadBalancerConfig.subnetID or spec.networkConfig must be provided" ++
  match v1alpha1.CSpec_NetworkConfig spec with
  | None => []
  | Some nc =>
    check (bool_decide (v1alpha1.NetConfig_PrivateNetworkID nc = ""
                        /\ v1alpha1.NetConfig_SubnetCIDR nc = ""))
      "spec.networkConfig requires either privateNetworkID or subnetCIDR" ++
    (if decide (v1alpha1.NetConfig_Gateway nc <> "") then
       check (negb (ParseIP (v1alpha1.NetConfig_Gateway nc)))
         (gateway_message (v1alpha1.NetConfig_Gateway nc))
     else [])
  end.

Definition validateOVHCluster_v1alpha1 (c : v1alpha1.OVHCluster) : option error :=
  validation_result "OVHCluster" (v1alpha1.OVHCluster_ObjectMeta c) (cluster_errs_v1alpha1 c).

Definition volume_errs_v1alpha1 (i : nat) (vol : v1alpha1.OVHVolume) : list string :=
  check (bool_decide (v1alpha1.OVHVolume_Name vol = ""))
    (Sprintf "spec.additionalVolumes[%d].name is required" [AZ (Z.of_nat i)]) ++
  check (v1alpha1.OVHVolume_SizeGB vol <? 1)
    (Sprintf "spec.additionalVolumes[%d].sizeGB must be >= 1" [AZ (Z.of_nat i)]).

Definition machine_errs_v1alpha1 (m : v1alpha1.OVHMachine) : list string :=
  let spec := v1alpha1.OVHMachine_Spec m in
  check (bool_decide (v1alpha1.MSpec_FlavorName spec = "")) "spec.flavorName is required" ++
  check (bool_decide (v1alpha1.MSpec_ImageName spec = "")) "spec.imageName is required" ++
  check (v1alpha1.MSpec_RootDiskSize spec <? 0) "spec.rootDiskSize must be >= 0" ++
  concat (imap volume_errs_v1alpha1 (v1alpha1.MSpec_AdditionalVolumes spec)).

Definition validateOVHMachine_v1alpha1 (m : v1alpha1.OVHMachine) : option error :=
  validation_result "OVHMachine" (v1alpha1.OVHMachine_ObjectMeta m) (machine_errs_v1alpha1 m).

Definition cluster_ValidateCreate_v1alpha1 (obj : Object) : option error :=
  match obj with
  | AnOVHCluster_v1alpha1 c => validateOVHCluster_v1alpha1 c
  | _ => Some (Errorf "expected OVHCluster, got %T" [AS (type_of obj)])
  end.

Definition cluster_ValidateUpdate_v1alpha1 (oldObj newObj : Object) : option error :=
  match newObj with
  | AnOVHCluster_v1alpha1 c => validateOVHCluster_v1alpha1 c
  | _ => Some (Errorf "expected OVHCluster, got %T" [AS (type_of newObj)])
  end.

Definition cluster_ValidateDelete_v1alpha1 (obj : Object) : option error := None.

Definition machine_ValidateCreate_v1alpha1 (obj : Object) : option error :=
  match obj with
  | AnOVHMachine_v1alpha1 m => validateOVHMachine_v1alpha1 m
  | _ => Some (Errorf "expected OVHMachine, got %T" [AS (type_of obj)])
  end.

Definition machine_ValidateUpdate_v1alpha1 (oldObj newObj : Object) : option error :=
  match newObj with
  | AnOVHMachine_v1alpha1 m => validateOVHMachine_v1alpha1 m
  | _ => Some (Errorf "expected OVHMachine, got %T" [AS (type_of newObj)])
  end.

Definition machine_ValidateDelete_v1alpha1 (obj : Object) : option error := None.

End webhooks.
