(* ===== verification/ApiFacts.v ===== *)
(** * The custom resources: conversion between versions and admission

    What survives a conversion and when it fails, what the webhooks admit, and
    that the webhooks of the two versions agree. *)

From S2P Require Import Prelude GoStrings Errors OvhTypes ApiTypes V1Alpha1 Conversion Webhooks.

Local Open Scope Z_scope.

Section facts.
Context `{U : Unicode}.

(** ** Listeners *)

Definition known_protocol (p : string) : Prop := p = "TCP" \/ p = "UDP" \/ p = "SCTP".

#[global] Instance known_protocol_dec p : Decision (known_protocol p).
Proof. unfold known_protocol. apply _. Defined.

Lemma convertProtocol_spec p :
  match convertProtocolToV1Alpha2 p with
  | Ok q => q = p /\ known_protocol p
  | Err _ => ~ known_protocol p
  end.
Proof.
  unfold convertProtocolToV1Alpha2, known_protocol.
  repeat case_decide; subst; try (split; [done | auto]); intros [?|[?|?]]; done.
Qed.

Lemma convert_listeners_ok ls :
  Forall (fun l => known_protocol (v1alpha1.OVHListener_Protocol l)) ls ->
  exists ds, convert_listeners ls = (ds, None) /\ map convert_listener_from ds = ls
    /\ length ds = length ls.
Proof.
  induction 1 as [|l ls Hl Hls (ds & IH & Hds & Hlen)]; cbn; [by exists []|].
  pose proof (convertProtocol_spec (v1alpha1.OVHListener_Protocol l)) as Hp.
  destruct (convertProtocolToV1Alpha2 _) as [q|e]; [|done]. destruct Hp as [-> _].
  rewrite IH. eexists. split; [reflexivity|]. cbn. rewrite Hds. split; [by destruct l | congruence].
Qed.

Lemma convert_listeners_error ls :
  is_Some (convert_listeners ls).2 <->
  ~ Forall (fun l => known_protocol (v1alpha1.OVHListener_Protocol l)) ls.
Proof.
  split.
  - intros [e He] Hall. apply convert_listeners_ok in Hall as (ds & E & _). by rewrite E in He.
  - induction ls as [|l ls IH]; [by destruct 1|]. intros Hn. cbn.
    pose proof (convertProtocol_spec (v1alpha1.OVHListener_Protocol l)) as Hp.
    destruct (convertProtocolToV1Alpha2 _) as [q|e]; [|by eexists]. destruct Hp as [-> Hl].
    destruct (convert_listeners ls) as [ds e] eqn:E. apply IH. intros Hls. apply Hn. by constructor.
Qed.

Lemma convert_listeners_from ls :
  Forall (fun l => known_protocol (OVHListener_Protocol l)) ls ->
  convert_listeners (map convert_listener_from ls) = (ls, None).
Proof.
  induction 1 as [|l ls Hl Hls IH]; [done|]. cbn.
  pose proof (convertProtocol_spec (OVHListener_Protocol l)) as Hp.
  destruct (convertProtocolToV1Alpha2 _) as [q|e]; [|done]. destruct Hp as [-> _].
  rewrite IH. by destruct l.
Qed.

(** ** Clusters *)

Definition listeners_v1alpha1 (c : v1alpha1.OVHCluster) : list v1alpha1.OVHListener :=
  v1alpha1.LBConfig_Listeners (v1alpha1.CSpec_LoadBalancerConfig (v1alpha1.OVHCluster_Spec c)).

(** The protocols the new version knows. *)
Definition convertible (c : v1alpha1.OVHCluster) : Prop :=
  Forall (fun l => known_protocol (v1alpha1.OVHListener_Protocol l)) (listeners_v1alpha1 c).

Lemma convert_listeners_nonempty ls :
  (if decide (0 < length ls)%nat then convert_listeners ls else ([], None)) = convert_listeners ls.
Proof. by destruct ls. Qed.

Lemma map_fixed {A} (f : A -> A) (xs : list A) : (forall x, f x = x) -> map f xs = xs.
Proof. intros Hf. induction xs as [|x xs IH]; cbn; [done|]. by rewrite Hf, IH. Qed.

Lemma map_nonempty {A B} (f : A -> B) (xs : list A) :
  (if decide (0 < length xs)%nat then map f xs else []) = map f xs.
Proof. by destruct xs. Qed.

(** [ConvertTo] of a cluster with convertible listeners. *)
Lemma cluster_ConvertTo_ok c ls :
  convert_listeners (listeners_v1alpha1 c) = (ls, None) ->
  cluster_ConvertTo c zero =
  (mkOVHCluster (v1alpha1.OVHCluster_ObjectMeta c)
     (cluster_spec_to (v1alpha1.OVHCluster_Spec c) zero ls
        (convert_network_to <$> v1alpha1.CSpec_NetworkConfig (v1alpha1.OVHCluster_Spec c)))
     (cluster_status_to (v1alpha1.OVHCluster_Status c) zero), None).
Proof.
  intros H. unfold cluster_ConvertTo. fold (listeners_v1alpha1 c). cbv zeta.
  change (LBConfig_Listeners (CSpec_LoadBalancerConfig (OVHCluster_Spec zero))) with (@nil OVHListener).
  rewrite convert_listeners_nonempty, H. by destruct (v1alpha1.CSpec_NetworkConfig _).
Qed.

Lemma cluster_ConvertTo_error c :
  is_Some (convert_listeners (listeners_v1alpha1 c)).2 -> is_Some (cluster_ConvertTo c zero).2.
Proof.
  unfold cluster_ConvertTo. fold (listeners_v1alpha1 c). cbv zeta.
  change (LBConfig_Listeners (CSpec_LoadBalancerConfig (OVHCluster_Spec zero))) with (@nil OVHListener).
  rewrite convert_listeners_nonempty. destruct (convert_listeners _) as [ls [e|]]; [by eexists | done].
Qed.

(** A v1alpha1 cluster converts to v1alpha2 exactly when the protocol of
    each of its listeners is TCP, UDP or SCTP, and then nothing of it is lost:
    converting back gives the object itself. *)
Theorem cluster_conversion c :
  let '(c2, err) := cluster_ConvertTo c zero in
  (err = None <-> convertible c)
  /\ (err = None -> cluster_ConvertFrom c2 zero = (c, None)).
Proof.
  destruct (decide (convertible c)) as [Hc|Hc].
  - destruct (convert_listeners_ok _ Hc) as (ls & E & Hls & _).
    rewrite (cluster_ConvertTo_ok c ls E). split; [done|]. intros _.
    unfold cluster_ConvertFrom. cbn -[decide].
    change (@zero (list v1alpha1.OVHListener) _) with (@nil v1alpha1.OVHListener).
    rewrite map_nonempty, Hls. unfold listeners_v1alpha1.
    destruct c as [m s t], s as [? ? [] ? [] nc ?], t. destruct nc as [[]|]; done.
  - apply convert_listeners_error in Hc as He. apply cluster_ConvertTo_error in He as [e He].
    destruct (cluster_ConvertTo c zero) as [c2 err]. cbn in He. subst. done.
Qed.

(** What v1alpha1 can express of a v1alpha2 cluster. *)
Definition common_part (c : OVHCluster) : OVHCluster :=
  let s := OVHCluster_Spec c in
  let lb := CSpec_LoadBalancerConfig s in
  let t := OVHCluster_Status c in
  mkOVHCluster (OVHCluster_ObjectMeta c)
    (mkOVHClusterSpec (CSpec_ServiceName s) (CSpec_Region s) (CSpec_IdentitySecret s)
       (CSpec_ControlPlaneEndpoint s)
       (mkOVHLoadBalancerConfig (LBConfig_SubnetID lb) (LBConfig_FlavorName lb)
          (LBConfig_FloatingNetworkID lb) (LBConfig_Listeners lb) "" "")
       (CSpec_NetworkConfig s) (CSpec_SSHKeyName s) [] [] ∅ None)
    (mkOVHClusterStatus (CStatus_Ready t) (CStatus_FailureReason t) (CStatus_FailureMessage t)
       (CStatus_Conditions t) (CStatus_NetworkID t) (CStatus_SubnetID t)
       (CStatus_LoadBalancerID t) (CStatus_ListenerID t) (CStatus_PoolID t) (CStatus_FloatingIPID t)
       (CStatus_GatewayID t) (CStatus_GatewayExposed t) (CStatus_RegisterListenerID t)
       (CStatus_RegisterPoolID t) ∅ ∅ 0).

(** The other way round is lossy: a v1alpha2 cluster that passes through
    v1alpha1 (and whose listeners the conversion accepts) comes back without its
    failure domains, security groups, tags, DNS configuration, adopted load
    balancer and floating IP, and without what the status records of them. *)
Theorem cluster_conversion_loss c :
  let '(c1, err) := cluster_ConvertFrom c zero in
  err = None
  /\ (convertible c1 -> cluster_ConvertTo c1 zero = (common_part c, None)).
Proof.
  unfold cluster_ConvertFrom. cbn -[decide].
  change (@zero (list v1alpha1.OVHListener) _) with (@nil v1alpha1.OVHListener).
  rewrite map_nonempty. split; [done|]. intros Hc.
  assert (Hls : Forall (fun l => known_protocol (OVHListener_Protocol l))
            (LBConfig_Listeners (CSpec_LoadBalancerConfig (OVHCluster_Spec c)))).
  { unfold convertible, listeners_v1alpha1 in Hc. cbn in Hc. by rewrite Forall_map in Hc. }
  erewrite cluster_ConvertTo_ok by (apply convert_listeners_from, Hls).
  unfold common_part, cluster_spec_to, cluster_status_to. cbn.
  destruct c as [m s t], s as [? ? [] ? lb nc ? ? ? ? ?], t. cbn. destruct nc as [[]|]; done.
Qed.

(** ** Machines *)

(** What v1alpha1 can express of a v1alpha2 machine. *)
Definition common_machine (m : OVHMachine) : OVHMachine :=
  let s := OVHMachine_Spec m in
  mkOVHMachine (OVHMachine_ObjectMeta m)
    (mkOVHMachineSpec (MSpec_ProviderID s) (MSpec_FlavorName s) (MSpec_ImageName s)
       (MSpec_SSHKeyName s) (MSpec_RootDiskSize s) (MSpec_AdditionalVolumes s)
       (MSpec_FailureDomain s) [] ∅ "" "")
    (OVHMachine_Status m).

(** Machines always convert; from v1alpha1 and back nothing is lost, and
    the other way round the security groups, tags, bootstrap format and the
    adopted instance are. *)
Theorem machine_conversion :
  (forall m, let '(m2, err) := machine_ConvertTo m zero in
     err = None /\ machine_ConvertFrom m2 zero = (m, None))
  /\ (forall m, let '(m1, err) := machine_ConvertFrom m zero in
     err = None /\ machine_ConvertTo m1 zero = (common_machine m, None)).
Proof.
  split; intros m; unfold machine_ConvertTo, machine_ConvertFrom; cbn -[decide];
    (split; [done|]); unfold convertMachineSpecTo, convertMachineSpecFrom; cbn -[decide].
  - change (@zero (list v1alpha1.OVHVolume) _) with (@nil v1alpha1.OVHVolume).
    change (@zero (list OVHVolume) _) with (@nil OVHVolume).
    rewrite !map_nonempty, map_map, map_fixed by by intros [].
    destruct m as [m s t], s, t as [? ? ? ? ? [] ? ? ? ?]. done.
  - change (@zero (list v1alpha1.OVHVolume) _) with (@nil v1alpha1.OVHVolume).
    change (@zero (list OVHVolume) _) with (@nil OVHVolume).
    rewrite !map_nonempty, map_map, map_fixed by by intros [].
    destruct m as [m s t], s, t as [? ? ? ? ? [] ? ? ? ?]. done.
Qed.

(** ** Admission *)

(** What a cluster must satisfy to be admitted. *)
Definition valid_cluster (c : OVHCluster) : Prop :=
  let s := OVHCluster_Spec c in
  CSpec_ServiceName s <> ""%string /\ CSpec_Region s <> ""%string
  /\ SecretKey_Name (CSpec_IdentitySecret s) <> ""%string
  /\ SecretKey_Namespace (CSpec_IdentitySecret s) <> ""%string
  /\ (LBConfig_SubnetID (CSpec_LoadBalancerConfig s) <> ""%string \/ CSpec_NetworkConfig s <> None)
  /\ forall nc, CSpec_NetworkConfig s = Some nc ->
       (NetConfig_PrivateNetworkID nc <> ""%string \/ NetConfig_SubnetCIDR nc <> ""%string)
       /\ (NetConfig_Gateway nc = ""%string \/ ParseIP (NetConfig_Gateway nc) = true).

Definition valid_machine (m : OVHMachine) : Prop :=
  let s := OVHMachine_Spec m in
  MSpec_FlavorName s <> ""%string /\ MSpec_ImageName s <> ""%string /\ 0 <= MSpec_RootDiskSize s
  /\ Forall (fun v => OVHVolume_Name v <> ""%string /\ 1 <= OVHVolume_SizeGB v)
       (MSpec_AdditionalVolumes s).

Lemma check_nil b msg : check b msg = [] <-> b = false.
Proof. by destruct b. Qed.

Lemma check_nil_decide (P : Prop) `{!Decision P} msg : check (bool_decide P) msg = [] <-> ~ P.
Proof. rewrite check_nil. apply bool_decide_eq_false. Qed.

Lemma app_nil_iff {A} (l k : list A) : l ++ k = [] <-> l = [] /\ k = [].
Proof. split; [apply app_nil | by intros [-> ->]]. Qed.

Lemma validation_None kind m errs : validation_result kind m errs = None <-> errs = [].
Proof. unfold validation_result. by destruct errs. Qed.

Lemma cluster_errs_nil c : cluster_errs c = [] <-> valid_cluster c.
Proof.
  unfold cluster_errs, valid_cluster. cbv zeta. rewrite !app_nil_iff, !check_nil_decide.
  destruct (CSpec_NetworkConfig (OVHCluster_Spec c)) as [nc|].
  - rewrite app_nil_iff, check_nil_decide.
    assert (Hgw : (if decide (NetConfig_Gateway nc <> "")
        then check (negb (ParseIP (NetConfig_Gateway nc))) (gateway_message (NetConfig_Gateway nc))
        else []) = []
        <-> NetConfig_Gateway nc = ""%string \/ ParseIP (NetConfig_Gateway nc) = true).
    { destruct (decide (NetConfig_Gateway nc = ""%string)) as [Hg|Hg].
      - rewrite decide_False by tauto. tauto.
      - rewrite decide_True, check_nil, negb_false_iff by done. tauto. }
    rewrite Hgw. split.
    + intros (?&?&?&?&?&Hn&?). split_and!; try done; [by right|].
      intros nc' [= <-]. split; [|done].
      destruct (decide (NetConfig_PrivateNetworkID nc = ""%string)); [right; tauto | by left].
    + intros (?&?&?&?&_&H). destruct (H nc eq_refl). split_and!; try done; first [tauto | by intros [_ ?]].
  - split.
    + intros (?&?&?&?&Hn&_). split_and!; try done. left. tauto.
    + intros (?&?&?&?&[H|H]&_); [|done]. split_and!; try done. tauto.
Qed.

(** The validation of a cluster passes exactly when it names its service, region and
    secret, has a subnet for the load balancer or a network configuration, and the
    latter names a network or a subnet and its gateway is an IP address. *)
Lemma validateOVHCluster_spec c :
  validateOVHCluster c = None <-> valid_cluster c.
Proof. unfold validateOVHCluster. by rewrite validation_None, cluster_errs_nil. Qed.

Lemma volume_errs_nil i v :
  volume_errs i v = [] <-> OVHVolume_Name v <> ""%string /\ 1 <= OVHVolume_SizeGB v.
Proof. unfold volume_errs. rewrite app_nil_iff, check_nil_decide, check_nil. by rewrite Z.ltb_ge. Qed.

Lemma concat_imap_nil {A B} (f : nat -> A -> list B) (P : A -> Prop) xs :
  (forall i x, f i x = [] <-> P x) -> concat (imap f xs) = [] <-> Forall P xs.
Proof.
  revert f. induction xs as [|x xs IH]; intros f Hf; [by split|].
  rewrite imap_cons. cbn [concat]. rewrite app_nil_iff, Hf, Forall_cons, IH; [done|].
  intros i y. apply Hf.
Qed.

(** A machine is admitted exactly when it names its flavor and image, its
    root disk size is not negative, and each additional volume has a name and
    at least one gigabyte. *)
Lemma validateOVHMachine_spec m :
  validateOVHMachine m = None <-> valid_machine m.
Proof.
  unfold validateOVHMachine, machine_errs, valid_machine. cbv zeta.
  rewrite validation_None, !app_nil_iff, !check_nil_decide, check_nil, Z.ltb_ge.
  rewrite (concat_imap_nil _ (fun v => OVHVolume_Name v <> ""%string /\ 1 <= OVHVolume_SizeGB v));
    [tauto | apply volume_errs_nil].
Qed.

(** C40: what is admitted. The creation of an object through the webhook for clusters
    passes exactly when the object is a cluster and a valid one; so does an update,
    whatever was there before, with the same message when it does not; and every
    deletion passes. The webhook for machines does the same for machines. So no
    object of another type, and no nil, gets through either. *)
Theorem admission_spec obj old :
  (cluster_ValidateCreate obj = None <-> exists c, obj = AnOVHCluster c /\ valid_cluster c)
  /\ cluster_ValidateUpdate old obj = cluster_ValidateCreate obj
  /\ cluster_ValidateDelete obj = None
  /\ (machine_ValidateCreate obj = None <-> exists m, obj = AnOVHMachine m /\ valid_machine m)
  /\ machine_ValidateUpdate old obj = machine_ValidateCreate obj
  /\ machine_ValidateDelete obj = None.
Proof.
  split_and!; try done.
  - destruct obj; cbn; try (by split; [|intros (? & ? & _)]).
    rewrite validateOVHCluster_spec. split; [eauto | by intros (? & [= <-] & ?)].
  - destruct obj; cbn; try (by split; [|intros (? & ? & _)]).
    rewrite validateOVHMachine_spec. split; [eauto | by intros (? & [= <-] & ?)].
Qed.

(** The webhooks of the two versions agree: on a cluster that converts, and
    on every machine, they give the same verdict, message included. *)
Theorem webhooks_agree :
  (forall c, (cluster_ConvertTo c zero).2 = None ->
     validateOVHCluster (cluster_ConvertTo c zero).1 = validateOVHCluster_v1alpha1 c)
  /\ (forall m, validateOVHMachine (machine_ConvertTo m zero).1 = validateOVHMachine_v1alpha1 m).
Proof.
  split.
  - intros c Hc. destruct (convert_listeners (listeners_v1alpha1 c)) as [ls [e|]] eqn:E.
    { destruct (cluster_ConvertTo_error c) as [e' He]; [rewrite E; by eexists | congruence]. }
    rewrite (cluster_ConvertTo_ok c ls E). unfold validateOVHCluster, validateOVHCluster_v1alpha1.
    cbn [fst OVHCluster_ObjectMeta]. f_equal. unfold cluster_errs, cluster_errs_v1alpha1.
    destruct c as [m s t], s as [? ? ? ? ? nc ?]. cbn -[decide check].
    destruct nc as [nc|]; cbn -[decide check];
      repeat match goal with |- _ ++ _ = _ ++ _ => f_equal end; try done;
      f_equal; apply bool_decide_ext; split; by intros [? ?].
  - intros m. unfold validateOVHMachine, validateOVHMachine_v1alpha1, machine_ConvertTo.
    cbn [fst OVHMachine_ObjectMeta]. f_equal. unfold machine_errs, machine_errs_v1alpha1.
    cbn -[decide check volume_errs volume_errs_v1alpha1].
    change (@zero (list OVHVolume) _) with (@nil OVHVolume).
    rewrite map_nonempty, imap_fmap. done.
Qed.

End facts.
