(* ===== verification/ConversionFacts.v ===== *)
(** * The conversions of all kinds, as one interface

    Clusters, machines, their lists and their templates convert by the same
    contract: [ConvertTo] the hub accepts what fits and then loses nothing,
    [ConvertFrom] the hub never fails and keeps the part both versions have.
    [Conversion] is that contract; lists inherit it from their items. *)

From S2P Require Import Prelude GoStrings Errors OvhTypes ApiTypes V1Alpha1 Conversion.
From S2P Require Import ApiFacts.

Local Open Scope Z_scope.

(** The contract of a pair of conversions between a type [A] of v1alpha1 and its
    hub [B]: [fits] is what converts, [common] what v1alpha1 keeps of a [B]. *)
Record lossless {A B} `{Zero A, Zero B} (to : A -> B -> converted B)
    (from : B -> A -> converted A) (fits : A -> Prop) (common : B -> B) : Prop := {
  to_fits a : (to a zero).2 = None <-> fits a;
  to_back a : fits a -> from (to a zero).1 zero = (a, None);
  from_ok b : (from b zero).2 = None;
  from_back b : fits (from b zero).1 -> to (from b zero).1 zero = (common b, None);
}.

(** The method refuses a hub of another type, and leaves it and its own object as
    they are. *)
Definition refuses_others `{Unicode} {A B} (T : string) (as_hub : B -> hub)
    (to : A -> hub -> converted hub) (from : A -> hub -> converted A) : Prop :=
  forall a h, (forall b, h <> as_hub b) ->
    to a h = (h, Some (unexpected T h)) /\ from a h = (a, Some (unexpected T h)).

(** ** Items *)

Section items.
Context {A B} `{Zero A, Zero B}.
Context (to : A -> B -> converted B) (from : B -> A -> converted A).
Context (fits : A -> Prop) (common : B -> B) (L : lossless to from fits common).

(** The loop stops at the first item that does not fit. *)
Lemma convert_items_fits xs : (convert_items to xs).2 = None <-> Forall fits xs.
Proof.
  induction xs as [|x xs IH]; cbn; [done|]. rewrite Forall_cons, <- (to_fits _ _ _ _ L x), <- IH.
  destruct (to x zero) as [y [e|]]; cbn; [by split; [|intros []]|].
  destruct (convert_items to xs) as [ys e]. cbn. tauto.
Qed.

Lemma convert_items_back xs : Forall fits xs ->
  convert_items from (convert_items to xs).1 = (xs, None).
Proof.
  induction 1 as [|x xs Hx Hxs IH]; cbn; [done|].
  pose proof (proj2 (to_fits _ _ _ _ L x) Hx) as E. pose proof (to_back _ _ _ _ L x Hx) as Hb.
  destruct (to x zero) as [y e]. cbn in E. subst e. cbn in Hb.
  destruct (convert_items to xs) as [ys e]. cbn in *. by rewrite Hb, IH.
Qed.

Lemma convert_items_from ys : (convert_items from ys).2 = None.
Proof.
  induction ys as [|y ys IH]; cbn; [done|]. pose proof (from_ok _ _ _ _ L y) as E.
  destruct (from y zero) as [x e]. cbn in E. subst e.
  by destruct (convert_items from ys) as [xs e].
Qed.

Lemma convert_items_from_back ys : Forall fits (convert_items from ys).1 ->
  convert_items to (convert_items from ys).1 = (map common ys, None).
Proof.
  induction ys as [|y ys IH]; cbn; [done|].
  pose proof (from_ok _ _ _ _ L y) as E. pose proof (from_back _ _ _ _ L y) as Hb.
  destruct (from y zero) as [x e]. cbn in E. subst e. cbn in Hb.
  destruct (convert_items from ys) as [xs e]. cbn in *.
  intros [Hx Hxs]%Forall_cons. by rewrite (Hb Hx), (IH Hxs).
Qed.
End items.

(** ** The kinds *)

Section kinds.
Context `{U : Unicode}.

Lemma cluster_lossless : lossless cluster_ConvertTo cluster_ConvertFrom convertible common_part.
Proof.
  split.
  - intros c. pose proof (cluster_conversion c) as Hc.
    destruct (cluster_ConvertTo c zero) as [c2 e]. apply Hc.
  - intros c Hf. pose proof (cluster_conversion c) as Hc.
    destruct (cluster_ConvertTo c zero) as [c2 e]. apply Hc, Hc, Hf.
  - done.
  - intros c Hf. pose proof (cluster_conversion_loss c) as Hc.
    destruct (cluster_ConvertFrom c zero) as [c1 e]. by apply Hc.
Qed.

Lemma machine_lossless :
  lossless machine_ConvertTo machine_ConvertFrom (fun _ => True) common_machine.
Proof.
  destruct machine_conversion as [Hto Hfrom].
  split; [done|intros m _|done|intros m _].
  - specialize (Hto m). by destruct (machine_ConvertTo m zero) as [? ?], Hto as [_ ?].
  - specialize (Hfrom m). by destruct (machine_ConvertFrom m zero) as [? ?], Hfrom as [_ ?].
Qed.

(** A template converts as an object of its specification does. *)
Definition template_cluster (t : v1alpha1.OVHClusterTemplate) : v1alpha1.OVHCluster :=
  v1alpha1.mkOVHCluster zero
    (v1alpha1.OVHClusterTemplateResource_Spec
       (v1alpha1.OVHClusterTemplateSpec_Template (v1alpha1.OVHClusterTemplate_Spec t))) zero.

Definition common_cluster_template (t : OVHClusterTemplate) : OVHClusterTemplate :=
  let r := OVHClusterTemplateSpec_Template (OVHClusterTemplate_Spec t) in
  mkOVHClusterTemplate (OVHClusterTemplate_ObjectMeta t)
    (mkOVHClusterTemplateSpec
       (mkOVHClusterTemplateResource (OVHClusterTemplateResource_ObjectMeta r)
          (OVHCluster_Spec (common_part (mkOVHCluster zero (OVHClusterTemplateResource_Spec r) zero))))).

Definition common_machine_template (t : OVHMachineTemplate) : OVHMachineTemplate :=
  let r := OVHMachineTemplateSpec_Template (OVHMachineTemplate_Spec t) in
  mkOVHMachineTemplate (OVHMachineTemplate_ObjectMeta t)
    (mkOVHMachineTemplateSpec
       (mkOVHMachineTemplateResource (OVHMachineTemplateResource_ObjectMeta r)
          (OVHMachine_Spec (common_machine (mkOVHMachine zero (OVHMachineTemplateResource_Spec r) zero))))).

Lemma cluster_template_lossless :
  lossless cluster_template_ConvertTo cluster_template_ConvertFrom
    (fun t => convertible (template_cluster t)) common_cluster_template.
Proof.
  split.
  - intros t. rewrite <- (to_fits _ _ _ _ cluster_lossless).
    unfold cluster_template_ConvertTo. fold (template_cluster t).
    by destruct (cluster_ConvertTo (template_cluster t) zero) as [c [e|]].
  - intros t Hf. pose proof (proj2 (to_fits _ _ _ _ cluster_lossless _) Hf) as E.
    pose proof (to_back _ _ _ _ cluster_lossless _ Hf) as Hb.
    unfold cluster_template_ConvertTo, cluster_template_ConvertFrom. fold (template_cluster t).
    destruct (cluster_ConvertTo (template_cluster t) zero) as [c e]. cbn in E, Hb. subst e.
    cbn [fst OVHClusterTemplate_Spec OVHClusterTemplateSpec_Template OVHClusterTemplateResource_Spec].
    assert (Hs : v1alpha1.OVHCluster_Spec
      (cluster_ConvertFrom (mkOVHCluster zero (OVHCluster_Spec c) zero) zero).1 =
      v1alpha1.OVHCluster_Spec (cluster_ConvertFrom c zero).1) by done.
    rewrite Hb in Hs. pose proof (from_ok _ _ _ _ cluster_lossless
      (mkOVHCluster zero (OVHCluster_Spec c) zero)) as Hok.
    destruct (cluster_ConvertFrom (mkOVHCluster zero (OVHCluster_Spec c) zero) zero) as [d e].
    cbn in Hok, Hs. subst e. rewrite Hs. by destruct t as [? [[]]].
  - done.
  - intros t Hf. unfold cluster_template_ConvertTo. fold (template_cluster (cluster_template_ConvertFrom t zero).1).
    assert (E : template_cluster (cluster_template_ConvertFrom t zero).1 =
      (cluster_ConvertFrom (mkOVHCluster zero (OVHClusterTemplateResource_Spec
        (OVHClusterTemplateSpec_Template (OVHClusterTemplate_Spec t))) zero) zero).1) by done.
    rewrite E in Hf |- *. by rewrite (from_back _ _ _ _ cluster_lossless _ Hf).
Qed.

Lemma machine_template_lossless :
  lossless machine_template_ConvertTo machine_template_ConvertFrom (fun _ => True)
    common_machine_template.
Proof.
  split; [done|intros t _|done|intros t _].
  - pose proof (to_back _ _ _ _ machine_lossless (v1alpha1.mkOVHMachine zero
      (v1alpha1.OVHMachineTemplateResource_Spec (v1alpha1.OVHMachineTemplateSpec_Template
        (v1alpha1.OVHMachineTemplate_Spec t))) zero) I) as H.
    apply (f_equal (fun r => v1alpha1.OVHMachine_Spec r.1)) in H.
    unfold machine_template_ConvertTo, machine_template_ConvertFrom.
    cbn -[convertMachineSpecTo convertMachineSpecFrom] in H |- *. rewrite H. by destruct t as [? [[]]].
  - pose proof (from_back _ _ _ _ machine_lossless (mkOVHMachine zero
      (OVHMachineTemplateResource_Spec (OVHMachineTemplateSpec_Template
        (OVHMachineTemplate_Spec t))) zero) I) as H.
    apply (f_equal (fun r => OVHMachine_Spec r.1)) in H.
    unfold machine_template_ConvertTo, machine_template_ConvertFrom.
    cbn -[convertMachineSpecTo convertMachineSpecFrom] in H |- *. by rewrite H.
Qed.
End kinds.

(** ** Lists *)

Section lists.
Context {A B LA LB : Type} `{Zero A, Zero B, Zero LA, Zero LB}.
Context (to : A -> B -> converted B) (from : B -> A -> converted A).
Context (fits : A -> Prop) (common : B -> B) (L : lossless to from fits common).
Context (mkA : ListMeta -> list A -> LA) (metaA : LA -> ListMeta) (itemsA : LA -> list A).
Context (mkB : ListMeta -> list B -> LB) (metaB : LB -> ListMeta) (itemsB : LB -> list B).
Context (etaA : forall l, mkA (metaA l) (itemsA l) = l).
Context (betaA : forall m xs, metaA (mkA m xs) = m /\ itemsA (mkA m xs) = xs).
Context (betaB : forall m xs, metaB (mkB m xs) = m /\ itemsB (mkB m xs) = xs).

(** A list keeps its metadata, and converts item by item. *)
Lemma list_lossless :
  lossless
    (fun (src : LA) (_ : LB) => let '(xs, err) := convert_items to (itemsA src) in (mkB (metaA src) xs, err))
    (fun (src : LB) (_ : LA) => let '(xs, err) := convert_items from (itemsB src) in (mkA (metaB src) xs, err))
    (fun l => Forall fits (itemsA l))
    (fun l => mkB (metaB l) (map common (itemsB l))).
Proof.
  split.
  - intros l. rewrite <- (convert_items_fits to from fits common L).
    by destruct (convert_items to (itemsA l)) as [xs e].
  - intros l Hf. pose proof (convert_items_back to from fits common L _ Hf) as Hb.
    destruct (convert_items to (itemsA l)) as [xs e]. cbn in *.
    destruct (betaB (metaA l) xs) as [-> ->]. by rewrite Hb, etaA.
  - intros l. pose proof (convert_items_from to from fits common L (itemsB l)) as Hb.
    by destruct (convert_items from (itemsB l)) as [xs e].
  - intros l. pose proof (convert_items_from_back to from fits common L (itemsB l)) as Hb.
    destruct (convert_items from (itemsB l)) as [xs e]. cbn in *.
    destruct (betaA (metaB l) xs) as [-> ->]. intros Hf. by rewrite (Hb Hf).
Qed.
End lists.

Section all.
Context `{U : Unicode}.

(** Every method checks the type of its argument. *)
Lemma methods_refuse_others :
  refuses_others "OVHCluster" HubOVHCluster OVHCluster_ConvertTo OVHCluster_ConvertFrom /\
  refuses_others "OVHClusterList" HubOVHClusterList OVHClusterList_ConvertTo OVHClusterList_ConvertFrom /\
  refuses_others "OVHMachine" HubOVHMachine OVHMachine_ConvertTo OVHMachine_ConvertFrom /\
  refuses_others "OVHMachineList" HubOVHMachineList OVHMachineList_ConvertTo OVHMachineList_ConvertFrom /\
  refuses_others "OVHClusterTemplate" HubOVHClusterTemplate OVHClusterTemplate_ConvertTo OVHClusterTemplate_ConvertFrom /\
  refuses_others "OVHClusterTemplateList" HubOVHClusterTemplateList OVHClusterTemplateList_ConvertTo OVHClusterTemplateList_ConvertFrom /\
  refuses_others "OVHMachineTemplate" HubOVHMachineTemplate OVHMachineTemplate_ConvertTo OVHMachineTemplate_ConvertFrom /\
  refuses_others "OVHMachineTemplateList" HubOVHMachineTemplateList OVHMachineTemplateList_ConvertTo OVHMachineTemplateList_ConvertFrom.
Proof.
  split_and!; intros a h Hh; destruct h; try done; by destruct (Hh x).
Qed.

(** C38: all eight kinds convert by the same contract. A v1alpha1 object converts
    exactly when the protocols of its listeners are TCP, UDP or SCTP (a machine
    always does), a list when all its items do, and converting back gives the object
    itself. The other way round never fails, and an object that passes through
    v1alpha1 comes back as its common part: without failure domains, security groups,
    tags, DNS, adopted resources and bootstrap format. *)
Theorem conversions_lossless :
  lossless cluster_ConvertTo cluster_ConvertFrom convertible common_part /\
  lossless machine_ConvertTo machine_ConvertFrom (fun _ => True) common_machine /\
  lossless cluster_template_ConvertTo cluster_template_ConvertFrom
    (fun t => convertible (template_cluster t)) common_cluster_template /\
  lossless machine_template_ConvertTo machine_template_ConvertFrom (fun _ => True)
    common_machine_template /\
  lossless cluster_list_ConvertTo cluster_list_ConvertFrom
    (fun l => Forall convertible (v1alpha1.OVHClusterList_Items l))
    (fun l => mkOVHClusterList (OVHClusterList_ListMeta l) (map common_part (OVHClusterList_Items l))) /\
  lossless machine_list_ConvertTo machine_list_ConvertFrom
    (fun l => Forall (fun _ => True) (v1alpha1.OVHMachineList_Items l))
    (fun l => mkOVHMachineList (OVHMachineList_ListMeta l) (map common_machine (OVHMachineList_Items l))) /\
  lossless cluster_template_list_ConvertTo cluster_template_list_ConvertFrom
    (fun l => Forall (fun t => convertible (template_cluster t)) (v1alpha1.OVHClusterTemplateList_Items l))
    (fun l => mkOVHClusterTemplateList (OVHClusterTemplateList_ListMeta l)
       (map common_cluster_template (OVHClusterTemplateList_Items l))) /\
  lossless machine_template_list_ConvertTo machine_template_list_ConvertFrom
    (fun l => Forall (fun _ => True) (v1alpha1.OVHMachineTemplateList_Items l))
    (fun l => mkOVHMachineTemplateList (OVHMachineTemplateList_ListMeta l)
       (map common_machine_template (OVHMachineTemplateList_Items l))).
Proof.
  split; [apply cluster_lossless|]. split; [apply machine_lossless|].
  split; [apply cluster_template_lossless|]. split; [apply machine_template_lossless|].
  split_and!.
  - by apply (list_lossless _ _ _ _ cluster_lossless v1alpha1.mkOVHClusterList); [intros []|..].
  - by apply (list_lossless _ _ _ _ machine_lossless v1alpha1.mkOVHMachineList); [intros []|..].
  - by apply (list_lossless _ _ _ _ cluster_template_lossless v1alpha1.mkOVHClusterTemplateList); [intros []|..].
  - by apply (list_lossless _ _ _ _ machine_template_lossless v1alpha1.mkOVHMachineTemplateList); [intros []|..].
Qed.
End all.
