(* ===== verification/Startup.v ===== *)
(** * Start of the process: cmd/main.go, the registrations, the scheme

    [main] asks controller-runtime for a manager, registers the two controllers,
    the webhooks and the two checks with it, and starts it. The schemes of the two
    API packages and the [SetupWithManager] methods are here too. Every call of
    controller-runtime that returns an error is answered by [svc] as it likes, with
    a view of the calls before it: [None] is Go's nil error. The flags are given as [flag.Parse] leaves
    them. *)

From S2P Require Import Prelude GoStrings Errors.

Local Open Scope Z_scope.

(** ** The scheme: groupversion_info.go and the [init] functions *)

Record GroupVersion := mkGroupVersion { GV_Group : string; GV_Version : string }.

Definition GroupVersion_v1alpha1 : GroupVersion :=
  mkGroupVersion "infrastructure.cluster.x-k8s.io" "v1alpha1".

Definition GroupVersion_v1alpha2 : GroupVersion :=
  mkGroupVersion "infrastructure.cluster.x-k8s.io" "v1alpha2".

(** Other groups the code names: the Cluster API, and the core API. *)
Definition clusterv1 : GroupVersion := mkGroupVersion "cluster.x-k8s.io" "v1beta1".
Definition corev1 : GroupVersion := mkGroupVersion "" "v1".

Record GroupVersionKind := WithKind { GVK_GV : GroupVersion; GVK_Kind : string }.

#[export] Instance GroupVersion_eq_dec : EqDecision GroupVersion.
Proof. solve_decision. Defined.
#[export] Instance GroupVersionKind_eq_dec : EqDecision GroupVersionKind.
Proof. solve_decision. Defined.

(** What the [init] functions of a package pass to [SchemeBuilder.Register]; Go
    runs them in the order of the file names. *)
Definition init_v1alpha1 : list (list string) :=
  [["OVHCluster"; "OVHClusterList"];
   ["OVHClusterTemplate"; "OVHClusterTemplateList"];
   ["OVHMachine"; "OVHMachineList"];
   ["OVHMachineTemplate"; "OVHMachineTemplateList"]].

Definition init_v1alpha2 : list (list string) :=
  [["OVHCluster"; "OVHClusterList"];
   ["OVHClusterTemplate"; "OVHClusterTemplateList"];
   ["OVHMachine"; "OVHMachineList"];
   ["OVHMachinePool"; "OVHMachinePoolList"];
   ["OVHMachineTemplate"; "OVHMachineTemplateList"]].

(** [SchemeBuilder], then [AddToScheme]: a scheme is the list of its types. *)
Definition SchemeBuilder_v1alpha1 : list GroupVersionKind :=
  WithKind GroupVersion_v1alpha1 <$> concat init_v1alpha1.

Definition SchemeBuilder_v1alpha2 : list GroupVersionKind :=
  WithKind GroupVersion_v1alpha2 <$> concat init_v1alpha2.

(** The types with a [Hub] method (conversion.go of v1alpha2). *)
Definition Hub : list string :=
  ["OVHCluster"; "OVHClusterList"; "OVHMachine"; "OVHMachineList";
   "OVHClusterTemplate"; "OVHClusterTemplateList";
   "OVHMachineTemplate"; "OVHMachineTemplateList"].

(** The [init] of package main; [client_go] and [capi] are the types that client-go
    and the Cluster API register. *)
Definition main_init (client_go capi : list GroupVersionKind) : list GroupVersionKind :=
  client_go ++ SchemeBuilder_v1alpha1 ++ SchemeBuilder_v1alpha2 ++ capi.

(** ** The calls of controller-runtime *)

(** The functions that map the event of a watch to requests. *)
Inductive mapper :=
| secretToOVHCluster
| clusterToOVHCluster
| MachineToInfrastructureMapFunc (gvk : GroupVersionKind)
| ClusterToTypedObjects (list_type : GroupVersionKind).

Inductive predicate := ResourceNotPaused | ClusterUnpaused.

Record Watch := mkWatch {
  Watch_Object : GroupVersionKind;
  Watch_Handler : mapper;
  Watch_Predicates : list predicate;
}.

(** The [ctrl.Options] that are set; the port of the webhook server, if there is one. *)
Record Options := mkOptions {
  Options_Scheme : list GroupVersionKind;
  Metrics_BindAddress : string;
  HealthProbeBindAddress : string;
  LeaderElection : bool;
  LeaderElectionID : string;
  WebhookServer : option Z;
}.

Inductive act :=
| GetConfig
| NewManager (o : Options)
| IndexField (obj : GroupVersionKind) (field : string)
| NewClusterMapper (list_type : GroupVersionKind)
| CompleteController (obj : GroupVersionKind) (ws : list Watch)
| CompleteWebhook (obj : GroupVersionKind)
| AddHealthzCheck (name : string)
| AddReadyzCheck (name : string)
| Start.

#[export] Instance mapper_eq_dec : EqDecision mapper.
Proof. solve_decision. Defined.
#[export] Instance predicate_eq_dec : EqDecision predicate.
Proof. solve_decision. Defined.
#[export] Instance Watch_eq_dec : EqDecision Watch.
Proof. solve_decision. Defined.
#[export] Instance Options_eq_dec : EqDecision Options.
Proof. solve_decision. Defined.
#[export] Instance act_eq_dec : EqDecision act.
Proof. solve_decision. Defined.

(** What an operator sees of the process: the calls, and the log. *)
Inductive entry :=
| Called (a : act)
| LogError (err : error) (msg : string) (keysAndValues : list (string * string))
| LogInfo (msg : string).

Record Flags := mkFlags {
  metricsAddr : string;
  probeAddr : string;
  enableWebhooks : bool;
  enableLeaderElection : bool;
}.

(** The defaults of the flags, as [main] declares them. *)
Definition default_flags : Flags := mkFlags ":8080" ":9440" false false.

(** ** The monad of [main]: the log so far, and what is left of the call *)

Definition setup (A : Type) : Type := list entry -> A * list entry.

#[export] Instance setup_ret : MRet setup := fun A a w => (a, w).
#[export] Instance setup_bind : MBind setup :=
  fun A B f m w => let '(a, w') := m w in f a w'.

Definition called (e : entry) : option act :=
  match e with Called a => Some a | _ => None end.

Definition calls (w : list entry) : list act := omap called w.

Section startup.
Variable svc : list act -> act -> option error.

Definition ask (a : act) : setup (option error) :=
  fun w => (svc (calls w) a, w ++ [Called a]).

Definition log (e : entry) : setup unit := fun w => (tt, w ++ [e]).

(** [if err != nil { setupLog.Error(err, msg, kvs...); os.Exit(1) }]: the exit code,
    and the rest of [main] when there is no error. *)
Definition or_exit (msg : string) (kvs : list (string * string)) (m : setup (option error)) (rest : setup Z) : setup Z :=
  err ← m;
  match err with
  | Some e => _ ← log (LogError e msg kvs); mret 1
  | None => rest
  end.

Definition cluster_SetupWithManager : setup (option error) :=
  err ← ask (IndexField (WithKind GroupVersion_v1alpha2 "OVHCluster")
               ".spec.identitySecret.name");
  match err with
  | Some e => mret (Some e)
  | None =>
    ask (CompleteController (WithKind GroupVersion_v1alpha2 "OVHCluster")
      [mkWatch (WithKind corev1 "Secret") secretToOVHCluster [];
       mkWatch (WithKind clusterv1 "Cluster") clusterToOVHCluster []])
  end.

Definition machine_SetupWithManager : setup (option error) :=
  let clusterToOVHMachine := WithKind GroupVersion_v1alpha2 "OVHMachineList" in
  err ← ask (NewClusterMapper clusterToOVHMachine);
  match err with
  | Some e => mret (Some e)
  | None =>
    ask (CompleteController (WithKind GroupVersion_v1alpha2 "OVHMachine")
      [mkWatch (WithKind clusterv1 "Machine")
         (MachineToInfrastructureMapFunc (WithKind GroupVersion_v1alpha2 "OVHMachine"))
         [ResourceNotPaused];
       mkWatch (WithKind clusterv1 "Cluster")
         (ClusterToTypedObjects clusterToOVHMachine) [ClusterUnpaused]])
  end.

Definition SetupOVHMachineWebhook_v1alpha1 : setup (option error) :=
  ask (CompleteWebhook (WithKind GroupVersion_v1alpha1 "OVHMachine")).

Definition SetupOVHClusterWebhook_v1alpha1 : setup (option error) :=
  ask (CompleteWebhook (WithKind GroupVersion_v1alpha1 "OVHCluster")).

Definition SetupOVHMachineWebhook_v1alpha2 : setup (option error) :=
  ask (CompleteWebhook (WithKind GroupVersion_v1alpha2 "OVHMachine")).

Definition SetupOVHClusterWebhook_v1alpha2 : setup (option error) :=
  ask (CompleteWebhook (WithKind GroupVersion_v1alpha2 "OVHCluster")).

Definition mgrOpts (scheme : list GroupVersionKind) (f : Flags) : Options :=
  mkOptions scheme (metricsAddr f) (probeAddr f) (enableLeaderElection f)
    "capiovh.cluster.x-k8s.io" (if enableWebhooks f then Some 9443 else None).

(** The block [if enableWebhooks]. *)
Definition setup_webhooks (f : Flags) (rest : setup Z) : setup Z :=
  if enableWebhooks f then
    or_exit "unable to create webhook" [("webhook", "OVHMachine v1alpha1")]
      SetupOVHMachineWebhook_v1alpha1 $
    or_exit "unable to create webhook" [("webhook", "OVHCluster v1alpha1")]
      SetupOVHClusterWebhook_v1alpha1 $
    or_exit "unable to create webhook" [("webhook", "OVHMachine v1alpha2")]
      SetupOVHMachineWebhook_v1alpha2 $
    or_exit "unable to create webhook" [("webhook", "OVHCluster v1alpha2")]
      SetupOVHClusterWebhook_v1alpha2 $
    (_ ← log (LogInfo "webhooks enabled"); rest)
  else rest.

(** The exit code. [ctrl.GetConfigOrDie] exits itself. *)
Definition main (scheme : list GroupVersionKind) (f : Flags) : setup Z :=
  err ← ask GetConfig;
  match err with
  | Some _ => mret 1
  | None =>
    or_exit "unable to start manager" [] (ask (NewManager (mgrOpts scheme f))) $
    or_exit "unable to create controller" [("controller", "OVHMachine")]
      machine_SetupWithManager $
    or_exit "unable to create controller" [("controller", "OVHCluster")]
      cluster_SetupWithManager $
    setup_webhooks f $
    or_exit "unable to set up health check" [] (ask (AddHealthzCheck "healthz")) $
    or_exit "unable to set up ready check" [] (ask (AddReadyzCheck "readyz")) $
    (_ ← log (LogInfo "starting manager");
     or_exit "problem running manager" [] (ask Start) (mret 0))
  end.
End startup.

(** ** The reference: a plan of calls *)

(** What [main] has to ask for, in this order. *)
Definition plan (scheme : list GroupVersionKind) (f : Flags) : list act :=
  let v1 := WithKind GroupVersion_v1alpha1 in
  let v2 := WithKind GroupVersion_v1alpha2 in
  [GetConfig; NewManager (mgrOpts scheme f);
   NewClusterMapper (v2 "OVHMachineList");
   CompleteController (v2 "OVHMachine")
     [mkWatch (WithKind clusterv1 "Machine")
        (MachineToInfrastructureMapFunc (v2 "OVHMachine")) [ResourceNotPaused];
      mkWatch (WithKind clusterv1 "Cluster")
        (ClusterToTypedObjects (v2 "OVHMachineList")) [ClusterUnpaused]];
   IndexField (v2 "OVHCluster") ".spec.identitySecret.name";
   CompleteController (v2 "OVHCluster")
     [mkWatch (WithKind corev1 "Secret") secretToOVHCluster [];
      mkWatch (WithKind clusterv1 "Cluster") clusterToOVHCluster []]] ++
  (if enableWebhooks f then
     CompleteWebhook <$> [v1 "OVHMachine"; v1 "OVHCluster"; v2 "OVHMachine"; v2 "OVHCluster"]
   else []) ++
  [AddHealthzCheck "healthz"; AddReadyzCheck "readyz"; Start].

Section plan.
Variable svc : list act -> act -> option error.

(** Every call of [l] succeeds, made in this order. *)
Definition succeed (past l : list act) : Prop :=
  forall pre a post, l = pre ++ a :: post -> svc (past ++ pre) a = None.

(** From the log [w], [m] makes the calls of [l] up to the first that fails, exits
    with 1 when one does (the last entry then reports the error, but for that of
    [GetConfig]), and with 0 otherwise. *)
Definition follows (m : setup Z) (l : list act) : Prop :=
  forall w, let '(code, w') := m w in
    (code = 0 /\ calls w' = calls w ++ l /\ succeed (calls w) l) \/
    exists pre a post e, l = pre ++ a :: post /\
      calls w' = calls w ++ pre ++ [a] /\ succeed (calls w) pre /\
      svc (calls w ++ pre) a = Some e /\ code = 1 /\
      (a <> GetConfig -> exists msg kvs, last w' = Some (LogError e msg kvs)).

#[local] Arguments calls : simpl never.

Lemma calls_called w a : calls (w ++ [Called a]) = calls w ++ [a].
Proof. exact (omap_app called w [Called a]). Qed.

Lemma calls_other w e : called e = None -> calls (w ++ [e]) = calls w.
Proof. intros He. unfold calls. rewrite omap_app. cbn. by rewrite He, app_nil_r. Qed.

Lemma succeed_cons past a l :
  svc past a = None -> succeed (past ++ [a]) l -> succeed past (a :: l).
Proof.
  intros Ha Hl [|b pre] c post [= <- ->]; [by rewrite app_nil_r|].
  specialize (Hl pre c post eq_refl). by rewrite <- app_assoc in Hl.
Qed.

Lemma follows_done : follows (mret 0) [].
Proof. intros w. left. split; [done|]. rewrite app_nil_r. split; [done|]. by intros [] ??. Qed.

Lemma follows_log e m l : called e = None -> follows m l -> follows (_ ← log e; m) l.
Proof.
  intros He Hm w. specialize (Hm (w ++ [e])). cbn.
  by rewrite calls_other in Hm.
Qed.

(** One call, and what follows an error of it. *)
Lemma follows_call a m l (fail : error -> setup Z) :
  (forall e w, let '(code, w') := fail e (w ++ [Called a]) in
     code = 1 /\ calls w' = calls w ++ [a] /\
     (a <> GetConfig -> exists msg kvs, last w' = Some (LogError e msg kvs))) ->
  follows m l ->
  follows (err ← ask svc a; match err with Some e => fail e | None => m end) (a :: l).
Proof.
  intros Hfail Hm w. unfold ask, mbind, setup_bind.
  destruct (svc (calls w) a) as [e|] eqn:Ha; cbn.
  - specialize (Hfail e w). destruct (fail e _) as [code w'], Hfail as (-> & -> & ?).
    right. exists [], a, l, e. rewrite app_nil_r.
    repeat split; [by intros [] ??|done..].
  - specialize (Hm (w ++ [Called a])). rewrite calls_called in Hm.
    destruct (m _) as [code w'].
    destruct Hm as [(-> & -> & Hl)|(pre & b & post & e & -> & -> & Hpre & He & -> & ?)].
    + left. rewrite <- app_assoc. auto using succeed_cons.
    + right. exists (a :: pre), b, post, e. rewrite <- !app_assoc in *. cbn in *.
      auto 10 using succeed_cons.
Qed.

Lemma follows_ask msg kvs a m l : follows m l -> follows (or_exit msg kvs (ask svc a) m) (a :: l).
Proof.
  apply (follows_call a m l (fun e => _ ← log (LogError e msg kvs); mret 1)).
  intros e w. unfold log, mbind, setup_bind, mret, setup_ret.
  rewrite calls_other, calls_called, last_snoc by done. eauto.
Qed.

Lemma follows_chain msg kvs a k m l :
  follows (or_exit msg kvs (ask svc a) (or_exit msg kvs k m)) l ->
  follows (or_exit msg kvs (err ← ask svc a;
    match err with Some e => mret (Some e) | None => k end) m) l.
Proof.
  intros H w. specialize (H w). revert H.
  unfold or_exit, ask, mbind, setup_bind, mret, setup_ret.
  by destruct (svc (calls w) a).
Qed.

Lemma setup_webhooks_follows f m l : follows m l ->
  follows (setup_webhooks svc f m)
    ((if enableWebhooks f then
        CompleteWebhook <$> [WithKind GroupVersion_v1alpha1 "OVHMachine";
                             WithKind GroupVersion_v1alpha1 "OVHCluster";
                             WithKind GroupVersion_v1alpha2 "OVHMachine";
                             WithKind GroupVersion_v1alpha2 "OVHCluster"]
      else []) ++ l).
Proof.
  intros Hm. unfold setup_webhooks. destruct (enableWebhooks f); [|done].
  do 4 apply follows_ask. by apply follows_log.
Qed.

Lemma main_follows scheme f : follows (main svc scheme f) (plan scheme f).
Proof.
  apply follows_call; [intros e w; by rewrite <- calls_called|].
  apply follows_ask. do 2 apply follows_chain, follows_ask, follows_ask.
  apply setup_webhooks_follows. do 2 apply follows_ask.
  apply follows_log; [done|]. apply follows_ask, follows_done.
Qed.

(** C29: the process starts in order. [main] makes the calls of the plan one after
    the other: the manager, the controllers (the field index first), with
    [--enable-webhooks] the webhooks of both versions, the checks, and the start. It
    stops at the first that fails, with the exit code 1 and, but for the
    configuration, its error as the last entry of the log; it exits with 0 exactly
    when the manager was started and returned no error. In particular nothing is
    started before everything is registered. *)
Theorem main_spec scheme f : let '(code, w) := main svc scheme f [] in
  (code = 0 /\ calls w = plan scheme f /\ succeed [] (plan scheme f)) \/
  (exists pre a post e, plan scheme f = pre ++ a :: post /\ calls w = pre ++ [a] /\
     succeed [] pre /\ svc pre a = Some e /\ code = 1 /\
     (a <> GetConfig -> exists msg kvs, last w = Some (LogError e msg kvs))).
Proof.
  exact (main_follows scheme f []).
Qed.
Lemma plan_start scheme f : exists pre, plan scheme f = pre ++ [Start] /\ Forall (fun a => a <> Start) pre.
Proof.
  exists (take (length (plan scheme f) - 1) (plan scheme f)). unfold plan.
  destruct (enableWebhooks f); (split; [done|]); cbn; by repeat constructor.
Qed.

(** Nothing is started before everything is registered. *)
Corollary main_starts_last scheme f : let '(_, w) := main svc scheme f [] in
  Start ∈ calls w -> exists pre,
    plan scheme f = pre ++ [Start] /\ calls w = plan scheme f /\ succeed [] pre.
Proof.
  pose proof (main_follows scheme f []) as H. destruct (main svc scheme f []) as [code w].
  destruct (plan_start scheme f) as (pre & Hpre & Hno). intros Hin. exists pre. split; [done|].
  destruct H as [(_ & Hw & Hok)|(q & a & post & e & Hq & Hw & Hok & _)];
    change (calls []) with (@nil act) in *; cbn [app] in *; rewrite Hw in Hin |- *; rewrite Hpre in *.
  - split; [done|]. intros b c d ->. apply (Hok b c (d ++ [Start])). by rewrite <- app_assoc.
  - destruct post as [|x post _] using rev_ind.
    + by apply app_inj_tail in Hq as [-> <-].
    + exfalso. rewrite app_comm_cons, app_assoc in Hq. apply app_inj_tail in Hq as [-> _].
      rewrite Forall_app, Forall_cons in Hno. destruct Hno as (Hq & Ha & _).
      rewrite elem_of_app, list_elem_of_singleton in Hin.
      destruct Hin as [Hin|Hin]; [|by subst].
      rewrite Forall_forall in Hq. by apply (Hq Start).
Qed.
End plan.

(** ** What is registered fits together *)

(** Every type of the repository that a controller or a webhook is set up for is in
    the scheme of the manager. *)
Lemma plan_in_scheme f client_go capi a obj :
  a ∈ plan (main_init client_go capi) f ->
  match a with
  | IndexField o _ | NewClusterMapper o | CompleteController o _ | CompleteWebhook o => o = obj
  | _ => False
  end ->
  obj ∈ main_init client_go capi.
Proof.
  intros Ha Ho. unfold main_init. rewrite !elem_of_app.
  enough (obj ∈ SchemeBuilder_v1alpha1 ++ SchemeBuilder_v1alpha2)
    as [?|?]%elem_of_app by auto.
  apply (bool_decide_unpack _). revert a Ha Ho.
  assert (Hall : Forall (fun a =>
    match a with
    | IndexField o _ | NewClusterMapper o | CompleteController o _ | CompleteWebhook o =>
        bool_decide (o ∈ SchemeBuilder_v1alpha1 ++ SchemeBuilder_v1alpha2) = true
    | _ => True
    end) (plan (main_init client_go capi) f)).
  { unfold plan. destruct (enableWebhooks f); cbn [app fmap list_fmap];
      repeat constructor; by vm_compute. }
  intros a Ha Ho. rewrite Forall_forall in Hall. specialize (Hall a Ha).
  destruct a; try done; subst; by apply Is_true_true.
Qed.

(** The watches of the cluster controller look up the field that its index holds. *)
Lemma index_before_controller scheme f : exists l1 l2 l3 ws,
  plan scheme f = l1 ++ IndexField (WithKind GroupVersion_v1alpha2 "OVHCluster")
                   ".spec.identitySecret.name"
           :: l2 ++ CompleteController (WithKind GroupVersion_v1alpha2 "OVHCluster") ws :: l3 /\
  secretToOVHCluster ∈ Watch_Handler <$> ws.
Proof.
  eexists (take 4 (plan scheme f)), [], (drop 6 (plan scheme f)), _. split; [reflexivity|].
  cbn. constructor.
Qed.

(** Every type of v1alpha1 converts through a hub; what is in v1alpha2 only is the
    machine pool. *)
Lemma hubs :
  Hub ≡ₚ concat init_v1alpha1 /\
  filter (.∉ Hub) (concat init_v1alpha2) = ["OVHMachinePool"; "OVHMachinePoolList"].
Proof.
  split; [|by vm_compute]. apply (bool_decide_unpack _). by vm_compute.
Qed.

(** With the flags of the plain deployment nothing fails but the cluster controller:
    its error ends the process. *)
Example main_example scheme e :
  let svc _ a := match a with IndexField _ _ => Some e | _ => None end in
  main svc scheme default_flags [] =
  (1, (Called <$> take 5 (plan scheme default_flags)) ++
    [LogError e "unable to create controller" [("controller", "OVHCluster")]]).
Proof. reflexivity. Qed.
