(* ===== verification/Metrics.v ===== *)
(** * The Prometheus collectors: internal/metrics/metrics.go

    Every collector with its options, their registration, and the collector and
    the label values behind every metric event of the controllers. The Prometheus
    library is a parameter: [BuildFQName], [Register] and the names a registry
    holds; [PrometheusLaws] states what its documentation promises. *)

From S2P Require Import Prelude GoStrings Effects.

Local Open Scope Z_scope.

(** ** The collectors *)

(** [prometheus.DefBuckets] is a slice of the library. *)
Inductive buckets := Explicit (bounds : list Z) | DefBuckets.

Inductive collector_kind := Counter | Gauge | Histogram (b : buckets).

(** A collector: its constructor with its options, and its label names ([] for one
    that is not a vector). *)
Record Collector := mkCollector {
  Collector_Kind : collector_kind;
  Collector_Namespace : string;
  Collector_Name : string;
  Collector_Help : string;
  Collector_Labels : list string;
}.

Definition namespace : string := "capiovh".

Definition NewCounter (name help : string) : Collector :=
  mkCollector Counter namespace name help [].

Definition NewHistogram (name help : string) (b : buckets) : Collector :=
  mkCollector (Histogram b) namespace name help [].

Definition NewCounterVec (name help : string) (labels : list string) : Collector :=
  mkCollector Counter namespace name help labels.

Definition NewGaugeVec (name help : string) (labels : list string) : Collector :=
  mkCollector Gauge namespace name help labels.

Definition NewHistogramVec (name help : string) (labels : list string) : Collector :=
  mkCollector (Histogram DefBuckets) namespace name help labels.

Definition MachineCreateTotal : Collector :=
  NewCounter "machine_create_total" "Total number of OVH instance creation attempts".

Definition MachineCreateErrorsTotal : Collector :=
  NewCounter "machine_create_errors_total" "Total number of OVH instance creation errors".

Definition MachineCreationDuration : Collector :=
  NewHistogram "machine_creation_duration_seconds"
    "Time taken to create an OVH instance (from API call to ACTIVE status)"
    (Explicit [10; 30; 60; 120; 180; 300; 600]).

Definition MachineDeleteTotal : Collector :=
  NewCounter "machine_delete_total" "Total number of OVH instance deletion attempts".

Definition MachineDeleteErrorsTotal : Collector :=
  NewCounter "machine_delete_errors_total" "Total number of OVH instance deletion errors".

Definition MachineStatus : Collector :=
  NewGaugeVec "machine_status" "Current status of OVH machines (1=ready, 0=not ready)"
    ["cluster"; "machine"].

Definition MachineReconcileDuration : Collector :=
  NewHistogramVec "machine_reconcile_duration_seconds"
    "Duration of OVHMachine reconciliation" ["operation"].

Definition ClusterReconcileDuration : Collector :=
  NewHistogramVec "cluster_reconcile_duration_seconds"
    "Duration of OVHCluster reconciliation" ["operation"].

Definition ClusterReady : Collector :=
  NewGaugeVec "cluster_ready"
    "Current readiness status of OVH clusters (1=ready, 0=not ready)" ["cluster"].

Definition NodeInitDuration : Collector :=
  NewHistogram "node_init_duration_seconds"
    "Time to initialize a workload node (patch providerID, remove uninitialized taint)"
    (Explicit [1; 5; 10; 30; 60; 120; 300]).

Definition EtcdMemberRemovalDuration : Collector :=
  NewHistogram "etcd_member_removal_duration_seconds"
    "Time to remove an etcd member from the workload cluster when deleting a CP machine"
    (Explicit [1; 5; 10; 30; 60; 120]).

Definition BootstrapWaitDuration : Collector :=
  NewHistogram "bootstrap_wait_duration_seconds"
    "Time an OVH instance spent in BUILD state before reaching ACTIVE"
    (Explicit [30; 60; 120; 180; 300; 600; 900]).

Definition LBPollDuration : Collector :=
  NewHistogram "lb_poll_duration_seconds"
    "Time to resolve a newly-created load balancer via find-by-name after the async POST"
    (Explicit [1; 5; 10; 30; 60; 110]).

Definition OVHAPIRequestsTotal : Collector :=
  NewCounterVec "ovh_api_requests_total"
    "Total number of OVH API requests, labelled by endpoint group and outcome"
    ["endpoint"; "outcome"].

Definition OVHAPIRequestDuration : Collector :=
  NewHistogramVec "ovh_api_request_duration_seconds"
    "Duration of OVH API requests per endpoint group" ["endpoint"].

(** The arguments of [MustRegister]. *)
Definition collectors : list Collector :=
  [MachineCreateTotal; MachineCreateErrorsTotal; MachineCreationDuration;
   MachineDeleteTotal; MachineDeleteErrorsTotal; MachineStatus;
   MachineReconcileDuration; ClusterReconcileDuration; ClusterReady;
   NodeInitDuration; EtcdMemberRemovalDuration; BootstrapWaitDuration;
   LBPollDuration; OVHAPIRequestsTotal; OVHAPIRequestDuration].

(** ** What Prometheus asks of them *)

(** The data model's names: [[a-zA-Z_:][a-zA-Z0-9_:]*] for metrics. *)
Definition name_char (c : ascii) : bool :=
  let b := byte c in
  ((97 <=? b) && (b <=? 122)) || ((65 <=? b) && (b <=? 90)) || (b =? 95) || (b =? 58).

Definition valid_name (s : string) : bool :=
  match list_ascii_of_string s with
  | [] => false
  | c :: cs => name_char c &&
      forallb (fun c => name_char c || ((48 <=? byte c) && (byte c <=? 57))) cs
  end.

(** And for labels: no colon, and no [__] in front. *)
Definition valid_label (s : string) : bool :=
  valid_name s && forallb (fun c => negb (byte c =? 58)) (list_ascii_of_string s) &&
  negb (String.prefix "__" s).

Fixpoint increasing (l : list Z) : bool :=
  match l with
  | x :: (y :: _) as l' => (x <? y) && increasing l'
  | _ => true
  end.

Definition well_formed (c : Collector) : bool :=
  valid_name (Collector_Namespace c) && valid_name (Collector_Name c) &&
  forallb valid_label (Collector_Labels c) && bool_decide (NoDup (Collector_Labels c)) &&
  match Collector_Kind c with
  | Histogram (Explicit bs) => increasing bs && bool_decide ("le" ∉ Collector_Labels c)
  | Histogram DefBuckets => bool_decide ("le" ∉ Collector_Labels c)
  | _ => true
  end.

Class Prometheus := {
  Registry : Type;
  BuildFQName : string -> string -> string -> string;
  Register : Collector -> Registry -> option Registry;   (* None: an error *)
  registered : Registry -> gset string;                  (* fully qualified names *)
}.

(** Names are joined by underscores, an empty subsystem left out; a well-formed
    collector of a new name is accepted, and its name is then taken. *)
Class PrometheusLaws `{Prometheus} := {
  BuildFQName_spec ns name : ns <> "" -> name <> "" ->
    BuildFQName ns "" name = (ns ++ "_" ++ name)%string;
  Register_new c r : well_formed c = true ->
    BuildFQName (Collector_Namespace c) "" (Collector_Name c) ∉ registered r ->
    exists r', Register c r = Some r' /\
      registered r' =
        {[BuildFQName (Collector_Namespace c) "" (Collector_Name c)]} ∪ registered r;
}.

Section registration.
Context `{P : Prometheus}.

(** [MustRegister], which panics ([None]) at the first error. *)
Definition MustRegister (cs : list Collector) (r : Registry) : option Registry :=
  foldl (fun acc c => acc ≫= Register c) (Some r) cs.

(** The [init] of the package, on the registry of controller-runtime. *)
Definition init (r : Registry) : option Registry := MustRegister collectors r.

Context {L : PrometheusLaws}.

Definition fq_name (c : Collector) : string :=
  (Collector_Namespace c ++ "_" ++ Collector_Name c)%string.

Lemma MustRegister_new cs r :
  Forall (fun c => well_formed c = true) cs -> NoDup (fq_name <$> cs) ->
  Forall (fun c => fq_name c ∉ registered r) cs ->
  exists r', MustRegister cs r = Some r' /\
    registered r' = list_to_set (fq_name <$> cs) ∪ registered r.
Proof.
  revert r. induction cs as [|c cs IH]; intros r Hwf Hnd Hnew; cbn in *.
  { exists r. by rewrite (left_id_L ∅ (∪)). }
  apply Forall_cons in Hwf as [Hc Hwf], Hnew as [Hcn Hnew].
  apply NoDup_cons in Hnd as [Hfresh Hnd].
  assert (Hfq : BuildFQName (Collector_Namespace c) "" (Collector_Name c) = fq_name c).
  { apply BuildFQName_spec; intros E; revert Hc; unfold well_formed; rewrite E; cbn;
      [done|]. by rewrite andb_false_r. }
  destruct (Register_new c r Hc) as (r1 & Hr1 & Hnames); [by rewrite Hfq|].
  rewrite Hfq in Hnames. cbn. rewrite Hr1.
  destruct (IH r1 Hwf Hnd) as (r' & Hr' & Hall).
  { apply Forall_forall. intros d Hd. rewrite Hnames, elem_of_union, elem_of_singleton.
    rewrite Forall_forall in Hnew. intros [E|?]; [|by eapply Hnew].
    apply Hfresh. rewrite <- E. by apply list_elem_of_fmap_2. }
  exists r'. split; [done|]. rewrite Hall, Hnames. cbn.
  by rewrite (assoc_L (∪)), (comm_L (∪) (list_to_set _)).
Qed.

(** The process does not panic on its metrics: no name of the package is one of
    another package, and then every collector is registered, under its own name. *)
Theorem metrics_registered r :
  Forall (fun c => fq_name c ∉ registered r) collectors ->
  exists r', init r = Some r' /\
    registered r' = list_to_set (fq_name <$> collectors) ∪ registered r.
Proof.
  apply MustRegister_new.
  - by repeat constructor.
  - apply (bool_decide_unpack _). by vm_compute.
Qed.
End registration.

(** ** The metric events of the controllers *)

(** The collector behind a call, with the values given to [WithLabelValues]. *)
Definition observed (m : metric) : Collector * list string :=
  match m with
  | Effects.MachineCreateTotal => (MachineCreateTotal, [])
  | Effects.MachineCreateErrorsTotal => (MachineCreateErrorsTotal, [])
  | Effects.MachineDeleteTotal => (MachineDeleteTotal, [])
  | Effects.MachineDeleteErrorsTotal => (MachineDeleteErrorsTotal, [])
  | Effects.MachineStatus cluster machine _ => (MachineStatus, [cluster; machine])
  | Effects.ClusterReady cluster _ => (ClusterReady, [cluster])
  end.

(** [WithLabelValues] panics unless there is a value for every label: there is one,
    and the collector is registered. *)
Lemma observed_accepted m :
  (observed m).1 ∈ collectors /\
  length (observed m).2 = length (Collector_Labels (observed m).1).
Proof.
  split; [|by destruct m].
  unfold collectors. rewrite !elem_of_cons. destruct m; cbn; auto 20.
Qed.

(** Two events are on the same series only if they are about the same object. *)
Lemma observed_inj m m' : observed m = observed m' ->
  match m, m' with
  | Effects.MachineStatus c n _, Effects.MachineStatus c' n' _ => c = c' /\ n = n'
  | Effects.ClusterReady c _, Effects.ClusterReady c' _ => c = c'
  | _, _ => m = m'
  end.
Proof. destruct m, m'; intros E; try done; cbn in E; by simplify_eq. Qed.

(** ** A registry that obeys *)

Definition join_names (ns sub name : string) : string :=
  if decide (name = "") then "" else
    (ns ++ (if decide (ns = "") then "" else "_") ++
     sub ++ (if decide (sub = "") then "" else "_") ++ name)%string.

#[local] Instance simple_prometheus : Prometheus := {
  Registry := gset string;
  BuildFQName := join_names;
  Register c r :=
    let name := join_names (Collector_Namespace c) "" (Collector_Name c) in
    if decide (name ∈ r) then None else Some ({[name]} ∪ r);
  registered r := r;
}.

#[local] Instance simple_prometheus_laws : PrometheusLaws.
Proof.
  split; cbn.
  - intros ns name Hns Hname. unfold join_names.
    by destruct (decide (name = "")), (decide (ns = "")).
  - intros c r _ Hnew. rewrite decide_False by done. eauto.
Qed.

Lemma metrics_registered_witness : exists r' : gset string,
  init (P := simple_prometheus) {["go_goroutines"; "workqueue_depth"]} = Some r' /\
  "capiovh_cluster_ready" ∈ r'.
Proof.
  destruct (metrics_registered (P := simple_prometheus) {["go_goroutines"; "workqueue_depth"]})
    as (r' & Hr' & Hnames); [by apply (bool_decide_unpack _); vm_compute|].
  exists r'. split; [exact Hr'|]. cbn in Hnames. rewrite Hnames.
  apply (bool_decide_unpack _). by vm_compute.
Defined.
