(* ===== verification/GoMemory.v ===== *)
(** * Go's memory: pointers, slices, maps and what they share

    The controllers' objects are values in the rest of the library. Here they are
    what they are in the process: structs in memory, with pointers, slices and maps
    that a copy may share with its original. A block of memory holds a value; an
    address is a block and a path of fields and elements into it, so that [&in.Spec]
    and [&( *out)[i]] are addresses. [mem] is the monad of the code that runs on such
    a memory; [None] is a panic. *)

From S2P Require Import Prelude.

Local Open Scope nat_scope.

(** ** Types and values *)

(** Keys of maps are strings. An integer type of any width is [TInt]: values are
    only copied. *)
Inductive ty :=
| TBool
| TInt
| TString
| TStruct (fields : list (string * ty))
| TPtr (t : ty)
| TSlice (t : ty)
| TMap (t : ty).

Inductive sel := Field (f : string) | Elem (i : nat).

Notation loc := positive (only parsing).
Notation addr := (loc * list sel)%type (only parsing).

Definition field (a : addr) (f : string) : addr := (a.1, a.2 ++ [Field f]).

(** A slice is a block with an array, an offset and a length (no code here reads a
    capacity); [None] is nil. *)
Inductive val :=
| VBool (b : bool)
| VInt (n : Z)
| VString (s : string)
| VStruct (m : gmap string val)
| VPtr (p : option addr)
| VSlice (s : option (loc * nat * nat))
| VMap (m : option loc)
(* the blocks behind slices and maps *)
| VArray (vs : list val)
| VTable (m : gmap string val).

Notation heap := (gmap positive val).

(** The zero value of a type. *)
Fixpoint zero_of (t : ty) : val :=
  match t with
  | TBool => VBool false
  | TInt => VInt 0
  | TString => VString ""
  | TStruct fs =>
    VStruct ((fix go fs := match fs with
                           | [] => ∅
                           | (f, t) :: fs => <[f := zero_of t]> (go fs)
                           end) fs)
  | TPtr _ => VPtr None
  | TSlice _ => VSlice None
  | TMap _ => VMap None
  end.

(** ** Reading and writing *)

Fixpoint get (p : list sel) (v : val) : option val :=
  match p, v with
  | [], _ => Some v
  | Field f :: p, VStruct m => m !! f ≫= get p
  | Elem i :: p, VArray vs => vs !! i ≫= get p
  | _, _ => None
  end.

Fixpoint put (p : list sel) (w v : val) : option val :=
  match p, v with
  | [], _ => Some w
  | Field f :: p, VStruct m =>
    x ← m !! f; x' ← put p w x; Some (VStruct (<[f := x']> m))
  | Elem i :: p, VArray vs =>
    x ← vs !! i; x' ← put p w x; Some (VArray (<[i := x']> vs))
  | _, _ => None
  end.

Definition load_at (h : heap) (a : addr) : option val := h !! a.1 ≫= get a.2.

Definition store_at (h : heap) (a : addr) (w : val) : option heap :=
  b ← h !! a.1; b' ← put a.2 w b; Some (<[a.1 := b']> h).

(** ** Programs on memory *)

Definition mem (A : Type) : Type := heap -> option (A * heap).

#[export] Instance mem_ret : MRet mem := fun A a h => Some (a, h).
#[export] Instance mem_bind : MBind mem :=
  fun A B f m h => '(a, h') ← m h; f a h'.

(** A run-time panic. *)
Definition panic {A} : mem A := fun _ => None.

Definition load (a : addr) : mem val := fun h => v ← load_at h a; Some (v, h).
Definition store (a : addr) (w : val) : mem unit := fun h => h' ← store_at h a w; Some (tt, h').

(** A new block. *)
Definition alloc (v : val) : mem loc :=
  fun h => let l := fresh (dom h) in Some (l, <[l := v]> h).

(** [new(T)]. *)
Definition new (t : ty) : mem addr := l ← alloc (zero_of t); mret (l, []).

(** [*out = *in]. *)
Definition assign (out in_ : addr) : mem unit := v ← load in_; store out v.

(** The pointer, the slice and the map at an address. *)
Definition load_ptr (a : addr) : mem addr :=
  v ← load a; match v with VPtr (Some p) => mret p | _ => panic end.

Definition load_slice (a : addr) : mem (loc * nat * nat) :=
  v ← load a; match v with VSlice (Some s) => mret s | _ => panic end.

Definition load_map (a : addr) : mem loc :=
  v ← load a; match v with VMap (Some l) => mret l | _ => panic end.

(** [&( *s)[i]], with the check of the index. *)
Definition elem (s : addr) (i : nat) : mem addr :=
  '(l, off, n) ← load_slice s;
  if decide (i < n) then mret (l, [Elem (off + i)]) else panic.

(** [len( *in)]; nil has the length 0. *)
Definition len_slice (a : addr) : mem nat :=
  v ← load a;
  match v with VSlice (Some (_, _, n)) => mret n | VSlice None => mret 0 | _ => panic end.

(** [*out = make([]T, n)]. *)
Definition make_slice (t : ty) (out : addr) (n : nat) : mem unit :=
  l ← alloc (VArray (replicate n (zero_of t))); store out (VSlice (Some (l, 0, n))).

(** [*out = make(map[string]T, n)]. *)
Definition make_map (out : addr) : mem unit :=
  l ← alloc (VTable ∅); store out (VMap (Some l)).

Definition load_array (l : loc) : mem (list val) :=
  v ← load (l, []); match v with VArray vs => mret vs | _ => panic end.

Definition load_table (l : loc) : mem (gmap string val) :=
  v ← load (l, []); match v with VTable m => mret m | _ => panic end.

(** [copy( *out, *in)]: as many elements as the shorter of the two has. *)
Definition copy_slice (out in_ : addr) : mem unit :=
  '(lo, offo, no) ← load_slice out;
  '(li, offi, ni) ← load_slice in_;
  ws ← load_array lo;
  vs ← load_array li;
  let n := no `min` ni in
  store (lo, []) (VArray (take offo ws ++ take n (drop offi vs) ++ drop (offo + n) ws)).

(** [( *m)[k] = v], which panics on a nil map. *)
Definition set_key (m : addr) (k : string) (v : val) : mem unit :=
  l ← load_map m; t ← load_table l; store (l, []) (VTable (<[k := v]> t)).

(** [for ... range]: one pass of the body for every element of a list. *)
Fixpoint for_each {A} (xs : list A) (body : A -> mem unit) : mem unit :=
  match xs with
  | [] => mret tt
  | x :: xs => _ ← body x; for_each xs body
  end.

(** The order in which [range] visits a map is the runtime's choice. *)
Class RangeOrder := {
  range_order : gmap string val -> list (string * val);
  range_order_spec m : range_order m ≡ₚ map_to_list m;
}.

Definition is_nil (v : val) : bool :=
  match v with VPtr None | VSlice None | VMap None => true | _ => false end.

(** ** The patterns of a deep copy

    Every method of the two [zz_generated.deepcopy.go] is put together from these. *)

(** [if in.F != nil { in, out := &in.F, &out.F; body }]. *)
Definition unless_nil (body : addr -> addr -> mem unit) (in_ out : addr) : mem unit :=
  v ← load in_; if is_nil v then mret tt else body in_ out.

Definition if_set (f : string) (body : addr -> addr -> mem unit) (in_ out : addr) : mem unit :=
  unless_nil body (field in_ f) (field out f).

(** A struct in a struct: [in.F.DeepCopyInto(&out.F)], and [out.F = in.F]. *)
Definition in_place (f : string) (deep : addr -> addr -> mem unit) (in_ out : addr) : mem unit :=
  deep (field in_ f) (field out f).

Definition plainly (in_ out : addr) : mem unit := assign out in_.

(** [*out = new(T); ( *in).DeepCopyInto( *out)]; with [plainly], [**out = **in]. *)
Definition copy_ptr (t : ty) (deep : addr -> addr -> mem unit) (in_ out : addr) : mem unit :=
  p ← new t;
  _ ← store out (VPtr (Some p));
  pi ← load_ptr in_;
  po ← load_ptr out;
  deep pi po.

(** [*out = make([]T, len( *in)); copy( *out, *in)]. *)
Definition copy_list (t : ty) (in_ out : addr) : mem unit :=
  n ← len_slice in_;
  _ ← make_slice t out n;
  copy_slice out in_.

(** [for i := range *in { ( *in)[i].DeepCopyInto(&( *out)[i]) }] after the [make]. *)
Definition copy_elems (t : ty) (deep : addr -> addr -> mem unit) (in_ out : addr) : mem unit :=
  n ← len_slice in_;
  _ ← make_slice t out n;
  for_each (seq 0 n) (fun i =>
    ai ← elem in_ i;
    ao ← elem out i;
    deep ai ao).

(** [for key, val := range *in { ( *out)[key] = body(val) }] after the [make]. *)
Definition copy_entries `{RangeOrder} (body : val -> mem val) (in_ out : addr) : mem unit :=
  _ ← make_map out;
  l ← load_map in_;
  t ← load_table l;
  for_each (range_order t) (fun '(key, v) =>
    w ← body v;
    set_key out key w).

(** [val], and [*val.DeepCopy()] on the loop's variable. *)
Definition plain_entry (v : val) : mem val := mret v.

Definition deep_entry (copy : option addr -> mem (option addr)) (v : val) : mem val :=
  l ← alloc v;
  p ← copy (Some (l, []));
  match p with Some a => load a | None => panic end.

(** [DeepCopy]: nil for nil, and otherwise a new object that the method fills. *)
Definition deep_copy (t : ty) (into : addr -> addr -> mem unit) (in_ : option addr)
    : mem (option addr) :=
  match in_ with
  | None => mret None
  | Some i => out ← new t; _ ← into i out; mret (Some out)
  end.

(** [DeepCopyObject] returns an interface, which is nil or has a type: a nil
    pointer becomes the nil interface. *)
Definition deep_copy_object (name : string) (copy : option addr -> mem (option addr))
    (in_ : option addr) : mem (option (string * addr)) :=
  c ← copy in_;
  mret (match c with Some a => Some (name, a) | None => None end).
