(* ===== verification/MemoryFacts.v ===== *)
(** * Objects in memory, and what it is to copy one deeply

    [rep t h v x]: in the heap [h] the value [v] is an object of the type [t] whose
    content, with every pointer, slice and map followed, is the tree [x]. [copies]
    is the specification of a [DeepCopyInto]: it stores a value of the same content
    that lives in blocks which were not there before. One lemma for every pattern of
    the generated code proves it. *)

From S2P Require Import Prelude GoMemory.

Local Open Scope nat_scope.

(** The content of an object, free of addresses. *)
Inductive tree :=
| LBool (b : bool)
| LInt (n : Z)
| LString (s : string)
| Node (m : gmap string tree)
| Nil
| Ref (x : tree)
| Items (xs : list tree)
| Entries (m : gmap string tree).

Definition names (fs : list (string * ty)) : gset string := list_to_set fs.*1.

Fixpoint rep (t : ty) (h : heap) (v : val) (x : tree) {struct t} : Prop :=
  match t with
  | TBool => exists b, v = VBool b /\ x = LBool b
  | TInt => exists n, v = VInt n /\ x = LInt n
  | TString => exists s, v = VString s /\ x = LString s
  | TStruct fs => exists m xm, v = VStruct m /\ x = Node xm /\
      dom m = names fs /\ dom xm = names fs /\
      (fix all fs := match fs with
                     | [] => True
                     | (f, t) :: fs =>
                       (exists y z, m !! f = Some y /\ xm !! f = Some z /\ rep t h y z) /\ all fs
                     end) fs
  | TPtr t => (v = VPtr None /\ x = Nil) \/
      exists a y z, v = VPtr (Some a) /\ x = Ref z /\ load_at h a = Some y /\ rep t h y z
  | TSlice t => (v = VSlice None /\ x = Nil) \/
      exists l off n vs xs, v = VSlice (Some (l, off, n)) /\ x = Items xs /\
        h !! l = Some (VArray vs) /\ off + n <= length vs /\
        Forall2 (rep t h) (take n (drop off vs)) xs
  | TMap t => (v = VMap None /\ x = Nil) \/
      exists l m xm, v = VMap (Some l) /\ x = Entries xm /\
        h !! l = Some (VTable m) /\ map_Forall2 (fun _ => rep t h) m xm
  end.

(** A type without references: assignment copies it. *)
Fixpoint plain (t : ty) : bool :=
  match t with
  | TBool | TInt | TString => true
  | TStruct fs => (fix all fs := match fs with
                                 | [] => true
                                 | (_, t) :: fs => plain t && all fs
                                 end) fs
  | TPtr _ | TSlice _ | TMap _ => false
  end.

(** The structs of Go have one field of a name. *)
Definition distinct (fs : list (string * ty)) : bool := bool_decide (NoDup fs.*1).

(** ** The specifications *)

(** [f in out]: from any heap in which [in] holds an object with the content [x]
    (in the part [hi] of the heap, which [out] is no part of), it stores at [out] a
    value [v'] that has the content [x] in [new], the blocks it made, alone. *)
Definition copies (t : ty) (f : addr -> addr -> mem unit) : Prop :=
  forall (h hi : heap) i o v x,
    load_at h i = Some v -> hi ⊆ h -> rep t hi v x ->
    o.1 ∉ dom hi -> i.1 <> o.1 -> is_Some (load_at h o) ->
    exists new v' h', new ##ₘ h /\ rep t new v' x /\
      store_at (new ∪ h) o v' = Some h' /\ f i o h = Some (tt, h').

(** The same where [out] starts as the shallow copy. *)
Definition completes (t : ty) (f : addr -> addr -> mem unit) : Prop :=
  forall (h hi : heap) i o v x,
    load_at h i = Some v -> hi ⊆ h -> rep t hi v x ->
    o.1 ∉ dom hi -> i.1 <> o.1 -> load_at h o = Some v ->
    exists new v' h', new ##ₘ h /\ rep t new v' x /\
      store_at (new ∪ h) o v' = Some h' /\ f i o h = Some (tt, h').

(** The same of a block of code that runs when the value is not nil. *)
Definition fills (t : ty) (f : addr -> addr -> mem unit) : Prop :=
  forall (h hi : heap) i o v x,
    load_at h i = Some v -> hi ⊆ h -> rep t hi v x ->
    o.1 ∉ dom hi -> i.1 <> o.1 -> load_at h o = Some v -> is_nil v = false ->
    exists new v' h', new ##ₘ h /\ rep t new v' x /\
      store_at (new ∪ h) o v' = Some h' /\ f i o h = Some (tt, h').

(** [DeepCopy]: nil gives nil; an object gives a new block with its content in it. *)
Definition copies_new (t : ty) (f : option addr -> mem (option addr)) : Prop :=
  (forall h, f None h = Some (None, h)) /\
  forall (h hi : heap) i v x,
    load_at h i = Some v -> hi ⊆ h -> rep t hi v x ->
    exists new l v', new ##ₘ h /\ f (Some i) h = Some (Some (l, []), new ∪ h) /\
      new !! l = Some v' /\ rep t new v' x.

(** What a loop over a map makes of a value. *)
Definition copies_value (t : ty) (f : val -> mem val) : Prop :=
  forall (h hi : heap) v x, hi ⊆ h -> rep t hi v x ->
    exists new v', new ##ₘ h /\ f v h = Some (v', new ∪ h) /\ rep t new v' x.

(** ** Paths *)

Lemma get_app p q v : get (p ++ q) v = get p v ≫= get q.
Proof.
  revert v. induction p as [|[f|i] p IH]; intros v; [done|..]; cbn; destruct v; try done.
  - destruct (m !! f); cbn; auto.
  - destruct (vs !! i); cbn; auto.
Qed.

Lemma put_app p q w v :
  put (p ++ q) w v = y ← get p v; y' ← put q w y; put p y' v.
Proof.
  revert v. induction p as [|[f|i] p IH]; intros v; cbn.
  - by destruct (put q w v).
  - destruct v; try done. destruct (m !! f) as [y|]; [|done]. cbn. rewrite IH.
    destruct (get p y) as [z|]; [|done]. cbn. by destruct (put q w z).
  - destruct v; try done. destruct (vs !! i) as [y|]; [|done]. cbn. rewrite IH.
    destruct (get p y) as [z|]; [|done]. cbn. by destruct (put q w z).
Qed.

Lemma get_put p w v v' : put p w v = Some v' -> get p v' = Some w.
Proof.
  revert v v'. induction p as [|[f|i] p IH]; intros v v'; cbn; [by intros [= ->]|..];
    destruct v; try done.
  - destruct (m !! f) as [y|]; [|done]. cbn. destruct (put p w y) as [y'|] eqn:E; [|done].
    intros [= <-]. rewrite lookup_insert_eq. cbn. eauto.
  - destruct (vs !! i) as [y|] eqn:Ei; [|done]. cbn. destruct (put p w y) as [y'|] eqn:E; [|done].
    intros [= <-]. rewrite list_lookup_insert_eq by by eapply lookup_lt_Some. cbn. eauto.
Qed.

Lemma put_put p w w' v v' : put p w v = Some v' -> put p w' v' = put p w' v.
Proof.
  revert v v'. induction p as [|[f|i] p IH]; intros v v'; cbn; [done|..]; destruct v; try done.
  - destruct (m !! f) as [y|]; [|done]. cbn. destruct (put p w y) as [y'|] eqn:E; [|done].
    intros [= <-]. rewrite lookup_insert_eq. cbn. rewrite (IH _ _ E).
    destruct (put p w' y); [|done]. cbn. by rewrite insert_insert_eq.
  - destruct (vs !! i) as [y|] eqn:Ei; [|done]. cbn. destruct (put p w y) as [y'|] eqn:E; [|done].
    intros [= <-]. rewrite list_lookup_insert_eq by by eapply lookup_lt_Some. cbn.
    rewrite (IH _ _ E). destruct (put p w' y); [|done]. cbn. by rewrite list_insert_insert_eq.
Qed.

Lemma put_get p v y : get p v = Some y -> put p y v = Some v.
Proof.
  revert v. induction p as [|[f|i] p IH]; intros v; cbn; [by intros [= ->]|..]; destruct v; try done.
  - destruct (m !! f) as [z|] eqn:E; [|done]. cbn. intros ->%IH. cbn. by rewrite insert_id.
  - destruct (vs !! i) as [z|] eqn:E; [|done]. cbn. intros ->%IH. cbn. by rewrite list_insert_id.
Qed.

Lemma put_is_Some p w v : is_Some (get p v) -> is_Some (put p w v).
Proof.
  revert v. induction p as [|[f|i] p IH]; intros v; cbn; [eauto|..]; destruct v;
    try (by intros []).
  - destruct (m !! f) as [z|]; [|by intros []]. cbn. intros [y ->]%IH. cbn. eauto.
  - destruct (vs !! i) as [z|]; [|by intros []]. cbn. intros [y ->]%IH. cbn. eauto.
Qed.

(** ** Loads and stores *)

Lemma store_at_is_Some h a w : is_Some (load_at h a) -> is_Some (store_at h a w).
Proof.
  unfold load_at, store_at. destruct (h !! a.1) as [b|]; [|by intros []]. cbn.
  intros [b' ->]%(put_is_Some _ w). cbn. eauto.
Qed.

Lemma load_store h a w h' : store_at h a w = Some h' -> load_at h' a = Some w.
Proof.
  unfold load_at, store_at. destruct (h !! a.1) as [b|]; [|done]. cbn.
  destruct (put a.2 w b) as [b'|] eqn:E; [|done]. cbn. intros [= <-].
  rewrite lookup_insert_eq. cbn. by eapply get_put.
Qed.

Lemma lookup_store_ne h a w h' l : store_at h a w = Some h' -> l <> a.1 -> h' !! l = h !! l.
Proof.
  unfold store_at. destruct (h !! a.1) as [b|]; [|done]. cbn.
  destruct (put a.2 w b) as [b'|]; [|done]. cbn. intros [= <-] ?. by rewrite lookup_insert_ne.
Qed.

Lemma load_store_ne h a w h' b : store_at h a w = Some h' -> b.1 <> a.1 -> load_at h' b = load_at h b.
Proof. intros H Hb. unfold load_at. by rewrite (lookup_store_ne _ _ _ _ _ H Hb). Qed.

Lemma store_store h a w w' h' : store_at h a w = Some h' -> store_at h' a w' = store_at h a w'.
Proof.
  unfold store_at. destruct (h !! a.1) as [b|] eqn:Hb; [|done]. cbn.
  destruct (put a.2 w b) as [b'|] eqn:E; [|done]. cbn. intros [= <-].
  rewrite lookup_insert_eq. cbn. rewrite (put_put _ _ _ _ _ E).
  destruct (put a.2 w' b); [|done]. cbn. by rewrite insert_insert_eq.
Qed.

Lemma store_load h a v : load_at h a = Some v -> store_at h a v = Some h.
Proof.
  unfold load_at, store_at. destruct (h !! a.1) as [b|] eqn:Hb; [|done]. cbn.
  intros ->%put_get. cbn. by rewrite insert_id.
Qed.

Lemma load_union (new h : heap) a v : new ##ₘ h -> load_at h a = Some v -> load_at (new ∪ h) a = Some v.
Proof.
  unfold load_at. intros Hd. destruct (h !! a.1) as [b|] eqn:Hb; [|done].
  by rewrite (lookup_union_Some_r _ _ _ _ Hd Hb).
Qed.

Lemma load_subseteq (h h' : heap) a v : h ⊆ h' -> load_at h a = Some v -> load_at h' a = Some v.
Proof.
  unfold load_at. intros Hs. destruct (h !! a.1) as [b|] eqn:Hb; [|done].
  by rewrite (lookup_weaken _ _ _ _ Hb Hs).
Qed.

(** A store in a part of the heap. *)
Lemma store_union (new h : heap) a w : new ##ₘ h -> is_Some (h !! a.1) ->
  store_at (new ∪ h) a w = (new ∪.) <$> store_at h a w.
Proof.
  intros Hd [b Hb]. unfold store_at. rewrite (lookup_union_Some_r _ _ _ _ Hd Hb), Hb. cbn.
  destruct (put a.2 w b); [|done]. cbn. f_equal. apply insert_union_r.
  by eapply map_disjoint_Some_r.
Qed.

Lemma dom_store h a w h' : store_at h a w = Some h' -> dom h' = dom h.
Proof.
  unfold store_at. destruct (h !! a.1) as [b|] eqn:Hb; [|done]. cbn.
  destruct (put a.2 w b); [|done]. cbn. intros [= <-].
  apply dom_insert_lookup_L. eauto.
Qed.

(** Below an address. *)
Lemma load_below h a p v : load_at h a = Some v -> load_at h (a.1, a.2 ++ p) = get p v.
Proof.
  unfold load_at. cbn. destruct (h !! a.1) as [b|]; [|done]. cbn. rewrite get_app. by intros ->.
Qed.

Lemma store_below h a p v v' w : load_at h a = Some v -> put p w v = Some v' ->
  store_at h (a.1, a.2 ++ p) w = store_at h a v'.
Proof.
  unfold load_at, store_at. cbn. destruct (h !! a.1) as [b|]; [|done]. cbn.
  intros Hb Hv. rewrite put_app, Hb. cbn. by rewrite Hv.
Qed.

(** A part of what was stored at [a] is stored anew, with the blocks [n2]. *)
Lemma store_part (new h h' n2 h'' : heap) a p v v' w :
  new ##ₘ h -> store_at (new ∪ h) a v = Some h' ->
  n2 ##ₘ h' -> store_at (n2 ∪ h') (a.1, a.2 ++ p) w = Some h'' -> put p w v = Some v' ->
  n2 ∪ new ##ₘ h /\ store_at ((n2 ∪ new) ∪ h) a v' = Some h''.
Proof.
  intros Hn Hst Hn2 Hst2 Hp.
  assert (Hd : n2 ##ₘ new ∪ h).
  { apply map_disjoint_dom. apply map_disjoint_dom in Hn2. by rewrite (dom_store _ _ _ _ Hst) in Hn2. }
  apply map_disjoint_union_r in Hd as Hd'. destruct Hd' as [Hd1 Hd2].
  split; [by apply map_disjoint_union_l|].
  assert (Ha : is_Some ((new ∪ h) !! a.1)).
  { unfold store_at in Hst. by destruct ((new ∪ h) !! a.1). }
  assert (Ha' : is_Some (h' !! a.1)).
  { apply elem_of_dom. rewrite (dom_store _ _ _ _ Hst). by apply elem_of_dom. }
  rewrite store_union in Hst2 by done.
  rewrite (store_below _ _ _ v v'), (store_store _ _ _ _ _ Hst) in Hst2 by (done || by eapply load_store).
  rewrite <- (assoc_L (∪)). by rewrite store_union.
Qed.

Lemma store_subseteq (hi h h' : heap) a w :
  hi ⊆ h -> a.1 ∉ dom hi -> store_at h a w = Some h' -> hi ⊆ h'.
Proof.
  intros Hs Ha H. apply map_subseteq_spec. intros l b Hb.
  rewrite (lookup_store_ne _ _ _ _ _ H); [by eapply lookup_weaken|].
  intros ->. apply Ha. by apply elem_of_dom_2 in Hb.
Qed.

(** ** Representations *)

(** Structs, with their fields as a list. *)
Lemma rep_struct fs h v x : rep (TStruct fs) h v x <->
  exists m xm, v = VStruct m /\ x = Node xm /\ dom m = names fs /\ dom xm = names fs /\
    forall f t, (f, t) ∈ fs -> exists y z, m !! f = Some y /\ xm !! f = Some z /\ rep t h y z.
Proof.
  cbn. split; intros (m & xm & -> & -> & Hm & Hxm & H); exists m, xm;
    do 4 (split; [done|]); clear Hm Hxm; revert H;
    induction fs as [|[f t] fs IH]; try done.
  - intros _ f t []%not_elem_of_nil.
  - intros [H Hall] g u [[= -> ->]|?]%elem_of_cons; [done|]. by apply IH.
  - intros H. split; [apply H; left|]. apply IH. intros g u ?. apply H. by right.
Qed.

Lemma plain_struct fs : plain (TStruct fs) = true <-> forall f t, (f, t) ∈ fs -> plain t = true.
Proof.
  cbn. induction fs as [|[f t] fs IH]; [split; [intros _ f t []%not_elem_of_nil|done]|].
  rewrite andb_true_iff, IH. split.
  - intros [H ?] g u [[= -> ->]|?]%elem_of_cons; eauto.
  - intros H. split; [eapply H; left|]. intros g u ?. eapply H. by right.
Qed.

(** Induction on types that reaches the fields of a struct. *)
Lemma ty_fields_ind (P : ty -> Prop) :
  P TBool -> P TInt -> P TString ->
  (forall fs, (forall f t, (f, t) ∈ fs -> P t) -> P (TStruct fs)) ->
  (forall t, P t -> P (TPtr t)) -> (forall t, P t -> P (TSlice t)) ->
  (forall t, P t -> P (TMap t)) -> forall t, P t.
Proof.
  intros HB HI HS HF HP HL HM.
  refine (fix go (t : ty) : P t :=
    match t with
    | TBool => HB | TInt => HI | TString => HS
    | TStruct fs => HF fs _
    | TPtr t => HP t (go t) | TSlice t => HL t (go t) | TMap t => HM t (go t)
    end).
  enough (Forall (fun ft => P ft.2) fs) as Hall.
  { intros f w Hf. by apply (proj1 (Forall_forall _ _) Hall (f, w)). }
  exact ((fix all fs : Forall (fun ft => P ft.2) fs :=
    match fs with
    | [] => Forall_nil_2 _
    | (f, u) :: fs => Forall_cons_2 _ (f, u) fs (go u) (all fs)
    end) fs).
Qed.

Lemma rep_mono t (h h' : heap) v x : h ⊆ h' -> rep t h v x -> rep t h' v x.
Proof.
  intros Hs. revert v x. induction t as [| | |fs IH|t IH|t IH|t IH] using ty_fields_ind; intros v x;
    try done.
  - rewrite !rep_struct. intros (m & xm & -> & -> & ? & ? & H). exists m, xm.
    do 4 (split; [done|]). intros f t Hf. destruct (H f t Hf) as (y & z & ? & ? & ?). eauto 6.
  - intros [?|(a & y & z & ? & ? & Ha & ?)]; [by left|right].
    exists a, y, z. eauto 6 using load_subseteq.
  - intros [?|(l & off & n & vs & xs & ? & ? & Hl & ? & Hall)]; [by left|right].
    exists l, off, n, vs, xs. do 2 (split; [done|]).
    split; [by eapply lookup_weaken|]. split; [done|].
    eapply Forall2_impl; [exact Hall|]. cbn. auto.
  - intros [?|(l & m & xm & ? & ? & Hl & Hall)]; [by left|right].
    exists l, m, xm. do 2 (split; [done|]). split; [by eapply lookup_weaken|].
    eapply map_Forall2_impl; [exact Hall|]. cbn. auto.
Qed.

Lemma rep_plain t h h' v x : plain t = true -> rep t h v x -> rep t h' v x.
Proof.
  revert v x. induction t as [| | |fs IH|t IH|t IH|t IH] using ty_fields_ind; intros v x; try done.
  rewrite plain_struct, !rep_struct. intros Hp (m & xm & -> & -> & ? & ? & H). exists m, xm.
  do 4 (split; [done|]). intros f t Hf. destruct (H f t Hf) as (y & z & ? & ? & ?). eauto 8.
Qed.

(** Whatever is written elsewhere, an object stays what it is. *)
Lemma rep_frame t (hi h h' : heap) v x :
  hi ⊆ h -> rep t hi v x -> (forall l, l ∈ dom hi -> h' !! l = h !! l) -> rep t h' v x.
Proof.
  intros Hs Hx Hsame. eapply rep_mono, Hx. apply map_subseteq_spec. intros l b Hl.
  rewrite Hsame by by apply elem_of_dom_2 in Hl. by eapply lookup_weaken.
Qed.

(** ** The patterns copy *)

Lemma copies_completes t f : copies t f -> completes t f.
Proof. intros H h hi i o v x ??????. eapply H; eauto. Qed.

Lemma plainly_copies t : plain t = true -> copies t plainly.
Proof.
  intros Hp h hi i o v x Hi _ Hx _ _ Ho.
  destruct (store_at_is_Some h o v Ho) as [h' Hh'].
  exists ∅, v, h'. split; [apply map_disjoint_empty_l|]. split; [by eapply rep_plain|].
  rewrite (left_id_L ∅ (∪)). split; [done|].
  unfold plainly, assign, load, store, mbind, mem_bind. cbn. rewrite Hi. cbn. by rewrite Hh'.
Qed.

(** *** Structs *)

(** The state between two fields of a struct: [out] holds the shallow copy [m], but
    for the fields in [done], which have their content in the new blocks. *)
Definition half_way (fs : list (string * ty)) (done : gset string) (m : gmap string val)
    (xm : gmap string tree) (h : heap) (o : addr) (new : heap) (h' : heap) : Prop :=
  new ##ₘ h /\ exists mo,
    store_at (new ∪ h) o (VStruct mo) = Some h' /\ dom mo = names fs /\
    forall f t, (f, t) ∈ fs -> exists y z, mo !! f = Some y /\ xm !! f = Some z /\
      if decide (f ∈ done) then rep t new y z else m !! f = Some y.

(** [g] does the fields of [done'] that are not in [done]. *)
Definition does (fs : list (string * ty)) (done : gset string)
    (g : addr -> addr -> mem unit) (done' : gset string) : Prop :=
  forall (h hi : heap) i o m xm new h',
    load_at h i = Some (VStruct m) -> hi ⊆ h -> rep (TStruct fs) hi (VStruct m) (Node xm) ->
    o.1 ∉ dom hi -> i.1 <> o.1 -> half_way fs done m xm h o new h' ->
    exists new' h'', g i o h' = Some (tt, h'') /\ half_way fs done' m xm h o new' h''.

Lemma does_nothing fs d : does fs d (fun _ _ => mret tt) d.
Proof. intros h hi i o m xm new h' ??????. by exists new, h'. Qed.

Lemma does_seq fs d1 d2 d3 g1 g2 : does fs d1 g1 d2 -> does fs d2 g2 d3 ->
  does fs d1 (fun i o => _ ← g1 i o; g2 i o) d3.
Proof.
  intros H1 H2 h hi i o m xm new h' Hi Hs Hx Ho Hio Hw.
  destruct (H1 h hi i o m xm new h') as (n1 & h1 & E1 & Hw1); [done..|].
  destruct (H2 h hi i o m xm n1 h1) as (n2 & h2 & E2 & Hw2); [done..|].
  exists n2, h2. split; [|done]. unfold mbind, mem_bind. rewrite E1. cbn. exact E2.
Qed.

Lemma distinct_field fs f t u : distinct fs = true -> (f, t) ∈ fs -> (f, u) ∈ fs -> t = u.
Proof.
  unfold distinct. intros Hd%bool_decide_eq_true. revert Hd.
  induction fs as [|[g w] fs IH]; cbn; [by intros _ ?%not_elem_of_nil|].
  intros [Hg Hd]%NoDup_cons [E1|H1]%elem_of_cons [E2|H2]%elem_of_cons; simplify_eq; auto.
  - exfalso. apply Hg. by apply (list_elem_of_fmap_2 fst) in H2.
  - exfalso. apply Hg. by apply (list_elem_of_fmap_2 fst) in H1.
Qed.

Lemma does_field fs d f t g : distinct fs = true -> (f, t) ∈ fs -> f ∉ d -> completes t g ->
  does fs d (in_place f g) ({[f]} ∪ d).
Proof.
  intros Hdist Hf Hfd Hg h hi i o m xm new h' Hi Hs Hx Ho Hio (Hn & mo & Hst & Hdom & Hfs).
  apply rep_struct in Hx as (m' & xm' & [= <-] & [= <-] & Hm & Hxm & Hall).
  destruct (Hfs f t Hf) as (y & z & Hy & Hz & Hrest). rewrite decide_False in Hrest by done.
  destruct (Hall f t Hf) as (y' & z' & Hy' & Hz' & Hrep).
  rewrite Hrest in Hy'. rewrite Hz in Hz'. injection Hy' as <-. injection Hz' as <-.
  assert (Hout : load_at h' o = Some (VStruct mo)) by by eapply load_store.
  destruct (Hg h' hi (field i f) (field o f) y z) as (new' & v' & h'' & Hn' & Hv' & Hst' & Hrun);
    [| |done..| |].
  { rewrite (load_store_ne _ _ _ _ _ Hst) by done. apply load_union; [done|].
    unfold field. rewrite (load_below _ _ _ _ Hi). cbn. by rewrite Hrest. }
  { eapply store_subseteq; [|done|done]. etransitivity; [exact Hs|]. by apply map_union_subseteq_r. }
  { unfold field. rewrite (load_below _ _ _ _ Hout). cbn. by rewrite Hy. }
  exists (new' ∪ new), h''. split; [exact Hrun|].
  destruct (store_part new h h' new' h'' o [Field f] (VStruct mo) (VStruct (<[f := v']> mo)) v')
    as [Hd Hst'']; [done..|by cbn; rewrite Hy|].
  split; [done|]. exists (<[f := v']> mo). split; [done|]. split.
  - rewrite dom_insert_L, Hdom. apply elem_of_dom_2 in Hy. rewrite Hdom in Hy. set_solver.
  - intros f' t' Hf'. apply map_disjoint_union_l in Hd as [Hd1 Hd2].
    destruct (decide (f' = f)) as [->|Hne].
    + rewrite (distinct_field _ _ _ _ Hdist Hf' Hf). exists v', z. rewrite lookup_insert_eq.
      rewrite decide_True by set_solver. split_and!; try done.
      eapply rep_mono, Hv'. by apply map_union_subseteq_l.
    + rewrite lookup_insert_ne by done. destruct (Hfs f' t' Hf') as (y' & z' & ? & ? & Hw).
      exists y', z'. do 2 (split; [done|]). case_decide; case_decide; [|set_solver..|done].
      eapply rep_mono, Hw. apply map_union_subseteq_r.
      apply map_disjoint_dom in Hn'. apply map_disjoint_dom.
      rewrite (dom_store _ _ _ _ Hst), dom_union_L in Hn'. set_solver.
Qed.

(** A method that starts with the shallow copy and does every field that is not plain. *)
Lemma struct_copies fs g d : distinct fs = true -> does fs ∅ g d ->
  (forall f t, (f, t) ∈ fs -> f ∉ d -> plain t = true) ->
  copies (TStruct fs) (fun i o => _ ← assign o i; g i o).
Proof.
  intros Hdist Hg Hplain h hi i o v x Hi Hs Hx Ho Hio Hsome.
  apply rep_struct in Hx as Hx'. destruct Hx' as (m & xm & -> & -> & Hm & Hxm & Hall).
  destruct (store_at_is_Some h o (VStruct m) Hsome) as [h1 Hh1].
  destruct (Hg h hi i o m xm ∅ h1) as (new & h2 & Hrun & Hn & mo & Hst & Hdom & Hfs); [done..| |].
  { split; [apply map_disjoint_empty_l|]. exists m. rewrite (left_id_L ∅ (∪)).
    split_and!; [done..|]. intros f t Hf. destruct (Hall f t Hf) as (y & z & ? & ? & ?).
    exists y, z. by rewrite decide_False by set_solver. }
  exists new, (VStruct mo), h2. split_and!; [done| |done|].
  - apply rep_struct. exists mo, xm. do 4 (split; [done|]). intros f t Hf.
    destruct (Hfs f t Hf) as (y & z & Hy & Hz & Hw). exists y, z. do 2 (split; [done|]).
    case_decide as Hin; [done|]. destruct (Hall f t Hf) as (y' & z' & ? & ? & ?). simplify_eq.
    eapply rep_plain; [by eapply Hplain|done].
  - unfold assign, load, store, mbind, mem_bind. cbn. rewrite Hi. cbn. rewrite Hh1. exact Hrun.
Qed.

(** *** What is allocated *)

#[local] Arguments alloc : simpl never.
#[local] Arguments load_at : simpl never.
#[local] Arguments store_at : simpl never.

Lemma alloc_fresh v h : exists l, h !! l = None /\ alloc v h = Some (l, <[l := v]> h).
Proof.
  exists (fresh (dom h)). split; [|done]. apply not_elem_of_dom, is_fresh.
Qed.

(** A new block [l], filled by [w], next to the blocks [n1] made later, with the
    address of it stored in [o]: the step all reference types share. *)
Lemma new_block (h n1 h1 h2 : heap) o l v0 w ref :
  h !! l = None -> is_Some (load_at h o) -> n1 ##ₘ h1 ->
  store_at (<[l := v0]> h) o ref = Some h1 ->
  store_at (n1 ∪ h1) (l, []) w = Some h2 ->
  <[l := w]> n1 ##ₘ h /\ n1 !! l = None /\ store_at (<[l := w]> n1 ∪ h) o ref = Some h2.
Proof.
  intros Hl [y Ho] Hn H1 H2.
  assert (Hol : o.1 <> l). { intros <-. unfold load_at in Ho. by rewrite Hl in Ho. }
  assert (Hl1 : h1 !! l = Some v0).
  { rewrite (lookup_store_ne _ _ _ _ _ H1) by done. apply lookup_insert_eq. }
  assert (Hnl : n1 !! l = None) by by eapply map_disjoint_Some_r.
  assert (Hd : n1 ##ₘ <[l := v0]> h).
  { apply map_disjoint_dom in Hn. apply map_disjoint_dom. by rewrite (dom_store _ _ _ _ H1) in Hn. }
  apply map_disjoint_insert_r in Hd as [_ Hd].
  split; [by apply map_disjoint_insert_l|]. split; [done|].
  unfold store_at in H1, H2 |- *. cbn in H2.
  rewrite lookup_union_r, Hl1 in H2 by done. cbn in H2. injection H2 as <-.
  rewrite lookup_insert_ne in H1 by done. unfold load_at in Ho.
  destruct (h !! o.1) as [b|] eqn:Hb; [|done]. cbn in H1.
  assert (Hno : n1 !! o.1 = None) by by eapply map_disjoint_Some_r.
  rewrite <- insert_union_l, lookup_insert_ne, lookup_union_r, Hb by done. cbn.
  destruct (put o.2 ref b) as [b'|]; [|done]. cbn in *. injection H1 as <-. f_equal.
  rewrite (insert_insert_ne h), <- (insert_union_r n1), insert_insert_eq by done.
  rewrite (insert_insert_ne (n1 ∪ h)), (insert_union_r n1) by done. done.
Qed.

(** *** References *)

Lemma rep_nil t h h' v x : is_nil v = true -> rep t h v x -> rep t h' v x.
Proof.
  destruct t; intros Hv Hx; try done.
  - apply rep_struct in Hx as (? & ? & -> & ?). done.
  - destruct Hx as [?|(? & ? & ? & -> & _)]; [by left|done].
  - destruct Hx as [?|(? & ? & ? & ? & ? & -> & _)]; [by left|done].
  - destruct Hx as [?|(? & ? & ? & -> & _)]; [by left|done].
Qed.

Lemma unless_nil_completes t f : fills t f -> completes t (unless_nil f).
Proof.
  intros Hf h hi i o v x Hi Hs Hx Ho Hio Hout.
  unfold unless_nil, load, mbind, mem_bind. rewrite Hi. cbn. destruct (is_nil v) eqn:Hv; [|eauto].
  exists ∅, v, h. split; [apply map_disjoint_empty_l|]. split; [by eapply rep_nil|].
  rewrite (left_id_L ∅ (∪)). split; [|done]. by apply store_load.
Qed.

(** A block made, and its reference stored at [out], in a heap that still holds [in]. *)
Lemma alloc_store (h hi : heap) i o v v0 (ref : loc -> val) :
  load_at h i = Some v -> hi ⊆ h -> o.1 ∉ dom hi -> i.1 <> o.1 -> is_Some (load_at h o) ->
  exists l h1, h !! l = None /\ alloc v0 h = Some (l, <[l := v0]> h) /\
    store_at (<[l := v0]> h) o (ref l) = Some h1 /\
    load_at h1 i = Some v /\ load_at h1 o = Some (ref l) /\
    hi ⊆ h1 /\ l ∉ dom hi /\ l <> o.1 /\ h1 !! l = Some v0.
Proof.
  intros Hi Hs Ho Hio Hout. destruct (alloc_fresh v0 h) as (l & Hl & Ha).
  assert (Hsub : h ⊆ <[l := v0]> h) by by apply insert_subseteq.
  assert (Hlo : l <> o.1).
  { intros ->. destruct Hout as [y Hy]. unfold load_at in Hy. by rewrite Hl in Hy. }
  destruct (store_at_is_Some (<[l := v0]> h) o (ref l)) as [h1 Hh1].
  { destruct Hout as [y Hy]. exists y. by eapply load_subseteq. }
  exists l, h1. do 3 (split; [done|]).
  split; [by rewrite (load_store_ne _ _ _ _ _ Hh1) by done; eapply load_subseteq|].
  split; [by eapply load_store|].
  split; [eapply store_subseteq; [|done..]; by etransitivity|]. split; [|split; [done|]].
  - rewrite elem_of_dom. intros [b Hb]. by rewrite (lookup_weaken _ _ _ _ Hb Hs) in Hl.
  - rewrite (lookup_store_ne _ _ _ _ _ Hh1) by done. apply lookup_insert_eq.
Qed.

Lemma copy_ptr_fills t deep : copies t deep -> fills (TPtr t) (copy_ptr t deep).
Proof.
  intros Hdeep h hi i o v x Hi Hs Hx Ho Hio Hout Hnil.
  destruct Hx as [[-> _]|(a & y & z & -> & -> & Ha & Hy)]; [done|].
  destruct (alloc_store h hi i o (VPtr (Some a)) (zero_of t) (fun l => VPtr (Some (l, []))))
    as (l & h1 & Hl & Hal & Hh1 & Hi1 & Ho1 & Hs1 & Hlhi & Hlo & Hl1); [done..|by eexists|].
  destruct (Hdeep h1 hi a (l, []) y z) as (n1 & w & h2 & Hn1 & Hw & Hh2 & Hrun); [|done..| | |].
  { by eapply load_subseteq. }
  { cbn. intros <-. apply Hlhi. apply elem_of_dom. unfold load_at in Ha.
    destruct (hi !! a.1); [by eexists|done]. }
  { exists (zero_of t). unfold load_at. cbn. by rewrite Hl1. }
  destruct (new_block h n1 h1 h2 o l (zero_of t) w (VPtr (Some (l, [])))) as (Hd & Hnl & Hst);
    [done|by eexists|done..|].
  exists (<[l := w]> n1), (VPtr (Some (l, []))), h2. split; [done|]. split; [|split; [done|]].
  - right. exists (l, []), w, z. do 2 (split; [done|]). split.
    + unfold load_at. cbn. by rewrite lookup_insert_eq.
    + eapply rep_mono, Hw. by apply insert_subseteq.
  - unfold copy_ptr, new, store, load_ptr, load, mbind, mem_bind, mret, mem_ret.
    rewrite Hal. cbn. rewrite Hh1. cbn. rewrite Hi1. cbn. rewrite Ho1. exact Hrun.
Qed.

(** *** Slices *)

Lemma load_block h l v : h !! l = Some v -> load_at h (l, []) = Some v.
Proof. unfold load_at. cbn. by intros ->. Qed.

Lemma load_ne (h : heap) a l v : load_at h a = Some v -> h !! l = None -> a.1 <> l.
Proof. unfold load_at. intros Ha Hl E. by rewrite E, Hl in Ha. Qed.

Lemma take_drop_whole {A} n (xs : list A) : length xs = n -> take n (drop 0 xs) = xs.
Proof. intros <-. by rewrite drop_0, take_ge. Qed.

Lemma copy_list_fills t : plain t = true -> fills (TSlice t) (copy_list t).
Proof.
  intros Hp h hi i o v x Hi Hs Hx Ho Hio Hout Hnil.
  destruct Hx as [[-> _]|(li & off & n & vs & xs & -> & -> & Hli & Hlen & Hall)]; [done|].
  destruct (alloc_store h hi i o (VSlice (Some (li, off, n))) (VArray (replicate n (zero_of t)))
    (fun l => VSlice (Some (l, 0, n))))
    as (l & h1 & Hl & Hal & Hh1 & Hi1 & Ho1 & Hs1 & Hlhi & Hlo & Hl1); [done..|by eexists|].
  set (ws := take n (drop off vs)) in *.
  assert (Hws : length ws = n) by (unfold ws; rewrite length_take, length_drop; lia).
  assert (Hst : store_at (∅ ∪ h1) (l, []) (VArray ws) = Some (<[l := VArray ws]> h1)).
  { rewrite (left_id_L ∅ (∪)). unfold store_at. cbn. by rewrite Hl1. }
  destruct (new_block h ∅ h1 _ o l _ (VArray ws) (VSlice (Some (l, 0, n))) Hl (ex_intro _ _ Hout)
    (map_disjoint_empty_l _) Hh1 Hst) as (Hd & _ & Hst').
  exists (<[l := VArray ws]> ∅), (VSlice (Some (l, 0, n))), (<[l := VArray ws]> h1).
  split; [done|]. split; [|split; [done|]].
  - right. exists l, 0, n, ws, xs. do 2 (split; [done|]). split; [apply lookup_insert_eq|].
    split; [lia|]. rewrite take_drop_whole by done.
    eapply Forall2_impl; [exact Hall|]. intros y z. by apply rep_plain.
  - unfold copy_list, len_slice, make_slice, copy_slice, load_slice, load_array, load, store,
      mbind, mem_bind, mret, mem_ret. rewrite Hi. cbn. rewrite Hal. cbn. rewrite Hh1. cbn.
    rewrite Ho1. cbn. rewrite Hi1. cbn. rewrite (load_block _ _ _ Hl1). cbn.
    rewrite (load_block h1 li (VArray vs)) by by eapply lookup_weaken. cbn.
    rewrite (drop_ge (replicate _ _)) by (rewrite length_replicate; lia).
    rewrite app_nil_r, Nat.min_id, take_0. fold ws. cbn [app]. rewrite (left_id_L ∅ (∪)) in Hst. by rewrite Hst.
Qed.

Lemma bind_run {A B} (m : mem A) (f : A -> mem B) h a h' : m h = Some (a, h') ->
  mbind f m h = f a h'.
Proof. unfold mbind, mem_bind. by intros ->. Qed.

Lemma elem_run h a i l off n : load_at h a = Some (VSlice (Some (l, off, n))) -> i < n ->
  elem a i h = Some ((l, [Elem (off + i)]), h).
Proof.
  intros Ha Hi. unfold elem, load_slice, load, mbind, mem_bind, mret, mem_ret.
  rewrite Ha. cbn. by rewrite decide_True.
Qed.

(** One round of the loop: the [k]-th element [y], with [k] copies made. *)
Lemma copy_element t deep (h1 hi : heap) li off vs k y z l ws nk m hk :
  copies t deep -> hi ⊆ h1 -> hi !! li = Some (VArray vs) -> l ∉ dom hi ->
  drop off vs !! k = Some y -> rep t hi y z -> length ws = k -> nk ##ₘ h1 ->
  store_at (nk ∪ h1) (l, []) (VArray (ws ++ replicate (S m) (zero_of t))) = Some hk ->
  exists n2 w h2, n2 ∪ nk ##ₘ h1 /\ nk ⊆ n2 ∪ nk /\ rep t n2 w z /\
    store_at (n2 ∪ nk ∪ h1) (l, []) (VArray ((ws ++ [w]) ++ replicate m (zero_of t))) = Some h2 /\
    deep (li, [Elem (off + k)]) (l, [Elem k]) hk = Some (tt, h2).
Proof.
  intros Hdeep Hs Hli Hlhi Hy Hrep Hws Hd Hst.
  assert (Hs' : hi ⊆ hk).
  { eapply (store_subseteq hi _ hk (l, [])); [|exact Hlhi|exact Hst].
    etransitivity; [exact Hs|]. by apply map_union_subseteq_r. }
  pose proof (load_store _ _ _ _ Hst) as Hl.
  assert (Hput : forall w, put [Elem k] w (VArray (ws ++ replicate (S m) (zero_of t))) =
    Some (VArray ((ws ++ [w]) ++ replicate m (zero_of t)))).
  { intros w. cbn. rewrite lookup_app_r, Hws, Nat.sub_diag by lia. cbn. do 2 f_equal.
    rewrite insert_app_r_alt, Hws, Nat.sub_diag by lia. cbn. by rewrite <- app_assoc. }
  destruct (Hdeep hk hi (li, [Elem (off + k)]) (l, [Elem k]) y z)
    as (n2 & w & h2 & Hn2 & Hw & Hst2 & Hrun); [|done..| | |].
  { transitivity (get [Elem (off + k)] (VArray vs)).
    - apply (load_below hk (li, []) [Elem (off + k)]), load_block. by eapply lookup_weaken.
    - cbn. rewrite lookup_drop in Hy. by rewrite Hy. }
  { cbn. intros ->. apply Hlhi. by apply elem_of_dom_2 in Hli. }
  { exists (zero_of t). transitivity (get [Elem k] (VArray (ws ++ replicate (S m) (zero_of t)))).
    - by apply (load_below hk (l, []) [Elem k]).
    - cbn. by rewrite lookup_app_r, Hws, Nat.sub_diag by lia. }
  destruct (store_part nk h1 hk n2 h2 (l, []) [Elem k] _ _ w Hd Hst Hn2 Hst2 (Hput w))
    as [Hd' Hst'].
  exists n2, w, h2. split_and!; try done.
  apply map_union_subseteq_r. apply map_disjoint_dom in Hn2. apply map_disjoint_dom.
  rewrite (dom_store _ _ _ _ Hst), dom_union_L in Hn2. set_solver.
Qed.

(** The loop over the elements, from the [k]-th on. *)
Lemma copy_loop t deep (h1 hi : heap) i o li off n vs xs l :
  copies t deep -> load_at h1 i = Some (VSlice (Some (li, off, n))) ->
  load_at h1 o = Some (VSlice (Some (l, 0, n))) -> i.1 <> l -> o.1 <> l ->
  hi ⊆ h1 -> hi !! li = Some (VArray vs) -> off + n <= length vs -> l ∉ dom hi ->
  Forall2 (rep t hi) (take n (drop off vs)) xs ->
  forall m k ws nk hk, k + m = n -> length ws = k -> nk ##ₘ h1 ->
    Forall2 (rep t nk) ws (take k xs) ->
    store_at (nk ∪ h1) (l, []) (VArray (ws ++ replicate m (zero_of t))) = Some hk ->
    exists n' ws' h', length ws' = n /\ n' ##ₘ h1 /\ Forall2 (rep t n') ws' xs /\
      store_at (n' ∪ h1) (l, []) (VArray ws') = Some h' /\
      for_each (seq k m) (fun j => ai ← elem i j; ao ← elem o j; deep ai ao) hk = Some (tt, h').
Proof.
  intros Hdeep Hi Ho Hil Hol Hs Hli Hlen Hlhi Hall m.
  assert (Hxs : length xs = n).
  { apply Forall2_length in Hall. rewrite <- Hall, length_take, length_drop. lia. }
  induction m as [|m IH]; intros k ws nk hk Hk Hws Hd Hdone Hst.
  { exists nk, ws, hk. rewrite app_nil_r in Hst. rewrite take_ge in Hdone by lia.
    split_and!; try done. lia. }
  destruct (lookup_lt_is_Some_2 (drop off vs) k) as [y Hy]; [rewrite length_drop; lia|].
  destruct (Forall2_lookup_l _ _ _ k y Hall) as (z & Hz & Hrep).
  { by rewrite lookup_take_lt by lia. }
  assert (Hi' : load_at hk i = Some (VSlice (Some (li, off, n)))).
  { rewrite (load_store_ne _ _ _ _ _ Hst) by done. by apply load_union. }
  assert (Ho' : load_at hk o = Some (VSlice (Some (l, 0, n)))).
  { rewrite (load_store_ne _ _ _ _ _ Hst) by done. by apply load_union. }
  destruct (copy_element t deep h1 hi li off vs k y z l ws nk m hk)
    as (n2 & w & h2 & Hd2 & Hnn & Hw & Hst2 & Hrun); [done..|].
  destruct (IH (S k) (ws ++ [w]) (n2 ∪ nk) h2) as (n' & ws' & h' & ? & ? & ? & ? & Hloop);
    [lia|rewrite length_app; cbn; lia|done| |done|].
  { rewrite (take_S_r _ _ _ Hz). apply Forall2_app; [|repeat constructor].
    - eapply Forall2_impl; [exact Hdone|]. intros ??. by apply rep_mono.
    - eapply rep_mono, Hw. by apply map_union_subseteq_l. }
  exists n', ws', h'. do 4 (split; [done|]). cbn [seq for_each].
  erewrite bind_run; [exact Hloop|]. erewrite bind_run by (eapply elem_run; [done|lia]).
  erewrite bind_run by (eapply elem_run; [done|lia]). exact Hrun.
Qed.

Lemma copy_elems_fills t deep : copies t deep -> fills (TSlice t) (copy_elems t deep).
Proof.
  intros Hdeep h hi i o v x Hi Hs Hx Ho Hio Hout Hnil.
  destruct Hx as [[-> _]|(li & off & n & vs & xs & -> & -> & Hli & Hlen & Hall)]; [done|].
  destruct (alloc_store h hi i o (VSlice (Some (li, off, n))) (VArray (replicate n (zero_of t)))
    (fun l => VSlice (Some (l, 0, n))))
    as (l & h1 & Hl & Hal & Hh1 & Hi1 & Ho1 & Hs1 & Hlhi & Hlo & Hl1); [done..|by eexists|].
  destruct (copy_loop t deep h1 hi i o li off n vs xs l Hdeep Hi1 Ho1 (load_ne _ _ _ _ Hi Hl)
    (not_eq_sym Hlo) Hs1 Hli Hlen Hlhi Hall n 0 [] ∅ h1)
    as (n1 & ws & h2 & Hws & Hn1 & Hall' & Hst & Hrun); [done|done|apply map_disjoint_empty_l| | |].
  { by rewrite take_0. }
  { rewrite (left_id_L ∅ (∪)). cbn. by apply store_load, load_block. }
  destruct (new_block h n1 h1 h2 o l _ (VArray ws) (VSlice (Some (l, 0, n))) Hl (ex_intro _ _ Hout)
    Hn1 Hh1 Hst) as (Hd & Hnl & Hst').
  exists (<[l := VArray ws]> n1), (VSlice (Some (l, 0, n))), h2. split; [done|].
  split; [|split; [done|]].
  - right. exists l, 0, n, ws, xs. do 2 (split; [done|]). split; [apply lookup_insert_eq|].
    split; [lia|]. rewrite take_drop_whole by done. eapply Forall2_impl; [exact Hall'|].
    intros y z. apply rep_mono. by apply insert_subseteq.
  - unfold copy_elems, len_slice, make_slice, load, store, mbind, mem_bind, mret, mem_ret.
    rewrite Hi. cbn. rewrite Hal. cbn. rewrite Hh1. cbn. exact Hrun.
Qed.

(** *** Maps *)

(** Every entry of [tk] has its content in [new]. *)
Definition entries_rep (t : ty) (xm : gmap string tree) (new : heap) (tk : gmap string val) : Prop :=
  forall k w, tk !! k = Some w -> exists x, xm !! k = Some x /\ rep t new w x.

Lemma set_key_run h a k w l tk h' : load_at h a = Some (VMap (Some l)) ->
  h !! l = Some (VTable tk) -> store_at h (l, []) (VTable (<[k := w]> tk)) = Some h' ->
  set_key a k w h = Some (tt, h').
Proof.
  intros Ha Hl Hst. unfold set_key, load_map, load_table, load, store, mbind, mem_bind, mret, mem_ret.
  rewrite Ha. cbn. rewrite (load_block _ _ _ Hl). cbn. by rewrite Hst.
Qed.

Lemma entries_loop t body (h1 hi : heap) o xm l :
  copies_value t body -> load_at h1 o = Some (VMap (Some l)) -> o.1 <> l ->
  hi ⊆ h1 -> l ∉ dom hi ->
  forall es tk nk hk, Forall (fun e => exists x, xm !! e.1 = Some x /\ rep t hi e.2 x) es ->
    nk ##ₘ h1 -> entries_rep t xm nk tk -> store_at (nk ∪ h1) (l, []) (VTable tk) = Some hk ->
    exists n' t' h', n' ##ₘ h1 /\ entries_rep t xm n' t' /\
      dom t' = dom tk ∪ list_to_set es.*1 /\
      store_at (n' ∪ h1) (l, []) (VTable t') = Some h' /\
      for_each es (fun '(key, v) => w ← body v; set_key o key w) hk = Some (tt, h').
Proof.
  intros Hbody Ho Hol Hs Hlhi es.
  induction es as [|[k v] es IH]; intros tk nk hk Hes Hd Hdone Hst.
  { exists nk, tk, hk. cbn. split_and!; try done. by rewrite (right_id_L ∅ (∪)). }
  apply Forall_cons in Hes as [(x & Hx & Hrep) Hes]. cbn in Hx, Hrep.
  assert (Hs' : hi ⊆ hk).
  { eapply (store_subseteq hi _ hk (l, [])); [|exact Hlhi|exact Hst].
    etransitivity; [exact Hs|]. by apply map_union_subseteq_r. }
  destruct (Hbody hk hi v x Hs' Hrep) as (n2 & w & Hn2 & Hrun & Hw).
  pose proof (load_store _ _ _ _ Hst) as Hl.
  destruct (store_at_is_Some (n2 ∪ hk) (l, []) (VTable (<[k := w]> tk))) as [h2 Hh2].
  { exists (VTable tk). by apply load_union. }
  destruct (store_part nk h1 hk n2 h2 (l, []) [] _ (VTable (<[k := w]> tk)) _ Hd Hst Hn2 Hh2
    eq_refl) as [Hd' Hst'].
  apply map_disjoint_union_l in Hd' as Hd''. destruct Hd'' as [Hd1 Hd2].
  assert (Hnn : nk ⊆ n2 ∪ nk).
  { apply map_union_subseteq_r. apply map_disjoint_dom in Hn2. apply map_disjoint_dom.
    rewrite (dom_store _ _ _ _ Hst), dom_union_L in Hn2. set_solver. }
  destruct (IH (<[k := w]> tk) (n2 ∪ nk) h2) as (n' & t' & h' & ? & ? & Hdom & ? & Hloop); [done..| |done|].
  { intros k' w'. destruct (decide (k' = k)) as [->|?].
    - rewrite lookup_insert_eq. intros [= <-]. exists x. split; [done|].
      eapply rep_mono, Hw. by apply map_union_subseteq_l.
    - rewrite lookup_insert_ne by done. intros (x' & ? & ?)%Hdone. exists x'. split; [done|].
      by eapply rep_mono. }
  exists n', t', h'. do 2 (split; [done|]). split; [|split; [done|]].
  { rewrite Hdom, dom_insert_L. cbn. set_solver. }
  cbn [for_each]. erewrite bind_run; [exact Hloop|]. erewrite bind_run by exact Hrun.
  eapply set_key_run; [| |exact Hh2].
  - apply load_union; [done|]. rewrite (load_store_ne _ _ _ _ _ Hst) by done. by apply load_union.
  - apply lookup_union_Some_r; [done|]. revert Hl. unfold load_at. cbn.
    by destruct (hk !! l) as [b|].
Qed.

Lemma copy_entries_fills `{RangeOrder} t body : copies_value t body -> fills (TMap t) (copy_entries body).
Proof.
  intros Hbody h hi i o v x Hi Hs Hx Ho Hio Hout Hnil.
  destruct Hx as [[-> _]|(li & m & xm & -> & -> & Hli & Hall)]; [done|].
  destruct (alloc_store h hi i o (VMap (Some li)) (VTable ∅) (fun l => VMap (Some l)))
    as (l & h1 & Hl & Hal & Hh1 & Hi1 & Ho1 & Hs1 & Hlhi & Hlo & Hl1); [done..|by eexists|].
  pose proof (range_order_spec m) as Hperm.
  destruct (entries_loop t body h1 hi o xm l Hbody Ho1 (not_eq_sym Hlo) Hs1 Hlhi (range_order m) ∅ ∅ h1)
    as (n1 & t' & h2 & Hn1 & Hrep & Hdom & Hst & Hrun); [|apply map_disjoint_empty_l|done| |].
  { rewrite Hperm. apply Forall_forall. intros [k y] Hk%elem_of_map_to_list.
    specialize (Hall k). cbn. rewrite Hk in Hall.
    destruct (xm !! k) as [z|]; [|by inversion Hall]. exists z. split; [done|]. by inversion Hall. }
  { rewrite (left_id_L ∅ (∪)). by apply store_load, load_block. }
  destruct (new_block h n1 h1 h2 o l _ (VTable t') (VMap (Some l)) Hl (ex_intro _ _ Hout) Hn1 Hh1 Hst)
    as (Hd & Hnl & Hst').
  exists (<[l := VTable t']> n1), (VMap (Some l)), h2. split; [done|]. split; [|split; [done|]].
  - right. exists l, t', xm. do 2 (split; [done|]). split; [apply lookup_insert_eq|].
    assert (Hdt : dom t' = dom xm).
    { rewrite Hdom, Hperm, dom_empty_L, (left_id_L ∅ (∪)).
      rewrite <- (map_Forall2_dom_L _ _ _ Hall). symmetry. apply leibniz_equiv, dom_alt. }
    intros k. destruct (t' !! k) as [w|] eqn:Hk.
    + destruct (Hrep k w Hk) as (z & -> & Hz). constructor.
      eapply rep_mono, Hz. by apply insert_subseteq.
    + apply not_elem_of_dom in Hk. rewrite Hdt in Hk. apply not_elem_of_dom in Hk as ->. constructor.
  - unfold copy_entries, make_map. erewrite bind_run.
    2: { erewrite bind_run by exact Hal. unfold store, mbind. by rewrite Hh1. }
    erewrite bind_run.
    2: { unfold load_map, load. erewrite bind_run by by rewrite Hi1. done. }
    erewrite bind_run; [exact Hrun|]. unfold load_table, load.
    erewrite bind_run by (rewrite (load_block h1 li (VTable m)); [done|by eapply lookup_weaken]). done.
Qed.

Lemma plain_entry_copies t : plain t = true -> copies_value t plain_entry.
Proof.
  intros Hp h hi v x _ Hx. exists ∅, v. split; [apply map_disjoint_empty_l|].
  rewrite (left_id_L ∅ (∪)). split; [done|]. by eapply rep_plain.
Qed.

(** *** Whole objects *)

Lemma alloc_next (h hi : heap) v : hi ⊆ h ->
  exists l, h !! l = None /\ l ∉ dom hi /\ hi ⊆ <[l := v]> h /\ alloc v h = Some (l, <[l := v]> h).
Proof.
  intros Hs. destruct (alloc_fresh v h) as (l & Hl & Ha). exists l. split; [done|].
  split; [|split; [|done]].
  - rewrite elem_of_dom. intros [b Hb]. by rewrite (lookup_weaken _ _ _ _ Hb Hs) in Hl.
  - etransitivity; [exact Hs|]. by apply insert_subseteq.
Qed.

(** The block of the copy, and those it needed. *)
Lemma grown_block (h n1 : heap) l v w : h !! l = None -> n1 ##ₘ <[l := v]> h ->
  <[l := w]> n1 ##ₘ h /\ n1 !! l = None /\ <[l := w]> (n1 ∪ <[l := v]> h) = <[l := w]> n1 ∪ h.
Proof.
  intros Hl [Hn Hd]%map_disjoint_insert_r. split; [by apply map_disjoint_insert_l|].
  split; [done|]. by rewrite <- insert_union_r, insert_insert_eq, insert_union_l.
Qed.

Lemma deep_copy_new t into : copies t into -> copies_new t (deep_copy t into).
Proof.
  intros Hinto. split; [done|]. intros h hi i v x Hi Hs Hx.
  destruct (alloc_next h hi (zero_of t) Hs) as (l & Hl & Hlhi & Hs' & Ha).
  destruct (Hinto (<[l := zero_of t]> h) hi i (l, []) v x)
    as (n1 & v' & h' & Hn1 & Hv' & Hst & Hrun); [|done..| | |].
  { eapply load_subseteq, Hi. by apply insert_subseteq. }
  { by eapply load_ne. }
  { exists (zero_of t). apply load_block, lookup_insert_eq. }
  destruct (grown_block h n1 l (zero_of t) v' Hl Hn1) as (Hd & Hnl & Heq).
  exists (<[l := v']> n1), l, v'. split; [done|].
  split; [|split; [apply lookup_insert_eq|eapply rep_mono, Hv'; by apply insert_subseteq]].
  unfold deep_copy, new. erewrite bind_run by (erewrite bind_run by exact Ha; done).
  erewrite bind_run by exact Hrun. unfold mret, mem_ret. do 2 f_equal. rewrite <- Heq.
  unfold store_at in Hst. cbn in Hst. rewrite lookup_union_r, lookup_insert_eq in Hst by done.
  cbn in Hst. by injection Hst as <-.
Qed.

Lemma deep_entry_copies t copy : copies_new t copy -> copies_value t (deep_entry copy).
Proof.
  intros [_ Hcopy] h hi v x Hs Hx.
  destruct (alloc_next h hi v Hs) as (l & Hl & Hlhi & Hs' & Ha).
  destruct (Hcopy (<[l := v]> h) hi (l, []) v x) as (n1 & l2 & w & Hn1 & Hrun & Hl2 & Hw); [|done..|].
  { apply load_block, lookup_insert_eq. }
  destruct (grown_block h n1 l v v Hl Hn1) as (Hd & Hnl & Heq).
  exists (<[l := v]> n1), w. split; [done|]. split; [|eapply rep_mono, Hw; by apply insert_subseteq].
  unfold deep_entry. erewrite bind_run by exact Ha. erewrite bind_run by exact Hrun.
  unfold load. rewrite (load_block _ l2 w) by by apply lookup_union_Some_l. cbn.
  rewrite <- Heq, (insert_id (n1 ∪ _)); [done|].
  rewrite lookup_union_r by done. apply lookup_insert_eq.
Qed.
