(* ===== verification/DeepCopyLibs.v ===== *)
(** * What the deep copies of the API packages call in their libraries

    The structs of the Kubernetes and Cluster API libraries that the types embed, and
    their own deep copies, are parameters; [ForeignLaws] states what their
    documentation says of them: a deep copy shares nothing with its original, and the
    generator assigns a struct only when it holds no references. [simple_foreign] is
    an instance with the fields the controllers read. *)

From S2P Require Import Prelude GoMemory MemoryFacts.

Local Open Scope nat_scope.

Class Foreign := {
  TypeMeta_t : ty;
  ListMeta_t : ty;
  ObjectMeta_t : ty;
  TemplateMeta_t : ty;     (* ObjectMeta of the Cluster API *)
  APIEndpoint_t : ty;
  MachineAddress_t : ty;
  Condition_t : ty;
  FailureDomainSpec_t : ty;
  ListMeta_DeepCopyInto : addr -> addr -> mem unit;
  ObjectMeta_DeepCopyInto : addr -> addr -> mem unit;
  TemplateMeta_DeepCopyInto : addr -> addr -> mem unit;
  Condition_DeepCopyInto : addr -> addr -> mem unit;
  FailureDomainSpec_DeepCopy : option addr -> mem (option addr);
}.

Class ForeignLaws `{Foreign} := {
  TypeMeta_plain : plain TypeMeta_t = true;
  APIEndpoint_plain : plain APIEndpoint_t = true;
  MachineAddress_plain : plain MachineAddress_t = true;
  ListMeta_copies : copies ListMeta_t ListMeta_DeepCopyInto;
  ObjectMeta_copies : copies ObjectMeta_t ObjectMeta_DeepCopyInto;
  TemplateMeta_copies : copies TemplateMeta_t TemplateMeta_DeepCopyInto;
  Condition_copies : copies Condition_t Condition_DeepCopyInto;
  FailureDomainSpec_copies : copies_new FailureDomainSpec_t FailureDomainSpec_DeepCopy;
}.

(** ** Automation: a method of the generator, field by field *)

Lemma does_if_set fs d f t g : distinct fs = true -> (f, t) ∈ fs -> f ∉ d -> fills t g ->
  does fs d (if_set f g) ({[f]} ∪ d).
Proof.
  intros Hfs Hf Hd Hg. exact (does_field fs d f t (unless_nil g) Hfs Hf Hd (unless_nil_completes t g Hg)).
Qed.

Create HintDb copying.

#[export] Hint Resolve copies_completes plainly_copies copy_ptr_fills copy_list_fills
  copy_elems_fills copy_entries_fills plain_entry_copies deep_entry_copies deep_copy_new
  TypeMeta_plain APIEndpoint_plain MachineAddress_plain ListMeta_copies ObjectMeta_copies
  TemplateMeta_copies Condition_copies FailureDomainSpec_copies : copying.
#[export] Hint Extern 1 (plain _ = true) => reflexivity : copying.

(** The type of a field. *)
Ltac find_field := repeat first [apply list_elem_of_here | apply list_elem_of_further].

Ltac copy_field :=
  first [eapply does_if_set | eapply does_field];
  [reflexivity | find_field | by apply (bool_decide_unpack _); vm_compute | by auto with copying].

(** The fields that the method leaves to the assignment are plain. *)
Ltac other_fields :=
  let f := fresh "f" in let t := fresh "t" in let Hf := fresh "Hf" in let Hd := fresh "Hd" in
  intros f t Hf Hd; revert Hd;
  repeat (apply elem_of_cons in Hf as [[= -> ->]|Hf];
    [first [intros _; by auto with copying
           |intros Hd; exfalso; apply Hd; by apply (bool_decide_unpack _); vm_compute]|]);
  by apply not_elem_of_nil in Hf.

Ltac copy_struct :=
  first
    [ apply plainly_copies; reflexivity
    | eapply struct_copies;
      [reflexivity
      |repeat first [eapply does_seq; [copy_field|] | copy_field]
      |other_fields] ].
