(* ===== verification/DeepCopyV2.v ===== *)
(** * The generated deep copies of api/v1alpha2

    The types of the package as structs in memory, with the fields of
    [*_types.go] in their order, and the methods of [zz_generated.deepcopy.go]. *)

From S2P Require Import Prelude GoMemory MemoryFacts DeepCopyLibs.

Section v1alpha2.
Context `{F : Foreign} `{R : RangeOrder}.

(** ** Initialization *)

Definition Initialization_t : ty :=
  TStruct [("Provisioned", TBool)].

Definition Initialization_DeepCopyInto (in_ out : addr) : mem unit :=
  assign out in_.

Definition Initialization_DeepCopy : option addr -> mem (option addr) :=
  deep_copy Initialization_t Initialization_DeepCopyInto.

(** ** OVHDNSConfig *)

Definition OVHDNSConfig_t : ty :=
  TStruct [("ZoneName", TString); ("RecordName", TString); ("TTL", TInt)].

Definition OVHDNSConfig_DeepCopyInto (in_ out : addr) : mem unit :=
  assign out in_.

Definition OVHDNSConfig_DeepCopy : option addr -> mem (option addr) :=
  deep_copy OVHDNSConfig_t OVHDNSConfig_DeepCopyInto.

(** ** OVHListener *)

Definition OVHListener_t : ty :=
  TStruct [("Name", TString); ("Port", TInt); ("Protocol", TString); ("BackendPort", TInt)].

Definition OVHListener_DeepCopyInto (in_ out : addr) : mem unit :=
  assign out in_.

Definition OVHListener_DeepCopy : option addr -> mem (option addr) :=
  deep_copy OVHListener_t OVHListener_DeepCopyInto.

(** ** OVHLoadBalancerConfig *)

Definition OVHLoadBalancerConfig_t : ty :=
  TStruct [("SubnetID", TString); ("FlavorName", TString); ("FloatingNetworkID", TString);
    ("Listeners", TSlice OVHListener_t); ("ExistingLoadBalancerID", TString);
    ("ExistingFloatingIPID", TString)].

Definition OVHLoadBalancerConfig_DeepCopyInto (in_ out : addr) : mem unit :=
  _ ← assign out in_;
  if_set "Listeners" (copy_list OVHListener_t) in_ out.

Definition OVHLoadBalancerConfig_DeepCopy : option addr -> mem (option addr) :=
  deep_copy OVHLoadBalancerConfig_t OVHLoadBalancerConfig_DeepCopyInto.

(** ** OVHNetworkConfig *)

Definition OVHNetworkConfig_t : ty :=
  TStruct [("PrivateNetworkID", TString); ("SubnetCIDR", TString); ("VlanID", TInt);
    ("Gateway", TString); ("DNSServers", TSlice TString)].

Definition OVHNetworkConfig_DeepCopyInto (in_ out : addr) : mem unit :=
  _ ← assign out in_;
  if_set "DNSServers" (copy_list TString) in_ out.

Definition OVHNetworkConfig_DeepCopy : option addr -> mem (option addr) :=
  deep_copy OVHNetworkConfig_t OVHNetworkConfig_DeepCopyInto.

(** ** OVHSecurityRule *)

Definition OVHSecurityRule_t : ty :=
  TStruct [("Direction", TString); ("Protocol", TString); ("PortRangeMin", TPtr TInt);
    ("PortRangeMax", TPtr TInt); ("RemoteIPPrefix", TString); ("EtherType", TString)].

Definition OVHSecurityRule_DeepCopyInto (in_ out : addr) : mem unit :=
  _ ← assign out in_;
  _ ← if_set "PortRangeMin" (copy_ptr TInt plainly) in_ out;
  if_set "PortRangeMax" (copy_ptr TInt plainly) in_ out.

Definition OVHSecurityRule_DeepCopy : option addr -> mem (option addr) :=
  deep_copy OVHSecurityRule_t OVHSecurityRule_DeepCopyInto.

(** ** OVHSecurityGroup *)

Definition OVHSecurityGroup_t : ty :=
  TStruct [("Name", TString); ("Rules", TSlice OVHSecurityRule_t)].

Definition OVHSecurityGroup_DeepCopyInto (in_ out : addr) : mem unit :=
  _ ← assign out in_;
  if_set "Rules" (copy_elems OVHSecurityRule_t OVHSecurityRule_DeepCopyInto) in_ out.

Definition OVHSecurityGroup_DeepCopy : option addr -> mem (option addr) :=
  deep_copy OVHSecurityGroup_t OVHSecurityGroup_DeepCopyInto.

(** ** SecretKey *)

Definition SecretKey_t : ty :=
  TStruct [("Namespace", TString); ("Name", TString)].

Definition SecretKey_DeepCopyInto (in_ out : addr) : mem unit :=
  assign out in_.

Definition SecretKey_DeepCopy : option addr -> mem (option addr) :=
  deep_copy SecretKey_t SecretKey_DeepCopyInto.

(** ** OVHClusterSpec *)

Definition OVHClusterSpec_t : ty :=
  TStruct [("ServiceName", TString); ("Region", TString); ("IdentitySecret", SecretKey_t);
    ("ControlPlaneEndpoint", APIEndpoint_t); ("LoadBalancerConfig", OVHLoadBalancerConfig_t);
    ("NetworkConfig", TPtr OVHNetworkConfig_t); ("SSHKeyName", TString);
    ("FailureDomains", TSlice TString); ("SecurityGroups", TSlice OVHSecurityGroup_t);
    ("DefaultTags", TMap TString); ("DNSConfig", TPtr OVHDNSConfig_t)].

Definition OVHClusterSpec_DeepCopyInto (in_ out : addr) : mem unit :=
  _ ← assign out in_;
  _ ← in_place "IdentitySecret" plainly in_ out;
  _ ← in_place "ControlPlaneEndpoint" plainly in_ out;
  _ ← in_place "LoadBalancerConfig" OVHLoadBalancerConfig_DeepCopyInto in_ out;
  _ ← if_set "NetworkConfig" (copy_ptr OVHNetworkConfig_t OVHNetworkConfig_DeepCopyInto) in_ out;
  _ ← if_set "FailureDomains" (copy_list TString) in_ out;
  _ ← if_set "SecurityGroups" (copy_elems OVHSecurityGroup_t OVHSecurityGroup_DeepCopyInto) in_ out;
  _ ← if_set "DefaultTags" (copy_entries plain_entry) in_ out;
  if_set "DNSConfig" (copy_ptr OVHDNSConfig_t plainly) in_ out.

Definition OVHClusterSpec_DeepCopy : option addr -> mem (option addr) :=
  deep_copy OVHClusterSpec_t OVHClusterSpec_DeepCopyInto.

(** ** OVHClusterStatus *)

Definition OVHClusterStatus_t : ty :=
  TStruct [("Ready", TBool); ("FailureReason", TString); ("FailureMessage", TString);
    ("Conditions", TSlice Condition_t); ("NetworkID", TString); ("SubnetID", TString);
    ("LoadBalancerID", TString); ("ListenerID", TString); ("PoolID", TString);
    ("FloatingIPID", TString); ("GatewayID", TString); ("GatewayExposed", TBool);
    ("RegisterListenerID", TString); ("RegisterPoolID", TString);
    ("FailureDomains", TMap FailureDomainSpec_t); ("SecurityGroupIDs", TMap TString);
    ("DNSRecordID", TInt)].

Definition OVHClusterStatus_DeepCopyInto (in_ out : addr) : mem unit :=
  _ ← assign out in_;
  _ ← if_set "Conditions" (copy_elems Condition_t Condition_DeepCopyInto) in_ out;
  _ ← if_set "FailureDomains" (copy_entries (deep_entry FailureDomainSpec_DeepCopy)) in_ out;
  if_set "SecurityGroupIDs" (copy_entries plain_entry) in_ out.

Definition OVHClusterStatus_DeepCopy : option addr -> mem (option addr) :=
  deep_copy OVHClusterStatus_t OVHClusterStatus_DeepCopyInto.

(** ** OVHCluster *)

Definition OVHCluster_t : ty :=
  TStruct [("TypeMeta", TypeMeta_t); ("ObjectMeta", ObjectMeta_t); ("Spec", OVHClusterSpec_t);
    ("Status", OVHClusterStatus_t)].

Definition OVHCluster_DeepCopyInto (in_ out : addr) : mem unit :=
  _ ← assign out in_;
  _ ← in_place "TypeMeta" plainly in_ out;
  _ ← in_place "ObjectMeta" ObjectMeta_DeepCopyInto in_ out;
  _ ← in_place "Spec" OVHClusterSpec_DeepCopyInto in_ out;
  in_place "Status" OVHClusterStatus_DeepCopyInto in_ out.

Definition OVHCluster_DeepCopy : option addr -> mem (option addr) :=
  deep_copy OVHCluster_t OVHCluster_DeepCopyInto.

Definition OVHCluster_DeepCopyObject : option addr -> mem (option (string * addr)) :=
  deep_copy_object "v1alpha2.OVHCluster" OVHCluster_DeepCopy.

(** ** OVHClusterList *)

Definition OVHClusterList_t : ty :=
  TStruct [("TypeMeta", TypeMeta_t); ("ListMeta", ListMeta_t); ("Items", TSlice OVHCluster_t)].

Definition OVHClusterList_DeepCopyInto (in_ out : addr) : mem unit :=
  _ ← assign out in_;
  _ ← in_place "TypeMeta" plainly in_ out;
  _ ← in_place "ListMeta" ListMeta_DeepCopyInto in_ out;
  if_set "Items" (copy_elems OVHCluster_t OVHCluster_DeepCopyInto) in_ out.

Definition OVHClusterList_DeepCopy : option addr -> mem (option addr) :=
  deep_copy OVHClusterList_t OVHClusterList_DeepCopyInto.

Definition OVHClusterList_DeepCopyObject : option addr -> mem (option (string * addr)) :=
  deep_copy_object "v1alpha2.OVHClusterList" OVHClusterList_DeepCopy.

(** ** OVHClusterTemplateResource *)

Definition OVHClusterTemplateResource_t : ty :=
  TStruct [("ObjectMeta", TemplateMeta_t); ("Spec", OVHClusterSpec_t)].

Definition OVHClusterTemplateResource_DeepCopyInto (in_ out : addr) : mem unit :=
  _ ← assign out in_;
  _ ← in_place "ObjectMeta" TemplateMeta_DeepCopyInto in_ out;
  in_place "Spec" OVHClusterSpec_DeepCopyInto in_ out.

Definition OVHClusterTemplateResource_DeepCopy : option addr -> mem (option addr) :=
  deep_copy OVHClusterTemplateResource_t OVHClusterTemplateResource_DeepCopyInto.

(** ** OVHClusterTemplateSpec *)

Definition OVHClusterTemplateSpec_t : ty :=
  TStruct [("Template", OVHClusterTemplateResource_t)].

Definition OVHClusterTemplateSpec_DeepCopyInto (in_ out : addr) : mem unit :=
  _ ← assign out in_;
  in_place "Template" OVHClusterTemplateResource_DeepCopyInto in_ out.

Definition OVHClusterTemplateSpec_DeepCopy : option addr -> mem (option addr) :=
  deep_copy OVHClusterTemplateSpec_t OVHClusterTemplateSpec_DeepCopyInto.

(** ** OVHClusterTemplate *)

Definition OVHClusterTemplate_t : ty :=
  TStruct [("TypeMeta", TypeMeta_t); ("ObjectMeta", ObjectMeta_t);
    ("Spec", OVHClusterTemplateSpec_t)].

Definition OVHClusterTemplate_DeepCopyInto (in_ out : addr) : mem unit :=
  _ ← assign out in_;
  _ ← in_place "TypeMeta" plainly in_ out;
  _ ← in_place "ObjectMeta" ObjectMeta_DeepCopyInto in_ out;
  in_place "Spec" OVHClusterTemplateSpec_DeepCopyInto in_ out.

Definition OVHClusterTemplate_DeepCopy : option addr -> mem (option addr) :=
  deep_copy OVHClusterTemplate_t OVHClusterTemplate_DeepCopyInto.

Definition OVHClusterTemplate_DeepCopyObject : option addr -> mem (option (string * addr)) :=
  deep_copy_object "v1alpha2.OVHClusterTemplate" OVHClusterTemplate_DeepCopy.

(** ** OVHClusterTemplateList *)

Definition OVHClusterTemplateList_t : ty :=
  TStruct [("TypeMeta", TypeMeta_t); ("ListMeta", ListMeta_t);
    ("Items", TSlice OVHClusterTemplate_t)].

Definition OVHClusterTemplateList_DeepCopyInto (in_ out : addr) : mem unit :=
  _ ← assign out in_;
  _ ← in_place "TypeMeta" plainly in_ out;
  _ ← in_place "ListMeta" ListMeta_DeepCopyInto in_ out;
  if_set "Items" (copy_elems OVHClusterTemplate_t OVHClusterTemplate_DeepCopyInto) in_ out.

Definition OVHClusterTemplateList_DeepCopy : option addr -> mem (option addr) :=
  deep_copy OVHClusterTemplateList_t OVHClusterTemplateList_DeepCopyInto.

Definition OVHClusterTemplateList_DeepCopyObject : option addr -> mem (option (string * addr)) :=
  deep_copy_object "v1alpha2.OVHClusterTemplateList" OVHClusterTemplateList_DeepCopy.

(** ** OVHClusterValidator *)

Definition OVHClusterValidator_t : ty :=
  TStruct [].

Definition OVHClusterValidator_DeepCopyInto (in_ out : addr) : mem unit :=
  assign out in_.

Definition OVHClusterValidator_DeepCopy : option addr -> mem (option addr) :=
  deep_copy OVHClusterValidator_t OVHClusterValidator_DeepCopyInto.

(** ** OVHVolume *)

Definition OVHVolume_t : ty :=
  TStruct [("Name", TString); ("SizeGB", TInt); ("Type", TString)].

Definition OVHVolume_DeepCopyInto (in_ out : addr) : mem unit :=
  assign out in_.

Definition OVHVolume_DeepCopy : option addr -> mem (option addr) :=
  deep_copy OVHVolume_t OVHVolume_DeepCopyInto.

(** ** OVHMachineSpec *)

Definition OVHMachineSpec_t : ty :=
  TStruct [("ProviderID", TString); ("FlavorName", TString); ("ImageName", TString);
    ("SSHKeyName", TString); ("RootDiskSize", TInt); ("AdditionalVolumes", TSlice OVHVolume_t);
    ("FailureDomain", TString); ("SecurityGroupNames", TSlice TString); ("Tags", TMap TString);
    ("BootstrapFormat", TString); ("ExistingInstanceID", TString)].

Definition OVHMachineSpec_DeepCopyInto (in_ out : addr) : mem unit :=
  _ ← assign out in_;
  _ ← if_set "AdditionalVolumes" (copy_list OVHVolume_t) in_ out;
  _ ← if_set "SecurityGroupNames" (copy_list TString) in_ out;
  if_set "Tags" (copy_entries plain_entry) in_ out.

Definition OVHMachineSpec_DeepCopy : option addr -> mem (option addr) :=
  deep_copy OVHMachineSpec_t OVHMachineSpec_DeepCopyInto.

(** ** OVHMachineStatus *)

Definition OVHMachineStatus_t : ty :=
  TStruct [("Ready", TBool); ("Conditions", TSlice Condition_t); ("FailureReason", TString);
    ("FailureMessage", TString); ("Addresses", TSlice MachineAddress_t);
    ("Initialization", Initialization_t); ("InstanceID", TString);
    ("VolumeIDs", TSlice TString); ("LBPoolMemberID", TString);
    ("RegisterPoolMemberID", TString)].

Definition OVHMachineStatus_DeepCopyInto (in_ out : addr) : mem unit :=
  _ ← assign out in_;
  _ ← if_set "Conditions" (copy_elems Condition_t Condition_DeepCopyInto) in_ out;
  _ ← if_set "Addresses" (copy_list MachineAddress_t) in_ out;
  _ ← in_place "Initialization" plainly in_ out;
  if_set "VolumeIDs" (copy_list TString) in_ out.

Definition OVHMachineStatus_DeepCopy : option addr -> mem (option addr) :=
  deep_copy OVHMachineStatus_t OVHMachineStatus_DeepCopyInto.

(** ** OVHMachine *)

Definition OVHMachine_t : ty :=
  TStruct [("TypeMeta", TypeMeta_t); ("ObjectMeta", ObjectMeta_t); ("Spec", OVHMachineSpec_t);
    ("Status", OVHMachineStatus_t)].

Definition OVHMachine_DeepCopyInto (in_ out : addr) : mem unit :=
  _ ← assign out in_;
  _ ← in_place "TypeMeta" plainly in_ out;
  _ ← in_place "ObjectMeta" ObjectMeta_DeepCopyInto in_ out;
  _ ← in_place "Spec" OVHMachineSpec_DeepCopyInto in_ out;
  in_place "Status" OVHMachineStatus_DeepCopyInto in_ out.

Definition OVHMachine_DeepCopy : option addr -> mem (option addr) :=
  deep_copy OVHMachine_t OVHMachine_DeepCopyInto.

Definition OVHMachine_DeepCopyObject : option addr -> mem (option (string * addr)) :=
  deep_copy_object "v1alpha2.OVHMachine" OVHMachine_DeepCopy.

(** ** OVHMachineList *)

Definition OVHMachineList_t : ty :=
  TStruct [("TypeMeta", TypeMeta_t); ("ListMeta", ListMeta_t); ("Items", TSlice OVHMachine_t)].

Definition OVHMachineList_DeepCopyInto (in_ out : addr) : mem unit :=
  _ ← assign out in_;
  _ ← in_place "TypeMeta" plainly in_ out;
  _ ← in_place "ListMeta" ListMeta_DeepCopyInto in_ out;
  if_set "Items" (copy_elems OVHMachine_t OVHMachine_DeepCopyInto) in_ out.

Definition OVHMachineList_DeepCopy : option addr -> mem (option addr) :=
  deep_copy OVHMachineList_t OVHMachineList_DeepCopyInto.

Definition OVHMachineList_DeepCopyObject : option addr -> mem (option (string * addr)) :=
  deep_copy_object "v1alpha2.OVHMachineList" OVHMachineList_DeepCopy.

(** ** OVHMachinePoolSpec *)

Definition OVHMachinePoolSpec_t : ty :=
  TStruct [("FlavorName", TString); ("ImageName", TString); ("SSHKeyName", TString);
    ("RootDiskSize", TInt); ("ProviderIDList", TSlice TString)].

Definition OVHMachinePoolSpec_DeepCopyInto (in_ out : addr) : mem unit :=
  _ ← assign out in_;
  if_set "ProviderIDList" (copy_list TString) in_ out.

Definition OVHMachinePoolSpec_DeepCopy : option addr -> mem (option addr) :=
  deep_copy OVHMachinePoolSpec_t OVHMachinePoolSpec_DeepCopyInto.

(** ** OVHMachinePoolStatus *)

Definition OVHMachinePoolStatus_t : ty :=
  TStruct [("Ready", TBool); ("Replicas", TInt); ("ReadyReplicas", TInt);
    ("Conditions", TSlice Condition_t); ("FailureReason", TString);
    ("FailureMessage", TString); ("InfrastructureReady", TBool); ("InstanceIDs", TSlice TString)].

Definition OVHMachinePoolStatus_DeepCopyInto (in_ out : addr) : mem unit :=
  _ ← assign out in_;
  _ ← if_set "Conditions" (copy_elems Condition_t Condition_DeepCopyInto) in_ out;
  if_set "InstanceIDs" (copy_list TString) in_ out.

Definition OVHMachinePoolStatus_DeepCopy : option addr -> mem (option addr) :=
  deep_copy OVHMachinePoolStatus_t OVHMachinePoolStatus_DeepCopyInto.

(** ** OVHMachinePool *)

Definition OVHMachinePool_t : ty :=
  TStruct [("TypeMeta", TypeMeta_t); ("ObjectMeta", ObjectMeta_t);
    ("Spec", OVHMachinePoolSpec_t); ("Status", OVHMachinePoolStatus_t)].

Definition OVHMachinePool_DeepCopyInto (in_ out : addr) : mem unit :=
  _ ← assign out in_;
  _ ← in_place "TypeMeta" plainly in_ out;
  _ ← in_place "ObjectMeta" ObjectMeta_DeepCopyInto in_ out;
  _ ← in_place "Spec" OVHMachinePoolSpec_DeepCopyInto in_ out;
  in_place "Status" OVHMachinePoolStatus_DeepCopyInto in_ out.

Definition OVHMachinePool_DeepCopy : option addr -> mem (option addr) :=
  deep_copy OVHMachinePool_t OVHMachinePool_DeepCopyInto.

Definition OVHMachinePool_DeepCopyObject : option addr -> mem (option (string * addr)) :=
  deep_copy_object "v1alpha2.OVHMachinePool" OVHMachinePool_DeepCopy.

(** ** OVHMachinePoolList *)

Definition OVHMachinePoolList_t : ty :=
  TStruct [("TypeMeta", TypeMeta_t); ("ListMeta", ListMeta_t);
    ("Items", TSlice OVHMachinePool_t)].

Definition OVHMachinePoolList_DeepCopyInto (in_ out : addr) : mem unit :=
  _ ← assign out in_;
  _ ← in_place "TypeMeta" plainly in_ out;
  _ ← in_place "ListMeta" ListMeta_DeepCopyInto in_ out;
  if_set "Items" (copy_elems OVHMachinePool_t OVHMachinePool_DeepCopyInto) in_ out.

Definition OVHMachinePoolList_DeepCopy : option addr -> mem (option addr) :=
  deep_copy OVHMachinePoolList_t OVHMachinePoolList_DeepCopyInto.

Definition OVHMachinePoolList_DeepCopyObject : option addr -> mem (option (string * addr)) :=
  deep_copy_object "v1alpha2.OVHMachinePoolList" OVHMachinePoolList_DeepCopy.

(** ** OVHMachineTemplateResource *)

Definition OVHMachineTemplateResource_t : ty :=
  TStruct [("ObjectMeta", TemplateMeta_t); ("Spec", OVHMachineSpec_t)].

Definition OVHMachineTemplateResource_DeepCopyInto (in_ out : addr) : mem unit :=
  _ ← assign out in_;
  _ ← in_place "ObjectMeta" TemplateMeta_DeepCopyInto in_ out;
  in_place "Spec" OVHMachineSpec_DeepCopyInto in_ out.

Definition OVHMachineTemplateResource_DeepCopy : option addr -> mem (option addr) :=
  deep_copy OVHMachineTemplateResource_t OVHMachineTemplateResource_DeepCopyInto.

(** ** OVHMachineTemplateSpec *)

Definition OVHMachineTemplateSpec_t : ty :=
  TStruct [("Template", OVHMachineTemplateResource_t)].

Definition OVHMachineTemplateSpec_DeepCopyInto (in_ out : addr) : mem unit :=
  _ ← assign out in_;
  in_place "Template" OVHMachineTemplateResource_DeepCopyInto in_ out.

Definition OVHMachineTemplateSpec_DeepCopy : option addr -> mem (option addr) :=
  deep_copy OVHMachineTemplateSpec_t OVHMachineTemplateSpec_DeepCopyInto.

(** ** OVHMachineTemplate *)

Definition OVHMachineTemplate_t : ty :=
  TStruct [("TypeMeta", TypeMeta_t); ("ObjectMeta", ObjectMeta_t);
    ("Spec", OVHMachineTemplateSpec_t)].

Definition OVHMachineTemplate_DeepCopyInto (in_ out : addr) : mem unit :=
  _ ← assign out in_;
  _ ← in_place "TypeMeta" plainly in_ out;
  _ ← in_place "ObjectMeta" ObjectMeta_DeepCopyInto in_ out;
  in_place "Spec" OVHMachineTemplateSpec_DeepCopyInto in_ out.

Definition OVHMachineTemplate_DeepCopy : option addr -> mem (option addr) :=
  deep_copy OVHMachineTemplate_t OVHMachineTemplate_DeepCopyInto.

Definition OVHMachineTemplate_DeepCopyObject : option addr -> mem (option (string * addr)) :=
  deep_copy_object "v1alpha2.OVHMachineTemplate" OVHMachineTemplate_DeepCopy.

(** ** OVHMachineTemplateList *)

Definition OVHMachineTemplateList_t : ty :=
  TStruct [("TypeMeta", TypeMeta_t); ("ListMeta", ListMeta_t);
    ("Items", TSlice OVHMachineTemplate_t)].

Definition OVHMachineTemplateList_DeepCopyInto (in_ out : addr) : mem unit :=
  _ ← assign out in_;
  _ ← in_place "TypeMeta" plainly in_ out;
  _ ← in_place "ListMeta" ListMeta_DeepCopyInto in_ out;
  if_set "Items" (copy_elems OVHMachineTemplate_t OVHMachineTemplate_DeepCopyInto) in_ out.

Definition OVHMachineTemplateList_DeepCopy : option addr -> mem (option addr) :=
  deep_copy OVHMachineTemplateList_t OVHMachineTemplateList_DeepCopyInto.

Definition OVHMachineTemplateList_DeepCopyObject : option addr -> mem (option (string * addr)) :=
  deep_copy_object "v1alpha2.OVHMachineTemplateList" OVHMachineTemplateList_DeepCopy.

(** ** OVHMachineValidator *)

Definition OVHMachineValidator_t : ty :=
  TStruct [].

Definition OVHMachineValidator_DeepCopyInto (in_ out : addr) : mem unit :=
  assign out in_.

Definition OVHMachineValidator_DeepCopy : option addr -> mem (option addr) :=
  deep_copy OVHMachineValidator_t OVHMachineValidator_DeepCopyInto.

(** ** All of them *)

(** The types with a [DeepCopy], and the objects of the scheme. *)
Definition copied_types : list (ty * (option addr -> mem (option addr))) :=
  [(Initialization_t, Initialization_DeepCopy);
   (OVHDNSConfig_t, OVHDNSConfig_DeepCopy);
   (OVHListener_t, OVHListener_DeepCopy);
   (OVHLoadBalancerConfig_t, OVHLoadBalancerConfig_DeepCopy);
   (OVHNetworkConfig_t, OVHNetworkConfig_DeepCopy);
   (OVHSecurityRule_t, OVHSecurityRule_DeepCopy);
   (OVHSecurityGroup_t, OVHSecurityGroup_DeepCopy);
   (SecretKey_t, SecretKey_DeepCopy);
   (OVHClusterSpec_t, OVHClusterSpec_DeepCopy);
   (OVHClusterStatus_t, OVHClusterStatus_DeepCopy);
   (OVHCluster_t, OVHCluster_DeepCopy);
   (OVHClusterList_t, OVHClusterList_DeepCopy);
   (OVHClusterTemplateResource_t, OVHClusterTemplateResource_DeepCopy);
   (OVHClusterTemplateSpec_t, OVHClusterTemplateSpec_DeepCopy);
   (OVHClusterTemplate_t, OVHClusterTemplate_DeepCopy);
   (OVHClusterTemplateList_t, OVHClusterTemplateList_DeepCopy);
   (OVHClusterValidator_t, OVHClusterValidator_DeepCopy);
   (OVHVolume_t, OVHVolume_DeepCopy);
   (OVHMachineSpec_t, OVHMachineSpec_DeepCopy);
   (OVHMachineStatus_t, OVHMachineStatus_DeepCopy);
   (OVHMachine_t, OVHMachine_DeepCopy);
   (OVHMachineList_t, OVHMachineList_DeepCopy);
   (OVHMachinePoolSpec_t, OVHMachinePoolSpec_DeepCopy);
   (OVHMachinePoolStatus_t, OVHMachinePoolStatus_DeepCopy);
   (OVHMachinePool_t, OVHMachinePool_DeepCopy);
   (OVHMachinePoolList_t, OVHMachinePoolList_DeepCopy);
   (OVHMachineTemplateResource_t, OVHMachineTemplateResource_DeepCopy);
   (OVHMachineTemplateSpec_t, OVHMachineTemplateSpec_DeepCopy);
   (OVHMachineTemplate_t, OVHMachineTemplate_DeepCopy);
   (OVHMachineTemplateList_t, OVHMachineTemplateList_DeepCopy);
   (OVHMachineValidator_t, OVHMachineValidator_DeepCopy)].

Definition copied_objects
    : list (string * ty * (option addr -> mem (option (string * addr)))) :=
  [("v1alpha2.OVHCluster", OVHCluster_t, OVHCluster_DeepCopyObject);
   ("v1alpha2.OVHClusterList", OVHClusterList_t, OVHClusterList_DeepCopyObject);
   ("v1alpha2.OVHClusterTemplate", OVHClusterTemplate_t, OVHClusterTemplate_DeepCopyObject);
   ("v1alpha2.OVHClusterTemplateList", OVHClusterTemplateList_t, OVHClusterTemplateList_DeepCopyObject);
   ("v1alpha2.OVHMachine", OVHMachine_t, OVHMachine_DeepCopyObject);
   ("v1alpha2.OVHMachineList", OVHMachineList_t, OVHMachineList_DeepCopyObject);
   ("v1alpha2.OVHMachinePool", OVHMachinePool_t, OVHMachinePool_DeepCopyObject);
   ("v1alpha2.OVHMachinePoolList", OVHMachinePoolList_t, OVHMachinePoolList_DeepCopyObject);
   ("v1alpha2.OVHMachineTemplate", OVHMachineTemplate_t, OVHMachineTemplate_DeepCopyObject);
   ("v1alpha2.OVHMachineTemplateList", OVHMachineTemplateList_t, OVHMachineTemplateList_DeepCopyObject)].

Context {L : ForeignLaws}.

Lemma Initialization_copies_v1alpha2 : copies Initialization_t Initialization_DeepCopyInto.
Proof. copy_struct. Qed.
#[local] Hint Resolve Initialization_copies_v1alpha2 : copying.

Lemma OVHDNSConfig_copies_v1alpha2 : copies OVHDNSConfig_t OVHDNSConfig_DeepCopyInto.
Proof. copy_struct. Qed.
#[local] Hint Resolve OVHDNSConfig_copies_v1alpha2 : copying.

Lemma OVHListener_copies_v1alpha2 : copies OVHListener_t OVHListener_DeepCopyInto.
Proof. copy_struct. Qed.
#[local] Hint Resolve OVHListener_copies_v1alpha2 : copying.

Lemma OVHLoadBalancerConfig_copies_v1alpha2 : copies OVHLoadBalancerConfig_t OVHLoadBalancerConfig_DeepCopyInto.
Proof. copy_struct. Qed.
#[local] Hint Resolve OVHLoadBalancerConfig_copies_v1alpha2 : copying.

Lemma OVHNetworkConfig_copies_v1alpha2 : copies OVHNetworkConfig_t OVHNetworkConfig_DeepCopyInto.
Proof. copy_struct. Qed.
#[local] Hint Resolve OVHNetworkConfig_copies_v1alpha2 : copying.

Lemma OVHSecurityRule_copies_v1alpha2 : copies OVHSecurityRule_t OVHSecurityRule_DeepCopyInto.
Proof. copy_struct. Qed.
#[local] Hint Resolve OVHSecurityRule_copies_v1alpha2 : copying.

Lemma OVHSecurityGroup_copies_v1alpha2 : copies OVHSecurityGroup_t OVHSecurityGroup_DeepCopyInto.
Proof. copy_struct. Qed.
#[local] Hint Resolve OVHSecurityGroup_copies_v1alpha2 : copying.

Lemma SecretKey_copies_v1alpha2 : copies SecretKey_t SecretKey_DeepCopyInto.
Proof. copy_struct. Qed.
#[local] Hint Resolve SecretKey_copies_v1alpha2 : copying.

Lemma OVHClusterSpec_copies_v1alpha2 : copies OVHClusterSpec_t OVHClusterSpec_DeepCopyInto.
Proof. copy_struct. Qed.
#[local] Hint Resolve OVHClusterSpec_copies_v1alpha2 : copying.

Lemma OVHClusterStatus_copies_v1alpha2 : copies OVHClusterStatus_t OVHClusterStatus_DeepCopyInto.
Proof. copy_struct. Qed.
#[local] Hint Resolve OVHClusterStatus_copies_v1alpha2 : copying.

Lemma OVHCluster_copies_v1alpha2 : copies OVHCluster_t OVHCluster_DeepCopyInto.
Proof. copy_struct. Qed.
#[local] Hint Resolve OVHCluster_copies_v1alpha2 : copying.

Lemma OVHClusterList_copies_v1alpha2 : copies OVHClusterList_t OVHClusterList_DeepCopyInto.
Proof. copy_struct. Qed.
#[local] Hint Resolve OVHClusterList_copies_v1alpha2 : copying.

Lemma OVHClusterTemplateResource_copies_v1alpha2 : copies OVHClusterTemplateResource_t OVHClusterTemplateResource_DeepCopyInto.
Proof. copy_struct. Qed.
#[local] Hint Resolve OVHClusterTemplateResource_copies_v1alpha2 : copying.

Lemma OVHClusterTemplateSpec_copies_v1alpha2 : copies OVHClusterTemplateSpec_t OVHClusterTemplateSpec_DeepCopyInto.
Proof. copy_struct. Qed.
#[local] Hint Resolve OVHClusterTemplateSpec_copies_v1alpha2 : copying.

Lemma OVHClusterTemplate_copies_v1alpha2 : copies OVHClusterTemplate_t OVHClusterTemplate_DeepCopyInto.
Proof. copy_struct. Qed.
#[local] Hint Resolve OVHClusterTemplate_copies_v1alpha2 : copying.

Lemma OVHClusterTemplateList_copies_v1alpha2 : copies OVHClusterTemplateList_t OVHClusterTemplateList_DeepCopyInto.
Proof. copy_struct. Qed.
#[local] Hint Resolve OVHClusterTemplateList_copies_v1alpha2 : copying.

Lemma OVHClusterValidator_copies_v1alpha2 : copies OVHClusterValidator_t OVHClusterValidator_DeepCopyInto.
Proof. copy_struct. Qed.
#[local] Hint Resolve OVHClusterValidator_copies_v1alpha2 : copying.

Lemma OVHVolume_copies_v1alpha2 : copies OVHVolume_t OVHVolume_DeepCopyInto.
Proof. copy_struct. Qed.
#[local] Hint Resolve OVHVolume_copies_v1alpha2 : copying.

Lemma OVHMachineSpec_copies_v1alpha2 : copies OVHMachineSpec_t OVHMachineSpec_DeepCopyInto.
Proof. copy_struct. Qed.
#[local] Hint Resolve OVHMachineSpec_copies_v1alpha2 : copying.

Lemma OVHMachineStatus_copies_v1alpha2 : copies OVHMachineStatus_t OVHMachineStatus_DeepCopyInto.
Proof. copy_struct. Qed.
#[local] Hint Resolve OVHMachineStatus_copies_v1alpha2 : copying.

Lemma OVHMachine_copies_v1alpha2 : copies OVHMachine_t OVHMachine_DeepCopyInto.
Proof. copy_struct. Qed.
#[local] Hint Resolve OVHMachine_copies_v1alpha2 : copying.

Lemma OVHMachineList_copies_v1alpha2 : copies OVHMachineList_t OVHMachineList_DeepCopyInto.
Proof. copy_struct. Qed.
#[local] Hint Resolve OVHMachineList_copies_v1alpha2 : copying.

Lemma OVHMachinePoolSpec_copies_v1alpha2 : copies OVHMachinePoolSpec_t OVHMachinePoolSpec_DeepCopyInto.
Proof. copy_struct. Qed.
#[local] Hint Resolve OVHMachinePoolSpec_copies_v1alpha2 : copying.

Lemma OVHMachinePoolStatus_copies_v1alpha2 : copies OVHMachinePoolStatus_t OVHMachinePoolStatus_DeepCopyInto.
Proof. copy_struct. Qed.
#[local] Hint Resolve OVHMachinePoolStatus_copies_v1alpha2 : copying.

Lemma OVHMachinePool_copies_v1alpha2 : copies OVHMachinePool_t OVHMachinePool_DeepCopyInto.
Proof. copy_struct. Qed.
#[local] Hint Resolve OVHMachinePool_copies_v1alpha2 : copying.

Lemma OVHMachinePoolList_copies_v1alpha2 : copies OVHMachinePoolList_t OVHMachinePoolList_DeepCopyInto.
Proof. copy_struct. Qed.
#[local] Hint Resolve OVHMachinePoolList_copies_v1alpha2 : copying.

Lemma OVHMachineTemplateResource_copies_v1alpha2 : copies OVHMachineTemplateResource_t OVHMachineTemplateResource_DeepCopyInto.
Proof. copy_struct. Qed.
#[local] Hint Resolve OVHMachineTemplateResource_copies_v1alpha2 : copying.

Lemma OVHMachineTemplateSpec_copies_v1alpha2 : copies OVHMachineTemplateSpec_t OVHMachineTemplateSpec_DeepCopyInto.
Proof. copy_struct. Qed.
#[local] Hint Resolve OVHMachineTemplateSpec_copies_v1alpha2 : copying.

Lemma OVHMachineTemplate_copies_v1alpha2 : copies OVHMachineTemplate_t OVHMachineTemplate_DeepCopyInto.
Proof. copy_struct. Qed.
#[local] Hint Resolve OVHMachineTemplate_copies_v1alpha2 : copying.

Lemma OVHMachineTemplateList_copies_v1alpha2 : copies OVHMachineTemplateList_t OVHMachineTemplateList_DeepCopyInto.
Proof. copy_struct. Qed.
#[local] Hint Resolve OVHMachineTemplateList_copies_v1alpha2 : copying.

Lemma OVHMachineValidator_copies_v1alpha2 : copies OVHMachineValidator_t OVHMachineValidator_DeepCopyInto.
Proof. copy_struct. Qed.
#[local] Hint Resolve OVHMachineValidator_copies_v1alpha2 : copying.

(** Every [DeepCopy] of the package copies deeply. *)
Lemma copied_types_v1alpha2 : Forall (fun '(t, f) => copies_new t f) copied_types.
Proof. repeat constructor; apply deep_copy_new; auto with copying. Qed.

Lemma copied_objects_v1alpha2 :
  Forall (fun '(name, t, f) => exists g, f = deep_copy_object name g /\ copies_new t g) copied_objects.
Proof.
  repeat constructor; eexists; (split; [reflexivity|]); apply deep_copy_new; auto with copying.
Qed.
End v1alpha2.
