(* ===== verification/DeepCopyFacts.v ===== *)
(** * Deep copies share nothing with their originals

    The theorem on all objects of the scheme, in both versions; [content], which
    reads an object from memory; and an object with a slice, maps and pointers as an
    example, with [simple_foreign] for the libraries. *)

From S2P Require Import Prelude GoMemory MemoryFacts DeepCopyLibs.
From S2P Require DeepCopyV1 DeepCopyV2.

Local Open Scope nat_scope.

(** ** Reading an object *)

Section fields.
Variable read : ty -> val -> option tree.

Fixpoint read_fields (fs : list (string * ty)) (m : gmap string val) : option (gmap string tree) :=
  match fs with
  | [] => Some ∅
  | (f, t) :: fs =>
    y ← m !! f; z ← read t y; zs ← read_fields fs m; Some (<[f := z]> zs)
  end.
End fields.

Definition read_entries (read : val -> option tree) (es : list (string * val))
    : option (gmap string tree) :=
  foldr (fun '(k, y) acc => zs ← acc; z ← read y; Some (<[k := z]> zs)) (Some ∅) es.

(** The content of a value, when it is an object of the type. *)
Fixpoint content (t : ty) (h : heap) (v : val) {struct t} : option tree :=
  match t, v with
  | TBool, VBool b => Some (LBool b)
  | TInt, VInt n => Some (LInt n)
  | TString, VString s => Some (LString s)
  | TStruct fs, VStruct m =>
    if bool_decide (dom m = names fs) && distinct fs then
      Node <$> read_fields (fun t => content t h) fs m
    else None
  | TPtr _, VPtr None | TSlice _, VSlice None | TMap _, VMap None => Some Nil
  | TPtr t, VPtr (Some a) => y ← load_at h a; Ref <$> content t h y
  | TSlice t, VSlice (Some (l, off, n)) =>
    match h !! l with
    | Some (VArray vs) =>
      if decide (off + n <= length vs) then Items <$> mapM (content t h) (take n (drop off vs))
      else None
    | _ => None
    end
  | TMap t, VMap (Some l) =>
    match h !! l with
    | Some (VTable m) =>
      Entries <$> read_entries (content t h) (map_to_list m)
    | _ => None
    end
  | _, _ => None
  end.

Lemma read_fields_spec read fs m xm : NoDup fs.*1 -> read_fields read fs m = Some xm ->
  dom xm = names fs /\
  forall f t, (f, t) ∈ fs -> exists y z, m !! f = Some y /\ xm !! f = Some z /\ read t y = Some z.
Proof.
  revert xm. induction fs as [|[f t] fs IH]; intros xm; cbn.
  { intros _ [= <-]. split; [done|]. by intros f t ?%not_elem_of_nil. }
  intros [Hf Hd]%NoDup_cons. destruct (m !! f) as [y|] eqn:Hy; [|done]. cbn.
  destruct (read t y) as [z|] eqn:Hz; [|done]. cbn.
  destruct (read_fields read fs m) as [zs|]; [|done]. cbn. intros [= <-].
  destruct (IH zs Hd eq_refl) as [Hdom Hall]. split.
  - by rewrite dom_insert_L, Hdom.
  - intros g u [[= -> ->]|Hg]%elem_of_cons.
    + exists y, z. by rewrite lookup_insert_eq.
    + destruct (Hall g u Hg) as (y' & z' & ? & ? & ?). exists y', z'.
      rewrite lookup_insert_ne; [done|]. intros ->. apply Hf.
      by apply (list_elem_of_fmap_2 fst) in Hg.
Qed.

Lemma read_entries_spec read es xm : NoDup es.*1 -> read_entries read es = Some xm ->
  map_Forall2 (fun _ y z => read y = Some z) (list_to_map es : gmap string val) xm.
Proof.
  revert xm. induction es as [|[k y] es IH]; intros xm; cbn.
  { intros _ [= <-]. apply map_Forall2_empty. }
  intros [Hk Hd]%NoDup_cons. fold (read_entries read es).
  destruct (read_entries read es) as [zs|]; [|done]. cbn.
  destruct (read y) as [z|] eqn:Hz; [|done]. cbn. intros [= <-].
  by apply map_Forall2_insert_2; [|apply IH].
Qed.

Lemma content_rep t h v x : content t h v = Some x -> rep t h v x.
Proof.
  revert v x. induction t as [| | |fs IH|t IH|t IH|t IH] using ty_fields_ind; intros v x;
    destruct v; try done; cbn [content].
  - intros [= <-]. by eexists.
  - intros [= <-]. by eexists.
  - intros [= <-]. by eexists.
  - destruct (bool_decide _ && distinct fs) eqn:E; [|done].
    apply andb_true_iff in E as [Hm%bool_decide_eq_true Hd%bool_decide_eq_true].
    intros (xm & Hxm & ->)%fmap_Some. destruct (read_fields_spec _ _ _ _ Hd Hxm) as [? Hall].
    apply rep_struct. exists m, xm. do 4 (split; [done|]). intros f t Hf.
    destruct (Hall f t Hf) as (y & z & ? & ? & ?). eauto 8.
  - destruct p as [a|]; [|by intros [= <-]; left].
    destruct (load_at h a) as [y|] eqn:Hy; [|done]. cbn. intros (z & Hz & ->)%fmap_Some.
    right. exists a, y, z. auto.
  - destruct s as [[[l off] n]|]; [|by intros [= <-]; left].
    destruct (h !! l) as [[]|] eqn:Hl; try done. case_decide; [|done].
    intros (xs & Hxs%mapM_Some & ->)%fmap_Some. right. exists l, off, n, vs, xs.
    do 4 (split; [done|]). by eapply Forall2_impl.
  - destruct m as [l|]; [|by intros [= <-]; left].
    destruct (h !! l) as [[]|] eqn:Hl; try done.
    intros (xm & Hxm & ->)%fmap_Some. right. exists l, m, xm. do 3 (split; [done|]).
    apply read_entries_spec in Hxm; [|apply NoDup_fst_map_to_list].
    rewrite list_to_map_to_list in Hxm. eapply map_Forall2_impl; [exact Hxm|]. cbn. auto.
Qed.

(** ** The theorem *)

Section facts.
Context `{F : Foreign} `{R : RangeOrder} {L : ForeignLaws}.

(** The objects of the scheme, with their methods [DeepCopyObject]. *)
Definition scheme_objects : list (string * ty * (option addr -> mem (option (string * addr)))) :=
  DeepCopyV1.copied_objects ++ DeepCopyV2.copied_objects.

Lemma scheme_objects_copied name t f : (name, t, f) ∈ scheme_objects ->
  exists g, f = deep_copy_object name g /\ copies_new t g.
Proof.
  unfold scheme_objects. intros [H|H]%elem_of_app.
  - by apply (proj1 (Forall_forall _ _) DeepCopyV1.copied_objects_v1alpha1 _ H).
  - by apply (proj1 (Forall_forall _ _) DeepCopyV2.copied_objects_v1alpha2 _ H).
Qed.

(** C39: a deep copy is an object of its own. The [DeepCopyObject] of every type of
    the scheme, in both versions, returns the nil interface for nil; for an object it
    never panics, changes nothing that was in memory, and returns a new object of the
    same type and content that lies in the new blocks alone. So whatever is written
    outside of the original, to the copy in particular, the original stays what it is;
    and whatever is written outside of the new blocks, the copy does. *)
Theorem deep_copies_separate name t f : (name, t, f) ∈ scheme_objects ->
  (forall h, f None h = Some (None, h)) /\
  forall (h hi : heap) i v x, load_at h i = Some v -> hi ⊆ h -> rep t hi v x ->
    exists new l v', f (Some i) h = Some (Some (name, (l, [])), new ∪ h) /\ new ##ₘ h /\
      new !! l = Some v' /\ rep t new v' x /\
      (forall h', (forall b, b ∈ dom hi -> h' !! b = h !! b) -> rep t h' v x) /\
      (forall h', (forall b, b ∈ dom new -> h' !! b = new !! b) -> rep t h' v' x).
Proof.
  intros (g & -> & Hnil & Hg)%scheme_objects_copied. split.
  - intros h. unfold deep_copy_object. by erewrite bind_run by apply Hnil.
  - intros h hi i v x Hi Hs Hx.
    destruct (Hg h hi i v x Hi Hs Hx) as (new & l & v' & Hd & Hrun & Hl & Hv').
    exists new, l, v'. unfold deep_copy_object. erewrite bind_run by exact Hrun.
    split_and!; try done; intros h' Hsame.
    + by apply (rep_frame t hi h).
    + by apply (rep_frame t new new).
Qed.
End facts.

(** ** An example *)

(** The lists of labels and the like of the metadata. *)
Definition set_fields (fs : list string) : list (string * ty) :=
  (fun f => (f, TMap TString)) <$> fs.

#[local] Instance by_key : RangeOrder := {
  range_order := map_to_list;
  range_order_spec m := Permutation_refl (map_to_list m);
}.

#[local] Instance simple_foreign : Foreign := {
  TypeMeta_t := TStruct [("Kind", TString); ("APIVersion", TString)];
  ListMeta_t := TStruct [("ResourceVersion", TString); ("Continue", TString);
    ("RemainingItemCount", TPtr TInt)];
  ObjectMeta_t := TStruct [("Name", TString); ("Namespace", TString);
    ("Labels", TMap TString); ("Annotations", TMap TString); ("Finalizers", TSlice TString)];
  TemplateMeta_t := TStruct [("Labels", TMap TString); ("Annotations", TMap TString)];
  APIEndpoint_t := TStruct [("Host", TString); ("Port", TInt)];
  MachineAddress_t := TStruct [("Type", TString); ("Address", TString)];
  Condition_t := TStruct [("Type", TString); ("Status", TString); ("Reason", TString)];
  FailureDomainSpec_t := TStruct [("ControlPlane", TBool); ("Attributes", TMap TString)];
  ListMeta_DeepCopyInto in_ out :=
    _ ← assign out in_;
    if_set "RemainingItemCount" (copy_ptr TInt plainly) in_ out;
  ObjectMeta_DeepCopyInto in_ out :=
    _ ← assign out in_;
    _ ← if_set "Labels" (copy_entries plain_entry) in_ out;
    _ ← if_set "Annotations" (copy_entries plain_entry) in_ out;
    if_set "Finalizers" (copy_list TString) in_ out;
  TemplateMeta_DeepCopyInto in_ out :=
    _ ← assign out in_;
    _ ← if_set "Labels" (copy_entries plain_entry) in_ out;
    if_set "Annotations" (copy_entries plain_entry) in_ out;
  Condition_DeepCopyInto := plainly;
  FailureDomainSpec_DeepCopy :=
    deep_copy (TStruct [("ControlPlane", TBool); ("Attributes", TMap TString)])
      (fun in_ out =>
        _ ← assign out in_;
        if_set "Attributes" (copy_entries plain_entry) in_ out);
}.

#[local] Instance simple_foreign_laws : ForeignLaws.
Proof.
  split; try reflexivity; cbn [ListMeta_t ListMeta_DeepCopyInto ObjectMeta_t ObjectMeta_DeepCopyInto
    TemplateMeta_t TemplateMeta_DeepCopyInto Condition_t Condition_DeepCopyInto
    FailureDomainSpec_t FailureDomainSpec_DeepCopy simple_foreign]; try copy_struct.
  apply deep_copy_new. copy_struct.
Qed.

Definition with_fields (t : ty) (fs : list (string * val)) : val :=
  match zero_of t with VStruct m => VStruct (list_to_map fs ∪ m) | v => v end.

(** A cluster with a security group, whose rule has a port, and with default tags. *)
Definition rule0 : val :=
  with_fields DeepCopyV2.OVHSecurityRule_t
    [("Protocol", VString "tcp"); ("PortRangeMin", VPtr (Some (4%positive, [])))].

Definition cluster0 : val :=
  with_fields DeepCopyV2.OVHCluster_t
    [("Spec", with_fields DeepCopyV2.OVHClusterSpec_t
        [("ServiceName", VString "project"); ("SecurityGroups", VSlice (Some (2%positive, 0, 1)));
         ("DefaultTags", VMap (Some 5%positive))])].

Definition heap0 : heap :=
  {[1%positive := cluster0;
    2%positive := VArray [with_fields DeepCopyV2.OVHSecurityGroup_t
                    [("Name", VString "nodes"); ("Rules", VSlice (Some (3%positive, 1, 1)))]];
    3%positive := VArray [VString "another slice"; rule0];
    4%positive := VInt 443;
    5%positive := VTable {["env" := VString "prod"]}]}.

Definition copied (h : heap) (i : addr) : option tree :=
  match DeepCopyV2.OVHCluster_DeepCopyObject (Some i) h with
  | Some (Some (_, a), h') => v ← load_at h' a; content DeepCopyV2.OVHCluster_t h' v
  | _ => None
  end.

(** The copy has the content of the original. *)
Example cluster0_copied :
  copied heap0 (1%positive, []) = content DeepCopyV2.OVHCluster_t heap0 cluster0.
Proof. vm_compute. reflexivity. Qed.

Lemma deep_copies_separate_witness : exists x new l v',
  content DeepCopyV2.OVHCluster_t heap0 cluster0 = Some x /\
  DeepCopyV2.OVHCluster_DeepCopyObject (Some (1%positive, [])) heap0 =
    Some (Some ("v1alpha2.OVHCluster", (l, [])), new ∪ heap0) /\
  new ##ₘ heap0 /\ rep DeepCopyV2.OVHCluster_t new v' x.
Proof.
  assert (Hx : is_Some (content DeepCopyV2.OVHCluster_t heap0 cluster0)).
  { apply (bool_decide_unpack _). by vm_compute. }
  destruct Hx as [x Hx].
  destruct (deep_copies_separate "v1alpha2.OVHCluster" DeepCopyV2.OVHCluster_t
    DeepCopyV2.OVHCluster_DeepCopyObject) as [_ H].
  { apply elem_of_app. right. find_field. }
  destruct (H heap0 heap0 (1%positive, []) cluster0 x eq_refl (reflexivity heap0)
    (content_rep _ _ _ _ Hx)) as (new & l & v' & Hrun & Hd & _ & Hv' & _).
  exists x, new, l, v'. auto.
Defined.
