(* ===== verification/ClusterLimits.v ===== *)
(** * Where a cluster does not converge

    Limits of the OVHCluster controller that the convergence theorem has to
    exclude: a specification the webhook accepts and no pass can complete, the
    port that is lost with its load balancer, the network made without a lookup. *)

From S2P Require Import Prelude GoStrings Errors OvhTypes ApiTypes Effects Client Names StringFacts.
From S2P Require Import NamesFacts Logic ClientFacts ClusterController ClusterFacts.
From S2P Require Import ClusterDeleteFacts ClusterStepFacts Webhooks.

Local Open Scope Z_scope.

Section limits.
Context `{U : Unicode} `{C : CAPI}.

(** ** A specification without a network *)

(** Neither a network nor a load balancer is named or recorded. *)
Definition unattached (o : OVHCluster) : Prop :=
  CSpec_NetworkConfig (OVHCluster_Spec o) = None
  /\ LBConfig_ExistingLoadBalancerID (CSpec_LoadBalancerConfig (OVHCluster_Spec o)) = ""%string
  /\ CStatus_NetworkID (OVHCluster_Status o) = ""%string
  /\ CStatus_LoadBalancerID (OVHCluster_Status o) = ""%string.

Definition stays_unattached (o o' : OVHCluster) : Prop := unattached o -> unattached o'.

#[local] Instance stays_unattached_preorder : PreOrder stays_unattached.
Proof. split; unfold stays_unattached; red; auto. Qed.

Lemma create_lb_unattached scope o t out o' :
  unattached o -> exec (create_lb scope o) t (out, o') -> unattached o' /\ is_Some out.2.
Proof.
  intros Ho H. unfold create_lb, cspec, cstatus, mark_false in H. rewrite gets_bind in H.
  apply exec_m_bind in H as (t1 & r & s1 & t2 & -> & H1 & H).
  apply exec_m_lift in H1 as (a & _ & [= -> ->]). destruct a as [flavor|e].
  - rewrite gets_bind, decide_True in H by (right; apply Ho). exec_inv H. eauto.
  - exec_all. eauto.
Qed.

Lemma reconcileLoadBalancer_unattached scope o t out o' :
  unattached o -> exec (reconcileLoadBalancer scope o) t (out, o') -> unattached o' /\ is_Some out.2.
Proof.
  intros Ho H. unfold reconcileLoadBalancer, adopt_existing, cspec, cstatus in H.
  apply exec_m_bind in H as (t1 & [] & o1 & t2 & -> & H1 & H).
  assert (Ho1 : unattached o1).
  { rewrite !gets_bind in H1. destruct Ho as (H2 & H3 & H4 & H5). exec_all; try done.
    all: apply bool_decide_eq_true in E as [E ?]; by destruct E. }
  rewrite gets_bind, decide_False in H by (intros Hne; by apply Hne, Ho1).
  by eapply create_lb_unattached.
Qed.

(** A step that touches neither networks nor load balancers, nor [Ready]. *)
Definition aside {A} (m : M OVHCluster A) : Prop :=
  keeps (fun s s' => stays_unattached s s' /\ ready s' = ready s) m.

#[local] Instance aside_preorder :
  PreOrder (fun s s' : OVHCluster => stays_unattached s s' /\ ready s' = ready s).
Proof.
  split; [by intros s|]. intros s1 s2 s3 [H1 E1] [H2 E2]. split; [|congruence].
  exact (fun H => H2 (H1 H)).
Qed.

(** [Ready] is not assigned. *)
Definition same_ready (s s' : OVHCluster) : Prop := ready s' = ready s.

#[local] Instance same_ready_preorder : PreOrder same_ready.
Proof. split; [done|]. intros s1 s2 s3 ? ?. unfold same_ready in *. congruence. Qed.

Lemma lb_ready scope : keeps same_ready (reconcileLoadBalancer scope).
Proof. auto with prog. Qed.

Ltac aside_tac := repeat keeps_rule; (split; [exact (fun H => H) | done]).

Lemma credentials_aside scope : aside (reconcileCredentials scope).
Proof. unfold aside. aside_tac. Qed.
Lemma domains_aside scope : aside (reconcileFailureDomains scope).
Proof. unfold aside. aside_tac. Qed.
Lemma groups_aside scope : aside (reconcileSecurityGroups scope).
Proof. unfold aside. aside_tac. Qed.

Lemma aside_exec {A} (m : M OVHCluster A) s t r s' :
  aside m -> exec (m s) t (r, s') -> unattached s -> unattached s' /\ ready s' = ready s.
Proof. intros Hm H Hs. destruct (keeps_exec _ _ _ _ _ Hm H) as [H1 H2]. split; [by apply H1 | done]. Qed.

Lemma pass_unattached scope o t out o' :
  unattached o -> exec (ReconcileNormal scope o) t (out, o') ->
  unattached o' /\ ready o' = ready o /\ (is_Some out.2 \/ requests t = []).
Proof.
  intros Ho H. unfold ReconcileNormal in H.
  apply exec_m_bind in H as (t1 & r & o1 & t2 & -> & H1 & H).
  assert (o' = o1 /\ out = r /\ requests t2 = []) as (-> & -> & Ht2) by (by exec_all).
  rewrite requests_app, Ht2, app_nil_r. clear H Ht2.
  unfold reconcile_normal_body in H1. rewrite get_bind in H1. case_match.
  { exec_all. split; [exact Ho|]. split; [done | by right]. }
  apply exec_m_bind in H1 as (t1a & a & o2 & t1b & -> & Hc & H1).
  apply (aside_exec _ _ _ _ _ (credentials_aside scope)) in Hc as [Ho2 E2]; [|done].
  destruct a as [[]|e]; [|exec_inv H1; eauto].
  apply exec_m_bind in H1 as (t1c & a & o3 & t1d & -> & Hn & H1).
  unfold reconcileNetwork, cspec in Hn. rewrite gets_bind in Hn. rewrite (proj1 Ho2) in Hn.
  assert (a = Ok tt /\ unattached o3 /\ ready o3 = ready o2) as (-> & Ho3 & E3).
  { clear H1. unfold mark_true in Hn. exec_all. split; [done|]. split; [exact Ho2 | done]. }
  apply exec_m_bind in H1 as (t1e & [] & o4 & t1f & -> & Hd & H1).
  apply (aside_exec _ _ _ _ _ (domains_aside scope)) in Hd as [Ho4 E4]; [|exact Ho3].
  apply exec_m_bind in H1 as (t1g & a & o5 & t1h & -> & Hg & H1).
  apply (aside_exec _ _ _ _ _ (groups_aside scope)) in Hg as [Ho5 E5]; [|done].
  apply exec_m_bind in H1 as (t1i & [res err] & o6 & t1j & -> & Hl & H1).
  pose proof (keeps_exec _ _ _ _ _ (lb_ready scope) Hl) as E6.
  apply reconcileLoadBalancer_unattached in Hl as [Ho6 He]; [|done]. cbn [snd] in He.
  rewrite decide_True in H1 by (left; done). exec_inv H1. unfold same_ready in E6. cbn in E2, E3, E4, E5, E6 |- *.
  split; [done|]. split; [congruence | by left].
Qed.

Lemma unattached_passes scope o o' :
  unattached o -> rtc (pass scope) o o' ->
  ready o' = ready o
  /\ forall t out o'', exec (ReconcileNormal scope o') t (out, o'') ->
       is_Some out.2 \/ requests t = [].
Proof.
  intros Ho Hr. revert Ho. induction Hr as [o|o o1 o' (t & out & H) Hr IH]; intros Ho.
  - split; [done|]. intros t out o'' H. by apply pass_unattached in H as (_ & _ & ?).
  - apply pass_unattached in H as (Ho1 & E & _); [|done]. destruct (IH Ho1) as [? ?].
    split; [congruence | done].
Qed.

(** The fields the webhook requires, the subnet in place of a network. *)
Definition names_subnet (spec : OVHClusterSpec) : Prop :=
  CSpec_ServiceName spec <> ""%string /\ CSpec_Region spec <> ""%string
  /\ SecretKey_Name (CSpec_IdentitySecret spec) <> ""%string
  /\ SecretKey_Namespace (CSpec_IdentitySecret spec) <> ""%string
  /\ LBConfig_SubnetID (CSpec_LoadBalancerConfig spec) <> ""%string
  /\ CSpec_NetworkConfig spec = None.

Lemma names_subnet_valid o : names_subnet (OVHCluster_Spec o) -> validateOVHCluster o = None.
Proof.
  intros (H1 & H2 & H3 & H4 & H5 & H6). unfold validateOVHCluster, cluster_errs. cbv zeta.
  rewrite H6. rewrite !bool_decide_false by tauto. done.
Qed.

(** C33: the webhook accepts, as new and as an update, every cluster that names
    the subnet of its load balancer and no network (with the other fields it
    requires). But while such a cluster adopts no load balancer and has none and no
    network recorded, no number of passes completes it, whatever OVH answers: a
    load balancer is made in a recorded network only. [Ready] is never set, and
    every pass that calls OVH ends with an error. *)
Theorem unattached_never_ready o :
  names_subnet (OVHCluster_Spec o) ->
  cluster_ValidateCreate (AnOVHCluster o) = None
  /\ (forall old, cluster_ValidateUpdate old (AnOVHCluster o) = None)
  /\ (LBConfig_ExistingLoadBalancerID (CSpec_LoadBalancerConfig (OVHCluster_Spec o)) = ""%string ->
      CStatus_LoadBalancerID (OVHCluster_Status o) = ""%string ->
      CStatus_NetworkID (OVHCluster_Status o) = ""%string ->
      forall scope o', rtc (pass scope) o o' ->
        ready o' = ready o
        /\ forall t out o'', exec (ReconcileNormal scope o') t (out, o'') ->
             is_Some out.2 \/ requests t = []).
Proof.
  intros Hspec. pose proof (names_subnet_valid o Hspec) as Hv. split; [exact Hv|]. split; [done|].
  intros He Hlb Hnet scope o' Hr. apply unattached_passes; [|done].
  destruct Hspec as (_ & _ & _ & _ & _ & Hn). by split_and!.
Qed.

(** ** The port that is lost with its load balancer *)

(** The request makes the listener or the pool of the register port. *)
Definition makes_register (rq : request) : bool :=
  bool_decide (req_method rq = POST) &&
  match req_body rq with
  | BListener o => bool_decide (CreateListenerOpts_Name o = rke2RegisterListenerName)
  | BPool o => bool_decide (CreatePoolOpts_Name o = (rke2RegisterListenerName ++ "-pool")%string)
  | _ => false
  end.

Definition not_register (e : event) : Prop :=
  match e with EApi rq => makes_register rq = false | _ => True end.

Definition register_ids (o : OVHCluster) : string * string :=
  (CStatus_RegisterListenerID (OVHCluster_Status o), CStatus_RegisterPoolID (OVHCluster_Status o)).

Definition same_register (s s' : OVHCluster) : Prop := register_ids s' = register_ids s.

#[local] Instance same_register_preorder : PreOrder same_register.
Proof. split; [done|]. intros s1 s2 s3 ? ?. unfold same_register in *. congruence. Qed.

(** A step that leaves a recorded register port as it is. *)
Definition leaves_register {A} (m : M OVHCluster A) : Prop :=
  forall s t r s', exec (m s) t (r, s') ->
    (register_ids s).1 <> ""%string -> (register_ids s).2 <> ""%string ->
    same_register s s' /\ Forall (fun rq => makes_register rq = false) (requests t).

Lemma leaves_register_intro {A} (m : M OVHCluster A) :
  keeps same_register m -> only_m not_register m -> leaves_register m.
Proof.
  intros Hk Ho s t r s' H _ _. split; [exact (keeps_exec _ _ _ _ _ Hk H)|].
  eapply Forall_impl; [exact (only_m_requests _ _ _ _ _ Ho H)|]. by intros rq.
Qed.

Lemma leaves_register_bind {A B} (m : M OVHCluster A) (f : A -> M OVHCluster B) :
  leaves_register m -> (forall a, leaves_register (f a)) -> leaves_register (m ≫= f).
Proof.
  intros Hm Hf s t r s' H H1 H2. apply exec_m_bind in H as (t1 & a & s1 & t2 & -> & Ha & H).
  destruct (Hm _ _ _ _ Ha H1 H2) as [E1 F1]. rewrite <- (E1 : register_ids s1 = _) in H1, H2.
  destruct (Hf _ _ _ _ _ H H1 H2) as [E2 F2].
  split; [by transitivity s1|]. rewrite requests_app. by apply Forall_app.
Qed.

Lemma register_port_leaves scope :
  leaves_register (reconcileLBPort scope rke2RegisterListenerName rke2RegisterLBPort
                     RegisterListenerIDPtr RegisterPoolIDPtr).
Proof.
  intros s t r s' H H1 H2. cbn in H1, H2. unfold reconcileLBPort, cstatus in H. rewrite gets_bind in H.
  unfold ensure_listener, ensure_pool in H.
  apply exec_m_try in H as [(e & s1 & H & [= -> ->])|(t1 & a & s1 & t2 & -> & Ha & H)].
  { rewrite gets_bind, decide_False in H by exact H1. by exec_inv H. }
  rewrite gets_bind, decide_False in Ha by exact H1. exec_inv Ha.
  apply exec_m_try in H as [(e & s2 & H & [= -> ->])|(t3 & a & s2 & t4 & -> & Ha & H)].
  { rewrite gets_bind, decide_False in H by exact H2. by exec_inv H. }
  rewrite gets_bind, decide_False in Ha by exact H2. exec_inv Ha.
  rewrite gets_bind in H. apply exec_m_bind in H as (t5 & a & s3 & t6 & -> & Ha & H).
  exec_inv H. apply hm_requests in Ha as [-> Hr]. split; [done|].
  cbn [app]. rewrite app_nil_r. eapply Forall_impl; [exact Hr|].
  intros rq [Hg| ->]; [|done]. unfold makes_register. by rewrite Hg.
Qed.

Ltac leaves_tac := apply leaves_register_intro; auto with prog.

Lemma handleExistingLB_leaves scope lb : leaves_register (handleExistingLB scope lb).
Proof.
  unfold handleExistingLB. case_decide; [leaves_tac|].
  apply leaves_register_bind; [leaves_tac|]. intros [[]|e]; [|leaves_tac].
  apply leaves_register_bind; [apply register_port_leaves|]. intros [[]|e]; leaves_tac.
Qed.

Lemma reconcileLoadBalancer_leaves scope : leaves_register (reconcileLoadBalancer scope).
Proof.
  unfold reconcileLoadBalancer. apply leaves_register_bind; [leaves_tac|]. intros [].
  apply leaves_register_bind; [leaves_tac|]. intros st. case_decide; [|leaves_tac].
  apply leaves_register_bind; [leaves_tac|]. intros [lb|e]; [apply handleExistingLB_leaves | leaves_tac].
Qed.

Lemma ReconcileNormal_leaves scope : leaves_register (ReconcileNormal scope).
Proof.
  unfold ReconcileNormal. apply leaves_register_bind; [|intros out; leaves_tac].
  unfold reconcile_normal_body. apply leaves_register_bind; [leaves_tac|]. intros o.
  case_match; [leaves_tac|].
  apply leaves_register_bind; [leaves_tac|]. intros [[]|e]; [|leaves_tac].
  apply leaves_register_bind; [leaves_tac|]. intros [[]|e]; [|leaves_tac].
  apply leaves_register_bind; [leaves_tac|]. intros [].
  apply leaves_register_bind; [leaves_tac|]. intros r.
  apply leaves_register_bind; [apply reconcileLoadBalancer_leaves|]. intros [result err]. leaves_tac.
Qed.

(** The load balancer with the API server's listener and pool. *)
Definition api_ids (o : OVHCluster) : string * (string * string) :=
  (CStatus_LoadBalancerID (OVHCluster_Status o),
   (CStatus_ListenerID (OVHCluster_Status o), CStatus_PoolID (OVHCluster_Status o))).

(** A step that keeps the load balancer; one that keeps its listener and pool. *)
Definition same_api (s s' : OVHCluster) : Prop := api_ids s' = api_ids s.
Definition same_port (s s' : OVHCluster) : Prop := (api_ids s').2 = (api_ids s).2.

#[local] Instance same_api_preorder : PreOrder same_api.
Proof. split; [done|]. intros s1 s2 s3 ? ?. unfold same_api in *. congruence. Qed.
#[local] Instance same_port_preorder : PreOrder same_port.
Proof. split; [done|]. intros s1 s2 s3 ? ?. unfold same_port in *. congruence. Qed.

#[local] Existing Instance same_lb_preorder.

(** The load balancer stays, or it goes with its listener and pool. *)
Definition forgets (s s' : OVHCluster) : Prop :=
  (api_ids s').1 = (api_ids s).1 \/ (api_ids s').2 = (""%string, ""%string).

Lemma reconcileLoadBalancer_forgets scope s t r s' :
  exec (reconcileLoadBalancer scope s) t (r, s') -> (api_ids s).1 <> ""%string -> forgets s s'.
Proof.
  unfold reconcileLoadBalancer, adopt_existing, cspec, cstatus. intros H Hid.
  apply exec_m_bind in H as (t1 & [] & s1 & t2 & -> & H1 & H).
  assert (E1 : api_ids s1 = api_ids s).
  { rewrite !gets_bind in H1.
    rewrite (bool_decide_false (_ /\ CStatus_LoadBalancerID _ = ""%string)) in H1
      by (intros [_ He]; exact (Hid He)).
    cbn [when] in H1. apply exec_m_bind in H1 as (ta & [] & sa & tb & -> & Ha & H1). exec_inv Ha.
    case_bool_decide; cbn [when] in H1; by exec_inv H1. }
  rewrite gets_bind, decide_True in H by (by rewrite <- E1 in Hid).
  apply exec_m_bind in H as (t3 & a & s2 & t4 & -> & H2 & H).
  apply exec_m_lift in H2 as (lb & _ & [= -> ->]). unfold forgets. rewrite <- E1. destruct lb as [lb|e].
  - left. assert (K : same_lb s1 s').
    { refine (keeps_exec same_lb _ _ _ _ _ H). auto with prog. }
    exact K.
  - destruct (IsNotFound (Some e)); [|exec_inv H; by left]. right.
    apply exec_m_bind in H as (t5 & [] & s3 & t6 & -> & H3 & H). exec_inv H3.
    apply exec_m_bind in H as (t5 & [] & s3 & t7 & -> & H3 & H). exec_inv H3.
    apply exec_m_bind in H as (t5 & [] & s3 & t8 & -> & H3 & H). exec_inv H3.
    refine (keeps_exec same_port _ _ _ _ _ H). auto with prog.
Qed.

Lemma ReconcileNormal_forgets scope s t out s' :
  exec (ReconcileNormal scope s) t (out, s') -> (api_ids s).1 <> ""%string -> forgets s s'.
Proof.
  intros H Hid. unfold ReconcileNormal in H.
  apply exec_m_bind in H as (t1 & r & s1 & t2 & -> & H1 & H).
  assert (s' = s1) as -> by by exec_all. clear H. unfold reconcile_normal_body in H1.
  rewrite get_bind in H1. case_match; [exec_all; by left|].
  assert (Hk : forall A (m : M OVHCluster A) sa ta ra sb, keeps same_api m ->
            exec (m sa) ta (ra, sb) -> api_ids sb = api_ids sa)
    by (intros A m sa ta ra sb Hm He; exact (keeps_exec same_api _ _ _ _ Hm He)).
  apply exec_m_bind in H1 as (t3 & a1 & s2 & t4 & -> & H3 & H1). apply Hk in H3; [|auto with prog].
  destruct a1 as [[]|e]; [|exec_inv H1; left; unfold api_ids in *; cbn; congruence].
  apply exec_m_bind in H1 as (t5 & a2 & s3 & t6 & -> & H5 & H1). apply Hk in H5; [|auto with prog].
  destruct a2 as [[]|e]; [|case_match; exec_inv H1; left; unfold api_ids in *; cbn; congruence].
  apply exec_m_bind in H1 as (t7 & [] & s4 & t8 & -> & H7 & H1). apply Hk in H7; [|auto with prog].
  apply exec_m_bind in H1 as (t9 & a4 & s5 & t10 & -> & H9 & H1). apply Hk in H9; [|auto with prog].
  apply exec_m_bind in H1 as (t11 & [res err] & s6 & t12 & -> & H11 & H1).
  assert (E : api_ids s5 = api_ids s) by congruence.
  apply reconcileLoadBalancer_forgets in H11; [|by rewrite E].
  assert (E6 : api_ids s1 = api_ids s6).
  { case_decide; [by exec_inv H1|].
    apply exec_m_bind in H1 as (t13 & a6 & s7 & t14 & -> & H13 & H1). apply Hk in H13; [|auto with prog].
    unfold mark_true in H1. exec_all. unfold api_ids. cbn. congruence. }
  unfold forgets in *. by rewrite E6, <- E.
Qed.

(** C32: a recorded listener and pool of the register port are final: over any
    number of passes, whatever OVH answers, their IDs stay, and no pass asks for
    another listener or pool of the port. That includes the passes in which the
    recorded load balancer changes, as it does when it has vanished: such a pass
    forgets the API server's listener and pool, so that they are made again, but
    not these, so that the new load balancer gets none for port 9345. *)
Theorem register_port_lost scope s s' :
  rtc (pass scope) s s' ->
  CStatus_RegisterListenerID (OVHCluster_Status s) <> ""%string ->
  CStatus_RegisterPoolID (OVHCluster_Status s) <> ""%string ->
  register_ids s' = register_ids s
  /\ forall t out s'', exec (ReconcileNormal scope s') t (out, s'') ->
       register_ids s'' = register_ids s
       /\ Forall (fun rq => makes_register rq = false) (requests t)
       /\ (CStatus_LoadBalancerID (OVHCluster_Status s') <> ""%string ->
           CStatus_LoadBalancerID (OVHCluster_Status s'')
             <> CStatus_LoadBalancerID (OVHCluster_Status s') ->
           CStatus_ListenerID (OVHCluster_Status s'') = ""%string
           /\ CStatus_PoolID (OVHCluster_Status s'') = ""%string).
Proof.
  intros Hs H1 H2.
  assert (E : register_ids s' = register_ids s).
  { induction Hs as [s|s s1 s' (t & out & H) Hs IH]; [done|].
    destruct (ReconcileNormal_leaves _ _ _ _ _ H H1 H2) as [E _]. unfold same_register in E.
    rewrite <- E. injection E as E1 E2. apply IH; congruence. }
  split; [exact E|]. intros t out s'' H.
  destruct (ReconcileNormal_leaves _ _ _ _ _ H) as [E' F]; [by rewrite E..|].
  split_and!; [unfold same_register in E'; congruence | done |].
  intros Hid Hne. apply ReconcileNormal_forgets in H as [?|Hp]; [done | | done].
  injection Hp as Hl Hp. done.
Qed.

(** ** The network is made without a lookup *)

Definition network_create (scope : ClusterScope) (nc : OVHNetworkConfig) (region : string) : request :=
  mkRequest POST (projectPath (CScope_OVHClient scope) "/network/private" [])
    (BNetwork (mkCreateNetworkOpts
      (GenerateRFC1035Name ["capi"; Meta_Name (Cluster_ObjectMeta (CScope_Cluster scope)); "net"])
      (NetConfig_VlanID nc) [region])) TPrivateNetwork.

(** While no network is recorded, every pass asks for a new one and looks for
    none of the name: when the patch that records it is lost, the next pass makes
    a second network. *)
Theorem network_created_blindly scope nc region s t r s' :
  exec (ensure_network scope nc region s) t (r, s') ->
  CStatus_NetworkID (OVHCluster_Status s) = ""%string ->
  NetConfig_PrivateNetworkID nc = ""%string ->
  exists n, (n <= maxRetries)%nat
    /\ requests t = replicate (S n) (network_create scope nc region).
Proof.
  intros H Hid Hpn. unfold ensure_network, cstatus, mark_false, mark_true in H. rewrite gets_bind in H.
  rewrite decide_True, decide_False in H by (rewrite ?Hid, ?Hpn; auto).
  apply exec_m_bind in H as (t1 & a & s1 & t2 & -> & Ha & H).
  assert (Ht2 : requests t2 = []) by (by exec_all).
  apply exec_m_lift in Ha as (a' & Ha & _). apply exec_wrap in Ha as (a'' & Ha & _).
  apply (retry_sound _ (network_create scope nc region)), retried_requests in Ha as (n & Hn & Ht1).
  exists n. split; [done|]. by rewrite requests_app, Ht1, Ht2, app_nil_r.
Qed.
End limits.
