(* ===== verification/RequestFacts.v ===== *)
(** * The requests of the controllers: their types, and the rights they need

    go-ovh is untyped: [Get], [Post] and [Delete] take a path, any body and any
    pointer to decode the answer into, and a consumer key grants a method on a
    pattern of paths. This file types the requests, gives the access rules the
    documents ask for, and shows that every pass makes typed requests within
    them. *)

From S2P Require Import Prelude GoStrings Errors OvhTypes ApiTypes Effects Client StringFacts Logic.
From S2P Require Import ClientFacts ClusterController MachineController.

(** ** Types *)

(** The resources the API describes by an object of their own. *)
Definition resource (T : ty) : bool :=
  match T with
  | TInstance | TFlavor | TImage | TSSHKey | TPrivateNetwork | TSubnet | TLBFlavor
  | TLoadBalancer | TGateway | TListener | TPool | TMember | THealthMonitor | TVolume
  | TFloatingIP | TRegionInfo | TSecurityGroup | TSecurityGroupRule | TDNSRecord => true
  | _ => false
  end.

(** What a POST with this body answers: the resource it makes, the members that
    joined, a task for a load balancer, and nothing for an action. *)
Definition made (b : body) : ty :=
  match b with
  | BInstance _ => TInstance
  | BSSHKey _ => TSSHKey
  | BNetwork _ => TPrivateNetwork
  | BSubnet _ => TSubnet
  | BLoadBalancer _ => TAny
  | BLBFloatingIP _ _ _ | BFloatingIP _ => TFloatingIP
  | BListener _ => TListener
  | BPool _ => TPool
  | BMembers _ => TList TMember
  | BHealthMonitor _ => THealthMonitor
  | BVolume _ => TVolume
  | BSecurityGroup _ => TSecurityGroup
  | BSecurityGroupRule _ => TSecurityGroupRule
  | BDNSRecord _ => TDNSRecord
  | NoBody | BAssociate _ | BAttach _ => TNone
  end.

(** A GET has no body and decodes a resource or a list; a POST decodes what it
    makes; a DELETE has neither body nor answer. *)
Definition well_typed (rq : request) : bool :=
  match req_method rq, req_body rq with
  | GET, NoBody => match req_out rq with TList T => bool_decide (T = TString) || resource T | T => resource T end
  | POST, b => bool_decide (req_out rq = made b)
  | DELETE, NoBody => bool_decide (req_out rq = TNone)
  | _, _ => false
  end.

(** ** Access rules *)

(** A pattern of paths: a star stands for any string, the empty one and one
    with slashes included. *)
Fixpoint glob (pattern : string) : string -> bool :=
  match pattern with
  | EmptyString => fun path => bool_decide (path = ""%string)
  | String a pattern =>
    if decide (a = "*"%char) then
      fix star (path : string) : bool :=
        glob pattern path || match path with EmptyString => false | String _ path => star path end
    else fun path =>
      match path with
      | EmptyString => false
      | String b path => bool_decide (a = b) && glob pattern path
      end
  end.

Definition granted (rules : list (http_method * string)) (rq : request) : bool :=
  existsb (fun '(m, pattern) => bool_decide (req_method rq = m) && glob pattern (req_path rq)) rules.

(** The least the trouble-shooting guide asks for, on the project. *)
Definition project_rules (serviceName : string) : list (http_method * string) :=
  let all := ("/cloud/project/" ++ serviceName ++ "/*")%string in
  [(GET, all); (POST, all); (DELETE, all)].

(** What a DNS record of the endpoint needs besides. *)
Definition zone_rules : list (http_method * string) :=
  [(POST, "/domain/zone/*/record"); (POST, "/domain/zone/*/refresh");
   (DELETE, "/domain/zone/*/record/*")].

(** The rules of the credentials guide. *)
Definition guide_rules (serviceName : string) : list (http_method * string) :=
  let p := ("/cloud/project/" ++ serviceName)%string in
  [(GET, "/me"); (GET, p); (GET, p ++ "/*");
   (POST, p ++ "/instance"); (POST, p ++ "/instance/*"); (DELETE, p ++ "/instance/*");
   (GET, p ++ "/flavor"); (GET, p ++ "/image");
   (GET, p ++ "/sshkey"); (GET, p ++ "/sshkey/*"); (POST, p ++ "/sshkey");
   (POST, p ++ "/network/private"); (POST, p ++ "/network/private/*");
   (GET, p ++ "/network/private/*"); (DELETE, p ++ "/network/private/*");
   (POST, p ++ "/volume"); (POST, p ++ "/volume/*"); (GET, p ++ "/volume/*");
   (DELETE, p ++ "/volume/*");
   (GET, p ++ "/region/*/loadbalancing/*"); (POST, p ++ "/region/*/loadbalancing/*");
   (DELETE, p ++ "/region/*/loadbalancing/*");
   (GET, p ++ "/region/*/floatingip/*"); (POST, p ++ "/region/*/floatingip/*");
   (DELETE, p ++ "/region/*/floatingip/*")]%string.

#[global] Arguments granted : simpl never.

(** ** Matching *)

Lemma glob_star pattern path : glob pattern path = true -> glob (String "*" pattern) path = true.
Proof. intros H. destruct path; simpl; by rewrite H. Qed.

Lemma glob_skip pattern pre path :
  glob pattern path = true -> glob (String "*" pattern) (pre ++ path) = true.
Proof.
  intros H. induction pre as [|a pre IH]; [by apply glob_star|].
  cbn [String.append]. simpl. apply orb_true_intro. right. exact IH.
Qed.

(** The same text before the pattern and before the path, stars included. *)
Lemma glob_app text pattern path :
  glob pattern path = true -> glob (text ++ pattern) (text ++ path) = true.
Proof.
  intros H. induction text as [|a text IH]; [done|]. cbn [String.append].
  destruct (decide (a = "*"%char)) as [->|Ha].
  - exact (glob_skip _ (String "*" EmptyString) _ IH).
  - simpl. rewrite decide_False by done. by rewrite bool_decide_true.
Qed.

Lemma glob_all path : glob "*" path = true.
Proof. rewrite <- (append_nil_r path). by apply glob_skip. Qed.

Section requests.
Context `{U : Unicode} `{C : CAPI}.

(** A request of this client that has a type and is within the rules. *)
Definition sound (rules : list (http_method * string)) (e : event) : Prop :=
  match e with
  | EApi rq => well_typed rq = true /\ granted rules rq = true
  | _ => True
  end.

Lemma granted_intro rules rq m pattern :
  (m, pattern) ∈ rules -> req_method rq = m -> glob pattern (req_path rq) = true ->
  granted rules rq = true.
Proof.
  intros Hin Hm Hg. apply existsb_exists. exists (m, pattern).
  split; [by apply list_elem_of_In|]. by rewrite bool_decide_true, Hg.
Qed.

Lemma granted_app rules rules' rq : granted rules rq = true -> granted (rules ++ rules') rq = true.
Proof. unfold granted. rewrite existsb_app. by intros ->. Qed.

Lemma granted_project sn m rest b T :
  granted (project_rules sn) (mkRequest m ("/cloud/project/" ++ sn ++ "/" ++ rest)%string b T) = true.
Proof.
  eapply (granted_intro _ _ m ("/cloud/project/" ++ sn ++ "/*")%string); [|done|].
  - unfold project_rules. destruct m; set_solver.
  - do 2 apply glob_app. exact (glob_app "/" "*" rest (glob_all rest)).
Qed.

Lemma granted_zone sn m pattern rq :
  (m, pattern) ∈ zone_rules -> req_method rq = m -> glob pattern (req_path rq) = true ->
  granted (project_rules sn ++ zone_rules) rq = true.
Proof. intros Hin. apply granted_intro, elem_of_app. by right. Qed.

(** The paths of the client: all but those of the zones are below its project. *)
Definition below (c : Client) (path : string) : Prop :=
  exists rest, path = ("/cloud/project/" ++ Client_serviceName c ++ "/" ++ rest)%string.

Lemma Sprintf_slash f args : Sprintf (String "/" f) args = String "/" (Sprintf f args).
Proof. unfold Sprintf. cbn. by destruct (format_to_w f args). Qed.

Lemma below_project c f args : below c (projectPath c (String "/" f) args).
Proof.
  unfold projectPath. rewrite decide_True by done. rewrite Sprintf_slash.
  exists (Sprintf f args). by rewrite append_assoc.
Qed.

Lemma below_region c f args : below c (regionPath c (String "/" f) args).
Proof.
  unfold regionPath. rewrite decide_True by done.
  exists ("region/" ++ Client_region c ++ Sprintf (String "/" f) args)%string.
  cbn. by rewrite ?append_nil_r, ?append_assoc.
Qed.

Lemma below_with_region c path : below c path -> below c (with_region c path).
Proof.
  intros [rest ->]. unfold with_region. case_decide; [|by exists rest].
  eexists (rest ++ _)%string. by rewrite !append_assoc.
Qed.

Lemma granted_below c rq :
  below c (req_path rq) -> granted (project_rules (Client_serviceName c)) rq = true.
Proof. destruct rq as [m p b T]. cbn. intros [rest ->]. exact (granted_project _ m rest b T). Qed.

Lemma record_sound sn zone o :
  sound (project_rules sn ++ zone_rules)
    (EApi (mkRequest POST (Sprintf "/domain/zone/%s/record" [AS zone]) (BDNSRecord o) TDNSRecord)).
Proof.
  split; [done|]. apply (granted_zone _ POST "/domain/zone/*/record"); [set_solver | done|].
  exact (glob_app "/domain/zone/" "*/record" _ (glob_skip "/record" zone "/record" eq_refl)).
Qed.

Lemma refresh_sound sn zone :
  sound (project_rules sn ++ zone_rules)
    (EApi (mkRequest POST (Sprintf "/domain/zone/%s/refresh" [AS zone]) NoBody TNone)).
Proof.
  split; [done|]. apply (granted_zone _ POST "/domain/zone/*/refresh"); [set_solver | done|].
  exact (glob_app "/domain/zone/" "*/refresh" _ (glob_skip "/refresh" zone "/refresh" eq_refl)).
Qed.

Lemma record_delete_sound sn zone id :
  sound (project_rules sn ++ zone_rules)
    (EApi (mkRequest DELETE (Sprintf "/domain/zone/%s/record/%d" [AS zone; AZ id]) NoBody TNone)).
Proof.
  split; [done|]. apply (granted_zone _ DELETE "/domain/zone/*/record/*"); [set_solver | done|].
  refine (glob_app "/domain/zone/" "*/record/*" _ (glob_skip "/record/*" zone _ _)).
  exact (glob_app "/record/" "*" _ (glob_all _)).
Qed.
End requests.

(** A call by its type, and by the prefix of its path. *)
Ltac below_tac :=
  lazymatch goal with
  | |- below _ (projectPath _ _ _) => apply below_project
  | |- below _ (regionPath _ _ _) => apply below_region
  | |- below _ (with_region _ _) => apply below_with_region, below_project
  end.

Ltac sound_event :=
  lazymatch goal with
  | |- sound (project_rules _) (EApi _) =>
      split; [reflexivity|]; apply granted_below; cbn [req_path]; below_tac
  | |- sound _ (EApi (mkRequest _ (Sprintf "/domain/zone/%s/record" _) _ _)) => exact (record_sound _ _ _)
  | |- sound _ (EApi (mkRequest _ (Sprintf "/domain/zone/%s/refresh" _) _ _)) => exact (refresh_sound _ _)
  | |- sound _ (EApi (mkRequest _ (Sprintf "/domain/zone/%s/record/%d" _) _ _)) =>
      exact (record_delete_sound _ _ _)
  | |- sound _ (EApi _) =>
      split; [reflexivity|]; apply granted_app, granted_below; cbn [req_path]; below_tac
  | |- sound _ _ => exact I
  end.

Section passes.
Context `{U : Unicode} `{C : CAPI}.

Lemma machine_sound scope :
  only_m (sound (project_rules (Client_serviceName (MScope_OVHClient scope))))
    (MachineController.ReconcileNormal scope)
  /\ only_m (sound (project_rules (Client_serviceName (MScope_OVHClient scope))))
    (MachineController.ReconcileDelete scope).
Proof. split; repeat only_rule; sound_event. Qed.

Lemma cluster_sound scope :
  only_m (sound (project_rules (Client_serviceName (CScope_OVHClient scope)) ++ zone_rules))
    (ClusterController.ReconcileNormal scope)
  /\ only_m (sound (project_rules (Client_serviceName (CScope_OVHClient scope)) ++ zone_rules))
    (ClusterController.ReconcileDelete scope).
Proof. split; repeat only_rule; sound_event. Qed.

(** A pass of the cluster's or of the machine's controller with this client, and
    the rules it is to live with. *)
Inductive pass_within (c : Client) (t : list obs) : list (http_method * string) -> Prop :=
| cluster_normal owner s out s' :
    exec (ClusterController.ReconcileNormal (mkClusterScope owner c) s) t (out, s') ->
    pass_within c t (project_rules (Client_serviceName c) ++ zone_rules)
| cluster_delete owner s out s' :
    exec (ClusterController.ReconcileDelete (mkClusterScope owner c) s) t (out, s') ->
    pass_within c t (project_rules (Client_serviceName c) ++ zone_rules)
| machine_normal cl m o s out s' :
    exec (MachineController.ReconcileNormal (mkMachineScope cl m o c) s) t (out, s') ->
    pass_within c t (project_rules (Client_serviceName c))
| machine_delete cl m o s out s' :
    exec (MachineController.ReconcileDelete (mkMachineScope cl m o c) s) t (out, s') ->
    pass_within c t (project_rules (Client_serviceName c)).

(** C28: every request of every pass has a type (a GET decodes a resource or a
    list of them, a POST decodes what its body makes, a DELETE nothing), and is
    within a key that grants GET, POST and DELETE below the project; the cluster
    needs the records and the refresh of the DNS zones besides, the machine
    nothing else. *)
Theorem requests_sound c t rules :
  pass_within c t rules ->
  Forall (fun rq => well_typed rq = true /\ granted rules rq = true) (requests t).
Proof.
  intros [l s out s' H|l s out s' H|cl m o s out s' H|cl m o s out s' H].
  - exact (only_m_requests (sound _) _ _ _ _ (proj1 (cluster_sound (mkClusterScope l c))) H).
  - exact (only_m_requests (sound _) _ _ _ _ (proj2 (cluster_sound (mkClusterScope l c))) H).
  - exact (only_m_requests (sound _) _ _ _ _ (proj1 (machine_sound (mkMachineScope cl m o c))) H).
  - exact (only_m_requests (sound _) _ _ _ _ (proj2 (machine_sound (mkMachineScope cl m o c))) H).
Qed.
End passes.
