(* ===== verification/SimServer.v ===== *)
(** * A scripted service, for concrete runs

    [sim w] answers every call of a program: the OVH API from a list of replies
    (and zero values for the rest), the Kubernetes APIs from the fields of the
    world [w]. With [run] it executes the controllers on concrete inputs. *)

From S2P Require Import Prelude GoStrings Errors OvhTypes ApiTypes Effects Client Logic.

Local Open Scope Z_scope.

Definition den_zero (t : ty) : den t :=
  match t with
  | TNone | TAny => tt
  | TString => ""%string
  | TInstance => zero | TFlavor => zero | TImage => zero | TSSHKey => zero
  | TPrivateNetwork => zero | TSubnet => zero | TLBFlavor => zero
  | TLoadBalancer => zero | TGateway => zero | TListener => zero
  | TPool => zero | TMember => zero | THealthMonitor => zero
  | TVolume => zero | TFloatingIP => zero | TRegionInfo => zero
  | TSecurityGroup => zero | TSecurityGroupRule => zero
  | TDNSRecord => zero
  | TList _ => []
  end.

(** The answer to a method and a path. *)
Record reply := mkReply {
  reply_method : http_method;
  reply_path : string;
  reply_ty : ty;
  reply_value : res (den reply_ty);
}.

Definition coerce {T} (v : res (den T)) (T' : ty) : res (den T') :=
  match decide (T = T') with
  | left e => eq_rect T (fun T => res (den T)) v T' e
  | right _ => Err (ENew "unexpected type")
  end.

Definition serve (replies : list reply) (r : request) : res (den (req_out r)) :=
  match first_match (fun p => bool_decide (reply_method p = req_method r /\ reply_path p = req_path r))
                    replies with
  | Some p => coerce (reply_value p) (req_out r)
  | None => Ok (den_zero (req_out r))
  end.

Record world := mkWorld {
  w_replies : list reply;
  w_cluster : OVHCluster;
  w_machine : OVHMachine;
  w_owner_cluster : option Cluster;
  w_owner_machine : option Machine;
  w_secret : Secret;
  w_node : Node;
  w_pods : list Pod;
  w_stdout : string;
}.

Definition sim (w : world) (e : event) (u : unit) : answer e * unit :=
  (match e return answer e with
   | EApi r => serve (w_replies w) r
   | ESleep _ | EMetric _ => tt
   | ERange entries => entries
   | ENewGoovh _ _ _ _ => Ok tt
   | EGetOVHCluster _ _ => Ok (w_cluster w)
   | EGetOVHMachine _ _ => Ok (w_machine w)
   | EGetSecret _ _ => Ok (w_secret w)
   | EListOVHClusters _ => Ok [w_cluster w]
   | ENewClusterPatch _ | EPatchCluster _ | ENewMachinePatch _ | EPatchMachine _ => Ok tt
   | EGetOwnerCluster _ => Ok (w_owner_cluster w)
   | EGetOwnerMachine _ => Ok (w_owner_machine w)
   | EGetClusterFromMetadata _ => Ok (w_owner_cluster w)
   | EKubeconfigFromSecret _ _ => Ok "kubeconfig"%string
   | ERESTConfig _ => Ok "config"%string
   | ENewForConfig _ => Ok tt
   | EGetNode _ _ => Ok (w_node w)
   | EPatchNode _ _ _ => Ok tt
   | EListPods _ _ _ => Ok (w_pods w)
   | ENewExecutor _ _ _ _ _ => Ok tt
   | EExec _ _ _ _ _ => ((w_stdout w, ""%string), None)
   end, u).

(** The run of a program, and of a stateful one, against [w]. *)
Definition trace_of {A} (w : world) (p : prog A) : list obs := (run (sim w) p tt).2.
Definition value_of {A} (w : world) (p : prog A) : A := (run (sim w) p tt).1.1.

Lemma sim_exec {A} w (p : prog A) : exec p (trace_of w p) (value_of w p).
Proof. apply run_exec. Qed.

Lemma sim_exec_m {S A} w (m : M S A) s :
  exec (m s) (trace_of w (m s)) ((value_of w (m s)).1, (value_of w (m s)).2).
Proof. rewrite <- surjective_pairing. apply sim_exec. Qed.

(** ** Objects the examples share *)

Definition c0 : Client := mkClient "proj" "GRA11".

Definition meta (name : string) (finalizers : list string) (deleted : option Z) : ObjectMeta :=
  mkObjectMeta "default" name ∅ ∅ finalizers deleted.

Definition prod : Cluster := mkCluster (meta "prod" [] None) false None true.
Definition spec0 (nc : option OVHNetworkConfig) : OVHClusterSpec :=
  mkOVHClusterSpec "proj" "GRA11" (mkSecretKey "default" "ovh") zero zero nc "" [] [] ∅ None.

Definition secret0 : Secret :=
  mkSecret "default" "ovh"
    (<["endpoint" := "ovh-eu"]> (<["applicationKey" := "ak"]>
      (<["applicationSecret" := "as"]> (<["consumerKey" := "ck"]> ∅))))%string.
