(* ===== verification/ClusterExamples.v ===== *)
(** * The cluster theorems on concrete runs

    A cluster "prod" of the project "proj" in region GRA11, against the scripted
    service: each lemma applies a theorem to one such run. *)

From S2P Require Import Prelude GoStrings Errors OvhTypes ApiTypes Effects Client Names StringFacts.
From S2P Require Import NamesFacts Logic ClientFacts ClusterController ClusterFacts.
From S2P Require Import ClusterDeleteFacts ClusterStepFacts FloatingIPFacts ClusterReconcileFacts.
From S2P Require Import ClusterLimits.
From S2P Require Import RequestFacts Webhooks SimServer.

Local Open Scope Z_scope.

#[local] Existing Instance ascii_unicode.
#[local] Existing Instance simple_capi.

(** ** The objects *)

Definition scope0 : ClusterScope := mkClusterScope prod c0.

(** A cluster on its load balancer "lb-1". *)
Definition cluster0 : OVHCluster :=
  set_c_LoadBalancerID "lb-1"
    (mkOVHCluster (meta "prod" [ClusterFinalizer] None) (spec0 None) zero).

(** The same, being deleted, with a network of its own. *)
Definition cluster_gone : OVHCluster :=
  set_c_NetworkID "net-1"
    (set_c_Conditions (MarkTrue NetworkCreatedByControllerCondition [])
      (set_c_LoadBalancerID "lb-1"
        (mkOVHCluster (meta "prod" [ClusterFinalizer] (Some 1)) (spec0 None) zero))).

Definition lb_path : string := regionPath c0 "/loadbalancing/loadbalancer" [].
Definition lb1_path : string := regionPath c0 "/loadbalancing/loadbalancer/%s" [AS "lb-1"].

Definition lb1 : LoadBalancer :=
  mkLoadBalancer "lb-1" "capi-prod-lb" "" "" "GRA11" "" "ONLINE" LBProvisioningStatusActive
    "10.0.0.5" "" "" None [].

(** The load balancer of another cluster, "prod-lb". *)
Definition lb2 : LoadBalancer :=
  mkLoadBalancer "lb-2" "capi-prod-lb-lb" "" "" "GRA11" "" "ONLINE" LBProvisioningStatusActive
    "10.0.0.6" "" "" None [].

Definition world_of (replies : list reply) (o : OVHCluster) : world :=
  mkWorld replies o zero (Some prod) None secret0 (mkNode "" "" []) [] "".

Definition w0 : world :=
  world_of [mkReply GET (projectPath c0 "/region" []) (TList TString) (Ok ["GRA11"%string]);
            mkReply GET lb1_path TLoadBalancer (Ok lb1);
            mkReply GET lb_path (TList TLoadBalancer) (Ok [lb1; lb2])] cluster0.

Definition normal0 : M OVHCluster outcome := ReconcileNormal scope0.
Definition delete0 : M OVHCluster outcome := ReconcileDelete scope0.

(** ** The witnesses *)

Lemma ReconcileNormal_ready_witness :
  let r := value_of w0 (normal0 cluster0) in
  r.1 = requeue requeueTimeLong /\ ready r.2 = true
  /\ lb_seen_active scope0 (trace_of w0 (normal0 cluster0)) r.2.
Proof.
  cbv zeta. pose proof (ReconcileNormal_ready _ _ _ _ _ (sim_exec_m w0 normal0 cluster0)) as H.
  assert (Hout : (value_of w0 (normal0 cluster0)).1 = requeue requeueTimeLong) by by vm_compute.
  rewrite decide_True in H by exact Hout. split; [exact Hout|]. tauto.
Defined.

Lemma ReconcileNormal_no_delete_witness :
  let t := trace_of w0 (normal0 cluster0) in
  length (requests t) = 15%nat /\ Forall (fun rq => req_method rq <> DELETE) (requests t).
Proof.
  split; [by vm_compute|].
  exact (ReconcileNormal_no_delete _ _ _ _ _ (sim_exec_m w0 normal0 cluster0)).
Defined.

Lemma ReconcileNormal_endpoint_witness :
  let s' := (value_of w0 (normal0 cluster0)).2 in
  CSpec_ControlPlaneEndpoint (OVHCluster_Spec s') = mkAPIEndpoint "10.0.0.5" 6443
  /\ published scope0 cluster0 (trace_of w0 (normal0 cluster0)) s' "10.0.0.5".
Proof.
  assert (He : CSpec_ControlPlaneEndpoint (OVHCluster_Spec (value_of w0 (normal0 cluster0)).2)
               = mkAPIEndpoint "10.0.0.5" 6443) by by vm_compute.
  split; [exact He|].
  destruct (ReconcileNormal_endpoint _ _ _ _ _ (sim_exec_m w0 normal0 cluster0))
    as [_ [H|(_ & host & _ & Hp & H)]]; rewrite H in He; [exfalso; revert He; by vm_compute|].
  injection He as <-. exact Hp.
Defined.

Lemma ReconcileDelete_finalizer_witness :
  let r := value_of w0 (delete0 cluster_gone) in
  Meta_Finalizers (OVHCluster_ObjectMeta r.2) = []
  /\ released scope0 cluster_gone (trace_of w0 (delete0 cluster_gone)).
Proof.
  cbv zeta. split; [by vm_compute|].
  pose proof (ReconcileDelete_finalizer _ _ _ _ _ (sim_exec_m w0 delete0 cluster_gone)) as H.
  cbv zeta in H. rewrite decide_True in H by by vm_compute.
  destruct H as [_ [[Hk _]|[_ H]]]; [|exact H]. exfalso. revert Hk. by vm_compute.
Defined.

Lemma ReconcileDelete_no_create_witness :
  let t := trace_of w0 (delete0 cluster_gone) in
  filter (fun rq => req_method rq <> GET) (requests t)
  = [lb_delete c0 "lb-1"; lb_delete c0 "lb-1"; lb_delete c0 "lb-2"; network_delete c0 "net-1"]
  /\ Forall (fun rq => req_method rq = POST -> zone_refresh (OVHCluster_Spec cluster_gone) rq) (requests t).
Proof.
  cbv zeta. split; [by vm_compute|].
  exact (ReconcileDelete_no_create _ _ _ _ _ (sim_exec_m w0 delete0 cluster_gone)).
Defined.

(** The deletion of the network, the last call of that run. *)
Lemma ReconcileDelete_network_witness :
  let t := trace_of w0 (delete0 cluster_gone) in
  let st := OVHCluster_Status cluster_gone in
  cond cluster_gone NetworkCreatedByControllerCondition
  /\ acked gone_or_deleting (lb_delete c0 (CStatus_LoadBalancerID st)) (take (length t - 1) t).
Proof.
  set (o := Obs (EApi (network_delete c0 "net-1")) (Ok tt)). cbv zeta.
  assert (Ht : trace_of w0 (delete0 cluster_gone)
    = take (length (trace_of w0 (delete0 cluster_gone)) - 1) (trace_of w0 (delete0 cluster_gone)) ++ o :: [])
    by by vm_compute.
  pose proof (ReconcileDelete_network _ _ _ _ _ _ o [] (sim_exec_m w0 delete0 cluster_gone) Ht) as H.
  destruct H as (Hc & _ & Ha).
  - split; [done|]. by exists "net-1"%string.
  - split; [exact Hc|]. by apply Ha.
Defined.

(** ** Steps *)

Definition lbport0 : M OVHCluster (res unit) :=
  reconcileLBPort scope0 apiServerListenerName apiServerLBPort ListenerIDPtr PoolIDPtr.

(** The listener is there, of that name and on that load balancer; the pool is
    not. *)
Definition w_port : world :=
  world_of [mkReply GET (regionPath c0 "/loadbalancing/listener" []) (TList TListener)
              (Ok [mkListener "l-1" "api-server" "tcp" 6443 6443 "" "" ["lb-1"%string] "" ""])] cluster0.

Lemma reconcileLBPort_idempotent_witness :
  let r := value_of w_port (lbport0 cluster0) in
  let t := trace_of w_port (lbport0 cluster0) in
  CStatus_ListenerID (OVHCluster_Status r.2) = "l-1"%string
  /\ filter (fun rq => req_method rq <> GET) (requests t)
     = [pool_create c0 "api-server-pool" "l-1" "lb-1"; hm_create c0 "api-server-pool-hm" ""]
  /\ Forall (port_request c0 apiServerListenerName apiServerLBPort "lb-1" "" "" "l-1" "" t) (requests t).
Proof.
  cbv zeta. split; [by vm_compute|]. split; [by vm_compute|].
  exact (proj2 (proj2 (reconcileLBPort_idempotent _ _ _ _ _ _ _ _ _ (sim_exec_m w_port lbport0 cluster0)))).
Defined.

Definition hm0 : M OVHCluster (res unit) := ensurePoolHealthMonitor scope0 "pool-1" "api-server-pool".

(** The project has a monitor of that name: that of another cluster. *)
Definition w_hm : world :=
  world_of [mkReply GET (regionPath c0 "/loadbalancing/healthMonitor" []) (TList THealthMonitor)
    (Ok [mkHealthMonitor "hm-9" "api-server-pool-hm" "tcp" 5 3 2 "pool-of-another" "" "" "" "" ""])]
    cluster0.

Lemma ensurePoolHealthMonitor_spec_witness :
  let t := trace_of w_hm (hm0 cluster0) in
  (value_of w_hm (hm0 cluster0)).1 = Ok tt /\ Forall (fun rq => req_method rq = GET) (requests t).
Proof.
  cbv zeta.
  apply (proj2 (proj2 (ensurePoolHealthMonitor_spec _ _ _ _ _ _ _ (sim_exec_m w_hm hm0 cluster0)))
    [mkHealthMonitor "hm-9" "api-server-pool-hm" "tcp" 5 3 2 "pool-of-another" "" "" "" "" ""]).
  - unfold listed. by left.
  - eexists. split; [by left | done].
Defined.

Definition fip0 : M OVHCluster (res string) := reconcileFloatingIP scope0 lb1.

(** The project has the address "fip-9", attached to nothing. *)
Definition w_fip : world :=
  world_of [mkReply GET (regionPath c0 "/floatingip/%s" [AS "fip-9"]) TFloatingIP
              (Ok (mkFloatingIP "fip-9" "203.0.113.9" "down" None "GRA11" ""));
            mkReply GET lb1_path TLoadBalancer
              (Ok (mkLoadBalancer "lb-1" "capi-prod-lb" "" "" "GRA11" "" "ONLINE"
                     LBProvisioningStatusActive "10.0.0.5" "" ""
                     (Some (mkFloatingIPRef "fip-1" "203.0.113.1")) []))] cluster0.

(** A cluster that adopts it gets its address, and it is not attached; another one
    has an address made, and the load balancer shows it. *)
Lemma reconcileFloatingIP_spec_witness :
  let adopting := set_c_FloatingIPID "fip-9" cluster0 in
  let r := value_of w_fip (fip0 adopting) in
  let t := trace_of w_fip (fip0 adopting) in
  let r' := value_of w_fip (fip0 cluster0) in
  let t' := trace_of w_fip (fip0 cluster0) in
  r.1 = Ok "203.0.113.9"%string /\ Forall (fun rq => req_method rq = GET) (requests t)
  /\ found_address scope0 lb1 "fip-9" t "203.0.113.9" r.2
  /\ r'.1 = Ok "203.0.113.1"%string
  /\ allocates_once scope0 lb1 (fun ta => bare_lb lb1 /\ why scope0 lb1 cluster0 ta) t'
  /\ length (allocations t') = 1%nat.
Proof.
  cbv zeta. split; [by vm_compute|]. split; [by vm_compute; repeat constructor|]. split.
  - pose proof (reconcileFloatingIP_spec _ _ _ _ _ _
      (sim_exec_m w_fip fip0 (set_c_FloatingIPID "fip-9" cluster0))) as (_ & _ & _ & H).
    assert (E : (value_of w_fip (fip0 (set_c_FloatingIPID "fip-9" cluster0))).1 = Ok "203.0.113.9"%string)
      by by vm_compute.
    rewrite E in H. exact H.
  - split; [by vm_compute|]. split; [|by vm_compute].
    exact (proj1 (proj2 (proj2 (reconcileFloatingIP_spec _ _ _ _ _ _ (sim_exec_m w_fip fip0 cluster0))))).
Defined.

Definition lb_opts : CreateLoadBalancerOpts := mkCreateLoadBalancerOpts "capi-prod-lb" "small" zero.

Lemma CreateLoadBalancer_spec_witness :
  let p := CreateLoadBalancer c0 lb_opts in
  value_of w0 p = Ok lb1
  /\ (forall lb, value_of w0 p = Ok lb -> LoadBalancer_Name lb = "capi-prod-lb"%string)
  /\ slept (trace_of w0 p) <= 854 * Second.
Proof.
  cbv zeta. split; [by vm_compute|].
  destruct (CreateLoadBalancer_spec c0 lb_opts _ _ (sim_exec w0 (CreateLoadBalancer c0 lb_opts)))
    as (_ & Hn & Hs & _).
  split; [exact Hn | exact Hs].
Defined.

Lemma deletions_idempotent_witness :
  exists rq, req_method rq = DELETE /\
    forall t r, exec (DeleteInstance c0 "i-1") (Obs (EApi rq) (Err (EAPI 404 "gone")) :: t) r ->
      t = [] /\ r = Ok tt.
Proof.
  destruct (deletions_idempotent c0 "i-1" DeleteInstance IsNotFound) as (rq & Hm & _ & H).
  - unfold deletions. by left.
  - exists rq. split; [exact Hm|]. intros t r. by apply H.
Defined.

Lemma IsNotFound_unreachable_witness :
  IsNotFound (Some (Errorf "getting instance %s: %w"
    [AS "5f0a4041-0000-4000-8000-000000000000"; AE (ENew "dial tcp: i/o timeout")])) = true.
Proof. by apply IsNotFound_unreachable. Defined.

(** ** The entry point *)

(** The cluster before its first pass. *)
Definition cluster_new : OVHCluster := mkOVHCluster (meta "prod" [] None) (spec0 None) zero.
Definition w_new : world := world_of [] cluster_new.
Definition pass_new : prog outcome := Reconcile "default" "prod".

Lemma Reconcile_finalizer_first_witness :
  let t := tail (trace_of w_new pass_new) in
  requests t = []
  /\ last t = Some (Obs (EPatchCluster (set_c_Finalizers [ClusterFinalizer] cluster_new)) (Ok tt)).
Proof.
  cbv zeta.
  assert (He : exec pass_new
    (Obs (EGetOVHCluster "default" "prod") (Ok cluster_new) :: tail (trace_of w_new pass_new))
    (value_of w_new pass_new)) by exact (sim_exec w_new pass_new).
  split.
  - by apply (proj1 (Reconcile_finalizer_first _ _ _ _ _ He eq_refl eq_refl)).
  - by vm_compute.
Defined.

Lemma Reconcile_patches_witness :
  exists t' out' s' patchErr,
    trace_of w_new pass_new
    = Obs (EGetOVHCluster "default" "prod") (Ok cluster_new)
      :: Obs (ENewClusterPatch cluster_new) (Ok tt) :: t' ++ [Obs (EPatchCluster s') patchErr]
    /\ exec (reconcile_body cluster_new) t' (out', s').
Proof.
  assert (He : exec pass_new
    (Obs (EGetOVHCluster "default" "prod") (Ok cluster_new)
      :: Obs (ENewClusterPatch cluster_new) (Ok tt) :: tail (tail (trace_of w_new pass_new)))
    (value_of w_new pass_new)) by exact (sim_exec w_new pass_new).
  destruct (Reconcile_patches _ _ _ _ _ He) as (t' & out' & s' & patchErr & Ht & _ & Hb & _).
  exists t', out', s', patchErr. split; [|exact Hb]. rewrite <- Ht. reflexivity.
Defined.

(** ** The border *)

Definition orphans0 : M OVHCluster unit := delete_orphans scope0.

Lemma orphans0_exec :
  exec (orphans0 cluster_gone) (trace_of w0 (orphans0 cluster_gone))
    (tt, (value_of w0 (orphans0 cluster_gone)).2).
Proof. pose proof (sim_exec_m w0 orphans0 cluster_gone) as H. by destruct (value_of w0 _).1. Qed.

Lemma delete_orphans_spec_witness :
  lb_delete c0 "lb-1" ∈ requests (trace_of w0 (orphans0 cluster_gone)).
Proof.
  apply (delete_orphans_spec _ _ _ _ [lb1; lb2] orphans0_exec).
  - unfold listed. by left.
  - done.
  - exists lb1. split_and!; [by left | by vm_compute | done].
Defined.

(** Deleting "prod" deletes the load balancer of "prod-lb". *)
Lemma delete_orphans_foreign_witness :
  lb_delete c0 "lb-2" ∈ requests (trace_of w0 (orphans0 cluster_gone)).
Proof.
  apply (delete_orphans_foreign _ _ _ _ [lb1; lb2] lb2 "prod" "" orphans0_exec).
  - done.
  - vm_compute. split_and!; [done | lia | done | done].
  - vm_compute. split_and!; [done | lia | done | done].
  - unfold listed. by left.
  - by right; left.
  - by vm_compute.
Defined.

Definition user_net : OVHNetworkConfig := mkOVHNetworkConfig "net-user" "" 0 "" [].

Definition nc_new : OVHNetworkConfig := mkOVHNetworkConfig "" "10.0.0.0/24" 0 "" [].

(** A cluster whose network "net-1" the controller made, in a project where it is
    gone: the API answers 404. *)
Definition cluster_net : OVHCluster :=
  set_c_NetworkID "net-1"
    (set_c_Conditions (MarkTrue NetworkCreatedByControllerCondition [])
      (mkOVHCluster (meta "prod" [ClusterFinalizer] None) (spec0 (Some nc_new)) zero)).

Definition w_vanished : world :=
  world_of [mkReply GET (projectPath c0 "/region" []) (TList TString) (Ok ["GRA11"%string]);
            mkReply GET (projectPath c0 "/network/private/%s" [AS "net-1"]) TPrivateNetwork
              (Err (EAPI 404 "no such network"))] cluster_net.

(** The pass that loses it; the user's edit; the pass that adopts "net-user"; the
    deletion. *)
Definition net_lost : OVHCluster := (value_of w_vanished (normal0 cluster_net)).2.
Definition net_named : OVHCluster :=
  mkOVHCluster (OVHCluster_ObjectMeta net_lost) (spec0 (Some user_net)) (OVHCluster_Status net_lost).
Definition net_adopted : OVHCluster := (value_of w_vanished (normal0 net_named)).2.
Definition net_going : OVHCluster :=
  mkOVHCluster (meta "prod" [ClusterFinalizer] (Some 1)) (OVHCluster_Spec net_adopted)
    (OVHCluster_Status net_adopted).

Lemma status_mk m sp st : OVHCluster_Status (mkOVHCluster m sp st) = st.
Proof. done. Qed.

Lemma spec_mk m sp st : OVHCluster_Spec (mkOVHCluster m sp st) = sp.
Proof. done. Qed.

Lemma adopted_network_deleted_witness :
  CStatus_NetworkID (OVHCluster_Status net_lost) = ""%string
  /\ CStatus_NetworkID (OVHCluster_Status net_adopted) = "net-user"%string
  /\ network_delete c0 "net-user" ∈ requests (trace_of w_vanished (delete0 net_going)).
Proof.
  assert (Hlost : CStatus_NetworkID (OVHCluster_Status net_lost) = ""%string) by by vm_compute.
  assert (Hadopted : CStatus_NetworkID (OVHCluster_Status net_adopted) = "net-user"%string) by by vm_compute.
  split; [exact Hlost|]. split; [exact Hadopted|].
  refine (proj1 (adopted_network_deleted scope0 cluster_net net_lost net_named net_adopted net_going
    "net-user" _ _ _ _ _ Hlost _ _ _ _ _ _ _ (sim_exec_m w_vanished delete0 net_going) _)).
  - by vm_compute.
  - apply rtc_once. eexists _, _. exact (sim_exec_m w_vanished normal0 cluster_net).
  - unfold net_named. apply status_mk.
  - exists user_net. unfold net_named. rewrite spec_mk. by split.
  - discriminate.
  - apply rtc_once. eexists _, _. exact (sim_exec_m w_vanished normal0 net_named).
  - rewrite Hadopted. discriminate.
  - unfold net_going. apply status_mk.
  - by vm_compute.
  - by vm_compute.
Defined.

(** ** The limits *)

(** A cluster on a subnet of its own, without a network; the webhook accepts it. *)
Definition cluster_subnet : OVHCluster :=
  mkOVHCluster (meta "prod" [ClusterFinalizer] None)
    (mkOVHClusterSpec "proj" "GRA11" (mkSecretKey "default" "ovh") zero
      (mkOVHLoadBalancerConfig "subnet-1" "" "" [] "" "") None "" [] [] ∅ None) zero.

Lemma unattached_never_ready_witness :
  let o' := (value_of w0 (normal0 cluster_subnet)).2 in
  cluster_ValidateCreate (AnOVHCluster cluster_subnet) = None /\ ready o' = ready cluster_subnet.
Proof.
  cbv zeta. assert (Hs : names_subnet (OVHCluster_Spec cluster_subnet)) by by split_and!.
  destruct (unattached_never_ready cluster_subnet Hs) as (Hv & _ & H). split; [exact Hv|].
  refine (proj1 (H eq_refl eq_refl eq_refl scope0 _ _)).
  apply rtc_once. eexists _, _. exact (sim_exec_m w0 normal0 cluster_subnet).
Defined.

(** "lb-1" is gone; the register port is recorded. *)
Definition w_no_lb : world :=
  world_of [mkReply GET (projectPath c0 "/region" []) (TList TString) (Ok ["GRA11"%string]);
            mkReply GET lb1_path TLoadBalancer (Err (EAPI 404 "no such load balancer"))] cluster0.
Definition cluster_served : OVHCluster :=
  set_c_RegisterPoolID "pool-2" (set_c_RegisterListenerID "listener-2"
    (set_c_PoolID "pool-1" (set_c_ListenerID "listener-1" cluster0))).

Lemma register_port_lost_witness :
  let s' := (value_of w_no_lb (normal0 cluster_served)).2 in
  CStatus_LoadBalancerID (OVHCluster_Status s') = ""%string
  /\ CStatus_ListenerID (OVHCluster_Status s') = ""%string
  /\ register_ids s' = ("listener-2", "pool-2")%string.
Proof.
  cbv zeta.
  assert (Hid : CStatus_LoadBalancerID (OVHCluster_Status (value_of w_no_lb (normal0 cluster_served)).2)
                = ""%string) by by vm_compute.
  split; [exact Hid|].
  destruct (register_port_lost scope0 cluster_served cluster_served (rtc_refl _ _)) as [_ H]; [done..|].
  destruct (H _ _ _ (sim_exec_m w_no_lb normal0 cluster_served)) as (Hr & _ & Hf).
  split; [|exact Hr]. apply Hf; [done | by rewrite Hid].
Defined.

Definition network0 : M OVHCluster (res unit) := ensure_network scope0 nc_new "GRA11".

(** Two passes over the stored object make two networks. *)
Lemma network_created_blindly_witness :
  let t := trace_of w0 (network0 cluster0) in
  exists n, (n <= maxRetries)%nat
    /\ requests t ++ requests t
       = replicate (S n) (network_create scope0 nc_new "GRA11")
         ++ replicate (S n) (network_create scope0 nc_new "GRA11").
Proof.
  destruct (network_created_blindly scope0 nc_new "GRA11" _ _ _ _ (sim_exec_m w0 network0 cluster0)) as (n & Hn & Ht);
    [done..|]. exists n. split; [exact Hn|]. cbv zeta. by rewrite Ht.
Defined.

(** ** Types and rights *)

(** The same deletion, in a project that has the cluster's gateway. *)
Definition w_gateway : world :=
  world_of [mkReply GET (regionPath c0 "/gateway" []) (TList TGateway)
              (Ok [mkGateway "gw-1" (gateway_name scope0) "ACTIVE" "s" "GRA11" []])] cluster_gone.

(** The rules of the credentials guide do not grant the deletion of the gateway
    that the pass asks for. *)
Lemma requests_sound_witness :
  let rqs := requests (trace_of w_gateway (delete0 cluster_gone)) in
  Forall (fun rq => well_typed rq = true
            /\ granted (project_rules "proj" ++ zone_rules) rq = true) rqs
  /\ filter (fun rq => granted (guide_rules "proj") rq = false) rqs
     = [mkRequest DELETE (regionPath c0 "/gateway/%s" [AS "gw-1"]) NoBody TNone].
Proof.
  cbv zeta. split; [|by vm_compute].
  refine (requests_sound c0 _ _ _). eapply (cluster_delete c0 _ prod).
  exact (sim_exec_m w_gateway delete0 cluster_gone).
Defined.
