(* ===== verification/MachineExamples.v ===== *)
(** * The machine theorems on concrete runs

    A control plane machine "cp-0" of the cluster "prod", and the workload
    node, against the scripted service. *)

From S2P Require Import Prelude GoStrings Errors OvhTypes ApiTypes Effects Client Names StringFacts.
From S2P Require Import NamesFacts Logic ClientFacts NodeInit Etcd ClusterController ClusterFacts.
From S2P Require Import ClusterDeleteFacts ClusterStepFacts ClusterReconcileFacts MachineController.
From S2P Require Import MachineFacts MachineStatusFacts MachineReconcileFacts MachinePoolFacts.
From S2P Require Import MachineLifecycle NodeFacts SimServer.

Local Open Scope Z_scope.

#[local] Existing Instance ascii_unicode.
#[local] Existing Instance simple_capi.

(** ** The objects *)

Definition infra0 : OVHCluster :=
  set_c_PoolID "pool-1" (mkOVHCluster (meta "prod" [ClusterFinalizer] None) (spec0 None) zero).

Definition cp : Machine :=
  mkMachine (mkObjectMeta "default" "cp-0" (<["cluster.x-k8s.io/control-plane"%string := ""%string]> ∅)
    ∅ [] None) (Some "boot"%string).

Definition mscope0 : MachineScope := mkMachineScope prod cp infra0 c0.

(** The image is given by its ID. *)
Definition mspec0 : OVHMachineSpec :=
  mkOVHMachineSpec "" "b3-8" "5f0a4041-0000-4000-8000-000000000000" "" 0 [] "" [] ∅ "" "".

Definition machine0 : OVHMachine := mkOVHMachine (meta "cp-0" [MachineFinalizer] None) mspec0 zero.

Definition machine_gone : OVHMachine :=
  set_m_LBPoolMemberID "m-1" (set_m_VolumeIDs ["v-1"%string] (set_m_InstanceID "i-1"
    (mkOVHMachine (meta "cp-0" [MachineFinalizer] (Some 1)) mspec0 zero))).

Definition instances_path : string := with_region c0 (projectPath c0 "/instance" []).
Definition i1_path : string := projectPath c0 "/instance/%s" [AS "i-1"].

Definition i1 : Instance :=
  mkInstance "i-1" "prod-cp-0" InstanceStatusActive "" "" "GRA11" ""
    [mkIPAddress "51.0.0.1" "public" 4; mkIPAddress "fd00::1" "private" 6;
     mkIPAddress "10.0.0.7" "private" 4] [] "" false.

Definition flavors : reply :=
  mkReply GET (with_region c0 (projectPath c0 "/flavor" [])) (TList TFlavor)
    (Ok [mkFlavor "fl-1" "b3-8" 2 8 50 "" "GRA11" 0 ""]).

(** Every secret of the world: the bootstrap data and the credentials. *)
Definition boot_secret : Secret :=
  mkSecret "default" "boot" (<["value"%string := "#cloud-config"%string]> (Secret_Data secret0)).

Definition m_world (replies : list reply) (o : OVHMachine) (owner : option Cluster) : world :=
  mkWorld replies infra0 o owner (Some cp) boot_secret (mkNode "prod-cp-0" "" []) [] "".

(** No instance yet; then one that is ACTIVE; then none any more. *)
Definition w_none : world := m_world [flavors] machine0 (Some prod).
Definition w_up : world :=
  m_world [mkReply GET instances_path (TList TInstance) (Ok [i1])] machine0 (Some prod).
Definition w_down : world :=
  m_world [mkReply GET i1_path TInstance (Err (EAPI 404 "gone"))] machine_gone (Some prod).

Definition m_normal : M OVHMachine outcome := ReconcileNormal mscope0.
Definition m_delete : M OVHMachine outcome := ReconcileDelete mscope0.

(** ** The witnesses *)

Lemma machine_creates_once_witness :
  let t := trace_of w_none (m_normal machine0) in
  length (creations t) = 1%nat
  /\ exists opts, creations t = [instance_create c0 opts] /\ opts_of mscope0 machine0 opts.
Proof.
  cbv zeta.
  assert (Hl : length (creations (trace_of w_none (m_normal machine0))) = 1%nat) by by vm_compute.
  split; [exact Hl|].
  destruct (machine_creates_once _ _ _ _ _ (sim_exec_m w_none m_normal machine0))
    as [H|(n & opts & ta & tb & _ & Ht & Ha & Hb & Ho & _)]; [by rewrite H in Hl|].
  exists opts. split; [|exact Ho].
  rewrite Ht, creations_app, Ha, Hb in Hl |- *. cbn in Hl. rewrite length_replicate in Hl.
  by rewrite Hl.
Defined.

Lemma machine_normal_calls_witness :
  let t := trace_of w_up (m_normal machine0) in
  filter (fun rq => req_method rq <> GET) (requests t)
  = [member_create c0 "pool-1" (member_opts mscope0 "10.0.0.7" 6443)]
  /\ Forall (machine_request mscope0) (requests t).
Proof.
  cbv zeta. split; [by vm_compute|].
  exact (machine_normal_calls _ _ _ _ _ (sim_exec_m w_up m_normal machine0)).
Defined.

Lemma machine_status_sound_witness :
  exists inst, found_instance mscope0 machine0 (trace_of w_up (m_normal machine0)) inst
    /\ reports mscope0 inst (value_of w_up (m_normal machine0)).2 (value_of w_up (m_normal machine0)).1.
Proof.
  destruct (machine_status_sound _ _ _ _ _ (sim_exec_m w_up m_normal machine0))
    as [(inst & H & _ & Hr)|(_ & H & _)]; [by exists inst|].
  exfalso. assert (Hr : m_ready (value_of w_up (m_normal machine0)).2 = true) by by vm_compute.
  apply H in Hr. revert Hr. by vm_compute.
Defined.

Lemma machine_life_witness :
  exists s1 s2 inst, served "GRA11" s1 s2 inst
    /\ m_provider (value_of w_up (m_normal machine0)).2 = ProviderIDFromInstance "GRA11" (Instance_ID inst)
    /\ (no_slash "GRA11" -> Instance_ID inst <> ""%string ->
        ParseProviderID (m_provider (value_of w_up (m_normal machine0)).2)
        = Ok ("GRA11"%string, Instance_ID inst)).
Proof.
  destruct (machine_life "GRA11" machine0 (value_of w_up (m_normal machine0)).2)
    as (s1 & s2 & inst & _ & _ & Hs & Hp & Hid).
  - eapply rtc_once, step_normal; [|exact (sim_exec_m w_up m_normal machine0)]. done.
  - done.
  - by vm_compute.
  - exists s1, s2, inst. split; [exact Hs|]. split; [|by apply Hid].
    rewrite Hp. by destruct Hs as (? & ? & _ & _ & _ & _ & _ & ->).
Defined.

(** The life cycle's step to serving: its only one to a machine that is up. *)
Lemma machine_refines_lifecycle_witness :
  let s' := (value_of w_up (m_normal machine0)).2 in
  up (view_of machine0) = false
  /\ view_of s' = mkView true "i-1" true (ProviderIDFromInstance "GRA11" "i-1")
  /\ lifecycle "GRA11" (evidence_of mscope0 machine0 (trace_of w_up (m_normal machine0)))
       (view_of machine0) (view_of s').
Proof.
  cbv zeta. split; [done|]. split; [by vm_compute|].
  apply (machine_refines_lifecycle mscope0 machine0).
  eapply pass_normal; [reflexivity|].
  exact (sim_exec_m w_up m_normal machine0).
Defined.

Lemma machine_delete_own_witness :
  let t := trace_of w_down (m_delete machine_gone) in
  requests t = [volume_detach c0 "v-1" "i-1"; volume_delete c0 "v-1"; member_delete c0 "pool-1" "m-1";
                instance_delete c0 "i-1"; instance_get c0 "i-1"]
  /\ Forall (own_resource mscope0 machine_gone) (requests t).
Proof.
  cbv zeta. split; [by vm_compute|].
  exact (machine_delete_own _ _ _ _ _ (sim_exec_m w_down m_delete machine_gone)).
Defined.

Lemma machine_delete_finalizer_witness :
  Meta_Finalizers (OVHMachine_ObjectMeta (value_of w_down (m_delete machine_gone)).2) = []
  /\ deleted_in c0 "i-1" (trace_of w_down (m_delete machine_gone)).
Proof.
  split; [by vm_compute|].
  pose proof (machine_delete_finalizer _ _ _ _ _ (sim_exec_m w_down m_delete machine_gone)) as H.
  cbv zeta in H. rewrite decide_True in H by by vm_compute.
  destruct H as [_ [[Hk _]|[Hid|Ha]]]; [exfalso; revert Hk; by vm_compute | done | exact Ha].
Defined.

Definition pool0 : M OVHMachine (res unit) := ensureLBPoolMember mscope0 i1.

(** An empty pool, that answers the addition with the new member. *)
Definition w_pool : world :=
  m_world [mkReply POST (members_path c0 "pool-1") (TList TMember)
             (Ok [mkMember "m-7" "cp-0" "10.0.0.7" 6443 "" "ONLINE" "active" 1])] machine0 (Some prod).

Lemma ensureLBPoolMember_idempotent_witness :
  (value_of w_pool (pool0 machine0)).1 = Ok tt
  /\ exists ta tb m, trace_of w_pool (pool0 machine0) = ta ++ tb
       /\ Forall (member_request mscope0 "pool-1" "10.0.0.7" 6443 ta) (requests ta)
       /\ MStatus_LBPoolMemberID (OVHMachine_Status (value_of w_pool (pool0 machine0)).2) = Member_ID m
       /\ joined mscope0 "pool-1" "10.0.0.7" 6443 ta m.
Proof.
  assert ((value_of w_pool (pool0 machine0)).1 = Ok tt) as Hr by by vm_compute.
  split; [exact Hr|].
  pose proof (sim_exec_m w_pool pool0 machine0) as H. rewrite Hr in H.
  destruct (ensureLBPoolMember_idempotent _ _ _ _ _ _ H)
    as (_ & ta & tb & Ht & Ha & Hj & _).
  destruct (Hj eq_refl ltac:(by vm_compute)) as (_ & _ & m & Hm & Hjm).
  exists ta, tb, m. split_and!; assumption.
Defined.

(** ** The entry point *)

Definition machine_new : OVHMachine := mkOVHMachine (meta "cp-0" [] None) mspec0 zero.
Definition prod_ref : Cluster :=
  mkCluster (meta "prod" [] None) false (Some (mkObjectReference "OVHCluster" "default" "prod")) true.
Definition w_first : world := m_world [] machine_new (Some prod_ref).
(** The owner cluster has no infrastructure reference. *)
Definition w_noref : world := m_world [] machine_new (Some prod).
Definition m_pass : prog ending := Reconcile "default" "cp-0".

Lemma machine_finalizer_first_witness :
  requests (tail (tail (trace_of w_first m_pass))) = []
  /\ last (trace_of w_first m_pass)
     = Some (Obs (EPatchMachine (set_m_Finalizers [MachineFinalizer] machine_new)) (Ok tt)).
Proof.
  assert (He : exec m_pass
    (Obs (EGetOVHMachine "default" "cp-0") (Ok machine_new)
      :: Obs (ENewMachinePatch machine_new) (Ok tt) :: tail (tail (trace_of w_first m_pass)))
    (value_of w_first m_pass)) by exact (sim_exec w_first m_pass).
  split; [|by vm_compute].
  exact (proj1 (machine_finalizer_first _ _ _ _ _ He eq_refl eq_refl)).
Defined.

Lemma machine_Reconcile_patches_witness : value_of w_noref m_pass = NilDereference.
Proof.
  assert (He : exec m_pass
    (Obs (EGetOVHMachine "default" "cp-0") (Ok machine_new)
      :: Obs (ENewMachinePatch machine_new) (Ok tt) :: tail (tail (trace_of w_noref m_pass)))
    (value_of w_noref m_pass)) by exact (sim_exec w_noref m_pass).
  apply (proj2 (machine_Reconcile_patches _ _ _ _ _ He)).
  exists cp, prod. eexists. split; [reflexivity | done].
Defined.

(** ** The workload cluster *)

Definition taint0 : Taint := mkTaint uninitializedTaintKey "true" "NoSchedule".
Definition node0 : Node := mkNode "prod-cp-0" "" [taint0].
Definition init0 : prog unit := InitializeWorkloadNode "config" "prod-cp-0" "ovhcloud://GRA11/i-1".

Definition w_node0 : world :=
  mkWorld [] infra0 machine0 None None boot_secret node0
    [mkPod "kube-system" "etcd-cp-1" "cp-1" PodRunning [mkPodCondition PodReady ConditionTrue]] "members".

Lemma InitializeWorkloadNode_patches_witness :
  let t := trace_of w_node0 init0 in
  patches t = [PatchProviderID "ovhcloud://GRA11/i-1"; PatchTaints []]
  /\ exists ps1 ps2, patches t = ps1 ++ ps2
       /\ (ps2 = [] \/ exists n, node_read "config" "prod-cp-0" n t /\ tainted n
                        /\ ps2 = [PatchTaints (other_taints n)]).
Proof.
  cbv zeta. split; [by vm_compute|].
  assert (He : exec init0 (trace_of w_node0 init0) tt)
    by (pose proof (sim_exec w_node0 init0) as H; by destruct (value_of w_node0 init0)).
  destruct (InitializeWorkloadNode_patches _ _ _ _ He) as (ps1 & ps2 & Hp & _ & H2).
  exists ps1, ps2. split; [exact Hp | exact H2].
Defined.

(** An API server with one node. *)
Definition node_server (e : event) (n : Node) : answer e * Node :=
  match e return answer e * Node with
  | EPatchNode _ _ p => (Ok tt, patched p n)
  | EGetNode _ _ => (Ok n, n)
  | ENewForConfig _ => (Ok tt, n)
  | e' => ((sim w_node0 e' tt).1, n)
  end.

Lemma InitializeWorkloadNode_converges_witness :
  (run node_server init0 node0).1.2 = mkNode "prod-cp-0" "ovhcloud://GRA11/i-1" [].
Proof.
  pose proof (InitializeWorkloadNode_converges "config" "prod-cp-0" node_server
    (fun _ => eq_refl) (fun _ => eq_refl) (fun _ _ => eq_refl) "ovhcloud://GRA11/i-1" node0
    ltac:(discriminate)) as H.
  change (InitializeWorkloadNode "config" "prod-cp-0" "ovhcloud://GRA11/i-1") with init0 in H.
  destruct (run node_server init0 node0) as [[u n'] t]. destruct H as [-> _]. reflexivity.
Defined.

(** [etcdctl] lists two members, that of "cp-0" first. *)
Definition two_members : MemberJSON := fun _ =>
  Ok (mkEtcdMemberListResponse
        [mkEtcdMember 255 "cp-0-a1b2" [] []; mkEtcdMember 16 "cp-1-c3d4" [] []]).

Definition remove0 : prog unit := RemoveEtcdMember (J := two_members) "config" "cp-0".

Lemma RemoveEtcdMember_safe_witness :
  let t := trace_of w_node0 remove0 in
  exists pod m, Pod_Name pod = "etcd-cp-1"%string /\ healthy "cp-0" pod
    /\ commands t = [in_pod "config" pod list_cmd; in_pod "config" pod (remove_cmd (EtcdMember_ID m))]
    /\ belongs "cp-0" m.
Proof.
  cbv zeta.
  assert (He : exec remove0 (trace_of w_node0 remove0) tt)
    by (pose proof (sim_exec w_node0 remove0) as H; by destruct (value_of w_node0 remove0)).
  assert (Hc : length (commands (trace_of w_node0 remove0)) = 2%nat) by by vm_compute.
  assert (Hn : map (fun '(_, _, name, _, _) => name) (commands (trace_of w_node0 remove0))
               = ["etcd-cp-1"; "etcd-cp-1"]%string) by by vm_compute.
  destruct (RemoveEtcdMember_safe (J := two_members) _ _ _ He)
    as [H|(pod & Hp & _ & [H|(so & before & m & after & H & _ & _ & Hm & _)])].
  - by rewrite H in Hc.
  - by rewrite H in Hc.
  - exists pod, m. rewrite H in Hn. cbn in Hn. injection Hn as Hn _. done.
Defined.
