(* ===== verification/Platform.v ===== *)
(** * A platform that does what it is asked

    The theorems about single runs hold for every answer. That a resource comes
    into being needs a platform that works: this file describes one, as the
    interface the convergence theorems are proved against. A platform is a
    state, what the OVH project and the management cluster hold, and a relation
    [step] between states for each call and answer; [PlatformLaws] states the
    documented behaviour of the calls the controllers rely on. IDs, statuses and
    everything else the laws leave open are the platform's choice. *)

From S2P Require Import Prelude GoStrings Errors OvhTypes ApiTypes Effects Client Names Logic.
From S2P Require Import ClientFacts ClusterController.

Local Open Scope Z_scope.

(** ** The state *)

(** What a project can choose from. *)
Record catalog := mkCatalog {
  flavors : list Flavor;
  images : list Image;
  snapshots : list Image;
  keys : list SSHKey;
}.

(** The resources whose deletion takes its time. *)
Inductive kind := KLoadBalancer | KFloatingIP | KGateway | KNetwork | KInstance.

#[export] Instance kind_eq_dec : EqDecision kind.
Proof. solve_decision. Defined.

(** What an OVH project holds; a subnet with its network, a member with its pool,
    the IDs of floating IPs, past and present, and the IDs whose deletion is accepted
    and under way. *)
Record cloud := mkCloud {
  networks : list PrivateNetwork;
  subnets : list (string * Subnet);
  lb_flavors : list LBFlavor;
  lbs : list LoadBalancer;
  listeners : list Listener;
  pools : list Pool;
  monitors : list HealthMonitor;
  members : list (string * Member);
  groups : list SecurityGroup;
  instances : list Instance;
  offers : catalog;
  fips : list FloatingIP;
  gateways : list Gateway;
  issued : list string;
  doomed : list (kind * string);
}.

Definition add_network (x : PrivateNetwork) (c : cloud) : cloud :=
  mkCloud (networks c ++ [x]) (subnets c) (lb_flavors c) (lbs c) (listeners c) (pools c)
    (monitors c) (members c) (groups c) (instances c) (offers c) (fips c) (gateways c)
    (issued c) (doomed c).
Definition add_subnet (net : string) (x : Subnet) (c : cloud) : cloud :=
  mkCloud (networks c) (subnets c ++ [(net, x)]) (lb_flavors c) (lbs c) (listeners c) (pools c)
    (monitors c) (members c) (groups c) (instances c) (offers c) (fips c) (gateways c)
    (issued c) (doomed c).
Definition add_lb (x : LoadBalancer) (c : cloud) : cloud :=
  mkCloud (networks c) (subnets c) (lb_flavors c) (lbs c ++ [x]) (listeners c) (pools c)
    (monitors c) (members c) (groups c) (instances c) (offers c) (fips c) (gateways c)
    (issued c) (doomed c).
Definition add_listener (x : Listener) (c : cloud) : cloud :=
  mkCloud (networks c) (subnets c) (lb_flavors c) (lbs c) (listeners c ++ [x]) (pools c)
    (monitors c) (members c) (groups c) (instances c) (offers c) (fips c) (gateways c)
    (issued c) (doomed c).
Definition add_pool (x : Pool) (c : cloud) : cloud :=
  mkCloud (networks c) (subnets c) (lb_flavors c) (lbs c) (listeners c) (pools c ++ [x])
    (monitors c) (members c) (groups c) (instances c) (offers c) (fips c) (gateways c)
    (issued c) (doomed c).
Definition add_monitor (x : HealthMonitor) (c : cloud) : cloud :=
  mkCloud (networks c) (subnets c) (lb_flavors c) (lbs c) (listeners c) (pools c)
    (monitors c ++ [x]) (members c) (groups c) (instances c) (offers c) (fips c) (gateways c)
    (issued c) (doomed c).
Definition add_member (pool : string) (x : Member) (c : cloud) : cloud :=
  mkCloud (networks c) (subnets c) (lb_flavors c) (lbs c) (listeners c) (pools c)
    (monitors c) (members c ++ [(pool, x)]) (groups c) (instances c) (offers c) (fips c) (gateways c)
    (issued c) (doomed c).
Definition add_group (x : SecurityGroup) (c : cloud) : cloud :=
  mkCloud (networks c) (subnets c) (lb_flavors c) (lbs c) (listeners c) (pools c)
    (monitors c) (members c) (groups c ++ [x]) (instances c) (offers c) (fips c) (gateways c)
    (issued c) (doomed c).
Definition set_instances (xs : list Instance) (c : cloud) : cloud :=
  mkCloud (networks c) (subnets c) (lb_flavors c) (lbs c) (listeners c) (pools c)
    (monitors c) (members c) (groups c) xs (offers c) (fips c) (gateways c)
    (issued c) (doomed c).
Definition add_instance (x : Instance) (c : cloud) : cloud := set_instances (instances c ++ [x]) c.

(** A gateway gets and loses interfaces, under its ID and name. *)
Definition gateway_key (g : Gateway) : string * string := (Gateway_ID g, Gateway_Name g).
Definition set_gateways (gs : list Gateway) (c : cloud) : cloud :=
  mkCloud (networks c) (subnets c) (lb_flavors c) (lbs c) (listeners c) (pools c)
    (monitors c) (members c) (groups c) (instances c) (offers c) (fips c) gs
    (issued c) (doomed c).

(** A floating IP is allocated, with the gateways that takes. *)
Definition add_address (x : FloatingIP) (gs : list Gateway) (c : cloud) : cloud :=
  mkCloud (networks c) (subnets c) (lb_flavors c) (lbs c) (listeners c) (pools c)
    (monitors c) (members c) (groups c) (instances c) (offers c) (fips c ++ [x]) (gateways c ++ gs)
    (issued c ++ [FloatingIP_ID x]) (doomed c).
Definition set_members (xs : list (string * Member)) (c : cloud) : cloud :=
  mkCloud (networks c) (subnets c) (lb_flavors c) (lbs c) (listeners c) (pools c)
    (monitors c) xs (groups c) (instances c) (offers c) (fips c) (gateways c)
    (issued c) (doomed c).

(** The entries of a list of pairs under a key. *)
Definition under {A} (k : string) (xs : list (string * A)) : list A :=
  omap (fun '(k', x) => if decide (k' = k) then Some x else None) xs.

Lemma elem_of_under {A} k (xs : list (string * A)) x : x ∈ under k xs <-> (k, x) ∈ xs.
Proof.
  unfold under. rewrite list_elem_of_omap. split.
  - intros ([k' y] & Hin & E). case_decide; by simplify_eq.
  - intros H. exists (k, x). split; [done|]. by rewrite decide_True.
Qed.

(** A resource by its ID. *)
Definition find_network (id : string) (c : cloud) : option PrivateNetwork :=
  first_match (fun n => bool_decide (PrivateNetwork_ID n = id)) (networks c).
Definition find_lb (id : string) (c : cloud) : option LoadBalancer :=
  first_match (fun l => bool_decide (LoadBalancer_ID l = id)) (lbs c).

Definition find_fip (id : string) (c : cloud) : option FloatingIP :=
  first_match (fun f => bool_decide (FloatingIP_ID f = id)) (fips c).

Definition lookup_instance (id : string) (c : cloud) : option Instance :=
  first_match (fun i => bool_decide (Instance_ID i = id)) (instances c).

(** The project, and the objects of the management cluster: one [OVHCluster] and
    one [OVHMachine] with their owners, and the secrets. *)
Record platform := mkPlatform {
  p_cloud : cloud;
  p_cluster : OVHCluster;
  p_machine : OVHMachine;
  p_owner : Cluster;
  p_owner_machine : Machine;
  p_secrets : gmap (string * string) Secret;
}.

Definition on_cloud (f : cloud -> cloud) (p : platform) : platform :=
  mkPlatform (f (p_cloud p)) (p_cluster p) (p_machine p) (p_owner p) (p_owner_machine p)
    (p_secrets p).
Definition store_cluster (o : OVHCluster) (p : platform) : platform :=
  mkPlatform (p_cloud p) o (p_machine p) (p_owner p) (p_owner_machine p) (p_secrets p).
Definition store_machine (o : OVHMachine) (p : platform) : platform :=
  mkPlatform (p_cloud p) (p_cluster p) o (p_owner p) (p_owner_machine p) (p_secrets p).

(** ** What a project keeps *)

(** The IDs of floating IPs are unique, and were given out; a load balancer has one
    floating IP at most, and if it tells of one, it is that. *)
Definition addresses_ok (c : cloud) : Prop :=
  NoDup (FloatingIP_ID <$> fips c)
  /\ Forall (fun f => FloatingIP_ID f <> ""%string /\ FloatingIP_ID f ∈ issued c) (fips c)
  /\ (forall lb f f', f ∈ fips c -> f' ∈ fips c -> fip_of_lb lb f = true -> fip_of_lb lb f' = true ->
        f' = f)
  /\ (forall l r, l ∈ lbs c -> LoadBalancer_FloatingIP l = Some r ->
        exists f, f ∈ fips c /\ fip_of_lb (LoadBalancer_ID l) f = true
          /\ FloatingIP_ID f = FloatingIPRef_ID r /\ FloatingIP_IP f = FloatingIPRef_IP r).

(** IDs are not empty; an ACTIVE network has an OpenStack ID. *)
Definition cloud_ok (c : cloud) : Prop :=
  Forall (fun n => PrivateNetwork_ID n <> ""%string
                   /\ forall region, region_status n region = "ACTIVE"%string ->
                        OpenStackIDForRegion n region <> ""%string) (networks c)
  /\ Forall (fun s => Subnet_ID s.2 <> ""%string) (subnets c)
  /\ Forall (fun l => LoadBalancer_ID l <> ""%string) (lbs c)
  /\ Forall (fun l => Listener_ID l <> ""%string) (listeners c)
  /\ Forall (fun p => Pool_ID p <> ""%string) (pools c)
  /\ Forall (fun g => SecurityGroup_ID g <> ""%string) (groups c)
  /\ addresses_ok c.

(** [c'] has all that [c] has, and maybe more networks, load balancers and parts
    of them, floating IPs and gateways; its gateways may have other interfaces. *)
Definition grows (c c' : cloud) : Prop :=
  networks c `prefix_of` networks c' /\ subnets c `prefix_of` subnets c'
  /\ lb_flavors c' = lb_flavors c /\ lbs c `prefix_of` lbs c'
  /\ listeners c `prefix_of` listeners c' /\ pools c `prefix_of` pools c'
  /\ monitors c `prefix_of` monitors c' /\ members c' = members c
  /\ groups c `prefix_of` groups c' /\ instances c' = instances c /\ offers c' = offers c
  /\ fips c `prefix_of` fips c' /\ gateway_key <$> gateways c `prefix_of` gateway_key <$> gateways c'
  /\ issued c `prefix_of` issued c'
  /\ (forall f, f ∈ fips c' -> FloatingIP_ID f ∈ issued c -> f ∈ fips c)
  /\ doomed c' = doomed c.

#[export] Instance grows_preorder : PreOrder grows.
Proof.
  split.
  - intros c. by repeat split.
  - intros c1 c2 c3 H H'. unfold grows in *. destr_hyps.
    split_and!; first [congruence | by etransitivity | eauto using elem_of_prefix].
Qed.

(** *** What is added keeps the project sound *)

Lemma no_addresses c :
  fips c = [] -> Forall (fun l => LoadBalancer_FloatingIP l = None) (lbs c) -> addresses_ok c.
Proof.
  intros E Hl. unfold addresses_ok. rewrite E. split_and!; [constructor|constructor| |].
  - by intros ? ? ? ?%elem_of_nil.
  - intros l r Hin Hr. rewrite Forall_forall in Hl. by rewrite Hl in Hr.
Qed.

Lemma fip_of_lb_one lb lb' f : fip_of_lb lb f = true -> fip_of_lb lb' f = true -> lb' = lb.
Proof.
  unfold fip_of_lb. destruct (FloatingIP_AssociatedEntity f) as [a|]; [|done].
  by intros <-%bool_decide_eq_true <-%bool_decide_eq_true.
Qed.

Ltac add_ok :=
  intros; unfold cloud_ok, addresses_ok in *; destr_hyps; cbn; split_and!; try done;
  apply Forall_app; split; [done|]; by repeat constructor.

Lemma ok_add_network n c :
  PrivateNetwork_ID n <> ""%string ->
  (forall region, region_status n region = "ACTIVE"%string -> OpenStackIDForRegion n region <> ""%string) ->
  cloud_ok c -> cloud_ok (add_network n c).
Proof. add_ok. Qed.

Lemma ok_add_subnet net s c : Subnet_ID s <> ""%string -> cloud_ok c -> cloud_ok (add_subnet net s c).
Proof. add_ok. Qed.

Lemma ok_add_listener l c : Listener_ID l <> ""%string -> cloud_ok c -> cloud_ok (add_listener l c).
Proof. add_ok. Qed.

Lemma ok_add_pool p c : Pool_ID p <> ""%string -> cloud_ok c -> cloud_ok (add_pool p c).
Proof. add_ok. Qed.

Lemma ok_add_group g c : SecurityGroup_ID g <> ""%string -> cloud_ok c -> cloud_ok (add_group g c).
Proof. add_ok. Qed.

Lemma ok_add_lb lb c :
  LoadBalancer_ID lb <> ""%string -> LoadBalancer_FloatingIP lb = None -> cloud_ok c ->
  cloud_ok (add_lb lb c).
Proof.
  intros Hid Hno (?&?&?&?&?&?& Hnd & Hall & Huniq & Href). unfold cloud_ok. cbn. split_and!; try done.
  - apply Forall_app. by repeat constructor.
  - split_and!; [done..|]. intros l r [Hl| ->%list_elem_of_singleton]%elem_of_app Hr; [by eapply Href|].
    by rewrite Hno in Hr.
Qed.

Section address.
Context (lb : string) (f : FloatingIP) (gs : list Gateway) (c : cloud).
Context (Hid : FloatingIP_ID f <> ""%string) (Hnew : FloatingIP_ID f ∉ issued c).

Lemma grows_address : grows c (add_address f gs c).
Proof.
  unfold grows. cbn. rewrite fmap_app. split_and!; try done; try apply prefix_app_r; try done.
  by intros g [Hg| ->%list_elem_of_singleton]%elem_of_app Hi.
Qed.

Lemma ok_address :
  fip_of_lb lb f = true -> Forall (fun f => fip_of_lb lb f = false) (fips c) -> cloud_ok c ->
  cloud_ok (add_address f gs c).
Proof.
  intros Hf Hno (?&?&?&?&?&?& Hnd & Hall & Huniq & Href). rewrite Forall_forall in Hno, Hall.
  unfold cloud_ok. split_and!; try done. unfold addresses_ok. cbn. rewrite fmap_app. split_and!.
  - apply NoDup_app. split; [done|]. split; [|apply NoDup_singleton].
    intros id (g & -> & Hg)%list_elem_of_fmap E%list_elem_of_singleton. apply Hnew. rewrite <- E.
    by apply Hall.
  - apply Forall_forall. intros g [Hg| ->%list_elem_of_singleton]%elem_of_app.
    + destruct (Hall g Hg). split; [done|]. apply elem_of_app. by left.
    + split; [done|]. apply elem_of_app. right. left.
  - intros lb' g g' [Hg| ->%list_elem_of_singleton]%elem_of_app
      [Hg'| ->%list_elem_of_singleton]%elem_of_app K1 K2; [by apply (Huniq lb')| | |done].
    + pose proof (fip_of_lb_one _ _ _ Hf K2) as ->. by rewrite Hno in K1.
    + pose proof (fip_of_lb_one _ _ _ Hf K1) as ->. by rewrite Hno in K2.
  - intros l r Hl Hr. destruct (Href l r Hl Hr) as (g & Hg & ?). exists g.
    split; [|done]. apply elem_of_app. by left.
Qed.
End address.

Lemma grows_gateways gs c :
  gateway_key <$> gs = gateway_key <$> gateways c -> grows c (set_gateways gs c).
Proof. intros E. unfold grows. cbn. rewrite E. by split_and!. Qed.

(** Everything but the cloud. *)
Definition objects (p : platform) : OVHCluster * OVHMachine * Cluster * Machine
    * gmap (string * string) Secret :=
  (p_cluster p, p_machine p, p_owner p, p_owner_machine p, p_secrets p).

(** Between two passes the provider works on what it accepted: statuses change,
    a load balancer gets its address and tells of its floating IP, the resources
    stay. A floating IP gets an address, and until it has one its ID is provisional:
    the provider may replace it by a new one. *)
Definition evolves (c c' : cloud) : Prop :=
  PrivateNetwork_ID <$> networks c' = PrivateNetwork_ID <$> networks c
  /\ Forall2 (fun l l' => LoadBalancer_ID l' = LoadBalancer_ID l
               /\ LoadBalancer_Name l' = LoadBalancer_Name l
               /\ (LoadBalancer_VIPAddress l <> ""%string ->
                   LoadBalancer_VIPAddress l' = LoadBalancer_VIPAddress l)) (lbs c) (lbs c')
  /\ subnets c' = subnets c /\ lb_flavors c' = lb_flavors c /\ listeners c' = listeners c
  /\ pools c' = pools c /\ monitors c' = monitors c /\ members c' = members c
  /\ groups c' = groups c /\ offers c' = offers c
  /\ Forall2 (fun f f' => FloatingIP_AssociatedEntity f' = FloatingIP_AssociatedEntity f
               /\ (FloatingIP_ID f' = FloatingIP_ID f \/ FloatingIP_ID f' ∉ issued c)
               /\ (FloatingIP_IP f <> ""%string ->
                   FloatingIP_ID f' = FloatingIP_ID f /\ FloatingIP_IP f' = FloatingIP_IP f))
       (fips c) (fips c')
  /\ issued c ⊆ issued c' /\ gateway_key <$> gateways c' = gateway_key <$> gateways c /\ doomed c' = doomed c
  /\ (fun i => (Instance_ID i, Instance_Name i)) <$> instances c'
     = (fun i => (Instance_ID i, Instance_Name i)) <$> instances c.

(** The networks are ACTIVE in [region], the load balancers active with an
    address, and the floating IPs have theirs. *)
Definition settled_networks (region : string) (c : cloud) : Prop :=
  Forall (fun n => region_status n region = "ACTIVE"%string) (networks c).
Definition settled_lbs (c : cloud) : Prop :=
  Forall (fun l => LoadBalancer_ProvisioningStatus l = LBProvisioningStatusActive
                   /\ LoadBalancer_VIPAddress l <> ""%string) (lbs c)
  /\ Forall (fun f => FloatingIP_IP f <> ""%string) (fips c).



(** A pass ends without an error. *)
Definition no_error (out : outcome) : Prop := out.2 = None.

(** Nobody touches the objects between two passes, and the provider works on what it
    accepted: it may be done with it or not. *)
Definition idles (w w' : platform) : Prop :=
  objects w' = objects w /\ evolves (p_cloud w) (p_cloud w') /\ cloud_ok (p_cloud w').

(** The provider finishes the networks, the load balancers and the floating IPs. *)
Definition settles (region : string) (w w' : platform) : Prop :=
  objects w' = objects w /\ evolves (p_cloud w) (p_cloud w') /\ cloud_ok (p_cloud w')
  /\ settled_networks region (p_cloud w') /\ settled_lbs (p_cloud w').

Lemma settles_idles region w w' : settles region w w' -> idles w w'.
Proof. intros (Hob & He & Hok & _). by split_and!. Qed.

(** It can. *)
Definition settle_fip (f : FloatingIP) : FloatingIP :=
  mkFloatingIP (FloatingIP_ID f)
    (if decide (FloatingIP_IP f = "") then "51.0.0.1" else FloatingIP_IP f)
    "active" (FloatingIP_AssociatedEntity f) (FloatingIP_Region f) (FloatingIP_NetworkID f).

Definition settle_lb (fs : list FloatingIP) (l : LoadBalancer) : LoadBalancer :=
  mkLoadBalancer (LoadBalancer_ID l) (LoadBalancer_Name l) (LoadBalancer_CreatedAt l)
    (LoadBalancer_UpdatedAt l) (LoadBalancer_Region l) (LoadBalancer_FlavorID l) "ONLINE"
    LBProvisioningStatusActive
    (if decide (LoadBalancer_VIPAddress l = "") then "10.0.0.5" else LoadBalancer_VIPAddress l)
    (LoadBalancer_VIPNetworkID l) (LoadBalancer_VIPSubnetID l)
    ((fun f => mkFloatingIPRef (FloatingIP_ID f) (FloatingIP_IP f))
      <$> first_match (fip_of_lb (LoadBalancer_ID l)) fs)
    (LoadBalancer_Listeners l).

Definition settle (region : string) (c : cloud) : cloud :=
  mkCloud
    ((fun n => mkPrivateNetwork (PrivateNetwork_ID n) (PrivateNetwork_Name n) (PrivateNetwork_VlanID n)
        [mkNetworkRegion region "ACTIVE" "os"] (PrivateNetwork_Status n) (PrivateNetwork_Type n))
      <$> networks c)
    (subnets c) (lb_flavors c) (settle_lb (settle_fip <$> fips c) <$> lbs c)
    (listeners c) (pools c) (monitors c) (members c) (groups c)
    ((fun i => mkInstance (Instance_ID i) (Instance_Name i) InstanceStatusActive (Instance_FlavorID i)
        (Instance_ImageID i) (Instance_Region i) (Instance_Created i) (Instance_IPAddresses i)
        (Instance_AttachedVolumes i) (Instance_SSHKeyID i) (Instance_MonthlyBilling i))
      <$> instances c)
    (offers c) (settle_fip <$> fips c) (gateways c) (issued c) (doomed c).

Lemma settle_addresses region c : addresses_ok c -> addresses_ok (settle region c).
Proof.
  intros (Hnd & Hid & Huniq & _). unfold addresses_ok. cbn. rewrite <- list_fmap_compose. split_and!.
  - exact Hnd.
  - by apply Forall_fmap.
  - intros lb f f' (g & -> & Hg)%list_elem_of_fmap (g' & -> & Hg')%list_elem_of_fmap H H'.
    by rewrite (Huniq lb g g').
  - intros l r (l0 & -> & _)%list_elem_of_fmap. cbn. destruct (first_match _ _) as [f|] eqn:E; [|done].
    intros [= <-]. apply first_match_sound in E as [Hf Hin]. by exists f.
Qed.

Lemma settles_settle region w :
  cloud_ok (p_cloud w) -> settles region w (on_cloud (settle region) w).
Proof.
  intros (Hn & Hs & Hl & Hli & Hp & Hg & Ha). split; [done|]. split; [|split].
  - unfold evolves. cbn. rewrite <- !list_fmap_compose. split_and!; try done.
    + apply Forall2_fmap_r, Forall_Forall2_diag, Forall_forall. intros l _. split_and!; [done..|].
      intros Hne. cbn. by rewrite decide_False.
    + apply Forall2_fmap_r, Forall_Forall2_diag, Forall_forall. intros f _. split_and!; [done|by left|].
      intros Hne. cbn. by rewrite decide_False.
  - unfold cloud_ok. split_and!; [|done| |done..|by apply settle_addresses]; cbn.
    + apply Forall_fmap. eapply Forall_impl; [exact Hn|]. intros n [Hid _]. split; [done|].
      intros region'. cbn. unfold region_status, OpenStackIDForRegion. cbn. by case_bool_decide.
    + by apply Forall_fmap.
  - unfold settled_networks, settled_lbs. cbn. rewrite !Forall_fmap.
    split_and!; apply Forall_forall; intros x _; try done.
    + unfold compose, region_status. cbn. by rewrite bool_decide_true.
    + split; [done|]. cbn. by case_decide.
    + cbn. by case_decide.
Qed.

(** The instances of a project that settled this way are ACTIVE. *)
Lemma settle_active region c i :
  i ∈ instances (settle region c) -> Instance_Status i = InstanceStatusActive.
Proof. by intros (j & -> & _)%list_elem_of_fmap. Qed.

Lemma settles_exists region w : cloud_ok (p_cloud w) -> exists w', settles region w w'.
Proof. eauto using settles_settle. Qed.

(** Searches by ID. *)
Lemma find_prefix {A} (f : A -> bool) xs ys x :
  xs `prefix_of` ys -> first_match f xs = Some x -> first_match f ys = Some x.
Proof.
  intros [zs ->] (l1 & l2 & -> & Hx & Hl)%first_match_Some. apply first_match_Some.
  exists l1, (l2 ++ zs). by rewrite <- app_assoc.
Qed.

Lemma find_by_id {A} (f : A -> string) id xs :
  is_Some (first_match (fun x => bool_decide (f x = id)) xs) <-> id ∈ f <$> xs.
Proof.
  split.
  - intros [x Hx%first_match_sound]. destruct Hx as [Hx%bool_decide_eq_true Hin].
    apply list_elem_of_fmap. eauto.
  - intros (x & -> & Hin)%list_elem_of_fmap.
    destruct (first_match _ xs) eqn:E; [done|]. apply first_match_None in E.
    rewrite Forall_forall in E. specialize (E x Hin). by rewrite bool_decide_true in E.
Qed.

Lemma find_by_ids {A} (f : A -> string) id xs ys :
  f <$> ys = f <$> xs -> is_Some (first_match (fun x => bool_decide (f x = id)) xs) ->
  is_Some (first_match (fun x => bool_decide (f x = id)) ys).
Proof. intros E H. apply find_by_id. rewrite E. by apply find_by_id. Qed.

Lemma find_added {A} (f : A -> string) x xs :
  is_Some (first_match (fun y => bool_decide (f y = f x)) (xs ++ [x])).
Proof.
  apply find_by_id, list_elem_of_fmap. exists x. split; [done|]. apply elem_of_app. right. left.
Qed.

(** ** Runs on a platform *)

Class Platform := step : platform -> forall e : event, answer e -> platform -> Prop.

Section runs.
Context `{P : Platform}.

(** [p] can run from [w] to [w'] and return [a]. *)
Fixpoint runs {A} (p : prog A) (w : platform) (a : A) (w' : platform) : Prop :=
  match p with
  | Ret x => a = x /\ w' = w
  | Vis e k => exists r w1, step w e r w1 /\ runs (k r) w1 a w'
  end.

(** Every run of [p] from [w] ends in [Q]. *)
Fixpoint after {A} (p : prog A) (w : platform) (Q : A -> platform -> Prop) : Prop :=
  match p with
  | Ret a => Q a w
  | Vis e k => forall r w1, step w e r w1 -> after (k r) w1 Q
  end.

Lemma after_runs {A} (p : prog A) w Q :
  after p w Q <-> forall a w', runs p w a w' -> Q a w'.
Proof.
  induction p as [x|e k IH] in w |- *; simpl.
  - split; [by intros H a w' [-> ->] | by intros H; apply H].
  - split.
    + intros H a w' (r & w1 & Hs & Hr). by eapply (proj1 (IH r w1)); eauto.
    + intros H r w1 Hs. apply IH. eauto.
Qed.

Lemma runs_total {A} (p : prog A) w :
  (forall w e, exists r w', step w e r w') -> exists a w', runs p w a w'.
Proof.
  intros Ht. induction p as [x|e k IH] in w |- *; simpl; [eauto|].
  destruct (Ht w e) as (r & w1 & Hs). destruct (IH r w1) as (a & w' & H). eauto 10.
Qed.

Lemma after_mono {A} (p : prog A) w (Q Q' : A -> platform -> Prop) :
  after p w Q -> (forall a w', Q a w' -> Q' a w') -> after p w Q'.
Proof. rewrite !after_runs. eauto. Qed.

Lemma after_and {A} (p : prog A) w (Q Q' : A -> platform -> Prop) :
  after p w Q -> after p w Q' -> after p w (fun a w' => Q a w' /\ Q' a w').
Proof. rewrite !after_runs. eauto. Qed.

(** *** One rule per combinator *)

Lemma after_mret {A} (a : A) w (Q : A -> platform -> Prop) : Q a w -> after (mret a) w Q.
Proof. done. Qed.

Lemma after_call e w (Q : answer e -> platform -> Prop) :
  (forall r w', step w e r w' -> Q r w') -> after (call e) w Q.
Proof. done. Qed.

Lemma after_bind {A B} (p : prog A) (f : A -> prog B) w Q :
  after p w (fun a w' => after (f a) w' Q) -> after (p ≫= f) w Q.
Proof. induction p as [x|e k IH] in w |- *; simpl; [done|]. eauto. Qed.

Lemma after_try {A B} (p : prog (res A)) (f : A -> prog (res B)) w Q :
  after p w (fun r w' => match r with Ok a => after (f a) w' Q | Err e => Q (Err e) w' end) ->
  after (try_bind p f) w Q.
Proof. intros H. apply after_bind. eapply after_mono; [exact H|]. by intros [a|e]. Qed.

Lemma after_wrap {A} g (p : prog (res A)) w (Q : res A -> platform -> Prop) :
  after p w (fun r => Q (map_err g r)) -> after (wrap_err g p) w Q.
Proof. intros H. by apply after_bind. Qed.

Lemma after_tolerate (ok : option error -> bool) (g : error -> error) (p : prog (res unit)) w (Q : res unit -> platform -> Prop) :
  after p w (fun r => Q (match r with
                         | Ok _ => Ok tt
                         | Err e => if ok (Some e) then Ok tt else Err (g e)
                         end : res unit)) ->
  after (tolerate ok g p) w Q.
Proof. intros H. by apply after_bind. Qed.

(** A request that succeeds is made once. *)
Lemma after_retry `{U : Unicode} op rq w (Q : res (den (req_out rq)) -> platform -> Prop) :
  (forall r w', step w (EApi rq) r w' -> exists a, r = Ok a /\ Q (Ok a) w') ->
  after (retryWithBackoff op (call (EApi rq))) w Q.
Proof. intros H r w' Hs. destruct (H r w' Hs) as (a & -> & HQ). exact HQ. Qed.

Section stateful.
Context {S : Type}.

Lemma after_m_ret {A} (a : A) s w (Q : A * S -> platform -> Prop) :
  Q (a, s) w -> after ((mret a : M S A) s) w Q.
Proof. done. Qed.

Lemma after_m_bind {A B} (m : M S A) (f : A -> M S B) s w Q :
  after (m s) w (fun r w' => after (f r.1 r.2) w' Q) -> after ((m ≫= f) s) w Q.
Proof. intros H. apply after_bind. eapply after_mono; [exact H|]. by intros [a s']. Qed.

Lemma after_m_try {A B} (m : M S (res A)) (f : A -> M S (res B)) s w Q :
  after (m s) w (fun r w' => match r.1 with
                             | Ok a => after (f a r.2) w' Q
                             | Err e => Q (Err e, r.2) w'
                             end) ->
  after ((try_bind m f : M S (res B)) s) w Q.
Proof. intros H. apply after_m_bind. eapply after_mono; [exact H|]. by intros [[a|e] s']. Qed.

Lemma after_m_wrap {A} g (m : M S (res A)) s w (Q : res A * S -> platform -> Prop) :
  after (m s) w (fun r => Q (map_err g r.1, r.2)) -> after ((wrap_err g m : M S (res A)) s) w Q.
Proof. intros H. by apply after_m_bind. Qed.

Lemma after_lift {A} (p : prog A) s w (Q : A * S -> platform -> Prop) :
  after p w (fun a => Q (a, s)) -> after ((lift p : M S A) s) w Q.
Proof. intros H. by apply after_bind. Qed.

Lemma after_get s w (Q : S * S -> platform -> Prop) : Q (s, s) w -> after ((get : M S S) s) w Q.
Proof. done. Qed.

Lemma after_gets {A} (f : S -> A) s w (Q : A * S -> platform -> Prop) :
  Q (f s, s) w -> after ((gets f : M S A) s) w Q.
Proof. done. Qed.

Lemma after_modify (f : S -> S) s w (Q : unit * S -> platform -> Prop) :
  Q (tt, f s) w -> after (modify f s) w Q.
Proof. done. Qed.

Lemma after_when (b : bool) (m : M S unit) s w (Q : unit * S -> platform -> Prop) :
  (if b then after (m s) w Q else Q (tt, s) w) -> after (when b m s) w Q.
Proof. by destruct b. Qed.

(** What the other judgements say of these runs. *)
Lemma after_keeps {A} (R : S -> S -> Prop) (m : M S A) s w :
  keeps R m -> after (m s) w (fun r _ => R s r.2).
Proof.
  intros H. specialize (H s). revert H. generalize (m s). intros p.
  assert (Hgen : forall (Q : A * S -> Prop), wp p (fun _ r => Q r) -> after p w (fun r _ => Q r)).
  { induction p as [x|e k IH] in w |- *; simpl; [done|]. intros Q HQ r w1 _. apply IH, HQ. }
  apply (Hgen (fun r => R s r.2)).
Qed.
End stateful.

(** A program whose calls all leave something of the platform as it is. *)
Lemma after_only {A} (E : event -> Prop) (R : platform -> platform -> Prop) `{!PreOrder R}
    (p : prog A) w :
  only E p -> (forall w e r w', E e -> step w e r w' -> R w w') -> after p w (fun _ => R w).
Proof.
  intros Hp HR. induction p as [x|e k IH] in w, Hp |- *; simpl; [reflexivity|].
  destruct Hp as [He Hk]. intros r w1 Hs.
  eapply after_mono; [by apply IH|]. intros a w' H. transitivity w1; eauto.
Qed.

(** ** Passes

    A platform that answers every call; and passes with what the provider does
    between two of them. *)

Class Live := live w e : exists r w', step w e r w'.

(** [n] or fewer passes more after the first bring about [Q]: all return a value
    that is [fine], and after a pass that does not end in [Q] the next one starts
    from any state that [between] allows. *)
Fixpoint leads {A} (fine : A -> Prop) (between : platform -> platform -> Prop) (n : nat)
    (pass : prog A) (Q : platform -> Prop) (w : platform) : Prop :=
  (exists out w', runs pass w out w')
  /\ after pass w (fun out w' => fine out
       /\ (Q w' \/ match n with
                   | O => False
                   | S n' => (exists w'', between w' w'')
                       /\ forall w'', between w' w'' -> leads fine between n' pass Q w''
                   end)).

(** A measure that every pass increases up to [Q] bounds the number of passes. *)
Lemma leads_by_level `{!Live} {A} (fine : A -> Prop) (between : platform -> platform -> Prop)
    (pass : prog A)
    (Q Inv : platform -> Prop) (level : platform -> nat) (top : nat) :
  (forall w w', between w w' -> level w' = level w) ->
  (forall w, (level w <= top)%nat) ->
  (forall w, Inv w -> after pass w (fun out w' => fine out
     /\ (Q w' \/ ((level w < level w')%nat /\ (exists w'', between w' w'')
                   /\ forall w'', between w' w'' -> Inv w'')))) ->
  forall n w, Inv w -> (top <= level w + n)%nat -> leads fine between n pass Q w.
Proof.
  intros Hlev Htop Hpass. induction n as [|n IH]; intros w Hw Hn; cbn.
  all: split; [apply runs_total, live|].
  all: eapply after_mono; [by apply Hpass|]; intros out w' [Ho [HQ|(Hlt & Hex & Hi)]]; (split; [done|]); auto.
  - exfalso. specialize (Htop w'). lia.
  - right. split; [done|]. intros w'' Hbt. apply IH; [by apply Hi | rewrite (Hlev _ _ Hbt); lia].
Qed.

(** The same when the provider takes its time: of the first [k] passes, those count
    that start when it is [due], that is, done with what the object waits for. All
    return a value that is [fine], whether it is due or not; after each of them it may
    get done; and [n] or fewer due passes more after the first bring about [Q]. *)
Fixpoint paced {A} (fine : A -> Prop) (due : platform -> Prop)
    (between : platform -> platform -> Prop) (k n : nat) (pass : prog A) (Q : platform -> Prop)
    (w : platform) : Prop :=
  match k with
  | O => True
  | S k' =>
    (exists out w', runs pass w out w')
    /\ after pass w (fun out w' => fine out
         /\ (Q w' \/ (exists w'', between w' w'' /\ due w'')
             /\ forall w'', between w' w'' ->
                  (~ due w -> paced fine due between k' n pass Q w'')
                  /\ (due w -> match n with
                               | O => False
                               | S n' => paced fine due between k' n' pass Q w''
                               end)))
  end.

(** A level that no pass lowers, and that every due pass raises up to [Q]. *)
Lemma paced_by_level `{!Live} {A} (fine : A -> Prop) (due : platform -> Prop)
    (between : platform -> platform -> Prop) (pass : prog A) (Q : platform -> Prop)
    (Inv : nat -> platform -> Prop) (top : nat) :
  (forall l w, Inv l w -> after pass w (fun out w' => fine out
     /\ (Q w' \/ exists l', (l <= l' <= top)%nat /\ (due w -> (l < l')%nat)
           /\ (exists w'', between w' w'' /\ due w'')
           /\ forall w'', between w' w'' -> Inv l' w''))) ->
  forall k n l w, Inv l w -> (top <= l + n)%nat -> paced fine due between k n pass Q w.
Proof.
  intros Hpass. induction k as [|k IH]; intros n l w Hw Hn; [done|]. cbn.
  split; [apply runs_total, live|].
  eapply after_mono; [by apply (Hpass l)|].
  intros out w' [Ho [HQ|(l' & Hl & Hlt & Hex & Hi)]]; (split; [done|]); [by left | right].
  split; [done|]. intros w'' Hbt. split; intros Hd.
  - apply (IH _ l'); [by apply Hi | lia].
  - specialize (Hlt Hd). destruct n as [|n]; [lia|]. apply (IH _ l'); [by apply Hi | lia].
Qed.
End runs.
