(* ===== verification/PlatformLaws.v ===== *)
(** * The documented behaviour of the platform, and the client's methods on it

    One class per provider: the management cluster, the network and load
    balancer services, the instances. Each law is about one call; each lemma
    lifts it to the method of the client that makes the call. *)

From S2P Require Import Prelude GoStrings Errors OvhTypes ApiTypes Effects Client Names Logic.
From S2P Require Import ClientFacts ClusterController Platform.

Local Open Scope Z_scope.

Definition api (rq : request) : event := EApi rq.
Definition listing (path : string) (T : ty) : request := mkRequest GET path NoBody (TList T).
Definition reading (path : string) (T : ty) : request := mkRequest GET path NoBody T.
Definition posting (path : string) (b : body) (T : ty) : request := mkRequest POST path b T.
Definition deleting (path : string) : request := mkRequest DELETE path NoBody TNone.

Section laws.
Context `{U : Unicode} `{P : Platform}.

(** A call that succeeds with a value in [good] and changes nothing. *)
Definition reads (rq : request) (good : platform -> den (req_out rq) -> Prop) : Prop :=
  forall w r w', step w (api rq) r w' -> w' = w /\ exists x, r = Ok x /\ good w x.

(** A call that fetches what [find] finds, or answers 404. *)
Definition fetches (rq : request) (find : cloud -> option (den (req_out rq))) : Prop :=
  forall w r w', step w (api rq) r w' -> w' = w
    /\ match find (p_cloud w) with
       | Some x => r = Ok x
       | None => exists text, r = Err (EAPI StatusNotFound text)
       end.

(** A call that succeeds, and makes an [x] in [good]. *)
Definition makes (rq : request) (good : den (req_out rq) -> Prop)
    (add : den (req_out rq) -> cloud -> cloud) : Prop :=
  forall w r w', step w (api rq) r w' ->
    exists x, r = Ok x /\ good x /\ w' = on_cloud (add x) w.

(** A call of the management cluster or of the runtime that changes nothing. *)
Definition inert (e : event) (good : platform -> answer e -> Prop) : Prop :=
  forall w r w', step w e r w' -> w' = w /\ good w r.

(** ** The management cluster *)

Class KubeLaws (ns name : string) := {
  kube_metric m : inert (EMetric m) (fun _ _ => True);
  kube_range m : inert (ERange m) (fun _ _ => True);
  kube_sleep d : inert (ESleep d) (fun _ _ => True);
  kube_goovh e k s ck : inert (ENewGoovh e k s ck) (fun _ r => r = Ok tt);
  kube_cluster : inert (EGetOVHCluster ns name) (fun w r => r = Ok (p_cluster w));
  kube_helper o : inert (ENewClusterPatch o) (fun _ r => r = Ok tt);
  kube_patch o w r w' :
    step w (EPatchCluster o) r w' -> r = Ok tt /\ w' = store_cluster o w;
  kube_owner m : inert (EGetOwnerCluster m) (fun w r => r = Ok (Some (p_owner w)));
  kube_secret n s : inert (EGetSecret n s) (fun w r =>
    forall secret, p_secrets w !! (n, s) = Some secret -> r = Ok secret);
}.

(** ** Networks and load balancers *)

Class NetworkLaws (c : Client) := {
  net_regions : reads (listing (projectPath c "/region" []) TString) (fun _ xs => xs <> []);
  net_region w r w' :
    step w (api (reading (projectPath c "/region/%s" [AS (Client_region c)]) TRegionInfo)) r w' ->
    w' = w;
  net_read id : fetches (reading (projectPath c "/network/private/%s" [AS id]) TPrivateNetwork)
    (find_network id);
  net_make o : makes (posting (projectPath c "/network/private" []) (BNetwork o) TPrivateNetwork)
    (fun n => PrivateNetwork_ID n <> ""%string
              /\ forall region, region_status n region = "ACTIVE"%string ->
                   OpenStackIDForRegion n region <> ""%string) add_network;
  net_subnets id : reads (listing (projectPath c "/network/private/%s/subnet" [AS id]) TSubnet)
    (fun w xs => xs = under id (subnets (p_cloud w)));
  net_make_subnet id o :
    makes (posting (projectPath c "/network/private/%s/subnet" [AS id]) (BSubnet o) TSubnet)
      (fun s => Subnet_ID s <> ""%string) (add_subnet id);
  net_flavors : reads (listing (regionPath c "/loadbalancing/flavor" []) TLBFlavor)
    (fun w xs => xs = lb_flavors (p_cloud w));
  net_lbs : reads (listing (regionPath c "/loadbalancing/loadbalancer" []) TLoadBalancer)
    (fun w xs => xs = lbs (p_cloud w));
  net_lb id : fetches (reading (regionPath c "/loadbalancing/loadbalancer/%s" [AS id]) TLoadBalancer)
    (find_lb id);
  (* the answer describes a task; the load balancer is in the next listing *)
  net_make_lb o w r w' :
    step w (api (posting (regionPath c "/loadbalancing/loadbalancer" []) (BLoadBalancer o) TAny)) r w' ->
    r = Ok tt /\ exists lb, LoadBalancer_ID lb <> ""%string
      /\ LoadBalancer_Name lb = CreateLoadBalancerOpts_Name o /\ LoadBalancer_FloatingIP lb = None
      /\ w' = on_cloud (add_lb lb) w;
  net_listeners : reads (listing (regionPath c "/loadbalancing/listener" []) TListener)
    (fun w xs => xs = listeners (p_cloud w));
  net_make_listener o : makes (posting (regionPath c "/loadbalancing/listener" []) (BListener o) TListener)
    (fun l => Listener_ID l <> ""%string /\ Listener_Name l = CreateListenerOpts_Name o
              /\ CreateListenerOpts_LoadBalancerID o ∈ Listener_LoadBalancerIDs l) add_listener;
  net_pools : reads (listing (regionPath c "/loadbalancing/pool" []) TPool)
    (fun w xs => xs = pools (p_cloud w));
  net_make_pool o : makes (posting (regionPath c "/loadbalancing/pool" []) (BPool o) TPool)
    (fun p => Pool_ID p <> ""%string /\ Pool_Name p = CreatePoolOpts_Name o
              /\ Pool_LoadBalancerID p = CreatePoolOpts_LoadBalancerID o) add_pool;
  net_monitors : reads (listing (regionPath c "/loadbalancing/healthMonitor" []) THealthMonitor)
    (fun w xs => xs = monitors (p_cloud w));
  net_make_monitor o :
    makes (posting (regionPath c "/loadbalancing/healthMonitor" []) (BHealthMonitor o) THealthMonitor)
      (fun m => HealthMonitor_Name m = CreateHealthMonitorOpts_Name o) add_monitor;
  net_groups : reads (listing (regionPath c "/network/security/group" []) TSecurityGroup)
    (fun w xs => xs = groups (p_cloud w));
  net_make_group o :
    makes (posting (regionPath c "/network/security/group" []) (BSecurityGroup o) TSecurityGroup)
      (fun g => SecurityGroup_ID g <> ""%string) add_group;
  net_fips : reads (listing (regionPath c "/floatingip" []) TFloatingIP)
    (fun w xs => xs = fips (p_cloud w));
  net_fip id : fetches (reading (regionPath c "/floatingip/%s" [AS id]) TFloatingIP) (find_fip id);
  (* one floating IP per load balancer; the answer has a placeholder for its ID *)
  net_make_fip lb ip model gw w r w' :
    step w (api (posting (regionPath c "/loadbalancing/loadbalancer/%s/floatingIp" [AS lb])
              (BLBFloatingIP ip model gw) TFloatingIP)) r w' ->
    (w' = w /\ Exists (fun f => fip_of_lb lb f = true) (fips (p_cloud w)))
    \/ (is_ok r = true /\ Forall (fun f => fip_of_lb lb f = false) (fips (p_cloud w))
        /\ exists f gs, FloatingIP_ID f <> ""%string /\ FloatingIP_ID f ∉ issued (p_cloud w)
             /\ fip_of_lb lb f = true /\ w' = on_cloud (add_address f gs) w);
  net_gateways : reads (listing (regionPath c "/gateway" []) TGateway)
    (fun w xs => xs = gateways (p_cloud w));
  (* the gateway gets a public interface *)
  net_expose id w r w' :
    step w (api (posting (regionPath c "/gateway/%s/expose" [AS id]) NoBody TNone)) r w' ->
    exists gs, gateway_key <$> gs = gateway_key <$> gateways (p_cloud w)
      /\ w' = on_cloud (set_gateways gs) w;
  net_make_rule id o w r w' :
    step w (api (posting (regionPath c "/network/security/group/%s/rule" [AS id]) (BSecurityGroupRule o)
              TSecurityGroupRule)) r w' -> w' = w;
  net_make_record zone o :
    reads (posting (Sprintf "/domain/zone/%s/record" [AS zone]) (BDNSRecord o) TDNSRecord)
      (fun _ x => DNSRecord_ID x <> 0);
  net_refresh zone w r w' :
    step w (api (posting (Sprintf "/domain/zone/%s/refresh" [AS zone]) NoBody TNone)) r w' -> w' = w;
}.

(** ** Instances and pool members *)

Class ComputeLaws (c : Client) := {
  com_instances : reads (listing (with_region c (projectPath c "/instance" [])) TInstance)
    (fun w xs => xs = instances (p_cloud w));
  com_read id : fetches (reading (projectPath c "/instance/%s" [AS id]) TInstance) (lookup_instance id);
  (* IDs are unique *)
  com_make o w r w' :
    step w (api (posting (projectPath c "/instance" []) (BInstance o) TInstance)) r w' ->
    exists i, r = Ok i /\ Instance_ID i <> ""%string /\ Instance_Name i = CreateInstanceOpts_Name o
      /\ Instance_ID i ∉ Instance_ID <$> instances (p_cloud w) /\ w' = on_cloud (add_instance i) w;
  com_flavors : reads (listing (with_region c (projectPath c "/flavor" [])) TFlavor)
    (fun w xs => xs = flavors (offers (p_cloud w)));
  com_images : reads (listing (with_region c (projectPath c "/image" [])) TImage)
    (fun w xs => xs = images (offers (p_cloud w)));
  com_snapshots : reads (listing (with_region c (projectPath c "/snapshot" [])) TImage)
    (fun w xs => xs = snapshots (offers (p_cloud w)));
  com_keys : reads (listing (with_region c (projectPath c "/sshkey" [])) TSSHKey)
    (fun w xs => xs = keys (offers (p_cloud w)));
  com_members id : reads (listing (regionPath c "/loadbalancing/pool/%s/member" [AS id]) TMember)
    (fun w xs => xs = under id (members (p_cloud w)));
  com_join id o w r w' :
    step w (api (posting (regionPath c "/loadbalancing/pool/%s/member" [AS id])
              (BMembers (mkaddPoolMembersRequest [o])) (TList TMember))) r w' ->
    exists m, r = Ok [m] /\ Member_ID m <> ""%string /\ Member_Address m = CreateMemberOpts_Address o
      /\ Member_ProtocolPort m = CreateMemberOpts_ProtocolPort o
      /\ w' = on_cloud (add_member id m) w;
}.

(** The objects of a machine, and the calls of its workload cluster. *)
Class MachineLaws (ns name : string) := {
  mach_object : inert (EGetOVHMachine ns name) (fun w r => r = Ok (p_machine w));
  mach_helper o : inert (ENewMachinePatch o) (fun _ r => r = Ok tt);
  mach_patch o w r w' :
    step w (EPatchMachine o) r w' -> r = Ok tt /\ w' = store_machine o w;
  mach_owner m : inert (EGetOwnerMachine m) (fun w r => r = Ok (Some (p_owner_machine w)));
  mach_cluster m : inert (EGetClusterFromMetadata m) (fun w r => r = Ok (Some (p_owner w)));
  work_kubeconfig n s : inert (EKubeconfigFromSecret n s) (fun _ _ => True);
  work_config k : inert (ERESTConfig k) (fun _ _ => True);
  work_client k : inert (ENewForConfig k) (fun _ _ => True);
  work_node k n : inert (EGetNode k n) (fun _ _ => True);
  work_patch k n p : inert (EPatchNode k n p) (fun _ _ => True);
}.

(** ** The methods *)

Lemma after_reads op rq good w (Q : res (den (req_out rq)) -> platform -> Prop) :
  reads rq good -> (forall x, good w x -> Q (Ok x) w) ->
  after (retryWithBackoff op (call (EApi rq))) w Q.
Proof.
  intros H HQ. apply after_retry. intros r w' [-> (x & -> & Hx)]%H. exists x. auto.
Qed.

Lemma after_fetches op rq find w (Q : res (den (req_out rq)) -> platform -> Prop) :
  fetches rq find ->
  match find (p_cloud w) with
  | Some x => Q (Ok x) w
  | None => forall text, Q (Err (EAPI StatusNotFound text)) w
  end -> after (retryWithBackoff op (call (EApi rq))) w Q.
Proof.
  intros H HQ r w' Hs. destruct (H w r w' Hs) as [-> Hr]. destruct (find (p_cloud w)) as [x|].
  - by subst r.
  - destruct Hr as [text ->]. exact (HQ text).
Qed.

Lemma after_makes op rq good add w (Q : res (den (req_out rq)) -> platform -> Prop) :
  makes rq good add -> (forall x, good x -> Q (Ok x) (on_cloud (add x) w)) ->
  after (retryWithBackoff op (call (EApi rq))) w Q.
Proof.
  intros H HQ. apply after_retry. intros r w' (x & -> & Hx & ->)%H. exists x. auto.
Qed.

(** A request is not made again unless its error is one the client retries. *)
Lemma after_retry_once op rq w (Q : res (den (req_out rq)) -> platform -> Prop) :
  (forall r w', step w (EApi rq) r w' ->
     match r with Ok _ => True | Err e => IsRetryable (Some e) = false end /\ Q r w') ->
  after (retryWithBackoff op (call (EApi rq))) w Q.
Proof.
  intros H. unfold retryWithBackoff, maxRetries. cbn [retry_loop]. apply after_bind, after_call.
  intros r w' Hs. destruct (H r w' Hs) as [Hr HQ]. destruct r as [a|e]; [exact HQ|].
  rewrite Hr. exact HQ.
Qed.

Lemma after_inert e good w (Q : answer e -> platform -> Prop) :
  inert e good -> (forall r, good w r -> Q r w) -> after (call e) w Q.
Proof. intros H HQ r w' [-> Hr]%H. by apply HQ. Qed.

Context (c : Client) `{N : !NetworkLaws c}.

Lemma after_ValidateCredentials w (Q : res unit -> platform -> Prop) :
  Client_serviceName c <> ""%string -> Q (Ok tt) w -> after (ValidateCredentials c) w Q.
Proof.
  intros Hs HQ. unfold ValidateCredentials. rewrite decide_False by done.
  apply after_try, after_wrap. eapply after_reads; [apply net_regions|]. intros xs Hxs. cbn.
  rewrite decide_False; [exact HQ|]. by destruct xs.
Qed.

Lemma after_GetPrivateNetwork id w n (Q : res PrivateNetwork -> platform -> Prop) :
  find_network id (p_cloud w) = Some n -> Q (Ok n) w -> after (GetPrivateNetwork c id) w Q.
Proof. intros Hn HQ. apply after_wrap. eapply after_fetches; [apply net_read|]. by rewrite Hn. Qed.

Lemma after_CreatePrivateNetwork o w (Q : res PrivateNetwork -> platform -> Prop) :
  (forall n, PrivateNetwork_ID n <> ""%string ->
     (forall region, region_status n region = "ACTIVE"%string ->
                     OpenStackIDForRegion n region <> ""%string) ->
     Q (Ok n) (on_cloud (add_network n) w)) ->
  after (CreatePrivateNetwork c o) w Q.
Proof.
  intros HQ. apply after_wrap. eapply after_makes; [apply net_make|]. intros n [H1 H2]. by apply HQ.
Qed.

Lemma after_ListSubnets id w (Q : res (list Subnet) -> platform -> Prop) :
  Q (Ok (under id (subnets (p_cloud w)))) w -> after (ListSubnets c id) w Q.
Proof. intros HQ. apply after_wrap. eapply after_reads; [apply net_subnets|]. by intros xs ->. Qed.

Lemma after_CreateSubnet id o w (Q : res Subnet -> platform -> Prop) :
  (forall s, Subnet_ID s <> ""%string -> Q (Ok s) (on_cloud (add_subnet id s) w)) ->
  after (CreateSubnet c id o) w Q.
Proof. intros HQ. apply after_wrap. eapply after_makes; [apply net_make_subnet|]. exact HQ. Qed.

Lemma after_GetLBFlavorByName name w f (Q : res LBFlavor -> platform -> Prop) :
  first_match (fun f => EqualFold (LBFlavor_Name f) name) (lb_flavors (p_cloud w)) = Some f ->
  Q (Ok f) w -> after (GetLBFlavorByName c name) w Q.
Proof.
  intros Hf HQ. apply after_try, after_wrap. eapply after_reads; [apply net_flavors|].
  intros xs ->. cbn. rewrite Hf. exact HQ.
Qed.

Lemma after_GetLoadBalancer id w lb (Q : res LoadBalancer -> platform -> Prop) :
  find_lb id (p_cloud w) = Some lb -> Q (Ok lb) w -> after (GetLoadBalancer c id) w Q.
Proof. intros Hn HQ. apply after_wrap. eapply after_fetches; [apply net_lb|]. by rewrite Hn. Qed.

Lemma after_findLoadBalancerByName name w (Q : res (option LoadBalancer) -> platform -> Prop) :
  Q (Ok (first_match (fun l => bool_decide (LoadBalancer_Name l = name)) (lbs (p_cloud w)))) w ->
  after (findLoadBalancerByName c name) w Q.
Proof.
  intros HQ. apply after_try. eapply after_reads; [apply net_lbs|]. intros xs ->. exact HQ.
Qed.

(** A load balancer of the name is used, and if there is none it is made; the
    first poll finds it. *)
Lemma after_CreateLoadBalancer o w (Q : res LoadBalancer -> platform -> Prop) :
  let named := fun l => bool_decide (LoadBalancer_Name l = CreateLoadBalancerOpts_Name o) in
  (forall lb, first_match named (lbs (p_cloud w)) = Some lb -> Q (Ok lb) w) ->
  (forall lb, first_match named (lbs (p_cloud w)) = None -> LoadBalancer_ID lb <> ""%string ->
     LoadBalancer_Name lb = CreateLoadBalancerOpts_Name o -> LoadBalancer_FloatingIP lb = None ->
     Q (Ok lb) (on_cloud (add_lb lb) w)) ->
  after (CreateLoadBalancer c o) w Q.
Proof.
  intros named Hold Hnew. unfold CreateLoadBalancer. apply after_bind, after_findLoadBalancerByName.
  fold named. destruct (first_match named _) as [lb|] eqn:E; [by apply Hold|].
  apply after_try, after_wrap, after_retry. intros r w' (-> & lb & Hid & Hname & Hfip & ->)%net_make_lb.
  exists tt. split; [done|]. cbn [map_err]. unfold maxLookupAttempts. cbn [poll_lb].
  apply after_try, after_wrap, after_findLoadBalancerByName. fold named.
  assert (first_match named (lbs (p_cloud (on_cloud (add_lb lb) w))) = Some lb) as ->;
    [|by apply Hnew].
  apply first_match_None in E. cbn. apply first_match_Some. exists (lbs (p_cloud w)), [].
  split_and!; [done | by apply bool_decide_eq_true | done].
Qed.

Lemma after_FindListenerByName lb name w (Q : res (option Listener) -> platform -> Prop) :
  Q (Ok (first_match (fun l => bool_decide
     (Listener_Name l = name /\ lb ∈ Listener_LoadBalancerIDs l)) (listeners (p_cloud w)))) w ->
  after (FindListenerByName c lb name) w Q.
Proof.
  intros HQ. apply after_try, after_wrap. eapply after_reads; [apply net_listeners|].
  intros xs ->. exact HQ.
Qed.

Lemma after_CreateListener o w (Q : res Listener -> platform -> Prop) :
  (forall l, Listener_ID l <> ""%string -> Listener_Name l = CreateListenerOpts_Name o ->
     CreateListenerOpts_LoadBalancerID o ∈ Listener_LoadBalancerIDs l ->
     Q (Ok l) (on_cloud (add_listener l) w)) ->
  after (CreateListener c o) w Q.
Proof.
  intros HQ. apply after_wrap. eapply after_makes; [apply net_make_listener|].
  intros l (?&?&?). by apply HQ.
Qed.

Lemma after_FindPoolByName lb name w (Q : res (option Pool) -> platform -> Prop) :
  Q (Ok (first_match (fun p => bool_decide
     (Pool_Name p = name /\ Pool_LoadBalancerID p = lb)) (pools (p_cloud w)))) w ->
  after (FindPoolByName c lb name) w Q.
Proof.
  intros HQ. apply after_try, after_wrap. eapply after_reads; [apply net_pools|].
  intros xs ->. exact HQ.
Qed.

Lemma after_CreatePool o w (Q : res Pool -> platform -> Prop) :
  (forall p, Pool_ID p <> ""%string -> Pool_Name p = CreatePoolOpts_Name o ->
     Pool_LoadBalancerID p = CreatePoolOpts_LoadBalancerID o ->
     Q (Ok p) (on_cloud (add_pool p) w)) ->
  after (CreatePool c o) w Q.
Proof.
  intros HQ. apply after_wrap. eapply after_makes; [apply net_make_pool|].
  intros l (?&?&?). by apply HQ.
Qed.

Lemma after_FindHealthMonitorByName name w (Q : res (option HealthMonitor) -> platform -> Prop) :
  Q (Ok (first_match (fun h => bool_decide (HealthMonitor_Name h = name)) (monitors (p_cloud w)))) w ->
  after (FindHealthMonitorByName c name) w Q.
Proof.
  intros HQ. apply after_try, after_wrap. eapply after_reads; [apply net_monitors|].
  intros xs ->. exact HQ.
Qed.

Lemma after_CreateHealthMonitor o w (Q : res HealthMonitor -> platform -> Prop) :
  (forall h, HealthMonitor_Name h = CreateHealthMonitorOpts_Name o ->
     Q (Ok h) (on_cloud (add_monitor h) w)) ->
  after (CreateHealthMonitor c o) w Q.
Proof. intros HQ. apply after_wrap. eapply after_makes; [apply net_make_monitor|]. exact HQ. Qed.

Lemma after_ListSecurityGroups w (Q : res (list SecurityGroup) -> platform -> Prop) :
  Q (Ok (groups (p_cloud w))) w -> after (ListSecurityGroups c) w Q.
Proof. intros HQ. apply after_wrap. eapply after_reads; [apply net_groups|]. by intros xs ->. Qed.

Lemma after_CreateSecurityGroup o w (Q : res SecurityGroup -> platform -> Prop) :
  (forall g, SecurityGroup_ID g <> ""%string -> Q (Ok g) (on_cloud (add_group g) w)) ->
  after (CreateSecurityGroup c o) w Q.
Proof. intros HQ. apply after_wrap. eapply after_makes; [apply net_make_group|]. exact HQ. Qed.

Lemma after_CreateDNSRecord zone o w (Q : res DNSRecord -> platform -> Prop) :
  (forall x, DNSRecord_ID x <> 0 -> Q (Ok x) w) -> after (CreateDNSRecord c zone o) w Q.
Proof. intros HQ. apply after_wrap. eapply after_reads; [apply net_make_record|]. exact HQ. Qed.

Lemma after_ListFloatingIPs w (Q : res (list FloatingIP) -> platform -> Prop) :
  Q (Ok (fips (p_cloud w))) w -> after (ListFloatingIPs c) w Q.
Proof. intros HQ. apply after_wrap. eapply after_reads; [apply net_fips|]. by intros xs ->. Qed.

Lemma after_GetFloatingIP id w (Q : res FloatingIP -> platform -> Prop) :
  (forall f, find_fip id (p_cloud w) = Some f -> Q (Ok f) w) ->
  (forall e, find_fip id (p_cloud w) = None -> IsNotFound (Some e) = true -> Q (Err e) w) ->
  after (GetFloatingIP c id) w Q.
Proof.
  intros Hf Hn. apply after_wrap, after_retry_once. intros r w' Hs.
  apply net_fip in Hs as [-> Hr]. cbn [den req_out] in *.
  destruct (find_fip id (p_cloud w)) as [f|].
  - subst r. split; [done|]. by apply Hf.
  - destruct Hr as [text ->]. split; [done|]. by apply Hn.
Qed.

Lemma after_ListGateways w (Q : res (list Gateway) -> platform -> Prop) :
  Q (Ok (gateways (p_cloud w))) w -> after (ListGateways c) w Q.
Proof. intros HQ. apply after_wrap. eapply after_reads; [apply net_gateways|]. by intros xs ->. Qed.

Lemma after_CreateLoadBalancerFloatingIP lb ip gw w (Q : res FloatingIP -> platform -> Prop) :
  Forall (fun f => fip_of_lb lb f = false) (fips (p_cloud w)) ->
  (forall x f gs, FloatingIP_ID f <> ""%string -> FloatingIP_ID f ∉ issued (p_cloud w) ->
     fip_of_lb lb f = true -> Q (Ok x) (on_cloud (add_address f gs) w)) ->
  after (CreateLoadBalancerFloatingIP c lb ip gw) w Q.
Proof.
  intros Hno HQ. apply after_wrap, after_retry. intros r w' Hs.
  apply net_make_fip in Hs as [[_ Hex]|(Hr & _ & f & gs & ? & ? & ? & ->)].
  - rewrite Forall_forall in Hno. apply Exists_exists in Hex as (f & Hf & E). by rewrite Hno in E.
  - destruct r as [x|e]; [|done]. exists x. split; [done|]. by apply HQ.
Qed.

Section compute.
Context `{M : !ComputeLaws c}.

Lemma after_GetInstance id w (Q : res Instance -> platform -> Prop) :
  match lookup_instance id (p_cloud w) with
  | Some i => Q (Ok i) w
  | None => forall e, IsNotFound (Some e) = true -> Q (Err e) w
  end -> after (GetInstance c id) w Q.
Proof.
  intros HQ. apply after_wrap. eapply after_fetches; [apply com_read|].
  destruct (lookup_instance id _) as [i|]; [exact HQ|]. intros text. by apply HQ.
Qed.

Lemma after_FindInstanceByName name w (Q : res (option Instance) -> platform -> Prop) :
  Q (Ok (first_match (fun i => bool_decide (Instance_Name i = name)) (instances (p_cloud w)))) w ->
  after (FindInstanceByName c name) w Q.
Proof.
  intros HQ. apply after_try, after_wrap. eapply after_reads; [apply com_instances|].
  intros xs ->. exact HQ.
Qed.

Lemma after_CreateInstance o w (Q : res Instance -> platform -> Prop) :
  (forall i, Instance_ID i <> ""%string -> Instance_Name i = CreateInstanceOpts_Name o ->
     Instance_ID i ∉ Instance_ID <$> instances (p_cloud w) ->
     Q (Ok i) (on_cloud (add_instance i) w)) -> after (CreateInstance c o) w Q.
Proof.
  intros HQ. apply after_wrap, after_retry. intros r w' (i & -> & ? & ? & ? & ->)%com_make.
  exists i. split; [done|]. by apply HQ.
Qed.

Lemma after_GetFlavorByName name w f (Q : res Flavor -> platform -> Prop) :
  first_match (fun f => EqualFold (Flavor_Name f) name) (flavors (offers (p_cloud w))) = Some f ->
  Q (Ok f) w -> after (GetFlavorByName c name) w Q.
Proof.
  intros Hf HQ. apply after_try, after_wrap. eapply after_reads; [apply com_flavors|].
  intros xs ->. cbn. rewrite Hf. exact HQ.
Qed.

(** An image that is named by its UUID, or is public, or is a snapshot. *)
Definition has_image (name : string) (o : catalog) : Prop :=
  name <> ""%string
  /\ (isUUID name = true \/ is_Some (findImageByName (images o) name)
      \/ is_Some (findImageByName (snapshots o) name)).

Lemma after_GetImageByName name w (Q : res Image -> platform -> Prop) :
  has_image name (offers (p_cloud w)) -> (forall i, Q (Ok i) w) -> after (GetImageByName c name) w Q.
Proof.
  intros [Hne Hi] HQ. unfold GetImageByName. rewrite decide_False by done.
  destruct (isUUID name) eqn:Hu; [apply HQ|].
  apply after_try, after_wrap. eapply after_reads; [apply com_images|]. intros xs ->. cbn [map_err].
  destruct (findImageByName (images _) name) as [i|] eqn:E1; [apply HQ|].
  apply after_try, after_wrap, after_wrap. eapply after_reads; [apply com_snapshots|].
  intros xs ->. cbn [map_err]. destruct Hi as [?|[[? ?]|[i ->]]]; [done..|apply HQ].
Qed.

Lemma after_GetSSHKeyByName name w k (Q : res SSHKey -> platform -> Prop) :
  first_match (fun k => bool_decide (SSHKey_Name k = name)) (keys (offers (p_cloud w))) = Some k ->
  Q (Ok k) w -> after (GetSSHKeyByName c name) w Q.
Proof.
  intros Hf HQ. apply after_try, after_wrap. eapply after_reads; [apply com_keys|].
  intros xs ->. cbn [map_err]. rewrite Hf. exact HQ.
Qed.

Lemma after_ListPoolMembers id w (Q : res (list Member) -> platform -> Prop) :
  Q (Ok (under id (members (p_cloud w)))) w -> after (ListPoolMembers c id) w Q.
Proof. intros HQ. apply after_wrap. eapply after_reads; [apply com_members|]. by intros xs ->. Qed.

Lemma after_AddPoolMember id o w (Q : res Member -> platform -> Prop) :
  (forall m, Member_Address m = CreateMemberOpts_Address o ->
     Member_ProtocolPort m = CreateMemberOpts_ProtocolPort o -> Member_ID m <> ""%string ->
     Q (Ok m) (on_cloud (add_member id m) w)) -> after (AddPoolMember c id o) w Q.
Proof.
  intros HQ. apply after_try, after_wrap, after_retry.
  intros r w' (m & -> & ? & ? & ? & ->)%com_join. exists [m]. split; [done|]. by apply HQ.
Qed.
End compute.

(** Calls whose result the callers drop: whatever they answer, nothing else
    changes. *)
Definition idle (e : event) : Prop :=
  forall w r w', step w e r w' -> w' = w.

Lemma inert_idle e good : inert e good -> idle e.
Proof. by intros H w r w' [-> _]%H. Qed.

Lemma after_idle {A} (p : prog A) w (Q : A -> platform -> Prop) :
  only idle p -> (forall a, Q a w) -> after p w Q.
Proof.
  intros Hp HQ. eapply after_mono.
  - apply (after_only idle eq p w Hp). intros w1 e r w2 He Hs. symmetry. exact (He w1 r w2 Hs).
  - intros a w' <-. apply HQ.
Qed.

(** A step whose calls change the platform along a preorder. *)
Lemma after_step {S A} (T : platform -> platform -> Prop) `{!PreOrder T} (R' : S -> S -> Prop)
    (m : M S A) s w (Q : A * S -> platform -> Prop) :
  keeps R' m -> only_m (fun e => forall w r w', step w e r w' -> T w w') m ->
  (forall a s' w', R' s s' -> T w w' -> Q (a, s') w') -> after (m s) w Q.
Proof.
  intros Hk Ho HQ. eapply after_mono.
  - apply after_and; [apply (after_keeps R' m s w Hk)|].
    apply (after_only (fun e => forall w r w', step w e r w' -> T w w') T (m s) w (Ho s)).
    intros w1 e r w2 He Hs. exact (He w1 r w2 Hs).
  - intros [a s'] w' [HR Hw]. by apply HQ.
Qed.

Lemma idle_sleep (ns name : string) `{K : !KubeLaws ns name} d : idle (ESleep d).
Proof. by intros w r w' [-> _]%(kube_sleep (ns := ns) (name := name)). Qed.

Lemma idle_range (ns name : string) `{K : !KubeLaws ns name} m : idle (ERange m).
Proof. by intros w r w' [-> _]%(kube_range (ns := ns) (name := name)). Qed.

Lemma idle_metric (ns name : string) `{K : !KubeLaws ns name} m : idle (EMetric m).
Proof. by intros w r w' [-> _]%(kube_metric (ns := ns) (name := name)). Qed.
End laws.
