(* ===== verification/ClusterInvariant.v ===== *)
(** * The invariant of the passes over a cluster

    What the passes over an OVHCluster keep on a platform: what is recorded exists, and
    what the user names does; and what a step from one state to another may do, while the
    project grows under a pass and the provider works between two passes. *)

From S2P Require Import Prelude GoStrings Errors OvhTypes ApiTypes Effects Client Names Logic.
From S2P Require Import ClientFacts ClusterController ClusterFacts ClusterStepFacts Platform.
From S2P Require Import PlatformLaws.

Local Open Scope Z_scope.

(** ** The invariant of the passes *)

Definition has_listener (name lb id : string) (cl : cloud) : Prop :=
  exists l, l ∈ listeners cl /\ Listener_ID l = id /\ Listener_Name l = name
            /\ lb ∈ Listener_LoadBalancerIDs l.

Definition has_pool (name lb id : string) (cl : cloud) : Prop :=
  exists p, p ∈ pools cl /\ Pool_ID p = id /\ Pool_Name p = name /\ Pool_LoadBalancerID p = lb.

Definition has_monitor (name : string) (cl : cloud) : Prop :=
  exists h, h ∈ monitors cl /\ HealthMonitor_Name h = name.

Definition lb_id (o : OVHCluster) : string := CStatus_LoadBalancerID (OVHCluster_Status o).
Definition fip_id (o : OVHCluster) : string := CStatus_FloatingIPID (OVHCluster_Status o).
Definition host (o : OVHCluster) : string :=
  APIEndpoint_Host (CSpec_ControlPlaneEndpoint (OVHCluster_Spec o)).

(** A recorded listener and a recorded pool exist, on the recorded load
    balancer. *)
Definition tracked_port (name : string) (lp pp : ptr OVHCluster) (o : OVHCluster) (cl : cloud)
    : Prop :=
  (load lp o <> ""%string -> lb_id o <> ""%string /\ has_listener name (lb_id o) (load lp o) cl)
  /\ (load pp o <> ""%string ->
        lb_id o <> ""%string /\ has_pool (name ++ "-pool") (lb_id o) (load pp o) cl).

(** A recorded floating IP is, or was, the ID of the one that the recorded load
    balancer has; nobody else has it. *)
Definition tracked_fip (o : OVHCluster) (cl : cloud) : Prop :=
  fip_id o <> ""%string ->
    lb_id o <> ""%string /\ fip_id o ∈ issued cl
    /\ (exists f, f ∈ fips cl /\ fip_of_lb (lb_id o) f = true)
    /\ (forall f, f ∈ fips cl -> FloatingIP_ID f = fip_id o -> fip_of_lb (lb_id o) f = true).

(** The recorded IDs exist. *)
Definition tracked (o : OVHCluster) (cl : cloud) : Prop :=
  (CStatus_NetworkID (OVHCluster_Status o) <> ""%string ->
     is_Some (find_network (CStatus_NetworkID (OVHCluster_Status o)) cl))
  /\ (lb_id o <> ""%string -> is_Some (find_lb (lb_id o) cl))
  /\ tracked_port apiServerListenerName ListenerIDPtr PoolIDPtr o cl
  /\ tracked_port rke2RegisterListenerName RegisterListenerIDPtr RegisterPoolIDPtr o cl
  /\ tracked_fip o cl.

(** A cluster gets a subnet: its specification says which, or the network it names has
    one, and no other is recorded. *)
Definition subnetted (o : OVHCluster) (nc : OVHNetworkConfig) (cl : cloud) : Prop :=
  NetConfig_SubnetCIDR nc <> ""%string
  \/ (NetConfig_PrivateNetworkID nc <> ""%string
      /\ under (NetConfig_PrivateNetworkID nc) (subnets cl) <> []
      /\ (CStatus_NetworkID (OVHCluster_Status o) = ""%string
          \/ CStatus_NetworkID (OVHCluster_Status o) = NetConfig_PrivateNetworkID nc)).

(** A network that may be recorded. *)
Definition suits (nc : OVHNetworkConfig) (v : string) : Prop :=
  NetConfig_SubnetCIDR nc <> ""%string \/ v = ""%string \/ v = NetConfig_PrivateNetworkID nc.

(** The specifications the theorems are about: a cluster on a private network, one
    that is made for it or one that the user names, whose load balancer has no floating
    IP, or one that is made for it, or the one that the user names together with the load
    balancer that has it. What the user names exists. *)
Definition flavor_name (cfg : OVHLoadBalancerConfig) : string :=
  if decide (LBConfig_FlavorName cfg = "") then "small" else LBConfig_FlavorName cfg.

(** The cluster asks for a floating IP. *)
Definition floating (spec : OVHClusterSpec) : Prop :=
  LBConfig_FloatingNetworkID (CSpec_LoadBalancerConfig spec) <> ""%string.

#[export] Instance floating_dec spec : Decision (floating spec).
Proof. unfold floating. apply _. Defined.

(** The load balancer that may be recorded, if none is. *)
Definition its_lb (o : OVHCluster) (v : string) : Prop :=
  let lb := LBConfig_ExistingLoadBalancerID (CSpec_LoadBalancerConfig (OVHCluster_Spec o)) in
  lb = ""%string \/ v = lb.

(** Only a cluster that adopts no load balancer has none. *)
Definition own_lb (o : OVHCluster) : Prop :=
  lb_id o = ""%string ->
  LBConfig_ExistingLoadBalancerID (CSpec_LoadBalancerConfig (OVHCluster_Spec o)) = ""%string.

(** An adopted floating IP is that of the adopted load balancer. *)
Definition adopts (o : OVHCluster) (cl : cloud) : Prop :=
  let cfg := CSpec_LoadBalancerConfig (OVHCluster_Spec o) in
  let lb := LBConfig_ExistingLoadBalancerID cfg in
  LBConfig_ExistingFloatingIPID cfg = ""%string
  \/ (floating (OVHCluster_Spec o) /\ lb <> ""%string /\ (lb_id o = ""%string \/ lb_id o = lb)
      /\ exists f, f ∈ fips cl /\ fip_of_lb lb f = true
           /\ FloatingIP_ID f = LBConfig_ExistingFloatingIPID cfg /\ FloatingIP_IP f <> ""%string).

Definition admissible `{Unicode} (o : OVHCluster) (cl : cloud) : Prop :=
  let spec := OVHCluster_Spec o in
  let cfg := CSpec_LoadBalancerConfig spec in
  Meta_DeletionTimestamp (OVHCluster_ObjectMeta o) = None
  /\ (exists nc, CSpec_NetworkConfig spec = Some nc /\ subnetted o nc cl
       /\ (NetConfig_PrivateNetworkID nc <> ""%string ->
           is_Some (find_network (NetConfig_PrivateNetworkID nc) cl)))
  /\ is_Some (first_match (fun f => EqualFold (LBFlavor_Name f) (flavor_name cfg)) (lb_flavors cl))
  /\ (LBConfig_ExistingLoadBalancerID cfg <> ""%string ->
      is_Some (find_lb (LBConfig_ExistingLoadBalancerID cfg) cl))
  /\ adopts o cl.

(** The recorded floating IP is that of the recorded load balancer, and has its
    address. *)
Definition attached (o : OVHCluster) (cl : cloud) : Prop :=
  lb_id o <> ""%string
  /\ exists f, f ∈ fips cl /\ fip_of_lb (lb_id o) f = true /\ FloatingIP_ID f = fip_id o
       /\ FloatingIP_IP f <> ""%string.

Definition has_address (lb ip : string) (cl : cloud) : Prop :=
  exists f, f ∈ fips cl /\ fip_of_lb lb f = true /\ FloatingIP_IP f = ip.

(** The address of the control plane: that of the floating IP if the cluster asks for
    one, that of the load balancer otherwise. *)
Definition address (o : OVHCluster) (cl : cloud) (ip : string) : Prop :=
  lb_id o <> ""%string /\ ip <> ""%string
  /\ if decide (floating (OVHCluster_Spec o))
     then has_address (lb_id o) ip cl
     else exists lb, find_lb (lb_id o) cl = Some lb /\ LoadBalancer_VIPAddress lb = ip.

(** ** What a pass may change *)

(** A recorded ID stays. *)
Definition stays (id id' : string) : Prop := id <> ""%string -> id' = id.

#[export] Instance stays_preorder : PreOrder stays.
Proof. split; unfold stays; [done|]. intros x y z Hy Hz Hx. rewrite Hz; [auto|]. by rewrite Hy. Qed.

(** The recorded IDs. *)
Definition ids (o : OVHCluster) : list string :=
  let st := OVHCluster_Status o in
  [CStatus_NetworkID st; CStatus_SubnetID st; CStatus_LoadBalancerID st; CStatus_ListenerID st;
   CStatus_PoolID st; CStatus_RegisterListenerID st; CStatus_RegisterPoolID st].

(** Recorded IDs stay, and so does all that exists. *)
Definition later (s s' : OVHCluster * platform) : Prop :=
  let st := OVHCluster_Status s.1 in
  let st' := OVHCluster_Status s'.1 in
  OVHCluster_ObjectMeta s'.1 = OVHCluster_ObjectMeta s.1
  /\ OVHCluster_Spec s'.1 = OVHCluster_Spec s.1
  /\ Forall2 stays (ids s.1) (ids s'.1)
  /\ (forall g id, CStatus_SecurityGroupIDs st !! g = Some id -> id <> ""%string ->
        CStatus_SecurityGroupIDs st' !! g = Some id)
  /\ (CStatus_DNSRecordID st <> 0 -> CStatus_DNSRecordID st' = CStatus_DNSRecordID st)
  /\ (attached s.1 (p_cloud s.2) -> attached s'.1 (p_cloud s'.2) /\ fip_id s'.1 = fip_id s.1)
  /\ (CStatus_GatewayExposed st = true -> CStatus_GatewayExposed st' = true)
  /\ grows (p_cloud s.2) (p_cloud s'.2) /\ objects s'.2 = objects s.2.

#[export] Instance later_preorder : PreOrder later.
Proof.
  split.
  - intros [o w]. unfold later. cbn. by split_and!.
  - intros [o1 w1] [o2 w2] [o3 w3] (?&?&F&?&Hd&Ha&?&?&?) (?&?&F'&?&Hd'&Ha'&?&?&?). unfold later. cbn in *.
    split_and!; eauto; try (etransitivity; eassumption).
    + intros Hne. rewrite Hd' by (by rewrite Hd). by apply Hd.
    + intros [At E]%Ha. destruct (Ha' At) as [At' E']. split; [exact At' | congruence].
Qed.

(** The [i]-th recorded ID stays, and so does the specification. *)
Lemma later_id i o w o' w' :
  later (o, w) (o', w') -> nth i (ids o) ""%string <> ""%string ->
  nth i (ids o') ""%string = nth i (ids o) ""%string.
Proof.
  intros (_ & _ & H & _). cbn [fst snd] in H. revert i. generalize (ids o), (ids o') , H. clear.
  induction 1 as [|x y xs ys Hxy _ IH]; intros [|i]; cbn; auto.
Qed.

(** A load balancer that is not recorded was not. *)
Lemma later_empty o w o' w' : later (o, w) (o', w') -> lb_id o' = ""%string -> lb_id o = ""%string.
Proof.
  intros Hl Hid. apply dec_stable. intros Hne. assert (E := later_id 2 _ _ _ _ Hl Hne).
  cbn in E. unfold lb_id in *. congruence.
Qed.

Lemma attached_grows o cl cl' : grows cl cl' -> attached o cl -> attached o cl'.
Proof.
  intros (_&_&_&_&_&_&_&_&_&_&_& Hf & _) [Hne (f & Hin & H)]. split; [done|]. exists f.
  split; [by eapply elem_of_prefix | exact H].
Qed.

Lemma has_address_grows lb ip cl cl' : grows cl cl' -> has_address lb ip cl -> has_address lb ip cl'.
Proof.
  intros (_&_&_&_&_&_&_&_&_&_&_& Hf & _) (f & Hin & H). exists f. split; [by eapply elem_of_prefix | exact H].
Qed.

Lemma address_grows o cl cl' ip : grows cl cl' -> address o cl ip -> address o cl' ip.
Proof.
  intros Hg (Hlb & Hip & H). split; [done|]. split; [done|]. case_decide; [by eapply has_address_grows|].
  destruct H as (lb & Hf & <-). exists lb. split; [|done]. destruct Hg as (_&_&_& Hl & _). by eapply find_prefix.
Qed.

Lemma later_spec o w o' w' : later (o, w) (o', w') -> OVHCluster_Spec o' = OVHCluster_Spec o.
Proof. by intros (_ & Hs & _). Qed.

(** The object without its conditions and failure domains. *)
Definition bare (o : OVHCluster) : OVHCluster := set_c_FailureDomains ∅ (set_c_Conditions [] o).

(** What a pass reads of the edge: the load balancers and the floating IPs. *)
Definition edge (c : cloud) : list LoadBalancer * list FloatingIP := (lbs c, fips c).

Section convergence.
Context `{U : Unicode} `{C : CAPI} {L : CAPILaws C} `{P : Platform}.

Definition inv (o : OVHCluster) (w : platform) : Prop :=
  cloud_ok (p_cloud w) /\ tracked o (p_cloud w) /\ admissible o (p_cloud w).

(** A step from [(o, w)] to [(o', w')], which changes nothing if [quiet]. *)
Definition advance (quiet : Prop) (o : OVHCluster) (w : platform) (o' : OVHCluster) (w' : platform)
    : Prop :=
  inv o' w' /\ later (o, w) (o', w') /\ (quiet -> w' = w /\ bare o' = bare o).

Lemma advance_refl q o w : inv o w -> advance q o w o w.
Proof. intros H. split_and!; [apply H | reflexivity | done]. Qed.

Lemma advance_trans (q q1 q2 : Prop) o w o1 w1 o2 w2 :
  advance q1 o w o1 w1 -> advance q2 o1 w1 o2 w2 -> (q -> q1) -> (q -> q2) ->
  advance q o w o2 w2.
Proof.
  intros (H & Hl & Hq) (H' & Hl' & Hq') Hi1 Hi2. split_and!; [done | by etransitivity|].
  intros Hx. destruct (Hq (Hi1 Hx)) as [-> <-], (Hq' (Hi2 Hx)) as [-> <-]. done.
Qed.

Lemma advance_new (q q1 q2 : Prop) o w o1 w1 o2 w2 :
  advance q1 o w o1 w1 -> advance q2 o1 w1 o2 w2 -> ~ q -> advance q o w o2 w2.
Proof. intros H1 H2 Hq. eapply advance_trans; [exact H1 | exact H2 | by intros ?..]. Qed.

Lemma advance_weak (q q' : Prop) o w o' w' :
  advance q o w o' w' -> (q' -> q) -> advance q' o w o' w'.
Proof. intros (? & ? & H) Hq. split_and!; [done..|]. auto. Qed.

(** Conditions and failure domains are free. *)
Lemma advance_bare q o w o' : inv o w -> bare o' = bare o -> advance q o w o' w.
Proof.
  intros H Hb. split_and!; [| |done].
  - change (inv (bare o') w). rewrite Hb. exact H.
  - change (later (o, w) (bare o', w)). rewrite Hb. exact (reflexivity (R := later) (o, w)).
Qed.

Lemma tracked_grows o cl cl' : grows cl cl' -> tracked o cl -> tracked o cl'.
Proof.
  intros (Hn & _ & _ & Hlb & Hl & Hp & _ & _ & _ & _ & _ & Hf & _ & Hi & Hold & _)
    (Hnet & Hlbs & Hapi & Hreg & Hfip).
  assert (Hport : forall name lp pp, tracked_port name lp pp o cl -> tracked_port name lp pp o cl').
  { intros name lp pp [H1 H2]. split.
    - intros (? & l & Hin & ?)%H1. split; [done|]. exists l. split; [|done].
      by eapply elem_of_prefix.
    - intros (? & p & Hin & ?)%H2. split; [done|]. exists p. split; [|done].
      by eapply elem_of_prefix. }
  split_and!; [| |by apply Hport..|].
  - intros [n ?]%Hnet. exists n. by eapply find_prefix.
  - intros [l ?]%Hlbs. exists l. by eapply find_prefix.
  - intros (? & Hin & (f & ? & ?) & Hu)%Hfip. split_and!; [done | by eapply elem_of_prefix | |].
    + exists f. split; [by eapply elem_of_prefix | done].
    + intros g Hg E. apply Hu; [|exact E]. apply Hold; [exact Hg | by rewrite E].
Qed.

Lemma adopts_grows o cl cl' : grows cl cl' -> adopts o cl -> adopts o cl'.
Proof.
  intros (_&_&_&_&_&_&_&_&_&_&_& Hf & _) [?|(? & ? & ? & f & Hin & H)]; [by left|].
  right. do 3 (split; [done|]). exists f. split; [by eapply elem_of_prefix | exact H].
Qed.

Lemma admissible_grows o cl cl' : grows cl cl' -> admissible o cl -> admissible o cl'.
Proof.
  intros Hg (Hd & (nc & ? & Hsub & Hnc) & Hfl & Hx & Had). pose proof Hg as (Hn & Hs & Hf & Hlb & _).
  unfold admissible. rewrite Hf. split_and!; [done | | done | | by eapply adopts_grows].
  - exists nc. split_and!; [done| |].
    + destruct Hsub as [?|(? & Hu & ?)]; [by left|]. right. split; [done|]. split; [|done].
      intros E. apply Hu. destruct Hs as [zs E']. rewrite E' in E. unfold under in *.
      rewrite omap_app in E. by apply app_eq_nil in E as [-> _].
    + intros [n ?]%Hnc. exists n. by eapply find_prefix.
  - intros [l ?]%Hx. exists l. by eapply find_prefix.
Qed.

(** A resource is made. *)
Lemma advance_grow o w f :
  inv o w -> grows (p_cloud w) (f (p_cloud w)) -> cloud_ok (f (p_cloud w)) ->
  advance False o w o (on_cloud f w).
Proof.
  intros (Hok & Ht & Ha) Hg Hok'. split; [|split; [|done]].
  - split; [done|]. split; [by eapply tracked_grows | by eapply admissible_grows].
  - unfold later. cbn. split_and!; try done. by intros H%(attached_grows _ _ _ Hg).
Qed.

(** ** Steps that record *)

(** A recorded field changes from empty only. *)
Lemma later_set o o' w :
  OVHCluster_ObjectMeta o' = OVHCluster_ObjectMeta o ->
  OVHCluster_Spec o' = OVHCluster_Spec o ->
  Forall2 stays (ids o) (ids o') ->
  CStatus_SecurityGroupIDs (OVHCluster_Status o') = CStatus_SecurityGroupIDs (OVHCluster_Status o) ->
  CStatus_DNSRecordID (OVHCluster_Status o') = CStatus_DNSRecordID (OVHCluster_Status o) ->
  fip_id o' = fip_id o ->
  CStatus_GatewayExposed (OVHCluster_Status o') = CStatus_GatewayExposed (OVHCluster_Status o) ->
  later (o, w) (o', w).
Proof.
  intros Hm Hs Hids Hsg Hdns Hfip Hgw. unfold later, host. cbn. rewrite Hs, Hsg, Hdns, Hgw.
  split_and!; try done. intros [Hne Hf]. split; [|done].
  assert (E : lb_id o' = lb_id o).
  { unfold ids in Hids. rewrite !Forall2_cons in Hids. by apply Hids. }
  unfold attached. rewrite E, Hfip. by split.
Qed.

(** The ID of the network is recorded before anything uses it. *)
Lemma admissible_network v o cl :
  (forall nc, CSpec_NetworkConfig (OVHCluster_Spec o) = Some nc -> suits nc v) -> admissible o cl ->
  admissible (set_c_NetworkID v o) cl.
Proof.
  intros Hv (Hd & (nc & Hnc & Hsub & Hn) & Hrest). split; [done|]. split; [|done].
  exists nc. split_and!; [done| |done]. destruct Hsub as [?|(? & ? & _)]; [by left|].
  destruct (Hv nc Hnc) as [?|[-> | ->]]; [by left|right..]; by split_and!; try (by left); try (by right).
Qed.

Lemma advance_network v o w :
  inv o w -> CStatus_NetworkID (OVHCluster_Status o) = ""%string ->
  (forall nc, CSpec_NetworkConfig (OVHCluster_Spec o) = Some nc -> suits nc v) ->
  is_Some (find_network v (p_cloud w)) -> advance False o w (set_c_NetworkID v o) w.
Proof.
  intros (Hok & Ht & Ha) Hid Hs Hv. split; [|split; [|done]].
  - split; [done|]. split; [|by apply admissible_network]. destruct Ht as (_ & Ht). by split.
  - apply later_set; try done. repeat constructor; try done. unfold stays. by rewrite Hid.
Qed.

(** The recorded network is ACTIVE. *)
Definition active_net (o : OVHCluster) (cl : cloud) : Prop :=
  exists n, find_network (CStatus_NetworkID (OVHCluster_Status o)) cl = Some n
    /\ region_status n (CSpec_Region (OVHCluster_Spec o)) = "ACTIVE"%string.

Lemma advance_subnet v o w :
  inv o w -> CStatus_SubnetID (OVHCluster_Status o) = ""%string ->
  advance False o w (set_c_SubnetID v o) w.
Proof.
  intros Hi Hid. split; [exact Hi|]. split; [|done].
  apply later_set; try done. repeat constructor; try done. unfold stays. by rewrite Hid.
Qed.

(** A group is recorded. *)
Definition group_recorded (o : OVHCluster) (g : OVHSecurityGroup) : Prop :=
  default "" (CStatus_SecurityGroupIDs (OVHCluster_Status o) !! OVHSecurityGroup_Name g) <> ""%string.

Lemma group_recorded_later o w o' w' g :
  later (o, w) (o', w') -> group_recorded o g -> group_recorded o' g.
Proof.
  intros (_ & _ & _ & H & _). unfold group_recorded. cbn in H.
  destruct (CStatus_SecurityGroupIDs (OVHCluster_Status o) !! _) as [id|] eqn:E; [|done].
  cbn. intros Hid. by rewrite (H _ _ E Hid).
Qed.

Lemma advance_group name' id o w :
  inv o w -> default "" (CStatus_SecurityGroupIDs (OVHCluster_Status o) !! name') = ""%string ->
  advance False o w (set_c_SecurityGroupIDs
    (<[name' := id]> (CStatus_SecurityGroupIDs (OVHCluster_Status o))) o) w.
Proof.
  intros Hi Hno. split; [exact Hi|]. split; [|done]. unfold later. cbn. split_and!; try done.
  intros g id' Hg Hne. destruct (decide (g = name')) as [->|Hn].
  - by rewrite Hg in Hno.
  - by rewrite lookup_insert_ne.
Qed.

(** The pair of fields of a port, as the invariant sees it. *)
Class Port (pname : string) (lp pp : ptr OVHCluster) := {
  port_ptrs : PtrPair lp pp;
  port_tracked o cl : tracked o cl -> tracked_port pname lp pp o cl;
  port_kept o w o' w' : later (o, w) (o', w') ->
    stays (load lp o) (load lp o') /\ stays (load pp o) (load pp o');
  port_bare o o' : bare o' = bare o -> load lp o' = load lp o /\ load pp o' = load pp o;
  advance_listener v o w : inv o w -> load lp o = ""%string -> lb_id o <> ""%string ->
    has_listener pname (lb_id o) v (p_cloud w) -> advance False o w (store lp v o) w;
  advance_pool v o w : inv o w -> load pp o = ""%string -> lb_id o <> ""%string ->
    has_pool (pname ++ "-pool") (lb_id o) v (p_cloud w) -> advance False o w (store pp v o) w;
  port_lb v o : lb_id (store lp v o) = lb_id o /\ lb_id (store pp v o) = lb_id o;
}.

#[export] Instance api_port : Port apiServerListenerName ListenerIDPtr PoolIDPtr.
Proof.
  split.
  - apply _.
  - by intros o cl (_ & _ & H & _).
  - intros o w o' w' H. split; [exact (later_id 3 _ _ _ _ H) | exact (later_id 4 _ _ _ _ H)].
  - intros o o' Hb. split.
    + exact (f_equal (fun o => CStatus_ListenerID (OVHCluster_Status o)) Hb).
    + exact (f_equal (fun o => CStatus_PoolID (OVHCluster_Status o)) Hb).
  - intros v o w (Hok & (Hn & Hlb & (_ & Hp) & Hr) & Ha) Hid Hlid Hv. cbn in Hid.
    split; [|split; [|done]]; [by split_and!|]. apply later_set; try done.
    repeat constructor; try done. unfold stays. by rewrite Hid.
  - intros v o w (Hok & (Hn & Hlb & (Hl & _) & Hr) & Ha) Hid Hlid Hv. cbn in Hid.
    split; [|split; [|done]]; [by split_and!|]. apply later_set; try done.
    repeat constructor; try done. unfold stays. by rewrite Hid.
  - done.
Qed.

#[export] Instance register_port :
  Port rke2RegisterListenerName RegisterListenerIDPtr RegisterPoolIDPtr.
Proof.
  split.
  - apply _.
  - by intros o cl (_ & _ & _ & H & _).
  - intros o w o' w' H. split; [exact (later_id 5 _ _ _ _ H) | exact (later_id 6 _ _ _ _ H)].
  - intros o o' Hb. split.
    + exact (f_equal (fun o => CStatus_RegisterListenerID (OVHCluster_Status o)) Hb).
    + exact (f_equal (fun o => CStatus_RegisterPoolID (OVHCluster_Status o)) Hb).
  - intros v o w (Hok & (Hn & Hlb & Ha' & (_ & Hp) & Hfip) & Ha) Hid Hlid Hv. cbn in Hid.
    split; [|split; [|done]]; [by split_and!|]. apply later_set; try done.
    repeat constructor; try done. unfold stays. by rewrite Hid.
  - intros v o w (Hok & (Hn & Hlb & Ha' & (Hl & _) & Hfip) & Ha) Hid Hlid Hv. cbn in Hid.
    split; [|split; [|done]]; [by split_and!|]. apply later_set; try done.
    repeat constructor; try done. unfold stays. by rewrite Hid.
  - done.
Qed.

(** The port is served: listener, pool and monitor are there. *)
Definition port_up (pname : string) (lp pp : ptr OVHCluster) (o : OVHCluster) (cl : cloud) : Prop :=
  load lp o <> ""%string /\ load pp o <> ""%string /\ has_monitor ((pname ++ "-pool") ++ "-hm") cl.

Lemma port_up_later pname lp pp `{!Port pname lp pp} o w o' w' :
  later (o, w) (o', w') -> port_up pname lp pp o (p_cloud w) -> port_up pname lp pp o' (p_cloud w').
Proof.
  intros Hl (H1 & H2 & h & Hh & Hn). destruct (port_kept _ _ _ _ Hl) as [K1 K2].
  unfold port_up. rewrite K1, K2 by done. split_and!; [done..|]. exists h. split; [|done].
  destruct Hl as (_&_&_&_&_&_&_& (_&_&_&_&_&_& Hm & _) & _). by eapply elem_of_prefix.
Qed.

Definition exposed (o : OVHCluster) : Prop :=
  floating (OVHCluster_Spec o) -> CStatus_GatewayExposed (OVHCluster_Status o) = true.

Lemma exposed_later o w o' w' : later (o, w) (o', w') -> exposed o -> exposed o'.
Proof.
  intros Hl He. unfold exposed. rewrite (later_spec _ _ _ _ Hl). intros Hf.
  destruct Hl as (_&_&_&_&_&_& Hg & _). by apply Hg, He.
Qed.

(** The ID of the load balancer's floating IP is recorded. *)
Lemma advance_fip f o w :
  inv o w -> lb_id o <> ""%string -> f ∈ fips (p_cloud w) -> fip_of_lb (lb_id o) f = true ->
  advance (attached o (p_cloud w)) o w (set_c_FloatingIPID (FloatingIP_ID f) o) w.
Proof.
  intros (Hok & (Hn & Hlb & Ha & Hr & Hfip) & Hadm) Hid Hf Hof.
  pose proof Hok as (_&_&_&_&_&_& Hnd & Hall & Huniq & _). rewrite Forall_forall in Hall.
  assert (Hsame : attached o (p_cloud w) -> FloatingIP_ID f = fip_id o).
  { intros (_ & g & Hg & Hog & <- & _). by rewrite (Huniq (lb_id o) f g). }
  split; [|split].
  - split; [done|]. split; [|exact Hadm]. split_and!; [done..|]. intros _. cbn.
    destruct (Hall f Hf) as [_ Hin]. split_and!; [done..|by exists f|].
    intros g Hg E. by rewrite (NoDup_fmap_inj_in FloatingIP_ID (fips (p_cloud w)) g f).
  - unfold later. cbn. split_and!; try done. intros Hat. assert (E := Hsame Hat). split; [|exact E].
    destruct Hat as (Hne & g & Hg & Hog & Eg & Hip). split; [done|]. exists g. cbn. by rewrite Eg, <- E.
  - intros Hat. split; [done|]. rewrite (Hsame Hat). by destruct o as [? ? []].
Qed.

(** A floating IP that is not there is forgotten. *)
Lemma advance_forget o w :
  inv o w -> ~ attached o (p_cloud w) -> advance (attached o (p_cloud w)) o w (set_c_FloatingIPID "" o) w.
Proof.
  intros (Hok & (Hn & Hlb & Ha & Hr & Hfip) & Hadm) Hno. split; [|split; [|done]].
  - split; [done|]. split; [|exact Hadm]. split_and!; [done..|]. intros Hne. by destruct Hne.
  - unfold later. cbn. by split_and!.
Qed.

(** The load balancer's floating IP is recorded, and its gateway exposed. *)
Lemma advance_address f o w o' w' :
  inv o w -> lb_id o <> ""%string -> f ∈ fips (p_cloud w) -> fip_of_lb (lb_id o) f = true ->
  FloatingIP_IP f <> ""%string ->
  advance (CStatus_GatewayExposed (OVHCluster_Status o) = true)
    (set_c_FloatingIPID (FloatingIP_ID f) o) w o' w' ->
  advance (attached o (p_cloud w) /\ CStatus_GatewayExposed (OVHCluster_Status o) = true) o w o' w'
  /\ attached o' (p_cloud w').
Proof.
  intros Hi Hlb Hf Hof Hip H2. split.
  - eapply advance_trans; [by apply advance_fip | exact H2 | by intros [? _] | by intros [_ ?]].
  - destruct H2 as (_ & (_&_&_&_&_& H & _) & _). apply H. split; [done|]. by exists f.
Qed.

Lemma has_address_edge lb ip cl cl' : edge cl' = edge cl -> has_address lb ip cl -> has_address lb ip cl'.
Proof. unfold edge, has_address. by intros [= _ ->]. Qed.

Lemma settled_lbs_edge cl cl' : edge cl' = edge cl -> settled_lbs cl -> settled_lbs cl'.
Proof. unfold edge, settled_lbs. by intros [= -> ->]. Qed.

(** The load balancer has no floating IP. *)
Definition no_fip (lb : string) (cl : cloud) : Prop := Forall (fun f => fip_of_lb lb f = false) (fips cl).

(** Then it tells of none, and none is recorded. *)
Lemma no_fip_untold lb cl :
  cloud_ok cl -> lb ∈ lbs cl -> no_fip (LoadBalancer_ID lb) cl -> LoadBalancer_FloatingIP lb = None.
Proof.
  intros (_&_&_&_&_&_&_&_&_& Href) Hin Hno. destruct (LoadBalancer_FloatingIP lb) as [r|] eqn:Er; [|done].
  destruct (Href lb r Hin Er) as (g & Hg & Hog & _). unfold no_fip in Hno. rewrite Forall_forall in Hno.
  by rewrite Hno in Hog.
Qed.

Lemma no_fip_unrecorded o w o' w' cl :
  inv o w -> later (o, w) (o', w') -> fips cl = fips (p_cloud w) -> no_fip (lb_id o') cl ->
  fip_id o = ""%string.
Proof.
  intros (_ & (_ & _ & _ & _ & Htr) & _) Hl Hfips Hno. apply dec_stable. intros Hne.
  destruct (Htr Hne) as (Hlb & _ & (f & Hf & Hof) & _).
  assert (E := later_id 2 _ _ _ _ Hl Hlb). cbn in E. unfold no_fip, lb_id in *.
  rewrite E, Hfips, Forall_forall in Hno. by rewrite Hno in Hof.
Qed.

(** The address becomes the endpoint, if there is none. *)
Definition publish (ip : string) (o : OVHCluster) : OVHCluster :=
  if decide (host o = "") then set_c_ControlPlaneEndpoint (mkAPIEndpoint ip apiServerLBPort) o else o.

Definition ports_up (o : OVHCluster) (cl : cloud) : Prop :=
  port_up apiServerListenerName ListenerIDPtr PoolIDPtr o cl
  /\ port_up rke2RegisterListenerName RegisterListenerIDPtr RegisterPoolIDPtr o cl.

Lemma ports_up_later o w o' w' :
  later (o, w) (o', w') -> ports_up o (p_cloud w) -> ports_up o' (p_cloud w').
Proof.
  intros Hl [H1 H2]. split; (eapply port_up_later; [apply _ | exact Hl | done]).
Qed.

(** The load balancer serves the cluster: at both ports, and under the floating IP that
    is asked for. *)
Definition lb_up (o : OVHCluster) (cl : cloud) : Prop :=
  ports_up o cl /\ (floating (OVHCluster_Spec o) -> attached o cl).

Lemma lb_up_later o w o' w' :
  later (o, w) (o', w') -> lb_up o (p_cloud w) -> lb_up o' (p_cloud w').
Proof.
  intros Hl [Hp Ha]. split; [by eapply ports_up_later|]. rewrite (later_spec _ _ _ _ Hl).
  intros Hf. destruct Hl as (_&_&_&_&_& H & _). by apply H, Ha.
Qed.

Lemma advance_lb v o w :
  inv o w -> lb_id o = ""%string -> is_Some (find_lb v (p_cloud w)) -> its_lb o v ->
  advance False o w (set_c_LoadBalancerID v o) w.
Proof.
  intros (Hok & (Hn & Hlb & Ha & Hr & Hfip) & Hadm) Hid Hv Hits. split; [|split; [|done]].
  - split; [done|]. split.
    2:{ destruct Hadm as (? & ? & ? & ? & Had). do 4 (split; [done|]).
        destruct Had as [?|(? & Hne & _ & ?)]; [by left|]. right. do 2 (split; [done|]). split; [|done].
        right. by destruct Hits. }
    assert (Hnone : forall pname lp pp, tracked_port pname lp pp o (p_cloud w) ->
              load lp o = ""%string /\ load pp o = ""%string).
    { intros pname lp pp [H1 H2]. split; apply dec_stable; intros Hne;
        [by apply H1 in Hne as [? _] | by apply H2 in Hne as [? _]]. }
    apply Hnone in Ha as [Ha1 Ha2]. apply Hnone in Hr as [Hr1 Hr2]. cbn in Ha1, Ha2, Hr1, Hr2.
    split; [exact Hn|]. split; [done|].
    split_and!; try (split; cbn; [rewrite ?Ha1, ?Hr1 | rewrite ?Ha2, ?Hr2]; done).
    by intros [? _]%Hfip.
  - apply later_set; try done. unfold lb_id in Hid. repeat constructor; try done. unfold stays. by rewrite Hid.
Qed.

(** The floating IP that the user names is recorded, after the load balancer. *)
Lemma advance_adopted o w :
  let cfg := CSpec_LoadBalancerConfig (OVHCluster_Spec o) in
  inv o w -> LBConfig_ExistingFloatingIPID cfg <> ""%string ->
  own_lb o ->
  lb_id o <> ""%string
  /\ (exists f, f ∈ fips (p_cloud w) /\ fip_of_lb (lb_id o) f = true
        /\ FloatingIP_ID f = LBConfig_ExistingFloatingIPID cfg)
  /\ advance (lb_up o (p_cloud w)) o w (set_c_FloatingIPID (LBConfig_ExistingFloatingIPID cfg) o) w.
Proof.
  intros cfg Hi Hne Hlb. pose proof Hi as (_ & _ & _ & _ & _ & _ & [He|(Hfl & Hx & Hr & f & Hf & Hof & Hid & _)]);
    [by destruct Hne|].
  fold cfg in Hx, Hr, Hof, Hid. assert (Hl : lb_id o = LBConfig_ExistingLoadBalancerID cfg).
  { destruct Hr as [Hz|?]; [|done]. by destruct Hx; apply Hlb. }
  rewrite <- Hl in Hx, Hof. split_and!; [done | by exists f|].
  rewrite <- Hid. eapply advance_weak; [by apply advance_fip|]. intros [_ Ha]. by apply Ha.
Qed.

Definition dns_done (o : OVHCluster) : Prop :=
  CSpec_DNSConfig (OVHCluster_Spec o) = None \/ CStatus_DNSRecordID (OVHCluster_Status o) <> 0.

(** The cluster is complete: what its specification asks for is recorded, exists,
    and is published. *)
Definition built (o : OVHCluster) (cl : cloud) : Prop :=
  CStatus_NetworkID (OVHCluster_Status o) <> ""%string
  /\ CStatus_SubnetID (OVHCluster_Status o) <> ""%string
  /\ lb_id o <> ""%string
  /\ Forall (group_recorded o) (CSpec_SecurityGroups (OVHCluster_Spec o))
  /\ lb_up o cl.

(** Nothing is left to do, the exposure of the gateway included. *)
Definition finished (o : OVHCluster) (cl : cloud) : Prop := built o cl /\ exposed o.

Definition provisioned (o : OVHCluster) (cl : cloud) : Prop :=
  built o cl /\ host o <> ""%string /\ dns_done o /\ CStatus_Ready (OVHCluster_Status o) = true.

Lemma built_later o w o' w' : later (o, w) (o', w') -> built o (p_cloud w) -> built o' (p_cloud w').
Proof.
  intros Hl (H0 & H1 & H2 & Hg & Hp). unfold built. rewrite (later_spec _ _ _ _ Hl). split_and!.
  - assert (E := later_id 0 _ _ _ _ Hl H0). cbn in E. by rewrite E.
  - assert (E := later_id 1 _ _ _ _ Hl H1). cbn in E. by rewrite E.
  - assert (E := later_id 2 _ _ _ _ Hl H2). cbn in E. unfold lb_id. by rewrite E.
  - eapply Forall_impl; [exact Hg|]. intros g. by eapply group_recorded_later.
  - by eapply lb_up_later.
Qed.

Lemma finished_later o w o' w' :
  later (o, w) (o', w') -> finished o (p_cloud w) -> finished o' (p_cloud w').
Proof. intros Hl [Hb He]. split; [by eapply built_later | by eapply exposed_later]. Qed.

Lemma built_publish ip o cl : built o cl -> built (publish ip o) cl.
Proof. unfold publish. by case_decide. Qed.

Lemma finished_trans (q : Prop) o w o1 w1 o2 w2 :
  advance (finished o (p_cloud w)) o w o1 w1 -> advance q o1 w1 o2 w2 ->
  (finished o1 (p_cloud w1) -> q) -> advance (finished o (p_cloud w)) o w o2 w2.
Proof.
  intros H1 H2 Hq. eapply advance_trans; [exact H1 | exact H2 | done |].
  intros Hb. apply Hq. eapply finished_later; [apply H1 | done].
Qed.

Lemma active_net_later o w o' w' :
  later (o, w) (o', w') -> networks (p_cloud w') = networks (p_cloud w) ->
  CStatus_NetworkID (OVHCluster_Status o) <> ""%string ->
  active_net o (p_cloud w) -> active_net o' (p_cloud w').
Proof.
  intros Hl Hn Hid (n & Hf & Ha). exists n. unfold find_network. rewrite Hn, (later_spec _ _ _ _ Hl).
  assert (E := later_id 0 _ _ _ _ Hl Hid). cbn in E. by rewrite E.
Qed.

Lemma built_gathered o w o' w' :
  later (o, w) (o', w') -> CStatus_NetworkID (OVHCluster_Status o) <> ""%string ->
  CStatus_SubnetID (OVHCluster_Status o) <> ""%string ->
  Forall (group_recorded o) (CSpec_SecurityGroups (OVHCluster_Spec o)) ->
  lb_id o' <> ""%string -> lb_up o' (p_cloud w') -> built o' (p_cloud w').
Proof.
  intros Hl Hn Hs Hg Hlb Hp. assert (E0 := later_id 0 _ _ _ _ Hl Hn). assert (E1 := later_id 1 _ _ _ _ Hl Hs).
  cbn in E0, E1. unfold built. rewrite E0, E1, (later_spec _ _ _ _ Hl). do 3 (split; [done|]). split; [|done].
  eapply Forall_impl; [exact Hg|]. intros g. by eapply group_recorded_later.
Qed.

Lemma publish_sound ip o o' w :
  inv o w -> ip <> ""%string -> bare o' = bare (publish ip o) -> inv o' w /\ host o' <> ""%string.
Proof.
  intros Hi Hv B. change (inv (bare o') w /\ host (bare o') <> ""%string). rewrite B. unfold publish.
  by case_decide.
Qed.

(** ** Between two passes *)

Lemma evolves_lb_ids cl cl' :
  evolves cl cl' -> LoadBalancer_ID <$> lbs cl' = LoadBalancer_ID <$> lbs cl.
Proof.
  intros (_ & H & _). induction H as [|l l' ls ls' (E & _) _ IH]; [done|]. cbn. by rewrite E, IH.
Qed.

Lemma evolves_fip cl cl' f :
  evolves cl cl' -> f ∈ fips cl -> exists f', f' ∈ fips cl'
    /\ (forall lb, fip_of_lb lb f' = fip_of_lb lb f)
    /\ (FloatingIP_IP f <> ""%string ->
         FloatingIP_ID f' = FloatingIP_ID f /\ FloatingIP_IP f' = FloatingIP_IP f).
Proof.
  intros (_&_&_&_&_&_&_&_&_&_& H & _) (n & Hn)%list_elem_of_lookup.
  destruct (Forall2_lookup_l _ _ _ _ _ H Hn) as (f' & Hf' & E & _ & Hs). exists f'.
  split; [by eapply list_elem_of_lookup_2|]. split; [|exact Hs]. intros lb. unfold fip_of_lb. by rewrite E.
Qed.

Lemma evolved_fip cl cl' f' :
  evolves cl cl' -> f' ∈ fips cl' -> exists f, f ∈ fips cl
    /\ (forall lb, fip_of_lb lb f' = fip_of_lb lb f)
    /\ (FloatingIP_ID f' = FloatingIP_ID f \/ FloatingIP_ID f' ∉ issued cl).
Proof.
  intros (_&_&_&_&_&_&_&_&_&_& H & _) (n & Hn)%list_elem_of_lookup.
  destruct (Forall2_lookup_r _ _ _ _ _ H Hn) as (f & Hf & E & Hid & _). exists f.
  split; [by eapply list_elem_of_lookup_2|]. split; [|exact Hid]. intros lb. unfold fip_of_lb. by rewrite E.
Qed.

(** The recorded floating IP stays the load balancer's, or is gone. *)
Lemma tracked_fip_evolves o cl cl' : evolves cl cl' -> tracked_fip o cl -> tracked_fip o cl'.
Proof.
  intros He Ht (Hlb & Hin & (f & Hf & Hof) & Hu)%Ht. split; [done|].
  pose proof He as (_&_&_&_&_&_&_&_&_&_&_& Hiss & _). split; [by apply Hiss|]. split.
  - destruct (evolves_fip _ _ _ He Hf) as (f' & Hf' & E & _). exists f'. by rewrite E.
  - intros g' Hg' Eg. destruct (evolved_fip _ _ _ He Hg') as (g & Hg & E & [Eid|Hnew]).
    + rewrite E. apply Hu; [done | congruence].
    + by rewrite Eg in Hnew.
Qed.

Lemma attached_evolves o cl cl' : evolves cl cl' -> attached o cl -> attached o cl'.
Proof.
  intros He (Hlb & f & Hf & Hof & Hid & Hip). split; [done|].
  destruct (evolves_fip _ _ _ He Hf) as (f' & Hf' & E & Hs). destruct (Hs Hip) as [Eid Eip].
  exists f'. by rewrite E, Eid, Eip.
Qed.

Lemma lb_up_evolves o cl cl' : evolves cl cl' -> lb_up o cl -> lb_up o cl'.
Proof.
  intros He [Hp Ha]. split; [|by intros Hf; eapply attached_evolves, Ha].
  pose proof He as (_&_&_&_&_&_& Hm & _). unfold ports_up, port_up, has_monitor in *. by rewrite Hm.
Qed.

Lemma built_evolves o cl cl' : evolves cl cl' -> built o cl -> built o cl'.
Proof. intros He (?&?&?&?& Hup). unfold built. split_and!; try done; by eapply lb_up_evolves. Qed.

Lemma provisioned_evolves o cl cl' : evolves cl cl' -> provisioned o cl -> provisioned o cl'.
Proof. intros He [Hb ?]. split; [by eapply built_evolves | done]. Qed.

Lemma find_lb_evolves id cl cl' lb :
  evolves cl cl' -> find_lb id cl = Some lb -> LoadBalancer_VIPAddress lb <> ""%string ->
  exists lb', find_lb id cl' = Some lb' /\ LoadBalancer_VIPAddress lb' = LoadBalancer_VIPAddress lb.
Proof.
  intros (_ & H & _). unfold find_lb. induction H as [|l l' ls ls' (E & _ & Ev) _ IH]; cbn; [done|].
  rewrite E. case_bool_decide; [|done]. intros [= <-] Hv. eauto.
Qed.

(** The address of a control plane stays. *)
Lemma address_evolves o cl cl' ip : evolves cl cl' -> address o cl ip -> address o cl' ip.
Proof.
  intros He (Hlb & Hip & H). split; [done|]. split; [done|]. case_decide.
  - destruct H as (f & Hf & Hof & E). destruct (evolves_fip _ _ _ He Hf) as (f' & Hf' & Ea & Hs).
    exists f'. rewrite Ea. destruct Hs as [_ E']; [by rewrite E|]. by rewrite E'.
  - destruct H as (lb & Hf & <-). by apply (find_lb_evolves _ _ _ _ He Hf).
Qed.

Lemma adopts_evolves o cl cl' : evolves cl cl' -> adopts o cl -> adopts o cl'.
Proof.
  intros He [?|(? & ? & ? & f & Hf & Hof & Hid & Hip)]; [by left|]. right. do 3 (split; [done|]).
  destruct (evolves_fip _ _ _ He Hf) as (f' & Hf' & E & Hs). destruct (Hs Hip) as [Eid Eip].
  exists f'. by rewrite E, Eid, Eip.
Qed.

Lemma inv_evolves o w w' :
  evolves (p_cloud w) (p_cloud w') -> cloud_ok (p_cloud w') -> inv o w -> inv o w'.
Proof.
  intros He Hok (_ & (Hnet & Hlb & Hapi & Hreg & Hfip) & Hadm).
  pose proof He as (Hn & _ & Hsn & Hf & Hli & Hp & _).
  assert (Hl' : LoadBalancer_ID <$> lbs (p_cloud w') = LoadBalancer_ID <$> lbs (p_cloud w)).
  { by apply evolves_lb_ids. }
  split; [done|]. split.
  - split; [|split; [|split; [|split]]].
    + intros H. by eapply find_by_ids, Hnet.
    + intros H. by eapply find_by_ids, Hlb.
    + unfold tracked_port, has_listener, has_pool in *. by rewrite Hli, Hp.
    + unfold tracked_port, has_listener, has_pool in *. by rewrite Hli, Hp.
    + by eapply tracked_fip_evolves.
  - destruct Hadm as (? & (nc & ? & Hsub & Hnc) & ? & Hex & Had). unfold admissible. rewrite Hf.
    split_and!; [done | | done | | by eapply adopts_evolves].
    + exists nc. unfold subnetted. rewrite Hsn. split_and!; [done..|]. intros Hne. by eapply find_by_ids, Hnc.
    + intros Hne. by eapply find_by_ids, Hex.
Qed.
End convergence.
