(* ===== verification/ClusterPass.v ===== *)
(** * One pass over a cluster

    What the steps of a pass over an OVHCluster do on a platform that obeys
    [PlatformLaws], from any state of the invariant of ClusterInvariant: they make what
    is missing, or find it, and change nothing where nothing is missing. *)

From S2P Require Import Prelude GoStrings Errors OvhTypes ApiTypes Effects Client Names Logic.
From S2P Require Import ClientFacts ClusterController ClusterFacts ClusterStepFacts Platform.
From S2P Require Import PlatformLaws ClusterInvariant.

Local Open Scope Z_scope.

Section pass.
Context `{U : Unicode} `{C : CAPI} {L : CAPILaws C} `{P : Platform}.

(** Rewrites a recorded ID to what it was before the step [H]. *)
Ltac kept i H :=
  let E := fresh "E" in
  pose proof (later_id i _ _ _ _ (proj1 (proj2 H))) as E; cbn in E; rewrite E by assumption.

(** ** Credentials and network *)

Context (scope : ClusterScope) `{N : !NetworkLaws (CScope_OVHClient scope)}.
Context (ns name : string) `{K : !KubeLaws ns name}.
#[local] Notation client := (CScope_OVHClient scope).

Lemma after_reconcileCredentials o w (Q : res unit * OVHCluster -> platform -> Prop) :
  Client_serviceName (CScope_OVHClient scope) <> ""%string -> inv o w ->
  (forall o', advance True o w o' w -> Q (Ok tt, o') w) ->
  after (reconcileCredentials scope o) w Q.
Proof.
  intros Hs Hi HQ. apply after_m_bind, after_lift, (after_ValidateCredentials client); [done|].
  apply HQ, advance_bare; [done|]. done.
Qed.

Lemma after_ensure_network nc region o w (Q : res unit * OVHCluster -> platform -> Prop) :
  inv o w -> CSpec_NetworkConfig (OVHCluster_Spec o) = Some nc ->
  (forall o' w', advance (CStatus_NetworkID (OVHCluster_Status o) <> ""%string) o w o' w' ->
     edge (p_cloud w') = edge (p_cloud w) ->
     CStatus_NetworkID (OVHCluster_Status o') <> ""%string ->
     (networks (p_cloud w') = networks (p_cloud w)
      \/ CStatus_NetworkID (OVHCluster_Status o) = ""%string) -> Q (Ok tt, o') w') ->
  after (ensure_network scope nc region o) w Q.
Proof.
  intros Hi Hnc HQ. unfold ensure_network, cstatus. apply after_m_bind, after_gets. cbn.
  case_decide as Hid; [case_decide as Hex|].
  - apply HQ; [|done|exact Hex|by left].
    eapply advance_new; [apply (advance_refl True o w Hi) | | by auto].
    pose proof Hi as (_ & _ & _ & (nc' & Hnc' & _ & Hn) & _). rewrite Hnc in Hnc'. injection Hnc' as <-.
    apply advance_network; [done..| |by apply Hn]. rewrite Hnc. intros nc' [= <-]. right. by right.
  - apply after_m_bind, after_lift, (after_CreatePrivateNetwork client). intros n Hn Hos. cbn.
    assert (H1 : advance False o w o (on_cloud (add_network n) w)).
    { apply advance_grow; [done | by repeat split; try apply prefix_app_r|].
      by apply ok_add_network, Hi. }
    assert (Hsuits : forall nc', CSpec_NetworkConfig (OVHCluster_Spec o) = Some nc' -> suits nc' (PrivateNetwork_ID n)).
    { destruct Hi as (_ & _ & _ & (nc' & Hnc' & Hsub & _) & _). rewrite Hnc'. intros nc'' [= <-].
      rewrite Hnc in Hnc'. injection Hnc' as <-. left. destruct Hsub as [?|[Hne _]]; [done | by destruct Hex]. }
    assert (H2 := advance_network (PrivateNetwork_ID n) _ _ (proj1 H1) Hid Hsuits (find_added _ _ _)).
    apply HQ; [|done|exact Hn|by right]. eapply advance_new; [exact H1 | | by auto].
    eapply (advance_new False); [exact H2 | | by intros []].
    apply (advance_bare True); [apply H2 | done].
  - apply HQ; [by apply advance_refl | done | exact Hid | by left].
Qed.

Lemma after_verify_network o w (Q : res unit * OVHCluster -> platform -> Prop) :
  let region := CSpec_Region (OVHCluster_Spec o) in
  inv o w -> CStatus_NetworkID (OVHCluster_Status o) <> ""%string ->
  (active_net o (p_cloud w) -> Q (Ok tt, o) w) ->
  (~ active_net o (p_cloud w) -> forall o', bare o' = bare o -> Q (Err errNetworkNotReady, o') w) ->
  after (verify_network scope region o) w Q.
Proof.
  intros region (_ & (Hn & _) & _) Hid HQ HQ'. destruct (Hn Hid) as [n Hf].
  unfold verify_network, cstatus. apply after_m_bind, after_gets, after_m_bind, after_lift.
  apply (after_GetPrivateNetwork client _ _ n); [done|]. cbn. case_decide as Hst.
  - apply HQ'; [|done]. intros (n' & Hf' & Ha). rewrite Hf in Hf'. by injection Hf' as <-.
  - apply HQ. exists n. by destruct (decide (region_status n region = "ACTIVE"%string)).
Qed.

Lemma after_ensure_subnet nc region o w (Q : res unit * OVHCluster -> platform -> Prop) :
  inv o w -> CSpec_NetworkConfig (OVHCluster_Spec o) = Some nc ->
  CStatus_NetworkID (OVHCluster_Status o) <> ""%string ->
  (forall o' w', advance (CStatus_SubnetID (OVHCluster_Status o) <> ""%string) o w o' w' ->
     edge (p_cloud w') = edge (p_cloud w) ->
     CStatus_SubnetID (OVHCluster_Status o') <> ""%string ->
     CStatus_NetworkID (OVHCluster_Status o') = CStatus_NetworkID (OVHCluster_Status o) ->
     networks (p_cloud w') = networks (p_cloud w) -> Q (Ok tt, o') w') ->
  after (ensure_subnet scope nc region o) w Q.
Proof.
  intros Hi Hnc Hnid HQ. unfold ensure_subnet, cstatus. apply after_m_bind, after_gets. cbn.
  case_decide as Hid; [|by apply HQ; [apply advance_refl|..]].
  apply after_m_try, after_m_wrap, after_lift, (after_ListSubnets client). cbn.
  destruct (under _ _) as [|sn sns] eqn:Hu.
  - rewrite decide_True.
    2:{ destruct Hi as (_ & _ & _ & (nc' & Hnc' & Hsub & _) & _). rewrite Hnc in Hnc'. injection Hnc' as <-.
        destruct Hsub as [?|(_ & Hne & [?|E])]; [done..|]. by rewrite <- E, Hu in Hne. }
    destruct (subnetRange _) as [start end_].
    apply after_m_try, after_m_wrap, after_lift, (after_CreateSubnet client). intros sn Hsn. cbn.
    assert (H1 : advance False o w o (on_cloud (add_subnet (CStatus_NetworkID (OVHCluster_Status o)) sn) w)).
    { apply advance_grow; [done | by repeat split; try apply prefix_app_r|].
      by apply ok_add_subnet, Hi. }
    apply HQ; [|done..]. eapply advance_new; [exact H1 | | by auto].
    apply advance_subnet; [apply H1 | done].
  - assert (Hsn : Subnet_ID sn <> ""%string).
    { destruct Hi as ((_ & Hok & _) & _). rewrite Forall_forall in Hok.
      apply (Hok (CStatus_NetworkID (OVHCluster_Status o), sn)), elem_of_under. rewrite Hu. left. }
    apply HQ; [|done..]. eapply advance_new; [by apply (advance_refl True) | | by auto].
    by apply advance_subnet.
Qed.

Lemma after_reconcileNetwork o w (Q : res unit * OVHCluster -> platform -> Prop) :
  inv o w -> settled_networks (CSpec_Region (OVHCluster_Spec o)) (p_cloud w) ->
  (forall o' w', advance (CStatus_NetworkID (OVHCluster_Status o) <> ""%string
                          /\ CStatus_SubnetID (OVHCluster_Status o) <> ""%string) o w o' w' ->
     edge (p_cloud w') = edge (p_cloud w) ->
     CStatus_NetworkID (OVHCluster_Status o') <> ""%string ->
     CStatus_SubnetID (OVHCluster_Status o') <> ""%string ->
     active_net o' (p_cloud w') -> Q (Ok tt, o') w') ->
  (forall o' w', CStatus_NetworkID (OVHCluster_Status o) = ""%string -> advance False o w o' w' ->
     CStatus_NetworkID (OVHCluster_Status o') <> ""%string ->
     Q (Err errNetworkNotReady, o') w') ->
  after (reconcileNetwork scope o) w Q.
Proof.
  intros Hi Hset HQ HQ'. unfold reconcileNetwork, cspec. apply after_m_bind, after_gets. cbn [fst snd].
  pose proof Hi as (_ & _ & _ & (nc & Hnc & _) & _). rewrite Hnc.
  apply after_m_try, (after_ensure_network nc); [done..|]. intros o1 w1 H1 Hlb1 Hid1 Hnet1. cbn [fst snd].
  assert (Hr := f_equal CSpec_Region (later_spec _ _ _ _ (proj1 (proj2 H1)))).
  rewrite <- Hr. apply after_m_try, after_verify_network; [apply H1 | done | |].
  - intros Ha. cbn [fst snd]. apply after_m_try, after_ensure_subnet; [apply H1 | | done|].
    { by rewrite (later_spec _ _ _ _ (proj1 (proj2 H1))). }
    intros o2 w2 H2 Hlb2 Hsn2 Hid2 Hnet2. cbn [fst snd]. apply after_m_bind, after_modify, after_m_ret.
    cbn [fst snd]. apply HQ; [|congruence|by rewrite <- Hid2 in Hid1|done|].
    + eapply advance_trans; [exact H1 | | by intros [? _] |].
      { eapply (advance_trans (CStatus_SubnetID (OVHCluster_Status o1) <> ""%string));
          [exact H2 | | done | exact (fun x => x)].
        eapply advance_bare; [apply H2 | done]. }
      intros [_ Hsn]. by kept 1%nat H1.
    + destruct Ha as (n & Hf & Ha). exists n. cbn. unfold find_network. rewrite Hnet2, Hid2.
      split; [exact Hf|]. by rewrite (later_spec _ _ _ _ (proj1 (proj2 H2))).
  - intros Hna o2 Hb. cbn [fst snd]. destruct Hnet1 as [Hnet1|Hnet1].
    + exfalso. apply Hna. destruct H1 as ((_ & (Hf & _) & _) & _). destruct (Hf Hid1) as [n Hn].
      exists n. split; [done|]. rewrite Hr. unfold find_network in Hn. rewrite Hnet1 in Hn.
      apply first_match_sound in Hn as [_ Hin]. unfold settled_networks in Hset.
      rewrite Forall_forall in Hset. by apply Hset.
    + apply HQ'; [done | |].
      * eapply advance_trans; [exact H1 | | by intros []..].
        apply (advance_bare True); [apply H1 | done].
      * change (CStatus_NetworkID (OVHCluster_Status (bare o2)) <> ""%string). by rewrite Hb.
Qed.

(** ** Failure domains and security groups *)

Lemma after_reconcileFailureDomains o w (Q : unit * OVHCluster -> platform -> Prop) :
  (forall o', bare o' = bare o -> Q (tt, o') w) -> after (reconcileFailureDomains scope o) w Q.
Proof.
  intros HQ. unfold reconcileFailureDomains, cstatus. apply after_m_bind, after_gets. cbn [fst snd].
  case_decide; [by apply HQ|]. apply after_m_bind, after_lift, after_idle.
  { repeat only_rule; [apply (idle_sleep ns name)|].
    intros w0 r w' Hs. exact (net_region (c := client) _ _ _ Hs). }
  intros [info|e]; cbn [fst snd]; [|by apply HQ].
  unfold cspec. apply after_m_bind, after_gets, after_when. cbn [fst snd].
  case_bool_decide; by apply HQ.
Qed.

Lemma sgs_by_name_sound sgs n id :
  sgs_by_name sgs !! n = Some id -> exists sg, sg ∈ sgs /\ SecurityGroup_ID sg = id.
Proof.
  unfold sgs_by_name. induction sgs as [|sg l IH] using rev_ind; [done|].
  rewrite foldl_app. cbn. rewrite lookup_insert_Some. intros [[_ <-]|[_ (sg' & Hin & ?)%IH]].
  - exists sg. split; [|done]. apply elem_of_app. right. left.
  - exists sg'. split; [|done]. apply elem_of_app. by left.
Qed.

Lemma after_rules id rules (o : OVHCluster) w :
  after (for_each (fun rule =>
      _ ← lift (CreateSecurityGroupRule client id (sg_rule_opts rule)); mret tt) rules o) w
    (fun r w' => r.2 = o /\ w' = w).
Proof.
  induction rules as [|rule rules IH]; [done|]. cbn [for_each].
  apply after_m_bind, after_m_bind, after_lift, after_idle; [|by intros a; exact IH].
  repeat only_rule; [apply (idle_sleep ns name)|]. intros w0 r w' Hs.
  exact (net_make_rule (c := client) _ _ _ _ _ Hs).
Qed.

Lemma after_reconcile_group sgs g o w (Q : res unit * OVHCluster -> platform -> Prop) :
  inv o w -> (forall sg, sg ∈ sgs -> SecurityGroup_ID sg <> ""%string) ->
  (forall o' w', advance (group_recorded o g) o w o' w' -> group_recorded o' g ->
     edge (p_cloud w') = edge (p_cloud w) -> networks (p_cloud w') = networks (p_cloud w) ->
     Q (Ok tt, o') w') ->
  after (reconcile_group scope (sgs_by_name sgs) g o) w Q.
Proof.
  intros Hi Hsgs HQ. unfold reconcile_group, cstatus. apply after_m_bind, after_gets. cbn [fst snd].
  case_bool_decide as Hr; [by apply HQ; [apply advance_refl|..]|].
  assert (Hno : ~ group_recorded o g) by (intros Hg; exact (Hg Hr)).
  destruct (sgs_by_name sgs !! _) as [id|] eqn:E.
  - apply after_m_bind, after_modify, after_m_ret. cbn [fst snd].
    apply sgs_by_name_sound in E as (sg & Hin & <-). apply HQ; [| |done..].
    + eapply advance_new; [by apply (advance_refl True) | | done]. by apply advance_group.
    + unfold group_recorded. cbn. rewrite lookup_insert_eq. by apply Hsgs.
  - apply after_m_try, after_m_wrap, after_lift, (after_CreateSecurityGroup client).
    intros sg Hsg. cbn [fst snd map_err]. apply after_m_bind, after_modify. cbn [fst snd].
    set (o1 := set_c_SecurityGroupIDs _ o).
    assert (H1 : advance False o w o (on_cloud (add_group sg) w)).
    { apply advance_grow; [done | by repeat split; try apply prefix_app_r|].
      by apply ok_add_group, Hi. }
    assert (H2 : advance False o (on_cloud (add_group sg) w) o1 (on_cloud (add_group sg) w))
      by (apply advance_group; [apply H1 | done]).
    apply after_m_bind. eapply after_mono.
    + apply (after_rules (SecurityGroup_ID sg)).
    + intros [[] o'] w' [-> ->]. cbn [fst snd]. apply after_m_ret, HQ; [| |done..].
      * eapply advance_new; [exact H1 | exact H2 | done].
      * unfold group_recorded. cbn. by rewrite lookup_insert_eq.
Qed.

Lemma after_groups sgs gs : (forall sg, sg ∈ sgs -> SecurityGroup_ID sg <> ""%string) ->
  forall o w (Q : res unit * OVHCluster -> platform -> Prop), inv o w ->
  (forall o' w', advance (Forall (group_recorded o) gs) o w o' w' -> Forall (group_recorded o') gs ->
     edge (p_cloud w') = edge (p_cloud w) -> networks (p_cloud w') = networks (p_cloud w) ->
     Q (Ok tt, o') w') ->
  after (for_try (reconcile_group scope (sgs_by_name sgs)) gs o) w Q.
Proof.
  intros Hsgs. induction gs as [|g gs IH]; intros o w Q Hi HQ; cbn [for_try].
  { apply after_m_ret, HQ; by try apply advance_refl. }
  apply after_m_try, after_reconcile_group; [done..|]. intros o1 w1 H1 Hg Hlb1 Hnet1. cbn [fst snd].
  apply IH; [apply H1|]. intros o2 w2 H2 Hgs Hlb2 Hnet2. apply HQ; [| |congruence..].
  - eapply advance_trans; [exact H1 | exact H2 | by inversion 1|]. inversion 1; subst.
    eapply Forall_impl; [done|]. intros g'. eapply group_recorded_later, H1.
  - constructor; [|done]. eapply group_recorded_later; [apply H2 | done].
Qed.

Lemma after_reconcileSecurityGroups o w (Q : res unit * OVHCluster -> platform -> Prop) :
  let gs := CSpec_SecurityGroups (OVHCluster_Spec o) in
  inv o w ->
  (forall o' w', advance (Forall (group_recorded o) gs) o w o' w' -> Forall (group_recorded o') gs ->
     edge (p_cloud w') = edge (p_cloud w) -> networks (p_cloud w') = networks (p_cloud w) ->
     Q (Ok tt, o') w') ->
  after (reconcileSecurityGroups scope o) w Q.
Proof.
  intros gs Hi HQ. unfold reconcileSecurityGroups, cspec. apply after_m_bind, after_gets. cbn [fst snd].
  fold gs. case_decide as Hnil.
  { destruct gs; [|done]. apply after_m_ret, HQ; by try apply advance_refl. }
  apply after_m_try, after_m_wrap, after_lift, (after_ListSecurityGroups client). cbn [map_err fst snd].
  apply after_groups; [|done..]. destruct Hi as ((_&_&_&_&_&Hok&_) & _). by apply Forall_forall.
Qed.

(** ** Listeners and pools *)

Section port.
Context (pname : string) (port : Z) (lp pp : ptr OVHCluster) `{!Port pname lp pp}.

Lemma after_ensure_listener o w (Q : res unit * OVHCluster -> platform -> Prop) :
  inv o w -> lb_id o <> ""%string ->
  (forall o' w', advance (load lp o <> ""%string) o w o' w' -> load lp o' <> ""%string ->
     lb_id o' = lb_id o -> edge (p_cloud w') = edge (p_cloud w) -> Q (Ok tt, o') w') ->
  after (ensure_listener scope pname port (lb_id o) lp o) w Q.
Proof.
  intros Hi Hlb HQ. unfold ensure_listener. apply after_m_bind, after_gets. cbn [fst snd].
  pose proof port_ptrs as Hpp. case_decide as Hid; [|by apply HQ; [apply advance_refl|..]].
  apply after_m_try, after_m_wrap, after_lift, (after_FindListenerByName client). cbn [fst snd map_err].
  destruct (first_match _ _) as [l|] eqn:E.
  - apply first_match_sound in E as [[Hname Hin]%bool_decide_eq_true Hl].
    assert (Listener_ID l <> ""%string) as Hne.
    { destruct Hi as ((_&_&_&Hok&_) & _). rewrite Forall_forall in Hok. by apply Hok. }
    apply after_m_bind, after_modify, after_m_ret. cbn [fst snd].
    apply HQ; [|by rewrite load_listener|apply port_lb|done].
    eapply advance_new; [by apply (advance_refl True) | | by auto].
    apply advance_listener; [done..|]. by exists l.
  - apply after_m_try, after_m_wrap, after_lift, (after_CreateListener client).
    intros l Hne Hname Hin. cbn in Hname, Hin |- *.
    assert (H1 : advance False o w o (on_cloud (add_listener l) w)).
    { apply advance_grow; [done | by repeat split; try apply prefix_app_r|].
      by apply ok_add_listener, Hi. }
    apply HQ; [|by rewrite load_listener|apply port_lb|done].
    eapply advance_new; [exact H1 | | by auto].
    apply advance_listener; [apply H1 | done..|]. exists l. split; [|done].
    apply elem_of_app. right. left.
Qed.

Lemma after_ensure_pool o w (Q : res unit * OVHCluster -> platform -> Prop) :
  inv o w -> lb_id o <> ""%string ->
  (forall o' w', advance (load pp o <> ""%string) o w o' w' -> load pp o' <> ""%string ->
     lb_id o' = lb_id o -> edge (p_cloud w') = edge (p_cloud w) -> Q (Ok tt, o') w') ->
  after (ensure_pool scope (pname ++ "-pool") (lb_id o) lp pp o) w Q.
Proof.
  intros Hi Hlb HQ. unfold ensure_pool. apply after_m_bind, after_gets. cbn [fst snd].
  pose proof port_ptrs as Hpp. case_decide as Hid; [|by apply HQ; [apply advance_refl|..]].
  apply after_m_try, after_m_wrap, after_lift, (after_FindPoolByName client). cbn [fst snd map_err].
  destruct (first_match _ _) as [l|] eqn:E.
  - apply first_match_sound in E as [[Hname Hin]%bool_decide_eq_true Hl].
    assert (Pool_ID l <> ""%string) as Hne.
    { destruct Hi as ((_&_&_&_&Hok&_) & _). rewrite Forall_forall in Hok. by apply Hok. }
    apply after_m_bind, after_modify, after_m_ret. cbn [fst snd].
    apply HQ; [|by rewrite load_pool|apply port_lb|done].
    eapply advance_new; [by apply (advance_refl True) | | by auto].
    apply advance_pool; [done..|]. by exists l.
  - apply after_m_bind, after_gets. cbn [fst snd].
    apply after_m_try, after_m_wrap, after_lift, (after_CreatePool client).
    intros l Hne Hname Hin. cbn in Hname, Hin |- *.
    assert (H1 : advance False o w o (on_cloud (add_pool l) w)).
    { apply advance_grow; [done | by repeat split; try apply prefix_app_r|].
      by apply ok_add_pool, Hi. }
    apply HQ; [|by rewrite load_pool|apply port_lb|done].
    eapply advance_new; [exact H1 | | by auto].
    apply advance_pool; [apply H1 | done..|]. exists l. split; [|done].
    apply elem_of_app. right. left.
Qed.

Lemma after_ensurePoolHealthMonitor poolID poolName o w
    (Q : res unit * OVHCluster -> platform -> Prop) :
  inv o w ->
  (forall w', advance (has_monitor (poolName ++ "-hm") (p_cloud w)) o w o w' ->
     has_monitor (poolName ++ "-hm") (p_cloud w') ->
     edge (p_cloud w') = edge (p_cloud w) -> Q (Ok tt, o) w') ->
  after (ensurePoolHealthMonitor scope poolID poolName o) w Q.
Proof.
  intros Hi HQ. unfold ensurePoolHealthMonitor.
  apply after_m_try, after_m_wrap, after_lift, (after_FindHealthMonitorByName client). cbn [fst snd map_err].
  destruct (first_match _ _) as [h|] eqn:E.
  - apply first_match_sound in E as [Hname%bool_decide_eq_true Hin].
    apply HQ; [by apply advance_refl | by exists h | done].
  - apply after_m_try, after_m_wrap, after_lift, (after_CreateHealthMonitor client).
    intros h Hname. cbn in Hname |- *.
    assert (H1 : advance False o w o (on_cloud (add_monitor h) w)).
    { apply advance_grow; [done | by repeat split; try apply prefix_app_r|]. apply Hi. }
    apply HQ; [| |done].
    + eapply advance_new; [exact H1 | by apply (advance_refl True), H1 |].
      intros (h' & Hin & Hn). by apply (first_match_no _ _ E h').
    + exists h. split; [|done]. apply elem_of_app. right. left.
Qed.

Lemma after_reconcileLBPort o w (Q : res unit * OVHCluster -> platform -> Prop) :
  inv o w -> lb_id o <> ""%string ->
  (forall o' w', advance (port_up pname lp pp o (p_cloud w)) o w o' w' ->
     port_up pname lp pp o' (p_cloud w') ->
     lb_id o' = lb_id o -> edge (p_cloud w') = edge (p_cloud w) -> Q (Ok tt, o') w') ->
  after (reconcileLBPort scope pname port lp pp o) w Q.
Proof.
  intros Hi Hlb HQ. unfold reconcileLBPort, cstatus. apply after_m_bind, after_gets. cbn [fst snd].
  apply after_m_try, after_ensure_listener; [done..|]. intros o1 w1 H1 Hl1 Hid1 Hlbs1. cbn [fst snd].
  assert (Hlb1 : lb_id o1 <> ""%string) by congruence.
  pose proof (after_ensure_pool o1 w1) as Hpool. rewrite Hid1 in Hpool.
  apply after_m_try, Hpool; [apply H1 | done |]. clear Hpool.
  intros o2 w2 H2 Hp2 Hid2 Hlbs2. cbn [fst snd].
  apply after_m_bind, after_gets, after_m_bind, after_ensurePoolHealthMonitor; [apply H2|].
  intros w3 H3 Hm Hlbs3. cbn [fst snd]. apply after_m_ret, HQ; [| |congruence..].
  - eapply advance_trans; [exact H1 | | by intros [? _] |].
    { eapply (advance_trans (load pp o1 <> ""%string /\ has_monitor ((pname ++ "-pool") ++ "-hm") (p_cloud w1)));
        [exact H2 | exact H3 | by intros [? _] |].
      intros [Hp1 Hm1]. destruct H2 as (_ & _ & H2). destruct (H2 Hp1) as [-> _]. exact Hm1. }
    intros (Hl & Hp & Hm'). destruct H1 as (_ & Hlat & Hq). destruct (Hq Hl) as [-> _].
    split; [|done]. destruct (port_kept _ _ _ _ Hlat) as [_ Hk]. by rewrite Hk.
  - split_and!; [|done|done]. destruct (port_kept _ _ _ _ (proj1 (proj2 H2))) as [Hk _]. by rewrite Hk.
Qed.
End port.

(** ** The floating IP *)

(** What exposing may change: the gateway that is recorded, and the interfaces of
    the project's gateways. *)
Definition gated (o o' : OVHCluster) : Prop :=
  exists id b, (CStatus_GatewayExposed (OVHCluster_Status o) = true -> b = true)
    /\ o' = set_c_GatewayExposed b (set_c_GatewayID id o).

#[local] Instance gated_preorder : PreOrder gated.
Proof.
  split.
  - intros o. exists (CStatus_GatewayID (OVHCluster_Status o)), (CStatus_GatewayExposed (OVHCluster_Status o)).
    split; [done|]. by destruct o as [? ? []].
  - intros o1 o2 o3 (id & b & Hb & ->) (id' & b' & Hb' & ->). exists id', b'. cbn in Hb'. split; [auto|done].
Qed.

Definition regates (w w' : platform) : Prop :=
  exists gs, gateway_key <$> gs = gateway_key <$> gateways (p_cloud w) /\ w' = on_cloud (set_gateways gs) w.

#[local] Instance regates_preorder : PreOrder regates.
Proof.
  split.
  - intros w. exists (gateways (p_cloud w)). split; [done|]. by destruct w as [[] ? ? ? ? ?].
  - intros w1 w2 w3 (gs & E & ->) (gs' & E' & ->). exists gs'. split; [by rewrite E', <- E | done].
Qed.

Lemma idle_regates e : idle e -> forall w r w', step w e r w' -> regates w w'.
Proof. by intros H w r w' ->%H. Qed.

Lemma advance_gated o w o' w' : inv o w -> gated o o' -> regates w w' -> advance False o w o' w'.
Proof.
  intros Hi (id & b & Hb & ->) (gs & E & ->).
  eapply (advance_new False False False).
  - apply advance_grow; [exact Hi | by apply grows_gateways | apply Hi].
  - split; [|split; [|by intros []]].
    + destruct Hi as (Hok & Ht & Hadm). split; [exact Hok|]. split; [exact Ht | exact Hadm].
    + unfold later. cbn. by split_and!.
  - by intros [].
Qed.

(** Whether the gateway is exposed or not, the pass goes on. *)
Lemma after_try_expose o w (Q : unit * OVHCluster -> platform -> Prop) :
  inv o w ->
  (forall o' w', advance (CStatus_GatewayExposed (OVHCluster_Status o) = true) o w o' w' ->
     lb_id o' = lb_id o -> fip_id o' = fip_id o -> edge (p_cloud w') = edge (p_cloud w) -> Q (tt, o') w') ->
  after (try_expose scope o) w Q.
Proof.
  intros Hi HQ. destruct (CStatus_GatewayExposed (OVHCluster_Status o)) eqn:Hex.
  - unfold try_expose, ensureGatewayExposed, cstatus. apply after_m_bind, after_m_bind, after_gets.
    cbn [fst snd]. rewrite Hex. apply HQ; [by apply advance_refl | done..].
  - apply (after_step regates gated).
    + unfold try_expose, ensureGatewayExposed, discover_gateway.
      repeat keeps_rule.
      * exists (Gateway_ID g), (CStatus_GatewayExposed (OVHCluster_Status s)). split; [done|]. by destruct s as [? ? []].
      * exists (CStatus_GatewayID (OVHCluster_Status s)), true. split; [done|]. by destruct s as [? ? []].
    + repeat only_rule; try apply idle_regates, (idle_sleep ns name).
      * apply idle_regates. intros w1 r w' [-> _]%(net_gateways (c := client)). done.
      * intros w1 r w'. apply (net_expose (c := client)).
    + intros [] o' w' Hg Hr. apply HQ.
      * eapply advance_new; [by eapply advance_gated | by apply (advance_refl True), (advance_gated o w o' w') | done].
      * by destruct Hg as (id & b & _ & ->).
      * by destruct Hg as (id & b & _ & ->).
      * by destruct Hr as (gs & _ & ->).
Qed.

Section address.
Context (lb : LoadBalancer).

(** One of the answers to the search for an address. *)
Definition addressed_by (o : OVHCluster) (w : platform) (r : res string * OVHCluster) (w' : platform)
    : Prop :=
  exists ip o', r = (Ok ip, o')
    /\ advance (attached o (p_cloud w) /\ CStatus_GatewayExposed (OVHCluster_Status o) = true) o w o' w'
    /\ lb_id o' = lb_id o /\ lbs (p_cloud w') = lbs (p_cloud w) /\ has_address (lb_id o) ip (p_cloud w')
    /\ if decide (ip = ""%string)
       then no_fip (lb_id o) (p_cloud w) /\ fip_id o' <> ""%string
       else attached o' (p_cloud w').

(** A floating IP of the load balancer is listed. *)
Lemma addressed_listed f o w o' w' :
  inv o w -> lb_id o <> ""%string -> f ∈ fips (p_cloud w) -> fip_of_lb (lb_id o) f = true ->
  FloatingIP_IP f <> ""%string ->
  advance (CStatus_GatewayExposed (OVHCluster_Status o) = true)
    (set_c_FloatingIPID (FloatingIP_ID f) o) w o' w' ->
  lb_id o' = lb_id o -> edge (p_cloud w') = edge (p_cloud w) ->
  addressed_by o w (Ok (FloatingIP_IP f), o') w'.
Proof.
  intros Hi Hlb Hf Hof Hip H2 Hid He. exists (FloatingIP_IP f), o'.
  destruct (advance_address f o w o' w') as [A At]; try done. rewrite decide_False by done.
  split_and!; try done; [by injection He|]. eapply has_address_edge; [exact He|]. by exists f.
Qed.

Lemma after_allocate_fip o w :
  inv o w -> lb_id o <> ""%string -> find_lb (lb_id o) (p_cloud w) = Some lb -> settled_lbs (p_cloud w) ->
  after (allocate_fip scope lb o) w (addressed_by o w).
Proof.
  intros Hi Hne Hf [Hlbs Hips]. rewrite Forall_forall in Hlbs. rewrite Forall_forall in Hips.
  pose proof Hf as [Hid%bool_decide_eq_true Hin]%first_match_sound.
  destruct (Hlbs lb Hin) as [_ Hvip].
  unfold allocate_fip, discover_fip. apply after_m_bind, after_m_bind, after_lift, (after_ListFloatingIPs client).
  cbn [fst snd]. rewrite Hid. destruct (first_match _ _) as [f|] eqn:E.
  - apply first_match_sound in E as [Hof Hff]. assert (Hip := Hips f Hff).
    apply after_m_bind, after_modify. cbn [fst snd]. rewrite decide_True by done.
    apply after_m_bind, after_try_expose; [by apply advance_fip|].
    intros o2 w2 H2 Hid2 Hfip2 He2. cbn [fst snd]. by apply (addressed_listed f).
  - apply first_match_None in E. apply after_m_ret. cbn [fst snd]. rewrite decide_False by done.
    apply after_m_try, after_m_wrap, after_lift, (after_CreateLoadBalancerFloatingIP client); [done|].
    intros x f gs Hfid Hnew Hof. cbn [fst snd map_err].
    assert (H1 : advance False o w o (on_cloud (add_address f gs) w)).
    { apply advance_grow; [done | by apply grows_address | by eapply ok_address, Hi]. }
    apply after_m_bind, after_try_expose; [apply H1|]. intros o2 w2 H2 Hid2 Hfip2 He2. cbn [fst snd].
    injection He2 as Hlb2 Hfips2. cbn in Hlb2, Hfips2.
    apply after_m_bind. unfold find_allocated_fip.
    apply after_m_bind, after_lift. rewrite Hid.
    eapply (after_GetLoadBalancer client). { unfold find_lb. rewrite Hlb2. exact Hf. }
    assert (Hnone : LoadBalancer_FloatingIP lb = None).
    { eapply no_fip_untold; [apply Hi | exact Hin | by rewrite Hid]. }
    destruct lb as [? ? ? ? ? ? ? ? ? ? ? fr ?]. cbn in Hnone, Hid. subst fr. cbn [fst snd].
    apply after_m_bind, after_m_ret. cbn [fst snd]. apply after_m_bind, after_lift, (after_ListFloatingIPs client).
    cbn [fst snd]. rewrite Hfips2.
    replace (first_match _ _) with (Some f).
    2:{ symmetry. apply first_match_Some. exists (fips (p_cloud w)), []. done. }
    apply after_m_bind, after_modify, after_m_ret. cbn [fst snd].
    assert (Hff : f ∈ fips (p_cloud w2)). { rewrite Hfips2. apply elem_of_app. right. left. }
    assert (Hof2 : fip_of_lb (lb_id o2) f = true) by by rewrite Hid2.
    assert (Hne2 : lb_id o2 <> ""%string) by by rewrite Hid2.
    assert (H3 := advance_fip f o2 w2 (proj1 H2) Hne2 Hff Hof2).
    exists (FloatingIP_IP f). eexists. split; [done|]. split_and!.
    + eapply advance_new; [exact H1 | eapply (advance_new False); [exact H2 | exact H3 | by intros []] |].
      intros [(_ & g & Hg & Hog & _) _]. rewrite Forall_forall in E. by rewrite E in Hog.
    + exact Hid2.
    + exact Hlb2.
    + by exists f.
    + case_decide as Hip; [by split|]. split; [exact Hne2|]. by exists f.
Qed.

Lemma after_reconcileFloatingIP o w :
  inv o w -> lb_id o <> ""%string -> find_lb (lb_id o) (p_cloud w) = Some lb -> settled_lbs (p_cloud w) ->
  after (reconcileFloatingIP scope lb o) w (addressed_by o w).
Proof.
  intros Hi Hne Hf Hset. pose proof Hset as [_ Hips]. rewrite Forall_forall in Hips.
  pose proof Hf as [Hid%bool_decide_eq_true Hin]%first_match_sound.
  pose proof Hi as ((_&_&_&_&_&_& Hnd & _ & _ & Href) & (_ & _ & _ & _ & Htr) & _).
  unfold reconcileFloatingIP. apply after_m_bind.
  destruct (LoadBalancer_FloatingIP lb) as [r|] eqn:Er.
  { destruct (Href lb r Hin Er) as (f & Hff & Hof & Efid & Efip). rewrite Hid in Hof.
    assert (Hip := Hips f Hff). rewrite decide_True by by rewrite <- Efip.
    apply after_m_bind, after_modify. cbn [fst snd]. rewrite <- Efid, <- Efip.
    apply after_m_bind, after_try_expose; [by apply advance_fip|].
    intros o2 w2 H2 Hid2 Hfip2 He2. cbn [fst snd]. by apply (addressed_listed f). }
  apply after_m_ret. unfold cstatus. cbn [fst snd]. apply after_m_bind, after_gets. cbn [fst snd].
  case_decide as Hfip; [|by apply after_allocate_fip].
  destruct (Htr Hfip) as (_ & _ & (g & Hg & Hog) & Hown).
  apply after_m_bind, after_try_expose; [done|]. intros o2 w2 H2 Hid2 Hfip2 He2. cbn [fst snd].
  injection He2 as Hlb2 Hfips2.
  apply after_m_bind, after_lift, (after_GetFloatingIP client).
  - intros f [Efid%bool_decide_eq_true Hff]%first_match_sound. cbn [fst snd]. rewrite Hfips2 in Hff.
    unfold allocated_ip. rewrite decide_True by by apply Hips.
    apply (addressed_listed f); try done; [by apply Hown | by apply Hips | | by unfold edge; rewrite Hlb2, Hfips2].
    replace (set_c_FloatingIPID (FloatingIP_ID f) o) with o; [exact H2|].
    rewrite Efid. by destruct o as [? ? []].
  - intros e Hno He. cbn [fst snd allocated_ip err_of]. rewrite He.
    apply after_m_bind, after_modify. cbn [fst snd].
    assert (Hna : ~ attached o2 (p_cloud w2)).
    { intros (_ & f & Hff & _ & Efid & _). apply (first_match_no _ _ Hno f Hff).
      exact (eq_trans Efid Hfip2). }
    assert (H3 := advance_forget o2 w2 (proj1 H2) Hna). set (o3 := set_c_FloatingIPID "" o2) in *.
    assert (Hid3 : lb_id o3 = lb_id o) by exact Hid2.
    eapply after_mono; [apply after_allocate_fip; [apply H3 | congruence | |]|].
    + rewrite Hid3. unfold find_lb. by rewrite Hlb2.
    + unfold settled_lbs. rewrite Hlb2, Hfips2. exact Hset.
    + intros r' w4 (ip & o4 & -> & H4 & Hid4 & Hlb4 & Had & Hcase). exists ip, o4.
      rewrite Hid3 in *. split; [done|]. split_and!; try congruence.
      * eapply advance_trans; [exact H2 | | by intros [_ ?] |].
        { eapply (advance_trans (attached o2 (p_cloud w2))); [exact H3 | exact H4 | done | by intros ?%Hna]. }
        intros [Hat _]. apply H2, Hat.
      * unfold no_fip in Hcase. rewrite Hfips2 in Hcase. exact Hcase.
Qed.
End address.

(** ** The load balancer *)

Lemma after_publish_endpoint ip o w (Q : outcome * OVHCluster -> platform -> Prop) :
  ip <> ""%string ->
  (forall o', bare o' = bare (publish ip o) -> Q (done_, o') w) ->
  after (publish_endpoint ip o) w Q.
Proof.
  intros Hvip HQ. unfold publish_endpoint, cspec, publish in *.
  apply after_m_bind, after_gets, after_m_bind, after_when. cbn [fst snd].
  case_bool_decide as Hb; cbn [fst snd].
  - apply after_modify, after_m_bind, after_modify, after_m_ret, HQ.
    by rewrite decide_True by apply Hb.
  - apply after_m_bind, after_modify, after_m_ret, HQ. rewrite decide_False; [done|].
    intros Hh. by apply Hb.
Qed.

Lemma after_handleExistingLB lb o w (Q : outcome * OVHCluster -> platform -> Prop) :
  inv o w -> lb_id o <> ""%string -> find_lb (lb_id o) (p_cloud w) = Some lb -> settled_lbs (p_cloud w) ->
  (forall ip o1 o' w', advance (lb_up o (p_cloud w) /\ exposed o) o w o1 w' -> lb_up o1 (p_cloud w') ->
     lb_id o1 = lb_id o -> address o1 (p_cloud w') ip -> bare o' = bare (publish ip o1) ->
     Q (done_, o') w') ->
  (forall o' w', floating (OVHCluster_Spec o) -> no_fip (lb_id o) (p_cloud w) -> advance False o w o' w' ->
     lb_id o' = lb_id o -> fip_id o' <> ""%string -> Q (requeue requeueTimeShort, o') w') ->
  after (handleExistingLB scope lb o) w Q.
Proof.
  intros Hi Hlb Hf Hset HQ HQ'. pose proof Hset as [Hlbs _]. rewrite Forall_forall in Hlbs.
  pose proof Hf as [_ Hin]%first_match_sound. destruct (Hlbs lb Hin) as [Hst Hvip].
  unfold handleExistingLB. rewrite decide_False by auto.
  apply after_m_bind, after_reconcileLBPort; [apply _ | done..|].
  intros o1 w1 H1 Hup1 Hid1 He1. cbn [fst snd].
  apply after_m_bind, after_reconcileLBPort; [apply _ | apply H1 | congruence |].
  intros o2 w2 H2 Hup2 Hid2 He2. cbn [fst snd].
  assert (A2 : advance (ports_up o (p_cloud w)) o w o2 w2).
  { eapply advance_trans; [exact H1 | exact H2 | by intros [? _] |].
    intros [_ Hup]. eapply port_up_later; [apply _ | apply H1 | done]. }
  assert (Hup : ports_up o2 (p_cloud w2)).
  { split; [|done]. eapply port_up_later; [apply _ | apply H2 | done]. }
  assert (He : edge (p_cloud w2) = edge (p_cloud w)) by congruence.
  assert (Hid : lb_id o2 = lb_id o) by congruence. clear o1 w1 H1 Hup1 Hid1 He1 H2 Hup2 Hid2 He2.
  assert (Hf2 : find_lb (lb_id o2) (p_cloud w2) = Some lb).
  { injection He as Hlb2 _. unfold find_lb. by rewrite Hid, Hlb2. }
  unfold cspec. apply after_m_bind, after_gets. cbn [fst snd].
  assert (Hspec := later_spec _ _ _ _ (proj1 (proj2 A2))). case_decide as Hfl.
  - apply after_m_bind. eapply after_mono; [apply after_reconcileFloatingIP|];
      [apply A2 | by rewrite Hid | exact Hf2 | by apply (settled_lbs_edge (p_cloud w)) |].
    intros r w3 (ip & o3 & -> & H3 & Hid3 & Hlb3 & Had & Hcase). cbn [fst snd].
    assert (A3 : advance (lb_up o (p_cloud w) /\ exposed o) o w o3 w3).
    { eapply advance_trans; [exact A2 | exact H3 | by intros [[? _] _] |]. intros [[_ Ha] Hex].
      change (floating (OVHCluster_Spec o2)) in Hfl. rewrite Hspec in Hfl. split.
      - destruct A2 as (_ & (_&_&_&_&_& H & _) & _). by apply H, Ha.
      - destruct A2 as (_ & (_&_&_&_&_&_& H & _) & _). by apply H, Hex. }
    case_decide as Hip.
    + apply after_m_ret, HQ'; [by rewrite <- Hspec | | by eapply advance_weak | congruence | apply Hcase].
      destruct Hcase as [Hno _]. injection He as _ Hfips. unfold no_fip in *. by rewrite Hfips, Hid in Hno.
    + apply after_publish_endpoint; [done|]. intros o' Ho'. apply (HQ ip o3); [done| |congruence| |done].
      * split; [|done]. eapply ports_up_later; [apply H3 | done].
      * split; [by rewrite Hid3, Hid|]. split; [done|].
        rewrite decide_True by by rewrite (later_spec _ _ _ _ (proj1 (proj2 H3))). by rewrite Hid3.
  - apply after_publish_endpoint; [done|]. intros o' Ho'. apply (HQ (LoadBalancer_VIPAddress lb) o2); [| |done| |done].
    + eapply advance_weak; [exact A2|]. by intros [[? _] _].
    + by split.
    + split; [congruence|]. split; [done|]. rewrite decide_False by (intros Hne; by apply Hne). by exists lb.
Qed.

Lemma after_create_lb o w (Q : outcome * OVHCluster -> platform -> Prop) :
  inv o w -> lb_id o = ""%string -> (forall v, its_lb o v) ->
  CStatus_NetworkID (OVHCluster_Status o) <> ""%string ->
  CStatus_SubnetID (OVHCluster_Status o) <> ""%string -> active_net o (p_cloud w) ->
  (forall o' w', advance False o w o' w' -> lb_id o' <> ""%string ->
     Q (requeue requeueTimeShort, o') w') ->
  after (create_lb scope o) w Q.
Proof.
  intros Hi Hlb Hits Hnet Hsn (n & Hn & Hact) HQ. unfold create_lb, cspec, cstatus.
  apply after_m_bind, after_gets. cbn [fst snd].
  pose proof Hi as (Hok & _ & _ & _ & [f Hf] & _).
  apply after_m_bind, after_lift. eapply (after_GetLBFlavorByName client); [exact Hf|]. cbn [fst snd].
  apply after_m_bind, after_gets. cbn [fst snd].
  rewrite decide_False by (by case_decide; intros [?|?]).
  apply after_m_bind, after_lift. eapply (after_GetPrivateNetwork client); [exact Hn|]. cbn [fst snd].
  assert (OpenStackIDForRegion n (CSpec_Region (OVHCluster_Spec o)) <> ""%string) as Hos.
  { destruct Hok as [Hok _]. rewrite Forall_forall in Hok. apply first_match_sound in Hn as [_ Hin].
    by apply Hok. }
  rewrite decide_False by done. apply after_m_bind, after_lift, (after_CreateLoadBalancer client).
  - intros lb [_ Hin]%first_match_sound. cbn [fst snd]. apply after_m_bind, after_modify, after_m_ret, HQ.
    + apply advance_lb; [done..| |done]. apply find_by_id, list_elem_of_fmap. eauto.
    + destruct Hok as (_ & _ & Hok & _). rewrite Forall_forall in Hok. by apply Hok.
  - intros lb _ Hid _ Hno. cbn [fst snd]. apply after_m_bind, after_modify, after_m_ret.
    assert (H1 : advance False o w o (on_cloud (add_lb lb) w)).
    { apply advance_grow; [done | by repeat split; try apply prefix_app_r|].
      by apply ok_add_lb. }
    apply HQ; [|exact Hid]. eapply advance_new; [exact H1 | | by intros []].
    apply advance_lb; [apply H1 | done| |done]. apply find_added.
Qed.

Lemma after_adopt_existing o w (Q : unit * OVHCluster -> platform -> Prop) :
  inv o w ->
  (forall o', advance (lb_id o <> ""%string /\ lb_up o (p_cloud w)) o w o' w -> own_lb o' -> Q (tt, o') w) ->
  after (adopt_existing o) w Q.
Proof.
  intros Hi HQ. unfold adopt_existing, cspec, cstatus.
  pose proof Hi as (_ & _ & _ & _ & _ & Hex & _).
  apply after_m_bind, after_gets, after_m_bind, after_gets, after_m_bind, after_when. cbn [fst snd].
  set (q := lb_id o <> ""%string /\ lb_up o (p_cloud w)) in *.
  assert (Hrest : forall b o1 fip, advance q o w o1 w -> (q -> lb_up o1 (p_cloud w)) -> own_lb o1 ->
            (b = true -> fip <> ""%string) ->
            fip = LBConfig_ExistingFloatingIPID (CSpec_LoadBalancerConfig (OVHCluster_Spec o1)) ->
            after (when b (modify (set_c_FloatingIPID fip)) o1) w Q).
  { intros b o1 fip H1 Hq Hown Hne ->. apply after_when. destruct b; [|by apply HQ].
    specialize (Hne eq_refl). apply after_modify, HQ; [|exact Hown].
    eapply advance_trans; [exact H1 | by apply advance_adopted; [apply H1|..] | done | done]. }
  case_bool_decide as Hb; cbn [fst snd]; [apply after_modify|]; apply Hrest; try done;
    try by intros [? _]%bool_decide_eq_true.
  - destruct Hb as [Hne Hid]. eapply (advance_weak False); [|by intros [? _]].
    apply advance_lb; [done.. | by apply Hex | by right].
  - intros [? _]. by destruct Hb.
  - intros Hid. by destruct Hb.
  - by intros [_ ?].
  - intros Hid. apply dec_stable. intros Hne. by apply Hb.
Qed.

Lemma after_reconcileLoadBalancer o w (Q : outcome * OVHCluster -> platform -> Prop) :
  inv o w -> settled_lbs (p_cloud w) ->
  CStatus_NetworkID (OVHCluster_Status o) <> ""%string ->
  CStatus_SubnetID (OVHCluster_Status o) <> ""%string -> active_net o (p_cloud w) ->
  (forall o' w', lb_id o = ""%string -> advance False o w o' w' -> lb_id o' <> ""%string ->
     Q (requeue requeueTimeShort, o') w') ->
  (forall o' w', floating (OVHCluster_Spec o) -> no_fip (lb_id o') (p_cloud w) -> advance False o w o' w' ->
     lb_id o' <> ""%string -> fip_id o' <> ""%string -> Q (requeue requeueTimeShort, o') w') ->
  (forall ip o1 o' w', advance (lb_id o <> ""%string /\ lb_up o (p_cloud w) /\ exposed o) o w o1 w' ->
     lb_up o1 (p_cloud w') -> lb_id o1 <> ""%string -> address o1 (p_cloud w') ip ->
     bare o' = bare (publish ip o1) -> Q (done_, o') w') ->
  after (reconcileLoadBalancer scope o) w Q.
Proof.
  intros Hi Hset Hnet Hsn Hact HQ HQfip HQ'. unfold reconcileLoadBalancer, cstatus.
  apply after_m_bind, after_adopt_existing; [done|]. intros o1 H1 Hown. cbn [fst snd].
  apply after_m_bind, after_gets. cbn [fst snd]. pose proof H1 as ((_ & (_ & Hlb & _) & _) & Hl & _).
  assert (K0 := later_id 0 _ _ _ _ Hl Hnet). assert (K1 := later_id 1 _ _ _ _ Hl Hsn). cbn in K0, K1.
  case_decide as Hid.
  - destruct (Hlb Hid) as [lb Hf]. apply after_m_bind, after_lift.
    eapply (after_GetLoadBalancer client); [exact Hf|]. cbn [fst snd].
    apply after_handleExistingLB; [apply H1 | done..| |].
    + intros ip o2 o' w' H2 Hup Hid2 Had Ho'. apply (HQ' ip o2); [|exact Hup | by rewrite Hid2 | done..].
      eapply advance_trans; [exact H1 | exact H2 | by intros (? & ? & _) |].
      intros (_ & Hu & Hex). split; [by eapply lb_up_later | by eapply exposed_later].
    + intros o' w' Hfl Hno H2 Hid2 Hfip. apply HQfip; [| by rewrite Hid2 | | by rewrite Hid2 | done].
      * by rewrite <- (later_spec _ _ _ _ Hl).
      * eapply advance_new; [exact H1 | exact H2 | by intros []].
  - assert (Hid0 : lb_id o = ""%string).
    { apply dec_stable. intros Hne. apply Hne. rewrite <- Hid. symmetry. exact (later_id 2 _ _ _ _ Hl Hne). }
    apply after_create_lb; [apply H1 | exact Hid | by left; apply Hown | congruence | congruence | |].
    + destruct Hact as (n & Hn & Ha). exists n. by rewrite K0, (later_spec _ _ _ _ Hl).
    + intros o' w' H2 Hne. apply HQ; [done | | done].
      eapply advance_new; [exact H1 | exact H2 | by intros []].
Qed.

(** ** The DNS record *)

Lemma after_reconcileDNS o w (Q : res unit * OVHCluster -> platform -> Prop) :
  inv o w -> host o <> ""%string ->
  (forall o', advance (dns_done o) o w o' w -> dns_done o' -> Q (Ok tt, o') w) ->
  after (reconcileDNS scope o) w Q.
Proof.
  intros Hi Hh HQ. unfold reconcileDNS, cspec, cstatus.
  apply after_m_bind, after_gets, after_m_bind, after_gets. cbn [fst snd].
  destruct (CSpec_DNSConfig (OVHCluster_Spec o)) as [dns|] eqn:E;
    [|by apply after_m_ret, HQ; [apply advance_refl | left]].
  case_decide as Hid; [by apply after_m_ret, HQ; [apply advance_refl | right]|].
  rewrite decide_False by done.
  apply after_m_try, after_m_wrap, after_lift, (after_CreateDNSRecord client).
  intros x Hx. cbn [fst snd map_err]. apply after_m_bind, after_modify. cbn [fst snd].
  apply after_m_bind, after_lift, after_idle.
  { repeat only_rule; [apply (idle_sleep ns name)|]. intros w0 r w' Hs.
    exact (net_refresh (c := client) _ _ _ _ Hs). }
  intros a. cbn [fst snd]. apply after_m_ret, HQ; [|by right].
  split; [exact Hi|]. split; [|by intros [?|?]; [congruence|]]. unfold later. cbn. by split_and!.
Qed.

(** ** One pass *)

(** What a pass does before it turns to the load balancer. *)
Definition before_lb (k : M OVHCluster outcome) : M OVHCluster outcome :=
  creds ← reconcileCredentials scope;
  match creds with
  | Err err => mret (failed_requeue requeueTimeShort err)
  | Ok _ =>
    network ← reconcileNetwork scope;
    match network with
    | Err err =>
      if error_is err errNetworkNotReady_text then mret (requeue requeueTimeShort)
      else mret (failed_requeue requeueTimeShort err)
    | Ok _ =>
      reconcileFailureDomains scope ;;
      _ ← reconcileSecurityGroups scope;
      k
    end
  end.

(** The network, the subnet and the groups are recorded, and the network is ACTIVE. *)
Definition prepared (o : OVHCluster) (cl : cloud) : Prop :=
  CStatus_NetworkID (OVHCluster_Status o) <> ""%string
  /\ CStatus_SubnetID (OVHCluster_Status o) <> ""%string
  /\ active_net o cl /\ Forall (group_recorded o) (CSpec_SecurityGroups (OVHCluster_Spec o)).

(** It waits for the network it made, or goes on with what it prepared. *)
Lemma after_before_lb k o w (Q : outcome * OVHCluster -> platform -> Prop) :
  Client_serviceName client <> ""%string -> inv o w ->
  settled_networks (CSpec_Region (OVHCluster_Spec o)) (p_cloud w) ->
  (forall o' w', CStatus_NetworkID (OVHCluster_Status o) = ""%string -> advance False o w o' w' ->
     CStatus_NetworkID (OVHCluster_Status o') <> ""%string -> Q (requeue requeueTimeShort, o') w') ->
  (forall o' w', advance (finished o (p_cloud w)) o w o' w' -> edge (p_cloud w') = edge (p_cloud w) ->
     prepared o' (p_cloud w') -> after (k o') w' Q) ->
  after (before_lb k o) w Q.
Proof.
  intros Hs Hi Hnets Qnet HQ.
  apply after_m_bind, after_reconcileCredentials; [done..|]. intros o1 H1. cbn [fst snd].
  assert (A1 := advance_weak _ (finished o (p_cloud w)) _ _ _ _ H1 (fun _ => I)).
  assert (B1 : bare o1 = bare o) by by apply H1.
  apply after_m_bind, after_reconcileNetwork; cbn [fst snd].
  { apply H1. }
  { by rewrite (later_spec _ _ _ _ (proj1 (proj2 H1))). }
  2:{ intros o2 w2 Hid H2 Hne. cbn [fst snd]. apply after_m_ret, Qnet; [|by eapply advance_new; [exact H1 | exact H2 | intros []]|done].
      change (CStatus_NetworkID (OVHCluster_Status (bare o1)) = ""%string) in Hid. by rewrite B1 in Hid. }
  intros o2 w2 H2 He2 Hnet2 Hsn2 Hact2. cbn [fst snd].
  assert (A2 := finished_trans _ _ _ _ _ _ _ A1 H2 ltac:(by intros [(? & ? & _) _])).
  apply after_m_bind, after_reconcileFailureDomains. intros o3 B3. cbn [fst snd].
  assert (A3 := finished_trans True _ _ _ _ _ _ A2 (advance_bare _ _ _ _ (proj1 H2) B3) ltac:(done)).
  apply after_m_bind, after_reconcileSecurityGroups; [apply A3|].
  intros o4 w4 H4 Hg4 He4 Hnet4. cbn [fst snd].
  assert (A4 := finished_trans _ _ _ _ _ _ _ A3 H4 ltac:(by intros [(_ & _ & _ & ? & _) _])).
  assert (L24 : later (o2, w2) (o4, w4)).
  { transitivity (o3, w2); [apply (advance_bare True); [apply H2 | done] | apply H4]. }
  assert (N4 := later_id 0 _ _ _ _ L24 Hnet2). assert (S4 := later_id 1 _ _ _ _ L24 Hsn2). cbn in N4, S4.
  apply HQ; [exact A4 | congruence |]. unfold prepared. rewrite N4, S4. split_and!; [done..| |].
  - by eapply active_net_later.
  - by rewrite (later_spec _ _ _ _ (proj1 (proj2 H4))).
Qed.

(** The pass over a cluster that has its finalizer: it waits for the network it
    made, for the load balancer or for the floating IP it made, or completes. *)
Lemma after_pass o w (Q : outcome * OVHCluster -> platform -> Prop) :
  ContainsFinalizer (Meta_Finalizers (OVHCluster_ObjectMeta o)) ClusterFinalizer = true ->
  Client_serviceName client <> ""%string -> inv o w ->
  settled_networks (CSpec_Region (OVHCluster_Spec o)) (p_cloud w) -> settled_lbs (p_cloud w) ->
  (forall o' w', CStatus_NetworkID (OVHCluster_Status o) = ""%string -> advance False o w o' w' ->
     CStatus_NetworkID (OVHCluster_Status o') <> ""%string -> Q (requeue requeueTimeShort, o') w') ->
  (forall o' w', lb_id o = ""%string -> advance False o w o' w' ->
     CStatus_NetworkID (OVHCluster_Status o') <> ""%string -> lb_id o' <> ""%string ->
     Q (requeue requeueTimeShort, o') w') ->
  (forall o' w', floating (OVHCluster_Spec o) -> fip_id o = ""%string -> advance False o w o' w' ->
     CStatus_NetworkID (OVHCluster_Status o') <> ""%string -> lb_id o' <> ""%string ->
     fip_id o' <> ""%string -> Q (requeue requeueTimeShort, o') w') ->
  (forall ip o1 o2 o3 o' w', advance (finished o (p_cloud w)) o w o1 w' -> built o1 (p_cloud w') ->
     address o1 (p_cloud w') ip ->
     bare o2 = bare (publish ip o1) -> advance (dns_done o2) o2 w' o3 w' -> dns_done o3 ->
     bare o' = bare (set_c_Ready true o3) -> Q (requeue requeueTimeLong, o') w') ->
  after (reconcile_normal_body scope o) w Q.
Proof.
  intros Hfin Hs Hi Hnets Hlbs Qnet Qlb Qfip Qdone. unfold reconcile_normal_body.
  apply after_m_bind, after_get. cbn [fst snd]. rewrite Hfin. cbn [negb andb].
  eapply (after_before_lb _ o w); [done..|]. intros o4 w4 A4 He4 (Hnet4 & Hsn4 & Hact4 & Hg4).
  assert (Hnet5 : forall o5 w5, advance False o4 w4 o5 w5 -> CStatus_NetworkID (OVHCluster_Status o5) <> ""%string).
  { intros o5 w5 H5. assert (E := later_id 0 _ _ _ _ (proj1 (proj2 H5)) Hnet4). cbn in E. by rewrite E. }
  apply after_m_bind, after_reconcileLoadBalancer; [apply A4 | | done..| | |].
  - by apply (settled_lbs_edge (p_cloud w)).
  - intros o5 w5 Hid H5 Hne. cbn [fst snd requeue]. rewrite decide_True by (right; done).
    apply after_m_ret, Qlb; [| |by eapply Hnet5|exact Hne].
    + eapply later_empty; [exact (proj1 (proj2 A4)) | exact Hid].
    + eapply advance_new; [exact A4 | exact H5 | by intros []].
  - intros o5 w5 Hfl Hno H5 Hne Hfip. cbn [fst snd requeue]. rewrite decide_True by (right; done).
    apply after_m_ret, Qfip; [| | |by eapply Hnet5|done..].
    + by rewrite <- (later_spec _ _ _ _ (proj1 (proj2 A4))).
    + injection He4 as _ Hfips. eapply (no_fip_unrecorded o w o5 w5); [done| |exact Hfips | exact Hno].
      transitivity (o4, w4); [apply A4 | apply H5].
    + eapply advance_new; [exact A4 | exact H5 | by intros []].
  - intros ip o5 o6 w5 H5 Hup Hne Had B6. cbn [fst snd].
    cbn [done_]. rewrite decide_False by (intros [[]|]; done).
    assert (A5 := finished_trans _ _ _ _ _ _ _ A4 H5 ltac:(by intros [(? & ? & ? & ? & ?) ?])).
    assert (Hb := built_gathered o4 w4 o5 w5 (proj1 (proj2 H5)) Hnet4 Hsn4 Hg4 Hne Hup).
    destruct (publish_sound ip o5 o6 w5 (proj1 H5) (proj1 (proj2 Had)) B6) as [I6 Hh6].
    apply after_m_bind, after_reconcileDNS; [exact I6 | exact Hh6 |].
    intros o8 H8 Hdns. cbn [fst snd].
    apply after_m_bind, after_modify, after_m_bind, after_modify, after_m_ret. cbn [fst snd].
    by eapply (Qdone ip o5 o6 o8).
Qed.
End pass.
