(* ===== verification/ClusterConvergence.v ===== *)
(** * An OVHCluster becomes ready, and stays as it is

    Against a platform that obeys [PlatformLaws], the passes over a cluster whose
    recorded IDs exist make its network, load balancer, listeners, pools and monitors,
    and the floating IP it asks for, and set the endpoint to the address of its control
    plane. One pass over the finished cluster then changes nothing. *)

From S2P Require Import Prelude GoStrings Errors OvhTypes ApiTypes Effects Client Names Logic.
From S2P Require Import ClientFacts ClusterController ClusterFacts ClusterStepFacts Platform.
From S2P Require Import PlatformLaws ClusterInvariant ClusterPass.

Local Open Scope Z_scope.

(** ** The passes *)

(** The identity secret of a cluster holds the four keys. *)
Definition good_secret (s : Secret) : Prop :=
  Forall (fun k => default "" (Secret_Data s !! k) <> ""%string)
    ["endpoint"; "applicationKey"; "applicationSecret"; "consumerKey"]%string.

Definition has_secret (o : OVHCluster) (w : platform) : Prop :=
  let ref := CSpec_IdentitySecret (OVHCluster_Spec o) in
  exists s, p_secrets w !! (SecretKey_Namespace ref, SecretKey_Name ref) = Some s /\ good_secret s.

Section passes.
Context `{U : Unicode} `{C : CAPI} {L : CAPILaws C} `{P : Platform} `{Lv : !Live}.
Context (ns name service region : string) `{K : !KubeLaws ns name}.
Context `{N : !NetworkLaws (mkClient service region)}.

(** What every pass starts from. *)
Definition start (w : platform) : Prop :=
  let o := p_cluster w in
  inv o w /\ has_secret o w /\ service <> ""%string
  /\ CSpec_ServiceName (OVHCluster_Spec o) = service /\ CSpec_Region (OVHCluster_Spec o) = region
  /\ settled_networks region (p_cloud w) /\ settled_lbs (p_cloud w).

Lemma after_GetOVHClientFromCluster o w (Q : res Client -> platform -> Prop) :
  has_secret o w -> CSpec_ServiceName (OVHCluster_Spec o) = service ->
  CSpec_Region (OVHCluster_Spec o) = region -> Q (Ok (mkClient service region)) w ->
  after (GetOVHClientFromCluster o) w Q.
Proof.
  intros (s & Hs & Hkeys) Hsn Hr HQ. unfold GetOVHClientFromCluster. rewrite Hsn, Hr.
  apply after_try, after_wrap. eapply after_inert; [apply kube_secret|]. intros r Hr'.
  rewrite (Hr' _ Hs). cbn [map_err]. unfold NewClientFromSecret.
  unfold good_secret in Hkeys. rewrite !Forall_cons in Hkeys. destruct Hkeys as (H1 & H2 & H3 & H4 & _).
  rewrite decide_False by (intros [?|[?|[?|?]]]; done).
  apply after_wrap, after_try. eapply after_inert; [apply kube_goovh|]. by intros ? ->.
Qed.

(** What a pass over the cluster runs. *)
Lemma after_entry w (Q : outcome -> platform -> Prop) :
  let o := p_cluster w in
  let scope := mkClusterScope (p_owner w) (mkClient service region) in
  has_secret o w -> CSpec_ServiceName (OVHCluster_Spec o) = service ->
  CSpec_Region (OVHCluster_Spec o) = region ->
  after ((if negb (IsZero (Meta_DeletionTimestamp (OVHCluster_ObjectMeta o)))
          then ReconcileDelete scope else ReconcileNormal scope) o) w
    (fun r w' => Q r.1 (store_cluster r.2 w')) ->
  after (Reconcile ns name) w Q.
Proof.
  intros o scope Hsec Hsn Hr HQ. unfold Reconcile.
  apply after_bind. eapply after_inert; [apply kube_cluster|]. intros r ->.
  apply after_bind. eapply after_inert; [apply kube_helper|]. intros r ->. cbn [fst snd].
  apply after_bind. unfold reconcile_body.
  apply after_m_bind, after_get. cbn [fst snd].
  apply after_m_bind, after_lift. eapply after_inert; [apply kube_owner|]. intros r ->. cbn [fst snd].
  apply after_m_bind, after_lift, after_GetOVHClientFromCluster; [done..|]. cbn [fst snd].
  eapply after_mono; [exact HQ|]. intros [out o'] w' Ho. cbn [fst snd].
  apply after_bind, after_call. intros r w1 [-> ->]%kube_patch. by destruct out as [? []].
Qed.

Lemma after_Reconcile w (Q : outcome -> platform -> Prop) :
  start w ->
  after (reconcile_normal_body (mkClusterScope (p_owner w) (mkClient service region)) (p_cluster w)) w
    (fun r w' => Q r.1 (store_cluster r.2 w')) ->
  after (Reconcile ns name) w Q.
Proof.
  intros (Hi & Hsec & _ & Hsn & Hr & _) HQ. apply after_entry; [done..|].
  destruct Hi as (_ & _ & Hz & _). rewrite Hz. cbn [IsZero negb].
  unfold ReconcileNormal. apply after_m_bind. eapply after_mono; [exact HQ|].
  intros [out o'] w' Ho. cbn [fst snd].
  apply after_m_bind, after_get, after_m_bind, after_lift. cbn [fst snd].
  eapply after_inert; [apply kube_metric|]. intros m _. cbn [fst snd]. by apply after_m_ret.
Qed.

(** The stages of a cluster, and how far it is: its finalizer, its network, its load
    balancer, its floating IP. *)
Definition stages (spec : OVHClusterSpec) : nat := if decide (floating spec) then 4 else 3.

Definition level (spec : OVHClusterSpec) (w : platform) : nat :=
  let o := p_cluster w in
  if negb (ContainsFinalizer (Meta_Finalizers (OVHCluster_ObjectMeta o)) ClusterFinalizer) then 0%nat
  else if decide (CStatus_NetworkID (OVHCluster_Status o) = ""%string) then 1%nat
  else if decide (lb_id o = ""%string) then 2%nat
  else if decide (floating spec /\ fip_id o = ""%string) then 3%nat else stages spec.

Lemma level_stages spec w : (level spec w <= stages spec)%nat.
Proof. unfold level, stages. repeat case_match; naive_solver lia. Qed.

(** The cluster is complete, and its endpoint is the address of its control plane
    unless the specification [spec] set another. *)
Definition complete (spec : OVHClusterSpec) (w : platform) : Prop :=
  let o := p_cluster w in
  inv o w /\ provisioned o (p_cloud w)
  /\ (APIEndpoint_Host (CSpec_ControlPlaneEndpoint spec) = ""%string ->
      exists ip, address o (p_cloud w) ip
        /\ CSpec_ControlPlaneEndpoint (OVHCluster_Spec o) = mkAPIEndpoint ip apiServerLBPort).

Lemma complete_idles spec w w' : complete spec w -> idles w w' -> complete spec w'.
Proof.
  intros (Hi & Hp & He) (Hob & Hev & Hok). injection Hob as Hc _ _ _ _.
  unfold complete. rewrite Hc. split; [|split].
  - by eapply inv_evolves.
  - by eapply provisioned_evolves.
  - intros Hh. destruct (He Hh) as (ip & Ha & Hep). exists ip. split; [by eapply address_evolves | done].
Qed.

Lemma start_next o' w w1 w' :
  start w -> inv o' w1 -> OVHCluster_Spec o' = OVHCluster_Spec (p_cluster w) ->
  objects w1 = objects w -> settles region (store_cluster o' w1) w' -> start w'.
Proof.
  intros (_ & Hsec & Hne & Hsn & Hr & _) Hi Hspec Hobj (Hobj' & Hev & Hok & Hnets & Hlbs).
  injection Hobj as ? ? ? ? Hs. injection Hobj' as Hc ? ? ? Hs'. cbn in Hc, Hs'.
  unfold start, has_secret. rewrite Hc, Hs', Hs, Hspec. split_and!; [|done..].
  by apply (inv_evolves _ (store_cluster o' w1)).
Qed.

(** The state that a completing pass leaves. *)
Lemma completed ip o1 o2 o3 o' w :
  inv o1 w -> built o1 (p_cloud w) -> address o1 (p_cloud w) ip -> bare o2 = bare (publish ip o1) ->
  advance (dns_done o2) o2 w o3 w -> dns_done o3 -> bare o' = bare (set_c_Ready true o3) ->
  complete (OVHCluster_Spec o1) (store_cluster o' w).
Proof.
  intros Hi Hb Had B2 H3 Hdns B'. pose proof (proj1 (proj2 H3)) as L3.
  assert (Hip : ip <> ""%string) by apply Had.
  assert (Hb2 : built o2 (p_cloud w)).
  { change (built (bare o2) (p_cloud w)). rewrite B2. by apply built_publish. }
  assert (Hb3 := built_later _ _ _ _ L3 Hb2).
  assert (Hlb3 : lb_id o3 = lb_id o1).
  { assert (E := later_id 2 _ _ _ _ L3). cbn in E. unfold lb_id. rewrite E by exact (proj1 (proj2 (proj2 Hb2))).
    change (lb_id (bare o2) = lb_id o1). rewrite B2. unfold publish. by destruct (decide (host o1 = ""%string)). }
  assert (Hspec : OVHCluster_Spec o3 = OVHCluster_Spec (publish ip o1)).
  { rewrite (later_spec _ _ _ _ L3).
    change (OVHCluster_Spec o2) with (OVHCluster_Spec (bare o2)). by rewrite B2. }
  unfold complete. cbn [p_cluster p_cloud store_cluster]. split; [|split].
  - change (inv (bare o') w). rewrite B'. apply H3.
  - change (provisioned (bare o') (p_cloud w)). rewrite B'.
    split; [exact Hb3|]. split; [|by split].
    change (host o3 <> ""%string). unfold host. rewrite Hspec. unfold publish. by destruct (decide (host o1 = ""%string)).
  - intros Hh. exists ip.
    change (address (bare o') (p_cloud w) ip
            /\ CSpec_ControlPlaneEndpoint (OVHCluster_Spec (bare o')) = mkAPIEndpoint ip apiServerLBPort).
    rewrite B'.
    change (address o3 (p_cloud w) ip
            /\ CSpec_ControlPlaneEndpoint (OVHCluster_Spec o3) = mkAPIEndpoint ip apiServerLBPort).
    unfold address. rewrite Hlb3, Hspec. unfold publish. by rewrite (decide_True (P := host o1 = ""%string)).
Qed.

Lemma level_at spec w o' w1 :
  ContainsFinalizer (Meta_Finalizers (OVHCluster_ObjectMeta o')) ClusterFinalizer = true ->
  CStatus_NetworkID (OVHCluster_Status o') <> ""%string ->
  (level spec w <= 1 \/ (level spec w <= 2 /\ lb_id o' <> ""%string)
   \/ (level spec w <= 3 /\ lb_id o' <> ""%string /\ floating spec /\ fip_id o' <> ""%string))%nat ->
  (level spec w < level spec (store_cluster o' w1))%nat.
Proof.
  intros Hf Hn Hl. unfold level at 2, stages. cbn [p_cluster store_cluster]. rewrite Hf. cbn [negb].
  rewrite decide_False by done. repeat case_decide; naive_solver lia.
Qed.

(** One pass fails nowhere, and completes the cluster or takes it further. *)
Lemma pass_progress w :
  let spec := OVHCluster_Spec (p_cluster w) in
  start w ->
  after (Reconcile ns name) w (fun out w' => no_error out
    /\ (complete spec w'
        \/ ((level spec w < level spec w')%nat /\ (exists w'', settles region w' w'')
            /\ forall w'', settles region w' w'' ->
                 start w'' /\ OVHCluster_Spec (p_cluster w'') = spec))).
Proof.
  intros spec Hst. apply after_Reconcile; [done|]. pose proof Hst as (Hi & Hsec & Hsv & Hsn & Hr & Hnets & Hlbs).
  assert (Hnext : forall o' w1, inv o' w1 -> OVHCluster_Spec o' = OVHCluster_Spec (p_cluster w) ->
    objects w1 = objects w -> (exists w'', settles region (store_cluster o' w1) w'')
    /\ forall w'', settles region (store_cluster o' w1) w'' ->
    start w'' /\ OVHCluster_Spec (p_cluster w'') = OVHCluster_Spec (p_cluster w)).
  { intros o' w1 Hi' Hsp Hob. split; [apply settles_exists, Hi'|]. intros w'' Hs. split; [by eapply start_next|].
    destruct Hs as (Hob' & _). by injection Hob' as ->. }
  destruct (ContainsFinalizer (Meta_Finalizers (OVHCluster_ObjectMeta (p_cluster w))) ClusterFinalizer) eqn:Hfin.
  - assert (Hwait : forall o' w', advance False (p_cluster w) w o' w' ->
      CStatus_NetworkID (OVHCluster_Status o') <> ""%string ->
      (level spec w <= 1 \/ (level spec w <= 2 /\ lb_id o' <> ""%string)
       \/ (level spec w <= 3 /\ lb_id o' <> ""%string /\ floating spec /\ fip_id o' <> ""%string))%nat ->
      (level spec w < level spec (store_cluster o' w'))%nat
      /\ (exists w'', settles region (store_cluster o' w') w'')
      /\ forall w'', settles region (store_cluster o' w') w'' ->
           start w'' /\ OVHCluster_Spec (p_cluster w'') = spec).
    { intros o' w' (Hi' & Hl & _) Hne Hlev. split; [|apply Hnext; [done | by eapply later_spec | apply Hl]].
      apply level_at; [|done..]. destruct Hl as (Hm & _). cbn in Hm. by rewrite Hm. }
    apply (after_pass _ ns name); cbn [CScope_OVHClient Client_serviceName]; [done..|by rewrite Hr|done| | | |].
    + intros o' w1 Hid Ha Hne. cbn [fst snd]. split; [done|]. right. apply Hwait; [done..|]. left.
      unfold level. rewrite Hfin. cbn [negb]. by rewrite decide_True.
    + intros o' w1 Hid Ha Hne Hne'. cbn [fst snd]. split; [done|]. right. apply Hwait; [done..|].
      right. left. split; [|done]. unfold level. rewrite Hfin. cbn [negb]. case_decide; [lia|].
      by rewrite decide_True.
    + intros o' w1 Hfl Hid Ha Hne Hne' Hne''. cbn [fst snd]. split; [done|]. right. apply Hwait; [done..|].
      right. right. split; [|done]. unfold level. rewrite Hfin. cbn [negb].
      do 2 (case_decide; [lia|]). by rewrite decide_True.
    + intros ip o1 o2 o3 o' w1 H1 Hb Had B2 H3 Hdns B'. cbn [fst snd]. split; [done|]. left.
      unfold spec. rewrite <- (later_spec _ _ _ _ (proj1 (proj2 H1))).
      eapply completed; [apply H1 | done..].
  - unfold reconcile_normal_body. apply after_m_bind, after_get. cbn [fst snd]. rewrite Hfin.
    assert (Hz : IsZero (Meta_DeletionTimestamp (OVHCluster_ObjectMeta (p_cluster w))) = true).
    { destruct Hi as (_ & _ & Hz & _). by rewrite Hz. }
    rewrite Hz. cbn [negb andb]. apply after_m_bind, after_modify, after_m_ret. cbn [fst snd].
    split; [done|]. right. split; [|by apply Hnext].
    unfold level at 1. rewrite Hfin. cbn [negb]. unfold level, stages. cbn [p_cluster store_cluster].
    cbn. rewrite Contains_Add. cbn [negb]. repeat case_decide; lia.
Qed.

(** An [OVHCluster] becomes ready. From every state in which the recorded IDs
    exist, and what its specification names, at most four passes complete it, or five
    if it asks for a floating IP, against a platform that obeys its laws, and none of
    them fails: the network, the subnet, the load balancer with both its listeners,
    pools and monitors, the floating IP, the security groups and the DNS record are
    recorded and exist, [Ready] is set, and the endpoint is the address of the
    floating IP, or else of the load balancer. *)
Theorem cluster_converges w :
  let spec := OVHCluster_Spec (p_cluster w) in
  start w ->
  leads no_error (settles region) (stages spec) (Reconcile ns name) (complete spec) w.
Proof.
  intros spec Hst.
  apply (leads_by_level _ _ _ _ (fun w' => start w' /\ OVHCluster_Spec (p_cluster w') = spec)
           (level spec) (stages spec)).
  - intros w1 w2 (Hob & _). unfold level. by injection Hob as -> _.
  - apply level_stages.
  - intros w1 [Hs1 <-]. by apply pass_progress.
  - by split.
  - lia.
Qed.

(** ** A cluster that is there *)

Definition steady (w : platform) : Prop :=
  start w /\ provisioned (p_cluster w) (p_cloud w) /\ exposed (p_cluster w)
  /\ ContainsFinalizer (Meta_Finalizers (OVHCluster_ObjectMeta (p_cluster w))) ClusterFinalizer = true.

(** Conditions and failure domains do not matter. *)
Lemma steady_bare o w : bare o = bare (p_cluster w) -> steady w -> steady (store_cluster o w).
Proof.
  intros E H. change (steady (store_cluster (bare o) w)). rewrite E. by destruct w.
Qed.

Lemma steady_settles w w' : steady w -> settles region w w' -> steady w'.
Proof.
  intros ((Hi & Hsec & Hne & Hsn & Hr & _) & Hp & Hf) (Hob & He & Hok & Hn & Hl).
  injection Hob as Hc _ _ _ Hs. unfold steady, start, has_secret. rewrite Hc, Hs.
  split_and!; try done; [by apply (inv_evolves _ w) | by eapply provisioned_evolves | apply Hf..].
Qed.

Lemma steady_pass w :
  steady w ->
  after (Reconcile ns name) w (fun out w' => out = requeue requeueTimeLong
    /\ exists o', bare o' = bare (p_cluster w) /\ w' = store_cluster o' w).
Proof.
  intros (Hst & (Hb & Hh & Hdns & Hrd) & Hex & Hfin). apply after_Reconcile; [done|].
  pose proof Hst as (Hi & _ & Hsv & _ & Hr & Hnets & Hlbs).
  apply (after_pass _ ns name); cbn [CScope_OVHClient Client_serviceName]; [done..|by rewrite Hr|done| | | |].
  - intros o' w' Hid. by destruct Hb as [Hb _].
  - intros o' w' Hid. by destruct Hb as (_ & _ & Hb & _).
  - intros o' w' Hfl Hid. destruct Hb as (_ & _ & _ & _ & _ & Hat).
    destruct (Hat Hfl) as (_ & f & Hf & _ & Efid & _). exfalso.
    destruct Hi as ((_&_&_&_&_&_&_& Hall & _) & _). rewrite Forall_forall in Hall.
    destruct (Hall f Hf) as [Hne _]. by rewrite Efid, Hid in Hne.
  - intros ip o1 o2 o3 o' w' (_ & _ & H1) _ _ B2 (_ & _ & H3) _ B'.
    cbn [fst snd]. destruct (H1 (conj Hb Hex)) as [-> B1]. split; [done|]. exists o'. split; [|done].
    assert (bare o2 = bare (p_cluster w)) as B2'.
    { rewrite B2. unfold publish. rewrite decide_False; [done|].
      change (host (bare o1) <> ""%string). by rewrite B1. }
    assert (bare o3 = bare (p_cluster w)) as B3.
    { rewrite <- B2'. apply H3. change (dns_done (bare o2)). by rewrite B2'. }
    rewrite B'. change (set_c_Ready true (bare o3) = bare (p_cluster w)). rewrite B3.
    destruct (p_cluster w) as [? ? []]. cbn in Hrd. by rewrite Hrd.
Qed.

(** C10: and it stays as it is. A pass over a complete cluster (whose gateway is
    recorded as exposed, if it asks for a floating IP) makes nothing, and changes
    nothing of the object but its conditions and failure domains; the next pass comes
    after the long interval, and is such a pass again. *)
Theorem cluster_stable w :
  steady w ->
  after (Reconcile ns name) w (fun out w' => out = requeue requeueTimeLong
    /\ (exists o', bare o' = bare (p_cluster w) /\ w' = store_cluster o' w)
    /\ forall w'', settles region w' w'' -> steady w'').
Proof.
  intros Hs. eapply after_mono; [by apply steady_pass|]. intros out w' (Ho & o' & Hb & ->).
  split; [done|]. split; [by exists o'|]. intros w''. by apply steady_settles, steady_bare.
Qed.
End passes.
