(* ===== verification/MachineConvergence.v ===== *)
(** * An OVHMachine becomes ready

    Against a platform that obeys its laws, a machine of a cluster whose
    infrastructure is ready gets one instance, waits while that is not ACTIVE, becomes
    ready when it is, and a control plane machine joins the pools of the cluster's load
    balancer. *)

From S2P Require Import Prelude GoStrings Errors OvhTypes ApiTypes Effects Client Names NodeInit.
From S2P Require Import Logic ClientFacts ClusterController MachineController ClusterFacts.
From S2P Require Import Platform PlatformLaws ClusterInvariant ClusterConvergence.

Local Open Scope Z_scope.

(** ** What a pass changes *)

(** Members have joined pools; nothing else changed. *)
Definition joins (w w' : platform) : Prop :=
  exists ms, w' = on_cloud (fun c => set_members (members c ++ ms) c) w.

#[export] Instance joins_preorder : PreOrder joins.
Proof.
  split.
  - intros [[] ? ? ? ? ?]. exists []. unfold on_cloud, set_members. cbn. by rewrite app_nil_r.
  - intros w1 w2 w3 [ms ->] [ms' ->]. exists (ms ++ ms'). unfold on_cloud, set_members. cbn.
    by rewrite app_assoc.
Qed.

Lemma joins_add pool m w : joins w (on_cloud (add_member pool m) w).
Proof. by exists [(pool, m)]. Qed.

Lemma under_app {A} k (xs ys : list (string * A)) : under k (xs ++ ys) = under k xs ++ under k ys.
Proof. apply omap_app. Qed.

(** The member of an address and a port in a pool. *)
Definition has_member (pool ip : string) (port : Z) (cl : cloud) : Prop :=
  exists m, m ∈ under pool (members cl) /\ member_at ip port m = true.

Lemma has_member_joins pool ip port w w' :
  joins w w' -> has_member pool ip port (p_cloud w) -> has_member pool ip port (p_cloud w').
Proof.
  intros [ms ->] (m & Hin & Hm). exists m. split; [|done]. cbn -[under]. rewrite under_app.
  apply elem_of_app. by left.
Qed.

Lemma has_member_added pool ip port m w :
  Member_Address m = ip -> Member_ProtocolPort m = port ->
  has_member pool ip port (p_cloud (on_cloud (add_member pool m) w)).
Proof.
  intros H1 H2. exists m. split; [|by apply bool_decide_eq_true]. cbn -[under]. rewrite under_app.
  apply elem_of_app. right. unfold under. cbn. rewrite decide_True by done. left.
Qed.

Lemma no_member pool ip port cl :
  first_match (member_at ip port) (under pool (members cl)) = None -> ~ has_member pool ip port cl.
Proof.
  intros Hn%first_match_None (m & Hin & Hm). rewrite Forall_forall in Hn.
  specialize (Hn m Hin). congruence.
Qed.

(** The machine's address is in the register pool of the load balancer, if that
    has one; and in the API server's pool. *)
Definition in_register_pool (oc : OVHCluster) (ip : string) (cl : cloud) : Prop :=
  let lb := CStatus_LoadBalancerID (OVHCluster_Status oc) in
  lb <> ""%string -> forall pool,
    first_match (fun p => bool_decide (Pool_Name p = "rke2-register-pool"%string
                                       /\ Pool_LoadBalancerID p = lb)) (pools cl) = Some pool ->
    has_member (Pool_ID pool) ip 9345 cl.

Definition in_pools (oc : OVHCluster) (ip : string) (cl : cloud) : Prop :=
  has_member (CStatus_PoolID (OVHCluster_Status oc)) ip 6443 cl /\ in_register_pool oc ip cl.

Section machine.
Context `{U : Unicode} `{C : CAPI} {L : CAPILaws C} `{P : Platform}.
Context (scope : MachineScope).
#[local] Notation client := (MScope_OVHClient scope).
Context `{N : !NetworkLaws client} `{Co : !ComputeLaws client}.

(** ** Membership of the pools *)

(** The object without what a pass may set at any time. *)
Definition bare_m (o : OVHMachine) : OVHMachine :=
  set_m_Conditions [] (set_m_LBPoolMemberID "" (set_m_RegisterPoolMemberID "" o)).

#[local] Notation oc := (MScope_OVHCluster scope).

Lemma after_ensureRKE2RegisterPoolMember ip o w (Q : unit * OVHMachine -> platform -> Prop) :
  (forall o' w', bare_m o' = bare_m o -> joins w w' -> in_register_pool oc ip (p_cloud w') ->
     (in_register_pool oc ip (p_cloud w) -> w' = w) -> Q (tt, o') w') ->
  after (ensureRKE2RegisterPoolMember scope ip o) w Q.
Proof.
  intros HQ. unfold ensureRKE2RegisterPoolMember. case_decide as Hlb.
  { apply after_m_ret, HQ; [done | reflexivity | by intros [] | done]. }
  apply after_m_bind, after_lift, (after_FindPoolByName client). cbn [fst snd].
  destruct (first_match _ _) as [pool|] eqn:E.
  2:{ apply after_m_ret, HQ; [done | reflexivity | | done]. intros _ pool E'. unfold in_register_pool in *. by rewrite E in E'. }
  apply after_m_bind, after_lift, (after_ListPoolMembers client). cbn [fst snd].
  destruct (first_match (member_at ip 9345) _) as [m|] eqn:Em.
  - apply after_modify, HQ; [done | reflexivity | | done]. intros _ pool' E'.
    rewrite E in E'. injection E' as <-. apply first_match_sound in Em as [Hm Hin]. by exists m.
  - apply after_m_bind, after_lift, (after_AddPoolMember client). intros m Ha Hp _. cbn [fst snd].
    apply after_modify, HQ; [done | apply joins_add | |].
    + intros _ pool' E'. cbn [p_cloud on_cloud pools add_member] in E'. rewrite E in E'. injection E' as <-.
      by apply has_member_added.
    + intros Hin. by destruct (no_member _ _ _ _ Em (Hin Hlb pool E)).
Qed.

(** A control plane machine with a private address joins. *)
Definition joins_pools (i : Instance) : Prop :=
  IsControlPlaneMachine (MScope_Machine scope) = true
  /\ CStatus_PoolID (OVHCluster_Status oc) <> ""%string
  /\ private_ip (Instance_IPAddresses i) <> ""%string.

Lemma after_ensureLBPoolMember i o w (Q : res unit * OVHMachine -> platform -> Prop) :
  let ip := private_ip (Instance_IPAddresses i) in
  (forall r o' w', bare_m o' = bare_m o -> joins w w' ->
     (joins_pools i -> in_pools oc ip (p_cloud w')) ->
     ((joins_pools i -> in_pools oc ip (p_cloud w)) -> w' = w) -> Q (r, o') w') ->
  after (ensureLBPoolMember scope i o) w Q.
Proof.
  intros ip HQ. unfold ensureLBPoolMember.
  destruct (IsControlPlaneMachine _) eqn:Hcp; cbn [negb];
    [|by apply after_m_ret, HQ; [..|intros [? _]; congruence|]].
  case_decide as Hpool; [by apply after_m_ret, HQ; [..|intros (_ & [] & _)|]|].
  fold ip. case_decide as Hip; [by apply after_m_ret, HQ; [..|intros (_ & _ & [])|]|].
  assert (Hj : joins_pools i) by done.
  apply after_m_bind, after_lift, (after_ListPoolMembers client). cbn [fst snd].
  apply after_m_try. destruct (first_match (member_at ip 6443) _) as [m|] eqn:Em.
  - apply after_m_bind, after_modify, after_m_ret. cbn [fst snd].
    apply after_m_bind, after_ensureRKE2RegisterPoolMember. intros o' w' Hb Hjw Hr Hq. cbn [fst snd].
    apply after_m_ret, HQ; [done | done | |].
    + intros _. split; [|done]. eapply has_member_joins; [done|].
      apply first_match_sound in Em as [Hm Hin]. by exists m.
    + intros Hin. apply Hq, Hin, Hj.
  - apply after_m_try, after_m_wrap, after_lift, (after_AddPoolMember client).
    intros m Ha Hp _. cbn [fst snd map_err]. apply after_m_bind, after_modify, after_m_ret. cbn [fst snd].
    apply after_m_bind, after_ensureRKE2RegisterPoolMember. intros o' w' Hb Hjw Hr _. cbn [fst snd].
    apply after_m_ret, HQ; [done | | |].
    + etransitivity; [apply joins_add | exact Hjw].
    + intros _. split; [|done]. eapply has_member_joins; [done|]. by apply has_member_added.
    + intros Hin. by destruct (no_member _ _ _ _ Em (proj1 (Hin Hj))).
Qed.

(** ** An instance that is ACTIVE *)

Context (ns name mns mname : string) `{K : !KubeLaws ns name} `{Ml : !MachineLaws mns mname}.

Lemma work_idle e :
  match e with
  | EKubeconfigFromSecret _ _ | ERESTConfig _ | ENewForConfig _ | EGetNode _ _ | EPatchNode _ _ _ => True
  | _ => False
  end -> idle e.
Proof.
  destruct e; intros []; eapply inert_idle.
  - apply (work_kubeconfig (ns := mns) (name := mname)).
  - apply (work_config (ns := mns) (name := mname)).
  - apply (work_client (ns := mns) (name := mname)).
  - apply (work_node (ns := mns) (name := mname)).
  - apply (work_patch (ns := mns) (name := mname)).
Qed.

(** What an ACTIVE instance makes of the object. *)
Definition activated (i : Instance) (o : OVHMachine) : OVHMachine :=
  set_m_Initialization machineInitializationProvisioned (set_m_Ready true
    (set_m_ProviderID (ProviderIDFromInstance (CSpec_Region (OVHCluster_Spec oc)) (Instance_ID i))
      (set_m_Addresses (addresses_of (Instance_IPAddresses i)) (set_m_InstanceID (Instance_ID i) o)))).

(** What an instance that is not ACTIVE makes of it. *)
Definition held (i : Instance) (o o' : OVHMachine) : Prop :=
  OVHMachine_ObjectMeta o' = OVHMachine_ObjectMeta o /\ OVHMachine_Spec o' = OVHMachine_Spec o
  /\ MStatus_InstanceID (OVHMachine_Status o') = Instance_ID i
  /\ MStatus_Ready (OVHMachine_Status o') = false.

Lemma after_unavailable i o w (Q : outcome * OVHMachine -> platform -> Prop) :
  Instance_Status i <> InstanceStatusActive ->
  (forall out o', out.2 = None -> held i o o' -> Q (out, o') w) ->
  after (handleExistingInstance scope i o) w Q.
Proof.
  intros Hst HQ. unfold handleExistingInstance. rewrite decide_False by done.
  do 2 (apply after_m_bind, after_modify; cbn [fst snd]).
  case_decide; [|case_decide].
  - unfold handle_build. do 3 (apply after_m_bind, after_modify; cbn [fst snd]). by apply after_m_ret, HQ.
  - unfold handle_error. do 4 (apply after_m_bind, after_modify; cbn [fst snd]).
    apply after_m_bind, after_lift. eapply after_inert; [apply kube_metric|]. intros r _.
    by apply after_m_ret, HQ.
  - apply after_m_bind, after_modify, after_m_ret. by apply HQ.
Qed.

Lemma after_handleExistingInstance i o w (Q : outcome * OVHMachine -> platform -> Prop) :
  let ip := private_ip (Instance_IPAddresses i) in
  Instance_Status i = InstanceStatusActive ->
  (forall o' w', bare_m o' = bare_m (activated i o) -> joins w w' ->
     (joins_pools i -> in_pools oc ip (p_cloud w')) ->
     ((joins_pools i -> in_pools oc ip (p_cloud w)) -> w' = w) -> Q (done_, o') w') ->
  after (handleExistingInstance scope i o) w Q.
Proof.
  intros ip Hst HQ. unfold handleExistingInstance. rewrite Hst, decide_True by done. unfold handle_active.
  do 2 (apply after_m_bind, after_modify; cbn [fst snd]).
  do 6 (apply after_m_bind, after_modify; cbn [fst snd]).
  apply after_m_bind, after_ensureLBPoolMember. intros r o' w' Hb Hj Hin Hq. cbn [fst snd].
  apply after_m_bind, after_lift, after_idle.
  { repeat only_rule; by apply work_idle. }
  intros cfg. cbn [fst snd].
  assert (Hend : Q (done_, o') w') by by apply HQ.
  apply after_m_bind. destruct cfg as [[cfg|]|e]; [|by apply after_m_ret..].
  unfold mspec. apply after_m_bind, after_gets, after_lift, after_idle; [|done].
  repeat only_rule; by apply work_idle.
Qed.

(** ** Creation *)

(** What the specification names can be ordered. *)
Definition orderable (o : OVHMachine) (w : platform) : Prop :=
  let spec := OVHMachine_Spec o in
  let m := MScope_Machine scope in
  let key := GetSSHKeyName (MSpec_SSHKeyName spec) (CSpec_SSHKeyName (OVHCluster_Spec oc)) in
  is_Some (first_match (fun f => EqualFold (Flavor_Name f) (MSpec_FlavorName spec))
             (flavors (offers (p_cloud w))))
  /\ has_image (MSpec_ImageName spec) (offers (p_cloud w))
  /\ (key <> ""%string -> is_Some (first_match (fun k => bool_decide (SSHKey_Name k = key))
                                                  (keys (offers (p_cloud w)))))
  /\ exists d s data, Machine_DataSecretName m = Some d
       /\ p_secrets w !! (Meta_Namespace (Machine_ObjectMeta m), d) = Some s
       /\ Secret_Data s !! "value"%string = Some data /\ data <> ""%string.

Lemma after_instance_opts o w (Q : res CreateInstanceOpts -> platform -> Prop) :
  orderable o w ->
  (forall opts, CreateInstanceOpts_Name opts = instance_name scope o -> Q (Ok opts) w) ->
  after (instance_opts scope o) w Q.
Proof.
  intros ([f Hf] & Him & Hk & (d & s & data & Hd & Hs & Hv & Hne)) HQ. unfold instance_opts.
  apply after_try, after_wrap. eapply (after_GetFlavorByName client); [exact Hf|]. cbn [map_err].
  apply after_try, after_wrap. apply (after_GetImageByName client); [exact Him|]. intros img. cbn [map_err].
  apply after_try, after_wrap. unfold getBootstrapData. rewrite Hd.
  apply after_try, after_wrap. eapply after_inert; [apply kube_secret|]. intros r Hr. rewrite (Hr _ Hs).
  cbn [map_err]. rewrite Hv. apply after_mret. cbn [map_err].
  apply after_try, after_wrap, after_mret. unfold PrepareUserData.
  rewrite decide_False by (by destruct data). cbn [map_err].
  apply after_try. unfold resolve_ssh_key. case_decide as Hkey.
  - destruct (Hk Hkey) as [k Hk']. apply after_try, after_wrap.
    eapply (after_GetSSHKeyByName client); [exact Hk'|]. cbn [map_err].
    by apply after_mret, after_mret, HQ.
  - by apply after_mret, after_mret, HQ.
Qed.

Lemma after_createInstance o w (Q : outcome * OVHMachine -> platform -> Prop) :
  orderable o w ->
  (forall i o', Instance_ID i <> ""%string -> Instance_Name i = instance_name scope o ->
     Instance_ID i ∉ Instance_ID <$> instances (p_cloud w) ->
     bare_m o' = bare_m (set_m_InstanceID (Instance_ID i) o) ->
     Q (requeue requeueDelayLong, o') (on_cloud (add_instance i) w)) ->
  after (createInstance scope o) w Q.
Proof.
  intros Ho HQ. unfold createInstance. apply after_m_bind, after_get. cbn [fst snd].
  apply after_m_bind, after_lift, after_instance_opts; [done|]. intros opts Hn. cbn [fst snd].
  apply after_m_bind, after_lift. eapply after_inert; [apply kube_metric|]. intros r _. cbn [fst snd].
  apply after_m_bind, after_lift, (after_CreateInstance client). intros i Hid Hname Hnew. cbn [fst snd].
  do 3 (apply after_m_bind, after_modify; cbn [fst snd]). apply after_m_ret, HQ; [done | congruence | done..].
Qed.

(** ** The lookups *)

Definition named (name' : string) (i : Instance) : bool := bool_decide (Instance_Name i = name').

(** The instance the lookups find: by the recorded ID, else by the ID of the
    specification, else by name. *)
Definition found (o : OVHMachine) (cl : cloud) : option Instance :=
  let id := MStatus_InstanceID (OVHMachine_Status o) in
  let existing := MSpec_ExistingInstanceID (OVHMachine_Spec o) in
  match (if decide (id <> ""%string) then lookup_instance id cl else None) with
  | Some i => Some i
  | None =>
    if decide (existing <> ""%string) then lookup_instance existing cl
    else first_match (named (instance_name scope o)) (instances cl)
  end.

(** The same but for the instance's ID. *)
Definition same_but_id (o o' : OVHMachine) : Prop := set_m_InstanceID "" o' = set_m_InstanceID "" o.

Definition existing_ok (o : OVHMachine) (cl : cloud) : Prop :=
  MSpec_ExistingInstanceID (OVHMachine_Spec o) <> ""%string ->
  is_Some (lookup_instance (MSpec_ExistingInstanceID (OVHMachine_Spec o)) cl).

Lemma after_find_instance o w (Q : res (option Instance) * OVHMachine -> platform -> Prop) :
  existing_ok o (p_cloud w) ->
  (forall o', same_but_id o o' -> Q (Ok (found o (p_cloud w)), o') w) ->
  after (find_instance scope o) w Q.
Proof.
  intros Hex HQ. unfold find_instance. apply after_m_try. unfold found in HQ.
  assert (Hrest : forall o', same_but_id o o' ->
    (forall o'', same_but_id o o'' -> Q (Ok (if decide (MSpec_ExistingInstanceID (OVHMachine_Spec o) <> ""%string)
         then lookup_instance (MSpec_ExistingInstanceID (OVHMachine_Spec o)) (p_cloud w)
         else first_match (named (instance_name scope o)) (instances (p_cloud w))), o'') w) ->
    after ((found ←? adopted_instance scope; or_else found (named_instance scope)) o') w Q).
  { intros o' Ho' HQ'. assert (Hs : OVHMachine_Spec o' = OVHMachine_Spec o) by exact (f_equal OVHMachine_Spec Ho').
    assert (Hm : instance_name scope o' = instance_name scope o).
    { unfold instance_name. by rewrite (f_equal OVHMachine_ObjectMeta Ho' : OVHMachine_ObjectMeta o' = _). }
    apply after_m_try. unfold adopted_instance, mspec. apply after_m_bind, after_gets. cbn [fst snd].
    rewrite Hs. case_decide as He.
    - apply after_m_try, after_m_wrap, after_lift, (after_GetInstance client).
      destruct (Hex He) as [i Hi]. rewrite Hi in HQ' |- *. cbn [fst snd map_err].
      apply after_m_ret. cbn [fst snd or_else]. apply after_m_ret, HQ', Ho'.
    - apply after_m_ret. cbn [fst snd or_else]. unfold named_instance.
      apply after_m_bind, after_get. cbn [fst snd]. rewrite Hm.
      apply after_m_wrap, after_lift, (after_FindInstanceByName client), HQ', Ho'. }
  unfold recorded_instance, mstatus. apply after_m_bind, after_gets. cbn [fst snd].
  destruct (decide (MStatus_InstanceID (OVHMachine_Status o) <> ""%string)) as [Hid|Hid];
    [|apply after_m_ret; cbn [fst snd or_else]; by apply Hrest].
  apply after_m_bind, after_lift, (after_GetInstance client).
  destruct (lookup_instance _ _) as [i|].
  - apply after_m_ret. cbn [fst snd or_else]. apply after_m_try, after_m_ret. cbn [fst snd].
    by apply after_m_ret, HQ.
  - intros e He. cbn [fst snd]. rewrite He. apply after_m_bind, after_modify, after_m_ret.
    cbn [fst snd or_else]. by apply Hrest.
Qed.
End machine.

(** ** The passes *)

Section passes.
Context `{U : Unicode} `{C : CAPI} {L : CAPILaws C} `{P : Platform} `{Lv : !Live}.
Context (ns name mns mname service region : string).
Context `{K : !KubeLaws ns name} `{Ml : !MachineLaws mns mname}.
Context `{N : !NetworkLaws (mkClient service region)} `{Co : !ComputeLaws (mkClient service region)}.

Definition scope_of (w : platform) : MachineScope :=
  mkMachineScope (p_owner w) (p_owner_machine w) (p_cluster w) (mkClient service region).

#[local] Instance scope_network w : NetworkLaws (MScope_OVHClient (scope_of w)) := N.
#[local] Instance scope_compute w : ComputeLaws (MScope_OVHClient (scope_of w)) := Co.

(** The IDs of the instances are unique, and not empty. *)
Definition instances_ok (cl : cloud) : Prop :=
  Forall (fun i => Instance_ID i <> ""%string) (instances cl) /\ NoDup (Instance_ID <$> instances cl).

(** What every pass starts from: the cluster's infrastructure is ready, and what
    the machine's specification names exists. *)
Definition start_m (w : platform) : Prop :=
  let o := p_machine w in
  let spec := OVHCluster_Spec (p_cluster w) in
  has_secret (p_cluster w) w
  /\ CSpec_ServiceName spec = service /\ CSpec_Region spec = region
  /\ (exists ref, Cluster_InfrastructureRef (p_owner w) = Some ref
       /\ Ref_Namespace ref = ns /\ Ref_Name ref = name)
  /\ Cluster_InfrastructureReady (p_owner w) = true
  /\ (forall fs, IsPaused (p_owner w) (set_Finalizers fs (OVHMachine_ObjectMeta o)) = false)
  /\ Meta_DeletionTimestamp (OVHMachine_ObjectMeta o) = None
  /\ orderable (scope_of w) o w /\ existing_ok o (p_cloud w) /\ cloud_ok (p_cloud w)
  /\ instances_ok (p_cloud w).

(** The pass returns, and without an error. *)
Definition returns (e : ending) : Prop :=
  match e with Returned out => no_error out | NilDereference => False end.

(** What a pass over the machine runs. *)
Lemma after_machine_entry w (Q : ending -> platform -> Prop) :
  let o := p_machine w in
  has_secret (p_cluster w) w ->
  CSpec_ServiceName (OVHCluster_Spec (p_cluster w)) = service ->
  CSpec_Region (OVHCluster_Spec (p_cluster w)) = region ->
  (exists ref, Cluster_InfrastructureRef (p_owner w) = Some ref
     /\ Ref_Namespace ref = ns /\ Ref_Name ref = name) ->
  after ((if negb (IsZero (Meta_DeletionTimestamp (OVHMachine_ObjectMeta o)))
          then MachineController.ReconcileDelete (scope_of w)
          else MachineController.ReconcileNormal (scope_of w)) o) w
    (fun r w' => Q (Returned r.1) (store_machine r.2 w')) ->
  after (MachineController.Reconcile mns mname) w Q.
Proof.
  intros o Hsec Hsn Hr (ref & Href & Hns & Hname) HQ. unfold MachineController.Reconcile.
  apply after_bind. eapply after_inert; [apply mach_object|]. intros r ->.
  apply after_bind. eapply after_inert; [apply mach_helper|]. intros r ->. cbn [fst snd].
  apply after_bind. unfold MachineController.reconcile_body.
  apply after_m_bind, after_get. cbn [fst snd].
  apply after_m_bind, after_lift. eapply after_inert; [apply mach_owner|]. intros r ->. cbn [fst snd].
  apply after_m_bind, after_lift. eapply after_inert; [apply mach_cluster|]. intros r ->. cbn [fst snd].
  rewrite Href. apply after_m_bind, after_lift.
  rewrite Hns, Hname. eapply after_inert; [apply kube_cluster|]. intros r ->. cbn [fst snd].
  apply after_m_bind, after_lift. eapply after_GetOVHClientFromCluster; [done..|]. cbn [fst snd].
  fold (scope_of w). apply after_m_bind. eapply after_mono; [exact HQ|].
  intros [out o'] w' Ho. cbn [fst snd]. apply after_m_ret. cbn [fst snd]. apply after_bind, after_call.
  intros r w1 [-> ->]%(mach_patch (ns := mns) (name := mname)). by destruct out as [? []].
Qed.

Lemma after_machine_Reconcile w (Q : ending -> platform -> Prop) :
  start_m w ->
  after (MachineController.reconcile_normal_body (scope_of w) (p_machine w)) w
    (fun r w' => Q (Returned r.1) (store_machine r.2 w')) ->
  after (MachineController.Reconcile mns mname) w Q.
Proof.
  intros (Hsec & Hsn & Hr & Href & _ & _ & Hz & _) HQ. apply after_machine_entry; [done..|].
  rewrite Hz. cbn [IsZero negb]. unfold MachineController.ReconcileNormal.
  apply after_m_bind. eapply after_mono; [exact HQ|].
  intros [out o'] w' Ho. cbn [fst snd]. apply after_m_bind, after_get. cbn [fst snd].
  apply after_m_bind, after_lift. eapply after_inert; [apply kube_metric|]. intros m _. cbn [fst snd].
  by apply after_m_ret.
Qed.

(** The provider is done with the instance a pass finds, if it finds one: it is ACTIVE. *)
Definition active (w : platform) : Prop :=
  match found (scope_of w) (p_machine w) (p_cloud w) with
  | Some i => Instance_Status i = InstanceStatusActive
  | None => True
  end.

#[export] Instance active_dec w : Decision (active w).
Proof. unfold active. case_match; apply _. Defined.

(** The machine runs on an ACTIVE instance, the object says so, and a control
    plane machine is in the pools. *)
Definition complete_m (w : platform) : Prop :=
  let o := p_machine w in
  let ip i := private_ip (Instance_IPAddresses i) in
  exists i, i ∈ instances (p_cloud w) /\ Instance_ID i = MStatus_InstanceID (OVHMachine_Status o)
    /\ Instance_Status i = InstanceStatusActive
    /\ MStatus_Ready (OVHMachine_Status o) = true
    /\ MSpec_ProviderID (OVHMachine_Spec o) = ProviderIDFromInstance region (Instance_ID i)
    /\ MStatus_Addresses (OVHMachine_Status o) = addresses_of (Instance_IPAddresses i)
    /\ (joins_pools (scope_of w) i -> in_pools (p_cluster w) (ip i) (p_cloud w)).

(** How far a machine is: its finalizer, its instance. *)
Definition level_m (w : platform) : nat :=
  let o := p_machine w in
  if negb (ContainsFinalizer (Meta_Finalizers (OVHMachine_ObjectMeta o)) MachineFinalizer) then 0%nat
  else match found (scope_of w) o (p_cloud w) with None => 1%nat | Some _ => 2%nat end.

Lemma found_in o cl sc i : found sc o cl = Some i -> i ∈ instances cl.
Proof.
  unfold found, lookup_instance. intros H.
  destruct (if decide (_ <> _) then _ else None) as [j|] eqn:E.
  - injection H as <-. case_decide; [|done]. by apply first_match_sound in E as [_ ?].
  - case_decide; by apply first_match_sound in H as [_ ?].
Qed.

(** The pass over a machine that has its finalizer. *)
Lemma after_machine_pass w (Q : outcome * OVHMachine -> platform -> Prop) :
  let o := p_machine w in
  let oc := p_cluster w in
  let ip i := private_ip (Instance_IPAddresses i) in
  start_m w ->
  ContainsFinalizer (Meta_Finalizers (OVHMachine_ObjectMeta o)) MachineFinalizer = true ->
  (forall i o' w', found (scope_of w) o (p_cloud w) = Some i ->
     Instance_Status i = InstanceStatusActive ->
     bare_m o' = bare_m (activated (scope_of w) i o) -> joins w w' ->
     (joins_pools (scope_of w) i -> in_pools oc (ip i) (p_cloud w')) ->
     ((joins_pools (scope_of w) i -> in_pools oc (ip i) (p_cloud w)) -> w' = w) -> Q (done_, o') w') ->
  (forall i o', found (scope_of w) o (p_cloud w) = None -> Instance_ID i <> ""%string ->
     Instance_Name i = instance_name (scope_of w) o ->
     Instance_ID i ∉ Instance_ID <$> instances (p_cloud w) ->
     bare_m o' = bare_m (set_m_InstanceID (Instance_ID i) o) ->
     Q (requeue requeueDelayLong, o') (on_cloud (add_instance i) w)) ->
  (forall i out o', found (scope_of w) o (p_cloud w) = Some i ->
     Instance_Status i <> InstanceStatusActive -> out.2 = None -> held i o o' -> Q (out, o') w) ->
  after (MachineController.reconcile_normal_body (scope_of w) o) w Q.
Proof.
  intros o oc ip Hst Hfin Hfound Hnew Hheld.
  pose proof Hst as (_ & _ & _ & _ & Hinf & Hp & Hz & Hord & Hex & _ & _).
  unfold MachineController.reconcile_normal_body. apply after_m_bind, after_get. cbn [fst snd].
  assert (Hp' : IsPaused (p_owner w) (OVHMachine_ObjectMeta o) = false).
  { rewrite <- (Hp (Meta_Finalizers (OVHMachine_ObjectMeta o))). fold o. f_equal.
    by destruct (OVHMachine_ObjectMeta o). }
  cbn [MScope_Cluster scope_of]. rewrite Hp', Hfin, Hinf. cbn [negb andb].
  destruct Hord as (Hfl & Him & Hk & d & Hd). cbn [MScope_Machine scope_of].
  destruct (Machine_DataSecretName (p_owner_machine w)) as [d'|] eqn:E.
  2:{ destruct Hd as (? & ? & Hd & _). cbn in Hd. congruence. }
  apply after_m_bind, (after_find_instance (scope_of w)); [exact Hex|]. intros o' Ho'. cbn [fst snd].
  fold o. destruct (found (scope_of w) o (p_cloud w)) as [i|] eqn:Ef.
  - destruct (decide (Instance_Status i = InstanceStatusActive)) as [Ha|Ha].
    + apply (after_handleExistingInstance (scope_of w) mns mname); [done|].
      intros o'' w' Hb Hj Hin Hq. apply (Hfound i); [done | done | | done..]. rewrite Hb.
      change (bare_m (activated (scope_of w) i (set_m_InstanceID "" o'))
              = bare_m (activated (scope_of w) i (set_m_InstanceID "" o))). by rewrite Ho'.
    + apply (after_unavailable (scope_of w) ns name); [done|]. intros out o'' Hout (H1 & H2 & H3).
      apply (Hheld i); [done..|]. split_and!; [| | apply H3..].
      * by rewrite H1, (f_equal OVHMachine_ObjectMeta Ho' : OVHMachine_ObjectMeta o' = _).
      * by rewrite H2, (f_equal OVHMachine_Spec Ho' : OVHMachine_Spec o' = _).
  - assert (Hs : OVHMachine_Spec o' = OVHMachine_Spec o) by exact (f_equal OVHMachine_Spec Ho').
    apply (after_createInstance (scope_of w) ns name).
    + unfold orderable. rewrite Hs. by split_and!; [..|exists d].
    + intros i o'' Hid Hn Hfr Hb. apply Hnew; [done..| |done|].
      { rewrite Hn. unfold instance_name.
        by rewrite (f_equal OVHMachine_ObjectMeta Ho' : OVHMachine_ObjectMeta o' = _). }
      rewrite Hb.
      change (bare_m (set_m_InstanceID (Instance_ID i) (set_m_InstanceID "" o'))
              = bare_m (set_m_InstanceID (Instance_ID i) (set_m_InstanceID "" o))). by rewrite Ho'.
Qed.

(** ** Between the passes *)

Lemma evolves_instances {A} (f : string * string -> A) cl cl' :
  evolves cl cl' -> (fun i => f (Instance_ID i, Instance_Name i)) <$> instances cl'
                   = (fun i => f (Instance_ID i, Instance_Name i)) <$> instances cl.
Proof.
  intros (_ & _ & _ & _ & _ & _ & _ & _ & _ & _ & _ & _ & _ & _ & H). apply (f_equal (fmap f)) in H.
  by rewrite <- !list_fmap_compose in H.
Qed.

Lemma lookup_evolves id cl cl' :
  evolves cl cl' -> is_Some (lookup_instance id cl) <-> is_Some (lookup_instance id cl').
Proof.
  intros He. unfold lookup_instance. rewrite !(find_by_id Instance_ID).
  by rewrite (evolves_instances fst _ _ He : Instance_ID <$> instances cl' = _).
Qed.

Lemma is_Some_or {A} (a b : option A) :
  is_Some (match a with Some x => Some x | None => b end) <-> is_Some a \/ is_Some b.
Proof. destruct a as [x|]; split; eauto; intros [[? ?]|?]; by eauto. Qed.

Lemma found_evolves sc o cl cl' :
  evolves cl cl' -> is_Some (found sc o cl) <-> is_Some (found sc o cl').
Proof.
  intros He. unfold found. rewrite !is_Some_or. repeat case_decide; rewrite ?(lookup_evolves _ _ _ He).
  - done.
  - unfold named. rewrite !(find_by_id Instance_Name).
    by rewrite (evolves_instances snd _ _ He : Instance_Name <$> instances cl' = _).
  - done.
  - unfold named. rewrite !(find_by_id Instance_Name).
    by rewrite (evolves_instances snd _ _ He : Instance_Name <$> instances cl' = _).
Qed.

Lemma objects_scope w w' : objects w' = objects w -> scope_of w' = scope_of w.
Proof. unfold scope_of. by intros [= -> _ -> -> _]. Qed.

Lemma level_m_idles w w' : idles w w' -> level_m w' = level_m w.
Proof.
  intros (Hob & He & _). unfold level_m. rewrite (objects_scope _ _ Hob).
  injection Hob as _ -> _ _ _. case_match; [done|].
  pose proof (found_evolves (scope_of w) (p_machine w) _ _ He) as Hf.
  destruct (found _ _ (p_cloud w)), (found _ _ (p_cloud w')); try done; exfalso.
  - by destruct (proj1 Hf) as [? ?]; [eauto|].
  - by destruct (proj2 Hf) as [? ?]; [eauto|].
Qed.

(** ** What a pass may do *)

(** Instances, of IDs of their own, and members of pools. *)
Definition staffed (cl cl' : cloud) : Prop :=
  exists new ms,
    cl' = set_members (members cl ++ ms) (set_instances (instances cl ++ new) cl)
    /\ Forall (fun i => Instance_ID i <> ""%string) new
    /\ (NoDup (Instance_ID <$> instances cl) -> NoDup (Instance_ID <$> instances cl')).

(** The specification but for the provider ID, which a pass sets. *)
Definition ordered (o : OVHMachine) : OVHMachineSpec := OVHMachine_Spec (set_m_ProviderID "" o).

Lemma ordered_same o o' :
  ordered o' = ordered o ->
  let s := OVHMachine_Spec o in
  let s' := OVHMachine_Spec o' in
  MSpec_FlavorName s' = MSpec_FlavorName s /\ MSpec_ImageName s' = MSpec_ImageName s
  /\ MSpec_SSHKeyName s' = MSpec_SSHKeyName s
  /\ MSpec_ExistingInstanceID s' = MSpec_ExistingInstanceID s.
Proof. intros H. injection H. by intros. Qed.

(** The same object but for its status, its finalizers and the provider ID. *)
Definition alike (o o' : OVHMachine) : Prop :=
  ordered o' = ordered o
  /\ forall fs, set_Finalizers fs (OVHMachine_ObjectMeta o') = set_Finalizers fs (OVHMachine_ObjectMeta o).

#[export] Instance alike_preorder : PreOrder alike.
Proof.
  split; [by split|]. intros o1 o2 o3 [E Ef] [E' Ef']. split; [congruence|].
  intros fs. by rewrite Ef'.
Qed.

Definition visited (w w' : platform) : Prop :=
  staffed (p_cloud w) (p_cloud w')
  /\ p_cluster w' = p_cluster w /\ p_owner w' = p_owner w
  /\ p_owner_machine w' = p_owner_machine w /\ p_secrets w' = p_secrets w
  /\ alike (p_machine w) (p_machine w').

#[export] Instance staffed_preorder : PreOrder staffed.
Proof.
  split.
  - intros cl. exists [], []. split; [|done]. cbn. rewrite !app_nil_r. by destruct cl.
  - intros c1 c2 c3 (new & ms & -> & Hne & Hnd) (new' & ms' & -> & Hne' & Hnd').
    exists (new ++ new'), (ms ++ ms'). split; [|split].
    + cbn. by rewrite !app_assoc.
    + by apply Forall_app.
    + auto.
Qed.

#[export] Instance visited_preorder : PreOrder visited.
Proof.
  split; [by intros w; split_and!|]. intros w1 w2 w3 (H1&H2&H3&H4&H5&H6) (H1'&H2'&H3'&H4'&H5'&H6').
  split_and!; [by etransitivity | congruence.. | by etransitivity].
Qed.

Lemma joins_staffed w w' : joins w w' -> staffed (p_cloud w) (p_cloud w').
Proof. intros [ms ->]. exists [], ms. cbn. by rewrite app_nil_r. Qed.

Lemma staffed_create i cl :
  Instance_ID i <> ""%string -> Instance_ID i ∉ Instance_ID <$> instances cl ->
  staffed cl (add_instance i cl).
Proof.
  intros Hne Hnew. exists [i], []. split_and!; [cbn; by rewrite app_nil_r | by repeat constructor |].
  intros Hnd. cbn. rewrite fmap_app. apply NoDup_app. split; [done|]. split; [|apply NoDup_singleton].
  by intros id Hid ->%list_elem_of_singleton.
Qed.

Lemma staffed_instances cl cl' : staffed cl cl' -> instances cl `prefix_of` instances cl'.
Proof. intros (new & ms & -> & _). by apply prefix_app_r. Qed.

Lemma staffed_ids cl cl' :
  staffed cl cl' -> Forall (fun i => Instance_ID i <> ""%string) (instances cl) ->
  Forall (fun i => Instance_ID i <> ""%string) (instances cl').
Proof. intros (new & ms & -> & Hnew & _) H. by apply Forall_app. Qed.

Lemma staffed_unique cl cl' :
  staffed cl cl' -> NoDup (Instance_ID <$> instances cl) -> NoDup (Instance_ID <$> instances cl').
Proof. by intros (new & ms & _ & _ & H). Qed.

Lemma staffed_ok cl cl' : staffed cl cl' -> cloud_ok cl -> cloud_ok cl'.
Proof. by intros (new & ms & -> & _). Qed.

(** What there was to find is still found. *)
Lemma found_staffed sc o cl cl' : staffed cl cl' -> is_Some (found sc o cl) -> is_Some (found sc o cl').
Proof.
  intros Hs%staffed_instances. unfold found. rewrite !is_Some_or.
  assert (Hp : forall f : Instance -> bool,
    is_Some (first_match f (instances cl)) -> is_Some (first_match f (instances cl'))).
  { intros f [i Hi]. exists i. by eapply find_prefix. }
  unfold lookup_instance. repeat case_decide; naive_solver.
Qed.

(** The recorded instance is found. *)
Lemma found_recorded sc o cl i :
  i ∈ instances cl -> Instance_ID i = MStatus_InstanceID (OVHMachine_Status o) ->
  Instance_ID i <> ""%string -> is_Some (found sc o cl).
Proof.
  intros Hin Hid Hne. unfold found. rewrite is_Some_or, decide_True by congruence. left.
  apply (find_by_id Instance_ID), list_elem_of_fmap. by exists i.
Qed.

(** The next pass starts as this one did. *)
Lemma start_m_next w w1 w' : start_m w -> visited w w1 -> idles w1 w' -> start_m w'.
Proof.
  intros (Hsec & Hsn & Hr & Href & Hinf & Hp & Hz & Hord & Hex & _ & Hids & Hnd)
    (Hst & Hc & Ho & Hom & Hs & Hspec & Hmeta) (Hob & He & Hok').
  assert (Hsc : scope_of w' = scope_of w).
  { rewrite (objects_scope _ _ Hob). unfold scope_of. by rewrite Hc, Ho, Hom. }
  injection Hob as Hc' Hm' Ho' Hom' Hs'. rewrite Hc in Hc'. rewrite Ho in Ho'. rewrite Hs in Hs'.
  unfold start_m, orderable, existing_ok, has_secret in *. rewrite Hsc, Hc', Hm', Ho', Hs'.
  assert (Hoff : offers (p_cloud w') = offers (p_cloud w)).
  { destruct He as (_&_&_&_&_&_&_&_&_&E&_). rewrite E. by destruct Hst as (? & ? & -> & _). }
  destruct (ordered_same _ _ Hspec) as (-> & -> & -> & ->).
  rewrite Hoff. do 5 (split; [done|]). split; [intros fs; by rewrite Hmeta|]. split.
  { assert (E := f_equal Meta_DeletionTimestamp (Hmeta [])). cbn in E. by rewrite E. }
  assert (E := evolves_instances fst _ _ He). cbn in E.
  split; [exact Hord|]. split; [|split; [done|split]].
  - intros Hne. apply (lookup_evolves _ _ _ He). destruct (Hex Hne) as [i Hi]. exists i.
    eapply find_prefix; [by apply staffed_instances | done].
  - change (Forall ((fun id => id <> ""%string) ∘ Instance_ID) (instances (p_cloud w'))).
    apply Forall_fmap. rewrite (E : Instance_ID <$> _ = _). apply Forall_fmap.
    by eapply staffed_ids.
  - rewrite (E : Instance_ID <$> _ = _). by eapply staffed_unique.
Qed.

Lemma restarts w w1 :
  start_m w -> visited w w1 ->
  (exists w', idles w1 w' /\ active w') /\ forall w', idles w1 w' -> start_m w'.
Proof.
  intros Hst Hv. split; [|intros w'; by apply (start_m_next w)].
  assert (Hok : cloud_ok (p_cloud w1)) by (destruct Hv as (Hs & _); eapply staffed_ok, Hst; done).
  exists (on_cloud (settle region) w1). split; [by eapply settles_idles, settles_settle|].
  unfold active. destruct (found _ _ _) as [i|] eqn:E; [|done].
  apply (settle_active region (p_cloud w1)). exact (found_in _ _ _ _ E).
Qed.

(** The recorded instance has the machine's name, unless the user chose it. *)
Definition own (w : platform) : Prop :=
  let o := p_machine w in
  let id := MStatus_InstanceID (OVHMachine_Status o) in
  MSpec_ExistingInstanceID (OVHMachine_Spec o) = ""%string ->
  id = ""%string \/ exists i, i ∈ instances (p_cloud w) /\ Instance_ID i = id
                         /\ Instance_Name i = instance_name (scope_of w) o.

(** A found instance has it too. *)
Lemma found_own w i :
  NoDup (Instance_ID <$> instances (p_cloud w)) -> own w ->
  MSpec_ExistingInstanceID (OVHMachine_Spec (p_machine w)) = ""%string ->
  found (scope_of w) (p_machine w) (p_cloud w) = Some i ->
  Instance_Name i = instance_name (scope_of w) (p_machine w).
Proof.
  intros Hnd Hown He. unfold found. rewrite He, (decide_False (P := ""%string <> ""%string)) by by intros [].
  set (o := p_machine w). case_decide as Hid.
  2:{ by intros [H%bool_decide_eq_true _]%first_match_sound. }
  destruct (Hown He) as [?|(j & Hj & Hjid & Hn)]; [done|]. fold o in Hjid, Hn.
  destruct (lookup_instance _ _) as [j'|] eqn:E.
  - intros [= <-]. apply first_match_sound in E as [E%bool_decide_eq_true Hin].
    by rewrite (NoDup_fmap_inj_in Instance_ID _ j' j Hnd) by congruence.
  - by intros [H%bool_decide_eq_true _]%first_match_sound.
Qed.

(** The pass: it takes the machine further, or completes it, or waits for the instance. *)
Definition proceeds (w w' : platform) : Prop :=
  visited w w'
  /\ ((level_m w < 2)%nat -> (level_m w < level_m w')%nat)
  /\ (level_m w = 2%nat -> level_m w' = 2%nat /\ (active w -> complete_m w'))
  /\ (own w -> own w').

Lemma level_m_top w :
  ContainsFinalizer (Meta_Finalizers (OVHMachine_ObjectMeta (p_machine w))) MachineFinalizer = true ->
  is_Some (found (scope_of w) (p_machine w) (p_cloud w)) -> level_m w = 2%nat.
Proof. intros Hf [i Hi]. unfold level_m. by rewrite Hf, Hi. Qed.

(** A complete machine has an ACTIVE instance for the next pass. *)
Lemma complete_active w : instances_ok (p_cloud w) -> complete_m w -> active w.
Proof.
  intros [Hids Hnd] (i & Hin & Hid & Ha & _). unfold active.
  rewrite Forall_forall in Hids. specialize (Hids i Hin).
  destruct (found_recorded (scope_of w) (p_machine w) (p_cloud w) i) as [j Hj]; [done..|].
  rewrite Hj. enough (j = i) as -> by done.
  revert Hj. unfold found. rewrite decide_True by congruence. rewrite <- Hid.
  assert (is_Some (lookup_instance (Instance_ID i) (p_cloud w))) as [k Hk]
    by (apply (find_by_id Instance_ID), list_elem_of_fmap; by exists i).
  rewrite Hk. intros [= ->]. apply first_match_sound in Hk as [Hk%bool_decide_eq_true Hink].
  by apply (NoDup_fmap_inj_in Instance_ID _ j i Hnd).
Qed.

(** The object records the instance it had found. *)
Lemma own_recorded w w' i :
  instances_ok (p_cloud w) -> found (scope_of w) (p_machine w) (p_cloud w) = Some i ->
  visited w w' -> MStatus_InstanceID (OVHMachine_Status (p_machine w')) = Instance_ID i ->
  own w -> own w'.
Proof.
  intros [_ Hnd] Hf (Hst & _ & Ho & _ & _ & Hord & Hmeta) Hid Hown He. right. exists i.
  split_and!; [|done|].
  - destruct Hst as (new & ms & -> & _). apply elem_of_app. left. by eapply found_in.
  - destruct (ordered_same _ _ Hord) as (_ & _ & _ & E). rewrite E in He.
    rewrite (found_own w i Hnd Hown He Hf). unfold instance_name. cbn. rewrite Ho.
    assert (E' := f_equal Meta_Name (Hmeta [])). assert (E'' := f_equal Meta_Namespace (Hmeta [])).
    cbn in E', E''. by rewrite ?E', ?E''.
Qed.

Lemma proceeds_found w w1 i o' :
  start_m w ->
  ContainsFinalizer (Meta_Finalizers (OVHMachine_ObjectMeta (p_machine w))) MachineFinalizer = true ->
  found (scope_of w) (p_machine w) (p_cloud w) = Some i ->
  Instance_Status i = InstanceStatusActive ->
  bare_m o' = bare_m (activated (scope_of w) i (p_machine w)) -> joins w w1 ->
  (joins_pools (scope_of w) i ->
     in_pools (p_cluster w) (private_ip (Instance_IPAddresses i)) (p_cloud w1)) ->
  proceeds w (store_machine o' w1).
Proof.
  intros (_ & _ & Hr & _ & _ & _ & _ & _ & _ & _ & Hio) Hfin Hf Hact Hb Hj Hin.
  assert (Hi := found_in _ _ _ _ Hf). pose proof Hio as [Hids _]. rewrite Forall_forall in Hids.
  assert (Hmeta : OVHMachine_ObjectMeta o' = OVHMachine_ObjectMeta (p_machine w))
    by exact (f_equal OVHMachine_ObjectMeta Hb).
  assert (Hord : ordered o' = ordered (p_machine w)) by exact (f_equal ordered Hb).
  pose proof (f_equal OVHMachine_Status Hb) as Hst. injection Hst as Hrd _ _ Had _ Hid _.
  pose proof (f_equal (fun o => MSpec_ProviderID (OVHMachine_Spec o)) Hb
    : MSpec_ProviderID (OVHMachine_Spec o') = _) as Hpid. cbn in Hrd, Had, Hid, Hpid. rewrite Hr in Hpid.
  assert (Hi' : i ∈ instances (p_cloud w1)) by by destruct Hj as [ms ->].
  assert (Hlev : level_m (store_machine o' w1) = 2%nat).
  { apply level_m_top; cbn [p_machine store_machine]; [by rewrite Hmeta|].
    by apply (found_recorded _ _ _ i); [..|apply Hids]. }
  assert (Hv : visited w (store_machine o' w1)).
  { split; [by apply (joins_staffed w w1)|]. destruct Hj as [ms ->]. split_and!; try done.
    split; [done|]. intros fs. cbn [p_machine store_machine]. by rewrite Hmeta. }
  split; [exact Hv|]. split; [rewrite Hlev; lia|]. split; [|by apply (own_recorded w _ i)].
  intros _. split; [exact Hlev|]. intros _. exists i. destruct Hj as [ms ->]. by split_and!.
Qed.

(** The instance is there, and not ACTIVE. *)
Lemma proceeds_held w i o' :
  start_m w ->
  ContainsFinalizer (Meta_Finalizers (OVHMachine_ObjectMeta (p_machine w))) MachineFinalizer = true ->
  found (scope_of w) (p_machine w) (p_cloud w) = Some i ->
  Instance_Status i <> InstanceStatusActive -> held i (p_machine w) o' ->
  proceeds w (store_machine o' w).
Proof.
  intros (_ & _ & _ & _ & _ & _ & _ & _ & _ & _ & Hio) Hfin Hf Hna (Hmeta & Hspec & Hid & _).
  assert (Hi := found_in _ _ _ _ Hf). pose proof Hio as [Hids _]. rewrite Forall_forall in Hids.
  assert (Hlev : level_m (store_machine o' w) = 2%nat).
  { apply level_m_top; cbn [p_machine store_machine]; [by rewrite Hmeta|].
    by apply (found_recorded _ _ _ i); [..|apply Hids]. }
  assert (Hv : visited w (store_machine o' w)).
  { split; [done|]. split_and!; try done. split; [unfold ordered; cbn; by rewrite Hspec|].
    intros fs. cbn. by rewrite Hmeta. }
  split; [exact Hv|]. split; [rewrite Hlev; lia|]. split; [|by apply (own_recorded w _ i)].
  intros _. split; [exact Hlev|]. intros Ha. exfalso. unfold active in Ha. by rewrite Hf in Ha.
Qed.

Lemma proceeds_created w i o' :
  ContainsFinalizer (Meta_Finalizers (OVHMachine_ObjectMeta (p_machine w))) MachineFinalizer = true ->
  found (scope_of w) (p_machine w) (p_cloud w) = None -> Instance_ID i <> ""%string ->
  Instance_Name i = instance_name (scope_of w) (p_machine w) ->
  Instance_ID i ∉ Instance_ID <$> instances (p_cloud w) ->
  bare_m o' = bare_m (set_m_InstanceID (Instance_ID i) (p_machine w)) ->
  proceeds w (store_machine o' (on_cloud (add_instance i) w)).
Proof.
  intros Hfin Hf Hne Hn Hfr Hb. set (w' := store_machine o' _).
  assert (Hmeta : OVHMachine_ObjectMeta o' = OVHMachine_ObjectMeta (p_machine w))
    by exact (f_equal OVHMachine_ObjectMeta Hb).
  assert (Hord : ordered o' = ordered (p_machine w)) by exact (f_equal ordered Hb).
  assert (Hid : Instance_ID i = MStatus_InstanceID (OVHMachine_Status o'))
    by exact (eq_sym (f_equal (fun o => MStatus_InstanceID (OVHMachine_Status o)) Hb)).
  assert (Hin : i ∈ instances (p_cloud w')) by (apply elem_of_app; right; left).
  assert (Hlev : level_m w' = 2%nat).
  { apply level_m_top; cbn [p_machine w' store_machine]; [by rewrite Hmeta|].
    by apply (found_recorded _ _ _ i). }
  assert (H1 : level_m w = 1%nat) by (unfold level_m; by rewrite Hfin, Hf).
  split; [|split; [rewrite Hlev; lia | split; [rewrite H1; lia|]]].
  - split; [|split_and!; try done; split; [done|]; intros fs; cbn; by rewrite Hmeta].
    by apply staffed_create.
  - intros _ _. right. exists i. split_and!; [done..|]. rewrite Hn. unfold instance_name. cbn. by rewrite Hmeta.
Qed.

(** The first pass sets the finalizer. *)
Lemma proceeds_first w o' :
  ContainsFinalizer (Meta_Finalizers (OVHMachine_ObjectMeta (p_machine w))) MachineFinalizer = false ->
  bare_m o' = bare_m (set_m_Initialization machineInitializationNotProvisioned (set_m_Ready false
    (set_m_Finalizers (AddFinalizer (Meta_Finalizers (OVHMachine_ObjectMeta (p_machine w))) MachineFinalizer)
      (p_machine w)))) ->
  proceeds w (store_machine o' w).
Proof.
  intros Hfin Hb. pose proof (f_equal OVHMachine_ObjectMeta Hb : OVHMachine_ObjectMeta o' = _) as Hmeta.
  pose proof (f_equal OVHMachine_Status Hb) as Hst. injection Hst as _ _ _ _ _ Hid _. cbn in Hmeta, Hid.
  assert (Hord : ordered o' = ordered (p_machine w)) by exact (f_equal ordered Hb).
  assert (H0 : level_m w = 0%nat) by (unfold level_m; by rewrite Hfin).
  split; [|split; [|split; [by rewrite H0|]]].
  - split; [done|]. split_and!; try done. split; [done|]. intros fs. cbn. by rewrite Hmeta.
  - intros _. rewrite H0. unfold level_m. cbn [p_machine store_machine]. rewrite Hmeta.
    cbn [set_Finalizers Meta_Finalizers]. rewrite Contains_Add. cbn [negb]. case_match; lia.
  - intros Hown He. cbn in He |- *. rewrite Hid.
    destruct (ordered_same _ _ Hord) as (_ & _ & _ & E).
    rewrite E in He. destruct (Hown He) as [?|(i & ? & ? & Hn)]; [by left | right].
    exists i. split_and!; [done..|]. rewrite Hn. unfold instance_name. cbn. by rewrite Hmeta.
Qed.

Lemma machine_pass w :
  start_m w ->
  after (MachineController.Reconcile mns mname) w (fun r w' => returns r /\ proceeds w w').
Proof.
  intros Hst. apply after_machine_Reconcile; [done|].
  pose proof Hst as (_ & _ & _ & _ & _ & Hp & Hz & _).
  destruct (ContainsFinalizer (Meta_Finalizers (OVHMachine_ObjectMeta (p_machine w))) MachineFinalizer) eqn:Hfin.
  - apply after_machine_pass; [done..| | |].
    + intros i o' w' Hf Ha Hb Hj Hin _. split; [done|]. by apply (proceeds_found w w' i).
    + intros i o' Hf Hid Hn Hfr Hb. split; [done|]. by apply proceeds_created.
    + intros i out o' Hf Hna Hout Hh. split; [exact Hout|]. by apply (proceeds_held w i).
  - set (o := p_machine w) in *.
    unfold MachineController.reconcile_normal_body. apply after_m_bind, after_get. cbn [fst snd].
    assert (Hp' : IsPaused (p_owner w) (OVHMachine_ObjectMeta o) = false).
    { rewrite <- (Hp (Meta_Finalizers (OVHMachine_ObjectMeta o))). fold o. f_equal.
      by destruct (OVHMachine_ObjectMeta o). }
    cbn [MScope_Cluster scope_of]. rewrite Hp', Hfin, Hz. cbn [negb andb IsZero].
    do 3 (apply after_m_bind, after_modify; cbn [fst snd]). apply after_m_ret. cbn [fst snd].
    split; [done|]. by apply proceeds_first.
Qed.

(** What the passes start from, at a level. *)
Definition under_way (l : nat) (w : platform) : Prop := start_m w /\ level_m w = l.

(** One pass completes the machine, or takes it further, or waits. *)
Lemma machine_pass_progress l w :
  under_way l w ->
  after (MachineController.Reconcile mns mname) w (fun r w' => returns r /\ visited w w'
    /\ (complete_m w' \/ exists l', (l <= l' <= 2)%nat /\ (active w -> (l < l')%nat)
         /\ (exists w'', idles w' w'' /\ active w'')
         /\ forall w'', idles w' w'' -> under_way l' w'')).
Proof.
  intros [Hst <-]. eapply after_mono; [by apply machine_pass|]. intros r w' (Hr & Hv & Hlt & Htop & _).
  assert (Hle : forall w, (level_m w <= 2)%nat) by (intros v; unfold level_m; repeat case_match; lia).
  split; [done|]. split; [done|]. destruct (restarts w w' Hst Hv) as [Hex Hall].
  assert (Hgo : (level_m w <= level_m w')%nat -> (active w -> (level_m w < level_m w')%nat) ->
    exists l', (level_m w <= l' <= 2)%nat /\ (active w -> (level_m w < l')%nat)
         /\ (exists w'', idles w' w'' /\ active w'')
         /\ forall w'', idles w' w'' -> under_way l' w'').
  { intros H1 H2. exists (level_m w'). split_and!; [done | apply Hle | done..|].
    intros w'' Hi. split; [by apply Hall | by apply level_m_idles]. }
  destruct (decide (level_m w = 2%nat)) as [E|E].
  - destruct (Htop E) as [E' Hc]. destruct (decide (active w)); [left; auto | right; apply Hgo; [lia | done]].
  - right. assert (level_m w < level_m w')%nat by (apply Hlt; specialize (Hle w); lia).
    apply Hgo; [lia | done].
Qed.

(** C3: an [OVHMachine] becomes ready, once its instance is ACTIVE. Let a machine be
    neither paused nor deleted, its cluster's infrastructure ready, the identity secret
    complete, and what the specification names exist: the flavor, the image, the SSH
    key, the bootstrap data, and the instance to adopt, if it names one; let the IDs of
    the project's instances be unique. Between the passes nobody touches the objects,
    and nothing is added to the project or removed from it; the provider works at
    whatever pace, and makes of the instances' states and addresses what it likes.
    Whatever ID is recorded, no pass fails or panics until the machine is complete; and
    of the passes that find no instance or an ACTIVE one the third, or an earlier one,
    completes it: it runs on an ACTIVE instance, [Ready], the provider ID and the
    addresses are those of the instance, and a control plane machine is a member of the
    API server's pool and of the register pool, if these exist and the instance has a
    private IPv4 address. Passes that find the instance in another state, BUILD or ERROR
    say, do not count: if it never becomes ACTIVE, only that they return is claimed. *)
Theorem machine_converges w k :
  start_m w ->
  paced returns active idles k 2 (MachineController.Reconcile mns mname) complete_m w.
Proof.
  intros Hst. apply (paced_by_level _ _ _ _ _ under_way 2) with (level_m w); [|done|lia].
  intros l w' Hw'. eapply after_mono; [by apply machine_pass_progress|]. by intros r w'' (? & _ & ?).
Qed.

(** The passes over a machine leave its cluster complete. *)
Lemma complete_visited spec w w' : complete spec w -> visited w w' -> complete spec w'.
Proof.
  destruct w, w'. unfold visited. cbn. intros H ((new & ms & -> & _) & -> & -> & -> & _). exact H.
Qed.

(** The endpoint leads to the machine: it is an address of the project, that of a
    floating IP or of a load balancer as the cluster asks for; and on the load balancer
    that has this address the API server's pool has the private address of the ACTIVE
    instance the machine runs on, at the API server's port. *)
Definition reachable (w : platform) : Prop :=
  let oc := p_cluster w in
  exists ip lb pool i,
    address oc (p_cloud w) ip
    /\ CSpec_ControlPlaneEndpoint (OVHCluster_Spec oc) = mkAPIEndpoint ip apiServerLBPort
    /\ find_lb (lb_id oc) (p_cloud w) = Some lb
    /\ pool ∈ pools (p_cloud w) /\ Pool_Name pool = "api-server-pool"%string
    /\ Pool_LoadBalancerID pool = LoadBalancer_ID lb
    /\ i ∈ instances (p_cloud w) /\ Instance_Status i = InstanceStatusActive
    /\ Instance_ID i = MStatus_InstanceID (OVHMachine_Status (p_machine w))
    /\ (private_ip (Instance_IPAddresses i) <> ""%string ->
        has_member (Pool_ID pool) (private_ip (Instance_IPAddresses i)) apiServerPort (p_cloud w)).

Lemma complete_reachable spec w :
  APIEndpoint_Host (CSpec_ControlPlaneEndpoint spec) = ""%string ->
  IsControlPlaneMachine (p_owner_machine w) = true ->
  complete spec w -> complete_m w -> reachable w.
Proof.
  intros Hh Hcp ((_ & Ht & _) & (Hb & _) & He) (i & Hin & Hid & Hact & _ & _ & _ & Hj).
  destruct (He Hh) as (ip & Ha & Hep). destruct Ht as (_ & Hlb & (_ & Hp) & _).
  destruct Hb as (_ & _ & Hne & _ & ((_ & Hpool & _) & _) & _). destruct (Hlb Hne) as [lb Hf].
  destruct (Hp Hpool) as (_ & pool & Hpin & Hpid & Hpn & Hplb).
  exists ip, lb, pool, i. pose proof Hf as [Hlbid%bool_decide_eq_true _]%first_match_sound.
  split_and!; try done; [by rewrite Hplb|]. intros Hip. rewrite Hpid. by apply Hj.
Qed.

(** C4: from a ready cluster to a reachable control plane. Let a cluster be complete,
    the user have given no host for its endpoint, and a control plane machine of it be
    as for [machine_converges] (not paused, not deleted, what it names exists). Between
    the passes nobody touches the objects, nothing is added to the project or removed
    from it, and the provider works at whatever pace. The third, or an earlier one, of
    the passes over the machine that find no instance or an ACTIVE one ends with the
    cluster still complete, the machine complete, and an endpoint that is the address of
    the load balancer (that of its floating IP, if the cluster asks for one); the API
    server's pool of this load balancer has the private address of the machine's ACTIVE
    instance as a member, if the instance has a private IPv4 address. Without such an
    address no membership is claimed, and nothing while the instance is not ACTIVE. *)
Theorem control_plane_reachable spec w k :
  start_m w -> complete spec w ->
  APIEndpoint_Host (CSpec_ControlPlaneEndpoint spec) = ""%string ->
  IsControlPlaneMachine (p_owner_machine w) = true ->
  paced returns active idles k 2 (MachineController.Reconcile mns mname)
    (fun w' => complete spec w' /\ complete_m w' /\ reachable w') w.
Proof.
  intros Hst Hc Hh Hcp.
  apply (paced_by_level _ _ _ _ _ (fun l w => under_way l w /\ complete spec w
           /\ IsControlPlaneMachine (p_owner_machine w) = true) 2) with (level_m w); [|done|lia].
  intros l w1 (Hw1 & Hc1 & Hcp1). eapply after_mono; [by apply machine_pass_progress|].
  intros r w2 (Hr & Hb & H2). split; [exact Hr|].
  assert (Hc2 := complete_visited _ _ _ Hc1 Hb).
  assert (Hcp2 : IsControlPlaneMachine (p_owner_machine w2) = true) by by destruct Hb as (_ & _ & _ & -> & _).
  destruct H2 as [H2|(l' & Hl & Hlt & Hex & Hs)].
  - left. split_and!; [apply Hc2.. | exact H2 |]. by eapply complete_reachable.
  - right. exists l'. split_and!; [lia | lia | done..|]. intros w3 Hs3. split; [by apply Hs|].
    split; [by eapply complete_idles|]. destruct Hs3 as (Hob & _). by injection Hob as _ _ _ -> _.
Qed.

(** C11: and a machine that runs stays as it is. Let a machine be as for
    [machine_converges] (not paused, not deleted, its cluster's infrastructure ready,
    what it names existing), have its finalizer, and be found on an ACTIVE instance that
    the object already reports: the ID, the addresses and the provider ID are the
    instance's, [Ready] and the initialization are set; and let a control plane machine
    with a private address be in its pools. A pass over it then returns with nothing
    more to do, changes nothing of the platform, and of the object at most conditions
    and member IDs. *)
Theorem machine_stable w i :
  start_m w -> Instance_Status i = InstanceStatusActive ->
  ContainsFinalizer (Meta_Finalizers (OVHMachine_ObjectMeta (p_machine w))) MachineFinalizer = true ->
  found (scope_of w) (p_machine w) (p_cloud w) = Some i ->
  bare_m (activated (scope_of w) i (p_machine w)) = bare_m (p_machine w) ->
  (joins_pools (scope_of w) i ->
     in_pools (p_cluster w) (private_ip (Instance_IPAddresses i)) (p_cloud w)) ->
  after (MachineController.Reconcile mns mname) w (fun r w' => r = Returned done_
    /\ exists o', bare_m o' = bare_m (p_machine w) /\ w' = store_machine o' w).
Proof.
  intros Hst Ha Hfin Hf Hb Hj. apply after_machine_Reconcile; [done|].
  apply after_machine_pass; [done..| | |].
  - intros i' o' w' Hf' _ Hb' _ _ Hq. rewrite Hf in Hf'. injection Hf' as <-. cbn [fst snd].
    split; [done|]. exists o'. rewrite (Hq Hj). split; [congruence | done].
  - intros i' o' Hf'. by rewrite Hf in Hf'.
  - intros i' out o' Hf' Hna. rewrite Hf in Hf'. by injection Hf' as <-.
Qed.
End passes.
