(* ===== verification/Faults.v ===== *)
(** * Passes that fail, or are cut off

    The convergence theorems are about a platform on which every call succeeds. Here
    calls fail, lie or lose their answer, and the process may die between any two of
    them. Whatever such a pass over a machine leaves, the next pass can start from. *)

From S2P Require Import Prelude GoStrings Errors OvhTypes ApiTypes Effects Client Names Logic.
From S2P Require Import ClientFacts ClusterController MachineController ClusterFacts MachineFacts.
From S2P Require Import Platform PlatformLaws ClusterInvariant ClusterConvergence MachineConvergence.

Local Open Scope Z_scope.

(** ** Runs that are cut off *)

Section cut.
Context `{P : Platform}.

(** [w'] is what a run of [p] from [w] leaves when it ends, or dies between two
    calls. *)
Fixpoint cut_off {A} (p : prog A) (w w' : platform) : Prop :=
  w' = w \/ match p with
            | Ret _ => False
            | Vis e k => exists r w1, step w e r w1 /\ cut_off (k r) w1 w'
            end.

Lemma runs_cut_off {A} (p : prog A) w a w' : runs p w a w' -> cut_off p w w'.
Proof.
  induction p as [x|e k IH] in w |- *; cbn; [intros [_ ->]; by left|].
  intros (r & w1 & Hs & Hr). right. eauto.
Qed.

(** What all calls keep is kept at every moment. *)
Lemma cut_off_only {A} (E : event -> Prop) (R : platform -> platform -> Prop) `{!PreOrder R}
    (p : prog A) w w' :
  only E p -> (forall w e r w1, E e -> step w e r w1 -> R w w1) -> cut_off p w w' -> R w w'.
Proof.
  intros Hp HR. induction p as [x|e k IH] in w, Hp |- *; cbn; intros [->|H]; try done.
  destruct Hp as [He Hk], H as (r & w1 & Hs & Hc). transitivity w1; [by eapply HR|]. by eapply IH.
Qed.
End cut.

(** The calls of a continuation, given what the object has become. *)
Lemma only_bind_keeps {S A B} (E : event -> Prop) (R : S -> S -> Prop) (m : M S A) s
    (f : A * S -> prog B) :
  only E (m s) -> keeps R m -> (forall r, R s r.2 -> only E (f r)) -> only E (m s ≫= f).
Proof.
  intros Hm Hk Hf. specialize (Hk s). revert Hm Hk. generalize (m s). intros p.
  induction p as [x|e k IH]; cbn; [auto|]. intros [He Hp] Hw. split; [done|].
  intros r. by apply IH.
Qed.

(** ** What a pass over a machine may ask for *)

Section faults.
Context `{U : Unicode} `{C : CAPI}.

Definition asks (rq : request) : Prop :=
  req_method rq = GET \/ (exists c opts, rq = instance_create c opts)
  \/ exists c pool opts, rq = member_create c pool opts.

(** The object [o] may be saved, as one that is alike. *)
Definition mild (o : OVHMachine) (e : event) : Prop :=
  match e with
  | EApi rq => asks rq
  | EPatchCluster _ => False
  | EPatchMachine o' => alike o o'
  | _ => True
  end.

Lemma normal_mild scope o : only_m (mild o) (MachineController.ReconcileNormal scope).
Proof.
  repeat only_rule; try done; try by left.
  all: right; first [by left; eexists _, _ | by right; eexists _, _, _].
Qed.

Lemma normal_alike scope : keeps alike (MachineController.ReconcileNormal scope).
Proof. auto with prog. Qed.

Lemma delete_alike scope : keeps alike (MachineController.ReconcileDelete scope).
Proof. auto with prog. Qed.

Lemma body_alike : keeps alike MachineController.reconcile_body.
Proof.
  repeat lazymatch goal with
  | |- keeps _ (MachineController.ReconcileNormal _) => apply normal_alike
  | |- keeps _ (MachineController.ReconcileDelete _) => apply delete_alike
  | _ => keeps_rule
  end.
Qed.

Lemma body_mild o :
  Meta_DeletionTimestamp (OVHMachine_ObjectMeta o) = None ->
  only (mild o) (MachineController.reconcile_body o).
Proof.
  intros Hz. unfold MachineController.reconcile_body. rewrite get_bind, Hz. cbn [IsZero negb].
  apply only_bind_at; [by repeat only_rule|]. intros owner.
  repeat lazymatch goal with
  | |- only_m _ (MachineController.ReconcileNormal _) => apply normal_mild
  | _ => only_rule
  end; done.
Qed.

(** ** A platform with faults

    Calls answer what they please. A call that is to change something may have done
    so or not, whatever it answers; an object that is read is the current one. *)

Class MachineFaults (P : Platform) (ns name : string) := {
  fault_read rq w r w' : req_method rq = GET -> step w (EApi rq) r w' -> w' = w;
  fault_create c opts w r w' : step w (EApi (instance_create c opts)) r w' ->
    w' = w \/ exists i, Instance_ID i <> ""%string
                /\ Instance_ID i ∉ Instance_ID <$> instances (p_cloud w)
                /\ w' = on_cloud (add_instance i) w;
  fault_join c pool opts w r w' : step w (EApi (member_create c pool opts)) r w' ->
    w' = w \/ exists pool' m, w' = on_cloud (add_member pool' m) w;
  fault_patch o w r w' : step w (EPatchMachine o) r w' -> w' = w \/ w' = store_machine o w;
  fault_object w r w' : step w (EGetOVHMachine ns name) r w' ->
    w' = w /\ forall o, r = Ok o -> o = p_machine w;
  fault_rest e w r w' :
    match e with EApi _ | EPatchCluster _ | EPatchMachine _ => False | _ => True end ->
    step w e r w' -> w' = w;
}.

Context {P : Platform} (ns name : string) `{Fl : !MachineFaults P ns name}.

(** From a machine that is [o0] but for what a pass sets. *)
Definition visited_from (o0 : OVHMachine) (w w' : platform) : Prop :=
  alike o0 (p_machine w) /\ alike (p_machine w) o0 -> visited w w'.

Lemma alike_sym o o' : alike o o' -> alike o' o.
Proof. intros [E Ef]. split; [by symmetry|]. intros fs. by rewrite Ef. Qed.

#[local] Instance visited_from_preorder o0 : PreOrder (visited_from o0).
Proof.
  split; [by intros w _|]. intros w1 w2 w3 H1 H2 Ho. pose proof (H1 Ho) as Hv. transitivity w2; [done|].
  apply H2. destruct Hv as (_ & _ & _ & _ & _ & Ha), Ho as [Ho Ho'].
  split; etransitivity; eauto using alike_sym.
Qed.

Lemma mild_step o0 w e r w' : mild o0 e -> step w e r w' -> visited_from o0 w w'.
Proof.
  intros He Hs. pose proof (fault_rest e w r w') as Hrest.
  destruct e; try (rewrite (Hrest I Hs); reflexivity); cbn in He.
  - intros _. destruct He as [Hg|[(c & opts & ->)|(c & pool & opts & ->)]].
    + by rewrite (fault_read _ _ _ _ Hg Hs).
    + destruct (fault_create _ _ _ _ _ Hs) as [->|(i & Hne & Hnew & ->)]; [done|].
      split_and!; try done. by apply staffed_create.
    + destruct (fault_join _ _ _ _ _ _ Hs) as [->|(pool' & m & ->)]; [done|].
      split_and!; try done. apply (joins_staffed w), joins_add.
  - done.
  - intros [Ho Ho']. destruct (fault_patch _ _ _ _ Hs) as [->| ->]; [done|].
    split_and!; try done. cbn. by transitivity o0.
Qed.

(** Wherever a pass over a machine that lives is cut off, it has only made what a
    pass may make. *)
Lemma faulty_pass w w' :
  Meta_DeletionTimestamp (OVHMachine_ObjectMeta (p_machine w)) = None ->
  cut_off (MachineController.Reconcile ns name) w w' -> visited w w'.
Proof.
  intros Hz [->|(r & w1 & Hs & Hc)]; [done|]. destruct (fault_object _ _ _ Hs) as [-> Hr].
  destruct r as [o|err].
  - rewrite (Hr o eq_refl) in Hc. set (o0 := p_machine w) in *.
    refine (cut_off_only (mild o0) (visited_from o0) _ w w' _ (mild_step o0) Hc _); [|by split].
    split; [done|]. intros [helper|err]; [|done].
    apply (only_bind_keeps _ alike); [by apply body_mild | by apply body_alike |].
    intros [out o'] Ha. by repeat only_rule.
  - cbn in Hc. destruct (kube_IsNotFound err); by destruct Hc as [->|[]].
Qed.
End faults.
