(* ===== verification/ClusterFaults.v ===== *)
(** * A cluster whose passes fail, or are cut off

    The convergence theorem is about a platform on which every call succeeds. Here a call
    may fail before or after it took effect, and the process may die between any two
    calls. Whatever such passes leave of a cluster, it becomes ready once calls
    succeed again. *)

From S2P Require Import Prelude GoStrings Errors OvhTypes ApiTypes Effects Client Names Logic.
From S2P Require Import ClientFacts ClusterController ClusterFacts ClusterStepFacts Platform.
From S2P Require Import PlatformLaws ClusterInvariant ClusterConvergence Faults.

Local Open Scope Z_scope.

(** ** Calls that fail *)

Section faults.
Context `{U : Unicode}.

(** The request for one load balancer. *)
Definition reads_one_lb (c : Client) (rq : request) : Prop :=
  exists id, rq = reading (regionPath c "/loadbalancing/loadbalancer/%s" [AS id]) TLoadBalancer.

(** [r] is an error, or an owner that is not found. Any call may fail with any error;
    only the request for one load balancer does with an error of the API that is not
    404, which the controller would take for its removal. *)
Definition fault (c : Client) (e : event) : answer e -> Prop :=
  match e with
  | EApi rq => fun r => exists err, r = Err err
      /\ (reads_one_lb c rq -> exists code text, err = EAPI code text /\ code <> StatusNotFound)
  | EGetOwnerCluster _ => fun r => r = Ok None \/ exists err, r = Err err
  | EGetOVHCluster _ _ | EGetSecret _ _ | ENewGoovh _ _ _ _ | ENewClusterPatch _ | EPatchCluster _ =>
      fun r => exists err, r = Err err
  | _ => fun _ => False
  end.

(** The platform [P] with faults: a call that fails may have done its work. *)
Definition faulty (P : Platform) (c : Client) : Platform := fun w e r w' =>
  step w e r w' \/ (fault c e r /\ (w' = w \/ exists r0, step w e r0 w')).

(** ** Retries *)

(** What every attempt keeps, and what the last one answers. *)
Lemma after_retry_inv {P : Platform} op rq (I : platform -> Prop)
    (Post : res (den (req_out rq)) -> platform -> Prop) w :
  I w ->
  (forall d w r w', I w -> step w (ESleep d) r w' -> I w') ->
  (forall w r w', I w -> step w (EApi rq) r w' -> I w' /\ Post r w') ->
  (forall w e, Post (Err e) w ->
     Post (Err (Errorf "%s failed after %d retries: %w" [AS op; AZ (Z.of_nat maxRetries); AE e])) w) ->
  after (retryWithBackoff op (call (EApi rq))) w (fun r w' => I w' /\ Post r w').
Proof.
  intros HI Hsl Hrq Hwrap. unfold retryWithBackoff. generalize 0%nat. revert w HI.
  generalize maxRetries. intros left. induction left as [|left IH]; intros w HI attempt;
    cbn [retry_loop]; apply after_bind, after_call; intros r w1 Hs;
    destruct (Hrq _ _ _ HI Hs) as [HI1 HP]; destruct r as [a|e]; try (split; [exact HI1 | exact HP]).
  - case_match; (split; [exact HI1|]); [exact HP | by apply Hwrap].
  - case_match; [by split|]. apply after_bind, after_call. intros r w2 Hs2. apply IH. by eapply Hsl.
Qed.

End faults.

(** ** Programs that may be cut off

    Every run of [p] from [w] that ends, ends in [Q], and wherever it is cut off the
    platform is related to [w] by [R]. *)

Section guarded.
Context {P : Platform} (R : platform -> platform -> Prop) `{!PreOrder R}.

Definition guarded {A} (p : prog A) (w : platform) (Q : A -> platform -> Prop) : Prop :=
  (forall w', cut_off p w w' -> R w w') /\ after p w Q.

Lemma cut_off_bind {A B} (p : prog A) (f : A -> prog B) w w' :
  cut_off (p ≫= f) w w' ->
  cut_off p w w' \/ exists a w1, runs p w a w1 /\ cut_off (f a) w1 w'.
Proof.
  induction p as [x|e k IH] in w |- *; cbn.
  - intros H. right. by exists x, w.
  - intros [->|(r & w1 & Hs & [H|(a & w2 & Hr & Hc)]%IH)]; [by left; left | |].
    + left. right. eauto.
    + right. exists a, w2. eauto 6.
Qed.

Lemma guarded_ret {A} (a : A) w (Q : A -> platform -> Prop) : Q a w -> guarded (mret a) w Q.
Proof. intros HQ. split; [by intros w' [->|[]]|exact HQ]. Qed.

Lemma guarded_mono {A} (p : prog A) w (Q Q' : A -> platform -> Prop) :
  guarded p w Q -> (forall a w', R w w' -> Q a w' -> Q' a w') -> guarded p w Q'.
Proof.
  intros [Hc Ha] HQ. split; [exact Hc|]. apply after_runs. intros a w' Hr.
  apply HQ; [by eapply Hc, runs_cut_off|]. by apply (proj1 (after_runs _ _ _) Ha).
Qed.

Lemma guarded_bind {A B} (p : prog A) (f : A -> prog B) w (Q : B -> platform -> Prop) :
  guarded p w (fun a w' => guarded (f a) w' Q) -> guarded (p ≫= f) w Q.
Proof.
  intros [Hc Ha]. split.
  - intros w' [H|(a & w1 & Hr & H)]%cut_off_bind; [by apply Hc|].
    transitivity w1; [by eapply Hc, runs_cut_off|].
    apply (proj1 (proj1 (after_runs _ _ _) Ha a w1 Hr)), H.
  - apply after_bind. eapply after_mono; [exact Ha|]. by intros a w' [_ H].
Qed.

(** Calls that keep [R], whatever they answer. *)
Definition steady_call (e : event) : Prop := forall w r w', step w e r w' -> R w w'.

Lemma guarded_only {A} (p : prog A) w (Q : A -> platform -> Prop) :
  only steady_call p -> after p w Q -> guarded p w Q.
Proof.
  intros Hp Ha. split; [|exact Ha]. intros w' Hc.
  eapply (cut_off_only steady_call R); [exact Hp | | exact Hc]. intros w1 e r w2 He. apply He.
Qed.
End guarded.

(** ** What a pass may do to the platform *)

(** The project has all it had, and its entries stay sound; the objects of the
    management cluster are as they were. *)
Definition enlarges (w w' : platform) : Prop :=
  objects w' = objects w /\ grows (p_cloud w) (p_cloud w')
  /\ (cloud_ok (p_cloud w) -> cloud_ok (p_cloud w')).

#[export] Instance enlarges_preorder : PreOrder enlarges.
Proof.
  split.
  - intros w. by split.
  - intros w1 w2 w3 (Ho & Hg & Hk) (Ho' & Hg' & Hk'). split_and!; [congruence | by etransitivity | auto].
Qed.

Lemma enlarges_add f w :
  grows (p_cloud w) (f (p_cloud w)) -> (cloud_ok (p_cloud w) -> cloud_ok (f (p_cloud w))) ->
  enlarges w (on_cloud f w).
Proof. by split. Qed.

Section calls.
Context `{U : Unicode} {P : Platform} {client : Client} `{N : !NetworkLaws client}.

#[local] Notation tame := (@steady_call (faulty P client) enlarges).

(** A fault does nothing the call would not do. *)
Lemma tame_call e : (forall w r w', step w e r w' -> enlarges w w') -> tame e.
Proof. intros H w r w' [Hs|[_ [->|[r0 Hs]]]]; [by eapply H | done | by eapply H]. Qed.

Lemma tame_idle e : idle e -> tame e.
Proof. intros H. apply tame_call. by intros w r w' ->%H. Qed.

Lemma tame_inert e good : inert e good -> tame e.
Proof. intros H. by eapply tame_idle, inert_idle. Qed.

Lemma tame_reads rq good : reads rq good -> tame (api rq).
Proof. intros H. apply tame_idle. by intros w r w' [-> _]%H. Qed.

Lemma tame_fetches rq find : fetches rq find -> tame (api rq).
Proof. intros H. apply tame_idle. by intros w r w' [-> _]%H. Qed.

Lemma tame_makes rq good add :
  makes rq good add -> (forall x c, grows c (add x c)) ->
  (forall x c, good x -> cloud_ok c -> cloud_ok (add x c)) -> tame (api rq).
Proof.
  intros H Hg Hk. apply tame_call. intros w r w' (x & _ & Hx & ->)%H.
  apply enlarges_add; [apply Hg | by apply Hk].
Qed.

(** The requests of a pass. *)
Ltac tame_make law ok :=
  eapply tame_makes; [apply law | by repeat split; try apply prefix_app_r |
    intros ? ? Hx ?; apply ok; first [assumption | apply Hx]].

Lemma tame_make_network o :
  tame (api (posting (projectPath client "/network/private" []) (BNetwork o) TPrivateNetwork)).
Proof. tame_make net_make ok_add_network. Qed.

Lemma tame_make_subnet id o :
  tame (api (posting (projectPath client "/network/private/%s/subnet" [AS id]) (BSubnet o) TSubnet)).
Proof. tame_make net_make_subnet ok_add_subnet. Qed.

Lemma tame_make_listener o :
  tame (api (posting (regionPath client "/loadbalancing/listener" []) (BListener o) TListener)).
Proof. tame_make net_make_listener ok_add_listener. Qed.

Lemma tame_make_pool o :
  tame (api (posting (regionPath client "/loadbalancing/pool" []) (BPool o) TPool)).
Proof. tame_make net_make_pool ok_add_pool. Qed.

Lemma tame_make_monitor o :
  tame (api (posting (regionPath client "/loadbalancing/healthMonitor" []) (BHealthMonitor o) THealthMonitor)).
Proof. eapply tame_makes; [apply net_make_monitor | by repeat split; try apply prefix_app_r | done]. Qed.

Lemma tame_make_group o :
  tame (api (posting (regionPath client "/network/security/group" []) (BSecurityGroup o) TSecurityGroup)).
Proof. tame_make net_make_group ok_add_group. Qed.

Lemma tame_make_lb o :
  tame (api (posting (regionPath client "/loadbalancing/loadbalancer" []) (BLoadBalancer o) TAny)).
Proof.
  apply tame_call. intros w r w' (_ & lb & Hid & _ & Hno & ->)%net_make_lb.
  apply enlarges_add; [by repeat split; try apply prefix_app_r | by apply ok_add_lb].
Qed.

Lemma tame_make_fip lb ip model gw :
  tame (api (posting (regionPath client "/loadbalancing/loadbalancer/%s/floatingIp" [AS lb])
    (BLBFloatingIP ip model gw) TFloatingIP)).
Proof.
  apply tame_call. intros w r w' [[-> _]|(_ & Hno & f & gs & Hid & Hnew & Hof & ->)]%net_make_fip; [done|].
  apply enlarges_add; [by apply grows_address | by eapply ok_address].
Qed.

Lemma tame_expose id :
  tame (api (posting (regionPath client "/gateway/%s/expose" [AS id]) NoBody TNone)).
Proof.
  apply tame_call. intros w r w' (gs & E & ->)%net_expose. apply enlarges_add; [by apply grows_gateways | done].
Qed.
End calls.

(** Each request of a pass has its law. *)
Ltac tame_tac :=
  lazymatch goal with
  | K : KubeLaws ?ns ?name |- steady_call _ (ESleep _) => apply tame_idle, (idle_sleep ns name)
  | K : KubeLaws ?ns ?name |- steady_call _ (EMetric _) => apply tame_idle, (idle_metric ns name)
  | |- steady_call _ (EApi _) =>
      first
        [ exact (tame_reads _ _ net_regions) | exact (tame_idle _ net_region)
        | exact (tame_fetches _ _ (net_read _)) | exact (tame_make_network _)
        | exact (tame_reads _ _ (net_subnets _)) | exact (tame_make_subnet _ _)
        | exact (tame_reads _ _ net_flavors) | exact (tame_reads _ _ net_lbs)
        | exact (tame_fetches _ _ (net_lb _)) | exact (tame_make_lb _)
        | exact (tame_reads _ _ net_listeners) | exact (tame_make_listener _)
        | exact (tame_reads _ _ net_pools) | exact (tame_make_pool _)
        | exact (tame_reads _ _ net_monitors) | exact (tame_make_monitor _)
        | exact (tame_reads _ _ net_fips) | exact (tame_fetches _ _ (net_fip _))
        | exact (tame_make_fip _ _ _ _) | exact (tame_reads _ _ net_gateways) | exact (tame_expose _)
        | exact (tame_reads _ _ net_groups) | exact (tame_make_group _)
        | exact (tame_idle _ (net_make_rule _ _)) | exact (tame_reads _ _ (net_make_record _ _))
        | exact (tame_idle _ (net_refresh _)) ]
  end.

Ltac tame_prog := repeat only_rule; tame_tac.

Section answers.
Context `{U : Unicode} {P : Platform} (client : Client) `{N : !NetworkLaws client}.

(** *** What answers mean *)

(** An answer without an error satisfies [Post]. *)
Definition answers {A} (Post : A -> platform -> Prop) (r : res A) (w : platform) : Prop :=
  forall a, r = Ok a -> Post a w.

#[local] Notation fafter := (@after (faulty P client)).

Lemma after_answers op rq (Post : den (req_out rq) -> platform -> Prop) w :
  (forall w r w', step w (api rq) r w' -> answers Post r w') ->
  fafter (retryWithBackoff op (call (EApi rq))) w (answers Post).
Proof.
  intros H. eapply after_mono; [apply (after_retry_inv (P := faulty P client) _ _ (fun _ => True) (answers Post))|].
  - done.
  - done.
  - intros w0 r w' _ [Hs|[(err & -> & _) _]]; [split; [done|]; by eapply H | by split].
  - done.
  - by intros r w' [_ Hr].
Qed.

Lemma reads_answers op rq good (Post : den (req_out rq) -> platform -> Prop) w :
  reads rq good -> (forall w x, good w x -> Post x w) ->
  fafter (retryWithBackoff op (call (EApi rq))) w (answers Post).
Proof. intros H HP. apply after_answers. intros w0 r w' [-> (x & -> & Hx)]%H a [= <-]. by apply HP. Qed.

Lemma makes_answers op rq good add (Post : den (req_out rq) -> platform -> Prop) w :
  makes rq good add -> (forall w x, good x -> Post x (on_cloud (add x) w)) ->
  fafter (retryWithBackoff op (call (EApi rq))) w (answers Post).
Proof.
  intros H HP. apply after_answers. intros w0 r w' (x & -> & Hx & ->)%H a [= <-]. by apply HP.
Qed.

Lemma answers_wrap {A} g (p : prog (res A)) w Post :
  fafter p w (answers Post) -> fafter (wrap_err g p) w (answers Post).
Proof.
  intros H. apply after_wrap. eapply after_mono; [exact H|]. intros [a|e] w' Ha; [exact Ha | by intros a].
Qed.

Lemma answers_try {A B} (p : prog (res A)) (f : A -> prog (res B)) w Mid Post :
  fafter p w (answers Mid) -> (forall a w', Mid a w' -> fafter (f a) w' (answers Post)) ->
  fafter (try_bind p f) w (answers Post).
Proof.
  intros H Hf. apply after_try. eapply after_mono; [exact H|].
  intros [a|e] w' Ha; [by apply Hf, Ha | by intros a].
Qed.

Lemma CreatePrivateNetwork_answers opts w :
  fafter (CreatePrivateNetwork client opts) w
    (answers (fun n w' => is_Some (find_network (PrivateNetwork_ID n) (p_cloud w')))).
Proof. apply answers_wrap. eapply makes_answers; [apply net_make|]. intros w0 n _. apply find_added. Qed.

Lemma FindListenerByName_answers lb n w :
  fafter (FindListenerByName client lb n) w
    (answers (fun found w' => forall l, found = Some l -> has_listener n lb (Listener_ID l) (p_cloud w'))).
Proof.
  eapply (answers_try _ _ _ (fun (xs : list Listener) w' => xs = listeners (p_cloud w'))).
  { eapply answers_wrap, reads_answers; [apply net_listeners | done]. }
  intros xs w' -> a [= <-] l [[Hn Hin]%bool_decide_eq_true Hl]%first_match_sound. by exists l.
Qed.

Lemma CreateListener_answers opts w :
  fafter (CreateListener client opts) w
    (answers (fun l w' => has_listener (CreateListenerOpts_Name opts)
      (CreateListenerOpts_LoadBalancerID opts) (Listener_ID l) (p_cloud w'))).
Proof.
  apply answers_wrap. eapply makes_answers; [apply net_make_listener|]. intros w0 l (_ & Hn & Hin).
  exists l. split; [|done]. apply elem_of_app. right. left.
Qed.

Lemma FindPoolByName_answers lb n w :
  fafter (FindPoolByName client lb n) w
    (answers (fun found w' => forall p, found = Some p -> has_pool n lb (Pool_ID p) (p_cloud w'))).
Proof.
  eapply (answers_try _ _ _ (fun (xs : list Pool) w' => xs = pools (p_cloud w'))).
  { eapply answers_wrap, reads_answers; [apply net_pools | done]. }
  intros xs w' -> a [= <-] l [[Hn Hin]%bool_decide_eq_true Hl]%first_match_sound. by exists l.
Qed.

Lemma CreatePool_answers opts w :
  fafter (CreatePool client opts) w
    (answers (fun p w' => has_pool (CreatePoolOpts_Name opts) (CreatePoolOpts_LoadBalancerID opts)
      (Pool_ID p) (p_cloud w'))).
Proof.
  apply answers_wrap. eapply makes_answers; [apply net_make_pool|]. intros w0 l (_ & Hn & Hin).
  exists l. split; [|done]. apply elem_of_app. right. left.
Qed.

Definition lb_exists (lb : LoadBalancer) (w : platform) : Prop :=
  is_Some (find_lb (LoadBalancer_ID lb) (p_cloud w)).

Lemma findLoadBalancerByName_answers n w :
  fafter (findLoadBalancerByName client n) w
    (answers (fun found w' => forall lb, found = Some lb -> lb_exists lb w')).
Proof.
  eapply (answers_try _ _ _ (fun (xs : list LoadBalancer) w' => xs = lbs (p_cloud w'))).
  { eapply reads_answers; [apply net_lbs | done]. }
  intros xs w' -> a [= <-] l [_ Hl]%first_match_sound. apply find_by_id, list_elem_of_fmap. eauto.
Qed.

Lemma poll_answers n attempt left w :
  fafter (poll_lb client n attempt left) w (answers lb_exists).
Proof.
  revert attempt w. induction left as [|left IH]; intros attempt w; cbn [poll_lb]; [by intros a|].
  eapply answers_try; [apply answers_wrap, findLoadBalancerByName_answers|].
  intros [lb|] w' Hlb; [by intros a [= <-]; apply Hlb|]. apply after_bind, after_call.
  intros r w1 _. apply IH.
Qed.

Lemma CreateLoadBalancer_answers opts w :
  fafter (CreateLoadBalancer client opts) w (answers lb_exists).
Proof.
  unfold CreateLoadBalancer. apply after_bind. eapply after_mono; [apply findLoadBalancerByName_answers|].
  assert (Hnew : forall w', fafter
    (_ ←? wrap_err (fun err => Errorf "creating load balancer %q: %w" [AS (CreateLoadBalancerOpts_Name opts); AE err])
      (retryWithBackoff "CreateLoadBalancer" (api_post (regionPath client "/loadbalancing/loadbalancer" [])
         (BLoadBalancer opts) TAny)); poll_lb client (CreateLoadBalancerOpts_Name opts) 0 maxLookupAttempts)
    w' (answers lb_exists)).
  { intros w'. eapply (answers_try _ _ _ (fun _ _ => True)); [|intros a w1 _; apply poll_answers].
    by apply answers_wrap, after_answers. }
  intros [[lb|]|e] w' Hlb; [by intros a [= <-]; apply (Hlb (Some lb)) | apply Hnew..].
Qed.

Lemma ListFloatingIPs_answers w :
  fafter (ListFloatingIPs client) w (answers (fun xs w' => xs = fips (p_cloud w'))).
Proof. eapply answers_wrap, reads_answers; [apply net_fips | done]. Qed.

Lemma GetFloatingIP_answers id w :
  fafter (GetFloatingIP client id) w
    (answers (fun f w' => f ∈ fips (p_cloud w') /\ FloatingIP_ID f = id)).
Proof.
  apply answers_wrap, after_answers. intros w0 r w' [-> Hr]%net_fip a ->. cbn [den req_out] in *.
  destruct (find_fip id (p_cloud w0)) as [f|] eqn:E; [|by destruct Hr].
  injection Hr as <-. by apply first_match_sound in E as [?%bool_decide_eq_true ?].
Qed.

(** The request for a load balancer that exists does not answer 404. *)
Definition tells (lb : LoadBalancer) (r : res (den TLoadBalancer)) : Prop :=
  match r with
  | Ok lb' => lb' = lb
  | Err e => exists code, as_api e = Some code /\ code <> StatusNotFound
  end.

Lemma tells_step id lb w r w' :
  find_lb id (p_cloud w) = Some lb ->
  step (Platform := faulty P client) w
    (api (reading (regionPath client "/loadbalancing/loadbalancer/%s" [AS id]) TLoadBalancer)) r w' ->
  w' = w /\ tells lb r.
Proof.
  intros Hf [Hs|[(err & -> & Hb) Hw]].
  - destruct (net_lb id _ _ _ Hs) as [-> Hr]. rewrite Hf in Hr. by subst r.
  - destruct Hb as (code & text & -> & Hne); [by exists id|]. split; [|by exists code].
    destruct Hw as [->|[r0 Hs]]; [done|]. by destruct (net_lb id _ _ _ Hs) as [-> _].
Qed.

Lemma GetLoadBalancer_answers `{C : CAPI} (ns name : string) `{K : !KubeLaws ns name} id lb w :
  find_lb id (p_cloud w) = Some lb ->
  fafter (GetLoadBalancer client id) w (fun r w' => w' = w /\
    match r with Ok lb' => lb' = lb | Err e => IsNotFound (Some e) = false end).
Proof.
  intros Hf. apply after_wrap. eapply after_mono;
    [apply (after_retry_inv (P := faulty P client) "GetLoadBalancer"
       (reading (regionPath client "/loadbalancing/loadbalancer/%s" [AS id]) TLoadBalancer)
       (fun w' => w' = w) (fun r _ => tells lb r))|].
  - done.
  - intros d w0 r w' -> [Hs|[[] _]]. by eapply (idle_sleep ns name).
  - intros w0 r w' ->. by apply tells_step.
  - intros w0 e (code & Ha & Hne). exists code. by split.
  - intros [a|e] w' [-> Hr]; (split; [done|]); [exact Hr|]. destruct Hr as (code & Ha & Hne).
    cbn. rewrite Ha. by apply Z.eqb_neq.
Qed.

End answers.
