(* ===== verification/ClusterRecovery.v ===== *)
(** * A cluster recovers

    What failing passes over an [OVHCluster] leave is what a working pass can start
    from: the recorded IDs exist, and the endpoint is the one the user gave or the
    address of the control plane. So the cluster becomes ready as soon as calls
    succeed again. *)

From S2P Require Import Prelude GoStrings Errors OvhTypes ApiTypes Effects Client Names Logic.
From S2P Require Import ClientFacts ClusterController ClusterFacts ClusterStepFacts Platform.
From S2P Require Import PlatformLaws ClusterInvariant ClusterConvergence Faults ClusterFaults.

Local Open Scope Z_scope.

Section recovery.
Context `{U : Unicode} `{C : CAPI} {P : Platform} (ns name : string) (client : Client).
Context `{K : !KubeLaws ns name} `{N : !NetworkLaws client}.
Context (spec : OVHClusterSpec).

#[local] Notation tame := (@steady_call (faulty P client) enlarges).
#[local] Notation fafter := (@after (faulty P client)).
#[local] Notation safely := (@guarded (faulty P client) enlarges _).

(** ** A cluster on its way *)

Definition endpoint (o : OVHCluster) : APIEndpoint := CSpec_ControlPlaneEndpoint (OVHCluster_Spec o).

(** The specification, with the endpoint of [spec]. *)
Definition without_endpoint (o : OVHCluster) : OVHClusterSpec :=
  OVHCluster_Spec (set_c_ControlPlaneEndpoint (CSpec_ControlPlaneEndpoint spec) o).

(** The endpoint is the one of [spec], or the address of the control plane. *)
Definition published (o : OVHCluster) (c : cloud) : Prop :=
  endpoint o = CSpec_ControlPlaneEndpoint spec
  \/ exists ip, address o c ip /\ endpoint o = mkAPIEndpoint ip apiServerLBPort.

Definition afoot (o : OVHCluster) (w : platform) : Prop :=
  inv o w /\ without_endpoint o = spec /\ published o (p_cloud w).

(** What [afoot] says of an object. *)
Definition core (o : OVHCluster) :=
  (Meta_DeletionTimestamp (OVHCluster_ObjectMeta o), OVHCluster_Spec o,
   CStatus_NetworkID (OVHCluster_Status o), lb_id o, fip_id o,
   (load ListenerIDPtr o, load PoolIDPtr o),
   (load RegisterListenerIDPtr o, load RegisterPoolIDPtr o)).

Lemma inv_core o o' w : core o' = core o -> inv o w -> inv o' w.
Proof.
  intros [= Hd Hs Hn Hl Hf H1 H2 H3 H4] (Hk & Ht & Ha).
  unfold inv, tracked, tracked_port, tracked_fip, admissible, subnetted, adopts, fip_id in *.
  cbn in *. by rewrite Hd, Hs, Hn, Hl, Hf, H1, H2, H3, H4.
Qed.

Lemma inv_enlarges o w w' : enlarges w w' -> inv o w -> inv o w'.
Proof.
  intros (_ & Hg & Hok) (Hk & Ht & Ha).
  split; [auto|]. split; [by eapply tracked_grows | by eapply admissible_grows].
Qed.

Lemma published_grows o c c' : grows c c' -> published o c -> published o c'.
Proof.
  intros Hg [H|(ip & Ha & Hr)]; [by left|]. right. exists ip. split; [by eapply address_grows | done].
Qed.

Lemma afoot_enlarges o w w' : enlarges w w' -> afoot o w -> afoot o w'.
Proof.
  intros He (Hi & Hs & Hp). split_and!; [by eapply inv_enlarges | done|]. eapply published_grows, Hp. apply He.
Qed.

Lemma afoot_core o o' w : core o' = core o -> afoot o w -> afoot o' w.
Proof.
  intros E (Hi & Hs & Hp). split; [by eapply inv_core|]. injection E as Hd Es Hn Hl Hf H1 H2 H3 H4.
  unfold without_endpoint, published, address, endpoint in *. cbn in *. by rewrite Es, Hl.
Qed.

(** ** Operations that keep a cluster on its way *)

Definition safe {A} (m : M OVHCluster A) : Prop :=
  forall o w, afoot o w -> safely (m o) w (fun r w' => afoot r.2 w').

Definition same (o o' : OVHCluster) : Prop := core o' = core o.

#[local] Instance same_preorder : PreOrder same.
Proof. split; unfold same; [done | congruence]. Qed.

Section rules.
Context {A B : Type}.

Lemma safely_bind (m : M OVHCluster A) (f : A -> M OVHCluster B) o w
    (Q : B * OVHCluster -> platform -> Prop) :
  safely (m o) w (fun r w' => safely (f r.1 r.2) w' Q) -> safely ((m ≫= f) o) w Q.
Proof. intros H. apply (guarded_bind enlarges). eapply guarded_mono; [exact H|]. by intros [a o'] w'. Qed.

Lemma safely_lift (p : prog A) o w (Q : A * OVHCluster -> platform -> Prop) :
  safely p w (fun a => Q (a, o)) -> safely (lift p o) w Q.
Proof.
  intros H. apply (guarded_bind enlarges). eapply guarded_mono; [exact H|].
  intros a w' _ HQ. by apply (guarded_ret enlarges (a, o)).
Qed.

Lemma safely_gets (f : OVHCluster -> A) o w (Q : A * OVHCluster -> platform -> Prop) :
  Q (f o, o) w -> safely (gets f o) w Q.
Proof. intros HQ. by apply (guarded_ret enlarges (f o, o)). Qed.

Lemma safely_modify f o w (Q : unit * OVHCluster -> platform -> Prop) :
  Q (tt, f o) w -> safely (modify f o) w Q.
Proof. intros HQ. by apply (guarded_ret enlarges (tt, f o)). Qed.

Lemma safely_wrap g (m : M OVHCluster (res A)) o w (Q : res A * OVHCluster -> platform -> Prop) :
  safely (m o) w (fun r => Q (map_err g r.1, r.2)) -> safely (wrap_err g m o) w Q.
Proof.
  intros H. apply (guarded_bind enlarges). eapply guarded_mono; [exact H|].
  intros [r o'] w' _ HQ. by apply (guarded_ret enlarges (map_err g r, o')).
Qed.

Lemma safely_ret (a : A) o w (Q : A * OVHCluster -> platform -> Prop) :
  Q (a, o) w -> safely ((mret a : M OVHCluster A) o) w Q.
Proof. intros HQ. by apply (guarded_ret enlarges (a, o)). Qed.

(** A method of the client whose answer matters. *)
Lemma safely_ask (p : prog A) (G : A -> platform -> Prop) o w (Q : A * OVHCluster -> platform -> Prop) :
  only tame p -> fafter p w G -> afoot o w ->
  (forall r w', afoot o w' -> enlarges w w' -> G r w' -> Q (r, o) w') -> safely (lift p o) w Q.
Proof.
  intros Hp Ha Ho HQ. apply safely_lift. eapply (guarded_mono enlarges);
    [exact (guarded_only (P := faulty P client) enlarges p w G Hp Ha)|].
  intros r w' He Hr. apply HQ; [by eapply afoot_enlarges | done..].
Qed.

Lemma safely_call (p : prog A) o w (Q : A * OVHCluster -> platform -> Prop) :
  only tame p -> afoot o w -> (forall r w', afoot o w' -> Q (r, o) w') -> safely (lift p o) w Q.
Proof.
  intros Hp Ho HQ. apply (safely_ask p (fun _ _ => True)); [done | by apply after_runs | done|]. auto.
Qed.

Lemma safe_bind (m : M OVHCluster A) (f : A -> M OVHCluster B) :
  safe m -> (forall a, safe (f a)) -> safe (m ≫= f).
Proof.
  intros Hm Hf o w Ho. apply safely_bind. eapply guarded_mono; [by apply Hm|].
  intros [a o'] w' _ Ho'. by apply Hf.
Qed.

Lemma safe_ret (a : A) : safe (mret a).
Proof. intros o w Ho. by apply safely_ret. Qed.

Lemma safe_modify f : (forall o w, afoot o w -> afoot (f o) w) -> safe (modify f).
Proof. intros Hf o w Ho. by apply safely_modify, Hf. Qed.

(** What a method of known requests does to the object. *)
Lemma safely_keeps (R : OVHCluster -> OVHCluster -> Prop) (m : M OVHCluster A) o w :
  only_m tame m -> keeps R m -> safely (m o) w (fun r w' => enlarges w w' /\ R o r.2).
Proof.
  intros Hm Hk. eapply (guarded_mono enlarges).
  - apply (guarded_only enlarges); [apply Hm | exact (after_keeps (P := faulty P client) R m o w Hk)].
  - by intros r w' He Hr.
Qed.

(** Operations that leave the core alone. *)
Lemma safe_core (m : M OVHCluster A) : only_m tame m -> keeps same m -> safe m.
Proof.
  intros Hm Hk o w Ho. eapply (guarded_mono enlarges); [by apply (safely_keeps same)|].
  intros [a o'] w' _ [He Hs]. by eapply afoot_core, afoot_enlarges.
Qed.
End rules.

Lemma safe_try {A B} (m : M OVHCluster (res A)) (f : A -> M OVHCluster (res B)) :
  safe m -> (forall a, safe (f a)) -> safe (try_bind m f).
Proof. intros Hm Hf. apply safe_bind; [done|]. intros [a|e]; [apply Hf | apply safe_ret]. Qed.

Lemma safe_lift {A} (p : prog A) : only tame p -> safe (lift p).
Proof.
  intros Hp. apply safe_core; [by apply only_m_lift | apply keeps_lift, _].
Qed.

(** *** The network *)

Lemma afoot_same_lb o o' w :
  afoot o w -> inv o' w -> OVHCluster_Spec o' = OVHCluster_Spec o -> lb_id o' = lb_id o -> afoot o' w.
Proof.
  intros (_ & Hs & Hp) Hi Es El. split; [done|].
  unfold without_endpoint, published, address, endpoint in *. cbn in *. by rewrite Es, El.
Qed.

Lemma afoot_network v o w :
  afoot o w -> (forall nc, CSpec_NetworkConfig (OVHCluster_Spec o) = Some nc -> suits nc v) ->
  (v <> ""%string -> is_Some (find_network v (p_cloud w))) -> afoot (set_c_NetworkID v o) w.
Proof.
  intros Ho Hs Hv. apply (afoot_same_lb o); [done | | done | done].
  destruct Ho as ((Hk & (_ & Ht) & Ha) & _). split; [done|]. by split; [split|apply admissible_network].
Qed.

Context (cl : Cluster).
#[local] Notation scope := (mkClusterScope cl client).

Lemma safe_ensure_network nc region o w :
  afoot o w -> CSpec_NetworkConfig (OVHCluster_Spec o) = Some nc ->
  safely (ensure_network scope nc region o) w (fun r w' => afoot r.2 w').
Proof.
  intros Ho Hnc. unfold ensure_network, cstatus. apply safely_bind, safely_gets. cbn [fst snd].
  case_decide; [case_decide as Hne|by apply safely_ret].
  - apply safely_bind, safely_modify, safely_ret. cbn [fst snd].
    pose proof Ho as ((_ & _ & _ & (nc' & Hnc' & _ & Hn) & _) & _). rewrite Hnc in Hnc'. injection Hnc' as <-.
    apply afoot_network; [done| |by intros _; apply Hn]. rewrite Hnc. intros nc' [= <-]. right. by right.
  - apply safely_bind. eapply safely_ask; [tame_prog | apply (CreatePrivateNetwork_answers client) | exact Ho |].
    intros [n|e] w' Ho' He Hn; cbn [fst snd].
    + apply safely_bind, safely_modify, safely_bind, safely_modify, safely_ret. cbn [fst snd].
      apply (afoot_core (set_c_NetworkID (PrivateNetwork_ID n) o)); [done|].
      apply afoot_network; [done| |intros _; by apply Hn].
      pose proof Ho as ((_ & _ & _ & (nc' & Hnc' & Hsub & _) & _) & _). rewrite Hnc'. intros nc'' [= <-].
      rewrite Hnc in Hnc'. injection Hnc' as <-. left. destruct Hsub as [?|[? _]]; [done | by destruct Hne].
    + apply safely_bind, safely_modify, safely_ret. by eapply afoot_core.
Qed.

(** Nothing recorded, and only requests that are known. *)
Ltac plain_tac := apply safe_core; [repeat only_rule; first [done | tame_tac] | repeat keeps_rule; exact eq_refl].

Lemma safe_verify_network region : safe (verify_network scope region).
Proof.
  unfold verify_network. apply safe_bind; [plain_tac|]. intros st.
  apply safe_bind; [apply safe_lift; tame_prog|]. intros [net|e]; [plain_tac|].
  case_match; [|apply safe_ret].
  apply safe_bind; [|intros _; plain_tac]. apply safe_modify. intros o w Ho.
  apply afoot_network; [done| |done]. intros nc _. right. by left.
Qed.

Lemma safe_ensure_subnet nc region : safe (ensure_subnet scope nc region).
Proof. plain_tac. Qed.

Lemma safe_credentials : safe (reconcileCredentials scope).
Proof. plain_tac. Qed.

Lemma safe_failure_domains : safe (reconcileFailureDomains scope).
Proof. plain_tac. Qed.

Lemma safe_security_groups : safe (reconcileSecurityGroups scope).
Proof. plain_tac. Qed.

Lemma safe_dns : safe (reconcileDNS scope).
Proof. plain_tac. Qed.

Lemma safe_network : safe (reconcileNetwork scope).
Proof.
  intros o w Ho. unfold reconcileNetwork, cspec. apply safely_bind, safely_gets. cbn [fst snd].
  destruct (CSpec_NetworkConfig (OVHCluster_Spec o)) as [nc|] eqn:Hnc.
  - apply safely_bind. eapply (guarded_mono enlarges); [by apply safe_ensure_network|].
    intros [[a|e] o1] w1 _ Ho1; [|by apply safely_ret].
    apply safe_try; [apply safe_verify_network | intros _ | exact Ho1].
    apply safe_try; [apply safe_ensure_subnet | intros _; plain_tac].
  - clear Hnc. revert o w Ho. plain_tac.
Qed.

(** *** Listeners and pools *)

Section port.
Context (pname : string) (port : Z) (lp pp : ptr OVHCluster) `{Pt : !Port pname lp pp}.

(** On its way, with the same load balancer. *)
Definition onward (o : OVHCluster) (r : res unit * OVHCluster) (w : platform) : Prop :=
  afoot r.2 w /\ lb_id r.2 = lb_id o.

Lemma onward_listener v o w r :
  afoot o w -> load lp o = ""%string -> lb_id o <> ""%string ->
  has_listener pname (lb_id o) v (p_cloud w) -> onward o (r, store lp v o) w.
Proof.
  intros Ho Hn Hl Hv. destruct (advance_listener v o w (proj1 Ho) Hn Hl Hv) as (Hi & Hlat & _).
  destruct (port_lb v o) as [El _]. split; [|exact El].
  by apply (afoot_same_lb o); [| | eapply later_spec |].
Qed.

Lemma onward_pool v o w r :
  afoot o w -> load pp o = ""%string -> lb_id o <> ""%string ->
  has_pool (pname ++ "-pool") (lb_id o) v (p_cloud w) -> onward o (r, store pp v o) w.
Proof.
  intros Ho Hn Hl Hv. destruct (advance_pool v o w (proj1 Ho) Hn Hl Hv) as (Hi & Hlat & _).
  destruct (port_lb v o) as [_ El]. split; [|exact El].
  by apply (afoot_same_lb o); [| | eapply later_spec |].
Qed.

Lemma safe_ensure_listener o w :
  afoot o w -> lb_id o <> ""%string ->
  safely (ensure_listener scope pname port (lb_id o) lp o) w (onward o).
Proof.
  intros Ho Hl. unfold ensure_listener. apply safely_bind, safely_gets. cbn [fst snd].
  case_decide as Hn; [|by apply safely_ret].
  apply safely_bind, safely_wrap. eapply safely_ask; [tame_prog | apply (FindListenerByName_answers client) | exact Ho |].
  intros [found|e] w1 Ho1 He1 Hf; cbn [fst snd map_err]; [|by apply safely_ret].
  destruct found as [l|].
  - apply safely_bind, safely_modify, safely_ret. apply onward_listener; [done..|]. by apply (Hf (Some l)).
  - apply safely_bind, safely_wrap. eapply safely_ask; [tame_prog | apply (CreateListener_answers client) | exact Ho1 |].
    intros [l|e] w2 Ho2 He2 Hl2; cbn [fst snd map_err]; [|by apply safely_ret].
    apply safely_bind, safely_modify, safely_ret. apply onward_listener; [done..|]. by apply Hl2.
Qed.

Lemma safe_ensure_pool o w :
  afoot o w -> lb_id o <> ""%string ->
  safely (ensure_pool scope (pname ++ "-pool") (lb_id o) lp pp o) w (onward o).
Proof.
  intros Ho Hl. unfold ensure_pool. apply safely_bind, safely_gets. cbn [fst snd].
  case_decide as Hn; [|by apply safely_ret].
  apply safely_bind, safely_wrap. eapply safely_ask; [tame_prog | apply (FindPoolByName_answers client) | exact Ho |].
  intros [found|e] w1 Ho1 He1 Hf; cbn [fst snd map_err]; [|by apply safely_ret].
  destruct found as [l|].
  - apply safely_bind, safely_modify, safely_ret. apply onward_pool; [done..|]. by apply (Hf (Some l)).
  - apply safely_bind, safely_gets, safely_bind, safely_wrap. cbn [fst snd].
    eapply safely_ask; [tame_prog | apply (CreatePool_answers client) | exact Ho1 |].
    intros [l|e] w2 Ho2 He2 Hl2; cbn [fst snd map_err]; [|by apply safely_ret].
    apply safely_bind, safely_modify, safely_ret. apply onward_pool; [done..|]. by apply Hl2.
Qed.

Lemma safe_port o w :
  afoot o w -> lb_id o <> ""%string ->
  safely (reconcileLBPort scope pname port lp pp o) w (onward o).
Proof.
  intros Ho Hl. unfold reconcileLBPort, cstatus. apply safely_bind, safely_gets. cbn [fst snd].
  apply safely_bind. eapply (guarded_mono enlarges); [by apply safe_ensure_listener|].
  intros [[a|e] o1] w1 _ [Ho1 E1]; [|by apply safely_ret]. cbn [fst snd] in *.
  change (CStatus_LoadBalancerID (OVHCluster_Status o)) with (lb_id o). rewrite <- E1 in Hl |- *.
  apply safely_bind. eapply (guarded_mono enlarges); [by apply safe_ensure_pool|].
  intros [[b|e] o2] w2 _ [Ho2 E2]; cbn [fst snd] in *; [|by apply safely_ret; split; cbn; [|congruence]].
  apply safely_bind, safely_gets, safely_bind. cbn [fst snd].
  eapply (guarded_mono enlarges); [apply (safely_keeps eq); [tame_prog | by repeat keeps_rule]|].
  intros [r o3] w3 _ [He <-]. apply safely_ret. split; [|cbn; congruence]. by eapply afoot_enlarges.
Qed.
End port.

(** *** The load balancer *)

(** A load balancer is recorded where none was: nothing is published yet. *)
Lemma afoot_lb v o w :
  afoot o w -> lb_id o = ""%string -> is_Some (find_lb v (p_cloud w)) -> its_lb o v ->
  afoot (set_c_LoadBalancerID v o) w.
Proof.
  intros (Hi & Hs & Hp) Hl Hv Hits. split; [by apply (advance_lb v o w)|]. split; [exact Hs|].
  destruct Hp as [H|(ip & (Hne & _) & _)]; [by left | done].
Qed.

(** The load balancer's floating IP is recorded, or forgotten. *)
Lemma afoot_fip f o w :
  afoot o w -> lb_id o <> ""%string -> f ∈ fips (p_cloud w) -> fip_of_lb (lb_id o) f = true ->
  afoot (set_c_FloatingIPID (FloatingIP_ID f) o) w.
Proof.
  intros Ho Hl Hf Hof. apply (afoot_same_lb o); [done| |done..].
  exact (proj1 (advance_fip f o w (proj1 Ho) Hl Hf Hof)).
Qed.

Lemma afoot_forget o w : afoot o w -> afoot (set_c_FloatingIPID "" o) w.
Proof.
  intros Ho. apply (afoot_same_lb o); [done| |done..].
  destruct Ho as ((Hk & (Hn & Hlb & Ha & Hr & _) & Had) & _). split; [done|]. split; [|exact Had].
  split_and!; [done..|]. intros Hne. by destruct Hne.
Qed.

Section address.
Context (lb : LoadBalancer) (id : string).

(** On its way, at its load balancer. *)
Definition at_lb (o : OVHCluster) (w : platform) : Prop :=
  afoot o w /\ lb_id o = id /\ id <> ""%string /\ find_lb id (p_cloud w) = Some lb.

(** The search for an address found none, or one of the load balancer. *)
Definition found_address (r : res string * OVHCluster) (w : platform) : Prop :=
  at_lb r.2 w /\ forall ip, r.1 = Ok ip -> ip = ""%string \/ has_address id ip (p_cloud w).

Lemma at_lb_enlarges o w w' : at_lb o w -> enlarges w w' -> at_lb o w'.
Proof.
  intros (Ho & Hid & Hne & Hf) He. split_and!; [by eapply afoot_enlarges | done..|].
  destruct He as (_ & (_&_&_& Hl & _) & _). by eapply find_prefix.
Qed.

Lemma at_lb_fip f o w :
  at_lb o w -> f ∈ fips (p_cloud w) -> fip_of_lb id f = true ->
  at_lb (set_c_FloatingIPID (FloatingIP_ID f) o) w.
Proof.
  intros (Ho & Hid & Hne & Hf) Hin Hof. split; [|done]. apply afoot_fip; [done|by rewrite Hid|done|by rewrite Hid].
Qed.

Lemma at_lb_forget o w : at_lb o w -> at_lb (set_c_FloatingIPID "" o) w.
Proof. intros (Ho & Hid & Hne & Hf). split; [by apply afoot_forget | done]. Qed.

Lemma at_lb_id o w : at_lb o w -> LoadBalancer_ID lb = id.
Proof. intros (_ & _ & _ & [H _]%first_match_sound). by apply bool_decide_eq_true in H. Qed.

(** What the load balancer tells of is its floating IP. *)
Lemma told_address r o w :
  at_lb o w -> LoadBalancer_FloatingIP lb = Some r ->
  at_lb (set_c_FloatingIPID (FloatingIPRef_ID r) o) w /\ has_address id (FloatingIPRef_IP r) (p_cloud w).
Proof.
  intros Hat Hr. pose proof Hat as (((Hok & _) & _) & _ & _ & Hf). apply first_match_sound in Hf as [Hid Hin].
  apply bool_decide_eq_true in Hid. destruct Hok as (_&_&_&_&_&_&_&_&_& Href).
  destruct (Href lb r Hin Hr) as (f & Hff & Hof & <- & <-). rewrite Hid in Hof.
  split; [by apply at_lb_fip | by exists f].
Qed.

Lemma found_ip ip o w :
  at_lb o w -> ip = ""%string \/ has_address id ip (p_cloud w) -> found_address (Ok ip, o) w.
Proof. intros Hat Ha. split; [done|]. by intros ip' [= <-]. Qed.

(** A request, and the exposure of the gateway, leave the cluster where it is. *)
Lemma safely_at {A} (p : prog A) (G : A -> platform -> Prop) o w (Q : A * OVHCluster -> platform -> Prop) :
  only tame p -> fafter p w G -> at_lb o w ->
  (forall r w', at_lb o w' -> G r w' -> Q (r, o) w') -> safely (lift p o) w Q.
Proof.
  intros Hp Ha Hat HQ. eapply safely_ask; [done | exact Ha | apply Hat |].
  intros r w' _ He Hr. apply HQ; [by eapply at_lb_enlarges | done].
Qed.

Lemma safely_expose o w (Q : unit * OVHCluster -> platform -> Prop) :
  at_lb o w -> (forall o' w', at_lb o' w' -> enlarges w w' -> fip_id o' = fip_id o -> Q (tt, o') w') ->
  safely (try_expose scope o) w Q.
Proof.
  intros Hat HQ. eapply (guarded_mono enlarges).
  - apply (safely_keeps same); unfold try_expose, ensureGatewayExposed, discover_gateway;
      [tame_prog | repeat keeps_rule; exact eq_refl].
  - intros [[] o'] w' _ [He Hs]. cbn [fst snd] in Hs.
    destruct (at_lb_enlarges _ _ _ Hat He) as (Ho & Hid & Hne & Hf). pose proof Hs as [= _ _ _ El Ef _ _ _ _].
    apply HQ; [|exact He | exact Ef]. split_and!; [by eapply afoot_core | by rewrite <- Hid | done..].
Qed.

(** A listed floating IP is recorded, and its gateway exposed. *)
Lemma safely_record f o w (Q : unit * OVHCluster -> platform -> Prop) :
  at_lb o w -> f ∈ fips (p_cloud w) -> fip_of_lb id f = true ->
  (forall o' w', found_address (Ok (FloatingIP_IP f), o') w' -> Q (tt, o') w') ->
  safely (try_expose scope (set_c_FloatingIPID (FloatingIP_ID f) o)) w Q.
Proof.
  intros Hat Hin Hof HQ. apply safely_expose; [by apply at_lb_fip|].
  intros o' w' Hat' He _. apply HQ, found_ip; [done|]. right.
  eapply has_address_grows; [apply He|]. by exists f.
Qed.

(** The list of floating IPs tells of the load balancer's. *)
Lemma safe_listed o w :
  at_lb o w ->
  safely ((
    fips ← lift (ListFloatingIPs client);
    match fips with
    | Err _ => mret ""%string
    | Ok fips =>
      match first_match (fip_of_lb (LoadBalancer_ID lb)) fips with
      | None => mret ""%string
      | Some fip => modify (set_c_FloatingIPID (FloatingIP_ID fip)) ;; mret (FloatingIP_IP fip)
      end
    end : M OVHCluster string) o) w (fun r w' => found_address (Ok r.1, r.2) w').
Proof.
  intros Hat. apply safely_bind. rewrite (at_lb_id o w Hat).
  eapply safely_at; [tame_prog | apply (ListFloatingIPs_answers client) | exact Hat |].
  intros [xs|e] w1 Hat1 Hr; cbn [fst snd]; [|by apply safely_ret, found_ip; [|left]].
  rewrite (Hr xs eq_refl). destruct (first_match _ _) as [f|] eqn:E; [|by apply safely_ret, found_ip; [|left]].
  apply first_match_sound in E as [Hof Hin]. apply safely_bind, safely_modify, safely_ret, found_ip.
  - by apply at_lb_fip.
  - right. by exists f.
Qed.

Lemma safe_find_allocated o w :
  at_lb o w -> safely (find_allocated_fip scope lb o) w (fun r w' => found_address (Ok r.1, r.2) w').
Proof.
  intros Hat. unfold find_allocated_fip. apply safely_bind. pose proof (at_lb_id o w Hat) as Elb.
  eapply safely_at; [tame_prog | | exact Hat |].
  { rewrite Elb. apply (GetLoadBalancer_answers client ns name id lb), Hat. }
  intros r w1 Hat1 [-> Hr]. cbn [fst snd]. clear Hat1.
  destruct r as [lb'|e]; [subst lb'|by apply safely_bind, safely_ret, safe_listed].
  assert (Htold := fun ref => told_address ref o w Hat).
  assert (Hlist := safe_listed o w Hat). clear Elb Hat.
  destruct lb as [? ? ? ? ? ? ? ? ? ? ? [ref|] ?]; apply safely_bind; [|by apply safely_ret].
  case_decide; [|by apply safely_ret]. destruct (Htold ref eq_refl) as [Hat Ha].
  apply safely_bind, safely_modify, safely_ret, safely_ret, found_ip; [exact Hat | by right].
Qed.

Lemma safe_allocate o w : at_lb o w -> safely (allocate_fip scope lb o) w found_address.
Proof.
  intros Hat. unfold allocate_fip, discover_fip. apply safely_bind, safely_bind.
  eapply safely_at; [tame_prog | apply (ListFloatingIPs_answers client) | exact Hat |].
  assert (Hnew : forall o w, at_lb o w -> safely ((
      if decide (LoadBalancer_VIPAddress lb = ""%string) then mret (Ok ""%string)
      else
        _ ←? wrap_err (fun err => Errorf "allocating floating IP for LB: %w" [AE err])
          (lift (CreateLoadBalancerFloatingIP client (LoadBalancer_ID lb) (LoadBalancer_VIPAddress lb)
             (gateway_name scope)));
        try_expose scope ;;
        ip ← find_allocated_fip scope lb;
        mret (Ok ip) : M OVHCluster (res string)) o) w found_address).
  { clear o w Hat. intros o w Hat. case_decide; [by apply safely_ret, found_ip; [|left]|]. apply safely_bind, safely_wrap.
    eapply (safely_at _ (fun _ _ => True)); [tame_prog | by apply after_runs | exact Hat |].
    intros [x|e] w1 Hat1 _; cbn [fst snd map_err]; [|by apply safely_ret].
    apply safely_bind, safely_expose; [exact Hat1|]. intros o2 w2 Hat2 _ _. cbn [fst snd].
    apply safely_bind. eapply (guarded_mono enlarges); [by apply safe_find_allocated|].
    intros [ip o3] w3 _ H3. by apply safely_ret. }
  intros [xs|e] w1 Hat1 Hr; cbn [fst snd]; [|by apply safely_ret, Hnew].
  rewrite (Hr xs eq_refl), (at_lb_id _ _ Hat). destruct (first_match _ _) as [f|] eqn:E.
  - apply first_match_sound in E as [Hof Hin]. apply safely_bind, safely_modify. cbn [fst snd].
    destruct (decide (FloatingIP_IP f <> ""%string)).
    + apply safely_bind, (safely_record f); [done..|]. intros o2 w2 H2. by apply safely_ret, safely_ret.
    + by apply safely_ret, safely_ret, found_ip; [apply at_lb_fip | left].
  - apply safely_ret. cbn [fst snd]. rewrite <- (at_lb_id _ _ Hat1). by apply Hnew.
Qed.

Lemma safe_floating_ip o w : at_lb o w -> safely (reconcileFloatingIP scope lb o) w found_address.
Proof.
  intros Hat. unfold reconcileFloatingIP. apply safely_bind.
  assert (Hrest : forall o w, at_lb o w -> safely ((
      st ← cstatus;
      if decide (CStatus_FloatingIPID st <> "") then
        try_expose scope ;;
        fip ← lift (GetFloatingIP client (CStatus_FloatingIPID st));
        match allocated_ip fip with
        | Some ip => mret (Ok ip)
        | None =>
          if IsNotFound (err_of fip) then
            modify (set_c_FloatingIPID "") ;;
            allocate_fip scope lb
          else mret (Ok "")
        end
      else allocate_fip scope lb : M OVHCluster (res string)) o) w found_address).
  { clear o w Hat. intros o w Hat. unfold cstatus. apply safely_bind, safely_gets. cbn [fst snd].
    case_decide as Hfip; [|by apply safe_allocate].
    apply safely_bind, safely_expose; [exact Hat|]. intros o2 w2 Hat2 _ Ef. cbn [fst snd].
    apply safely_bind. eapply safely_at; [tame_prog | apply (GetFloatingIP_answers client) | exact Hat2 |].
    intros r w3 Hat3 Hr. cbn [fst snd]. destruct (allocated_ip r) as [ip|] eqn:Ea.
    - destruct r as [f|e]; [|done]. cbn in Ea. case_decide; [|done]. injection Ea as <-.
      destruct (Hr f eq_refl) as [Hin Efid]. apply safely_ret, found_ip; [done|]. right. exists f.
      split; [done|]. split; [|done]. destruct Hat3 as (((_ & (_ & _ & _ & _ & Htr) & _) & _) & Hid & _).
      destruct Htr as (_ & _ & _ & Hown); [by rewrite Ef|]. rewrite <- Hid. apply Hown; [done|].
      by rewrite Efid, Ef.
    - destruct (IsNotFound _); [|by apply safely_ret, found_ip; [|left]].
      apply safely_bind, safely_modify. cbn [fst snd]. by apply safe_allocate, at_lb_forget. }
  destruct (LoadBalancer_FloatingIP lb) as [ref|] eqn:Er; [|by apply safely_ret, Hrest].
  destruct (told_address ref o w Hat Er) as [Hset Ha].
  case_decide; [|by apply safely_ret, Hrest].
  apply safely_bind, safely_modify. cbn [fst snd].
  apply safely_bind, safely_expose; [exact Hset|]. intros o2 w2 Hat2 He _. cbn [fst snd].
  apply safely_ret, safely_ret, found_ip; [done|]. right. eapply has_address_grows; [apply He | exact Ha].
Qed.
End address.

Lemma safe_publish ip o w :
  afoot o w -> (ip <> ""%string -> address o (p_cloud w) ip) ->
  safely (publish_endpoint ip o) w (fun r w' => afoot r.2 w').
Proof.
  intros (Hi & Hs & Hp) Ha. unfold publish_endpoint, cspec.
  apply safely_bind, safely_gets, safely_bind. cbn [fst snd]. unfold when. case_bool_decide as Hc.
  - apply safely_modify, safely_bind, safely_modify, safely_ret. cbn [fst snd].
    split; [exact Hi|]. split; [exact Hs|]. right. exists ip. split; [apply Ha, Hc | done].
  - by apply safely_ret, safely_bind, safely_modify, safely_ret.
Qed.

Lemma safe_existing lb o w :
  afoot o w -> lb_id o <> ""%string -> find_lb (lb_id o) (p_cloud w) = Some lb ->
  safely (handleExistingLB scope lb o) w (fun r w' => afoot r.2 w').
Proof.
  intros Ho Hl Hf. unfold handleExistingLB. case_decide as Hst.
  { apply safely_bind, safely_modify, safely_ret. by eapply afoot_core. }
  apply safely_bind. eapply (guarded_mono enlarges); [by apply (safe_port _ _ _ _)|].
  intros [[a|e] o1] w1 He1 [Ho1 E1]; cbn [fst snd] in *; [|by apply safely_ret].
  apply safely_bind. eapply (guarded_mono enlarges); [apply (safe_port _ _ _ _); [done | congruence]|].
  intros [[b|e] o2] w2 He2 [Ho2 E2]; cbn [fst snd] in *; [|by apply safely_ret].
  assert (Hf2 : find_lb (lb_id o) (p_cloud w2) = Some lb).
  { eapply find_prefix; [|exact Hf]. etransitivity; [apply He1 | apply He2]. }
  rewrite <- E1, <- E2 in Hl, Hf2. unfold cspec. apply safely_bind, safely_gets. cbn [fst snd].
  case_decide as Hfl.
  - apply safely_bind. eapply (guarded_mono enlarges); [by apply (safe_floating_ip lb (lb_id o2))|].
    intros [[ip|e] o3] w3 He3 [(Ho3 & Hid3 & _ & Hf3) Hip]; cbn [fst snd] in *; [|by apply safely_ret].
    case_decide as Hz; [by apply safely_ret|]. apply safe_publish; [done|]. intros _.
    split; [by rewrite Hid3|]. split; [done|]. rewrite decide_True; [by rewrite Hid3; destruct (Hip ip eq_refl)|].
    assert (without_endpoint o3 = without_endpoint o2) as E by (transitivity spec; [apply Ho3 | symmetry; apply Ho2]).
    apply (f_equal CSpec_LoadBalancerConfig) in E. cbn in E. unfold floating. by rewrite E.
  - apply safe_publish; [done|]. intros Hvip. split; [done|]. split; [done|].
    rewrite decide_False by (intros Hne; by apply Hne). by exists lb.
Qed.

Lemma safe_adopt o w :
  afoot o w -> safely (adopt_existing o) w (fun r w' => afoot r.2 w' /\ own_lb r.2).
Proof.
  intros Ho. unfold adopt_existing, cspec, cstatus. pose proof Ho as ((_ & _ & _ & _ & _ & Hex & _) & _).
  apply safely_bind, safely_gets, safely_bind, safely_gets, safely_bind. cbn [fst snd]. unfold when.
  assert (Hrest : forall b o1 fip, afoot o1 w -> own_lb o1 -> (b = true -> fip <> ""%string) ->
            fip = LBConfig_ExistingFloatingIPID (CSpec_LoadBalancerConfig (OVHCluster_Spec o1)) ->
            safely ((if b then modify (set_c_FloatingIPID fip) else mret tt) o1) w
              (fun r w' => afoot r.2 w' /\ own_lb r.2)).
  { intros [] o1 fip Ho1 Hown Hne ->; [apply safely_modify | by apply safely_ret].
    specialize (Hne eq_refl). destruct (advance_adopted o1 w (proj1 Ho1) Hne Hown) as (Hl & (f & Hf & Hof & <-) & _).
    split; [by apply afoot_fip | exact Hown]. }
  case_bool_decide as Hc; [apply safely_modify | apply safely_ret]; apply Hrest; try done;
    try by intros [? _]%bool_decide_eq_true.
  - destruct Hc as [Hne Hl]. by apply afoot_lb; [| |apply Hex|right].
  - intros Hid. by destruct Hc.
  - intros Hid. apply dec_stable. intros Hne. by apply Hc.
Qed.

Lemma safe_create_lb o w :
  afoot o w -> lb_id o = ""%string -> (forall v, its_lb o v) ->
  safely (create_lb scope o) w (fun r w' => afoot r.2 w').
Proof.
  intros Ho Hl Hits. unfold create_lb, cspec, cstatus. apply safely_bind, safely_gets. cbn [fst snd].
  apply safely_bind. apply safely_call; [tame_prog | exact Ho |].
  intros [f|e] w1 Ho1; cbn [fst snd]; [|by apply safely_bind, safely_modify, safely_ret; eapply afoot_core].
  apply safely_bind, safely_gets. cbn [fst snd].
  destruct (decide (_ \/ _)); [by apply safely_ret|].
  apply safely_bind. apply safely_call; [tame_prog | exact Ho1 |].
  intros [net|e] w2 Ho2; cbn [fst snd]; [|by apply safely_ret].
  destruct (decide (OpenStackIDForRegion _ _ = _)); [by apply safely_ret|].
  apply safely_bind. eapply safely_ask; [tame_prog | apply (CreateLoadBalancer_answers client) | exact Ho2 |].
  intros [lb|e] w3 Ho3 _ Hlb; cbn [fst snd].
  - apply safely_bind, safely_modify, safely_ret. by apply afoot_lb; [| |apply Hlb|].
  - by apply safely_bind, safely_modify, safely_ret; eapply afoot_core.
Qed.

Lemma safe_load_balancer : safe (reconcileLoadBalancer scope).
Proof.
  intros o w Ho. unfold reconcileLoadBalancer, cstatus. apply safely_bind.
  eapply (guarded_mono enlarges); [by apply safe_adopt|]. intros [[] o1] w1 _ [Ho1 Hown].
  apply safely_bind, safely_gets. cbn [fst snd] in *. case_decide as Hl.
  - pose proof Ho1 as ((_ & (_ & Hlb & _) & _) & _). destruct (Hlb Hl) as [lb Hf].
    apply safely_bind. eapply safely_ask;
      [tame_prog | by apply (GetLoadBalancer_answers client ns name _ lb) | exact Ho1 |].
    intros [lb'|e] w2 Ho2 _ [-> Hr]; cbn [fst snd].
    + subst lb'. by apply safe_existing.
    + rewrite Hr. by apply safely_ret.
  - apply safe_create_lb; [done..|]. by left; apply Hown.
Qed.

(** *** The pass *)

Lemma safe_body : safe (reconcile_normal_body scope).
Proof.
  unfold reconcile_normal_body. apply safe_bind; [plain_tac|]. intros o0.
  case_match; [plain_tac|].
  apply safe_bind; [apply safe_credentials|]. intros [a|e]; [|plain_tac].
  apply safe_bind; [apply safe_network|]. intros [b|e]; [|plain_tac].
  apply safe_bind; [apply safe_failure_domains|]. intros [].
  apply safe_bind; [apply safe_security_groups|]. intros _.
  apply safe_bind; [apply safe_load_balancer|]. intros [result err]. case_decide; [plain_tac|].
  apply safe_bind; [apply safe_dns|]. intros _. plain_tac.
Qed.

Lemma safe_normal : safe (ReconcileNormal scope).
Proof. apply safe_bind; [apply safe_body|]. intros out. plain_tac. Qed.
End recovery.

(** ** Passes *)

Section accidents.
Context `{U : Unicode} `{C : CAPI} {L : CAPILaws C} {P : Platform} `{Lv : !Live}.
Context (ns name service region : string) `{K : !KubeLaws ns name}.
Context `{N : !NetworkLaws (mkClient service region)}.

#[local] Notation client := (mkClient service region).
#[local] Notation tame := (@steady_call (faulty P client) enlarges).
#[local] Notation fafter := (@after (faulty P client)).
#[local] Notation safely := (@guarded (faulty P client) enlarges _).

Lemma GetOVHClient_answers o w :
  fafter (GetOVHClientFromCluster o) w (fun r _ => forall c, r = Ok c ->
    c = mkClient (CSpec_ServiceName (OVHCluster_Spec o)) (CSpec_Region (OVHCluster_Spec o))).
Proof.
  unfold GetOVHClientFromCluster. apply after_try, after_wrap, after_call. intros [s|e] w1 _; [|done].
  cbn [map_err]. unfold NewClientFromSecret. case_decide; [done|].
  apply after_wrap, after_try, after_call. intros [x|e] w2 _; [|done]. by intros c [= <-].
Qed.

Lemma GetOVHClient_tame o : only tame (GetOVHClientFromCluster o).
Proof.
  repeat only_rule; first [exact (tame_inert _ _ (kube_secret (name := name) _ _))
                          | exact (tame_inert _ _ (kube_goovh (ns := ns) (name := name) _ _ _ _))].
Qed.

(** What runs under the deferred patch. *)
Lemma safe_reconcile_body spec o w :
  CSpec_ServiceName spec = service -> CSpec_Region spec = region -> afoot spec o w ->
  safely (reconcile_body o) w (fun r w' => afoot spec r.2 w').
Proof.
  intros Hsn Hr Ho. unfold reconcile_body. apply safely_bind. apply (guarded_ret enlarges (o, o)). cbn [fst snd].
  apply safely_bind. apply (safely_call client spec); [|exact Ho|].
  { apply only_call, (tame_inert _ _ (kube_owner (ns := ns) (name := name) _)). }
  intros [[cl|]|e] w1 Ho1; cbn [fst snd]; [|by apply safely_ret..].
  apply safely_bind. eapply (safely_ask client spec);
    [apply GetOVHClient_tame | apply GetOVHClient_answers | exact Ho1 |].
  intros [c|e] w2 Ho2 _ Hc; cbn [fst snd].
  - pose proof Ho2 as ((_ & _ & Hz & _) & Hs & _). rewrite Hz. cbn [IsZero negb].
    rewrite (Hc c eq_refl). unfold without_endpoint in Hs.
    pose proof (f_equal CSpec_ServiceName Hs) as E1. pose proof (f_equal CSpec_Region Hs) as E2.
    cbn in E1, E2. rewrite E1, E2, Hsn, Hr. exact (safe_normal ns name client spec cl o w2 Ho2).
  - by apply safely_bind, safely_modify, safely_ret; eapply afoot_core.
Qed.

(** ** Between two passes *)

(** A cluster on its way, and what its passes need. *)
Definition fit (spec : OVHClusterSpec) (w : platform) : Prop :=
  afoot spec (p_cluster w) w /\ has_secret (p_cluster w) w /\ service <> ""%string
  /\ CSpec_ServiceName spec = service /\ CSpec_Region spec = region.

Lemma start_fit w : start service region w -> fit (OVHCluster_Spec (p_cluster w)) w.
Proof.
  intros (Hi & Hsec & Hne & Hsn & Hr & _). split_and!; [|done..]. split; [done|]. split; [|by left].
  unfold without_endpoint. by destruct (p_cluster w) as [? []].
Qed.

Lemma fit_start spec w :
  fit spec w -> settled_networks region (p_cloud w) -> settled_lbs (p_cloud w) -> start service region w.
Proof.
  intros ((Hi & Hs & _) & Hsec & Hne & Hsn & Hr) Hnet Hlb.
  pose proof (f_equal CSpec_ServiceName Hs) as E1. pose proof (f_equal CSpec_Region Hs) as E2.
  cbn in E1, E2. split_and!; first [done | congruence].
Qed.

(** A pass has enlarged the project and stored [o]. *)
Lemma fit_store spec o w w' :
  fit spec w -> enlarges w w' -> afoot spec o w' -> fit spec (store_cluster o w').
Proof.
  intros ((_ & Hs0 & _) & (s & Hsec & Hgood) & Hrest) (Hob & _) Ho. split; [exact Ho|]. split; [|exact Hrest].
  injection Hob as _ _ _ _ Es. exists s. split; [|exact Hgood]. cbn [p_secrets p_cluster store_cluster].
  destruct Ho as (_ & Hs & _). pose proof (f_equal CSpec_IdentitySecret Hs) as E.
  pose proof (f_equal CSpec_IdentitySecret Hs0) as E0. cbn in E, E0. by rewrite Es, E, <- E0.
Qed.

Lemma fit_enlarges spec w w' : fit spec w -> enlarges w w' -> fit spec w'.
Proof.
  intros Hw He. pose proof He as (Hob & _). injection Hob as Ec _ _ _ _.
  replace w' with (store_cluster (p_cluster w) w') by (rewrite <- Ec; by destruct w').
  apply (fit_store spec _ w); [done..|]. eapply afoot_enlarges, Hw. exact He.
Qed.



Lemma fit_idles spec w w' : fit spec w -> idles w w' -> fit spec w'.
Proof.
  intros ((Hi & Hs & Hp) & Hsec & Hrest) (Hob & He & Hok). injection Hob as Ec _ _ _ Es.
  unfold fit, has_secret in *. rewrite Ec, Es. split_and!; try done; [|apply Hrest..].
  split; [by eapply inv_evolves|]. split; [done|].
  destruct Hp as [Hp|(ip & Ha & Hep)]; [by left|]. right. exists ip. split; [by eapply address_evolves | done].
Qed.

(** ** Accidents *)

Lemma faulty_inert e good w r w' :
  inert e good -> step (Platform := faulty P client) w e r w' -> w' = w /\ (good w r \/ fault client e r).
Proof.
  intros Hin [Hs|[Hf [->|[r0 Hs]]]]; [|by auto|].
  - destruct (Hin _ _ _ Hs). auto.
  - destruct (Hin _ _ _ Hs). auto.
Qed.

(** A pass that fails, or is cut off at any point. *)
Lemma fit_cut_off spec w w' :
  fit spec w -> cut_off (P := faulty P client) (Reconcile ns name) w w' -> fit spec w'.
Proof.
  intros Hw [->|(r & w1 & Hs & Hc)]; [done|].
  destruct (faulty_inert _ _ _ _ _ kube_cluster Hs) as [-> Hr]. destruct r as [o|err].
  2:{ cbn in Hc. destruct (kube_IsNotFound err); by destruct Hc as [->|[]]. }
  assert (o = p_cluster w) as -> by (destruct Hr as [[= ->]|[err Hr]]; done).
  destruct Hc as [->|(h & w1 & Hs1 & Hc)]; [done|].
  destruct (faulty_inert _ _ _ _ _ (kube_helper (ns := ns) (name := name) _) Hs1) as [-> _].
  destruct h as [[]|err]; [|by destruct Hc as [->|[]]].
  pose proof Hw as (Ho & _ & _ & Hsn & Hrg).
  destruct (safe_reconcile_body spec _ w Hsn Hrg Ho) as [Hcut Hbody].
  apply (cut_off_bind (reconcile_body (p_cluster w))) in Hc.
  destruct Hc as [Hc|([out o'] & w2 & Hrun & Hc)]; [by eapply fit_enlarges, Hcut|].
  assert (enlarges w w2) as He by by eapply Hcut, runs_cut_off.
  pose proof (proj1 (after_runs _ _ _) Hbody _ _ Hrun) as Ho'. cbn [fst snd] in Ho'.
  destruct Hc as [->|(pr & w3 & Hs3 & Hc)]; [by eapply fit_enlarges|].
  assert (w3 = w2 \/ w3 = store_cluster o' w2) as [-> | ->].
  { destruct Hs3 as [Hs3|[_ [->|[r0 Hs3]]]]; [right| by left | right].
    - by apply (kube_patch (ns := ns) (name := name)) in Hs3 as [_ ->].
    - by apply (kube_patch (ns := ns) (name := name)) in Hs3 as [_ ->]. }
  - destruct Hc as [->|[]]. by eapply fit_enlarges.
  - destruct Hc as [->|[]]. by eapply fit_store.
Qed.

(** A pass with failing calls, or one that is cut off, and the time after it. *)
Definition accident (w w' : platform) : Prop :=
  exists w1, cut_off (P := faulty P client) (Reconcile ns name) w w1 /\ idles w1 w'.

Lemma fit_accidents spec w w' : fit spec w -> rtc accident w w' -> fit spec w'.
Proof.
  intros Hw H. induction H as [w|w w1 w' (w2 & Hc & Hi) _ IH]; [done|].
  by eapply IH, fit_idles, Hi; eapply fit_cut_off.
Qed.

Lemma cut_off_faulty {A} (p : prog A) w w' : cut_off p w w' -> cut_off (P := faulty P client) p w w'.
Proof.
  induction p as [x|e k IH] in w |- *; cbn; intros [->|H]; [by left | done | by left | right].
  destruct H as (r & w1 & Hs & Hc). exists r, w1. split; [by left | by apply IH].
Qed.

(** A cluster on its way whose parts are all there is complete. *)
Lemma fit_complete spec w :
  fit spec w -> provisioned (p_cluster w) (p_cloud w) -> complete spec w.
Proof.
  intros ((Hi & Hs & Hp) & _) Hpr. split; [done|]. split; [done|]. intros Hh.
  destruct Hp as [E|Hp]; [|exact Hp]. destruct Hpr as (_ & Hne & _). destruct Hne.
  unfold host. fold (endpoint (p_cluster w)). by rewrite E.
Qed.



Lemma fit_settles spec w w' : fit spec w -> settles region w w' -> start service region w' /\ fit spec w'.
Proof.
  intros Hw Hs. assert (Hf : fit spec w') by (eapply fit_idles, settles_idles; done).
  split; [|exact Hf]. destruct Hs as (_ & _ & _ & Hn & Hl). by eapply fit_start.
Qed.

(** The stages are those of the specification, whatever the endpoint. *)
Lemma level_spec spec w w' : fit spec w -> level (OVHCluster_Spec (p_cluster w)) w' = level spec w'.
Proof.
  intros ((_ & Hs & _) & _). apply (f_equal CSpec_LoadBalancerConfig) in Hs. cbn in Hs.
  assert (Hf : floating (OVHCluster_Spec (p_cluster w)) <-> floating spec) by (unfold floating; by rewrite Hs).
  unfold level, stages. by rewrite (decide_ext _ _ 4%nat _ Hf), (decide_ext _ _ 3%nat _ (and_iff_compat_r _ Hf)).
Qed.

(** A pass in which no call fails. *)
Lemma pass_recovers spec w :
  start service region w -> fit spec w ->
  after (Reconcile ns name) w (fun out w' => no_error out
    /\ (complete spec w'
        \/ ((level spec w < level spec w')%nat /\ (exists w'', settles region w' w'')
            /\ forall w'', settles region w' w'' -> start service region w'' /\ fit spec w''))).
Proof.
  intros Hst Hf. apply after_runs. intros out w' Hrun.
  assert (Hf' : fit spec w') by (eapply fit_cut_off, cut_off_faulty, runs_cut_off; done).
  pose proof (proj1 (after_runs _ _ _) (pass_progress ns name service region w Hst) out w' Hrun)
    as (Hno & [(_ & Hp & _)|(Hlt & Hex & _)]); (split; [exact Hno|]).
  - left. by apply fit_complete.
  - right. rewrite !(level_spec spec w _ Hf) in Hlt. split_and!; [done..|]. intros w''. by apply fit_settles.
Qed.

End accidents.
