(* ===== verification/Fleet.v ===== *)
(** * A cluster and its machines

    The convergence theorems are about one object at a time. Here the requests of
    the whole fleet come in any order: passes over the cluster and over each of its
    machines, on one project. controller-runtime runs one pass of a controller at a
    time, so a run of the process is a sequence of turns; in some of them calls fail or
    the process dies. Every machine that gets three good turns, in which its instance
    does not keep it waiting, in the end runs, whatever the others did in between. *)

From S2P Require Import Prelude GoStrings Errors OvhTypes ApiTypes Effects Client Names Logic.
From S2P Require Import ClientFacts ClusterController MachineController ClusterFacts.
From S2P Require Import Platform PlatformLaws ClusterInvariant ClusterConvergence MachineConvergence Faults.

Local Open Scope nat_scope.

(** ** The state *)

(** The objects of the management cluster with all the machines, by name, each
    with the [Machine] that owns it. *)
Record fleet := mkFleet {
  f_cloud : cloud;
  f_cluster : OVHCluster;
  f_owner : Cluster;
  f_secrets : gmap (string * string) Secret;
  f_machines : gmap string (OVHMachine * Machine);
}.

(** What a pass over a machine sees; a pass over the cluster looks at none. *)
Definition view (F : fleet) (om : OVHMachine * Machine) : platform :=
  mkPlatform (f_cloud F) (f_cluster F) om.1 (f_owner F) om.2 (f_secrets F).

Definition nobody : OVHMachine * Machine := (zero, mkMachine zero None).

(** The fleet after a pass that left [w]. *)
Definition store_fleet (ms : gmap string (OVHMachine * Machine)) (w : platform) : fleet :=
  mkFleet (p_cloud w) (p_cluster w) (p_owner w) (p_secrets w) ms.

Definition absorb (k : string) (w : platform) (F : fleet) : fleet :=
  store_fleet (<[k := (p_machine w, p_owner_machine w)]> (f_machines F)) w.

(** ** The turns *)

(** A turn of the cluster; a turn of a machine; and one that meets faults, or ends
    with the death of the process. *)
Inductive turn := ClusterTurn | MachineTurn (k : string) | FaultyTurn (k : string).

(** How many turns each machine has had that count: [k] has had [m]. *)
Definition tally : Type := string -> nat.
Definition set_turns (k : string) (m : nat) (n : tally) : tally :=
  fun j => if decide (j = k) then m else n j.

(** The machine a turn is for. *)
Definition machine_of (r : turn) : option string :=
  match r with ClusterTurn => None | MachineTurn k | FaultyTurn k => Some k end.

Definition faultless (rs : list turn) : Prop := forall k, FaultyTurn k ∉ rs.

(** Between two turns the provider finishes the networks, the load balancers and the
    floating IPs, and works on the instances: one that is ACTIVE stays as it is, with
    its addresses; any other may be in any state then. *)
Definition rests (region : string) (cl cl' : cloud) : Prop :=
  evolves cl cl' /\ cloud_ok cl' /\ settled_networks region cl' /\ settled_lbs cl'
  /\ Forall2 (fun i i' => Instance_Status i = InstanceStatusActive -> i' = i)
       (instances cl) (instances cl').

Definition calm (region : string) (F F' : fleet) : Prop :=
  rests region (f_cloud F) (f_cloud F')
  /\ f_cluster F' = f_cluster F /\ f_owner F' = f_owner F
  /\ f_secrets F' = f_secrets F /\ f_machines F' = f_machines F.

(** All instances are ACTIVE. *)
Definition all_active (F : fleet) : Prop :=
  Forall (fun i => Instance_Status i = InstanceStatusActive) (instances (f_cloud F)).

Lemma rests_settle region cl : cloud_ok cl -> rests region cl (settle region cl).
Proof.
  intros Hok.
  destruct (settles_settle region (mkPlatform cl zero zero (mkCluster zero false None false)
    (mkMachine zero None) ∅) Hok) as (_ & He & Hok' & Hn & Hl).
  split_and!; try done. cbn. apply Forall2_fmap_r, Forall_Forall2_diag, Forall_forall.
  intros [] _. cbn. by intros ->.
Qed.

Lemma rests_settles region cl cl' w :
  rests region cl cl' -> settles region (on_cloud (fun _ => cl) w) (on_cloud (fun _ => cl') w).
Proof. by intros (? & ? & ? & ? & _). Qed.

Lemma rests_idles region cl cl' w :
  rests region cl cl' -> idles (on_cloud (fun _ => cl) w) (on_cloud (fun _ => cl') w).
Proof. intros H. by eapply settles_idles, rests_settles. Qed.

Lemma rests_active region cl cl' i :
  rests region cl cl' -> i ∈ instances cl -> Instance_Status i = InstanceStatusActive ->
  i ∈ instances cl'.
Proof.
  intros (_ & _ & _ & _ & H) (n & Hn)%list_elem_of_lookup Ha.
  destruct (Forall2_lookup_l _ _ _ _ _ H Hn) as (i' & Hi' & E). rewrite <- (E Ha).
  by apply list_elem_of_lookup_2 in Hi'.
Qed.

Lemma rests_known region cl cl' i :
  rests region cl cl' -> i ∈ instances cl ->
  exists i', i' ∈ instances cl' /\ Instance_ID i' = Instance_ID i /\ Instance_Name i' = Instance_Name i.
Proof.
  intros (He & _) Hi. assert (E := evolves_instances id _ _ He).
  assert (Hin : (Instance_ID i, Instance_Name i)
    ∈ (fun i => (Instance_ID i, Instance_Name i)) <$> instances cl).
  { apply list_elem_of_fmap. by exists i. }
  change (fun i => (Instance_ID i, Instance_Name i))
    with (fun i => id (Instance_ID i, Instance_Name i)) in Hin.
  rewrite <- E in Hin. apply list_elem_of_fmap in Hin as (i' & [= -> ->] & Hi'). by exists i'.
Qed.

Section fleet.
(** [P] is the platform of the good turns, [W] that of the faulty ones. *)
Context `{U : Unicode} `{C : CAPI} {L : CAPILaws C} (W : Platform) `{P : Platform} `{Lv : !Live}.
Context (ns name mns service region : string).
Context `{Fl : forall k, MachineFaults W mns k}.
Context `{K : !KubeLaws ns name} `{Ml : forall k, MachineLaws mns k}.
Context `{N : !NetworkLaws (mkClient service region)} `{Co : !ComputeLaws (mkClient service region)}.

#[local] Notation start_m := (start_m ns name service region).
#[local] Notation complete_m := (complete_m service region).
#[local] Notation level_m := (level_m service region).
#[local] Notation steady := (steady service region).
#[local] Notation own := (own service region).
#[local] Notation active := (active service region).

(** A pass that returns, and well, and what follows it. *)
Definition takes {A} (fine : A -> Prop) (pass : prog A) (w : platform) (Q : platform -> Prop) : Prop :=
  (exists a w', runs pass w a w') /\ after pass w (fun a w' => fine a /\ Q w').

(** A good turn of the machine [k] counts if its instance does not keep it waiting. *)
Definition counted (k : string) (w : platform) (n : tally) : tally :=
  if decide (active w) then set_turns k (S (n k)) n else n.

(** All runs of the turns [rs] from [F] end in [Q], with the turns of [n] and those that
    counted since the last faulty one; and the good ones return well. *)
Fixpoint rounds (rs : list turn) (n : tally) (Q : tally -> fleet -> Prop) (F : fleet) : Prop :=
  match rs with
  | [] => Q n F
  | r :: rs =>
    let next n1 F1 := (exists F2, calm region F1 F2 /\ all_active F2)
                      /\ forall F2, calm region F1 F2 -> rounds rs n1 Q F2 in
    match r with
    | ClusterTurn =>
      takes no_error (ClusterController.Reconcile ns name) (view F nobody)
        (fun w' => next n (store_fleet (f_machines F) w'))
    | MachineTurn k =>
      exists om, f_machines F !! k = Some om /\
      takes returns (MachineController.Reconcile mns k) (view F om)
        (fun w' => next (counted k (view F om) n) (absorb k w' F))
    | FaultyTurn k =>
      exists om, f_machines F !! k = Some om /\
      forall w', cut_off (P := W) (MachineController.Reconcile mns k) (view F om) w' ->
        next (set_turns k 0 n) (absorb k w' F)
    end
  end.

(** ** What others do: the cluster *)

(** What conditions and failure domains do not decide. *)
Definition blind {A} (f : platform -> A) : Prop := forall o w, f (store_cluster (bare o) w) = f (store_cluster o w).

Lemma blind_bare {A} (f : platform -> A) o w :
  blind f -> bare o = bare (p_cluster w) -> f (store_cluster o w) = f w.
Proof. intros Hf E. rewrite <- Hf, E, Hf. by destruct w. Qed.

Lemma start_m_blind : blind start_m.
Proof. done. Qed.
Lemma level_m_blind : blind level_m.
Proof. done. Qed.
Lemma complete_m_blind : blind complete_m.
Proof. done. Qed.
Lemma own_blind : blind own.
Proof. done. Qed.

(** ** What others do: the machines *)

Notation on cl w := (on_cloud (fun _ => cl) w) (only parsing).

Lemma steady_later w cl1 cl2 :
  steady w -> staffed (p_cloud w) cl1 -> rests region cl1 cl2 -> steady (on cl2 w).
Proof.
  intros Hs Hst Hr. apply (steady_settles _ _ (on cl1 w)); [|by apply (rests_settles _ _ _ w)].
  destruct Hst as (new & ms & -> & _). exact Hs.
Qed.

Lemma start_m_later w cl1 cl2 :
  start_m w -> staffed (p_cloud w) cl1 -> rests region cl1 cl2 -> start_m (on cl2 w).
Proof.
  intros Hs Hst Hr. apply (start_m_next _ _ _ _ w (on cl1 w)); [done | |by apply (rests_idles region _ _ w)].
  by split_and!.
Qed.

Lemma level_m_later w cl1 cl2 :
  staffed (p_cloud w) cl1 -> rests region cl1 cl2 -> level_m w <= level_m (on cl2 w).
Proof.
  intros Hst (He & _). unfold level_m. cbn [p_machine on_cloud]. case_match; [done|].
  change (scope_of service region (on cl2 w)) with (scope_of service region w).
  pose proof (fun H => proj1 (found_evolves (scope_of service region w) (p_machine w) _ _ He)
                         (found_staffed _ _ _ _ Hst H)) as Hf.
  cbn [p_cloud on_cloud]. destruct (found _ _ (p_cloud w)), (found _ _ cl2); try lia.
  by destruct Hf as [? ?].
Qed.

Lemma has_member_later pool ip port cl cl1 cl2 :
  staffed cl cl1 -> rests region cl1 cl2 -> has_member pool ip port cl -> has_member pool ip port cl2.
Proof.
  intros (new & ms & -> & _) ((_&_&_&_&_&_&_&Hm&_) & _) (m & Hin & Hat). exists m. split; [|done].
  rewrite Hm. cbn [members set_members]. rewrite under_app. apply elem_of_app. by left.
Qed.

Lemma complete_m_later w cl1 cl2 :
  complete_m w -> staffed (p_cloud w) cl1 -> rests region cl1 cl2 -> complete_m (on cl2 w).
Proof.
  intros (i & Hin & Hid & Ha & Hr & Hp & Had & Hj) Hst Hre. exists i. split_and!; try done.
  - eapply rests_active; [done| |done]. destruct Hst as (new & ms & -> & _). apply elem_of_app. by left.
  - intros [Hm Hreg]%Hj. split; [by eapply has_member_later|].
    intros Hlb pool Hpool. eapply has_member_later; [done..|]. apply Hreg; [done|]. rewrite <- Hpool.
    destruct Hre as ((_&_&_&_&_&Hpo&_) & _), Hst as (new & ms & -> & _). cbn in Hpo |- *. by rewrite Hpo.
Qed.

Lemma own_later w cl1 cl2 :
  own w -> staffed (p_cloud w) cl1 -> rests region cl1 cl2 -> own (on cl2 w).
Proof.
  intros Ho (new & ms & -> & _) Hr He. destruct (Ho He) as [?|(i & Hin & Hid & Hn)]; [by left | right].
  destruct (rests_known _ _ _ i Hr) as (i' & Hin' & Hid' & Hn'); [apply elem_of_app; by left|].
  exists i'. cbn. by rewrite Hid', Hn'.
Qed.

(** ** How far the machines are *)

(** After [n] turns. *)
Definition at_least (n : nat) (w : platform) : Prop :=
  n `min` 2 <= level_m w /\ (3 <= n -> complete_m w).

Lemma at_least_later n w cl1 cl2 :
  at_least n w -> staffed (p_cloud w) cl1 -> rests region cl1 cl2 -> at_least n (on cl2 w).
Proof.
  intros [Hl Hc] Hst Hr. split; [|by eauto using complete_m_later].
  pose proof (level_m_later _ _ _ Hst Hr). lia.
Qed.

Lemma at_least_proceeds n w w' :
  start_m w -> at_least n w -> proceeds service region w w' ->
  at_least n w' /\ (active w -> at_least (S n) w').
Proof.
  intros Hst [Hl Hc] (_ & Hlt & Htop & _).
  assert (Hle : level_m w <= 2) by (unfold level_m; repeat case_match; lia).
  assert (Hcase : level_m w < level_m w' /\ level_m w < 2
                  \/ level_m w = 2 /\ level_m w' = 2 /\ (active w -> complete_m w')).
  { destruct (decide (level_m w < 2)) as [H|H]; [by left; auto|].
    assert (E : level_m w = 2) by lia. right. destruct (Htop E). auto. }
  split; [|intros Ha]; split.
  - lia.
  - intros Hn. destruct Hcase as [?|(_ & _ & H)]; [lia|].
    apply H, complete_active; [apply Hst | by apply Hc].
  - lia.
  - intros Hn. destruct Hcase as [?|(_ & _ & H)]; [lia | by apply H].
Qed.

(** What a good turn adds to the tally. *)
Lemma at_least_counted k n w w' :
  start_m w -> at_least (n k) w -> proceeds service region w w' ->
  at_least (counted k w n k) w' /\ forall j, set_turns k (counted k w n k) n j = counted k w n j.
Proof.
  intros Hst Hal Hp. destruct (at_least_proceeds _ _ _ Hst Hal Hp) as [H1 H2]. unfold counted.
  case_decide as Ha; (split; [unfold set_turns; rewrite ?decide_True by done; auto|]);
    intros j; unfold set_turns; repeat case_decide; by subst.
Qed.

(** The whole fleet: the cluster is ready, and every machine has had its turns. *)
Definition progress (n : tally) (F : fleet) : Prop :=
  steady (view F nobody)
  /\ forall k om, f_machines F !! k = Some om -> start_m (view F om) /\ at_least (n k) (view F om).

(** Every recorded instance is the machine's own. *)
Definition owned (F : fleet) : Prop :=
  NoDup (Instance_ID <$> instances (f_cloud F))
  /\ forall k om, f_machines F !! k = Some om -> own (view F om).

(** No two machines run on one instance. *)
Definition apart (F : fleet) : Prop :=
  forall j k oj ok,
    f_machines F !! j = Some oj -> f_machines F !! k = Some ok ->
    let named (om : OVHMachine * Machine) := instance_name (scope_of service region (view F om)) om.1 in
    let id (om : OVHMachine * Machine) := MStatus_InstanceID (OVHMachine_Status om.1) in
    MSpec_ExistingInstanceID (OVHMachine_Spec oj.1) = ""%string ->
    MSpec_ExistingInstanceID (OVHMachine_Spec ok.1) = ""%string ->
    named oj <> named ok -> id oj <> ""%string -> id oj <> id ok.

Lemma owned_apart F : owned F -> apart F.
Proof.
  intros [Hnd Ho] j k oj ok Hj Hk named id Ej Ek Hn Hne Hid. subst id. cbn in Hne, Hid.
  destruct (Ho _ _ Hj Ej) as [?|(i & Hi & Hii & Hin)]; [done|].
  destruct (Ho _ _ Hk Ek) as [?|(i' & Hi' & Hii' & Hin')]; [cbn in *; congruence|].
  apply Hn. subst named. cbn in *. rewrite <- Hin, <- Hin'.
  by rewrite (NoDup_fmap_inj_in Instance_ID _ i i' Hnd) by congruence.
Qed.

(** ** One turn *)

Lemma takes_after {A} (fine : A -> Prop) (p : prog A) w Q :
  after p w (fun a w' => fine a /\ Q w') -> takes fine p w Q.
Proof. intros H. split; [apply runs_total, live | exact H]. Qed.

(** The fleet goes on: it has the same machines, and every one has had the turns
    of [n]; [good] says that no turn was faulty. *)
Definition goes_on (good : Prop) (n : tally) (F F' : fleet) : Prop :=
  progress n F' /\ (good -> owned F -> owned F') /\ dom (f_machines F') = dom (f_machines F).

Lemma calm_exists F : cloud_ok (f_cloud F) -> exists F', calm region F F' /\ all_active F'.
Proof.
  intros Hok. exists (mkFleet (settle region (f_cloud F)) (f_cluster F) (f_owner F) (f_secrets F) (f_machines F)).
  split; [by split; [apply rests_settle|]|]. apply Forall_forall. intros i. apply settle_active.
Qed.

(** The next turn sees the same objects, but for the machine of the last one. *)
Definition same_rest (F F1 : fleet) : Prop :=
  f_cluster F1 = f_cluster F /\ f_owner F1 = f_owner F /\ f_secrets F1 = f_secrets F.

Lemma view_later F F1 F2 om :
  same_rest F F1 -> calm region F1 F2 -> view F2 om = on (f_cloud F2) (view F om).
Proof. intros (? & ? & ?) (_ & ? & ? & ? & _). unfold view, on_cloud. cbn. congruence. Qed.

Lemma others_later n F F1 F2 k om :
  progress n F -> f_machines F !! k = Some om ->
  same_rest F F1 -> staffed (f_cloud F) (f_cloud F1) -> calm region F1 F2 ->
  start_m (view F2 om) /\ at_least (n k) (view F2 om) /\ (own (view F om) -> own (view F2 om)).
Proof.
  intros [_ Hm] Hk Hsame Hst Hc. rewrite (view_later _ _ _ om Hsame Hc). destruct Hc as [Hr _].
  destruct (Hm k om Hk). split_and!; [by eapply start_m_later | by eapply at_least_later |].
  intros Ho. by eapply own_later.
Qed.

Lemma unique_later cl cl1 cl2 :
  staffed cl cl1 -> rests region cl1 cl2 ->
  NoDup (Instance_ID <$> instances cl) -> NoDup (Instance_ID <$> instances cl2).
Proof.
  intros Hst (He & _) Hnd. rewrite (evolves_instances fst _ _ He : Instance_ID <$> _ = _).
  by eapply staffed_unique.
Qed.



(** The machine whose turn it was. *)
Lemma own_turn_later (good : Prop) m n F k om w' F2 :
  progress n F -> f_machines F !! k = Some om -> visited (view F om) w' -> at_least m w' ->
  (good -> owned F -> own w') -> calm region (absorb k w' F) F2 ->
  let om' := (p_machine w', p_owner_machine w') in
  start_m (view F2 om') /\ at_least m (view F2 om') /\ (good -> owned F -> own (view F2 om')).
Proof.
  intros [_ Hm] Hk Hv Hal Hown Hcalm om'. destruct (Hm k om Hk) as [Hsm _].
  assert (Hview : view F2 om' = on (f_cloud F2) w').
  { destruct Hcalm as (_ & ? & ? & ? & _). unfold view, on_cloud. cbn in *. congruence. }
  destruct Hcalm as [Hr _]. cbn in Hr. rewrite Hview. split_and!.
  - apply (start_m_next _ _ _ _ (view F om) w'); [done..|].
    destruct w'. by apply (rests_idles region _ _ (mkPlatform _ _ _ _ _ _)).
  - by apply (at_least_later _ w' (p_cloud w')).
  - intros Hg HF. by apply (own_later _ (p_cloud w')); [apply Hown|..].
Qed.

Lemma machine_turn (good : Prop) m n F k om w' F2 :
  progress n F -> f_machines F !! k = Some om -> visited (view F om) w' -> at_least m w' ->
  (good -> owned F -> own w') -> calm region (absorb k w' F) F2 ->
  goes_on good (set_turns k m n) F F2.
Proof.
  intros Hp Hk Hv Hal Hown Hcalm. pose proof Hv as (Hst & Hc & Ho & _ & Hsec & _).
  assert (Hsame : same_rest F (absorb k w' F)) by done.
  destruct (own_turn_later good m _ _ _ _ _ _ Hp Hk Hv Hal Hown Hcalm) as (Hs & Ha & Hown2).
  pose proof Hcalm as (Hr & _ & _ & _ & Hm2). cbn in Hm2.
  pose proof (fun j om' Hj => others_later n F _ _ j om' Hp Hj Hsame Hst Hcalm) as Hothers.
  split; [split|split].
  - rewrite (view_later _ _ _ _ Hsame Hcalm). by eapply steady_later; [apply Hp|..].
  - intros j om' Hj. rewrite Hm2 in Hj. unfold set_turns. case_decide as Hjk.
    + subst j. rewrite lookup_insert_eq in Hj. by injection Hj as <-.
    + rewrite lookup_insert_ne in Hj by done. by destruct (Hothers j om' Hj) as (? & ? & _).
  - intros Hg HF. split; [by eapply unique_later; [exact Hst|..|apply HF]|].
    intros j om' Hj. rewrite Hm2 in Hj. destruct (decide (j = k)) as [->|Hjk].
    + rewrite lookup_insert_eq in Hj. injection Hj as <-. by apply Hown2.
    + rewrite lookup_insert_ne in Hj by done. apply (Hothers j om' Hj), (proj2 HF _ _ Hj).
  - rewrite Hm2. rewrite dom_insert_lookup_L; [done | by eexists].
Qed.

Lemma cluster_turn n F o F2 :
  progress n F -> bare o = bare (f_cluster F) ->
  calm region (store_fleet (f_machines F) (store_cluster o (view F nobody))) F2 -> goes_on True n F F2.
Proof.
  intros Hp Hb Hcalm. set (F1 := store_fleet _ _) in Hcalm.
  assert (Hview : forall om, view F1 om = store_cluster o (view F om)) by done.
  assert (Hp1 : progress n F1).
  { destruct Hp as [Hs Hm]. split; [rewrite Hview; by apply steady_bare|].
    intros k om Hk. destruct (Hm k om Hk) as [Hsm Ha]. rewrite Hview. unfold at_least.
    by rewrite (blind_bare _ _ _ start_m_blind), (blind_bare _ _ _ level_m_blind),
      (blind_bare _ _ _ complete_m_blind). }
  assert (Hsame : same_rest F1 F1) by done.
  assert (Hst : staffed (f_cloud F1) (f_cloud F1)) by done.
  pose proof (fun k om Hk => others_later n F1 F1 F2 k om Hp1 Hk Hsame Hst Hcalm) as Hothers.
  pose proof Hcalm as (Hr & _ & _ & _ & Hm2). cbn in Hm2.
  split; [split|split].
  - rewrite (view_later _ _ _ _ Hsame Hcalm). by eapply steady_later; [apply Hp1|..].
  - intros k om Hk. rewrite Hm2 in Hk. by destruct (Hothers k om Hk) as (? & ? & _).
  - intros _ [Hnd Hown]. split; [by eapply unique_later|].
    intros k om Hk. rewrite Hm2 in Hk. apply (Hothers k om Hk). rewrite Hview.
    rewrite (blind_bare _ _ _ own_blind) by done. by apply (Hown k).
  - by rewrite Hm2.
Qed.
(** ** All turns *)

Lemma progress_ext n n' F : (forall k, n k = n' k) -> progress n F -> progress n' F.
Proof. intros E [Hs Hm]. split; [done|]. intros k om Hk. rewrite <- E. by apply Hm. Qed.

Lemma goes_on_trans (g g' g'' : Prop) n n' F F1 F2 :
  goes_on g n F F1 -> goes_on g' n' F1 F2 -> (g'' -> g /\ g') -> goes_on g'' n' F F2.
Proof.
  intros (_ & Ho & Hd) (Hp & Ho' & Hd') Hg. split_and!; [done | | congruence].
  intros [? ?]%Hg. auto.
Qed.

Lemma progress_ok n F : progress n F -> cloud_ok (f_cloud F).
Proof. by intros ((((Hok & _) & _) & _) & _). Qed.

Lemma absorb_calm n F k om w' :
  progress n F -> visited (view F om) w' -> exists F2, calm region (absorb k w' F) F2 /\ all_active F2.
Proof.
  intros Hp (Hst & _). apply calm_exists. cbn. eapply staffed_ok; [exact Hst|]. by eapply progress_ok.
Qed.

Lemma goes_on_ext (g g' : Prop) n n' F F' :
  (forall k, n k = n' k) -> (g' -> g) -> goes_on g n F F' -> goes_on g' n' F F'.
Proof. intros E Hg (Hp & Ho & Hd). split; [by eapply progress_ext|]. split; [auto | done]. Qed.

Lemma rounds_go rs : forall n F (Q : tally -> fleet -> Prop),
  progress n F -> (forall r k, r ∈ rs -> machine_of r = Some k -> k ∈ dom (f_machines F)) ->
  (forall n' F', goes_on (faultless rs) n' F F' -> Q n' F') -> rounds rs n Q F.
Proof.
  induction rs as [|r rs IH]; intros n F Q Hp Hrs HQ; [by apply HQ|].
  assert (Hgo : forall n1 F1, goes_on (faultless [r]) n1 F F1 -> rounds rs n1 Q F1).
  { intros n1 F1 Hg. apply (IH _ F1 Q (proj1 Hg)).
    - intros r' k Hr'. destruct Hg as (_ & _ & ->). apply Hrs. by right.
    - intros n2 F2 Hg2. apply HQ. eapply goes_on_trans; [exact Hg | exact Hg2|].
      intros Hf. split; intros k Hk; apply (Hf k).
      + apply list_elem_of_singleton in Hk as ->. left.
      + by right. }
  assert (Hom : forall k, machine_of r = Some k -> exists om, f_machines F !! k = Some om).
  { intros k Hk. by apply elem_of_dom, (Hrs r k); [left|]. }
  destruct r as [|k|k]; cbn [rounds].
  - apply takes_after. eapply after_mono; [apply (steady_pass ns name service region), Hp|].
    intros out w' (-> & o & Hb & ->). split; [done|]. split; [apply calm_exists; exact (progress_ok _ _ Hp)|].
    intros F2 Hc. by apply Hgo, (goes_on_ext True _ n), (cluster_turn n F o F2 Hp Hb Hc).
  - destruct (Hom k eq_refl) as [om Hk]. exists om. split; [done|]. apply takes_after. eapply after_mono.
    { apply (machine_pass ns name mns k service region), (proj2 Hp k om Hk). }
    intros out w' (Hr & Hpr). split; [exact Hr|]. split; [eapply absorb_calm; [done | apply Hpr]|].
    destruct (proj2 Hp k om Hk) as [Hsm Hal].
    destruct (at_least_counted k n _ _ Hsm Hal Hpr) as [Hal' Hext].
    intros F2 Hc. apply Hgo, (goes_on_ext True _ _ _ _ _ Hext); [done|].
    apply (machine_turn True _ _ _ _ om w'); try done; [apply Hpr|].
    intros _ [Hnd Hown]. apply Hpr. by apply (Hown k).
  - destruct (Hom k eq_refl) as [om Hk]. exists om. split; [done|]. intros w' Hcut.
    assert (Hv : visited (view F om) w').
    { apply (faulty_pass (P := W) mns k); [apply (proj2 Hp k om Hk) | done]. }
    split; [by eapply absorb_calm|].
    intros F2 Hc. apply Hgo, (goes_on_ext False _ (set_turns k 0 n)); [done | |].
    + intros Hf. apply (Hf k). left.
    + apply (machine_turn False _ _ _ _ om w'); try done. split; lia.
Qed.

(** A fleet to start from: the cluster is ready, and what the specifications of the
    machines name exists. *)
Definition fleet_ready (F : fleet) : Prop :=
  steady (view F nobody)
  /\ forall k om, f_machines F !! k = Some om -> start_m (view F om).

(** C5: a whole fleet comes up, in any order, and through failures. Let the cluster be
    complete and steady, and every machine as for [machine_converges] (neither paused
    nor deleted, what it names exists). Let the passes over the cluster and the machines come in any
    sequence of turns; in some of those of the machines calls fail, answer anything or
    lose their answer, or the process dies between two calls. Between two turns nobody
    touches the objects, nothing is added or removed, the provider finishes the networks,
    load balancers and floating IPs, an ACTIVE instance stays as it is, and any other may be in any state. No good
    turn fails or panics, the cluster stays ready, no machine is lost, and every machine
    is complete at the end that had, since its last faulty turn, three good turns in
    which it found no instance or an ACTIVE one: it runs on an ACTIVE instance that its
    object describes, and a control plane machine with a private address is in the
    pools, whatever the turns of the others made in between. And without faulty turns,
    if every recorded instance was its machine's own, two machines that adopt no
    existing instance, and whose instances have different names, never record the same
    one; of machines that adopt one ([ExistingInstanceID]) this is not said. *)
Theorem fleet_converges rs F :
  fleet_ready F -> (forall r k, r ∈ rs -> machine_of r = Some k -> k ∈ dom (f_machines F)) ->
  rounds rs (fun _ => 0) (fun n F' =>
    steady (view F' nobody)
    /\ dom (f_machines F') = dom (f_machines F)
    /\ (forall k om, f_machines F' !! k = Some om -> 3 <= n k -> complete_m (view F' om))
    /\ (faultless rs -> owned F -> apart F')) F.
Proof.
  intros [Hs Hm] Hrs. apply (rounds_go rs (fun _ => 0)); [|done|].
  - split; [done|]. intros k om Hk. split; [by eapply Hm|]. split; lia.
  - intros n F' ([Hs' Hm'] & Ho & Hd). split_and!; [done..| |].
    + intros k om Hk Hn. by apply (Hm' k om Hk).
    + intros Hf HF. by apply owned_apart, Ho.
Qed.
End fleet.
