(* ===== verification/Removal.v ===== *)
(** * Deletions on the platform

    OVH answers a deletion at once and carries it out later: what is accepted is
    doomed, and is gone when the provider is done with it. The laws here are to
    the deletions what those of [PlatformLaws] are to the other calls: they say
    which resources a deletion takes, and leave its timing open. *)

From S2P Require Import Prelude GoStrings Errors OvhTypes ApiTypes Effects Client Names Logic.
From S2P Require Import ClientFacts ClusterController Platform PlatformLaws.

Local Open Scope Z_scope.

(** ** What is gone *)

Definition ids_of (k : kind) (cl : cloud) : list string :=
  match k with
  | KLoadBalancer => LoadBalancer_ID <$> lbs cl
  | KFloatingIP => FloatingIP_ID <$> fips cl
  | KGateway => Gateway_ID <$> gateways cl
  | KNetwork => PrivateNetwork_ID <$> networks cl
  | KInstance => Instance_ID <$> instances cl
  end.

(** The resource does not exist, or its deletion is under way. *)
Definition gone (k : kind) (id : string) (cl : cloud) : Prop :=
  (k, id) ∈ doomed cl \/ id ∉ ids_of k cl.

(** [cl'] has nothing that [cl] has not. The status of what is left may change; a
    floating IP may be detached, not attached. *)
Definition shrinks (cl cl' : cloud) : Prop :=
  networks cl' ⊆ networks cl
  /\ (forall l', l' ∈ lbs cl' -> exists l, l ∈ lbs cl /\ LoadBalancer_ID l' = LoadBalancer_ID l
        /\ LoadBalancer_Name l' = LoadBalancer_Name l
        /\ LoadBalancer_VIPNetworkID l' = LoadBalancer_VIPNetworkID l)
  /\ (forall f', f' ∈ fips cl' -> exists f, f ∈ fips cl /\ FloatingIP_ID f' = FloatingIP_ID f
        /\ (FloatingIP_AssociatedEntity f' = FloatingIP_AssociatedEntity f
            \/ FloatingIP_AssociatedEntity f' = None))
  /\ gateways cl' ⊆ gateways cl
  /\ ids_of KInstance cl' ⊆ ids_of KInstance cl
  /\ members cl' ⊆ members cl.

#[export] Instance shrinks_preorder : PreOrder shrinks.
Proof.
  split.
  - intros cl. unfold shrinks. split_and!; try done; intros x Hx; exists x; auto.
  - intros c1 c2 c3 (Hn & Hl & Hf & Hg & Hi & Hm) (Hn' & Hl' & Hf' & Hg' & Hi' & Hm').
    unfold shrinks. split_and!; try (etransitivity; eassumption).
    + intros l3 (l2 & (l1 & ? & E & En & Ev)%Hl & E' & En' & Ev')%Hl'. exists l1.
      split_and!; congruence || done.
    + intros f3 (f2 & (f1 & ? & E & Ha)%Hf & E' & Ha')%Hf'. exists f1.
      split_and!; [done | congruence |]. destruct Ha' as [->| ->]; [|by right].
      destruct Ha as [->| ->]; auto.
Qed.

Lemma ids_of_shrinks k cl cl' : shrinks cl cl' -> ids_of k cl' ⊆ ids_of k cl.
Proof.
  intros (Hn & Hl & Hf & Hg & Hi & _) id.
  destruct k; [| | | |apply Hi]; intros (x & -> & Hx)%list_elem_of_fmap; apply list_elem_of_fmap.
  - apply Hl in Hx as (l & ? & ? & _). eauto.
  - apply Hf in Hx as (f & ? & ? & _). eauto.
  - eauto.
  - eauto.
Qed.

(** What is doomed stays so, until it is gone. *)
Definition dwindles (cl cl' : cloud) : Prop := shrinks cl cl' /\ doomed cl ⊆ doomed cl'.

#[export] Instance dwindles_preorder : PreOrder dwindles.
Proof.
  split; [by split|]. intros c1 c2 c3 [Hs Hd] [Hs' Hd']. split; by etransitivity.
Qed.

Lemma gone_dwindles k id cl cl' : dwindles cl cl' -> gone k id cl -> gone k id cl'.
Proof.
  intros [Hs Hd] [H|H]; [left | right].
  - by apply Hd.
  - intros Hin. by apply (ids_of_shrinks k _ _ Hs) in Hin.
Qed.

Definition wanes (w w' : platform) : Prop :=
  objects w' = objects w /\ dwindles (p_cloud w) (p_cloud w').

#[export] Instance wanes_preorder : PreOrder wanes.
Proof.
  split; [by split|]. intros w1 w2 w3 [Ho Hd] [Ho' Hd'].
  split; [congruence | by etransitivity].
Qed.

Lemma wanes_shrinks w w' : wanes w w' -> shrinks (p_cloud w) (p_cloud w').
Proof. by intros [_ [? _]]. Qed.

(** The floating IPs stay as they are. *)
Definition spares (w w' : platform) : Prop := wanes w w' /\ fips (p_cloud w') = fips (p_cloud w).

#[export] Instance spares_preorder : PreOrder spares.
Proof.
  split; [by split|]. intros w1 w2 w3 [Hw E] [Hw' E']. split; [by transitivity w2 | congruence].
Qed.

(** ** The provider finishes *)

Definition standing {A} (k : kind) (id : A -> string) (cl : cloud) (xs : list A) : list A :=
  filter (fun x => (k, id x) ∉ doomed cl) xs.

(** What is doomed goes. *)
Definition sweep (cl : cloud) : cloud :=
  mkCloud (standing KNetwork PrivateNetwork_ID cl (networks cl)) (subnets cl) (lb_flavors cl)
    (standing KLoadBalancer LoadBalancer_ID cl (lbs cl)) (listeners cl) (pools cl) (monitors cl)
    (members cl) (groups cl) (standing KInstance Instance_ID cl (instances cl)) (offers cl)
    (standing KFloatingIP FloatingIP_ID cl (fips cl)) (standing KGateway Gateway_ID cl (gateways cl))
    (issued cl) [].

(** Nobody touches the objects between two passes, and the provider works on the
    deletions it accepted: it carries out all of them, or some, or none. Nothing is
    added, and what is gone or going does not come back. *)
Definition finishes (w w' : platform) : Prop :=
  objects w' = objects w /\ shrinks (p_cloud w) (p_cloud w')
  /\ forall k id, gone k id (p_cloud w) -> gone k id (p_cloud w').

(** The deletion of a resource, if it was accepted, is carried out. *)
Definition carried (k : kind) (id : string) (cl : cloud) : Prop :=
  (k, id) ∈ doomed cl -> id ∉ ids_of k cl.

Lemma elem_of_standing {A} k (id : A -> string) cl xs x :
  x ∈ standing k id cl xs <-> (k, id x) ∉ doomed cl /\ x ∈ xs.
Proof. exact (list_elem_of_filter (fun x => (k, id x) ∉ doomed cl) xs x). Qed.

Lemma ids_of_sweep k id cl :
  id ∈ ids_of k (sweep cl) <-> (k, id) ∉ doomed cl /\ id ∈ ids_of k cl.
Proof.
  assert (H : forall A (f : A -> string) xs,
    id ∈ f <$> standing k f cl xs <-> (k, id) ∉ doomed cl /\ id ∈ f <$> xs).
  { intros A f xs. rewrite !list_elem_of_fmap. split.
    - intros (x & -> & [? ?]%elem_of_standing). eauto.
    - intros (Hd & x & -> & Hx). exists x. rewrite elem_of_standing. auto. }
  destruct k; apply H.
Qed.

Lemma gone_sweep k id cl : gone k id (sweep cl) <-> gone k id cl.
Proof.
  unfold gone. rewrite ids_of_sweep. cbn.
  split.
  - intros [H|H]; [by apply not_elem_of_nil in H|].
    destruct (decide ((k, id) ∈ doomed cl)); [by left | right; tauto].
  - intros H. right. tauto.
Qed.

Lemma sweep_shrinks cl : shrinks cl (sweep cl).
Proof.
  unfold shrinks. cbn. split_and!.
  - intros x [_ ?]%elem_of_standing. done.
  - intros l [_ ?]%elem_of_standing. exists l. auto.
  - intros f [_ ?]%elem_of_standing. exists f. auto.
  - intros x [_ ?]%elem_of_standing. done.
  - intros id Hid. by apply (ids_of_sweep KInstance id cl) in Hid as [_ ?].
  - done.
Qed.

(** No deletion is under way: what is gone does not exist. *)
Lemma gone_absent k id cl : carried k id cl -> gone k id cl -> id ∉ ids_of k cl.
Proof. intros Hd [H|H]; [by apply Hd | done]. Qed.

(** The provider may finish everything. *)
Lemma carried_sweep k id cl : carried k id (sweep cl).
Proof. by intros ?%not_elem_of_nil. Qed.

Lemma finishes_sweep w : finishes w (on_cloud sweep w).
Proof. split; [done|]. split; [apply sweep_shrinks|]. intros k id. apply gone_sweep. Qed.

(** ** The laws *)

(** The network, by its own ID or by that of one of its regions. *)
Definition names_network (n : PrivateNetwork) (id : string) : Prop :=
  id <> ""%string /\ (id = PrivateNetwork_ID n \/ exists region, id = OpenStackIDForRegion n region).

(** The networks an instance has a port on, by the IDs of both: the API tells nothing of
    them, and they do not change while the instance exists. *)
Class Ports := plugged : string -> string -> Prop.

(** A load balancer, a gateway or an instance has a port on the network. *)
Definition busy `{Ports} (id : string) (cl : cloud) : Prop :=
  exists n, n ∈ networks cl /\ PrivateNetwork_ID n = id
    /\ ((exists l, l ∈ lbs cl /\ names_network n (LoadBalancer_VIPNetworkID l))
        \/ (exists g i, g ∈ gateways cl /\ i ∈ Gateway_Interfaces g
              /\ names_network n (GatewayInterface_NetworkID i))
        \/ (exists i, i ∈ ids_of KInstance cl /\ plugged i id)).

Section laws.
Context `{U : Unicode} `{P : Platform} {Po : Ports}.

(** The deletion of a resource that takes its time, accepted or 404. *)
Definition takes (k : kind) (id : string) (cl : cloud) (r : res unit) : Prop :=
  gone k id cl /\ (r = Ok tt \/ exists text, r = Err (EAPI StatusNotFound text)).

Definition deletes (path : string) (k : kind) (id : string) : Prop :=
  forall w r w', step w (api (deleting path)) r w' -> wanes w w' /\ takes k id (p_cloud w') r.

(** A call that at most takes something away. *)
Definition waning (e : event) : Prop := forall w r w', step w e r w' -> wanes w w'.

Lemma idle_waning e : idle e -> waning e.
Proof. intros H w r w' ->%H. reflexivity. Qed.

Class RemovalLaws (c : Client) := {
  rem_lb id : deletes (regionPath c "/loadbalancing/loadbalancer/%s" [AS id]) KLoadBalancer id;
  rem_fip id : deletes (regionPath c "/floatingIp/%s" [AS id]) KFloatingIP id;
  rem_gateway id : deletes (regionPath c "/gateway/%s" [AS id]) KGateway id;
  rem_instance id : deletes (projectPath c "/instance/%s" [AS id]) KInstance id;
  (* refused while something has a port on it *)
  rem_network id w r w' :
    step w (api (deleting (projectPath c "/network/private/%s" [AS id]))) r w' ->
    (busy id (p_cloud w) /\ w' = w /\ exists text, r = Err (EAPI StatusConflict text))
    \/ (~ busy id (p_cloud w) /\ wanes w w' /\ takes KNetwork id (p_cloud w') r);
  rem_listener id : waning (api (deleting (regionPath c "/loadbalancing/listener/%s" [AS id])));
  rem_pool id : waning (api (deleting (regionPath c "/loadbalancing/pool/%s" [AS id])));
  rem_member pool id w r w' :
    step w (api (deleting (regionPath c "/loadbalancing/pool/%s/member/%s" [AS pool; AS id]))) r w' ->
    wanes w w' /\ (r = Ok tt \/ exists text, r = Err (EAPI StatusNotFound text))
    /\ Forall (fun m => Member_ID m <> id) (under pool (members (p_cloud w')));
  rem_group id w r w' :
    step w (api (deleting (regionPath c "/network/security/group/%s" [AS id]))) r w' -> spares w w';
  rem_volume id : waning (api (deleting (projectPath c "/volume/%s" [AS id])));
  rem_detach id i :
    waning (api (posting (projectPath c "/volume/%s/detach" [AS id]) (BAttach (mkAttachVolumeOpts i)) TNone));
  rem_record zone id w r w' :
    step w (api (deleting (Sprintf "/domain/zone/%s/record/%d" [AS zone; AZ id]))) r w' -> spares w w';
}.

(** ** The methods *)

Lemma after_takes op path k id (ok : option error -> bool) (wrap : error -> error) w
    (Q : res unit -> platform -> Prop) :
  (forall text, ok (Some (EAPI StatusNotFound text)) = true) ->
  (forall r w', step w (api (deleting path)) r w' -> 
     (wanes w w' /\ takes k id (p_cloud w') r)) ->
  (forall w', wanes w w' -> gone k id (p_cloud w') -> Q (Ok tt) w') ->
  after (tolerate ok wrap (retryWithBackoff op (call (api (deleting path))))) w Q.
Proof.
  intros Hok H HQ. apply after_tolerate, after_retry_once. intros r w' Hs.
  destruct (H r w' Hs) as (Hw & Hg & [->|[text ->]]); [by auto|]. split; [done|]. rewrite Hok. auto.
Qed.

Context (c : Client) `{R : !RemovalLaws c}.

Lemma after_DeleteLoadBalancer id w (Q : res unit -> platform -> Prop) :
  (forall w', wanes w w' -> gone KLoadBalancer id (p_cloud w') -> Q (Ok tt) w') ->
  after (DeleteLoadBalancer c id) w Q.
Proof. intros HQ. eapply after_takes; [done | apply rem_lb | exact HQ]. Qed.

Lemma after_DeleteFloatingIP id w (Q : res unit -> platform -> Prop) :
  (forall w', wanes w w' -> gone KFloatingIP id (p_cloud w') -> Q (Ok tt) w') ->
  after (DeleteFloatingIP c id) w Q.
Proof. intros HQ. eapply after_takes; [done | apply rem_fip | exact HQ]. Qed.

Lemma after_DeleteGateway id w (Q : res unit -> platform -> Prop) :
  (forall w', wanes w w' -> gone KGateway id (p_cloud w') -> Q (Ok tt) w') ->
  after (DeleteGateway c id) w Q.
Proof. intros HQ. eapply after_takes; [done | apply rem_gateway | exact HQ]. Qed.

Lemma after_DeleteInstance id w (Q : res unit -> platform -> Prop) :
  (forall w', wanes w w' -> gone KInstance id (p_cloud w') -> Q (Ok tt) w') ->
  after (DeleteInstance c id) w Q.
Proof. intros HQ. eapply after_takes; [done | apply rem_instance | exact HQ]. Qed.

Lemma after_DeletePrivateNetwork id w (Q : res unit -> platform -> Prop) :
  (forall e, busy id (p_cloud w) -> Q (Err e) w) ->
  (forall w', wanes w w' -> gone KNetwork id (p_cloud w') -> Q (Ok tt) w') ->
  after (DeletePrivateNetwork c id) w Q.
Proof.
  intros Hbusy HQ. apply after_tolerate, after_retry_once. intros r w' Hs.
  apply rem_network in Hs as [(Hb & -> & text & ->)|(_ & Hw & Hg & [->|[text ->]])].
  - split; [done|]. by apply Hbusy.
  - split; [done|]. by apply HQ.
  - split; [done|]. by apply HQ.
Qed.

Lemma after_RemovePoolMember pool id w (Q : res unit -> platform -> Prop) :
  (forall w', wanes w w' -> Forall (fun m => Member_ID m <> id) (under pool (members (p_cloud w'))) ->
     Q (Ok tt) w') ->
  after (RemovePoolMember c pool id) w Q.
Proof.
  intros HQ. apply after_tolerate, after_retry_once. intros r w' Hs.
  apply rem_member in Hs as (Hw & [->|[text ->]] & Hm); (split; [done|]); by apply HQ.
Qed.

End laws.
