(* ===== verification/ClusterTeardown.v ===== *)
(** * A deleted OVHCluster is taken down

    Against a platform that obeys [RemovalLaws], the passes over a cluster that is
    being deleted end, with the finalizer removed and the deletion of its load
    balancers, floating IPs, gateway and network accepted: the first pass deletes
    the load balancers and their floating IPs, the next the gateway, and the
    network goes when nothing has a port on it any more. *)

From S2P Require Import Prelude GoStrings Errors OvhTypes ApiTypes Effects Client Names Logic.
From S2P Require Import ClientFacts ClusterController ClusterFacts Platform PlatformLaws.
From S2P Require Import ClusterInvariant ClusterConvergence Removal.

Local Open Scope Z_scope.

(** ** What belongs to the cluster *)

Definition net_id (o : OVHCluster) : string := CStatus_NetworkID (OVHCluster_Status o).

(** What decides the targets stays; the DNS record, the groups and the finalizers
    may change. *)
Definition same (o o' : OVHCluster) : Prop :=
  OVHCluster_Spec o' = OVHCluster_Spec o
  /\ Meta_DeletionTimestamp (OVHCluster_ObjectMeta o') = Meta_DeletionTimestamp (OVHCluster_ObjectMeta o)
  /\ Meta_Annotations (OVHCluster_ObjectMeta o') = Meta_Annotations (OVHCluster_ObjectMeta o)
  /\ CStatus_Conditions (OVHCluster_Status o') = CStatus_Conditions (OVHCluster_Status o)
  /\ net_id o' = net_id o /\ lb_id o' = lb_id o /\ fip_id o' = fip_id o.

#[export] Instance same_preorder : PreOrder same.
Proof.
  split; [intros o; unfold same; by split_and!|]. intros o1 o2 o3 H1 H2. unfold same in *. destr_hyps.
  split_and!; congruence.
Qed.

Section teardown.
Context `{U : Unicode} `{C : CAPI} {L : CAPILaws C} `{P : Platform}.
Context {Po : Ports} (scope : ClusterScope) `{N : !NetworkLaws (CScope_OVHClient scope)}.
Context `{R : !RemovalLaws (CScope_OVHClient scope)} (ns name : string) `{K : !KubeLaws ns name}.
#[local] Notation client := (CScope_OVHClient scope).

(** The prefix of the names of the cluster's load balancers. *)
Definition lb_prefix : string :=
  GenerateRFC1035Name ["capi"; Meta_Name (Cluster_ObjectMeta (CScope_Cluster scope)); "lb"].

(** The load balancers and the floating IPs that a deletion takes: those recorded,
    by name, and by association. *)
Definition own_lb (o : OVHCluster) (l : LoadBalancer) : Prop :=
  (lb_id o <> ""%string /\ LoadBalancer_ID l = lb_id o) \/ HasPrefix (LoadBalancer_Name l) lb_prefix.

Definition own_fip (o : OVHCluster) (cl : cloud) (id : string) : Prop :=
  (id <> ""%string /\ id = fip_id o)
  \/ (lb_id o <> ""%string
      /\ exists f, f ∈ fips cl /\ FloatingIP_ID f = id /\ fip_of_lb (lb_id o) f = true).

Definition own_gateway (cl : cloud) (id : string) : Prop :=
  exists g, g ∈ gateways cl /\ Gateway_ID g = id /\ Gateway_Name g = gateway_name scope.

Definition made_network (o : OVHCluster) : Prop :=
  IsTrue (CStatus_Conditions (OVHCluster_Status o)) NetworkCreatedByControllerCondition = true
  /\ net_id o <> ""%string.

(** Only the cluster's own load balancers and gateway have a port on the network
    it made, and there is one gateway of its name. *)
Definition own_ports (o : OVHCluster) (cl : cloud) : Prop :=
  (made_network o -> forall n, n ∈ networks cl -> PrivateNetwork_ID n = net_id o ->
     (forall l, l ∈ lbs cl -> names_network n (LoadBalancer_VIPNetworkID l) ->
        own_lb o l)
     /\ (forall g i, g ∈ gateways cl -> i ∈ Gateway_Interfaces g ->
           names_network n (GatewayInterface_NetworkID i) -> Gateway_Name g = gateway_name scope))
  /\ (forall g g', g ∈ gateways cl -> g' ∈ gateways cl -> Gateway_Name g = gateway_name scope ->
        Gateway_Name g' = gateway_name scope -> Gateway_ID g' = Gateway_ID g).

(** The network made for the cluster is free of instances. *)
Definition vacant (o : OVHCluster) (cl : cloud) : Prop :=
  made_network o -> forall i, i ∈ ids_of KInstance cl -> ~ plugged i (net_id o).

(** The provider is done with the deletions a pass waits for: those of the cluster's
    own load balancers, floating IPs and gateway; and no instance is left on its
    network. *)
Definition settled_d (o : OVHCluster) (cl : cloud) : Prop :=
  (forall l, l ∈ lbs cl -> own_lb o l -> carried KLoadBalancer (LoadBalancer_ID l) cl)
  /\ (forall id, own_fip o cl id -> carried KFloatingIP id cl)
  /\ (forall id, own_gateway cl id -> carried KGateway id cl)
  /\ vacant o cl.

(** ** What the steps keep *)

Lemma own_lb_same o o' l : same o o' -> own_lb o' l <-> own_lb o l.
Proof. intros (_ & _ & _ & _ & _ & E & _). unfold own_lb. by rewrite E. Qed.

Lemma own_fip_same o o' cl id : same o o' -> own_fip o' cl id <-> own_fip o cl id.
Proof. intros (_ & _ & _ & _ & _ & E & E'). unfold own_fip. by rewrite E, E'. Qed.

Lemma made_network_same o o' : same o o' -> made_network o' <-> made_network o.
Proof. intros (_ & _ & _ & E & E' & _). unfold made_network. by rewrite E, E'. Qed.

(** Nothing becomes a target. *)
Lemma own_fip_shrinks o cl cl' id : shrinks cl cl' -> own_fip o cl' id -> own_fip o cl id.
Proof.
  intros (_ & _ & Hf & _) [H|(Hne & f' & (f & ? & E & Ha)%Hf & <- & Hp)]; [by left|].
  right. split; [done|]. exists f. unfold fip_of_lb in *. split_and!; [done..|].
  destruct Ha as [Ha|Ha]; by rewrite Ha in Hp.
Qed.

Lemma own_gateway_shrinks cl cl' id : shrinks cl cl' -> own_gateway cl' id -> own_gateway cl id.
Proof. intros (_ & _ & _ & Hg & _) (g & ? & ?). exists g. auto. Qed.
Lemma own_ports_shrinks o cl cl' : shrinks cl cl' -> own_ports o cl -> own_ports o cl'.
Proof.
  intros (Hn & Hl & _ & Hg & _) [H1 H2]. split; [|by eauto].
  intros Hm n Hin Hid. destruct (H1 Hm n (Hn _ Hin) Hid) as [Hlb Hgw]. split; [|by eauto].
  intros l' (l & Hinl & E & En & Ev)%Hl Hu. unfold own_lb. rewrite E, En. rewrite Ev in Hu. by apply Hlb.
Qed.

Lemma own_ports_same o o' cl : same o o' -> own_ports o cl -> own_ports o' cl.
Proof.
  intros Hs [H1 H2]. split; [|exact H2]. rewrite (made_network_same _ _ Hs).
  pose proof Hs as (_ & _ & _ & _ & E & _). rewrite E. intros Hm n Hin Hid.
  destruct (H1 Hm n Hin Hid) as [Hlb Hgw]. split; [|exact Hgw].
  intros l Hinl Hu. apply (own_lb_same _ _ _ Hs). by apply Hlb.
Qed.

(** ** The steps *)

Definition sparing (e : event) : Prop := forall w r w', step w e r w' -> spares w w'.

Lemma idle_sparing e : idle e -> sparing e.
Proof. intros H w r w' ->%H. reflexivity. Qed.

(** The DNS record and the groups go first. *)
Lemma delete_dns_sparing : only_m sparing (delete_dns scope) /\ keeps same (delete_dns scope).
Proof.
  split; [|unfold delete_dns; repeat keeps_rule; by split_and!].
  repeat only_rule; try apply idle_sparing, (idle_sleep ns name).
  - intros w r w'. apply (rem_record (c := client)).
  - apply idle_sparing. intros w r w' H. exact (net_refresh (c := client) _ _ _ _ H).
Qed.

Lemma delete_groups_sparing :
  only_m sparing (delete_security_groups scope) /\ keeps same (delete_security_groups scope).
Proof.
  split; [|unfold delete_security_groups; repeat keeps_rule; by split_and!].
  repeat only_rule; try apply idle_sparing, (idle_sleep ns name).
  - apply idle_sparing, (idle_range ns name).
  - intros w r w'. apply (rem_group (c := client)).
Qed.

Lemma elem_of_append_fips id lb fs acc :
  id ∈ append_fips lb fs acc <->
  id ∈ acc \/ exists f, f ∈ fs /\ FloatingIP_ID f = id /\ fip_of_lb lb f = true.
Proof.
  unfold append_fips. induction fs as [|f fs IH] in acc |- *; cbn [foldl].
  { split; [by left|]. intros [?|(f & []%not_elem_of_nil & _)]; done. }
  rewrite IH. clear IH. destruct (fip_of_lb lb f) eqn:Ef; cbn [andb].
  - case_bool_decide as Hin; cbn [negb].
    + split.
      * intros [?|(g & ? & ?)]; [by left|]. right. exists g. rewrite elem_of_cons. auto.
      * intros [?|(g & [->|?]%elem_of_cons & <- & ?)]; [by left | by left|]. right. eauto.
    + rewrite elem_of_app, list_elem_of_singleton. split.
      * intros [[?| ->]|(g & ? & ?)]; [by left| |]; right; [exists f | exists g]; rewrite elem_of_cons; auto.
      * intros [?|(g & [->|?]%elem_of_cons & <- & ?)]; [by left; left | by left; right|]. right. eauto.
  - split.
    + intros [?|(g & ? & ?)]; [by left|]. right. exists g. rewrite elem_of_cons. auto.
    + intros [?|(g & [->|?]%elem_of_cons & <- & Eg)]; [by left | congruence|]. right. eauto.
Qed.

(** The captured floating IPs are exactly the cluster's own. *)
Lemma after_capture_fips o w (Q : list string * OVHCluster -> platform -> Prop) :
  (forall ids, (forall id, id ∈ ids <-> own_fip o (p_cloud w) id) -> Q (ids, o) w) ->
  after (capture_fips scope o) w Q.
Proof.
  intros HQ. unfold capture_fips, cstatus. apply after_m_bind, after_gets. cbn [fst snd].
  fold (fip_id o) (lb_id o).
  assert (Hrec : forall id, id ∈ (if decide (fip_id o <> ""%string) then [fip_id o] else [])
                            <-> id <> ""%string /\ id = fip_id o).
  { intros id. case_decide; rewrite ?list_elem_of_singleton, ?elem_of_nil; intuition congruence. }
  set (recorded := if decide (fip_id o <> ""%string) then _ else _) in *. clearbody recorded.
  case_decide as Hlb.
  - apply after_m_bind, after_lift, (after_ListFloatingIPs client). cbn [fst snd].
    apply after_m_ret, HQ. intros id. rewrite elem_of_append_fips, Hrec. unfold own_fip. tauto.
  - apply after_m_ret, HQ. intros id. rewrite Hrec. unfold own_fip. tauto.
Qed.

Lemma after_delete_lb o w (Q : res unit * OVHCluster -> platform -> Prop) :
  (forall w', wanes w w' -> (lb_id o <> ""%string -> gone KLoadBalancer (lb_id o) (p_cloud w')) ->
     Q (Ok tt, o) w') ->
  after (delete_lb scope o) w Q.
Proof.
  intros HQ. unfold delete_lb, cstatus. apply after_m_bind, after_gets. cbn [fst snd].
  fold (lb_id o). case_decide as Hlb; [|by apply after_m_ret, HQ; [reflexivity|]].
  apply after_m_bind, (after_step wanes eq); [repeat keeps_rule; done | |].
  { repeat only_rule; [apply idle_waning, (idle_sleep ns name) | apply rem_pool]. }
  intros [] o1 w1 <- H1. cbn [fst snd].
  apply after_m_bind, (after_step wanes eq); [repeat keeps_rule; done | |].
  { repeat only_rule; [apply idle_waning, (idle_sleep ns name) | apply rem_listener]. }
  intros [] o1 w2 <- H2. cbn [fst snd].
  apply after_m_wrap, after_lift, (after_DeleteLoadBalancer client). intros w3 H3 Hg. cbn [fst snd map_err].
  apply HQ; [|done]. by transitivity w1; [|transitivity w2].
Qed.

(** Every load balancer of the prefix is gone. *)
Lemma after_delete_orphans o w (Q : unit * OVHCluster -> platform -> Prop) :
  (forall w', wanes w w' ->
     (forall l, l ∈ lbs (p_cloud w) -> HasPrefix (LoadBalancer_Name l) lb_prefix ->
        gone KLoadBalancer (LoadBalancer_ID l) (p_cloud w')) -> Q (tt, o) w') ->
  after (delete_orphans scope o) w Q.
Proof.
  intros HQ. unfold delete_orphans. apply after_m_bind, after_lift, after_try.
  eapply after_reads; [apply net_lbs|]. intros xs ->. cbn [fst snd map_err]. fold lb_prefix.
  set (orphans := filter _ _).
  assert (Hor : forall w', wanes w w' ->
    (forall l, l ∈ orphans -> gone KLoadBalancer (LoadBalancer_ID l) (p_cloud w')) -> Q (tt, o) w').
  { intros w' Hw Hl. apply HQ; [done|]. intros l Hin Hp. apply Hl. by apply list_elem_of_filter. }
  clearbody orphans. clear HQ. cbn [after].
  assert (Hgen : forall w1 done, wanes w w1 ->
    (forall l, l ∈ done -> gone KLoadBalancer (LoadBalancer_ID l) (p_cloud w1)) ->
    (forall w', wanes w w' -> (forall l, l ∈ done ++ orphans ->
       gone KLoadBalancer (LoadBalancer_ID l) (p_cloud w')) -> Q (tt, o) w') ->
    after (for_each (fun orphan => _ ← lift (DeleteLoadBalancer client (LoadBalancer_ID orphan)); mret tt)
             orphans o) w1 Q).
  { clear Hor. induction orphans as [|l orphans IH]; intros w1 done Hw Hd HQ; cbn [for_each].
    - apply after_m_ret, HQ; [done|]. by rewrite app_nil_r.
    - apply after_m_bind, after_m_bind, after_lift, (after_DeleteLoadBalancer client). intros w2 Hw2 Hg.
      cbn [fst snd]. apply after_m_ret. cbn [fst snd]. apply (IH w2 (done ++ [l])).
      + by transitivity w1.
      + intros l' [Hin| ->%list_elem_of_singleton]%elem_of_app; [|done].
        eapply gone_dwindles; [apply Hw2|]. by apply Hd.
      + by rewrite <- app_assoc. }
  apply (Hgen w []); [reflexivity | by intros l ?%not_elem_of_nil | done].
Qed.
Lemma find_fip_absent id cl : id ∉ ids_of KFloatingIP cl -> find_fip id cl = None.
Proof.
  intros Hn. destruct (find_fip id cl) as [f|] eqn:E; [|done]. exfalso. apply Hn.
  apply first_match_sound in E as [E%bool_decide_eq_true Hin]. apply list_elem_of_fmap. eauto.
Qed.

(** The captured floating IPs are gone; none is still present if none existed. *)
Lemma after_cleanupFloatingIPs ids o w (Q : bool * OVHCluster -> platform -> Prop) :
  (forall b w', wanes w w' -> (forall id, id ∈ ids -> gone KFloatingIP id (p_cloud w')) ->
     ((forall id, id ∈ ids -> id ∉ ids_of KFloatingIP (p_cloud w)) -> b = false) -> Q (b, o) w') ->
  after (cleanupFloatingIPs scope ids o) w Q.
Proof.
  intros HQ. unfold cleanupFloatingIPs. apply after_lift.
  assert (Hgen : forall todo done acc w1, ids = done ++ todo -> wanes w w1 ->
    (forall id, id ∈ done -> gone KFloatingIP id (p_cloud w1)) ->
    ((forall id, id ∈ ids -> id ∉ ids_of KFloatingIP (p_cloud w)) -> acc = false) ->
    after (for_acc (fun requeue fipID =>
             present ← cleanup_fip client fipID; mret (requeue || present)) acc todo) w1
      (fun b => Q (b, o))).
  { induction todo as [|id todo IH]; intros done acc w1 Hids Hw Hd Hacc; cbn [for_acc].
    - rewrite app_nil_r in Hids. subst done. by apply after_mret, HQ.
    - apply after_bind, after_bind. unfold cleanup_fip.
      apply after_bind, (after_DeleteFloatingIP client). intros w2 Hw2 Hg. cbn [fst snd].
      assert (Hw' : wanes w w2) by by transitivity w1.
      assert (Hd' : forall i, i ∈ done ++ [id] -> gone KFloatingIP i (p_cloud w2)).
      { intros i [Hin| ->%list_elem_of_singleton]%elem_of_app; [|done].
        eapply gone_dwindles; [apply Hw2|]. by apply Hd. }
      apply after_bind, (after_GetFloatingIP client).
      + intros f Hf. apply after_mret, after_mret, (IH (done ++ [id])); [by rewrite <- app_assoc|done..|].
        intros Hno. exfalso. assert (find_fip id (p_cloud w2) = None) as E; [|congruence].
        apply find_fip_absent. intros Hin. apply (ids_of_shrinks _ _ _ (wanes_shrinks _ _ Hw')) in Hin.
        eapply Hno; [|exact Hin]. rewrite Hids, elem_of_app, elem_of_cons. auto.
      + intros e _ _. apply after_mret, after_mret, (IH (done ++ [id])); [by rewrite <- app_assoc|done..|].
        intros Hno. by rewrite Hacc. }
  apply (Hgen ids [] false w); [done | reflexivity | by intros id ?%not_elem_of_nil | done].
Qed.

Lemma after_delete_gateway o w (Q : unit * OVHCluster -> platform -> Prop) :
  own_ports o (p_cloud w) ->
  (forall w', wanes w w' -> (forall id, own_gateway (p_cloud w) id -> gone KGateway id (p_cloud w')) ->
     Q (tt, o) w') ->
  after (delete_gateway scope o) w Q.
Proof.
  intros [_ Hone] HQ. unfold delete_gateway.
  apply after_m_bind, after_lift, (after_ListGateways client). cbn [fst snd].
  destruct (first_match _ (gateways (p_cloud w))) as [g|] eqn:E.
  - apply first_match_sound in E as [E%bool_decide_eq_true Hin].
    apply after_m_bind, after_lift, (after_DeleteGateway client). intros w1 Hw Hg. cbn [fst snd].
    apply after_m_ret, HQ; [done|]. intros id (g' & Hin' & <- & E'). by rewrite (Hone g g').
  - apply after_m_ret, HQ; [reflexivity|]. intros id (g & Hin & <- & Eg).
    apply first_match_None in E. rewrite Forall_forall in E. specialize (E g Hin).
    by rewrite bool_decide_true in E.
Qed.

(** The network goes, or something has a port on it. *)
Lemma after_delete_network o w (Q : res unit * OVHCluster -> platform -> Prop) :
  (forall e, made_network o -> busy (net_id o) (p_cloud w) -> Q (Err e, o) w) ->
  (forall w', wanes w w' -> (made_network o -> gone KNetwork (net_id o) (p_cloud w')) ->
     Q (Ok tt, o) w') ->
  after (delete_network scope o) w Q.
Proof.
  intros Hbusy HQ. unfold delete_network, cstatus. apply after_m_bind, after_gets. cbn [fst snd].
  fold (net_id o). destruct (IsTrue _ _) eqn:Hm.
  - case_decide as Hid; [|apply after_m_ret, HQ; [reflexivity|by intros []]].
    apply after_lift, (after_DeletePrivateNetwork client).
    + intros e. by apply Hbusy.
    + intros w' Hw Hg. by apply HQ.
  - apply after_m_ret, HQ; [reflexivity|]. intros [Hm' _]. congruence.
Qed.

(** ** One pass *)

(** Nothing has a port on the cluster's network once its load balancers and its
    gateway do not exist. *)
Lemma not_busy o cl :
  own_ports o cl -> vacant o cl -> made_network o ->
  (forall l, l ∈ lbs cl -> ~ own_lb o l) -> (forall id, ~ own_gateway cl id) ->
  ~ busy (net_id o) cl.
Proof.
  intros [Hp _] Hv Hm Hl Hg (n & Hin & Hid & Hb). destruct (Hp Hm n Hin Hid) as [H1 H2].
  destruct Hb as [(l & Hinl & Hu)|[(g & i & Hing & Hini & Hu)|(i & Hini & Hu)]].
  - by apply (Hl l Hinl), H1.
  - apply (Hg (Gateway_ID g)). exists g. split_and!; [done..|]. by eapply H2.
  - by apply (Hv Hm i).
Qed.

(** The load balancers and floating IPs of the cluster are gone. *)
Definition detached (o : OVHCluster) (cl : cloud) : Prop :=
  (forall l, l ∈ lbs cl -> own_lb o l -> gone KLoadBalancer (LoadBalancer_ID l) cl)
  /\ (forall id, own_fip o cl id -> gone KFloatingIP id cl).

Definition unrouted (cl : cloud) : Prop := forall id, own_gateway cl id -> gone KGateway id cl.

(** How far the deletion is. *)
Definition stage (n : nat) (o : OVHCluster) (cl : cloud) : Prop :=
  ((1 <= n)%nat -> detached o cl) /\ ((2 <= n)%nat -> unrouted cl).

(** No load balancer of the cluster is left that is not going, and the floating
    IPs it had before the pass are gone. *)
Definition cleared (o : OVHCluster) (cl cl' : cloud) : Prop :=
  (forall l, l ∈ lbs cl' -> own_lb o l -> gone KLoadBalancer (LoadBalancer_ID l) cl')
  /\ (forall id, own_fip o cl id -> gone KFloatingIP id cl').

Lemma cleared_detached o cl cl' : dwindles cl cl' -> cleared o cl cl' -> detached o cl'.
Proof.
  intros [Hd _] [H1 H2]. split; [exact H1|]. intros id Ho. apply H2. by eapply own_fip_shrinks.
Qed.

Lemma own_lb_source o cl cl' l' :
  shrinks cl cl' -> l' ∈ lbs cl' -> own_lb o l' ->
  exists l, l ∈ lbs cl /\ own_lb o l /\ LoadBalancer_ID l' = LoadBalancer_ID l.
Proof.
  intros (_ & Hl & _) Hin Ho. destruct (Hl _ Hin) as (l & ? & E & En & _).
  exists l. unfold own_lb in *. by rewrite <- E, <- En.
Qed.

Lemma cleared_dwindles o cl cl1 cl2 : dwindles cl1 cl2 -> cleared o cl cl1 -> cleared o cl cl2.
Proof.
  intros Hd [H1 H2]. split.
  - intros l' Hin Ho. destruct (own_lb_source _ _ _ _ (proj1 Hd) Hin Ho) as (l & Hl & Ho' & ->).
    eapply gone_dwindles; [exact Hd | by apply H1].
  - intros id Ho. eapply gone_dwindles; [exact Hd | by apply H2].
Qed.

Lemma unrouted_shrinks cl cl' :
  shrinks cl cl' -> (forall id, own_gateway cl id -> gone KGateway id cl') -> unrouted cl'.
Proof. intros Hd H id Ho. apply H. by eapply own_gateway_shrinks. Qed.
(** The deletions carried out, and the load balancers, floating IPs and the gateway gone:
    they do not exist. *)
Lemma stage_fips n o cl :
  settled_d o cl -> stage n o cl -> (1 <= n)%nat ->
  forall id, own_fip o cl id -> id ∉ ids_of KFloatingIP cl.
Proof.
  intros (_ & Hd & _) [H _] Hn id Ho. apply gone_absent; [by apply Hd|]. by apply (proj2 (H Hn)).
Qed.

Lemma stage_free o cl cl' :
  settled_d o cl -> stage 2 o cl -> own_ports o cl -> shrinks cl cl' -> made_network o ->
  ~ busy (net_id o) cl'.
Proof.
  intros (Dl & _ & Dg & Dv) [H1 H2] Hp Hdw Hm. apply not_busy; [by eapply own_ports_shrinks | | done | |].
  - intros _ i Hi. apply (Dv Hm). by apply (ids_of_shrinks KInstance _ _ Hdw).
  - intros l' Hin Ho. destruct (own_lb_source _ _ _ _ Hdw Hin Ho) as (l & Hinl & Hol & _).
    apply (gone_absent KLoadBalancer (LoadBalancer_ID l) cl (Dl l Hinl Hol)).
    + by apply (proj1 (H1 ltac:(lia))).
    + apply list_elem_of_fmap. eauto.
  - intros id Ho. apply (own_gateway_shrinks _ _ _ Hdw) in Ho. pose proof Ho as (g & Hin & <- & _).
    apply (gone_absent KGateway (Gateway_ID g) cl (Dg _ Ho)); [by apply H2; [lia|]|].
    apply list_elem_of_fmap. eauto.
Qed.

Lemma unrouted_dwindles cl cl' : dwindles cl cl' -> unrouted cl -> unrouted cl'.
Proof. intros Hd Hu. eapply unrouted_shrinks; [apply Hd|]. intros id Ho. by eapply gone_dwindles, Hu. Qed.

(** The end of a pass: the gateway, and the network when it is free. *)
Lemma after_unroute o w (Q : outcome * OVHCluster -> platform -> Prop) :
  own_ports o (p_cloud w) ->
  (forall w', wanes w w' -> unrouted (p_cloud w') -> made_network o ->
     busy (net_id o) (p_cloud w') -> Q (requeue requeueTimeShort, o) w') ->
  (forall o' w', same o o' -> wanes w w' -> unrouted (p_cloud w') ->
     (made_network o -> gone KNetwork (net_id o) (p_cloud w')) ->
     ContainsFinalizer (Meta_Finalizers (OVHCluster_ObjectMeta o')) ClusterFinalizer = false ->
     Q (done_, o') w') ->
  after ((delete_gateway scope ;;
          network ← delete_network scope;
          match network with
          | Err _ => mret (requeue requeueTimeShort)
          | Ok _ => remove_finalizer ;; mret done_
          end) o) w Q.
Proof.
  intros Hp Qbusy Qdone. apply after_m_bind, after_delete_gateway; [done|]. intros w1 W1 Hgw. cbn [fst snd].
  assert (U1 : unrouted (p_cloud w1)) by by eapply unrouted_shrinks; [apply wanes_shrinks, W1|].
  apply after_m_bind, after_delete_network; cbn [fst snd].
  - intros e Hm Hbusy. by apply after_m_ret, Qbusy.
  - intros w2 W2 Hnet. apply after_m_bind, after_modify, after_m_ret. cbn [fst snd]. apply Qdone.
    + by split_and!.
    + by transitivity w1.
    + intros id Ho. eapply gone_dwindles; [apply W2|]. apply U1. by eapply own_gateway_shrinks; [apply wanes_shrinks, W2|].
    + exact Hnet.
    + cbn. apply Contains_Remove.
Qed.

(** The middle of a pass: what the load balancers and floating IPs leave. *)
Lemma cleared_pass o w w1 w2 w3 w4 (ids : list string) :
  spares w w1 -> wanes w1 w2 -> wanes w2 w3 -> wanes w3 w4 ->
  (lb_id o <> ""%string -> gone KLoadBalancer (lb_id o) (p_cloud w2)) ->
  (forall l, l ∈ lbs (p_cloud w2) -> HasPrefix (LoadBalancer_Name l) lb_prefix ->
     gone KLoadBalancer (LoadBalancer_ID l) (p_cloud w3)) ->
  (forall id, id ∈ ids <-> own_fip o (p_cloud w) id) ->
  (forall id, id ∈ ids -> gone KFloatingIP id (p_cloud w4)) ->
  cleared o (p_cloud w) (p_cloud w4).
Proof.
  intros G W2 W3 W4 Hlb Hor Hids Hfips. split; [|intros id Ho; by apply Hfips, Hids].
  assert (W24 : wanes w2 w4) by by transitivity w3. intros l Hin Ho.
  destruct Ho as [[Hne E]|Hp].
  - rewrite E. eapply gone_dwindles; [apply W24 | by apply Hlb].
  - destruct (wanes_shrinks _ _ W24) as (_ & Hl & _). destruct (Hl _ Hin) as (l2 & Hin2 & E & En & _).
    rewrite E. eapply gone_dwindles; [apply W4|]. apply Hor; [done|]. by rewrite <- En.
Qed.

(** A pass waits for the floating IPs, waits for the network, or is the last. *)
Lemma after_delete_pass n o w (Q : outcome * OVHCluster -> platform -> Prop) :
  annotation (OVHCluster_ObjectMeta o) adoption_policy <> "keep"%string ->
  own_ports o (p_cloud w) -> stage n o (p_cloud w) ->
  (forall o' w', same o o' -> wanes w w' -> cleared o (p_cloud w) (p_cloud w') ->
     (settled_d o (p_cloud w) -> n = 0%nat) -> Q (requeue requeueTimeShort, o') w') ->
  (forall o' w', same o o' -> wanes w w' -> cleared o (p_cloud w) (p_cloud w') ->
     unrouted (p_cloud w') -> (settled_d o (p_cloud w) -> (n < 2)%nat) ->
     Q (requeue requeueTimeShort, o') w') ->
  (forall o' w', same o o' -> wanes w w' -> cleared o (p_cloud w) (p_cloud w') ->
     unrouted (p_cloud w') -> (made_network o -> gone KNetwork (net_id o) (p_cloud w')) ->
     ContainsFinalizer (Meta_Finalizers (OVHCluster_ObjectMeta o')) ClusterFinalizer = false ->
     Q (done_, o') w') ->
  after (ReconcileDelete scope o) w Q.
Proof.
  intros Hann Hports Hst Qfips Qbusy Qdone. unfold ReconcileDelete.
  apply after_m_bind, after_get. cbn [fst snd]. rewrite decide_False by done.
  apply after_m_bind, (after_step spares same); [apply delete_dns_sparing..|].
  intros [] o1 w1 S1 G1. cbn [fst snd].
  apply after_m_bind, (after_step spares same); [apply delete_groups_sparing..|].
  intros [] o2 w2 S2 G2. cbn [fst snd].
  assert (Sm : same o o2) by by transitivity o1.
  assert (G : spares w w2) by by transitivity w1.
  apply after_m_bind, after_capture_fips. intros ids Hids. cbn [fst snd].
  apply after_m_bind, after_delete_lb. intros w3 W3 Hlb. cbn [fst snd].
  apply after_m_bind, after_delete_orphans. intros w4 W4 Hor. cbn [fst snd].
  apply after_m_bind, after_cleanupFloatingIPs. intros b w5 W5 Hfips Hb. cbn [fst snd].
  assert (W04 : wanes w w4) by by transitivity w2; [apply G | transitivity w3].
  assert (W05 : wanes w w5) by by transitivity w4.
  assert (Hown : forall id, id ∈ ids <-> own_fip o (p_cloud w) id).
  { intros id. rewrite Hids, (own_fip_same _ _ _ _ Sm). unfold own_fip. by rewrite (proj2 G). }
  pose proof Sm as (_ & _ & _ & _ & Enet & Elb & _). rewrite Elb in Hlb.
  assert (C5 := cleared_pass o _ _ _ _ _ _ G W3 W4 W5 Hlb Hor Hown Hfips).
  destruct b.
  - apply after_m_ret, Qfips; [done..|]. intros Hdue. destruct n as [|n]; [done|].
    discriminate Hb. intros id Hid%Hown Hin. eapply (stage_fips (S n)); [exact Hdue | exact Hst | lia | exact Hid|].
    by apply (ids_of_shrinks KFloatingIP _ (p_cloud w4)); [apply wanes_shrinks, W04|].
  - apply after_unroute; [eapply own_ports_same, own_ports_shrinks; [exact Sm | apply wanes_shrinks, W05 | done]| |];
      rewrite ?Enet.
    + intros w6 W6 U6 Hm Hbusy. assert (W06 : wanes w w6) by by transitivity w5.
      apply Qbusy; [done..| |done|]; [by eapply cleared_dwindles; [apply W6|]|]. intros Hdue.
      destruct (decide (n < 2)%nat) as [Hn|Hn]; [done|]. exfalso. revert Hbusy.
      apply (stage_free o (p_cloud w)); [done | | done | apply wanes_shrinks, W06 | by apply (made_network_same _ _ Sm)].
      split; intros _; [apply (proj1 Hst) | apply (proj2 Hst)]; lia.
    + intros o' w6 S6 W6 U6 Hn. apply Qdone; [by transitivity o2 | by transitivity w5 | | done |].
      * by eapply cleared_dwindles; [apply W6|].
      * by rewrite <- (made_network_same _ _ Sm).
Qed.
End teardown.

(** ** The passes *)

Section passes.
Context `{U : Unicode} `{C : CAPI} {L : CAPILaws C} `{P : Platform} `{Lv : !Live}.
Context (ns name service region : string) `{K : !KubeLaws ns name}.
Context {Po : Ports} `{N : !NetworkLaws (mkClient service region)} `{R : !RemovalLaws (mkClient service region)}.

(** The scope of a pass. *)
Definition scope_at (w : platform) : ClusterScope :=
  mkClusterScope (p_owner w) (mkClient service region).

(** What the first pass starts from: a cluster that is being deleted, and is not
    to be kept. *)
Definition start_d (w : platform) : Prop :=
  let o := p_cluster w in
  IsZero (Meta_DeletionTimestamp (OVHCluster_ObjectMeta o)) = false
  /\ annotation (OVHCluster_ObjectMeta o) adoption_policy <> "keep"%string
  /\ has_secret o w
  /\ CSpec_ServiceName (OVHCluster_Spec o) = service /\ CSpec_Region (OVHCluster_Spec o) = region
  /\ own_ports (scope_at w) o (p_cloud w).

(** The provider has finished what the next pass waits for. *)
Definition settled_c (w : platform) : Prop := settled_d (scope_at w) (p_cluster w) (p_cloud w).

(** The cluster [o], in a project that was [cl], is taken down: the finalizer is
    removed, and its load balancers, its floating IPs, its gateway and the network
    made for it are gone or going. *)
Definition taken_down (scope : ClusterScope) (o : OVHCluster) (cl : cloud) (w : platform) : Prop :=
  ContainsFinalizer (Meta_Finalizers (OVHCluster_ObjectMeta (p_cluster w))) ClusterFinalizer = false
  /\ cleared scope o cl (p_cloud w) /\ unrouted scope (p_cloud w)
  /\ (made_network o -> gone KNetwork (net_id o) (p_cloud w)).

(** A pass of the deletion of [o], in a project that was [cl]: at stage [n]. *)
Definition going (scope : ClusterScope) (o : OVHCluster) (cl : cloud) (n : nat) (w : platform) : Prop :=
  start_d w /\ scope_at w = scope /\ same o (p_cluster w) /\ (n <= 2)%nat
  /\ stage scope n (p_cluster w) (p_cloud w)
  /\ ((n = 0%nat /\ p_cloud w = cl) \/ forall id, own_fip o cl id -> gone KFloatingIP id (p_cloud w)).

Lemma stage_finishes scope n o w w' :
  finishes w w' -> stage scope n o (p_cloud w) -> stage scope n o (p_cloud w').
Proof.
  intros (_ & Hsh & Hg) [H1 H2]. split.
  - intros Hn. destruct (H1 Hn) as [Hl Hf]. split.
    + intros l' Hin Ho. destruct (own_lb_source _ _ _ _ _ Hsh Hin Ho) as (l & Hinl & Hol & ->).
      apply Hg. by apply Hl.
    + intros id Ho. apply Hg, Hf. by eapply own_fip_shrinks.
  - intros Hn id Ho. apply Hg, (H2 Hn). by eapply own_gateway_shrinks.
Qed.

(** The provider may finish, and the machines be deleted. *)
Definition vacate (cl : cloud) : cloud := set_instances [] (sweep cl).

Lemma finishes_vacate w : finishes w (on_cloud vacate w).
Proof.
  split; [done|]. split.
  - destruct (sweep_shrinks (p_cloud w)) as (Hn & Hl & Hf & Hg & _ & Hm). split_and!; try done.
    by intros id ?%not_elem_of_nil.
  - intros k id H. apply (gone_sweep k id) in H as [H|H]; [by left|].
    right. destruct k; try exact H. by intros ?%not_elem_of_nil.
Qed.

Lemma settled_vacate w : settled_c (on_cloud vacate w).
Proof.
  assert (Hc : forall k id, carried k id (p_cloud (on_cloud vacate w))) by by intros k id ?%not_elem_of_nil.
  split_and!; auto. by intros _ i ?%not_elem_of_nil.
Qed.

(** What the next pass starts from. *)
Lemma going_next scope o cl n w o' w' n' w2 :
  going scope o cl n w -> same (p_cluster w) o' -> wanes w w' -> (n' <= 2)%nat ->
  stage scope n' o' (p_cloud w') ->
  (forall id, own_fip o cl id -> gone KFloatingIP id (p_cloud w')) ->
  finishes (store_cluster o' w') w2 -> going scope o cl n' w2.
Proof.
  intros ((Hz & Ha & Hsec & Hsn & Hr & Hp) & Hsc & Hsm & _) Hs Hw Hn' Hst Hf Hfin.
  pose proof Hfin as (Hob2 & Hsh & Hg). injection Hob2 as Hc2 _ Ho2 _ Hs2. cbn in Hc2, Ho2, Hs2.
  pose proof Hw as [Hob _]. injection Hob as ? ? Hown ? Hsecrets.
  assert (Hsc' : scope_at w2 = scope_at w) by (unfold scope_at; by rewrite Ho2, Hown).
  pose proof Hs as (Esp & Edt & Ean & _).
  split; [|split_and!].
  - unfold start_d. rewrite Hsc', Hc2. split_and!.
    + by rewrite Edt.
    + unfold annotation in *. by rewrite Ean.
    + unfold has_secret in *. by rewrite Esp, Hs2, Hsecrets.
    + by rewrite Esp.
    + by rewrite Esp.
    + eapply own_ports_same; [exact Hs|]. eapply own_ports_shrinks; [|exact Hp].
      etransitivity; [apply wanes_shrinks, Hw | exact Hsh].
  - congruence.
  - rewrite Hc2. by transitivity (p_cluster w).
  - exact Hn'.
  - rewrite Hc2. by eapply stage_finishes.
  - right. intros id Ho. apply Hg. by apply Hf.
Qed.

Lemma start_d_scope w : start_d w -> annotation (OVHCluster_ObjectMeta (p_cluster w)) adoption_policy <> "keep"%string
  /\ own_ports (scope_at w) (p_cluster w) (p_cloud w).
Proof. by intros (_ & ? & _ & _ & _ & ?). Qed.

Lemma after_deletion w (Q : outcome -> platform -> Prop) :
  start_d w ->
  after (ReconcileDelete (scope_at w) (p_cluster w)) w (fun r w' => Q r.1 (store_cluster r.2 w')) ->
  after (Reconcile ns name) w Q.
Proof.
  intros (Hz & _ & Hsec & Hsn & Hr & _) HQ. apply (after_entry ns name service region); [done..|].
  by rewrite Hz.
Qed.

(** What a pass clears is what the first one had to. *)
Lemma going_cleared scope o cl n w w' :
  going scope o cl n w -> wanes w w' -> cleared scope (p_cluster w) (p_cloud w) (p_cloud w') ->
  cleared scope o cl (p_cloud w').
Proof.
  intros (_ & _ & Hsm & _ & _ & Hcl) Hw [H1 H2]. split.
  - intros l Hin Ho. apply H1; [done|]. by apply (own_lb_same _ _ _ _ Hsm).
  - intros id Ho. destruct Hcl as [[_ <-]|Hf].
    + apply H2. by apply (own_fip_same _ _ _ _ Hsm).
    + eapply gone_dwindles; [apply Hw | by apply Hf].
Qed.

(** One pass fails nowhere, and is the last or takes the deletion further. *)
Lemma deletion_progress scope o cl n w :
  going scope o cl n w ->
  after (Reconcile ns name) w (fun out w' => no_error out
    /\ (taken_down scope o cl w'
        \/ exists n', (n <= n' <= 2)%nat /\ (settled_c w -> (n < n')%nat)
             /\ (exists w'', finishes w' w'' /\ settled_c w'')
             /\ forall w'', finishes w' w'' -> going scope o cl n' w'')).
Proof.
  intros Hg. pose proof Hg as (Hst & Hsc & Hsm & Hn2 & Hstage & _). apply after_deletion; [done|].
  destruct (start_d_scope w Hst) as (Ha & Hp). subst scope.
  assert (Hfips : forall w', wanes w w' -> cleared (scope_at w) (p_cluster w) (p_cloud w) (p_cloud w') ->
    forall id, own_fip o cl id -> gone KFloatingIP id (p_cloud w')).
  { intros w' Hw Hc. by apply (going_cleared _ _ _ _ _ _ Hg Hw). }
  assert (Hdet : forall o' w', same (p_cluster w) o' -> wanes w w' ->
    cleared (scope_at w) (p_cluster w) (p_cloud w) (p_cloud w') -> detached (scope_at w) o' (p_cloud w')).
  { intros o' w' Hs Hw Hc. apply (cleared_detached _ _ _ _ (proj2 Hw)) in Hc as [Hl Hf]. split.
    - intros l Hin Ho. apply Hl; [done|]. by apply (own_lb_same _ _ _ _ Hs).
    - intros id Ho. apply Hf. by apply (own_fip_same _ _ _ _ Hs). }
  assert (Hex : forall w', exists w'', finishes w' w'' /\ settled_c w'').
  { intros w'. exists (on_cloud vacate w'). split; [apply finishes_vacate | apply settled_vacate]. }
  apply (after_delete_pass (scope_at w) (N := N) (R := R) ns name n); cbn [fst snd]; [done..| | |].
  - intros o' w' Hs Hw Hc Hdue. split; [done|]. right. exists (Nat.max 1 n). split_and!; [lia..| |done|].
    { intros Hd. rewrite (Hdue Hd). simpl. lia. }
    intros w2. eapply going_next; [exact Hg | done..| lia | | by apply Hfips].
    split; [intros _; by apply Hdet|]. intros Hn'. eapply unrouted_dwindles; [apply Hw|].
    apply Hstage. lia.
  - intros o' w' Hs Hw Hc Hu Hdue. split; [done|]. right. exists 2%nat. split_and!; [lia|lia|done|done|].
    intros w2. eapply going_next; [exact Hg | done..| lia | | by apply Hfips].
    split; [intros _; by apply Hdet | done].
  - intros o' w' Hs Hw Hc Hu Hnet Hfin. split; [done|]. left. split; [exact Hfin|].
    split; [exact (going_cleared _ _ _ _ _ _ Hg Hw Hc)|]. split; [exact Hu|].
    rewrite (made_network_same _ _ Hsm) in Hnet. destruct Hsm as (_ & _ & _ & _ & E & _). by rewrite <- E.
Qed.

End passes.
