(* ===== verification/MachineTeardown.v ===== *)
(** * A deleted OVHMachine is taken down

    Against a platform that obeys [RemovalLaws], the passes over a machine that is
    being deleted end: the first takes the member out of the API server's pool and
    has the instance deleted; the finalizer is removed when the instance is no
    longer found. *)

From S2P Require Import Prelude GoStrings Errors OvhTypes ApiTypes Effects Client Names Logic.
From S2P Require Import ClientFacts ClusterController MachineController Platform PlatformLaws.
From S2P Require Import ClusterInvariant ClusterConvergence MachineConvergence Removal.

Local Open Scope Z_scope.

Definition instance_id (o : OVHMachine) : string := MStatus_InstanceID (OVHMachine_Status o).
Definition member_id (o : OVHMachine) : string := MStatus_LBPoolMemberID (OVHMachine_Status o).

(** No member of the pool has the ID. *)
Definition left_pool (pool id : string) (cl : cloud) : Prop :=
  Forall (fun m => Member_ID m <> id) (under pool (members cl)).

Lemma left_pool_shrinks pool id cl cl' : shrinks cl cl' -> left_pool pool id cl -> left_pool pool id cl'.
Proof.
  intros (_ & _ & _ & _ & _ & Hm). unfold left_pool. rewrite !Forall_forall.
  intros H m Hin%elem_of_under. apply H, elem_of_under. by apply Hm.
Qed.

(** What a deletion leaves of the object: all but the member and the finalizers. *)
Definition same_m (o o' : OVHMachine) : Prop :=
  Meta_DeletionTimestamp (OVHMachine_ObjectMeta o') = Meta_DeletionTimestamp (OVHMachine_ObjectMeta o)
  /\ Meta_Annotations (OVHMachine_ObjectMeta o') = Meta_Annotations (OVHMachine_ObjectMeta o)
  /\ instance_id o' = instance_id o.

#[export] Instance same_m_preorder : PreOrder same_m.
Proof.
  split; [intros o; unfold same_m; by split_and!|]. intros o1 o2 o3 H1 H2. unfold same_m in *.
  destr_hyps. split_and!; congruence.
Qed.

Section machine.
Context `{U : Unicode} `{C : CAPI} {L : CAPILaws C} `{P : Platform}.
Context {Po : Ports} (scope : MachineScope) `{Co : !ComputeLaws (MScope_OVHClient scope)}.
Context `{R : !RemovalLaws (MScope_OVHClient scope)} (ns name : string) `{K : !KubeLaws ns name}.
#[local] Notation client := (MScope_OVHClient scope).
#[local] Notation pool := (CStatus_PoolID (OVHCluster_Status (MScope_OVHCluster scope))).

(** The volumes go first. *)
Lemma delete_volumes_waning ids :
  only_m waning (for_each (delete_volume scope) ids) /\ keeps eq (for_each (delete_volume scope) ids).
Proof.
  split; [|apply keeps_each; [typeclasses eauto|]; intros id _; unfold delete_volume; repeat keeps_rule; done].
  repeat only_rule; try apply idle_waning, (idle_sleep ns name); [apply rem_detach | apply rem_volume].
Qed.

Lemma after_removeLBPoolMember o w (Q : unit * OVHMachine -> platform -> Prop) :
  (forall o' w', same_m o o' -> wanes w w' ->
     (member_id o <> ""%string -> pool <> ""%string -> left_pool pool (member_id o) (p_cloud w')) ->
     Q (tt, o') w') ->
  after (removeLBPoolMember scope o) w Q.
Proof.
  intros HQ. unfold removeLBPoolMember, mstatus. apply after_m_bind, after_gets. cbn [fst snd].
  fold (member_id o). case_decide as Hm; [by apply after_m_ret, HQ; [reflexivity..|]|].
  case_decide as Hp; [by apply after_m_ret, HQ; [reflexivity..|]|].
  apply after_m_bind, after_lift, (after_RemovePoolMember client). intros w' Hw Hl. cbn [fst snd].
  apply after_modify, HQ; [by split_and! | done..].
Qed.

Lemma lookup_absent id cl : id ∉ ids_of KInstance cl -> lookup_instance id cl = None.
Proof.
  intros Hn. destruct (lookup_instance id cl) as [i|] eqn:E; [|done]. exfalso. apply Hn.
  apply first_match_sound in E as [E%bool_decide_eq_true Hin]. apply list_elem_of_fmap. eauto.
Qed.

(** The recorded instance exists. *)
Definition running (o : OVHMachine) (cl : cloud) : Prop :=
  instance_id o <> ""%string /\ instance_id o ∈ ids_of KInstance cl.

(** The instance is gone; the pass waits only if it existed. *)
Lemma after_delete_instance o w (Q : option outcome * OVHMachine -> platform -> Prop) :
  (forall w', wanes w w' -> running o (p_cloud w) ->
     gone KInstance (instance_id o) (p_cloud w') -> Q (Some (requeue requeueDelay), o) w') ->
  (forall w', wanes w w' -> (instance_id o <> ""%string -> gone KInstance (instance_id o) (p_cloud w')) ->
     Q (None, o) w') ->
  after (delete_instance scope o) w Q.
Proof.
  intros Qwait Qnone. unfold delete_instance, mstatus. apply after_m_bind, after_gets. cbn [fst snd].
  fold (instance_id o). case_decide as Hid; [|by apply after_m_ret, Qnone].
  apply after_m_bind, after_lift, (after_DeleteInstance client). intros w' Hw Hg. cbn [fst snd].
  apply after_m_bind, after_lift, (after_GetInstance client).
  destruct (lookup_instance (instance_id o) (p_cloud w')) as [i|] eqn:E; cbn [fst snd].
  - case_decide; apply after_m_ret; [apply Qwait | apply Qnone]; try done.
    split; [done|]. apply (ids_of_shrinks KInstance _ _ (wanes_shrinks _ _ Hw)).
    apply first_match_sound in E as [<-%bool_decide_eq_true Hin]. apply list_elem_of_fmap. eauto.
  - intros e _. cbn [fst snd]. by apply after_m_ret, Qnone.
Qed.

(** One pass: it waits for the instance, or is the last. *)
Lemma after_machine_delete_pass o w (Q : outcome * OVHMachine -> platform -> Prop) :
  annotation (OVHMachine_ObjectMeta o) adoption_policy <> "keep"%string ->
  (forall o' w', same_m o o' -> wanes w w' -> running o (p_cloud w) ->
     gone KInstance (instance_id o) (p_cloud w') ->
     (member_id o <> ""%string -> pool <> ""%string -> left_pool pool (member_id o) (p_cloud w')) ->
     Q (requeue requeueDelay, o') w') ->
  (forall o' w', same_m o o' -> wanes w w' ->
     (instance_id o <> ""%string -> gone KInstance (instance_id o) (p_cloud w')) ->
     (member_id o <> ""%string -> pool <> ""%string -> left_pool pool (member_id o) (p_cloud w')) ->
     ContainsFinalizer (Meta_Finalizers (OVHMachine_ObjectMeta o')) MachineFinalizer = false ->
     Q (done_, o') w') ->
  after (ReconcileDelete scope o) w Q.
Proof.
  intros Ha Qwait Qdone. unfold ReconcileDelete. apply after_m_bind, after_get. cbn [fst snd].
  rewrite decide_False by done.
  apply after_m_bind, (after_step eq eq); [repeat keeps_rule; done | |].
  { repeat only_rule. intros w1 r w2 H. symmetry. by eapply (idle_metric ns name). }
  intros [] o1 w1 <- <-. cbn [fst snd].
  apply after_m_bind, (after_step wanes eq); [apply delete_volumes_waning..|].
  intros [] o1 w1 <- W1. cbn [fst snd].
  apply after_m_bind, after_removeLBPoolMember. intros o2 w2 S2 W2 Hm. cbn [fst snd].
  pose proof S2 as (_ & _ & Eid). assert (W02 : wanes w w2) by by transitivity w1.
  apply after_m_bind, after_delete_instance; unfold running; rewrite Eid; cbn [fst snd].
  - intros w3 W3 [Hne Hin] Hg. apply after_m_ret, Qwait; [done | by transitivity w2 | | done|].
    + split; [done|]. by apply (ids_of_shrinks KInstance _ _ (wanes_shrinks _ _ W02)).
    + intros H1 H2. by eapply left_pool_shrinks; [apply wanes_shrinks, W3 | apply Hm].
  - intros w3 W3 Hg. apply after_m_bind, after_modify, after_m_ret. cbn [fst snd].
    apply Qdone; [|by transitivity w2 | done | | apply Contains_Remove].
    + etransitivity; [exact S2|]. by split_and!.
    + intros H1 H2. by eapply left_pool_shrinks; [apply wanes_shrinks, W3 | apply Hm].
Qed.
End machine.

(** ** The passes *)

Section passes.
Context `{U : Unicode} `{C : CAPI} {L : CAPILaws C} `{P : Platform} `{Lv : !Live}.
Context (ns name mns mname service region : string).
Context `{K : !KubeLaws ns name} `{Ml : !MachineLaws mns mname}.
Context {Po : Ports} `{Co : !ComputeLaws (mkClient service region)} `{R : !RemovalLaws (mkClient service region)}.

(** What the first pass starts from: a machine that is being deleted, and is not
    to be kept. *)
Definition start_md (w : platform) : Prop :=
  let o := p_machine w in
  let spec := OVHCluster_Spec (p_cluster w) in
  IsZero (Meta_DeletionTimestamp (OVHMachine_ObjectMeta o)) = false
  /\ annotation (OVHMachine_ObjectMeta o) adoption_policy <> "keep"%string
  /\ has_secret (p_cluster w) w
  /\ CSpec_ServiceName spec = service /\ CSpec_Region spec = region
  /\ (exists ref, Cluster_InfrastructureRef (p_owner w) = Some ref
       /\ Ref_Namespace ref = ns /\ Ref_Name ref = name).

(** The instance of [o] is gone or going, and its member has left the pool. *)
Definition released (pool : string) (o : OVHMachine) (cl : cloud) : Prop :=
  (instance_id o <> ""%string -> gone KInstance (instance_id o) cl)
  /\ (member_id o <> ""%string -> pool <> ""%string -> left_pool pool (member_id o) cl).

Definition taken_down_m (pool : string) (o : OVHMachine) (w : platform) : Prop :=
  ContainsFinalizer (Meta_Finalizers (OVHMachine_ObjectMeta (p_machine w))) MachineFinalizer = false
  /\ released pool o (p_cloud w).

(** One pass: it is the last, or the next one finds the instance gone and the
    member out of the pool. *)
Lemma machine_deletion_progress w :
  start_md w ->
  let pool := CStatus_PoolID (OVHCluster_Status (p_cluster w)) in
  after (Reconcile mns mname) w (fun r w' => returns r /\ shrinks (p_cloud w) (p_cloud w')
    /\ (taken_down_m pool (p_machine w) w'
        \/ running (p_machine w) (p_cloud w)
           /\ released pool (p_machine w) (p_cloud w')
           /\ objects w' = objects (store_machine (p_machine w') w)
           /\ same_m (p_machine w) (p_machine w'))).
Proof.
  intros (Hz & Ha & Hsec & Hsn & Hr & Href) pool.
  apply (after_machine_entry ns name mns mname service region); [done..|]. rewrite Hz. cbn [negb].
  apply (after_machine_delete_pass (scope_of service region w) (Co := Co) (R := R) ns name); [done| |].
  - intros o' w' Hs Hw Hin Hg Hl. cbn [fst snd]. split; [done|].
    split; [exact (wanes_shrinks _ _ Hw)|]. right. split; [done|]. split; [by split|]. split; [|done].
    destruct Hw as [Hob _]. injection Hob as E1 _ E2 E3 E4. unfold objects. cbn. congruence.
  - intros o' w' Hs Hw Hg Hl Hfin. cbn [fst snd]. split; [done|].
    split; [exact (wanes_shrinks _ _ Hw)|]. left. by split.
Qed.

Lemma released_finishes pool o w w' :
  finishes w w' -> released pool o (p_cloud w) -> released pool o (p_cloud w').
Proof.
  intros (_ & Hsh & Hg) [H1 H2]. split.
  - intros Hne. by apply Hg, H1.
  - intros Hm Hp. eapply left_pool_shrinks; [exact Hsh | by apply H2].
Qed.

(** The next pass starts as this one did. *)
Lemma start_md_next w w1 w' :
  start_md w -> objects w1 = objects (store_machine (p_machine w1) w) ->
  same_m (p_machine w) (p_machine w1) -> finishes w1 w' ->
  start_md w' /\ p_cluster w' = p_cluster w /\ p_machine w' = p_machine w1.
Proof.
  intros (Hz & Ha & Hsec & Hsn & Hr & Href) Hob (Edt & Ean & _) (Hob' & _).
  injection Hob as E1 E2 E3 E4. injection Hob' as E1' Em E2' E3' E4'.
  unfold start_md, has_secret, annotation in *. cbn in *.
  rewrite E1', Em, E2', E4', Edt, Ean, E1, E2, E4. by split_and!.
Qed.

(** The provider has carried out the deletion of the instance, if it accepted one. *)
Definition settled_i (w : platform) : Prop :=
  carried KInstance (instance_id (p_machine w)) (p_cloud w).

(** The deletion of the machine [o], in a cluster whose pool is [pool]: before the
    first pass, and when what it had is released. *)
Definition going_m (pool : string) (o : OVHMachine) (l : nat) (w : platform) : Prop :=
  start_md w /\ CStatus_PoolID (OVHCluster_Status (p_cluster w)) = pool
  /\ instance_id (p_machine w) = instance_id o
  /\ ((l = 0%nat /\ p_machine w = o) \/ (l = 1%nat /\ released pool o (p_cloud w))).

Lemma machine_going_on pool o l w :
  going_m pool o l w ->
  after (Reconcile mns mname) w (fun r w' => returns r
    /\ (taken_down_m pool o w'
        \/ exists l', (l <= l' <= 1)%nat /\ (settled_i w -> (l < l')%nat)
             /\ (exists w'', finishes w' w'' /\ settled_i w'')
             /\ forall w'', finishes w' w'' -> going_m pool o l' w'')).
Proof.
  intros (Hst & Hpool & Hid & Hl). eapply after_mono; [by apply machine_deletion_progress|].
  rewrite Hpool. intros r w' (Hr & Hsh & [[Hfin Hrel]|(Hrun & Hrel & Hob & Hs)]); (split; [exact Hr|]).
  - left. split; [exact Hfin|]. destruct Hl as [[_ Ho]|[_ [_ Hleft]]]; [by rewrite <- Ho|].
    split; [rewrite <- Hid; apply Hrel|]. intros Hm Hp.
    eapply left_pool_shrinks; [exact Hsh | by apply Hleft].
  - right. exists 1%nat. split_and!; [destruct Hl as [[-> _]|[-> _]]; lia | lia | | |].
    + intros Hdue. destruct Hl as [[-> _]|[_ [Hg _]]]; [lia|]. destruct Hrun as [Hne Hin]. exfalso.
      rewrite <- Hid in Hg. by apply (gone_absent KInstance (instance_id (p_machine w)) (p_cloud w) Hdue); [apply Hg|].
    + exists (on_cloud sweep w'). split; [apply finishes_sweep | apply carried_sweep].
    + intros w2 Hf. destruct (start_md_next w w' w2 Hst Hob Hs Hf) as (Hst2 & Ec & Em).
      pose proof Hs as (_ & _ & Eid). split; [exact Hst2|]. rewrite Ec, Em.
      split; [done|]. split; [congruence|]. right. split; [done|].
      apply (released_finishes _ _ w'); [done|]. destruct Hl as [[_ Ho]|[_ [_ Hleft]]]; [by rewrite <- Ho|].
      split; [rewrite <- Hid; apply Hrel|]. intros Hm Hp.
      eapply left_pool_shrinks; [exact Hsh | by apply Hleft].
Qed.

(** C12: a machine that is being deleted, and is not to be kept, is taken down. Let the
    identity secret of its cluster be complete. Between two passes nobody touches the
    objects, nothing is added to the project, and the provider carries out the deletions
    it accepted, all of them, some, or none. Until the end no pass fails or panics; a pass counts
    if it starts when the provider is not still carrying out the deletion of the
    machine's instance. The second pass that counts, or an earlier one, ends with the
    finalizer removed, and then the recorded instance is gone or going, and the recorded
    member has left the API server's pool. While the provider does not carry out the
    deletion, the passes wait, and their number is not bounded. *)
Theorem machine_taken_down w k :
  start_md w ->
  paced returns settled_i finishes k 1 (Reconcile mns mname)
    (taken_down_m (CStatus_PoolID (OVHCluster_Status (p_cluster w))) (p_machine w)) w.
Proof.
  intros Hst. apply (paced_by_level _ _ _ _ _
    (going_m (CStatus_PoolID (OVHCluster_Status (p_cluster w))) (p_machine w)) 1) with (l := 0%nat);
    [intros l v; apply machine_going_on | | done].
  split; [done|]. split; [done|]. split; [done|]. by left.
Qed.
End passes.
