(* ===== verification/CloudServer.v ===== *)
(** * A platform that obeys the laws

    An executable service over the state of [Platform]: it answers listings with
    what there is, makes what is asked for with fresh IDs in their first state
    (a network BUILDING, a load balancer creating, an instance in BUILD), and
    dooms what is to be deleted, but for a network that is in use. It satisfies the
    laws of [PlatformLaws] and [Removal]; the convergence theorems run on it. *)

From S2P Require Import Prelude GoStrings Errors OvhTypes ApiTypes Effects Client Names StringFacts Logic.
From S2P Require Import ClientFacts ClusterController Platform PlatformLaws Removal SimServer.
From stdpp Require Import stringmap.

Local Open Scope Z_scope.

(** ** IDs in paths *)

(** What stands between [pre] and [post] in a path. *)
Definition path_id (pre post path : string) : string :=
  substring (String.length pre) (String.length path - String.length pre - String.length post) path.

Lemma substring_prefix s t : substring 0 (String.length s) (s ++ t)%string = s.
Proof. induction s as [|a s IH]; cbn; [by destruct t|]. by rewrite IH. Qed.

Lemma substring_skip s n t : substring (String.length s) n (s ++ t)%string = substring 0 n t.
Proof. induction s as [|a s IH]; cbn; [done|]. exact IH. Qed.

Lemma path_id_spec pre id post : path_id pre post (pre ++ id ++ post)%string = id.
Proof.
  unfold path_id. rewrite !length_append.
  replace (_ - _ - _)%nat with (String.length id) by lia.
  by rewrite substring_skip, substring_prefix.
Qed.

Definition fresh {A} (kind : string) (xs : list A) : string :=
  (kind ++ "-" ++ Itoa (Z.of_nat (length xs)))%string.

(** ** The service *)

Section server.
Context `{U : Unicode} (c : Client).

Definition answer_of {A} (w : platform) (x : option A) : res A * platform :=
  (match x with Some x => Ok x | None => Err (EAPI StatusNotFound "not found") end, w).

Definition new_network (o : CreateNetworkOpts) (xs : list PrivateNetwork) : PrivateNetwork :=
  mkPrivateNetwork (fresh "net" xs) (CreateNetworkOpts_Name o) (CreateNetworkOpts_VlanID o)
    ((fun r => mkNetworkRegion r "BUILDING" "") <$> CreateNetworkOpts_Regions o) "BUILDING" "private".
Definition new_subnet (o : CreateSubnetOpts) (xs : list (string * Subnet)) : Subnet :=
  mkSubnet (fresh "subnet" xs) (CreateSubnetOpts_Network o) "" [] (CreateSubnetOpts_Region o)
    (CreateSubnetOpts_DHCP o) (CreateSubnetOpts_NoGateway o).
Definition new_lb (o : CreateLoadBalancerOpts) (xs : list LoadBalancer) : LoadBalancer :=
  mkLoadBalancer (fresh "lb" xs) (CreateLoadBalancerOpts_Name o) "" "" (Client_region c)
    (CreateLoadBalancerOpts_FlavorID o) "offline" "creating" ""
    (LBNetworkRef_ID (LBPrivateNetwork_Network (LBNetworkConfig_Private (CreateLoadBalancerOpts_Network o))))
    "" None [].
Definition new_listener (o : CreateListenerOpts) (xs : list Listener) : Listener :=
  mkListener (fresh "listener" xs) (CreateListenerOpts_Name o) "tcp" 0 (CreateListenerOpts_Port o) ""
    "" [CreateListenerOpts_LoadBalancerID o] "active" "online".
Definition new_pool (o : CreatePoolOpts) (xs : list Pool) : Pool :=
  mkPool (fresh "pool" xs) (CreatePoolOpts_Name o) (CreatePoolOpts_Protocol o) "" 
    (CreatePoolOpts_ListenerID o) (CreatePoolOpts_LoadBalancerID o) "active" "online".
Definition new_monitor (o : CreateHealthMonitorOpts) (xs : list HealthMonitor) : HealthMonitor :=
  mkHealthMonitor (fresh "hm" xs) (CreateHealthMonitorOpts_Name o) "tcp" 5 3 2
    (CreateHealthMonitorOpts_PoolID o) "" "" "" "active" "online".
Definition new_group (o : CreateSecurityGroupOpts) (xs : list SecurityGroup) : SecurityGroup :=
  mkSecurityGroup (fresh "sg" xs) (CreateSecurityGroupOpts_Name o).

(** An ID that no other instance has. *)
Definition unused_id (xs : list Instance) : string :=
  fresh_string_of_set (fresh "instance" xs) (list_to_set ("" :: (Instance_ID <$> xs))).

Definition new_instance (o : CreateInstanceOpts) (xs : list Instance) : Instance :=
  mkInstance (unused_id xs) (CreateInstanceOpts_Name o) InstanceStatusBuild
    (CreateInstanceOpts_FlavorID o) (CreateInstanceOpts_ImageID o) (CreateInstanceOpts_Region o) ""
    [mkIPAddress "10.0.0.10" "private" 4] [] (CreateInstanceOpts_SSHKeyID o) false.
Definition new_member (o : CreateMemberOpts) (xs : list (string * Member)) : Member :=
  mkMember (fresh "member" xs) (CreateMemberOpts_Name o) (CreateMemberOpts_Address o)
    (CreateMemberOpts_ProtocolPort o) "" "online" "active" 1.

(** A floating IP gets its address later; its gateway has an interface on the network
    of the load balancer, which one that is there already has. *)
Definition unused_fip (ids : list string) : string := fresh_string_of_set "fip" (list_to_set ("" :: ids)).

Definition new_fip (lb ip : string) (ids : list string) : FloatingIP :=
  mkFloatingIP (unused_fip ids) "" "PENDING" (Some (mkFloatingIPAssociation lb "loadbalancer" ip "")) (Client_region c) "".

Definition serves_network (net : string) (g : Gateway) : bool :=
  existsb (fun i => bool_decide (GatewayInterface_NetworkID i = net)) (Gateway_Interfaces g).

Definition new_gateways (lb model name : string) (cl : cloud) : list Gateway :=
  let net := default "" (LoadBalancer_VIPNetworkID <$> find_lb lb cl) in
  if existsb (serves_network net) (gateways cl) then []
  else [mkGateway (fresh "gw" (gateways cl)) name "active" model (Client_region c)
          [mkGatewayInterface "private" "10.0.0.2" net ""]].

Definition expose_path (id : string) : string := regionPath c "/gateway/%s/expose" [AS id].

Definition expose (path : string) (g : Gateway) : Gateway :=
  if decide (expose_path (Gateway_ID g) = path) then
    mkGateway (Gateway_ID g) (Gateway_Name g) (Gateway_Status g) (Gateway_Model g) (Gateway_Region g)
      (Gateway_Interfaces g ++ [mkGatewayInterface "public" "51.0.0.9" "Ext-Net" ""])
  else g.

(** What a deletion of a path takes: the resources of that path. *)
Definition removal_path (k : kind) (id : string) : string :=
  match k with
  | KLoadBalancer => regionPath c "/loadbalancing/loadbalancer/%s" [AS id]
  | KFloatingIP => regionPath c "/floatingIp/%s" [AS id]
  | KGateway => regionPath c "/gateway/%s" [AS id]
  | KNetwork => projectPath c "/network/private/%s" [AS id]
  | KInstance => projectPath c "/instance/%s" [AS id]
  end.

Definition membership (pool id : string) : string :=
  regionPath c "/loadbalancing/pool/%s/member/%s" [AS pool; AS id].

Definition of_path (path : string) (k : kind) (cl : cloud) : list string :=
  filter (fun id => removal_path k id = path) (ids_of k cl).

Definition in_use (n : PrivateNetwork) (id : string) : bool :=
  bool_decide (id <> ""%string) && (bool_decide (id = PrivateNetwork_ID n)
    || existsb (fun r => bool_decide (id = OpenStackIDForRegion n (NetworkRegion_Region r)))
         (PrivateNetwork_Regions n)).

(** Every instance has a port on every network. *)
#[export] Instance all_ports : Ports := fun _ _ => True.

Definition occupied (id : string) (cl : cloud) : bool :=
  existsb (fun n => bool_decide (PrivateNetwork_ID n = id)
    && (existsb (fun l => in_use n (LoadBalancer_VIPNetworkID l)) (lbs cl)
        || existsb (fun g => existsb (fun i => in_use n (GatewayInterface_NetworkID i)) (Gateway_Interfaces g))
             (gateways cl)
        || existsb (fun _ => true) (instances cl))) (networks cl).

Definition set_doomed (ds : list (kind * string)) (cl : cloud) : cloud :=
  mkCloud (networks cl) (subnets cl) (lb_flavors cl) (lbs cl) (listeners cl) (pools cl)
    (monitors cl) (members cl) (groups cl) (instances cl) (offers cl) (fips cl) (gateways cl) (issued cl) ds.

Definition all_kinds : list kind := [KLoadBalancer; KFloatingIP; KGateway; KNetwork; KInstance].

Definition hits (path : string) (cl : cloud) : list (kind * string) :=
  k ← all_kinds; (k,.) <$> of_path path k cl.

Definition serve_delete (w : platform) (path : string) : res unit * platform :=
  let cl := p_cloud w in
  if existsb (fun id => occupied id cl) (of_path path KNetwork cl) then
    (Err (EAPI StatusConflict "network in use"), w)
  else
    let hit := hits path cl in
    let rest := filter (fun '(pool, m) => membership pool (Member_ID m) <> path) (members cl) in
    (if decide (hit = [] /\ rest = members cl) then Err (EAPI StatusNotFound "not found") else Ok tt,
     on_cloud (fun cl => set_doomed (doomed cl ++ hit) (set_members rest cl)) w).

(** The answer to a request, by the type it asks for. *)
Definition serve_request (w : platform) (rq : request) : res (den (req_out rq)) * platform :=
  let cl := p_cloud w in
  let path := req_path rq in
  match req_out rq as T return res (den T) * platform with
  | TList TString => (Ok [Client_region c], w)
  | TPrivateNetwork =>
    match req_body rq with
    | BNetwork o => let n := new_network o (networks cl) in (Ok n, on_cloud (add_network n) w)
    | _ => answer_of w (find_network (path_id (projectPath c "/network/private/" []) "" path) cl)
    end
  | TList TSubnet =>
    (Ok (under (path_id (projectPath c "/network/private/" []) "/subnet" path) (subnets cl)), w)
  | TSubnet =>
    match req_body rq with
    | BSubnet o =>
      let s := new_subnet o (subnets cl) in
      let net := path_id (projectPath c "/network/private/" []) "/subnet" path in
      (Ok s, on_cloud (add_subnet net s) w)
    | _ => answer_of w None
    end
  | TList TLBFlavor => (Ok (lb_flavors cl), w)
  | TList TLoadBalancer => (Ok (lbs cl), w)
  | TLoadBalancer =>
    answer_of w (find_lb (path_id (regionPath c "/loadbalancing/loadbalancer/" []) "" path) cl)
  | TAny =>
    match req_body rq with
    | BLoadBalancer o => (Ok tt, on_cloud (add_lb (new_lb o (lbs cl))) w)
    | _ => (Ok tt, w)
    end
  | TList TListener => (Ok (listeners cl), w)
  | TListener =>
    match req_body rq with
    | BListener o => let l := new_listener o (listeners cl) in (Ok l, on_cloud (add_listener l) w)
    | _ => answer_of w None
    end
  | TList TPool => (Ok (pools cl), w)
  | TPool =>
    match req_body rq with
    | BPool o => let p := new_pool o (pools cl) in (Ok p, on_cloud (add_pool p) w)
    | _ => answer_of w None
    end
  | TList THealthMonitor => (Ok (monitors cl), w)
  | THealthMonitor =>
    match req_body rq with
    | BHealthMonitor o => let h := new_monitor o (monitors cl) in (Ok h, on_cloud (add_monitor h) w)
    | _ => answer_of w None
    end
  | TList TSecurityGroup => (Ok (groups cl), w)
  | TSecurityGroup =>
    match req_body rq with
    | BSecurityGroup o => let g := new_group o (groups cl) in (Ok g, on_cloud (add_group g) w)
    | _ => answer_of w None
    end
  | TList TInstance => (Ok (instances cl), w)
  | TInstance =>
    match req_body rq with
    | BInstance o => let i := new_instance o (instances cl) in (Ok i, on_cloud (add_instance i) w)
    | _ => answer_of w (lookup_instance (path_id (projectPath c "/instance/" []) "" path) cl)
    end
  | TList TFlavor => (Ok (flavors (offers cl)), w)
  | TList TImage =>
    (Ok (if decide (path = with_region c (projectPath c "/snapshot" [])) then snapshots (offers cl)
         else images (offers cl)), w)
  | TList TSSHKey => (Ok (keys (offers cl)), w)
  | TList TMember =>
    let pool := path_id (regionPath c "/loadbalancing/pool/" []) "/member" path in
    match req_body rq with
    | BMembers (mkaddPoolMembersRequest [o]) =>
      let m := new_member o (members cl) in (Ok [m], on_cloud (add_member pool m) w)
    | _ => (Ok (under pool (members cl)), w)
    end
  | TDNSRecord => (Ok (mkDNSRecord 1 "" "" "" 0 ""), w)
  | TList TFloatingIP => (Ok (fips cl), w)
  | TFloatingIP =>
    match req_body rq with
    | BLBFloatingIP ip model gw =>
      let lb := path_id (regionPath c "/loadbalancing/loadbalancer/" []) "/floatingIp" path in
      if existsb (fip_of_lb lb) (fips cl) then (Err (EAPI StatusConflict "associated"), w)
      else (Ok (mkFloatingIP "placeholder" "" "" None "" ""),
            on_cloud (add_address (new_fip lb ip (issued cl)) (new_gateways lb model gw cl)) w)
    | _ => answer_of w (find_fip (path_id (regionPath c "/floatingip/" []) "" path) cl)
    end
  | TList TGateway => (Ok (gateways cl), w)
  | TNone =>
    match req_method rq with
    | DELETE => serve_delete w path
    | _ => (Ok tt, on_cloud (set_gateways (expose path <$> gateways cl)) w)
    end
  | T => (Ok (den_zero T), w)
  end.

(** What nothing on the platform depends on is answered as [sim] does. *)
Definition elsewhere : world := mkWorld [] zero zero None None (mkSecret "" "" ∅) (mkNode "" "" []) [] "".

Definition respond (w : platform) (e : event) : answer e * platform :=
  match e return answer e * platform with
  | EApi rq => serve_request w rq
  | EGetOVHCluster _ _ => (Ok (p_cluster w), w)
  | EGetOVHMachine _ _ => (Ok (p_machine w), w)
  | EPatchCluster o => (Ok tt, store_cluster o w)
  | EPatchMachine o => (Ok tt, store_machine o w)
  | EGetOwnerCluster _ => (Ok (Some (p_owner w)), w)
  | EGetOwnerMachine _ => (Ok (Some (p_owner_machine w)), w)
  | EGetClusterFromMetadata _ => (Ok (Some (p_owner w)), w)
  | EGetSecret n s =>
    (match p_secrets w !! (n, s) with
     | Some x => Ok x
     | None => Err (EKube true "not found")
     end, w)
  | e => ((sim elsewhere e tt).1, w)
  end.

Definition obeying : Platform := fun w e r w' => respond w e = (r, w').
#[local] Existing Instance obeying.

#[export] Instance obeying_live : Live.
Proof. intros w e. destruct (respond w e) as [r w'] eqn:E. by exists r, w'. Qed.

(** ** It satisfies the laws *)

Ltac answers :=
  intros; match goal with H : step _ _ _ _ |- _ => unfold step, obeying in H;
    cbn -[projectPath regionPath path_id under find_network find_lb find_fip lookup_instance with_region
          serve_delete expose Sprintf] in H; simplify_eq end.

#[export] Instance obeying_kube ns name : KubeLaws ns name.
Proof.
  split; unfold inert; try by answers.
  answers. split; [done|]. intros secret Hs. by rewrite Hs.
Qed.

Lemma fresh_ne {A} kind (xs : list A) : fresh kind xs <> ""%string.
Proof. unfold fresh. by destruct kind. Qed.

Lemma network_path id :
  projectPath c "/network/private/%s" [AS id] = (projectPath c "/network/private/" [] ++ id ++ "")%string.
Proof. unfold projectPath. rewrite !decide_True by done. cbn. by rewrite ?append_assoc. Qed.

Lemma subnet_path id :
  projectPath c "/network/private/%s/subnet" [AS id]
  = (projectPath c "/network/private/" [] ++ id ++ "/subnet")%string.
Proof. unfold projectPath. rewrite !decide_True by done. cbn. by rewrite ?append_assoc. Qed.

Lemma lb_path id :
  regionPath c "/loadbalancing/loadbalancer/%s" [AS id]
  = (regionPath c "/loadbalancing/loadbalancer/" [] ++ id ++ "")%string.
Proof. unfold regionPath. rewrite !decide_True by done. cbn. by rewrite ?append_assoc. Qed.

Lemma floating_path id :
  regionPath c "/floatingip/%s" [AS id] = (regionPath c "/floatingip/" [] ++ id ++ "")%string.
Proof. unfold regionPath. rewrite !decide_True by done. cbn. by rewrite ?append_assoc. Qed.

Lemma attach_path id :
  regionPath c "/loadbalancing/loadbalancer/%s/floatingIp" [AS id]
  = (regionPath c "/loadbalancing/loadbalancer/" [] ++ id ++ "/floatingIp")%string.
Proof. unfold regionPath. rewrite !decide_True by done. cbn. by rewrite ?append_assoc. Qed.

(** What is no request to expose a gateway leaves the gateways alone. *)
Lemma exposes_nothing path w :
  (forall id, expose_path id <> path) -> on_cloud (set_gateways (expose path <$> gateways (p_cloud w))) w = w.
Proof.
  intros Hp. replace (expose path <$> _) with (gateways (p_cloud w)); [by destruct w as [[] ? ? ? ? ?]|].
  induction (gateways (p_cloud w)) as [|g gs IH]; cbn; [done|]. rewrite <- IH. f_equal.
  unfold expose. by rewrite decide_False.
Qed.

Lemma expose_keys path (gs : list Gateway) : gateway_key <$> (expose path <$> gs) = gateway_key <$> gs.
Proof.
  rewrite <- list_fmap_compose. apply list_fmap_ext. intros _ g _. unfold compose, expose. by case_decide.
Qed.

Lemma expose_no_refresh id zone : expose_path id <> Sprintf "/domain/zone/%s/refresh" [AS zone].
Proof. unfold expose_path, regionPath. rewrite decide_True by done. by cbn. Qed.

Lemma expose_no_detach id v : expose_path id <> projectPath c "/volume/%s/detach" [AS v].
Proof.
  unfold expose_path, regionPath, projectPath. rewrite !decide_True by done. cbn.
  intros Heq; injection Heq as Heq; rewrite ?append_assoc in Heq; by apply append_inj_l in Heq.
Qed.

Lemma unused_fip_fresh ids : unused_fip ids <> ""%string /\ unused_fip ids ∉ ids.
Proof.
  assert (H : unused_fip ids ∉ ""%string :: ids).
  { unfold unused_fip. rewrite <- (elem_of_list_to_set (C := stringset)). apply fresh_string_of_set_fresh. }
  by apply not_elem_of_cons in H.
Qed.

Lemma serve_fip : forall lb ip model gw w r w',
  step w (api (posting (regionPath c "/loadbalancing/loadbalancer/%s/floatingIp" [AS lb])
            (BLBFloatingIP ip model gw) TFloatingIP)) r w' ->
  (w' = w /\ Exists (fun f => fip_of_lb lb f = true) (fips (p_cloud w)))
  \/ (is_ok r = true /\ Forall (fun f => fip_of_lb lb f = false) (fips (p_cloud w))
      /\ exists f gs, FloatingIP_ID f <> ""%string /\ FloatingIP_ID f ∉ issued (p_cloud w)
           /\ fip_of_lb lb f = true /\ w' = on_cloud (add_address f gs) w).
Proof.
  intros lb ip model gw w r w' H. unfold step, obeying, respond, serve_request, api, posting in H.
  cbn [req_out req_body req_path] in H. rewrite attach_path, path_id_spec in H.
  destruct (existsb (fip_of_lb lb) (fips (p_cloud w))) eqn:E; injection H as <- <-.
  - left. split; [done|]. apply existsb_exists in E as (f & Hf%list_elem_of_In & Hof).
    apply Exists_exists. by exists f.
  - right. split; [done|]. split.
    { apply Forall_forall. intros f Hf. apply not_true_is_false. intros Hof.
      apply not_true_iff_false in E. apply E, existsb_exists. exists f. by split; [apply list_elem_of_In|]. }
    destruct (unused_fip_fresh (issued (p_cloud w))). eexists _, _. split_and!; [..|done]; [done..|].
    unfold fip_of_lb. cbn. by apply bool_decide_eq_true.
Qed.

#[export] Instance obeying_network : NetworkLaws c.
Proof.
  split; unfold reads, makes, fetches;
    try lazymatch goal with
        | |- context [BLBFloatingIP _ _ _] => fail
        | |- context [add_lb] => fail
        | |- context [set_gateways] => fail
        | _ => answers; by eauto 10
        end.
  - answers. unfold answer_of in H. rewrite network_path, path_id_spec in H. simplify_eq.
    split; [done|]. destruct (find_network id _); eauto.
  - answers. eexists. split_and!; [done | apply fresh_ne | | done].
    intros region. unfold region_status. cbn.
    destruct (first_match _ _) as [x|] eqn:E; [|done].
    apply first_match_sound in E as [_ (y & -> & _)%list_elem_of_fmap]. done.
  - answers. rewrite subnet_path, path_id_spec. eauto.
  - answers. rewrite subnet_path, path_id_spec. eexists. split_and!; [done | apply fresh_ne | done].
  - answers. unfold answer_of in H. rewrite lb_path, path_id_spec in H. simplify_eq.
    split; [done|]. destruct (find_lb id _); eauto.
  - answers. split; [done|]. exists (new_lb o (lbs (p_cloud w))). split_and!; [apply fresh_ne | done..].
  - answers. eexists. split_and!; [done | apply fresh_ne | done | | done]. left.
  - answers. unfold answer_of in H. rewrite floating_path, path_id_spec in H. simplify_eq.
    split; [done|]. destruct (find_fip id _); eauto.
  - exact serve_fip.
  - answers. eexists. split; [apply expose_keys | done].
  - answers. apply exposes_nothing. intros id. apply expose_no_refresh.
Qed.

Lemma instance_path id :
  projectPath c "/instance/%s" [AS id] = (projectPath c "/instance/" [] ++ id ++ "")%string.
Proof. unfold projectPath. rewrite !decide_True by done. cbn. by rewrite ?append_assoc. Qed.

Lemma member_path id :
  regionPath c "/loadbalancing/pool/%s/member" [AS id]
  = (regionPath c "/loadbalancing/pool/" [] ++ id ++ "/member")%string.
Proof. unfold regionPath. rewrite !decide_True by done. cbn. by rewrite ?append_assoc. Qed.

Lemma image_path :
  with_region c (projectPath c "/image" []) <> with_region c (projectPath c "/snapshot" []).
Proof.
  unfold with_region, projectPath. repeat (case_decide; try done); cbn; intros Heq;
    injection Heq as Heq; rewrite ?append_assoc in Heq; by apply append_inj_l in Heq.
Qed.

Lemma unused_id_fresh xs : unused_id xs ∉ ""%string :: (Instance_ID <$> xs).
Proof.
  unfold unused_id. rewrite <- (elem_of_list_to_set (C := stringset)). apply fresh_string_of_set_fresh.
Qed.

#[export] Instance obeying_compute : ComputeLaws c.
Proof.
  split; unfold reads, makes, fetches; try (answers; by eauto 10).
  - answers. unfold answer_of in H. rewrite instance_path, path_id_spec in H. simplify_eq.
    split; [done|]. destruct (lookup_instance id _); eauto.
  - answers. destruct (proj1 (not_elem_of_cons _ _ _) (unused_id_fresh (instances (p_cloud w)))).
    by eexists.
  - answers. rewrite decide_False by apply image_path. eauto.
  - answers. rewrite decide_True by done. eauto.
  - answers. rewrite member_path, path_id_spec. eauto.
  - answers. rewrite member_path, path_id_spec. eexists. split_and!; [done | apply fresh_ne | done..].
Qed.

#[export] Instance obeying_machine mns mname : MachineLaws mns mname.
Proof. split; unfold inert; by answers. Qed.

(** ** Deletions *)

Lemma existsb_elem {A} (f : A -> bool) xs : existsb f xs = true <-> exists x, x ∈ xs /\ f x = true.
Proof. rewrite existsb_exists. by setoid_rewrite <- list_elem_of_In. Qed.

Lemma in_use_spec n id : in_use n id = true <-> names_network n id.
Proof.
  unfold in_use, names_network. rewrite andb_true_iff, orb_true_iff, !bool_decide_eq_true, existsb_elem.
  split; (intros [Hne H]; split; [done|]; destruct H as [H|H]; [by left | right]).
  - destruct H as (r & _ & H%bool_decide_eq_true). eauto.
  - destruct H as [region H]. pose proof H as H'. unfold OpenStackIDForRegion in H'.
    destruct (first_match _ _) as [r|] eqn:E; [|done].
    apply first_match_sound in E as [E%bool_decide_eq_true Hin]. exists r. split; [done|].
    apply bool_decide_eq_true. by rewrite E.
Qed.

Lemma occupied_spec id cl : occupied id cl = true <-> busy id cl.
Proof.
  unfold occupied, busy. rewrite existsb_elem. apply exist_proper. intros n.
  rewrite andb_true_iff, !orb_true_iff, bool_decide_eq_true, !existsb_elem.
  setoid_rewrite existsb_elem. setoid_rewrite in_use_spec.
  assert (Hi : (exists x, x ∈ instances cl /\ true = true)
               <-> exists i, i ∈ ids_of KInstance cl /\ plugged i id).
  { split.
    - intros (x & Hx & _). exists (Instance_ID x). split; [|done]. apply list_elem_of_fmap. eauto.
    - intros (i & (x & _ & Hx)%list_elem_of_fmap & _). eauto. }
  rewrite Hi. split.
  - intros (Hin & Hid & [[H|(g & Hg & i & H)]|H]); split_and!; auto. right. left. exists g, i. tauto.
  - intros (Hin & Hid & [H|[(g & i & Hg & H)|H]]); split_and!; auto. left. right. exists g. eauto.
Qed.

Lemma network_removal_path id :
  removal_path KNetwork id = (projectPath c "/network/private/" [] ++ id ++ "")%string.
Proof. apply network_path. Qed.

(** No other deletion is that of a network. *)
Lemma network_path_only k id id' :
  removal_path k id = removal_path KNetwork id' -> k = KNetwork /\ id = id'.
Proof.
  destruct k; cbn [removal_path]; rewrite network_path.
  4:{ rewrite network_path. intros H%append_inj_l. by rewrite !append_nil_r in H. }
  all: unfold regionPath, projectPath; rewrite !decide_True by done; cbn;
    intros Heq; injection Heq as Heq; rewrite ?append_assoc in Heq; by apply append_inj_l in Heq.
Qed.

Lemma membership_no_network pool id id' : membership pool id <> removal_path KNetwork id'.
Proof.
  rewrite network_removal_path. unfold membership, regionPath, projectPath. rewrite !decide_True by done.
  cbn. intros Heq; injection Heq as Heq; rewrite ?append_assoc in Heq; by apply append_inj_l in Heq.
Qed.

Lemma serve_delete_spares w path r w' : serve_delete w path = (r, w') -> spares w w'.
Proof.
  unfold serve_delete. destruct (existsb _ _); intros [= _ <-]; [reflexivity|].
  split; [split; [done|]|done]. split.
  - unfold shrinks. cbn. split_and!; try done; eauto 6.
    intros x [_ Hx]%list_elem_of_filter. exact Hx.
  - cbn. set_solver.
Qed.

Definition blocked (path : string) (cl : cloud) : bool :=
  existsb (fun id => occupied id cl) (of_path path KNetwork cl).

Lemma blocked_network path cl :
  blocked path cl = true -> exists id, path = removal_path KNetwork id /\ busy id cl.
Proof.
  intros (id' & [<- _]%list_elem_of_In%list_elem_of_filter & H%occupied_spec)%existsb_exists. by exists id'.
Qed.

Lemma free_network id cl : busy id cl -> blocked (removal_path KNetwork id) cl = true.
Proof.
  intros Hb. apply existsb_elem. exists id. split; [|by apply occupied_spec].
  apply list_elem_of_filter. split; [done|].
  destruct Hb as (n & Hin & <- & _). apply list_elem_of_fmap. eauto.
Qed.

Lemma elem_of_hits k id cl : id ∈ ids_of k cl -> (k, id) ∈ hits (removal_path k id) cl.
Proof.
  intros Hin. unfold hits. rewrite list_elem_of_bind. exists k.
  split; [|by destruct k; repeat constructor].
  apply list_elem_of_fmap. exists id. split; [done|]. by apply list_elem_of_filter.
Qed.

(** What is not blocked is gone. *)
Lemma serve_delete_takes w path r w' :
  blocked path (p_cloud w) = false -> serve_delete w path = (r, w') ->
  (r = Ok tt \/ exists text, r = Err (EAPI StatusNotFound text))
  /\ (forall k id, path = removal_path k id -> gone k id (p_cloud w'))
  /\ (forall pool id, path = membership pool id ->
        Forall (fun m => Member_ID m <> id) (under pool (members (p_cloud w')))).
Proof.
  unfold blocked, serve_delete. intros -> [= <- <-]. split; [case_decide; eauto|]. split.
  - intros k id ->. destruct (decide (id ∈ ids_of k (p_cloud w))) as [Hin|Hin]; [left | by right].
    change ((k, id) ∈ doomed (p_cloud w) ++ hits (removal_path k id) (p_cloud w)).
    apply elem_of_app. right. by apply elem_of_hits.
  - intros pool id ->. apply Forall_forall. intros m [H Hin]%elem_of_under%list_elem_of_filter <-. by apply H.
Qed.

Lemma step_delete w path r w' : step w (api (deleting path)) r w' -> serve_delete w path = (r, w').
Proof. done. Qed.

Lemma serve_deletes k id : k <> KNetwork -> deletes (removal_path k id) k id.
Proof.
  intros Hk w r w' H%step_delete. split; [by apply (serve_delete_spares _ _ _ _ H)|].
  apply serve_delete_takes in H as (Hr & Hg & _); [by split; [apply Hg|]|].
  apply not_true_is_false. intros (id' & [? _]%network_path_only & _)%blocked_network. done.
Qed.

#[export] Instance obeying_removal : RemovalLaws c.
Proof.
  split.
  - intros id. by apply (serve_deletes KLoadBalancer).
  - intros id. by apply (serve_deletes KFloatingIP).
  - intros id. by apply (serve_deletes KGateway).
  - intros id. by apply (serve_deletes KInstance).
  - intros id w r w' H%step_delete. change (projectPath _ _ _) with (removal_path KNetwork id) in H.
    destruct (blocked (removal_path KNetwork id) (p_cloud w)) eqn:Hb.
    + left. pose proof Hb as (id' & [_ <-]%network_path_only & Hbusy)%blocked_network.
      unfold serve_delete in H. unfold blocked in Hb. rewrite Hb in H. simplify_eq. eauto.
    + right. split; [intros Hbusy%free_network; congruence|]. split; [by apply (serve_delete_spares _ _ _ _ H)|].
      apply serve_delete_takes in H as (Hr & Hg & _); [|done]. by split; [apply Hg|].
  - intros id w r w' H%step_delete. by apply serve_delete_spares in H as [? _].
  - intros id w r w' H%step_delete. by apply serve_delete_spares in H as [? _].
  - intros pool id w r w' H%step_delete. split; [by apply serve_delete_spares in H as [? _]|].
    apply serve_delete_takes in H as (Hr & _ & Hm); [by split; [|apply Hm]|].
    apply not_true_is_false. intros (id' & H' & _)%blocked_network. by apply membership_no_network in H'.
  - intros id w r w' H%step_delete. by apply serve_delete_spares in H.
  - intros id w r w' H%step_delete. by apply serve_delete_spares in H as [? _].
  - intros id i w r w' H. unfold step, obeying in H.
    cbn -[projectPath expose] in H. simplify_eq. rewrite exposes_nothing; [reflexivity|].
    intros id'. apply expose_no_detach.
  - intros zone id w r w' H%step_delete. by apply serve_delete_spares in H.
Qed.
End server.
