(* ===== verification/ConvergenceExamples.v ===== *)
(** * The convergence theorems on a concrete project

    The cluster "prod", which asks for a floating IP, in an empty project, and its
    control plane machine "cp-0", on the platform of [CloudServer]. *)

From S2P Require Import Prelude GoStrings Errors OvhTypes ApiTypes Effects Client Names Logic.
From S2P Require Import ClientFacts ClusterController MachineController Platform PlatformLaws.
From S2P Require Import ClusterInvariant ClusterConvergence MachineConvergence.
From S2P Require Import SimServer CloudServer.

Local Open Scope Z_scope.

#[local] Existing Instance ascii_unicode.
#[local] Existing Instance simple_capi.
#[local] Instance service : Platform := obeying c0.

(** ** The project *)

Definition nc0 : OVHNetworkConfig := mkOVHNetworkConfig "" "10.0.0.0/24" 0 "" [].

Definition empty_cloud : cloud :=
  mkCloud [] [] [mkLBFlavor "flavor-1" "small" "GRA11"] [] [] [] [] [] [] []
    (mkCatalog [mkFlavor "flavor-2" "b3-8" 2 8 50 "" "GRA11" 0 ""] [] [] []) [] [] [] [].

Definition owner0 : Cluster :=
  mkCluster (meta "prod" [] None) false (Some (mkObjectReference "OVHCluster" "default" "prod")) true.

Definition cp0 : Machine :=
  mkMachine (mkObjectMeta "default" "cp-0" (<["cluster.x-k8s.io/control-plane"%string := ""%string]> ∅)
    ∅ [] None) (Some "boot"%string).

(** The image is given by its ID. *)
Definition cp0_machine : OVHMachine :=
  mkOVHMachine (meta "cp-0" [] None)
    (mkOVHMachineSpec "" "b3-8" "5f0a4041-0000-4000-8000-000000000000" "" 0 [] "" [] ∅ "" "") zero.

Definition boot0 : Secret := mkSecret "default" "boot" (<["value"%string := "#cloud-config"%string]> ∅).

(** With and without a floating IP. *)
Definition prod_spec (external : string) : OVHClusterSpec :=
  let s := spec0 (Some nc0) in
  mkOVHClusterSpec (CSpec_ServiceName s) (CSpec_Region s) (CSpec_IdentitySecret s)
    (CSpec_ControlPlaneEndpoint s) (mkOVHLoadBalancerConfig "" "" external [] "" "")
    (CSpec_NetworkConfig s) (CSpec_SSHKeyName s) [] [] ∅ None.

Definition prod_cluster : OVHCluster := mkOVHCluster (meta "prod" [] None) (prod_spec "ext-net") zero.

Definition project_of (o : OVHCluster) : platform :=
  mkPlatform empty_cloud o cp0_machine owner0 cp0
    (<[("default", "ovh")%string := secret0]> (<[("default", "boot")%string := boot0]> ∅)).

Definition project0 : platform := project_of prod_cluster.

Definition prod_pass : prog outcome := ClusterController.Reconcile "default" "prod".
Definition cp_pass : prog ending := MachineController.Reconcile "default" "cp-0".

(** The platform after [n] passes with time to settle in between. *)
Fixpoint passes {A} (p : prog A) (n : nat) (w : platform) : platform :=
  match n with
  | O => w
  | S n => (run (fun e w => respond c0 w e) p (on_cloud (settle "GRA11") (passes p n w))).1.2
  end.

Example prod_is_ready :
  let o := p_cluster (passes prod_pass 5 project0) in
  CStatus_Ready (OVHCluster_Status o) = true /\ fip_id o = "fip"%string
  /\ CSpec_ControlPlaneEndpoint (OVHCluster_Spec o) = mkAPIEndpoint "51.0.0.1" 6443.
Proof. vm_compute. done. Qed.

(** After four passes the floating IP is there and has no address yet. *)
Example prod_was_not :
  let w := passes prod_pass 4 project0 in
  CStatus_Ready (OVHCluster_Status (p_cluster w)) = false
  /\ FloatingIP_IP <$> fips (p_cloud w) = [""%string].
Proof. vm_compute. done. Qed.

(** Four are enough without one. *)
Example plain_is_ready :
  let o := p_cluster (passes prod_pass 4 (project_of (mkOVHCluster (meta "prod" [] None) (prod_spec "") zero))) in
  CStatus_Ready (OVHCluster_Status o) = true
  /\ CSpec_ControlPlaneEndpoint (OVHCluster_Spec o) = mkAPIEndpoint "10.0.0.5" 6443.
Proof. vm_compute. done. Qed.

(** A network that the user names is there, with its subnet. *)
Example adopted_is_ready :
  let nc := mkOVHNetworkConfig "net-x" "" 0 "" [] in
  let cl := add_subnet "net-x" (mkSubnet "subnet-x" "10.1.0.0/24" "" [] "GRA11" true false)
    (add_network (mkPrivateNetwork "net-x" "vrack" 0 [mkNetworkRegion "GRA11" "ACTIVE" "os"] "ACTIVE" "private")
       empty_cloud) in
  let o := mkOVHCluster (meta "prod" [] None) (spec0 (Some nc)) zero in
  let w := passes prod_pass 3 (on_cloud (fun _ => cl) (project_of o)) in
  CStatus_Ready (OVHCluster_Status (p_cluster w)) = true
  /\ CStatus_NetworkID (OVHCluster_Status (p_cluster w)) = "net-x"%string
  /\ CStatus_SubnetID (OVHCluster_Status (p_cluster w)) = "subnet-x"%string
  /\ length (networks (p_cloud w)) = 1%nat /\ length (subnets (p_cloud w)) = 1%nat.
Proof. by vm_compute. Qed.

(** A cluster that is moved to another management cluster adopts what it has: the
    network, the load balancer, and the floating IP of this load balancer. *)
Example moved_is_ready :
  let w := passes prod_pass 5 project0 in
  let st := OVHCluster_Status (p_cluster w) in
  let s := prod_spec "ext-net" in
  let o := mkOVHCluster (meta "prod" [] None)
    (mkOVHClusterSpec (CSpec_ServiceName s) (CSpec_Region s) (CSpec_IdentitySecret s)
       (CSpec_ControlPlaneEndpoint s)
       (mkOVHLoadBalancerConfig "" "" "ext-net" [] (CStatus_LoadBalancerID st) (CStatus_FloatingIPID st))
       (Some (mkOVHNetworkConfig (CStatus_NetworkID st) "" 0 "" [])) (CSpec_SSHKeyName s) [] [] ∅ None) zero in
  let w' := passes prod_pass 2 (on_cloud (fun _ => p_cloud w) (project_of o)) in
  let st' := OVHCluster_Status (p_cluster w') in
  CStatus_Ready st' = true /\ fip_id (p_cluster w') = "fip"%string
  /\ CSpec_ControlPlaneEndpoint (OVHCluster_Spec (p_cluster w')) = mkAPIEndpoint "51.0.0.1" 6443
  /\ (CStatus_NetworkID st', CStatus_SubnetID st', lb_id (p_cluster w'))
     = (CStatus_NetworkID st, CStatus_SubnetID st, CStatus_LoadBalancerID st)
  /\ edge (p_cloud w') = edge (p_cloud w).
Proof. vm_compute. done. Qed.

(** The floating IP gets another ID with its address, and the load balancer tells
    nothing of it: the next pass finds it again. *)
Definition replaced (c : cloud) : cloud :=
  mkCloud (networks c) (subnets c) (lb_flavors c) (lbs c) (listeners c) (pools c) (monitors c)
    (members c) (groups c) (instances c) (offers c)
    ((fun f => mkFloatingIP "fip-real" "51.0.0.7" "active" (FloatingIP_AssociatedEntity f) "" "") <$> fips c)
    (gateways c) ("fip-real"%string :: issued c) (doomed c).

Example prod_rediscovers :
  let w := on_cloud replaced (passes prod_pass 4 project0) in
  let w' := (run (fun e w => respond c0 w e) prod_pass w).1.2 in
  fip_id (p_cluster w) = "fip"%string /\ fip_id (p_cluster w') = "fip-real"%string
  /\ CSpec_ControlPlaneEndpoint (OVHCluster_Spec (p_cluster w')) = mkAPIEndpoint "51.0.0.7" 6443
  /\ length (fips (p_cloud w')) = 1%nat.
Proof. vm_compute. done. Qed.

Lemma project0_start : start "proj" "GRA11" project0.
Proof.
  split; [|split; [|split_and!; try done; by constructor]].
  - split; [split_and!; try by constructor; by apply no_addresses|].
    split; [unfold tracked, tracked_port, tracked_fip; split_and!; intros Hne; by destruct Hne|].
    split_and!; [done | | | | by left].
    + exists nc0. by split_and!; [|left|].
    + by eexists.
    + done.
  - exists secret0. split; [done|]. by repeat constructor.
Qed.

Lemma cluster_converges_witness :
  start "proj" "GRA11" project0
  /\ leads no_error (settles "GRA11") 4 prod_pass (complete (OVHCluster_Spec prod_cluster)) project0.
Proof.
  split; [exact project0_start|].
  exact (cluster_converges "default" "prod" "proj" "GRA11" project0 project0_start).
Defined.

(** The finished cluster. *)
Definition project5 : platform := Eval vm_compute in passes prod_pass 5 project0.

Lemma project5_ok : cloud_ok (p_cloud project5).
Proof.
  split_and!; try by repeat constructor.
  - constructor; [|constructor]. split; [done|].
    intros region. unfold region_status, OpenStackIDForRegion. cbn. by case_bool_decide.
  - split_and!.
    + by apply NoDup_singleton.
    + constructor; [|constructor]. split; [done|left].
    + by intros lb f f' ->%list_elem_of_singleton ->%list_elem_of_singleton.
    + intros l r ->%list_elem_of_singleton [= <-]. eexists. split; [left|]. by vm_compute.
Qed.

Lemma project5_provisioned : provisioned (p_cluster project5) (p_cloud project5).
Proof.
  split; [|by split; [|split; [left|]]].
  split; [done|]. split; [done|]. split; [done|]. split; [constructor|]. split; [split|].
  - split; [done|]. split; [done|]. eexists. split; [left | done].
  - split; [done|]. split; [done|]. eexists. split; [right; left | done].
  - intros _. split; [done|]. eexists. split; [left|]. by vm_compute.
Qed.

Lemma project5_start : start "proj" "GRA11" project5.
Proof.
  split; [|split; [|split_and!; try done; by repeat constructor]].
  - split; [exact project5_ok|]. split.
    + unfold tracked, tracked_port. split_and!; first
        [ intros _; first [by eexists | split; [done|]];
          eexists; first [split; [left | by split_and!; try left]
                         | split; [right; left | by split_and!; try left]]
        | idtac ].
      intros _. split; [done|]. split; [left|]. split; [eexists; split; [left | by vm_compute]|].
      intros f ->%list_elem_of_singleton _. by vm_compute.
    + split_and!; [done | | | | by left].
      * exists nc0. by split_and!; [|left|].
      * by eexists.
      * done.
  - exists secret0. split; [done|]. by repeat constructor.
Qed.

Lemma project5_steady : steady "proj" "GRA11" project5.
Proof. split; [exact project5_start|]. split; [exact project5_provisioned|]. by split. Qed.

Lemma cluster_stable_witness :
  steady "proj" "GRA11" project5
  /\ after prod_pass project5 (fun out w' => out = requeue requeueTimeLong
       /\ (exists o', bare o' = bare (p_cluster project5) /\ w' = store_cluster o' project5)
       /\ forall w'', settles "GRA11" w' w'' -> steady "proj" "GRA11" w'').
Proof.
  split; [exact project5_steady|].
  exact (cluster_stable "default" "prod" "proj" "GRA11" project5 project5_steady).
Defined.

(** ** The machine *)

Definition spec_prod : OVHClusterSpec := OVHCluster_Spec prod_cluster.

Lemma project5_complete : complete spec_prod project5.
Proof.
  split; [apply project5_start|]. split; [exact project5_provisioned|]. intros _.
  exists "51.0.0.1"%string. split; [|done]. split; [done|]. split; [done|].
  eexists. split; [left|]. by vm_compute.
Qed.

Lemma project5_start_m : start_m "default" "prod" "proj" "GRA11" project5.
Proof.
  split; [apply project5_start|]. split; [done|]. split; [done|].
  split; [by eexists|]. split; [done|]. split; [done|]. split; [done|]. split; [|split; [|split]].
  - split; [by eexists|]. split; [split; [done | by left]|]. split; [done|].
    exists "boot"%string, boot0, "#cloud-config"%string. by split_and!.
  - intros Hne. by destruct Hne.
  - apply project5_start.
  - split; by constructor.
Qed.

(** Passes while the provider makes nothing ACTIVE: the instance stays in BUILD, and
    they do not count; then it is ACTIVE, and the next one completes the machine. *)
Fixpoint impatient (n : nat) (w : platform) : platform :=
  match n with
  | O => w
  | S n => (run (fun e w => respond c0 w e) cp_pass (impatient n w)).1.2
  end.

Definition building : platform := Eval vm_compute in impatient 4 project5.

Example cp_waits :
  Instance_Status <$> instances (p_cloud building) = ["BUILD"%string]
  /\ MStatus_Ready (OVHMachine_Status (p_machine building)) = false
  /\ ~ active "proj" "GRA11" building
  /\ MStatus_Ready (OVHMachine_Status (p_machine (passes cp_pass 1 building))) = true.
Proof. vm_compute. split_and!; [done | done | discriminate | done]. Qed.

Lemma machine_converges_witness :
  start_m "default" "prod" "proj" "GRA11" project5
  /\ paced returns (active "proj" "GRA11") idles 7 2 cp_pass (complete_m "proj" "GRA11") project5.
Proof.
  split; [exact project5_start_m|].
  exact (machine_converges "default" "prod" "default" "cp-0" "proj" "GRA11" project5 7 project5_start_m).
Defined.

Lemma control_plane_reachable_witness :
  paced returns (active "proj" "GRA11") idles 7 2 cp_pass
    (fun w => complete spec_prod w /\ complete_m "proj" "GRA11" w /\ reachable w) project5.
Proof.
  by apply (control_plane_reachable "default" "prod" "default" "cp-0" "proj" "GRA11" spec_prod project5 7
              project5_start_m project5_complete).
Defined.

(** The machine runs. *)
Definition project8 : platform := Eval vm_compute in passes cp_pass 3 project5.

Example cp_is_up :
  MStatus_Ready (OVHMachine_Status (p_machine project8)) = true
  /\ MSpec_ProviderID (OVHMachine_Spec (p_machine project8)) = "ovhcloud://GRA11/instance-0"%string
  /\ (Member_Address ∘ snd <$> members (p_cloud project8)) = ["10.0.0.10"; "10.0.0.10"]%string.
Proof. by vm_compute. Qed.

Lemma project8_start_m : start_m "default" "prod" "proj" "GRA11" project8.
Proof.
  split; [by exists secret0; split; [|repeat constructor]|]. split; [done|]. split; [done|].
  split; [by eexists|]. split; [done|]. split; [done|]. split; [done|]. split; [|split; [|split]].
  - split; [by eexists|]. split; [split; [done | by left]|]. split; [done|].
    exists "boot"%string, boot0, "#cloud-config"%string. by split_and!.
  - intros Hne. by destruct Hne.
  - exact project5_ok.
  - split; [by repeat constructor | by apply NoDup_singleton].
Qed.

Definition cp_instance : option Instance :=
  found (scope_of "proj" "GRA11" project8) (p_machine project8) (p_cloud project8).

Lemma machine_stable_witness :
  exists i, cp_instance = Some i
  /\ after cp_pass project8 (fun r w' => r = Returned done_
       /\ exists o', bare_m o' = bare_m (p_machine project8) /\ w' = store_machine o' project8).
Proof.
  eexists. split; [by vm_compute|].
  assert (Hi : cp_instance = Some _) by by vm_compute.
  refine (machine_stable "default" "prod" "default" "cp-0" "proj" "GRA11" project8 _
            project8_start_m _ eq_refl Hi _ _); [by vm_compute | by vm_compute |].
  intros _. split; [eexists; split; [left | by vm_compute]|].
  intros _ pool Hp. vm_compute in Hp. injection Hp as <-. eexists. by split; [left|].
Defined.
