(* ===== verification/RecoveryExamples.v ===== *)
(** * A cluster that recovers, on a concrete project

    The cluster "prod" of ConvergenceExamples: the answer to the creation of its
    network is lost, a later pass dies after it made the load balancer, and the answer
    to the allocation of its floating IP is lost too. *)

From S2P Require Import Prelude GoStrings Errors OvhTypes ApiTypes Effects Client Names Logic.
From S2P Require Import ClientFacts ClusterController Platform PlatformLaws ClusterInvariant ClusterConvergence Faults.
From S2P Require Import ClusterFaults ClusterRecovery SimServer CloudServer ConvergenceExamples.

Local Open Scope Z_scope.

#[local] Existing Instance ascii_unicode.
#[local] Existing Instance simple_capi.
#[local] Existing Instance service.

(** ** Runs with faults, executed *)

(** The first [n] calls of [p]. *)
Fixpoint run_for {W A} (n : nat) (h : forall e, W -> answer e * W) (p : prog A) (w : W) : W :=
  match n, p with
  | S n, Vis e k => let '(r, w') := h e w in run_for n h (k r) w'
  | _, _ => w
  end.

(** The server, with a gateway that loses the answers to the requests in [lost]. *)
Definition losing (lost : request -> bool) (e : event) (w : platform) : answer e * platform :=
  match e return answer e * platform with
  | EApi rq => if lost rq then (Err (EAPI StatusForbidden "lost"), (respond c0 w (EApi rq)).2)
               else respond c0 w (EApi rq)
  | e => respond c0 w e
  end.

Lemma run_for_cut_off {A} lost n (p : prog A) w :
  cut_off (P := faulty service c0) p w (run_for n (losing lost) p w).
Proof.
  induction p as [x|e k IH] in n, w |- *; destruct n as [|n]; cbn [run_for cut_off]; [by left..|].
  destruct (losing lost e w) as [r w1] eqn:El. right. exists r, w1. split; [|apply IH].
  unfold losing in El. destruct e; try (by left). destruct (lost r0); [right|by left].
  injection El as <- <-. split; [|right; eexists; apply surjective_pairing].
  eexists. split; [done|]. intros _. by exists StatusForbidden, "lost"%string.
Qed.

Definition creates_network (rq : request) : bool :=
  match req_body rq with BNetwork _ => true | _ => false end.

Definition creates_address (rq : request) : bool :=
  match req_body rq with BLBFloatingIP _ _ _ => true | _ => false end.

Definition creates_nothing (rq : request) : bool := false.

(** A pass of [n] calls at most, and the time after it. *)
Definition mishap (lost : request -> bool) (n : nat) (w : platform) : platform :=
  on_cloud (settle "GRA11") (run_for n (losing lost) prod_pass w).

(** The first pass sets the finalizer. In the second one the network is made, but
    nobody learns of it. The third one makes another. The fourth one dies when the load
    balancer is made, before that is recorded. *)
Definition unlucky_lb : platform :=
  mishap creates_nothing 14 (mishap creates_nothing 100
    (mishap creates_network 100 (mishap creates_nothing 100 project0))).

Definition unlucky_lb_now : platform := Eval vm_compute in unlucky_lb.

Example load_balancer_unrecorded :
  lb_id (p_cluster unlucky_lb_now) = ""%string
  /\ length (lbs (p_cloud unlucky_lb_now)) = 1%nat /\ length (networks (p_cloud unlucky_lb_now)) = 2%nat.
Proof. by vm_compute. Qed.

(** The fifth one finds it by its name. In the sixth one the floating IP is made, and
    the pass fails. *)
Definition unlucky : platform := mishap creates_address 100 (mishap creates_nothing 100 unlucky_lb).

Definition unlucky_now : platform := Eval vm_compute in unlucky.

Example floating_ip_unrecorded :
  lb_id (p_cluster unlucky_now) = "lb-0"%string /\ fip_id (p_cluster unlucky_now) = ""%string
  /\ length (fips (p_cloud unlucky_now)) = 1%nat.
Proof. by vm_compute. Qed.

(** The next pass completes the cluster with what there is. The first network stays
    behind. *)
Example unlucky_recovers :
  let w := passes prod_pass 1 unlucky_now in
  CStatus_Ready (OVHCluster_Status (p_cluster w)) = true
  /\ length (lbs (p_cloud w)) = 1%nat /\ length (networks (p_cloud w)) = 2%nat
  /\ length (fips (p_cloud w)) = 1%nat.
Proof. by vm_compute. Qed.

Lemma mishap_accident spec lost n w :
  fit "proj" "GRA11" spec w ->
  accident "default" "prod" "proj" "GRA11" w (mishap lost n w) /\ fit "proj" "GRA11" spec (mishap lost n w).
Proof.
  intros Hf. assert (Hc := run_for_cut_off lost n prod_pass w).
  assert (Hi : idles (run_for n (losing lost) prod_pass w) (mishap lost n w)).
  { apply (settles_idles "GRA11"), settles_settle.
    apply (fit_cut_off "default" "prod" "proj" "GRA11" spec w _ Hf Hc). }
  split; [by eexists|]. eapply fit_idles, Hi. exact (fit_cut_off "default" "prod" "proj" "GRA11" spec w _ Hf Hc).
Qed.

Lemma unlucky_accidents : rtc (accident "default" "prod" "proj" "GRA11") project0 unlucky.
Proof.
  assert (H0 := start_fit _ _ _ project0_start).
  destruct (mishap_accident _ creates_nothing 100 _ H0) as [A1 H1].
  destruct (mishap_accident _ creates_network 100 _ H1) as [A2 H2].
  destruct (mishap_accident _ creates_nothing 100 _ H2) as [A3 H3].
  destruct (mishap_accident _ creates_nothing 14 _ H3) as [A4 H4].
  destruct (mishap_accident _ creates_nothing 100 _ H4) as [A5 H5].
  destruct (mishap_accident _ creates_address 100 _ H5) as [A6 _].
  eapply rtc_l; [exact A1|]. eapply rtc_l; [exact A2|]. eapply rtc_l; [exact A3|].
  eapply rtc_l; [exact A4|]. eapply rtc_l; [exact A5|]. by apply rtc_once.
Qed.

