(* ===== verification/FleetExamples.v ===== *)
(** * A control plane machine and a worker, in turns

    The cluster "prod" of ConvergenceExamples with two machines, on the platform of
    [CloudServer], and on one that may drop any call and answers as it likes. *)

From S2P Require Import Prelude GoStrings Errors OvhTypes ApiTypes Effects Client Names Logic.
From S2P Require Import ClientFacts ClusterController MachineController Platform PlatformLaws.
From S2P Require Import ClusterInvariant ClusterConvergence MachineFacts MachineConvergence Faults Fleet.
From S2P Require Import SimServer CloudServer ConvergenceExamples.

Local Open Scope Z_scope.

#[local] Existing Instance ascii_unicode.
#[local] Existing Instance simple_capi.
#[local] Existing Instance service.

(** ** A platform with faults *)

(** What [CloudServer] does on a call; a read changes nothing whatever it asks for. *)
Definition effect (w : platform) (e : event) : platform :=
  match e with
  | EApi rq => if decide (req_method rq = GET) then w else (respond c0 w e).2
  | EPatchMachine o => store_machine o w
  | _ => w
  end.

(** Any call may do nothing or what it should, and answer anything; only the object
    that is reconciled is read truly. *)
Definition flaky : Platform := fun w e r w' =>
  (w' = w \/ w' = effect w e) /\
  match e return answer e -> Prop with
  | EGetOVHMachine _ _ => fun r => forall o, r = Ok o -> w' = w /\ o = p_machine w
  | _ => fun _ => True
  end r.

#[export] Instance flaky_faults ns name : MachineFaults flaky ns name.
Proof.
  split.
  - intros rq w r w' Hg [[->| ->] _]; [done|]. cbn. by rewrite decide_True.
  - intros c opts w r w' [[->| ->] _]; [by left|]. right. eexists.
    destruct (proj1 (not_elem_of_cons _ _ _) (unused_id_fresh (instances (p_cloud w)))) as [Hne Hnew].
    split_and!; [| |reflexivity]; done.
  - intros c pool opts w r w' [[->| ->] _]; [by left|]. right. by eexists _, _.
  - intros o w r w' [[->| ->] _]; [by left | by right].
  - intros w r w' [[->| ->] Hr]; (split; [done|]); by intros o ->; apply (Hr o).
  - intros e w r w' He [[->| ->] _]; [done|]. by destruct e.
Qed.

(** ** The fleet *)

Definition w0 : Machine := mkMachine (mkObjectMeta "default" "w-0" ∅ ∅ [] None) (Some "boot"%string).

Definition w0_machine : OVHMachine :=
  mkOVHMachine (meta "w-0" [] None) (OVHMachine_Spec cp0_machine) zero.

Definition fleet0 : fleet :=
  mkFleet (p_cloud project5) (p_cluster project5) owner0 (p_secrets project5)
    (<["cp-0"%string := (cp0_machine, cp0)]> (<["w-0"%string := (w0_machine, w0)]> ∅)).

Definition plan : list turn :=
  [MachineTurn "cp-0"; MachineTurn "w-0"; ClusterTurn; MachineTurn "w-0"; MachineTurn "cp-0";
   MachineTurn "w-0"; ClusterTurn; MachineTurn "cp-0"].

(** A plan with accidents. *)
Definition rough_plan : list turn :=
  [MachineTurn "cp-0"; FaultyTurn "cp-0"; FaultyTurn "w-0"; ClusterTurn; FaultyTurn "cp-0"] ++ plan.

(** The plan against the server, with the turns that count; the provider settles after
    every turn, or after none. *)
Fixpoint play (time : bool) (rs : list turn) (n : tally) (F : fleet) : tally * fleet :=
  let rest w := if time then on_cloud (settle "GRA11") w else w in
  match rs with
  | [] => (n, F)
  | ClusterTurn :: rs =>
    let w := (run (fun e w => respond c0 w e) prod_pass (view F nobody)).1.2 in
    play time rs n (store_fleet (f_machines F) (rest w))
  | (MachineTurn k | FaultyTurn k) :: rs =>
    match f_machines F !! k with
    | None => (n, F)
    | Some om =>
      let w := (run (fun e w => respond c0 w e) (MachineController.Reconcile "default" k) (view F om)).1.2 in
      play time rs (counted "proj" "GRA11" k (view F om) n) (absorb k (rest w) F)
    end
  end.

Definition provider_id (F : fleet) (k : string) : option string :=
  (fun om : OVHMachine * Machine => MSpec_ProviderID (OVHMachine_Spec om.1)) <$> f_machines F !! k.

(** The worker has its second turn before the control plane machine. *)
Example plan_played :
  let '(n, F) := play true plan (fun _ => 0%nat) fleet0 in
  n <$> ["cp-0"; "w-0"]%string = [3; 3]%nat
  /\ provider_id F <$> ["cp-0"; "w-0"]%string
     = [Some "ovhcloud://GRA11/instance-1"; Some "ovhcloud://GRA11/instance-0"]%string.
Proof. vm_compute. done. Qed.

(** While no instance becomes ACTIVE the third turns do not count. *)
Example plan_waits :
  let '(n, F) := play false plan (fun _ => 0%nat) fleet0 in
  n <$> ["cp-0"; "w-0"]%string = [2; 2]%nat
  /\ provider_id F <$> ["cp-0"; "w-0"]%string = [Some ""; Some ""]%string.
Proof. vm_compute. done. Qed.

Lemma fleet0_ready : fleet_ready "default" "prod" "proj" "GRA11" fleet0.
Proof.
  split; [exact project5_steady|]. intros k om Hk.
  assert (Ho : (om = (cp0_machine, cp0) \/ om = (w0_machine, w0))).
  { revert Hk. unfold fleet0. cbn [f_machines]. rewrite !lookup_insert_Some. set_solver. }
  destruct Ho as [-> | ->]; [exact project5_start_m|].
  destruct project5_start_m as (H1 & H2 & H3 & H4 & H5 & H6 & H7 & H8 & H9 & H10).
  by split_and!; try apply H10.
Qed.

Definition fleet_up (rs : list turn) (n : tally) (F' : fleet) : Prop :=
  steady "proj" "GRA11" (view F' nobody)
  /\ dom (f_machines F') = dom (f_machines fleet0)
  /\ (forall k om, f_machines F' !! k = Some om -> (3 <= n k)%nat ->
        complete_m "proj" "GRA11" (view F' om))
  /\ (faultless rs -> owned "proj" "GRA11" fleet0 -> apart "proj" "GRA11" F').

Lemma fleet0_owned : owned "proj" "GRA11" fleet0.
Proof.
  split; [by constructor|]. intros k om Hk _. left.
  revert Hk. unfold fleet0. cbn [f_machines]. rewrite !lookup_insert_Some. set_solver.
Qed.

Lemma rough_plan_known r k :
  r ∈ rough_plan -> machine_of r = Some k -> k ∈ dom (f_machines fleet0).
Proof.
  intros Hr Hk. apply elem_of_dom.
  assert (k = "cp-0" \/ k = "w-0")%string as [-> | ->].
  { revert Hr. unfold rough_plan, plan. cbn [app]. destruct r; cbn in Hk; simplify_eq; set_solver. }
  all: by eexists.
Qed.

Lemma fleet_converges_witness :
  fleet_ready "default" "prod" "proj" "GRA11" fleet0
  /\ rounds flaky "default" "prod" "default" "proj" "GRA11" rough_plan (fun _ => 0%nat)
       (fleet_up rough_plan) fleet0
  /\ (faultless plan /\ owned "proj" "GRA11" fleet0
      /\ rounds flaky "default" "prod" "default" "proj" "GRA11" plan (fun _ => 0%nat)
           (fleet_up plan) fleet0).
Proof.
  split; [exact fleet0_ready|]. split.
  - exact (fleet_converges flaky "default" "prod" "default" "proj" "GRA11" rough_plan fleet0
             fleet0_ready rough_plan_known).
  - split; [intros k; unfold plan; set_solver|]. split; [exact fleet0_owned|].
    refine (fleet_converges flaky "default" "prod" "default" "proj" "GRA11" plan fleet0 fleet0_ready _).
    intros r k Hr. apply rough_plan_known. apply elem_of_app. by right.
Defined.
