(* ===== verification/TeardownExamples.v ===== *)
(** * The deletion theorems on a concrete project

    The cluster "prod" and its machine "cp-0" of [ConvergenceExamples], complete
    and then deleted, on the platform of [CloudServer]. *)

From S2P Require Import Prelude GoStrings Errors OvhTypes ApiTypes Effects Client Names Logic.
From S2P Require Import ClientFacts ClusterController MachineController Platform PlatformLaws.
From S2P Require Import ClusterInvariant ClusterConvergence MachineConvergence Removal ClusterTeardown MachineTeardown.
From S2P Require Import SimServer CloudServer ConvergenceExamples.

Local Open Scope Z_scope.

#[local] Existing Instance ascii_unicode.
#[local] Existing Instance simple_capi.
#[local] Existing Instance service.

(** ** The cluster *)

(** The cluster is being deleted. *)
Definition project_d : platform :=
  let o := p_cluster project5 in
  mkPlatform (p_cloud project5)
    (mkOVHCluster (meta "prod" [ClusterFinalizer] (Some 1)) (OVHCluster_Spec o) (OVHCluster_Status o))
    (p_machine project5) (p_owner project5) (p_owner_machine project5) (p_secrets project5).

(** The platform after [n] passes, with the deletions carried out in between. *)
Fixpoint rounds {A} (p : prog A) (n : nat) (w : platform) : platform :=
  match n with
  | O => w
  | S n => (run (fun e w => respond c0 w e) p (on_cloud sweep (rounds p n w))).1.2
  end.

(** The first pass waits for the floating IP, the second for the network, which
    the gateway is still on. *)
Example prod_deletion :
  let w n := rounds prod_pass n project_d in
  doomed (p_cloud (w 1%nat)) = [(KLoadBalancer, "lb-0"); (KLoadBalancer, "lb-0"); (KFloatingIP, "fip")]%string
  /\ doomed (p_cloud (w 2%nat)) = [(KGateway, "gw-0")%string]
  /\ doomed (p_cloud (w 3%nat)) = [(KNetwork, "net-0")%string]
  /\ (fun n => Meta_Finalizers (OVHCluster_ObjectMeta (p_cluster (w n)))) <$> [2; 3]%nat
     = [[ClusterFinalizer]; []].
Proof. by vm_compute. Qed.

(** Passes while the provider carries nothing out. *)
Fixpoint waiting {A} (p : prog A) (n : nat) (w : platform) : platform :=
  match n with
  | O => w
  | S n => (run (fun e w => respond c0 w e) p (waiting p n w)).1.2
  end.

(** They wait, however many they are; then three are enough. *)
Example prod_waits :
  let w := waiting prod_pass 5 project_d in
  Meta_Finalizers (OVHCluster_ObjectMeta (p_cluster w)) = [ClusterFinalizer]
  /\ Meta_Finalizers (OVHCluster_ObjectMeta (p_cluster (rounds prod_pass 3 w))) = [].
Proof. by vm_compute. Qed.

(** With the instance of the machine still on the network the passes wait for it too. *)
Example prod_occupied :
  let o := p_cluster project8 in
  let w := rounds prod_pass 5 (store_cluster (mkOVHCluster (meta "prod" [ClusterFinalizer] (Some 1))
    (OVHCluster_Spec o) (OVHCluster_Status o)) project8) in
  Meta_Finalizers (OVHCluster_ObjectMeta (p_cluster w)) = [ClusterFinalizer]
  /\ length (networks (p_cloud w)) = 1%nat /\ length (instances (p_cloud w)) = 1%nat
  /\ Meta_Finalizers (OVHCluster_ObjectMeta (p_cluster (rounds prod_pass 1 (on_cloud vacate w)))) = [].
Proof. by vm_compute. Qed.

(** The only element of a list. *)
Ltac only_one H := apply (proj1 (list_elem_of_singleton _ _)) in H; subst.

Lemma project_d_start : start_d "proj" "GRA11" project_d.
Proof.
  split_and!; [done | by vm_compute | | done | done |].
  - exists secret0. split; [done|]. by repeat constructor.
  - split.
    + intros _ n _ _. split.
      * intros l Hl _. only_one Hl. right. by vm_compute.
      * intros g i Hg _ _. only_one Hg. by vm_compute.
    + intros g g' Hg Hg' _ _. only_one Hg. by only_one Hg'.
Qed.


(** ** The machine *)

Definition project_md : platform :=
  let o := p_machine project8 in
  mkPlatform (p_cloud project8) (p_cluster project8)
    (mkOVHMachine (meta "cp-0" [MachineFinalizer] (Some 1)) (OVHMachine_Spec o) (OVHMachine_Status o))
    (p_owner project8) (p_owner_machine project8) (p_secrets project8).

(** The member of the register port stays. *)
Example cp_deletion :
  let w n := rounds cp_pass n project_md in
  doomed (p_cloud (w 1%nat)) = [(KInstance, "instance-0")%string]
  /\ length (members (p_cloud (w 1%nat))) = 1%nat
  /\ instances (p_cloud (w 2%nat)) = []
  /\ (fun n => Meta_Finalizers (OVHMachine_ObjectMeta (p_machine (w n)))) <$> [1; 2]%nat
     = [[MachineFinalizer]; []].
Proof. by vm_compute. Qed.

(** A machine waits for its instance to go. *)
Example cp_waits_for_it :
  let w := waiting cp_pass 5 project_md in
  Meta_Finalizers (OVHMachine_ObjectMeta (p_machine w)) = [MachineFinalizer]
  /\ ~ settled_i w
  /\ Meta_Finalizers (OVHMachine_ObjectMeta (p_machine (rounds cp_pass 1 w))) = [].
Proof.
  vm_compute. split; [done|]. split; [|done]. intros H. apply H; repeat constructor.
Qed.

Lemma machine_taken_down_witness :
  start_md "default" "prod" "proj" "GRA11" project_md
  /\ instance_id (p_machine project_md) = "instance-0"%string
  /\ paced returns settled_i finishes 9 1 cp_pass
       (taken_down_m (CStatus_PoolID (OVHCluster_Status (p_cluster project_md))) (p_machine project_md))
       project_md.
Proof.
  assert (Hst : start_md "default" "prod" "proj" "GRA11" project_md).
  { split_and!; [done | by vm_compute | | done | done | by eexists].
    exists secret0. split; [done|]. by repeat constructor. }
  split; [exact Hst|]. split; [done|].
  exact (machine_taken_down "default" "prod" "default" "cp-0" "proj" "GRA11" project_md 9 Hst).
Defined.
